(* ===== verification/_CoqProject ===== *)
-Q . S2P
Prelude.v
SeqNum.v
Endian.v
Wire.v
Cirbuf.v
Queue.v
Link.v
StreamTable.v
WinFilter.v
Stream.v
Rtt.v
Mtu.v
Rate.v
Float64.v
Bbr.v
Ctx.v
Send.v
Packetize.v
Sender.v
Loss.v
Write.v
Ack.v
Convey.v
Ledger.v
Tended.v
Acked.v
Cancel.v
Recv.v
SackTree.v
SackTreeOps.v
SackTreeWalk.v
SackTreeRemove.v
Socket.v
Bind.v
Timers.v
Interface.v
Lifecycle.v
StreamTimer.v
Open.v
Writes.v
Process.v
AckPath.v
Session.v
Reassembly.v
Delivery.v
Closing.v
Teardown.v
Scenarios.v
