(* ===== verification/Prelude.v ===== *)
(** * libudx in Rocq

    libudx (src/src/, src/include/udx.h) carries reliable, multiplexed, congestion-controlled streams over UDP.
    This library translates its C code into executable Rocq definitions and proves what makes the code correct.

    ** The parts and how they interact

    A user writes buffers to a stream ([Write.udx_stream_write]).  They are queued, cut into packets
    ([Send.send_new_packet]), numbered, paced and handed to libuv ([Send._send_packet]).  A datagram that arrives on
    a socket ([Process.on_uv_udp_recv]) is parsed, matched to a stream through a hash table, and processed: data goes through
    reassembly to the reader ([Recv]), acknowledgements free packets and are credited to writes ([Ack], [Write]), the round-trip
    time, the delivery rate and the path MTU are sampled ([Rtt], [Rate], [Mtu]), losses are detected ([Loss]), the congestion
    controller ([Bbr]) sets the window and the pacing rate, and more is sent.  The timer of a stream runs
    retransmission timeouts, reordering, tail loss, zero-window and keepalive probes ([Loss], [Lifecycle.on_stream_timer]).

    ** State

    [Stream.stream] is struct udx_stream_s with the source's fields, grouped in sub-records.  [Ctx.ctx] is a running stream with
    its packets, write buffers and write requests (maps from addresses: aliasing is explicit), the rest of the
    process, and [Ctx.io].  A function that may fail an assert, follow a bad pointer or reach undefined behaviour
    gives an option; [None] is that failure.  What libuv and the user's callbacks answer is a parameter ([Ctx.Env], and [ucb],
    an arbitrary function of the system); what they are asked is logged in order.  Machine integers are [Z] with their
    wrap-around written at each operation ([u8] to [u64], [i32], [i64]).

    ** Files

    - machine level: Prelude (integers, options, automation), SeqNum (src/internal.h, serial numbers modulo 2^32), Endian (src/endian.c),
      Float64 (C's double on SpecFloat);
    - data structures at pointer level, each refined to its abstract type: Cirbuf (src/cirbuf.c, a finite map by serial number),
      Queue (src/queue.c, a list), Link (src/link.h, a list), StreamTable (src/udx_stream_table.c, a finite map), SackTree, SackTreeOps,
      SackTreeWalk, SackTreeRemove (src/udx_sack_tree.c, the sorted list of blocks of Recv), WinFilter (src/win_filter*.c, a running minimum or maximum);
    - formats: Wire (udx_write_header, the parsing of process_packet, SACK blocks);
    - estimators and controllers: Rtt, Mtu (src/udx.c), Rate (src/udx_rate.c), Bbr (src/udx_bbr.c);
    - the stream (src/udx.c, include/udx.h): Stream and Ctx (data), Send (packets, pacing, timers), Loss (RACK-TLP, RTO, probes), Write
      (writes, byte accounting, cancelling), Ack (ack_packet, SACKs), Recv (reassembly), Process (process_packet), Lifecycle (init, connect,
      relays, close, destroy), Socket (sockets, timewaits, sends with a TTL), Bind (binding, options, link MTU), Interface (interface events, lookup);
    - invariants over these: Packetize, Sender, Timers, StreamTimer (the books of the sender), Convey (the bytes on the wire), Ledger, Tended,
      Writes, Acked, Cancel (the accounts of the writes), Open, AckPath, Session (one datagram, and the whole life), Reassembly (the receiver),
      Delivery (both ends), Closing (the end of streams and sockets), Teardown (udx_teardown), Scenarios (runs of two streams).

    ** What is proved

    - The sender: [Sender.sender_ok] (every outgoing packet is in exactly one of the inflight and retransmit queues, inflight counts the bytes in
      flight, reference counts cover outgoing buffer and libuv) and [Ledger.ledger] (every byte of a write is acknowledged, in a chunk of one packet, or queued;
      the user is told once, when the write is complete) hold when a stream opens, and are kept by writing, sending, every timer, every
      acknowledgement and every datagram, whatever polite user code does in its callbacks.  [Session.session_safe] puts these together
      by induction over all runs: no event of an open stream fails an assertion.  Closing tells every remaining write.
    - The wire: [Convey.faithful] (the bytes written are the payloads of the numbered packets, of the packet under construction, and what is
      queued; every data datagram handed to libuv carries the payload of its number) is kept by the same operations.
    - The receiver: [Reassembly.recv_in_order] (arrivals in any order and number are delivered in order and once).
    - Both ends: [Delivery.stream_delivered].  Whichever of its datagrams the network delivers, how often and in whatever order, the reader gets
      a prefix of the bytes that were written, and all of them when every packet has arrived.
    - The end: [Closing.stream_destroy_ok] (a stream that is destroyed leaves the lists and the table, and answers every write) and
      [Teardown.udx_teardown_ok].  udx_teardown walks lists while it unlinks their elements; it visits every socket, stream and listener,
      and all end.  An unlinked element's [next] stays what it was, which is part of the state ([Ctx.w_stream_next]).
    - Data structures: refinement, with the failures outside their range stated ([Cirbuf.cirbuf_set_overflow]).
    - Formats: round trips of headers and SACKs, and reads within the datagram.
    - Controllers: the BBR state machine, the bounds of its window, the RTT estimator against the formula on integers, MTU search that ends
      within the limits, the running extremes of the filters.

    ** Assumptions

    [polite]: user code called by libudx keeps the invariants, as libudx's own entry points do (it may write, or destroy the stream).
    Sequence numbers: fewer than 2^31 packets are outstanding; end to end, fewer than 2^31 packets and buffers are made, and the network
    changes no datagram (libudx has no checksum of its own).  [AckPath.controller_copes]: the congestion controller computes (no double
    becomes an unrepresentable integer), which [AckPath.in_startup] discharges for a starting stream.  Closing and Teardown: user code
    calls nothing of the library, and no stream relays another.  Fuel bounds loops and is proved
    sufficient where a theorem says that a function succeeds: a turn of the packetizing loop per buffer, of the sending loop per byte and buffer
    queued, of the retransmission loop per packet, of a tree walk per level; closing a stream recurses over its relays ([Lifecycle.relay_fuel]);
    a walk of udx_teardown has a turn per stream or socket.

    ** Not modelled

    The multicast and membership setters and getsockname (one libuv call each), src/io_posix.c but for the link MTU and src/io_win.c (system calls), src/debug.h (printing), the examples and tests. *)

From Stdlib Require Import ZArith Lia.
From stdpp Require Export base list option gmap numbers.
Export stdpp.list_relations.list.

#[global] Set Default Goal Selector "!".
#[export] Set Warnings "-notation-overridden,-postfix-notation-not-level-1".

(** ** Machine integers

    A C integer is a [Z].  A conversion to a w-bit unsigned type reduces modulo
    2^w; a conversion to a signed type re-centres the residue (what gcc and
    clang document for out-of-range conversions). *)

Declare Scope udx_scope.
Delimit Scope udx_scope with udx.
#[global] Open Scope Z_scope.
#[global] Open Scope udx_scope.

Definition u8 (x : Z) : Z := x mod 256.
Definition u16 (x : Z) : Z := x mod 65536.
Definition u32 (x : Z) : Z := x mod 4294967296.
Definition u64 (x : Z) : Z := x mod 18446744073709551616.

Definition i32 (x : Z) : Z :=
  let y := u32 x in if y <? 2147483648 then y else y - 4294967296.
Definition i64 (x : Z) : Z :=
  let y := u64 x in if y <? 9223372036854775808 then y else y - 18446744073709551616.

Definition UINT32_MAX : Z := 4294967295.

(** C's truth value of an integer. *)
Definition truthy (x : Z) : bool := negb (x =? 0).

(** A flag test: the C expression [x & f] used as a condition. *)
Definition has (x f : Z) : bool := truthy (Z.land x f).
(** The C statements [x |= f] and [x &= ~f] on an int whose value is not negative. *)
Definition set_flag (x f : Z) : Z := Z.lor x f.
Definition clear_flag (x f : Z) : Z := Z.ldiff x f.

(** Ranges. *)
Definition is_u8 (x : Z) : Prop := 0 <= x < 256.
Definition is_u16 (x : Z) : Prop := 0 <= x < 65536.
Definition is_u32 (x : Z) : Prop := 0 <= x < 4294967296.
Definition is_u64 (x : Z) : Prop := 0 <= x < 18446744073709551616.

#[global] Instance is_u32_dec x : Decision (is_u32 x).
Proof. unfold is_u32. apply _. Defined.
#[global] Instance is_u64_dec x : Decision (is_u64 x).
Proof. unfold is_u64. apply _. Defined.

(** [word_lia]: linear arithmetic over the wrap-around operations. *)
Ltac unfold_words :=
  unfold i32, i64, u8, u16, u32, u64, is_u8, is_u16, is_u32, is_u64, UINT32_MAX, truthy in *;
  cbv zeta in *.
Ltac case_ltb :=
  repeat match goal with
  | |- context [if (?a <? ?b) then _ else _] => destruct (Z.ltb_spec a b)
  | H : context [if (?a <? ?b) then _ else _] |- _ => destruct (Z.ltb_spec a b)
  | |- context [if (?a <=? ?b) then _ else _] => destruct (Z.leb_spec a b)
  | H : context [if (?a <=? ?b) then _ else _] |- _ => destruct (Z.leb_spec a b)
  | |- context [if (?a =? ?b) then _ else _] => destruct (Z.eqb_spec a b)
  | H : context [if (?a =? ?b) then _ else _] |- _ => destruct (Z.eqb_spec a b)
  end.
Ltac word_lia := unfold_words; Z.to_euclidean_division_equations; case_ltb; lia.

Lemma u32_range x : is_u32 (u32 x).
Proof. word_lia. Qed.
Lemma u64_range x : is_u64 (u64 x).
Proof. word_lia. Qed.
Lemma u32_id x : is_u32 x → u32 x = x.
Proof. intros. unfold u32. apply Z.mod_small. exact H. Qed.
Lemma u64_id x : is_u64 x → u64 x = x.
Proof. intros. unfold u64. apply Z.mod_small. exact H. Qed.
Lemma u32_idem x : u32 (u32 x) = u32 x.
Proof. apply u32_id, u32_range. Qed.
Lemma u32_add_l x y : u32 (u32 x + y) = u32 (x + y).
Proof. unfold u32. apply Z.add_mod_idemp_l. lia. Qed.
Lemma u32_add_r x y : u32 (x + u32 y) = u32 (x + y).
Proof. unfold u32. apply Z.add_mod_idemp_r. lia. Qed.
Lemma u32_sub_l x y : u32 (u32 x - y) = u32 (x - y).
Proof. unfold u32. apply Zminus_mod_idemp_l. Qed.
Lemma u32_sub_r x y : u32 (x - u32 y) = u32 (x - y).
Proof. unfold u32. apply Zminus_mod_idemp_r. Qed.
Lemma i32_id x : -2147483648 <= x < 2147483648 → i32 x = x.
Proof. intros. word_lia. Qed.
Lemma i32_u32 x : i32 (u32 x) = i32 x.
Proof. unfold i32. by rewrite u32_idem. Qed.

Create HintDb udx.
#[export] Hint Resolve u32_range u64_range : udx.
Create Rewrite HintDb udx_rw.
#[export] Hint Rewrite u32_idem u32_add_l u32_add_r u32_sub_l u32_sub_r i32_u32 : udx_rw.

(** ** Bits *)

Lemma land_pow2_mask x k : 0 <= k → Z.land x (2 ^ k - 1) = x mod 2 ^ k.
Proof. intros. rewrite <- Z.land_ones by done. f_equal. rewrite Z.ones_equiv. lia. Qed.

(** ** Failing computations

    [None] is a failed [assert], a dereference of NULL or of freed memory, or
    another undefined behaviour; stdpp's [x ← e; f] sequences. *)

Notation "'assert!' b ; f" := (if (b : bool) then f else None)
  (at level 10, b at level 100, f at level 200) : udx_scope.

(** A store into a C array: out of bounds is undefined. *)
Definition array_store {A} (l : list A) (i : nat) (x : A) : option (list A) :=
  if (i <? length l)%nat then Some (<[i := x]> l) else None.

Lemma array_store_Some {A} (l : list A) i x :
  (i < length l)%nat → array_store l i x = Some (<[i := x]> l).
Proof. intros. unfold array_store. by rewrite (proj2 (Nat.ltb_lt _ _)). Qed.

Lemma array_store_inv {A} (l l' : list A) i x :
  array_store l i x = Some l' → (i < length l)%nat ∧ l' = <[i := x]> l.
Proof. unfold array_store. destruct (Nat.ltb_spec i (length l)); by intros [= <-]. Qed.

(** ** Sums over finite maps *)

Definition msum `{Countable K} {A} (f : A → Z) (m : gmap K A) : Z := map_fold (λ _ x n, f x + n) 0 m.

Section Sums.
Context `{Countable K} {A : Type}.
Implicit Types (f g : A → Z) (m : gmap K A).

Lemma msum_empty f : msum f (∅ : gmap K A) = 0.
Proof. apply map_fold_empty. Qed.
Lemma msum_insert f m i x : m !! i = None → msum f (<[i := x]> m) = f x + msum f m.
Proof. intros Hi. unfold msum. rewrite map_fold_insert_L; [done|intros; lia|done]. Qed.
Lemma msum_take f m i x : m !! i = Some x → msum f m = f x + msum f (delete i m).
Proof. intros Hi. rewrite <- (insert_delete_id m i x Hi) at 1. apply msum_insert, lookup_delete_eq. Qed.
Lemma msum_store f m i x y : m !! i = Some x → msum f (<[i := y]> m) = msum f m - f x + f y.
Proof.
  intros Hi. rewrite (msum_take f m i x Hi), <- insert_delete_eq, msum_insert by apply lookup_delete_eq. lia.
Qed.
Lemma msum_ext f g m : (∀ i x, m !! i = Some x → f x = g x) → msum f m = msum g m.
Proof.
  induction m as [|i x m Hi IH] using map_ind; intros Hfg; [by rewrite !msum_empty|].
  rewrite !msum_insert, (Hfg i x) by (try done; apply lookup_insert_eq). f_equal. apply IH.
  intros j y Hj. apply (Hfg j). rewrite lookup_insert_ne; [done|congruence].
Qed.
Lemma msum_le f g m : (∀ i x, m !! i = Some x → f x <= g x) → msum f m <= msum g m.
Proof.
  induction m as [|i x m Hi IH] using map_ind; intros Hfg; [rewrite !msum_empty; lia|].
  rewrite !msum_insert by done. pose proof (Hfg i x (lookup_insert_eq _ _ _)). apply Z.add_le_mono; [done|].
  apply IH. intros j y Hj. apply (Hfg j). rewrite lookup_insert_ne; [done|congruence].
Qed.
Lemma msum_zero m : msum (λ _, 0) m = 0.
Proof. induction m as [|i x m Hi IH] using map_ind; [apply msum_empty|]. by rewrite msum_insert, IH. Qed.
Lemma msum_nonneg f m : (∀ i x, m !! i = Some x → 0 <= f x) → 0 <= msum f m.
Proof. intros Hf. rewrite <- (msum_zero m). by apply msum_le. Qed.
(** One element's slack is slack of the sum. *)
Lemma msum_le_at f g m i x :
  m !! i = Some x → (∀ j y, m !! j = Some y → f y <= g y) → msum f m + (g x - f x) <= msum g m.
Proof.
  intros Hi Hfg. rewrite (msum_take f m i x Hi), (msum_take g m i x Hi).
  assert (msum f (delete i m) <= msum g (delete i m)); [|lia]. apply msum_le.
  intros j y [_ Hj]%lookup_delete_Some. by apply (Hfg j).
Qed.
Lemma msum_sub f g m : msum (λ x, f x - g x) m = msum f m - msum g m.
Proof.
  induction m as [|i x m Hi IH] using map_ind; [by rewrite !msum_empty|]. rewrite !msum_insert, IH by done. lia.
Qed.
End Sums.

(** ** Record updates

    [r <| fld := v |>] is C's assignment [r->fld = v].  A record makes its
    fields assignable with an [Eta] instance that rebuilds it from its
    projections. *)

Class Eta (R : Type) := eta_of : R → R.
Class SetField {R E : Type} (fld : R → E) := upd_field : (E → E) → R → R.
#[global] Arguments upd_field {R E} fld {SetField} _ _.

Ltac solve_set_field :=
  match goal with
  | |- @SetField ?R ?E ?fld =>
      let inst := constr:(_ : Eta R) in
      let h := match inst with ?c => c end in
      exact (fun (g : E → E) (r : R) => ltac:(
        let b := eval cbv beta delta [h] in (h r) in
        match b with
        | context C [fld r] => let b' := context C [g (fld r)] in exact b'
        end))
  end.
#[global] Hint Extern 1 (SetField _) => solve_set_field : typeclass_instances.

Notation "r <| f := v |>" := (upd_field f (fun _ => v) r)
  (at level 12, f at next level, v at level 200, left associativity) : udx_scope.
Notation "r <| f ::= g |>" := (upd_field f g r)
  (at level 12, f at next level, g at level 200, left associativity) : udx_scope.
