(* ===== verification/SeqNum.v ===== *)
(** * Serial numbers and integer helpers (src/internal.h, seq_max of src/udx.c) *)

From S2P Require Import Prelude.

Definition max_uint32 (a b : Z) : Z := if a <? b then b else a.
Definition min_uint32 (a b : Z) : Z := if a <? b then a else b.
Definition max_int32 (a b : Z) : Z := if a <? b then b else a.
Definition max_int64 (a b : Z) : Z := if a <? b then b else a.
Definition min_uint64 (a b : Z) : Z := if a <? b then a else b.
Definition max_uint64 (a b : Z) : Z := if a <? b then b else a.

(** [return a - b;] with uint32_t operands and an int32_t result. *)
Definition seq_diff (a b : Z) : Z := i32 (a - b).

Definition seq_compare (a b : Z) : Z :=
  let d := seq_diff a b in
  if d <? 0 then -1 else if 0 <? d then 1 else 0.

Definition rack_sent_after (t1 seq1 t2 seq2 : Z) : bool :=
  (t2 <? t1) || ((t1 =? t2) && (seq_compare seq2 seq1 <? 0)).

Definition seq_max (a b : Z) : Z := if seq_compare a b <? 0 then b else a.

(** The half-window of serial numbers after [a]: the comparison is only
    meaningful inside it. *)
Definition seq_after (a b : Z) : Prop := exists d, 0 < d < 2147483648 /\ b = u32 (a + d).

Lemma seq_diff_add a d : -2147483648 <= d < 2147483648 → seq_diff (u32 (a + d)) a = d.
Proof. intros. unfold seq_diff. word_lia. Qed.

Lemma seq_diff_self a : seq_diff a a = 0.
Proof. unfold seq_diff. word_lia. Qed.

Lemma seq_compare_lt_iff a b : seq_compare a b < 0 ↔ seq_diff a b < 0.
Proof. unfold seq_compare. case_ltb; lia. Qed.
Lemma seq_compare_gt_iff a b : 0 < seq_compare a b ↔ 0 < seq_diff a b.
Proof. unfold seq_compare. case_ltb; lia. Qed.
Lemma seq_compare_le_iff a b : seq_compare a b <= 0 ↔ seq_diff a b <= 0.
Proof. unfold seq_compare. case_ltb; lia. Qed.
Lemma seq_compare_ge_iff a b : 0 <= seq_compare a b ↔ 0 <= seq_diff a b.
Proof. unfold seq_compare. case_ltb; lia. Qed.

Lemma seq_diff_range a b : -2147483648 <= seq_diff a b < 2147483648.
Proof. unfold seq_diff. word_lia. Qed.

Lemma seq_diff_zero a b : is_u32 a → is_u32 b → seq_diff a b = 0 → a = b.
Proof. unfold seq_diff. intros. word_lia. Qed.

Lemma seq_after_compare a b :
  is_u32 a → is_u32 b → (seq_after a b ↔ 0 < seq_diff b a).
Proof.
  intros Ha Hb. split.
  - intros (d & Hd & ->). rewrite seq_diff_add; lia.
  - intros H. exists (seq_diff b a). pose proof (seq_diff_range b a).
    split; [lia|]. unfold seq_diff in *. word_lia.
Qed.

Lemma seq_compare_at base d1 d2 :
  0 <= d1 < 2147483648 → 0 <= d2 < 2147483648 →
  seq_compare (u32 (base + d1)) (u32 (base + d2)) = Z.sgn (d1 - d2).
Proof.
  intros H1 H2. unfold seq_compare.
  assert (seq_diff (u32 (base + d1)) (u32 (base + d2)) = d1 - d2) as ->.
  { unfold seq_diff. word_lia. }
  case_ltb; lia.
Qed.

Lemma rack_sent_after_at base t1 d1 t2 d2 :
  0 <= d1 < 2147483648 → 0 <= d2 < 2147483648 →
  rack_sent_after t1 (u32 (base + d1)) t2 (u32 (base + d2)) = true ↔ t2 < t1 ∨ t1 = t2 ∧ d2 < d1.
Proof. intros H1 H2. unfold rack_sent_after. rewrite seq_compare_at by done. lia. Qed.

(** C37: the wrap-around comparison orders any window of fewer than 2^31 serial
    numbers the way the offsets from the window's start are ordered, whatever
    the start, so across the wrap to zero as well. *)
Theorem seq_compare_window base d1 d2 :
  0 <= d1 < 2147483648 → 0 <= d2 < 2147483648 →
  seq_compare (u32 (base + d1)) (u32 (base + d2)) = Z.sgn (d1 - d2).
Proof. apply seq_compare_at. Qed.

(** [rack_sent_after] is a strict order on packets (send time, sequence
    number) whose sequence numbers lie in one half-window: irreflexive,
    transitive and total. *)
Theorem rack_sent_after_strict_order base t1 d1 t2 d2 t3 d3 :
  0 <= d1 < 2147483648 → 0 <= d2 < 2147483648 → 0 <= d3 < 2147483648 →
  let s d := u32 (base + d) in
  rack_sent_after t1 (s d1) t1 (s d1) = false ∧
  (rack_sent_after t1 (s d1) t2 (s d2) = true →
   rack_sent_after t2 (s d2) t3 (s d3) = true → rack_sent_after t1 (s d1) t3 (s d3) = true) ∧
  (rack_sent_after t1 (s d1) t2 (s d2) = true ∨ rack_sent_after t2 (s d2) t1 (s d1) = true
   ∨ (t1 = t2 ∧ d1 = d2)).
Proof.
  intros H1 H2 H3 s. unfold rack_sent_after, s.
  rewrite !seq_compare_at by done. lia.
Qed.

Lemma seq_max_window base d1 d2 :
  0 <= d1 < 2147483648 → 0 <= d2 < 2147483648 →
  seq_max (u32 (base + d1)) (u32 (base + d2)) = u32 (base + Z.max d1 d2).
Proof.
  intros. unfold seq_max. rewrite seq_compare_at by done.
  destruct (Z.ltb_spec (Z.sgn (d1 - d2)) 0); do 2 f_equal; lia.
Qed.

(** Walking a serial range upwards: [for (p = a; p != b; p++)]. *)
Fixpoint seq_range (n : nat) (a : Z) : list Z :=
  match n with O => [] | S n => a :: seq_range n (u32 (a + 1)) end.
Definition seq_upto (a b : Z) : list Z := seq_range (Z.to_nat (u32 (b - a))) a.

Lemma seq_range_length n a : length (seq_range n a) = n.
Proof. revert a. induction n; intros; simpl; auto. Qed.

Lemma seq_range_elem n a x :
  is_u32 a → x ∈ seq_range n a ↔ ∃ i, 0 <= i < Z.of_nat n ∧ x = u32 (a + i).
Proof.
  revert a. induction n as [|n IH]; intros a Ha; cbn [seq_range].
  - rewrite elem_of_nil. split; [done|]. intros (i & Hi & _). lia.
  - rewrite elem_of_cons, IH by apply u32_range. split.
    + intros [->|(i & Hi & ->)].
      * exists 0. split; [lia|]. rewrite Z.add_0_r, u32_id; done.
      * exists (i + 1). split; [lia|]. rewrite u32_add_l. f_equal. lia.
    + intros (i & Hi & ->). destruct (decide (i = 0)) as [->|].
      * left. rewrite Z.add_0_r, u32_id; done.
      * right. exists (i - 1). split; [lia|]. rewrite u32_add_l. f_equal. lia.
Qed.

Lemma seq_upto_elem a b q : is_u32 a → is_u32 q → u32 (q - a) < u32 (b - a) → q ∈ seq_upto a b.
Proof.
  intros Ha Hq Hlt. apply seq_range_elem; [done|]. pose proof (u32_range (q - a)) as Hr. unfold is_u32 in *.
  exists (u32 (q - a)). split; [lia|]. rewrite u32_add_r. replace (a + (q - a)) with q by lia. by rewrite u32_id.
Qed.

Lemma seq_range_nodup n a : is_u32 a → Z.of_nat n < 2 ^ 32 → NoDup (seq_range n a).
Proof.
  revert a. induction n as [|n IH]; intros a Ha Hn; cbn; [constructor|]. apply NoDup_cons. split.
  - intros (i & Hi & E)%seq_range_elem; [|apply u32_range]. revert E. unfold is_u32 in *. clear IH. word_lia.
  - apply IH; [apply u32_range|lia].
Qed.
Lemma seq_upto_nodup a b : is_u32 a → NoDup (seq_upto a b).
Proof. intros Ha. apply seq_range_nodup; [done|]. pose proof (u32_range (b - a)). unfold is_u32 in *. lia. Qed.

Example seq_compare_window_witness :
  seq_compare (u32 (4294967290 + 3)) (u32 (4294967290 + 10)) = -1.
Proof. apply (seq_compare_window 4294967290 3 10); lia. Defined.

Example rack_sent_after_strict_order_witness :
  rack_sent_after 5 (u32 (4294967295 + 0)) 5 (u32 (4294967295 + 0)) = false.
Proof. apply (rack_sent_after_strict_order 4294967295 5 0 5 1 5 2); lia. Defined.
