(* ===== verification/Endian.v ===== *)
(** * Byte order (src/endian.c, src/endian.h)

    The program reads and writes 32-bit header fields through [uint32_t *]
    pointers, so the bytes depend on the machine.  The machine's byte order is
    a parameter [host]; [store_u32 host] and [load_u32 host] are its stores and
    loads. *)

From Stdlib Require Import Btauto.
From S2P Require Import Prelude.

Inductive udx__endianness_t := UDX_LE | UDX_BE.

(** The machine: how a word of memory is read and written. *)
Definition le_bytes (n : Z) : list Z :=
  [Z.land n 255; Z.land (Z.shiftr n 8) 255; Z.land (Z.shiftr n 16) 255; Z.land (Z.shiftr n 24) 255].

Definition store_u32 (host : udx__endianness_t) (n : Z) : list Z :=
  match host with UDX_LE => le_bytes n | UDX_BE => rev (le_bytes n) end.

Definition le_value (bs : list Z) : Z :=
  foldr (fun b acc => Z.lor b (Z.shiftl acc 8)) 0 bs.

Definition load (host : udx__endianness_t) (bs : list Z) : Z :=
  match host with UDX_LE => le_value bs | UDX_BE => le_value (rev bs) end.

Definition load_u32 (host : udx__endianness_t) (mem : list Z) (off : nat) : Z :=
  load host (take 4 (drop off mem)).

(** [static const union { uint8_t u8[2]; uint16_t u16; } byte_order = {{1, 0}};] *)
Definition byte_order_u8 : list Z := [1; 0].

Definition udx__endianness (host : udx__endianness_t) : udx__endianness_t :=
  if load host byte_order_u8 =? 1 then UDX_LE else UDX_BE.

Definition udx__is_le (host : udx__endianness_t) : bool :=
  match udx__endianness host with UDX_LE => true | UDX_BE => false end.

Definition udx__is_be (host : udx__endianness_t) : bool :=
  match udx__endianness host with UDX_BE => true | UDX_LE => false end.

Definition udx__swap_uint32 (x : Z) : Z :=
  Z.lor (Z.lor (Z.lor (u32 (Z.shiftl (Z.land x 0x000000ff) 24))
                      (u32 (Z.shiftl (Z.land x 0x0000ff00) 8)))
               (Z.shiftr (Z.land x 0x00ff0000) 8))
        (Z.shiftr (Z.land x 0xff000000) 24).

Definition udx__swap_uint32_if_be (host : udx__endianness_t) (n : Z) : Z :=
  if udx__is_le host then n else udx__swap_uint32 n.

(** ** Bytes of a word *)

Definition is_byte (b : Z) : Prop := 0 <= b < 256.

(** The base-256 digits of a 32-bit word. *)
Lemma le_bytes_digits n :
  le_bytes n = [n mod 256; (n / 256) mod 256; (n / 65536) mod 256; (n / 16777216) mod 256].
Proof.
  unfold le_bytes. rewrite !Z.shiftr_div_pow2 by lia.
  change 255 with (2 ^ 8 - 1). rewrite !land_pow2_mask by lia. reflexivity.
Qed.

Lemma lor_shift8 b acc : 0 <= b < 256 → Z.lor b (Z.shiftl acc 8) = b + 256 * acc.
Proof.
  intros Hb.
  assert (Hl : Z.land b (Z.shiftl acc 8) = 0).
  { apply Z.bits_inj'. intros i Hi. rewrite Z.land_spec, Z.bits_0.
    destruct (Z.ltb_spec i 8).
    - rewrite Z.shiftl_mul_pow2, Z.mul_pow2_bits_low by lia. apply andb_false_r.
    - rewrite <- (Z.mod_small b (2 ^ 8)), <- Z.land_ones by lia.
      rewrite Z.land_spec, (Z.ones_spec_high 8 i) by lia. by rewrite andb_false_r. }
  rewrite <- (Z.lxor_lor _ _ Hl), <- (Z.add_nocarry_lxor _ _ Hl), Z.shiftl_mul_pow2; lia.
Qed.

Lemma le_value4 a b c d :
  is_byte a → is_byte b → is_byte c → is_byte d →
  le_value [a; b; c; d] = a + 256 * b + 65536 * c + 16777216 * d.
Proof.
  intros. unfold is_byte in *. cbn [le_value foldr].
  rewrite Z.shiftl_0_l, Z.lor_0_r, !lor_shift8 by lia. lia.
Qed.

Lemma le_bytes_are_bytes n : Forall is_byte (le_bytes n).
Proof.
  rewrite le_bytes_digits. unfold is_byte.
  repeat constructor; apply Z.mod_pos_bound; lia.
Qed.

Lemma le_bytes_value n : le_value (le_bytes n) = u32 n.
Proof.
  rewrite le_bytes_digits, le_value4; unfold is_byte, u32; Z.to_euclidean_division_equations; lia.
Qed.

Lemma byte_sum_land a b c d :
  is_byte a → is_byte b → is_byte c → is_byte d →
  let x := a + 256 * b + 65536 * c + 16777216 * d in
  Z.land x 0x000000ff = a ∧ Z.land x 0x0000ff00 = 256 * b ∧
  Z.land x 0x00ff0000 = 65536 * c ∧ Z.land x 0xff000000 = 16777216 * d.
Proof.
  intros Ha Hb Hc Hd x. unfold is_byte in Ha, Hb, Hc, Hd.
  assert (Hm : ∀ k, 0 <= k → Z.land x (Z.shiftl 255 k) = Z.shiftl ((x / 2 ^ k) mod 256) k).
  { intros k Hk. change 256 with (2 ^ 8). rewrite <- Z.land_ones, <- Z.shiftr_div_pow2 by lia.
    change (Z.ones 8) with 255. apply Z.bits_inj'. intros i Hi.
    rewrite Z.land_spec, !Z.shiftl_spec, Z.land_spec by lia.
    destruct (Z.ltb_spec i k); [rewrite !(Z.testbit_neg_r _ (i - k)) by lia; apply andb_false_r|].
    rewrite Z.shiftr_spec by lia. do 2 f_equal. lia. }
  repeat split.
  - change 0x000000ff with (Z.shiftl 255 0). rewrite Hm, Z.shiftl_0_r by lia.
    change (2 ^ 0) with 1. subst x. Z.to_euclidean_division_equations; lia.
  - change 0x0000ff00 with (Z.shiftl 255 8). rewrite Hm, Z.shiftl_mul_pow2 by lia.
    change (2 ^ 8) with 256. subst x. Z.to_euclidean_division_equations; lia.
  - change 0x00ff0000 with (Z.shiftl 255 16). rewrite Hm, Z.shiftl_mul_pow2 by lia.
    change (2 ^ 16) with 65536. subst x. Z.to_euclidean_division_equations; lia.
  - change 0xff000000 with (Z.shiftl 255 24). rewrite Hm, Z.shiftl_mul_pow2 by lia.
    change (2 ^ 24) with 16777216. subst x. Z.to_euclidean_division_equations; lia.
Qed.

(** Swapping reverses the four bytes. *)
Lemma swap_bytes a b c d :
  is_byte a → is_byte b → is_byte c → is_byte d →
  udx__swap_uint32 (le_value [a; b; c; d]) = le_value [d; c; b; a].
Proof.
  intros Ha Hb Hc Hd. rewrite (le_value4 a b c d) by done. unfold udx__swap_uint32.
  destruct (byte_sum_land a b c d) as (-> & -> & -> & ->); try done. unfold is_byte in *.
  cbn [le_value foldr]. rewrite Z.shiftl_0_l, Z.lor_0_r.
  rewrite !Z.shiftl_lor, !Z.shiftl_shiftl by lia. change (8 + 8) with 16. change (8 + 16) with 24.
  rewrite !Z.shiftl_mul_pow2, !Z.shiftr_div_pow2 by lia.
  rewrite !(u32_id _) by (unfold is_u32; lia).
  replace (65536 * c / 2 ^ 8) with (c * 2 ^ 8) by (Z.to_euclidean_division_equations; lia).
  replace (16777216 * d / 2 ^ 24) with d by (Z.to_euclidean_division_equations; lia).
  replace (256 * b * 2 ^ 8) with (b * 2 ^ 16) by lia.
  apply Z.bits_inj'. intros i _. rewrite !Z.lor_spec. btauto.
Qed.

(** ** What the pair (swap, store) achieves *)

Lemma udx__is_le_spec host : udx__is_le host = match host with UDX_LE => true | UDX_BE => false end.
Proof. by destruct host. Qed.
Lemma udx__is_be_spec host : udx__is_be host = negb (udx__is_le host).
Proof. by destruct host. Qed.

Lemma le_bytes_of_value a b c d :
  is_byte a → is_byte b → is_byte c → is_byte d →
  le_bytes (le_value [a; b; c; d]) = [a; b; c; d].
Proof.
  intros. rewrite le_value4, le_bytes_digits by done. unfold is_byte in *.
  repeat f_equal; Z.to_euclidean_division_equations; lia.
Qed.

Lemma four_bytes n : ∃ a b c d,
  le_bytes n = [a; b; c; d] ∧ is_byte a ∧ is_byte b ∧ is_byte c ∧ is_byte d.
Proof.
  pose proof (le_bytes_are_bytes n) as H. unfold le_bytes in *.
  do 4 eexists. split; [done|]. 
  repeat match goal with H : Forall _ (_ :: _) |- _ => inversion_clear H end. auto.
Qed.

Lemma word_of_bytes n : is_u32 n → ∃ a b c d,
  n = le_value [a; b; c; d] ∧ is_byte a ∧ is_byte b ∧ is_byte c ∧ is_byte d.
Proof.
  intros Hn. destruct (four_bytes n) as (a & b & c & d & He & Ha & Hb & Hc & Hd).
  exists a, b, c, d. rewrite <- He, le_bytes_value, u32_id; auto.
Qed.

(** A swapped store puts the word on the wire in little-endian order on either
    machine. *)
Lemma store_swapped host n :
  is_u32 n → store_u32 host (udx__swap_uint32_if_be host n) = le_bytes n.
Proof.
  intros Hn. destruct host; [done|]. cbn [store_u32 udx__swap_uint32_if_be udx__is_le].
  destruct (word_of_bytes n Hn) as (a & b & c & d & -> & Ha & Hb & Hc & Hd).
  unfold udx__swap_uint32_if_be. cbn [udx__is_le udx__endianness].
  change (udx__is_le UDX_BE) with false. cbv iota.
  rewrite swap_bytes, !le_bytes_of_value by done. reflexivity.
Qed.

(** A swapped load of four wire bytes reads their little-endian value on either
    machine. *)
Lemma load_swapped host a b c d :
  is_byte a → is_byte b → is_byte c → is_byte d →
  udx__swap_uint32_if_be host (load host [a; b; c; d]) = le_value [a; b; c; d].
Proof.
  intros. destruct host; [done|]. unfold udx__swap_uint32_if_be.
  change (udx__is_le UDX_BE) with false. cbn [load rev app]. by apply swap_bytes.
Qed.

Lemma load_store_swapped sender receiver n :
  is_u32 n →
  udx__swap_uint32_if_be receiver
    (load receiver (store_u32 sender (udx__swap_uint32_if_be sender n))) = n.
Proof.
  intros Hn. rewrite store_swapped by done.
  destruct (four_bytes n) as (a & b & c & d & He & Ha & Hb & Hc & Hd).
  rewrite He, load_swapped, <- He, le_bytes_value, u32_id; done.
Qed.

(** Whatever the byte orders of the two machines, a word stored by one and
    read back by the other is the same word, and its bytes in between are the
    little-endian ones. *)
Theorem endian_roundtrip sender receiver n :
  is_u32 n →
  store_u32 sender (udx__swap_uint32_if_be sender n) = le_bytes n ∧
  udx__swap_uint32_if_be receiver
    (load receiver (store_u32 sender (udx__swap_uint32_if_be sender n))) = n.
Proof. intros. split; [by apply store_swapped|by apply load_store_swapped]. Qed.

Example endian_roundtrip_witness :
  store_u32 UDX_BE (udx__swap_uint32_if_be UDX_BE 0x01020304) = [4; 3; 2; 1] ∧
  udx__swap_uint32_if_be UDX_LE (load UDX_LE [4; 3; 2; 1]) = 0x01020304.
Proof.
  assert (H : is_u32 0x01020304) by (vm_compute; split; congruence).
  destruct (endian_roundtrip UDX_BE UDX_LE 0x01020304 H) as [H1 H2].
  split; [exact H1|]. rewrite H1 in H2. exact H2.
Defined.
