(* ===== verification/Wire.v ===== *)
(** * The packet format (udx_write_header, the header part of process_packet and
    the SACK blocks of send_ack, src/udx.c; constants of include/udx.h)

    A datagram is a list of byte values.  [host] is the byte order of the machine
    that runs the code. *)

From S2P Require Import Prelude Endian.

Definition UDX_HEADER_SIZE : Z := 20.
Definition UDX_MAGIC_BYTE : Z := 255.
Definition UDX_VERSION : Z := 1.
Definition UDX_HEADER_DATA : Z := 1.
Definition UDX_HEADER_END : Z := 2.
Definition UDX_HEADER_SACK : Z := 4.
Definition UDX_HEADER_MESSAGE : Z := 8.
Definition UDX_HEADER_DESTROY : Z := 16.
Definition UDX_HEADER_HEARTBEAT : Z := 32.
Definition UDX_HEADER_DATA_OR_END : Z := Z.lor UDX_HEADER_DATA UDX_HEADER_END.
Definition UDX_MAX_SACKS : nat := 50.

(** [*(i++) = udx__swap_uint32_if_be(w)] for each word in turn. *)
Definition put_word (host : udx__endianness_t) (w : Z) : list Z :=
  store_u32 host (udx__swap_uint32_if_be host w).
Definition put_words (host : udx__endianness_t) (ws : list Z) : list Z :=
  ws ≫= put_word host.

(** [udx__swap_uint32_if_be(*(uint32_t *) (buf + off))]. *)
Definition get_word (host : udx__endianness_t) (buf : list Z) (off : nat) : Z :=
  udx__swap_uint32_if_be host (load_u32 host buf off).

(** The 20 bytes [udx_write_header] leaves in [header]; the stream's receive
    window, seq and ack are arguments. *)
Definition header_bytes (host : udx__endianness_t) (type remote_id rwnd seq ack : Z) : list Z :=
  [UDX_MAGIC_BYTE; UDX_VERSION; u8 type; 0] ++ put_words host [remote_id; rwnd; seq; ack].

Record udx_header := mk_header {
  h_type : Z; h_data_offset : Z; h_local_id : Z; h_rwnd : Z; h_seq : Z; h_ack : Z }.

(** The checks and reads at the top of process_packet; [None] is [return 0]. *)
Definition parse_header (host : udx__endianness_t) (buf : list Z) : option udx_header :=
  if Z.of_nat (length buf) <? UDX_HEADER_SIZE then None
  else match buf with
  | b0 :: b1 :: b2 :: b3 :: _ =>
      if negb (b0 =? UDX_MAGIC_BYTE) || negb (b1 =? UDX_VERSION) then None
      else Some (mk_header b2 b3 (get_word host buf 4) (get_word host buf 8)
                   (get_word host buf 12) (get_word host buf 16))
  | _ => None
  end.

(** [nsack_blocks] of process_packet. *)
Definition nsack_blocks (h : udx_header) (buf_len : Z) : Z :=
  if has (h_type h) UDX_HEADER_SACK then
    let payload_len := buf_len - UDX_HEADER_SIZE in
    let header_len :=
      if (0 <? h_data_offset h) && (h_data_offset h <? payload_len)
      then h_data_offset h else payload_len in
    header_len / 8
  else 0.

(** The words the SACK loop of process_packet reads, [n] pairs from [off]. *)
Fixpoint read_sacks (host : udx__endianness_t) (buf : list Z) (off n : nat) : list (Z * Z) :=
  match n with
  | O => []
  | S n' => (get_word host buf off, get_word host buf (off + 4))
            :: read_sacks host buf (off + 8) n'
  end.

(** The packet send_ack builds from the in-order walk of the SACK tree: the
    first UDX_MAX_SACKS blocks. *)
Definition sack_words (blocks : list (Z * Z)) : list Z :=
  take UDX_MAX_SACKS blocks ≫= λ b, [b.1; b.2].

Definition ack_packet_bytes (host : udx__endianness_t) (remote_id rwnd seq ack : Z)
    (blocks : list (Z * Z)) : list Z :=
  let type := if (0 <? Z.of_nat (length (take UDX_MAX_SACKS blocks))) then UDX_HEADER_SACK else 0 in
  header_bytes host type remote_id rwnd seq ack ++ put_words host (sack_words blocks).

(** ** Reading back what was written *)

Lemma put_word_length host w : length (put_word host w) = 4%nat.
Proof. by destruct host. Qed.

Lemma put_words_length host ws : length (put_words host ws) = (4 * length ws)%nat.
Proof.
  induction ws as [|w ws IH]; [done|]. cbn [put_words mbind list_bind].
  fold (put_words host ws). rewrite length_app, put_word_length, IH. simpl. lia.
Qed.

Lemma put_words_app host ws1 ws2 :
  put_words host (ws1 ++ ws2) = put_words host ws1 ++ put_words host ws2.
Proof. apply bind_app. Qed.

Lemma header_bytes_length host type rid rwnd seq ack :
  length (header_bytes host type rid rwnd seq ack) = 20%nat.
Proof. unfold header_bytes. rewrite length_app, put_words_length. reflexivity. Qed.

(** Only the low 32 bits of a word are written. *)
Lemma swap_u32 w : udx__swap_uint32 (u32 w) = udx__swap_uint32 w.
Proof.
  unfold udx__swap_uint32. change (u32 w) with (w mod 2 ^ 32). rewrite <- land_pow2_mask by lia.
  by rewrite <- !Z.land_assoc.
Qed.
Lemma le_bytes_u32 w : le_bytes (u32 w) = le_bytes w.
Proof.
  unfold le_bytes. change (u32 w) with (w mod 2 ^ 32). rewrite <- land_pow2_mask by lia.
  by rewrite !Z.shiftr_land, <- !Z.land_assoc.
Qed.
Lemma put_word_u32 host w : put_word host (u32 w) = put_word host w.
Proof.
  unfold put_word, udx__swap_uint32_if_be, store_u32. destruct (udx__is_le host), host; rewrite ?swap_u32, ?le_bytes_u32; done.
Qed.
Lemma put_words_u32 host ws : put_words host (map u32 ws) = put_words host ws.
Proof. induction ws as [|w ws IH]; [done|]. cbn. rewrite put_word_u32. f_equal. exact IH. Qed.

Lemma get_put_word sender host pre w rest :
  is_u32 w → get_word host (pre ++ put_word sender w ++ rest) (length pre) = w.
Proof.
  intros Hw. unfold get_word, load_u32. rewrite drop_app_length.
  rewrite <- (put_word_length sender w) at 1. rewrite take_app_length.
  by apply load_store_swapped.
Qed.

Lemma get_put_words sender host pre ws rest i w :
  Forall is_u32 ws → ws !! i = Some w →
  get_word host (pre ++ put_words sender ws ++ rest) (length pre + 4 * i) = w.
Proof.
  intros Hws Hi. pose proof (Forall_lookup_1 _ _ _ _ Hws Hi) as Hw.
  apply list_elem_of_split_length in Hi as (l1 & l2 & -> & ->).
  change (l1 ++ w :: l2) with (l1 ++ [w] ++ l2).
  rewrite !put_words_app. cbn [put_words mbind list_bind]. rewrite app_nil_r.
  rewrite <- !app_assoc, (app_assoc pre).
  replace (length pre + 4 * length l1)%nat with (length (pre ++ put_words sender l1))
    by (rewrite length_app, put_words_length; done).
  by apply get_put_word.
Qed.

Lemma parse_header_bytes sender host type rid rwnd seq ack payload :
  is_u8 type → Forall is_u32 [rid; rwnd; seq; ack] →
  parse_header host (header_bytes sender type rid rwnd seq ack ++ payload) =
    Some (mk_header type 0 rid rwnd seq ack).
Proof.
  intros Ht Hw. unfold parse_header.
  rewrite (proj2 (Z.ltb_ge _ _)) by (rewrite length_app, header_bytes_length; unfold UDX_HEADER_SIZE; lia).
  pose proof (λ i w, get_put_words sender host [UDX_MAGIC_BYTE; UDX_VERSION; u8 type; 0]
    [rid; rwnd; seq; ack] payload i w Hw) as Hg.
  rewrite app_assoc in Hg. fold (header_bytes sender type rid rwnd seq ack) in Hg.
  set (buf := header_bytes sender type rid rwnd seq ack ++ payload) in *.
  assert (get_word host buf 4 = rid) as -> by exact (Hg 0%nat rid eq_refl).
  assert (get_word host buf 8 = rwnd) as -> by exact (Hg 1%nat rwnd eq_refl).
  assert (get_word host buf 12 = seq) as -> by exact (Hg 2%nat seq eq_refl).
  assert (get_word host buf 16 = ack) as -> by exact (Hg 3%nat ack eq_refl).
  subst buf.
  unfold header_bytes. rewrite <- app_assoc. cbn [app].
  change (negb (UDX_MAGIC_BYTE =? UDX_MAGIC_BYTE) || negb (UDX_VERSION =? UDX_VERSION)) with false.
  cbv iota. unfold u8. by rewrite Z.mod_small by exact Ht.
Qed.

(** C18: a header written by any machine parses on any machine to the fields that
    were written, with no data offset. *)
Theorem header_roundtrip sender host type rid rwnd seq ack payload :
  is_u8 type → Forall is_u32 [rid; rwnd; seq; ack] →
  parse_header host (header_bytes sender type rid rwnd seq ack ++ payload) =
    Some (mk_header type 0 rid rwnd seq ack).
Proof. apply parse_header_bytes. Qed.

Example header_roundtrip_witness :
  is_u8 3 ∧
  parse_header UDX_BE (header_bytes UDX_LE 3 7 4194304 4294967295 0 ++ [1; 2]) =
    Some (mk_header 3 0 7 4194304 4294967295 0).
Proof.
  assert (H3 : is_u8 3) by (vm_compute; split; congruence).
  split; [exact H3|]. apply (header_roundtrip UDX_LE UDX_BE); [exact H3|].
  repeat constructor; vm_compute; congruence.
Defined.

(** ** SACK blocks *)

Definition blocks_ok (blocks : list (Z * Z)) : Prop :=
  Forall (λ b, is_u32 b.1 ∧ is_u32 b.2) blocks.

Lemma block_words_length (blocks : list (Z * Z)) :
  length (blocks ≫= λ b, [b.1; b.2]) = (2 * length blocks)%nat.
Proof. induction blocks as [|b bs IH]; [done|]. rewrite bind_cons, length_app, IH. simpl. lia. Qed.

Lemma block_words_u32 blocks :
  blocks_ok blocks → Forall is_u32 (blocks ≫= λ b, [b.1; b.2]).
Proof.
  induction 1 as [|b bs [H1 H2] _ IH]; [constructor|].
  rewrite bind_cons. constructor; [done|]. by constructor.
Qed.

Lemma read_put_sacks sender host pre blocks rest :
  blocks_ok blocks →
  read_sacks host (pre ++ put_words sender (blocks ≫= λ b, [b.1; b.2]) ++ rest)
    (length pre) (length blocks) = blocks.
Proof.
  intros Hb. revert pre. induction Hb as [|[s e] bs [Hs He] Hbs IH]; intros pre; [done|].
  rewrite bind_cons. cbn [fst snd app length read_sacks]. simpl in Hs, He.
  change (put_words sender (s :: e :: ?l)) with
    (put_word sender s ++ put_word sender e ++ put_words sender l).
  rewrite <- !app_assoc. f_equal.
  - f_equal; [by apply get_put_word|].
    rewrite app_assoc. replace (length pre + 4)%nat with (length (pre ++ put_word sender s))
      by (rewrite length_app, put_word_length; done).
    by apply get_put_word.
  - rewrite !app_assoc, <- app_assoc, <- (app_assoc pre).
    replace (length pre + 8)%nat with (length (pre ++ put_word sender s ++ put_word sender e))
      by (rewrite !length_app, !put_word_length; lia).
    apply IH.
Qed.

(** C17: the ack packet of [send_ack] delivers to the peer, whatever the two
    machines, the stream's window, seq and ack and exactly the first 50 SACK
    blocks in tree order: the receiver computes their number from the datagram's
    length and reads them back unchanged. *)
Theorem sack_roundtrip sender host rid rwnd seq ack blocks :
  Forall is_u32 [rid; rwnd; seq; ack] → blocks_ok blocks →
  let buf := ack_packet_bytes sender rid rwnd seq ack blocks in
  ∃ h, parse_header host buf = Some h ∧
    h_local_id h = rid ∧ h_rwnd h = rwnd ∧ h_seq h = seq ∧ h_ack h = ack ∧
    nsack_blocks h (Z.of_nat (length buf)) = Z.of_nat (Nat.min 50 (length blocks)) ∧
    read_sacks host buf 20 (Nat.min 50 (length blocks)) = take 50 blocks.
Proof.
  intros Hw Hb buf. unfold buf, ack_packet_bytes. clear buf.
  set (bs := take UDX_MAX_SACKS blocks).
  assert (Hbs : blocks_ok bs) by (by apply Forall_take).
  assert (Hlen : length bs = Nat.min 50 (length blocks)) by apply length_take.
  set (ty := if 0 <? Z.of_nat (length bs) then UDX_HEADER_SACK else 0).
  assert (Hty : is_u8 ty) by (unfold ty, is_u8, UDX_HEADER_SACK; case_ltb; lia).
  eexists. split; [by apply parse_header_bytes|]. cbn [h_local_id h_rwnd h_seq h_ack].
  do 4 (split; [done|]). rewrite <- Hlen. split.
  - unfold nsack_blocks. cbn [h_type h_data_offset].
    rewrite length_app, header_bytes_length, put_words_length.
    unfold sack_words. rewrite block_words_length. fold bs. unfold ty.
    destruct (Z.ltb_spec 0 (Z.of_nat (length bs))).
    + change (has UDX_HEADER_SACK UDX_HEADER_SACK) with true. cbn [andb Z.ltb Z.compare].
      unfold UDX_HEADER_SIZE. Z.to_euclidean_division_equations; lia.
    + change (has 0 UDX_HEADER_SACK) with false. cbv iota. lia.
  - change (take 50 blocks) with bs. unfold sack_words. fold bs.
    pose proof (read_put_sacks sender host (header_bytes sender ty rid rwnd seq ack) bs [] Hbs) as Hr.
    by rewrite app_nil_r, header_bytes_length in Hr.
Qed.

Example sack_roundtrip_witness :
  ∃ h, parse_header UDX_BE (ack_packet_bytes UDX_LE 1 2 3 4 [(10, 12); (4294967295, 3)]) = Some h ∧
    nsack_blocks h 36 = 2.
Proof.
  destruct (sack_roundtrip UDX_LE UDX_BE 1 2 3 4 [(10, 12); (4294967295, 3)])
    as (h & H1 & _ & _ & _ & _ & H2 & _).
  - repeat constructor; vm_compute; congruence.
  - repeat constructor; vm_compute; congruence.
  - exists h. split; [exact H1|exact H2].
Defined.

(** C19: whatever datagram arrives, the SACK blocks that process_packet reads lie
    inside it (no read past the received bytes), and inside the extension when a
    data offset announces one shorter than the payload. *)
Theorem sack_reads_in_bounds host buf h :
  Forall is_byte buf → parse_header host buf = Some h →
  0 <= nsack_blocks h (Z.of_nat (length buf)) ∧
  UDX_HEADER_SIZE + 8 * nsack_blocks h (Z.of_nat (length buf)) <= Z.of_nat (length buf) ∧
  (0 < h_data_offset h < Z.of_nat (length buf) - UDX_HEADER_SIZE →
   8 * nsack_blocks h (Z.of_nat (length buf)) <= h_data_offset h).
Proof.
  unfold parse_header, nsack_blocks, UDX_HEADER_SIZE. intros Hbytes Hp.
  destruct (Z.ltb_spec (Z.of_nat (length buf)) 20); [done|].
  destruct buf as [|b0 [|b1 [|b2 [|b3 buf]]]]; try done.
  destruct (_ || _); [done|]. injection Hp as <-. cbn [h_type h_data_offset].
  assert (is_byte b3) by (repeat match goal with H : Forall _ (_ :: _) |- _ => inversion_clear H end; done).
  unfold is_byte in *. set (n := Z.of_nat (length _)) in *.
  destruct (has b2 UDX_HEADER_SACK); [|lia].
  destruct (Z.ltb_spec 0 b3), (Z.ltb_spec b3 (n - 20)); cbn [andb];
    Z.to_euclidean_division_equations; lia.
Qed.

Example sack_reads_in_bounds_witness :
  let buf := ack_packet_bytes UDX_LE 1 2 3 4 [(10, 12); (15, 3)] in
  20 + 8 * nsack_blocks (mk_header 4 0 1 2 3 4) (Z.of_nat (length buf)) <= Z.of_nat (length buf).
Proof.
  intros buf. apply (sack_reads_in_bounds UDX_LE buf (mk_header 4 0 1 2 3 4)).
  - unfold is_byte. vm_compute. repeat constructor; congruence.
  - reflexivity.
Defined.
