(* ===== verification/Cirbuf.v ===== *)
(** * The growing ring buffer keyed by serial number (src/cirbuf.c)

    [A] is the type of the pointers stored (udx_cirbuf_val_t *: NULL is [None])
    and [seq_of] reads the uint32_t a value starts with. *)

From S2P Require Import Prelude.

Section Cirbuf.
Context {A : Type} (seq_of : A → Z).

Record cirbuf := mk_cirbuf { cb_size : Z; cb_mask : Z; cb_values : list (option A) }.
#[global] Instance eta_cirbuf : Eta cirbuf :=
  λ c, mk_cirbuf c.(cb_size) c.(cb_mask) c.(cb_values).

Definition cb_slot (seq mask : Z) : nat := Z.to_nat (Z.land seq mask).

Definition udx__cirbuf_init (initial_size : Z) : cirbuf :=
  mk_cirbuf initial_size (u32 (initial_size - 1)) (replicate (Z.to_nat initial_size) None).

(** [values = NULL] is the empty array. *)
Definition udx__cirbuf_destroy (c : cirbuf) : cirbuf := mk_cirbuf 0 0 [].

(** The doubling loop; [None] when the fuel is spent. *)
Fixpoint cb_grow (fuel : nat) (vseq seq size mask : Z) : option (Z * Z) :=
  match fuel with
  | O => None
  | S fuel' =>
      if Z.land vseq mask =? Z.land seq mask then
        let size := u32 (size * 2) in cb_grow fuel' vseq seq size (u32 (size - 1))
      else Some (size, mask)
  end.

(** The copy loop over the old array. *)
Fixpoint cb_rehash (old : list (option A)) (mask : Z) (values : list (option A))
  : option (list (option A)) :=
  match old with
  | [] => Some values
  | None :: old' => cb_rehash old' mask values
  | Some v :: old' =>
      values' ← array_store values (cb_slot (seq_of v) mask) (Some v);
      cb_rehash old' mask values'
  end.

Definition cb_fuel : nat := 34.

Definition udx__cirbuf_set (c : cirbuf) (val : A) : option cirbuf :=
  let i := cb_slot (seq_of val) (cb_mask c) in
  cur ← cb_values c !! i;
  let store := Some (c <| cb_values := <[i := Some val]> (cb_values c) |>) in
  match cur with
  | None => store
  | Some v =>
      if seq_of v =? seq_of val then store
      else
        '(size, mask) ← cb_grow cb_fuel (seq_of v) (seq_of val) (cb_size c) (cb_mask c);
        values ← array_store (replicate (Z.to_nat size) None) (cb_slot (seq_of val) mask) (Some val);
        values ← cb_rehash (cb_values c) mask values;
        Some (mk_cirbuf size mask values)
  end.

Definition udx__cirbuf_get (c : cirbuf) (seq : Z) : option (option A) :=
  v ← cb_values c !! cb_slot seq (cb_mask c);
  Some (match v with
        | None => None
        | Some v => if seq_of v =? seq then Some v else None
        end).

Definition udx__cirbuf_remove (c : cirbuf) (seq : Z) : option (option A * cirbuf) :=
  let i := cb_slot seq (cb_mask c) in
  v ← cb_values c !! i;
  Some (match v with
        | None => (None, c)
        | Some v =>
            if seq_of v =? seq
            then (Some v, c <| cb_values := <[i := None]> (cb_values c) |>)
            else (None, c)
        end).

(** ** Invariant *)

Definition cb_ok (k : Z) (c : cirbuf) : Prop :=
  0 <= k <= 31 ∧ cb_size c = 2 ^ k ∧ cb_mask c = 2 ^ k - 1 ∧
  length (cb_values c) = Z.to_nat (2 ^ k) ∧
  ∀ i v, cb_values c !! i = Some (Some v) → is_u32 (seq_of v) ∧ i = Z.to_nat (seq_of v mod 2 ^ k).

Definition cb_wf (c : cirbuf) : Prop := ∃ k, cb_ok k c.

(** What the buffer promises: the finite map [m] from serial numbers. *)
Definition cb_rep (c : cirbuf) (m : gmap Z A) : Prop :=
  cb_wf c ∧ (∀ s v, m !! s = Some v → is_u32 s) ∧
  ∀ s, is_u32 s → udx__cirbuf_get c s = Some (m !! s).

Lemma cb_slot_mod seq k : 0 <= k → cb_slot seq (2 ^ k - 1) = Z.to_nat (seq mod 2 ^ k).
Proof. intros. unfold cb_slot. by rewrite land_pow2_mask. Qed.

Lemma slot_in_range seq k : 0 <= k → (Z.to_nat (seq mod 2 ^ k) < Z.to_nat (2 ^ k))%nat.
Proof. intros. assert (0 < 2 ^ k) by lia. pose proof (Z.mod_pos_bound seq (2 ^ k)). lia. Qed.

Lemma slot_inj a b k :
  0 <= k → Z.to_nat (a mod 2 ^ k) = Z.to_nat (b mod 2 ^ k) → a mod 2 ^ k = b mod 2 ^ k.
Proof.
  intros Hk H. assert (0 < 2 ^ k) by lia.
  pose proof (Z.mod_pos_bound a (2 ^ k)). pose proof (Z.mod_pos_bound b (2 ^ k)). lia.
Qed.

(** Agreement modulo a power of two is inherited by smaller powers. *)
Lemma mod_pow2_le a b j k :
  0 <= j <= k → a mod 2 ^ k = b mod 2 ^ k → a mod 2 ^ j = b mod 2 ^ j.
Proof.
  intros Hjk H. assert (Hd : (2 ^ j | 2 ^ k)).
  { exists (2 ^ (k - j)). rewrite <- Z.pow_add_r by lia. f_equal. lia. }
  by rewrite <- (Z.mod_mod_divide a _ _ Hd), <- (Z.mod_mod_divide b _ _ Hd), H.
Qed.

(** The loop stops at the first power of two that separates the two numbers. *)
Lemma cb_grow_spec vseq seq n j k :
  0 <= j <= k → k <= 31 → (Z.to_nat (k - j) < n)%nat →
  vseq mod 2 ^ k ≠ seq mod 2 ^ k →
  ∃ k', j <= k' <= k ∧ vseq mod 2 ^ k' ≠ seq mod 2 ^ k' ∧
    cb_grow n vseq seq (2 ^ j) (2 ^ j - 1) = Some (2 ^ k', 2 ^ k' - 1).
Proof.
  revert j. induction n as [|n IH]; intros j Hj Hk Hn Hne; [lia|].
  cbn [cb_grow]. rewrite !land_pow2_mask by lia.
  destruct (Z.eqb_spec (vseq mod 2 ^ j) (seq mod 2 ^ j)) as [He|He].
  - assert (j ≠ k) by congruence.
    assert (2 ^ (j + 1) <= 2 ^ 31) by (apply Z.pow_le_mono_r; lia).
    assert (0 < 2 ^ (j + 1)) by lia.
    replace (2 ^ j * 2) with (2 ^ (j + 1)) by (rewrite Z.pow_add_r; lia).
    rewrite !u32_id by (unfold is_u32; lia).
    destruct (IH (j + 1)) as (k' & ? & ? & ?); [lia..|done|].
    exists k'. split; [lia|]. done.
  - exists j. split; [lia|]. done.
Qed.

Lemma cb_rehash_spec old k values :
  0 <= k → length values = Z.to_nat (2 ^ k) →
  ∃ values', cb_rehash old (2 ^ k - 1) values = Some values' ∧
    length values' = length values ∧
    ∀ i, (values' !! i = values !! i ∧ ∀ v, Some v ∈ old → Z.to_nat (seq_of v mod 2 ^ k) ≠ i) ∨
         (∃ v, Some v ∈ old ∧ Z.to_nat (seq_of v mod 2 ^ k) = i ∧ values' !! i = Some (Some v)).
Proof.
  intros Hk. revert values. induction old as [|[v|] old IH]; intros values Hlen.
  - exists values. split_and!; [done..|]. intros i. left. split; [done|].
    intros v Hv. by apply elem_of_nil in Hv.
  - cbn [cb_rehash]. rewrite cb_slot_mod by done.
    pose proof (slot_in_range (seq_of v) k Hk). rewrite array_store_Some by lia. cbn [mbind option_bind].
    set (iv := Z.to_nat (seq_of v mod 2 ^ k)) in *.
    destruct (IH (<[iv:=Some v]> values)) as (values' & Hr & Hl & Hi); [by rewrite length_insert|].
    exists values'. split; [done|]. split; [by rewrite Hl, length_insert|].
    intros i. destruct (Hi i) as [[He Hn]|(w & Hw & Hwi & He)].
    + destruct (decide (iv = i)) as [<-|Hne].
      * right. exists v. split; [by left|]. split; [done|].
        by rewrite He, list_lookup_insert_eq by lia.
      * left. split; [by rewrite He, list_lookup_insert_ne|].
        intros w Hw. apply elem_of_cons in Hw as [[= ->]|Hw]; auto.
    + right. exists w. split; [by right|]. done.
  - cbn [cb_rehash]. destruct (IH values Hlen) as (values' & Hr & Hl & Hi).
    exists values'. split_and!; [done..|]. intros i. destruct (Hi i) as [[He Hn]|(w & Hw & Hwi)].
    + left. split; [done|]. intros w Hw. apply elem_of_cons in Hw as [[=]|Hw]; auto.
    + right. exists w. split; [by right|]. done.
Qed.

Lemma cb_get_ok k c s :
  cb_ok k c →
  udx__cirbuf_get c s = Some
    match cb_values c !! Z.to_nat (s mod 2 ^ k) with
    | Some (Some v) => if seq_of v =? s then Some v else None
    | _ => None
    end.
Proof.
  intros (Hk & _ & Hm & Hl & _). unfold udx__cirbuf_get. rewrite Hm, cb_slot_mod by lia.
  pose proof (slot_in_range s k ltac:(lia)).
  destruct (lookup_lt_is_Some_2 (cb_values c) (Z.to_nat (s mod 2 ^ k))) as [o Ho]; [lia|].
  rewrite Ho. by destruct o.
Qed.

Lemma cb_rep_seq c m s v : cb_rep c m → m !! s = Some v → seq_of v = s.
Proof.
  intros ((k & Hok) & Hu & Hg) Hs. specialize (Hg s (Hu _ _ Hs)).
  rewrite (cb_get_ok k), Hs in Hg by done.
  destruct (cb_values c !! _) as [[w|]|]; try done.
  destruct (Z.eqb_spec (seq_of w) s); congruence.
Qed.

Lemma cb_rep_slot c m k i v :
  cb_ok k c → cb_rep c m → cb_values c !! i = Some (Some v) → m !! seq_of v = Some v.
Proof.
  intros Hok (_ & _ & Hg) Hi. pose proof Hok as (Hk & _ & _ & _ & Hv).
  destruct (Hv _ _ Hi) as [Hu ->]. specialize (Hg _ Hu).
  rewrite (cb_get_ok k), Hi, Z.eqb_refl in Hg by done. congruence.
Qed.

(** Overwriting the slot of [val] when it is free or holds the same number. *)
Lemma cb_store_rep k c m val :
  cb_ok k c → cb_rep c m → is_u32 (seq_of val) →
  (∀ v, cb_values c !! Z.to_nat (seq_of val mod 2 ^ k) = Some (Some v) → seq_of v = seq_of val) →
  cb_rep (c <| cb_values := <[Z.to_nat (seq_of val mod 2 ^ k) := Some val]> (cb_values c) |>)
         (<[seq_of val := val]> m).
Proof.
  intros Hok Hrep Hu Hslot. pose proof Hok as (Hk & Hs & Hm & Hl & Hv).
  pose proof (slot_in_range (seq_of val) k ltac:(lia)) as Hr.
  set (c' := upd_field _ _ _).
  assert (Hok' : cb_ok k c').
  { split_and!; try done; unfold c'; cbn; [lia..| |].
    - by rewrite length_insert.
    - intros i v Hi. apply list_lookup_insert_Some in Hi as [(<- & [= <-] & _)|[_ Hi]]; auto. }
  split; [by exists k|]. split.
  { intros s v. rewrite lookup_insert_Some. intros [[<- _]|[_ Hsv]]; [done|].
    by apply Hrep in Hsv. }
  intros s Hsu. rewrite (cb_get_ok k) by done. f_equal. unfold c'. cbn.
  destruct (decide (s = seq_of val)) as [->|Hne].
  - rewrite list_lookup_insert_eq, lookup_insert_eq, Z.eqb_refl by lia. done.
  - rewrite lookup_insert_ne by done.
    assert (Hms : udx__cirbuf_get c s = Some (m !! s)) by (by apply Hrep).
    rewrite (cb_get_ok k) in Hms by done. injection Hms as <-.
    destruct (decide (Z.to_nat (seq_of val mod 2 ^ k) = Z.to_nat (s mod 2 ^ k))) as [He|He].
    + rewrite He in *. rewrite list_lookup_insert_eq by lia.
      rewrite (proj2 (Z.eqb_neq _ _)) by congruence.
      destruct (cb_values c !! _) as [[v|]|] eqn:Ev; try done.
      rewrite (Hslot v) by done. by rewrite (proj2 (Z.eqb_neq _ _)) by congruence.
    + by rewrite list_lookup_insert_ne.
Qed.

(** ** Growing *)

Lemma cb_old_entry k c x :
  cb_ok k c → Some x ∈ cb_values c → cb_values c !! Z.to_nat (seq_of x mod 2 ^ k) = Some (Some x).
Proof.
  intros (_ & _ & _ & _ & Hv) Hx. apply list_elem_of_lookup in Hx as (i & Hi).
  by destruct (Hv _ _ Hi) as [_ <-].
Qed.

Section grown.
Context (k k' : Z) (c : cirbuf) (m : gmap Z A) (val v : A) (values : list (option A)).
Hypothesis (Hok : cb_ok k c) (Hrep : cb_rep c m) (Hval : is_u32 (seq_of val)).
Hypothesis (Hk' : k <= k' <= 31).
Hypothesis (Hcur : cb_values c !! Z.to_nat (seq_of val mod 2 ^ k) = Some (Some v)).
Hypothesis (Hsep : seq_of v mod 2 ^ k' ≠ seq_of val mod 2 ^ k').
Let slot (x : A) : nat := Z.to_nat (seq_of x mod 2 ^ k').
Hypothesis (Hlen : length values = Z.to_nat (2 ^ k')).
Hypothesis (Hcopy : ∀ i,
  (values !! i = <[slot val := Some val]> (replicate (Z.to_nat (2 ^ k')) None) !! i ∧
   ∀ w, Some w ∈ cb_values c → slot w ≠ i) ∨
  (∃ w, Some w ∈ cb_values c ∧ slot w = i ∧ values !! i = Some (Some w))).

Lemma grown_same_slot x y : slot x = slot y → seq_of x mod 2 ^ k = seq_of y mod 2 ^ k.
Proof.
  destruct Hok as (Hk & _). intros H. apply (mod_pow2_le _ _ k k'); [lia|].
  by apply slot_inj in H; [|lia].
Qed.

Lemma grown_old_val x : Some x ∈ cb_values c → slot x ≠ slot val.
Proof.
  intros Hx He. pose proof (grown_same_slot _ _ He) as Hm.
  apply (cb_old_entry k) in Hx; [|done]. rewrite Hm, Hcur in Hx. injection Hx as <-.
  apply slot_inj in He; [done|]. destruct Hok; lia.
Qed.

Lemma grown_old_old x y : Some x ∈ cb_values c → Some y ∈ cb_values c → slot x = slot y → x = y.
Proof.
  intros Hx Hy He. pose proof (grown_same_slot _ _ He) as Hm.
  apply (cb_old_entry k) in Hx, Hy; [|done..]. rewrite Hm, Hy in Hx. congruence.
Qed.

Lemma grown_present x : x = val ∨ Some x ∈ cb_values c → values !! slot x = Some (Some x).
Proof.
  pose proof (slot_in_range (seq_of val) k' ltac:(destruct Hok; lia)) as Hr.
  intros [->|Hx].
  - destruct (Hcopy (slot val)) as [[-> _]|(w & Hw & He & _)].
    + rewrite list_lookup_insert_eq; [done|]. rewrite length_replicate. exact Hr.
    + by destruct (grown_old_val w).
  - destruct (Hcopy (slot x)) as [[_ Hn]|(w & Hw & He & ->)]; [by destruct (Hn x)|].
    by rewrite (grown_old_old w x).
Qed.

Lemma grown_only i x :
  values !! i = Some (Some x) → slot x = i ∧ (x = val ∨ Some x ∈ cb_values c).
Proof.
  intros Hx. destruct (Hcopy i) as [[He _]|(w & Hw & <- & He)].
  - rewrite Hx in He. symmetry in He.
    apply list_lookup_insert_Some in He as [(<- & [= <-] & _)|[_ Hi]]; [auto|].
    by apply lookup_replicate in Hi as [[=] _].
  - rewrite Hx in He. injection He as ->. auto.
Qed.

Lemma grown_ok : cb_ok k' (mk_cirbuf (2 ^ k') (2 ^ k' - 1) values).
Proof.
  pose proof Hok as (Hk & _ & _ & _ & Hv).
  split_and!; cbn; try done; [lia..|]. intros i x Hx.
  apply grown_only in Hx as [<- [->|Hx]]; split; try done.
  apply (cb_old_entry k) in Hx; [|done]. by apply Hv in Hx as [? _].
Qed.

Lemma grown_rep : cb_rep (mk_cirbuf (2 ^ k') (2 ^ k' - 1) values) (<[seq_of val := val]> m).
Proof.
  split; [exists k'; apply grown_ok|]. split.
  { intros s x. rewrite lookup_insert_Some. intros [[<- _]|[_ Hx]]; [done|]. by apply Hrep in Hx. }
  intros s Hs. rewrite (cb_get_ok k') by apply grown_ok. f_equal. cbn.
  assert (Hin : ∀ x, Some x ∈ cb_values c ↔ m !! seq_of x = Some x).
  { intros x. split.
    - intros Hx%(cb_old_entry k); [|done]. by apply (cb_rep_slot c m k) in Hx.
    - intros Hx. pose proof Hrep as (_ & Hu & Hg).
      specialize (Hg _ (Hu _ _ Hx)). rewrite (cb_get_ok k), Hx in Hg by done.
      destruct (cb_values c !! Z.to_nat (seq_of x mod 2 ^ k)) as [[w|]|] eqn:Ew; try done.
      destruct (Z.eqb_spec (seq_of w) (seq_of x)); [|done]. injection Hg as ->.
      apply list_elem_of_lookup; eauto. }
  destruct (values !! Z.to_nat (s mod 2 ^ k')) as [[x|]|] eqn:Ex.
  1: { apply grown_only in Ex as [Hsx Hx]. destruct (Z.eqb_spec (seq_of x) s) as [<-|Hne].
    - destruct (decide (seq_of x = seq_of val)) as [He|He].
      + destruct Hx as [->|Hx]; [by rewrite lookup_insert_eq|].
        exfalso. apply (grown_old_val x Hx). unfold slot. by rewrite He.
      + rewrite lookup_insert_ne by done. destruct Hx as [->|Hx]; [done|]. by apply Hin in Hx.
    - destruct (<[seq_of val := val]> m !! s) as [y|] eqn:Ey; [|done]. exfalso.
      assert (seq_of y = s ∧ (y = val ∨ Some y ∈ cb_values c)) as [<- Hy].
      { apply lookup_insert_Some in Ey as [[<- <-]|[_ Ey]]; [auto|].
        pose proof (cb_rep_seq _ _ _ _ Hrep Ey) as <-. apply Hin in Ey; auto. }
      apply grown_present in Hy, Hx. unfold slot in *. rewrite Hsx, Hy in Hx. congruence. }
  all: destruct (<[seq_of val := val]> m !! s) as [y|] eqn:Ey; [|done]; exfalso.
  all: assert (seq_of y = s ∧ (y = val ∨ Some y ∈ cb_values c)) as [<- Hy];
    [apply lookup_insert_Some in Ey as [[<- <-]|[_ Ey]]; [auto|];
     pose proof (cb_rep_seq _ _ _ _ Hrep Ey) as <-; apply Hin in Ey; auto|].
  all: apply grown_present in Hy; unfold slot in Hy; congruence.
Qed.
End grown.

(** No stored number differs from [s] by exactly 2^31. *)
Definition cb_room (m : gmap Z A) (s : Z) : Prop :=
  ∀ s', is_Some (m !! s') → s' mod 2 ^ 31 = s mod 2 ^ 31 → s' = s.

Lemma set_rep c m val :
  cb_rep c m → is_u32 (seq_of val) → cb_room m (seq_of val) →
  ∃ c', udx__cirbuf_set c val = Some c' ∧ cb_rep c' (<[seq_of val := val]> m).
Proof.
  intros Hrep Hval Hroom. pose proof Hrep as ((k & Hok) & _ & _).
  pose proof Hok as (Hk & Hsz & Hmk & Hln & Hvs).
  pose proof (slot_in_range (seq_of val) k ltac:(lia)) as Hr.
  unfold udx__cirbuf_set. rewrite Hmk, cb_slot_mod, Hsz by lia.
  destruct (cb_values c !! Z.to_nat (seq_of val mod 2 ^ k)) as [[v|]|] eqn:Ev; cbn [mbind option_bind].
  - destruct (Z.eqb_spec (seq_of v) (seq_of val)) as [He|Hne].
    { eexists; split; [done|]. apply (cb_store_rep k); try done. congruence. }
    destruct (cb_grow_spec (seq_of v) (seq_of val) cb_fuel k 31) as (k' & Hk' & Hsep & ->);
      [lia|lia|unfold cb_fuel; lia| |].
    { intros Hmod. apply Hne. apply Hroom; [|done].
      exists v. by apply (cb_rep_slot c m k) in Ev. }
    cbn [mbind option_bind]. rewrite cb_slot_mod by lia.
    pose proof (slot_in_range (seq_of val) k' ltac:(lia)).
    rewrite array_store_Some by (by rewrite length_replicate). cbn [mbind option_bind].
    set (values0 := <[_ := Some val]> (replicate _ None)).
    destruct (cb_rehash_spec (cb_values c) k' values0) as (values & -> & Hl & Hc); [lia| |].
    { unfold values0. by rewrite length_insert, length_replicate. }
    cbn [mbind option_bind]. eexists; split; [done|].
    apply (grown_rep k k' c m val v); try done.
    rewrite Hl. unfold values0. by rewrite length_insert, length_replicate.
  - eexists; split; [done|]. apply (cb_store_rep k); try done. congruence.
  - apply lookup_ge_None_1 in Ev. lia.
Qed.

(** C30: in a well-formed buffer that represents a finite map, setting a value
    whose number is not exactly 2^31 away from a stored one terminates, replaces
    the value of its own number, and loses nothing, whether or not the slot was
    taken and the array had to be doubled and rehashed. *)
Theorem cirbuf_set_refines c m val :
  cb_rep c m → is_u32 (seq_of val) → cb_room m (seq_of val) →
  ∃ c', udx__cirbuf_set c val = Some c' ∧ cb_rep c' (<[seq_of val := val]> m).
Proof. apply set_rep. Qed.

Lemma remove_rep c m s :
  cb_rep c m → is_u32 s →
  ∃ c', udx__cirbuf_remove c s = Some (m !! s, c') ∧ cb_rep c' (delete s m) ∧
    (m !! s = None → c' = c).
Proof.
  intros Hrep Hs. pose proof Hrep as ((k & Hok) & Hu & Hg).
  pose proof Hok as (Hk & Hsz & Hmk & Hln & Hvs). specialize (Hg s Hs) as Hgs.
  rewrite (cb_get_ok k) in Hgs by done. injection Hgs as Hgs.
  unfold udx__cirbuf_remove. rewrite Hmk, cb_slot_mod by lia.
  pose proof (slot_in_range s k ltac:(lia)).
  destruct (lookup_lt_is_Some_2 (cb_values c) (Z.to_nat (s mod 2 ^ k))) as [o Ho]; [lia|].
  rewrite Ho in *. cbn [mbind option_bind].
  assert (Hsame : m !! s = None → cb_rep c (delete s m)) by (intros ?; by rewrite delete_id).
  destruct o as [v|]; [destruct (Z.eqb_spec (seq_of v) s) as [<-|Hne]|].
  2,3: rewrite <- Hgs in *; eauto.
  rewrite <- Hgs. eexists. split; [done|]. split; [|done].
  set (c' := upd_field _ _ _).
  assert (Hok' : cb_ok k c').
  { split_and!; try done; unfold c'; cbn; [lia..| |].
    - by rewrite length_insert.
    - intros i w Hi. apply list_lookup_insert_Some in Hi as [(<- & [=] & _)|[_ Hi]]; auto. }
  split; [by exists k|]. split.
  { intros s' w [_ Hw]%lookup_delete_Some. eauto. }
  intros s' Hs'. rewrite (cb_get_ok k) by done. f_equal. unfold c'. cbn.
  specialize (Hg s' Hs'). rewrite (cb_get_ok k) in Hg by done. injection Hg as Hg.
  destruct (decide (s' = seq_of v)) as [->|Hne].
  - by rewrite list_lookup_insert_eq, lookup_delete_eq by lia.
  - rewrite lookup_delete_ne, <- Hg by done.
    destruct (decide (Z.to_nat (seq_of v mod 2 ^ k) = Z.to_nat (s' mod 2 ^ k))) as [He|He].
    + rewrite <- He, list_lookup_insert_eq, Ho by lia. by rewrite (proj2 (Z.eqb_neq _ _)) by congruence.
    + by rewrite list_lookup_insert_ne.
Qed.

(** C31: removing a number returns the map's value for it (NULL when absent),
    deletes that number alone, and leaves the buffer untouched when absent. *)
Theorem cirbuf_remove_refines c m s :
  cb_rep c m → is_u32 s →
  ∃ c', udx__cirbuf_remove c s = Some (m !! s, c') ∧ cb_rep c' (delete s m) ∧
    (m !! s = None → c' = c).
Proof. apply remove_rep. Qed.

Lemma init_rep k : 0 <= k <= 31 → cb_rep (udx__cirbuf_init (2 ^ k)) ∅.
Proof.
  intros Hk. assert (0 < 2 ^ k <= 2 ^ 31) by (split; [lia|apply Z.pow_le_mono_r; lia]).
  assert (Hok : cb_ok k (udx__cirbuf_init (2 ^ k))).
  { split_and!; try lia; cbn; try done.
    - apply u32_id. unfold is_u32. lia.
    - by rewrite length_replicate.
    - intros i v Hi. by apply lookup_replicate in Hi as [[=] _]. }
  split; [by exists k|]. split; [intros s v Hs; by rewrite lookup_empty in Hs|].
  intros s Hs. rewrite (cb_get_ok k) by done. f_equal. cbn.
  rewrite lookup_empty. destruct (replicate _ _ !! _) as [[v|]|] eqn:E; try done.
  by apply lookup_replicate in E as [[=] _].
Qed.

End Cirbuf.

Arguments cirbuf A : clear implicits.

(** ** Examples *)

(** A two-slot buffer holding number 4; setting 6 collides and doubles it. *)
Definition cb_example : cirbuf (Z * Z) := mk_cirbuf 2 1 [Some (4, 40); None].

Lemma cb_example_rep : cb_rep fst cb_example {[4 := (4, 40)]}.
Proof.
  destruct (set_rep fst (udx__cirbuf_init 2) ∅ (4, 40)) as (c' & Hs & Hr).
  - apply (init_rep fst 1). lia.
  - by compute.
  - intros s' [x Hx]. by rewrite lookup_empty in Hx.
  - vm_compute in Hs. injection Hs as <-. exact Hr.
Qed.

Example cirbuf_set_refines_witness :
  ∃ c', udx__cirbuf_set fst cb_example (6, 60) = Some c' ∧ cb_size c' = 4 ∧
    cb_rep fst c' (<[6 := (6, 60)]> {[4 := (4, 40)]}).
Proof.
  destruct (cirbuf_set_refines fst cb_example {[4 := (4, 40)]} (6, 60)) as (c' & Hs & Hr).
  - apply cb_example_rep.
  - by compute.
  - intros s' [x Hx] Hmod. apply lookup_singleton_Some in Hx as [<- _]. by vm_compute in Hmod.
  - exists c'. split; [exact Hs|]. split; [|exact Hr]. vm_compute in Hs. by injection Hs as <-.
Defined.

Example cirbuf_remove_refines_witness :
  ∃ c', udx__cirbuf_remove fst cb_example 4 = Some (Some (4, 40), c') ∧
    cb_rep fst c' (delete 4 {[4 := (4, 40)]}).
Proof.
  destruct (cirbuf_remove_refines fst cb_example {[4 := (4, 40)]} 4) as (c' & Hs & Hr & _).
  - apply cb_example_rep.
  - by compute.
  - exists c'. split; [exact Hs|exact Hr].
Defined.

