(* ===== verification/Queue.v ===== *)
(** * The intrusive circular doubly linked queue (src/queue.c)

    Nodes live in memory at addresses; a queue is a sentinel node and a length
    at the sentinel's address.  A pointer is an [option loc], NULL being [None];
    following NULL, or an address that holds no node, is undefined ([None]). *)

From S2P Require Import Prelude.

Definition loc := positive.
Bind Scope positive_scope with loc.
Abbreviation ptr := (option loc).

Record udx_queue_node := mk_node { node_next : ptr; node_prev : ptr }.
#[global] Instance eta_node : Eta udx_queue_node := λ n, mk_node n.(node_next) n.(node_prev).

(** Memory: the nodes and, at a sentinel's address, the queue's [len]. *)
Record qmem := mk_qmem { nodes : gmap loc udx_queue_node; lens : gmap loc Z }.
#[global] Instance eta_qmem : Eta qmem := λ m, mk_qmem m.(nodes) m.(lens).

Definition load_next (m : qmem) (p : ptr) : option ptr :=
  l ← p; n ← nodes m !! l; Some (node_next n).
Definition load_prev (m : qmem) (p : ptr) : option ptr :=
  l ← p; n ← nodes m !! l; Some (node_prev n).
Definition store_next (m : qmem) (p v : ptr) : option qmem :=
  l ← p; n ← nodes m !! l; Some (m <| nodes := <[l := n <| node_next := v |>]> (nodes m) |>).
Definition store_prev (m : qmem) (p v : ptr) : option qmem :=
  l ← p; n ← nodes m !! l; Some (m <| nodes := <[l := n <| node_prev := v |>]> (nodes m) |>).
Definition load_len (m : qmem) (q : loc) : option Z := lens m !! q.
Definition store_len (m : qmem) (q : loc) (v : Z) : qmem := m <| lens := <[q := u32 v]> (lens m) |>.

(** ** The operations *)

Definition udx__queue_init (m : qmem) (q : loc) : option qmem :=
  m ← store_prev m (Some q) (Some q);
  m ← store_next m (Some q) (Some q);
  Some (store_len m q 0).

Definition queue_insert (m : qmem) (new prev next : ptr) (queue : loc) : option qmem :=
  m ← store_next m new next;
  m ← store_prev m new prev;
  m ← store_prev m next new;
  m ← store_next m prev new;
  len ← load_len m queue;
  Some (store_len m queue (len + 1)).

Definition queue_after (m : qmem) (q : loc) (prev new : ptr) : option qmem :=
  next ← load_next m prev; queue_insert m new prev next q.

Definition queue_before (m : qmem) (q : loc) (next new : ptr) : option qmem :=
  prev ← load_prev m next; queue_insert m new prev next q.

Definition udx__queue_head (m : qmem) (q new : loc) : option qmem :=
  queue_after m q (Some q) (Some new).

Definition udx__queue_tail (m : qmem) (q new : loc) : option qmem :=
  queue_before m q (Some q) (Some new).

Definition udx__queue_unlink (m : qmem) (q p : loc) : option qmem :=
  len ← load_len m q;
  assert! negb (len =? 0);
  let m := store_len m q (len - 1) in
  prev ← load_prev m (Some p);
  next ← load_next m (Some p);
  m ← store_next m prev next;
  next ← load_next m (Some p);
  prev ← load_prev m (Some p);
  m ← store_prev m next prev;
  m ← store_next m (Some p) None;
  store_prev m (Some p) None.

Definition udx__queue_peek (m : qmem) (q : loc) : option ptr :=
  ret ← load_next m (Some q);
  Some (if decide (ret = Some q) then None else ret).

Definition udx__queue_shift (m : qmem) (q : loc) : option (ptr * qmem) :=
  ret ← udx__queue_peek m q;
  match ret with
  | Some p => m ← udx__queue_unlink m q p; Some (ret, m)
  | None => Some (ret, m)
  end.

Definition udx__queue_splice_tail (m : qmem) (q t : loc) : option qmem :=
  qlen ← load_len m q; tlen ← load_len m t;
  let m := store_len m q (qlen + tlen) in
  qprev ← load_prev m (Some q); tnext ← load_next m (Some t);
  m ← store_next m qprev tnext;
  tnext ← load_next m (Some t); qprev ← load_prev m (Some q);
  m ← store_prev m tnext qprev;
  tprev ← load_prev m (Some t);
  m ← store_prev m (Some q) tprev;
  qprev ← load_prev m (Some q);
  m ← store_next m qprev (Some q);
  udx__queue_init m t.

(** ** The list a queue represents *)

Definition next_of (m : qmem) (a : loc) : option ptr := node_next <$> nodes m !! a.
Definition prev_of (m : qmem) (a : loc) : option ptr := node_prev <$> nodes m !! a.

(** Consecutive elements point at each other, for given next and prev fields. *)
Fixpoint linkedf (nf pf : loc → option ptr) (l : list loc) : Prop :=
  match l with
  | a :: (b :: _) as t => nf a = Some (Some b) ∧ pf b = Some (Some a) ∧ linkedf nf pf t
  | _ => True
  end.
Definition linked (m : qmem) : list loc → Prop := linkedf (next_of m) (prev_of m).

Definition is_queue (m : qmem) (q : loc) (xs : list loc) : Prop :=
  lens m !! q = Some (u32 (Z.of_nat (length xs))) ∧ NoDup (q :: xs) ∧ linked m (q :: xs ++ [q]).

(** [m'] differs from [m] only in the nodes [D] and the lengths of [Q]. *)
Definition only_touches (m m' : qmem) (D Q : list loc) : Prop :=
  (∀ x, x ∉ D → nodes m' !! x = nodes m !! x) ∧ (∀ x, x ∉ Q → lens m' !! x = lens m !! x).

(** ** Chains *)

Section chains.
Implicit Types nf pf : loc → option ptr.

Lemma linkedf_app nf pf l1 x l2 :
  linkedf nf pf (l1 ++ x :: l2) ↔ linkedf nf pf (l1 ++ [x]) ∧ linkedf nf pf (x :: l2).
Proof.
  induction l1 as [|y [|z l1] IH]; cbn [app linkedf] in *.
  - tauto.
  - destruct l2; tauto.
  - rewrite IH. tauto.
Qed.

Lemma linkedf_frame nf pf nf' pf' l :
  (∀ x, x ∈ removelast l → nf' x = nf x) → (∀ x, x ∈ tail l → pf' x = pf x) →
  linkedf nf pf l → linkedf nf' pf' l.
Proof.
  induction l as [|a [|b l] IH]; [done..|]. cbn [linkedf tail].
  change (removelast (a :: b :: l)) with (a :: removelast (b :: l)).
  intros Hn Hp (Ha & Hb & Hl). rewrite Hn, Hp by set_solver. split_and!; [done..|].
  apply IH; [set_solver..|done].
Qed.

Lemma removelast_mid l1 a (l2 : list loc) :
  removelast (l1 ++ a :: l2) = l1 ++ removelast (a :: l2).
Proof. apply removelast_app. done. Qed.

Lemma linkedf_split nf pf nf' pf' l1 a mid b l2 :
  let L := l1 ++ a :: mid ++ b :: l2 in
  NoDup (removelast L) → NoDup (tail L) → linkedf nf pf L →
  (∀ x, x ∈ removelast L → x ≠ a → x ∉ mid → nf' x = nf x) →
  (∀ x, x ∈ tail L → x ≠ b → x ∉ mid → pf' x = pf x) →
  linkedf nf' pf' (l1 ++ [a]) ∧ linkedf nf' pf' (b :: l2).
Proof.
  intros L Hn Ht Hl Hnf Hpf. unfold L in *.
  rewrite removelast_mid in Hn, Hnf.
  change (a :: mid ++ b :: l2) with ((a :: mid) ++ b :: l2) in Hn, Hnf.
  rewrite removelast_mid in Hn, Hnf.
  apply linkedf_app in Hl as [Hl1 Hl2].
  change (a :: mid ++ b :: l2) with ((a :: mid) ++ b :: l2) in Hl2.
  apply linkedf_app in Hl2 as [_ Hl2].
  apply NoDup_app in Hn as (Hn1 & Hn2 & Hn3). apply NoDup_app in Hn3 as (Hn4 & Hn5 & Hn6).
  assert (Ht' : ∀ x, x ∈ tail (l1 ++ [a]) ++ mid → x ≠ b ∧ x ∉ l2).
  { destruct l1 as [|y l1]; cbn [app tail] in *.
    - apply NoDup_app in Ht as (_ & Ht & _). set_solver.
    - replace (l1 ++ a :: mid ++ b :: l2) with ((l1 ++ a :: mid) ++ b :: l2) in Ht by (by rewrite <- app_assoc).
      apply NoDup_app in Ht as (_ & Ht & _). set_solver. }
  assert (Hbl : NoDup (b :: l2)).
  { destruct l1 as [|y l1]; cbn [app tail] in *.
    - by apply NoDup_app in Ht as (_ & _ & Ht).
    - apply NoDup_app in Ht as (_ & _ & Ht). apply NoDup_cons in Ht as [_ Ht].
      by apply NoDup_app in Ht as (_ & _ & Ht). }
  assert (Htm : ∀ x, x ∈ tail (l1 ++ [a]) → x ∉ mid).
  { destruct l1 as [|y l1]; cbn [app tail] in *; [set_solver|].
    replace (l1 ++ a :: mid ++ b :: l2) with ((l1 ++ [a]) ++ mid ++ b :: l2) in Ht by (by rewrite <- app_assoc).
    apply NoDup_app in Ht as (_ & Ht & _). set_solver. }
  split.
  - eapply linkedf_frame; [| |exact Hl1].
    + rewrite removelast_last. intros x Hx.
      specialize (Hn2 x Hx). apply Hnf; set_solver.
    + intros x Hx. apply Hpf; [|set_solver..].
      destruct l1; cbn [app tail] in *; set_solver.
  - eapply linkedf_frame; [| |exact Hl2].
    + intros x Hx. apply Hnf; [set_solver| |].
      * intros ->. apply (Hn5 a); [by left|done].
      * intros Hm. apply (Hn5 x); [by right|done].
    + intros x Hx. cbn [tail] in Hx. apply NoDup_cons in Hbl as [Hbl _].
      apply Hpf; [destruct l1; cbn [app tail]; set_solver|congruence|].
      intros Hm. destruct (Ht' x); set_solver.
Qed.

Lemma linkedf_insert nf pf nf' pf' l1 a n b l2 :
  let L := l1 ++ a :: b :: l2 in
  NoDup (removelast L) → NoDup (tail L) → n ∉ L → linkedf nf pf L →
  nf' a = Some (Some n) → nf' n = Some (Some b) → pf' n = Some (Some a) → pf' b = Some (Some n) →
  (∀ x, x ≠ a → x ≠ n → nf' x = nf x) → (∀ x, x ≠ b → x ≠ n → pf' x = pf x) →
  linkedf nf' pf' (l1 ++ a :: n :: b :: l2).
Proof.
  intros L Hn Ht Hnew Hl Ha Hnb Hna Hb Hnf Hpf.
  assert (Hrm : ∀ x, x ∈ removelast L → x ∈ L).
  { intros x Hx. destruct (decide (L = [])) as [->|Hne]; [done|].
    rewrite (app_removelast_last a Hne). apply elem_of_app. by left. }
  destruct (linkedf_split nf pf nf' pf' l1 a [] b l2) as [H1 H2]; try done.
  - intros x Hx Hxa _. apply Hnf; [done|]. intros ->. by apply Hnew, Hrm.
  - intros x Hx Hxb _. apply Hpf; [done|]. intros ->. apply Hnew.
    subst L. destruct l1; cbn [app tail] in *; set_solver.
  - apply linkedf_app. split; [done|]. cbn [linkedf]. split_and!; done.
Qed.

Lemma linkedf_remove nf pf nf' pf' l1 a p b l2 :
  let L := l1 ++ a :: p :: b :: l2 in
  NoDup (removelast L) → NoDup (tail L) → linkedf nf pf L →
  nf' a = Some (Some b) → pf' b = Some (Some a) →
  (∀ x, x ≠ a → x ≠ p → nf' x = nf x) → (∀ x, x ≠ b → x ≠ p → pf' x = pf x) →
  linkedf nf' pf' (l1 ++ a :: b :: l2).
Proof.
  intros L Hn Ht Hl Ha Hb Hnf Hpf.
  destruct (linkedf_split nf pf nf' pf' l1 a [p] b l2) as [H1 H2]; try done.
  - intros x _ Hxa Hxp. apply Hnf; set_solver.
  - intros x _ Hxb Hxp. apply Hpf; set_solver.
  - apply linkedf_app. split; [done|]. cbn [linkedf]. split_and!; done.
Qed.

(** The chain of a circular list has no repetition but its ends. *)
Lemma cycle_nodup (q : loc) (xs : list loc) :
  NoDup (q :: xs) → NoDup (removelast (q :: xs ++ [q])) ∧ NoDup (tail (q :: xs ++ [q])).
Proof.
  intros H. rewrite app_comm_cons, removelast_last. split; [done|].
  cbn [tail app]. apply NoDup_cons in H as [Hq H].
  apply NoDup_app. split_and!; [done| |apply NoDup_singleton]. set_solver.
Qed.
End chains.

(** ** Stores, through the fields they change *)

Lemma load_next_of m l : load_next m (Some l) = next_of m l.
Proof. unfold load_next, next_of. cbn. by destruct (nodes m !! l). Qed.
Lemma load_prev_of m l : load_prev m (Some l) = prev_of m l.
Proof. unfold load_prev, prev_of. cbn. by destruct (nodes m !! l). Qed.

(** [m'] has the links given by [nf] and [pf], the lengths of [m], and the
    nodes of [m] outside [D]. *)
Definition relinks (m m' : qmem) (nf pf : loc → option ptr) (D : list loc) : Prop :=
  (∀ x, next_of m' x = nf x) ∧ (∀ x, prev_of m' x = pf x) ∧ lens m' = lens m ∧
  (∀ x, is_Some (nodes m' !! x) ↔ is_Some (nodes m !! x)) ∧
  (∀ x, x ∉ D → nodes m' !! x = nodes m !! x).

Lemma store_next_eff m l v :
  is_Some (nodes m !! l) →
  ∃ m', store_next m (Some l) v = Some m' ∧
    relinks m m' (λ x, if decide (x = l) then Some v else next_of m x) (prev_of m) [l].
Proof.
  intros [n Hn]. unfold store_next. cbn [mbind option_bind]. rewrite Hn. cbn [mbind option_bind].
  eexists. split; [done|]. unfold relinks, next_of, prev_of. cbn.
  split_and!; try done; intros x; destruct (decide (x = l)) as [->|Hx];
    rewrite ?lookup_insert_eq, ?lookup_insert_ne, ?Hn by done; try done. set_solver.
Qed.

Lemma store_prev_eff m l v :
  is_Some (nodes m !! l) →
  ∃ m', store_prev m (Some l) v = Some m' ∧
    relinks m m' (next_of m) (λ x, if decide (x = l) then Some v else prev_of m x) [l].
Proof.
  intros [n Hn]. unfold store_prev. cbn [mbind option_bind]. rewrite Hn. cbn [mbind option_bind].
  eexists. split; [done|]. unfold relinks, next_of, prev_of. cbn.
  split_and!; try done; intros x; destruct (decide (x = l)) as [->|Hx];
    rewrite ?lookup_insert_eq, ?lookup_insert_ne, ?Hn by done; try done. set_solver.
Qed.

(** Run one store of the goal's program; the facts about the new memory [m1]
    replace those about its lengths and links in the goal. *)
Ltac qstore :=
  match goal with
  | |- context [store_next ?m (Some ?l) ?v] =>
      let m1 := fresh "m" in let H := fresh "Hst" in
      let Hn := fresh "Hnx" in let Hp := fresh "Hpv" in let Hl := fresh "Hln" in
      let Hd := fresh "Hdom" in let Hf := fresh "Hfr" in
      destruct (store_next_eff m l v) as (m1 & H & Hn & Hp & Hl & Hd & Hf); [|rewrite H; cbn [mbind option_bind]]
  | |- context [store_prev ?m (Some ?l) ?v] =>
      let m1 := fresh "m" in let H := fresh "Hst" in
      let Hn := fresh "Hnx" in let Hp := fresh "Hpv" in let Hl := fresh "Hln" in
      let Hd := fresh "Hdom" in let Hf := fresh "Hfr" in
      destruct (store_prev_eff m l v) as (m1 & H & Hn & Hp & Hl & Hd & Hf); [|rewrite H; cbn [mbind option_bind]]
  end.
Ltac qdom := repeat match goal with H : ∀ x, is_Some _ ↔ is_Some _ |- _ => rewrite H end; eauto.
Ltac qlinks := repeat match goal with
  | H : ∀ x, next_of ?m x = _ |- context [next_of ?m _] => rewrite H; cbv beta
  | H : ∀ x, prev_of ?m x = _ |- context [prev_of ?m _] => rewrite H; cbv beta
  end.

Lemma queue_insert_eff m n a b q len :
  is_Some (nodes m !! n) → is_Some (nodes m !! a) → is_Some (nodes m !! b) →
  n ≠ a → n ≠ b → lens m !! q = Some len →
  ∃ m', queue_insert m (Some n) (Some a) (Some b) q = Some m' ∧
    lens m' = <[q := u32 (len + 1)]> (lens m) ∧
    next_of m' a = Some (Some n) ∧ next_of m' n = Some (Some b) ∧
    prev_of m' n = Some (Some a) ∧ prev_of m' b = Some (Some n) ∧
    (∀ x, x ≠ a → x ≠ n → next_of m' x = next_of m x) ∧
    (∀ x, x ≠ b → x ≠ n → prev_of m' x = prev_of m x) ∧
    (∀ x, x ∉ [n; a; b] → nodes m' !! x = nodes m !! x).
Proof.
  intros Hn Ha Hb Hna Hnb Hlen. unfold queue_insert.
  qstore; [done|]. qstore; [qdom|]. qstore; [qdom|]. qstore; [qdom|].
  unfold load_len. rewrite Hln2, Hln1, Hln0, Hln, Hlen. cbn [mbind option_bind].
  eexists. split; [done|]. unfold store_len. cbn [upd_field lens].
  change (next_of (mk_qmem (nodes ?m0) ?l)) with (next_of m0).
  split_and!; cbn.
  - by rewrite Hln2, Hln1, Hln0, Hln.
  - change (next_of m3 a = Some (Some n)). qlinks. by rewrite decide_True.
  - change (next_of m3 n = Some (Some b)). qlinks. by rewrite decide_False, decide_True.
  - change (prev_of m3 n = Some (Some a)). qlinks. by rewrite decide_False, decide_True.
  - change (prev_of m3 b = Some (Some n)). qlinks. by rewrite decide_True.
  - intros x Hxa Hxn. change (next_of m3 x = next_of m x). qlinks. by rewrite !decide_False.
  - intros x Hxb Hxn. change (prev_of m3 x = prev_of m x). qlinks. by rewrite !decide_False.
  - intros x Hx. rewrite Hfr2, Hfr1, Hfr0, Hfr; [done|clear -Hx; set_solver..].
Qed.

Lemma linkedf_next nf pf l x : linkedf nf pf l → x ∈ removelast l → is_Some (nf x).
Proof.
  induction l as [|a [|b l] IH]; cbn [linkedf]; [set_solver..|].
  change (removelast (a :: b :: l)) with (a :: removelast (b :: l)).
  intros (Ha & _ & Hl) [->|Hx]%elem_of_cons; eauto.
Qed.

Lemma next_of_valid m x : is_Some (next_of m x) → is_Some (nodes m !! x).
Proof. unfold next_of. by rewrite fmap_is_Some. Qed.

Lemma is_queue_valid m q xs x : is_queue m q xs → x ∈ q :: xs → is_Some (nodes m !! x).
Proof.
  intros (_ & _ & Hl) Hx. apply next_of_valid, (linkedf_next _ _ _ _ Hl).
  by rewrite app_comm_cons, removelast_last.
Qed.

(** Insertion between two neighbours [a] and [b] of the cycle. *)
Lemma insert_between m q xs ys l1 a b l2 n :
  is_queue m q xs → n ∉ q :: xs → is_Some (nodes m !! n) →
  q :: xs ++ [q] = l1 ++ a :: b :: l2 → q :: ys ++ [q] = l1 ++ a :: n :: b :: l2 →
  NoDup (q :: ys) →
  ∃ m', queue_insert m (Some n) (Some a) (Some b) q = Some m' ∧ is_queue m' q ys ∧
    only_touches m m' (n :: q :: xs) [q].
Proof.
  intros Hq Hn Hnv HL HL' Hnd. pose proof Hq as (Hlen & Hdup & Hl).
  assert (Hin : ∀ x, x ∈ [a; b] → x ∈ q :: xs).
  { intros x Hx. assert (Hx' : x ∈ q :: xs ++ [q]) by (rewrite HL; set_solver). set_solver. }
  destruct (queue_insert_eff m n a b q (u32 (Z.of_nat (length xs))))
    as (m' & Hi & Hlm & Hna & Hnn & Hpn & Hpb & Hnf & Hpf & Hfr); try done.
  1,2: apply (is_queue_valid m q xs); [done|apply Hin; set_solver].
  1,2: intros ->; apply Hn, Hin; set_solver.
  exists m'. split; [done|]. split.
  - assert (Hly : length ys = S (length xs)).
    { apply (f_equal length) in HL, HL'. cbn in HL, HL'.
      rewrite !length_app in HL, HL'. cbn in HL, HL'. lia. }
    split_and!; [|done|].
    + rewrite Hlm, lookup_insert_eq, Hly, u32_add_l. do 2 f_equal. lia.
    + unfold linked. rewrite HL'. destruct (cycle_nodup q xs Hdup) as [Hd1 Hd2].
      eapply (linkedf_insert (next_of m) (prev_of m)); try done; rewrite <- HL; try done.
      set_solver.
  - split.
    + intros x Hx. apply Hfr. set_solver.
    + intros x Hx. rewrite Hlm, lookup_insert_ne; [done|set_solver].
Qed.

Lemma linked_adjacent m q xs l1 a b l2 :
  is_queue m q xs → q :: xs ++ [q] = l1 ++ a :: b :: l2 →
  next_of m a = Some (Some b) ∧ prev_of m b = Some (Some a).
Proof.
  intros (_ & _ & Hl) HL. unfold linked in Hl. rewrite HL in Hl.
  apply linkedf_app in Hl as [_ Hl]. cbn [linkedf] in Hl. tauto.
Qed.

Lemma tail_rep m q xs n :
  is_queue m q xs → n ∉ q :: xs → is_Some (nodes m !! n) →
  ∃ m', udx__queue_tail m q n = Some m' ∧ is_queue m' q (xs ++ [n]) ∧
    only_touches m m' (n :: q :: xs) [q].
Proof.
  intros Hq Hn Hnv. pose proof Hq as (_ & Hdup & _).
  destruct (exists_last (l := q :: xs)) as (l1 & a & Ha); [done|].
  assert (HL : q :: xs ++ [q] = l1 ++ a :: q :: []).
  { rewrite app_comm_cons, Ha, <- app_assoc. done. }
  destruct (linked_adjacent _ _ _ _ _ _ _ Hq HL) as [_ Hp].
  unfold udx__queue_tail, queue_before. rewrite load_prev_of, Hp. cbn [mbind option_bind].
  apply (insert_between m q xs (xs ++ [n]) l1 a q []); try done.
  - rewrite app_comm_cons, app_comm_cons, Ha, <- !app_assoc. done.
  - rewrite app_comm_cons. apply NoDup_app. split_and!; [done| |apply NoDup_singleton]. set_solver.
Qed.

Lemma head_rep m q xs n :
  is_queue m q xs → n ∉ q :: xs → is_Some (nodes m !! n) →
  ∃ m', udx__queue_head m q n = Some m' ∧ is_queue m' q (n :: xs) ∧
    only_touches m m' (n :: q :: xs) [q].
Proof.
  intros Hq Hn Hnv. pose proof Hq as (_ & Hdup & _).
  destruct (xs ++ [q]) as [|b l2] eqn:Hb; [by destruct xs|].
  assert (HL : q :: xs ++ [q] = [] ++ q :: b :: l2) by (by rewrite Hb).
  destruct (linked_adjacent _ _ _ _ _ _ _ Hq HL) as [Hx _].
  unfold udx__queue_head, queue_after. rewrite load_next_of, Hx. cbn [mbind option_bind].
  apply (insert_between m q xs (n :: xs) [] q b l2); try done.
  - cbn. by rewrite Hb.
  - apply NoDup_cons in Hdup as [Hq1 Hdup]. constructor; [set_solver|]. constructor; set_solver.
Qed.

(** C34: pushing a fresh node at the back or at the front of a queue appends it to,
    or prepends it to, the list the queue represents, and changes no other queue:
    only the node, the sentinel, the members and this queue's length. *)
Theorem queue_push_refines m q xs n :
  is_queue m q xs → n ∉ q :: xs → is_Some (nodes m !! n) →
  (∃ m', udx__queue_tail m q n = Some m' ∧ is_queue m' q (xs ++ [n]) ∧
     only_touches m m' (n :: q :: xs) [q]) ∧
  (∃ m', udx__queue_head m q n = Some m' ∧ is_queue m' q (n :: xs) ∧
     only_touches m m' (n :: q :: xs) [q]).
Proof. intros. split; [by apply tail_rep|by apply head_rep]. Qed.

(** ** Removal *)

Lemma unlink_rep m q l1 p l2 :
  is_queue m q (l1 ++ p :: l2) → Z.of_nat (length (l1 ++ p :: l2)) < 4294967296 →
  ∃ m', udx__queue_unlink m q p = Some m' ∧ is_queue m' q (l1 ++ l2) ∧
    nodes m' !! p = Some (mk_node None None) ∧
    only_touches m m' (q :: l1 ++ p :: l2) [q].
Proof.
  intros Hq Hsz. pose proof Hq as (Hlen & Hdup & Hl).
  destruct (exists_last (l := q :: l1)) as (k1 & a & Ha); [done|].
  destruct (l2 ++ [q]) as [|b k2] eqn:Hb; [by destruct l2|].
  assert (HL : q :: (l1 ++ p :: l2) ++ [q] = k1 ++ a :: p :: b :: k2).
  { rewrite <- app_assoc, app_comm_cons, Ha. cbn [app]. rewrite Hb, <- app_assoc. done. }
  destruct (linked_adjacent _ _ _ _ _ _ _ Hq HL) as [Hap Hpp].
  destruct (linked_adjacent m q (l1 ++ p :: l2) (k1 ++ [a]) p b k2 Hq) as [Hpb Hbp].
  { by rewrite HL, <- app_assoc. }
  assert (Hpq : p ∉ q :: l1 ++ l2).
  { rewrite app_comm_cons in Hdup. apply NoDup_app in Hdup as (_ & H1 & H2).
    apply NoDup_cons in H2 as [H2 _]. intros Hin. rewrite app_comm_cons in Hin.
    apply elem_of_app in Hin as [Hin|Hin]; [|done]. apply (H1 p Hin). by left. }
  assert (Hina : a ∈ q :: l1) by (rewrite Ha; set_solver).
  assert (Hinb : b ∈ l2 ++ [q]) by (rewrite Hb; set_solver).
  assert (Hpa : p ≠ a) by (intros ->; set_solver). assert (Hpb' : p ≠ b) by (intros ->; set_solver).
  assert (Hv : ∀ x, x ∈ q :: l1 ++ p :: l2 → is_Some (nodes m !! x)) by (intros; by apply (is_queue_valid m q (l1 ++ p :: l2))).
  assert (Hnp : is_Some (nodes m !! p)) by (apply Hv; set_solver).
  assert (Hna : is_Some (nodes m !! a)) by (apply Hv; set_solver).
  assert (Hnb : is_Some (nodes m !! b)) by (apply Hv; set_solver).
  unfold udx__queue_unlink, load_len. rewrite Hlen. cbn [mbind option_bind].
  rewrite u32_id by (unfold is_u32; lia).
  rewrite (proj2 (Z.eqb_neq _ 0)) by (rewrite length_app; cbn; lia). cbn [negb].
  set (m0 := store_len _ _ _).
  rewrite load_prev_of, load_next_of.
  change (prev_of m0 p) with (prev_of m p). change (next_of m0 p) with (next_of m p).
  rewrite Hpp, Hpb. cbn [mbind option_bind].
  qstore; [done|]. rewrite load_next_of, load_prev_of, Hnx, Hpv.
  change (prev_of m0 p) with (prev_of m p). change (next_of m0 p) with (next_of m p).
  rewrite decide_False, Hpb, Hpp by done. cbn [mbind option_bind].
  qstore; [qdom|]. qstore; [qdom|]. qstore; [qdom|].
  eexists. split; [done|]. split; [split_and!|split].
  - rewrite Hln2, Hln1, Hln0, Hln. unfold m0, store_len. cbn. rewrite lookup_insert_eq.
    do 2 f_equal. rewrite !length_app. cbn. lia.
  - rewrite app_comm_cons in Hdup. rewrite app_comm_cons. apply NoDup_app in Hdup as (H1 & H2 & H3).
    apply NoDup_cons in H3 as [_ H3]. apply NoDup_app. split_and!; try done. set_solver.
  - assert (HL' : q :: (l1 ++ l2) ++ [q] = k1 ++ a :: b :: k2).
    { rewrite <- app_assoc, app_comm_cons, Ha, Hb, <- app_assoc. done. }
    unfold linked. rewrite HL'.
    pose proof (cycle_nodup q (l1 ++ p :: l2) Hdup) as [Hd1 Hd2].
    eapply (linkedf_remove (next_of m) (prev_of m)); try rewrite <- HL; try done.
    + qlinks. rewrite decide_False, decide_True by done. done.
    + qlinks. rewrite decide_False, decide_True by done. done.
    + intros x Hxa Hxp. qlinks. by rewrite !decide_False.
    + intros x Hxb Hxp. qlinks. by rewrite !decide_False.
  - specialize (Hnx2 p). specialize (Hpv2 p). rewrite Hnx1, decide_True in Hnx2 by done.
    rewrite decide_True in Hpv2 by done. unfold next_of, prev_of in Hnx2, Hpv2.
    destruct (nodes m4 !! p) as [[nx pv]|]; [|done]. cbn in *. congruence.
  - split.
    + intros x Hx. rewrite Hfr2, Hfr1, Hfr0, Hfr; [done|clear -Hx Hina Hinb; set_solver..].
    + intros x Hx. rewrite Hln2, Hln1, Hln0, Hln. unfold m0, store_len. cbn.
      rewrite lookup_insert_ne; [done|set_solver].
Qed.

(** Unlinking a member removes exactly it from the represented list, leaves
    its pointers NULL and touches no other queue; the length assertion holds. *)
Theorem queue_unlink_refines m q l1 p l2 :
  is_queue m q (l1 ++ p :: l2) → Z.of_nat (length (l1 ++ p :: l2)) < 4294967296 →
  ∃ m', udx__queue_unlink m q p = Some m' ∧ is_queue m' q (l1 ++ l2) ∧
    nodes m' !! p = Some (mk_node None None) ∧
    only_touches m m' (q :: l1 ++ p :: l2) [q].
Proof. apply unlink_rep. Qed.

Lemma peek_rep m q xs : is_queue m q xs → udx__queue_peek m q = Some (head xs).
Proof.
  intros Hq. pose proof Hq as (_ & Hdup & _).
  destruct (xs ++ [q]) as [|b l2] eqn:Hb; [by destruct xs|].
  destruct (linked_adjacent m q xs [] q b l2 Hq) as [Hx _]; [by rewrite Hb|].
  unfold udx__queue_peek. rewrite load_next_of, Hx. cbn [mbind option_bind]. f_equal.
  destruct xs as [|x xs]; injection Hb as -> _.
  - by rewrite decide_True.
  - apply NoDup_cons in Hdup as [Hdup _]. rewrite decide_False; [done|]. intros [= ->]. set_solver.
Qed.

(** Shift returns NULL and changes nothing on an empty queue, and otherwise
    returns the first member and leaves the rest. *)
Theorem queue_shift_refines m q xs :
  is_queue m q xs → Z.of_nat (length xs) < 4294967296 →
  match xs with
  | [] => udx__queue_shift m q = Some (None, m)
  | x :: xs' => ∃ m', udx__queue_shift m q = Some (Some x, m') ∧ is_queue m' q xs' ∧
      only_touches m m' (q :: xs) [q]
  end.
Proof.
  intros Hq Hsz. unfold udx__queue_shift. rewrite (peek_rep _ _ _ Hq).
  destruct xs as [|x xs]; cbn [head mbind option_bind]; [done|].
  destruct (unlink_rep m q [] x xs Hq Hsz) as (m' & Hu & Hq' & _ & Ht).
  exists m'. cbn in Hu. rewrite Hu. done.
Qed.

Lemma init_queue m q :
  is_Some (nodes m !! q) →
  ∃ m', udx__queue_init m q = Some m' ∧ is_queue m' q [] ∧ only_touches m m' [q] [q].
Proof.
  intros Hq. unfold udx__queue_init. qstore; [done|]. qstore; [qdom|].
  eexists. split; [done|]. split; [split_and!|split]; unfold store_len; cbn.
  - by rewrite lookup_insert_eq.
  - apply NoDup_singleton.
  - change (next_of m1 q = Some (Some q) ∧ prev_of m1 q = Some (Some q) ∧ True).
    qlinks. by rewrite !decide_True.
  - intros x Hx. by rewrite Hfr0, Hfr.
  - intros x Hx. rewrite Hln0, Hln, lookup_insert_ne; [done|set_solver].
Qed.

(** ** Splicing *)

(** The final links of splice_tail before [t] is re-initialised: [a] is the last
    node of [q]'s cycle, [b] and [z] the first and last of [t]'s. *)
Lemma splice_eff m q t a b z lq lt :
  lens m !! q = Some lq → lens m !! t = Some lt →
  (∀ x, x ∈ [q; t; a; b; z] → is_Some (nodes m !! x)) →
  prev_of m q = Some (Some a) → next_of m t = Some (Some b) → prev_of m t = Some (Some z) →
  a ≠ t → b ≠ q → q ≠ t → (b = t ↔ z = t) →
  ∃ m1 m', let z' := if decide (b = t) then a else z in
    udx__queue_splice_tail m q t = udx__queue_init m1 t ∧
    udx__queue_init m1 t = Some m' ∧ is_queue m' t [] ∧
    lens m' = <[t := 0]> (<[q := u32 (lq + lt)]> (lens m)) ∧
    (∀ x, x ≠ t → next_of m' x = if decide (x = z') then Some (Some q)
                   else if decide (x = a) then Some (Some b) else next_of m x) ∧
    (∀ x, x ≠ t → prev_of m' x = if decide (x = q) then Some (Some z')
                   else if decide (x = b) then Some (Some a) else prev_of m x) ∧
    (∀ x, x ∉ [q; t; a; b; z] → nodes m' !! x = nodes m !! x).
Proof.
  intros Hlq Hlt Hv Hqa Htb Htz Hat Hbq Hqt Hbz. cbv zeta.
  unfold udx__queue_splice_tail, load_len. rewrite Hlq, Hlt. cbn [mbind option_bind].
  set (m0 := store_len _ _ _). rewrite load_prev_of, load_next_of.
  change (prev_of m0) with (prev_of m). change (next_of m0) with (next_of m).
  rewrite Hqa, Htb. cbn [mbind option_bind].
  assert (Hv0 : ∀ x, x ∈ [q; t; a; b; z] → is_Some (nodes m0 !! x)) by exact Hv.
  qstore; [apply Hv0; set_solver|].
  rewrite load_prev_of, load_next_of, Hnx, Hpv. rewrite decide_False by done.
  change (prev_of m0) with (prev_of m). change (next_of m0) with (next_of m).
  rewrite Hqa, Htb. cbn [mbind option_bind].
  qstore; [qdom; apply Hv0; set_solver|].
  rewrite load_prev_of, Hpv0, Hpv. change (prev_of m0) with (prev_of m). rewrite Htz.
  set (z' := if decide (b = t) then a else z).
  replace (if decide (t = b) then Some (Some a) else Some (Some z)) with (Some (Some z'))
    by (unfold z'; repeat case_decide; congruence).
  cbn [mbind option_bind].
  qstore; [qdom; apply Hv0; set_solver|].
  rewrite load_prev_of, Hpv1, decide_True by done. cbn [mbind option_bind].
  assert (Hz' : z' ∈ [q; t; a; b; z]) by (unfold z'; case_decide; set_solver).
  qstore; [qdom; apply Hv0; done|].
  destruct (init_queue m4 t) as (m' & Hi & Hqi & Hti & Hli).
  { qdom. apply Hv0. set_solver. }
  exists m4, m'. split; [done|]. split; [done|]. split; [done|].
  assert (Hz't : z' ≠ t) by (unfold z'; case_decide; naive_solver).
  assert (Hxt : ∀ x, x ≠ t → nodes m' !! x = nodes m4 !! x) by (intros x Hx; apply Hti; set_solver).
  split; [|split; [|split]].
  - apply map_eq. intros x. destruct (decide (x = t)) as [->|Hx].
    + rewrite lookup_insert_eq. by destruct Hqi as [-> _].
    + rewrite lookup_insert_ne, Hli by (done || set_solver). by rewrite Hln2, Hln1, Hln0, Hln.
  - intros x Hx. unfold next_of at 1. rewrite Hxt by done. change (node_next <$> nodes m4 !! x) with (next_of m4 x).
    qlinks. done.
  - intros x Hx. unfold prev_of at 1. rewrite Hxt by done. change (node_prev <$> nodes m4 !! x) with (prev_of m4 x).
    qlinks. done.
  - intros x Hx. rewrite Hxt by (clear -Hx; set_solver).
    rewrite Hfr2, Hfr1, Hfr0, Hfr; [done|clear -Hx Hz'; set_solver..].
Qed.

Lemma last_of_cycle m q xs : is_queue m q xs →
  ∃ l a, q :: xs = l ++ [a] ∧ prev_of m q = Some (Some a).
Proof.
  intros Hq. destruct (exists_last (l := q :: xs)) as (l & a & Ha); [done|].
  exists l, a. split; [done|].
  apply (linked_adjacent m q xs l a q [] Hq). by rewrite app_comm_cons, Ha, <- app_assoc.
Qed.

Lemma first_of_cycle m q xs : is_queue m q xs →
  ∃ b l, xs ++ [q] = b :: l ∧ next_of m q = Some (Some b).
Proof.
  intros Hq. destruct (xs ++ [q]) as [|b l] eqn:Hb; [by destruct xs|].
  exists b, l. split; [done|]. apply (linked_adjacent m q xs [] q b l Hq). by rewrite Hb.
Qed.

(** The joined cycle, at the level of the fields: [a] and [z] are the last nodes,
    [y] is the first of the second list. *)
Section join.
Context (nf pf nf' pf' : loc → option ptr) (q t a z y : loc) (xs ys l1 k1 : list loc).
Hypothesis (Ha : q :: xs = l1 ++ [a]) (Hz : y :: ys = k1 ++ [z]).
Hypothesis (Hdq : NoDup (q :: xs)) (Hdt : NoDup (t :: y :: ys)).
Hypothesis (Hdisj : ∀ x, x ∈ q :: xs → x ∈ t :: y :: ys → False).
Hypothesis (Hnf : ∀ x, x ≠ t → nf' x = if decide (x = z) then Some (Some q)
                       else if decide (x = a) then Some (Some y) else nf x).
Hypothesis (Hpf : ∀ x, x ≠ t → pf' x = if decide (x = q) then Some (Some z)
                       else if decide (x = y) then Some (Some a) else pf x).

Lemma join_notin x : x ∈ q :: xs → x ∉ t :: y :: ys.
Proof. intros H1 H2. by apply (Hdisj x). Qed.

Lemma join_a_in : a ∈ q :: xs.
Proof. rewrite Ha. apply elem_of_app. right. by left. Qed.
Lemma join_z_in : z ∈ y :: ys.
Proof. rewrite Hz. apply elem_of_app. right. by left. Qed.

Lemma join_left : linkedf nf pf (q :: xs ++ [q]) → linkedf nf' pf' (l1 ++ [a]).
Proof.
  intros Hk. rewrite app_comm_cons, Ha, <- app_assoc in Hk. apply linkedf_app in Hk as [Hk _].
  eapply linkedf_frame; [| |exact Hk].
  - rewrite removelast_last. intros x Hx.
    assert (Hxq : x ∈ q :: xs) by (rewrite Ha; apply elem_of_app; by left).
    pose proof (join_notin x Hxq) as Hxt. rewrite !not_elem_of_cons in Hxt.
    rewrite Hnf by apply Hxt. rewrite decide_False, decide_False; [done| |].
    + intros He. rewrite Ha in Hdq. apply NoDup_app in Hdq as (_ & H & _). apply (H x Hx).
      rewrite He. by left.
    + intros He. apply (join_notin x Hxq). right. rewrite He. apply join_z_in.
  - intros x Hx. assert (Hx' : x ∈ xs).
    { destruct l1 as [|w l1']; [by apply elem_of_nil in Hx|]. injection Ha as _ Ha'. by rewrite Ha'. }
    assert (Hxq : x ∈ q :: xs) by (by right).
    pose proof (join_notin x Hxq) as Hxt. rewrite !not_elem_of_cons in Hxt.
    rewrite Hpf by apply Hxt. rewrite decide_False, decide_False; [done|apply Hxt|].
    intros He. rewrite He in Hx'. by apply NoDup_cons in Hdq as [? _].
Qed.

Lemma join_right : linkedf nf pf (t :: (y :: ys) ++ [t]) → linkedf nf' pf' (y :: ys).
Proof.
  intros Hk. assert (Hky : linkedf nf pf (y :: ys)).
  { change (linkedf nf pf ([t] ++ (y :: ys) ++ [t])) in Hk.
    rewrite Hz, <- app_assoc, app_assoc in Hk. apply linkedf_app in Hk as [Hk _].
    rewrite <- app_assoc, <- Hz in Hk. apply Hk. }
  apply NoDup_cons in Hdt as [Hty Hdy].
  assert (Hyt : ∀ x, x ∈ y :: ys → x ≠ t) by (intros x Hx ->; done).
  assert (Hna : ∀ x, x ∈ q :: xs → x ∉ y :: ys).
  { intros x Hx Hx'. apply (join_notin x Hx). by right. }
  eapply linkedf_frame; [| |exact Hky].
  - rewrite Hz, removelast_last. intros x Hx.
    assert (Hx' : x ∈ y :: ys) by (rewrite Hz; apply elem_of_app; by left).
    rewrite Hnf by auto. rewrite decide_False, decide_False; [done| |].
    + intros He. apply (Hna a join_a_in). by rewrite <- He.
    + intros He. rewrite Hz in Hdy. apply NoDup_app in Hdy as (_ & H & _). apply (H x Hx).
      rewrite He. by left.
  - intros x Hx. cbn in Hx. rewrite Hpf by (apply Hyt; by right).
    rewrite decide_False, decide_False; [done| |].
    + intros He. rewrite He in Hx. by apply NoDup_cons in Hdy as [? _].
    + intros He. rewrite He in Hx. by apply (Hna q); [left|right].
Qed.

Lemma join_links :
  linkedf nf pf (q :: xs ++ [q]) → linkedf nf pf (t :: (y :: ys) ++ [t]) →
  linkedf nf' pf' (q :: (xs ++ y :: ys) ++ [q]).
Proof.
  intros Hkq Hkt.
  replace (q :: (xs ++ y :: ys) ++ [q]) with (l1 ++ a :: y :: ys ++ [q]).
  2: { transitivity ((q :: xs) ++ (y :: ys) ++ [q]); [by rewrite Ha, <- app_assoc|].
       cbn [app]. by rewrite <- app_assoc. }
  assert (Hy : y ∈ t :: y :: ys) by (right; by left).
  assert (Hzt : z ∈ t :: y :: ys) by (right; apply join_z_in).
  pose proof (join_notin a join_a_in) as Hna. rewrite !not_elem_of_cons in Hna.
  pose proof (join_notin q ltac:(by left)) as Hnq. rewrite !not_elem_of_cons in Hnq.
  assert (Hyt : y ≠ t) by (apply NoDup_cons in Hdt as [H _]; intros He; apply H; rewrite <- He; by left).
  assert (Hzt' : z ≠ t) by (apply NoDup_cons in Hdt as [H _]; intros He; apply H; rewrite <- He; apply join_z_in).
  assert (Haz : a ≠ z) by (intros He; apply (join_notin a join_a_in); by rewrite He).
  apply linkedf_app. split; [by apply join_left|]. cbn [linkedf].
  split; [rewrite Hnf by apply Hna; rewrite decide_False, decide_True; done|].
  split.
  { rewrite Hpf by done. rewrite decide_False, decide_True; [done..|]. destruct Hnq as (_ & H & _). congruence. }
  change (linkedf nf' pf' ((y :: ys) ++ [q])). rewrite Hz, <- app_assoc.
  apply linkedf_app. split; [rewrite <- Hz; by apply join_right|].
  cbn [linkedf app]. rewrite Hnf by done. rewrite decide_True by done.
  rewrite Hpf by apply Hnq. by rewrite decide_True.
Qed.
End join.

Section splice.
Context (m : qmem) (q t : loc) (xs ys : list loc).
Hypothesis (Hq : is_queue m q xs) (Ht : is_queue m t ys) (Hdisj : (q :: xs) ## (t :: ys)).

Lemma splice_sep x y : x ∈ q :: xs → y ∈ t :: ys → x ≠ y.
Proof. intros Hx Hy ->. by apply (Hdisj y). Qed.

Lemma splice_valid x : x ∈ q :: xs ∨ x ∈ t :: ys → is_Some (nodes m !! x).
Proof. intros [Hx|Hx]; [by apply (is_queue_valid m q xs)|by apply (is_queue_valid m t ys)]. Qed.

Lemma splice_rep :
  ∃ m', udx__queue_splice_tail m q t = Some m' ∧
    is_queue m' q (xs ++ ys) ∧ is_queue m' t [] ∧
    only_touches m m' (q :: xs ++ t :: ys) [q; t].
Proof using All.
  pose proof splice_sep as Hsep. pose proof splice_valid as Hval.
  pose proof Hq as (Hlq & Hdq & Hkq). pose proof Ht as (Hlt & Hdt & Hkt).
  destruct (last_of_cycle m q xs Hq) as (l1 & a & Ha & Hpa).
  destruct (last_of_cycle m t ys Ht) as (k1 & z & Hz & Hpz).
  destruct (first_of_cycle m t ys Ht) as (b & k2 & Hb & Hnb).
  assert (Haq : a ∈ q :: xs) by (rewrite Ha; apply elem_of_app; right; by left).
  assert (Hzt : z ∈ t :: ys) by (rewrite Hz; apply elem_of_app; right; by left).
  assert (Hbt : b ∈ t :: ys).
  { assert (H : b ∈ ys ++ [t]) by (rewrite Hb; by left). clear -H. set_solver. }
  assert (Hqq : q ∈ q :: xs) by (by left). assert (Htt : t ∈ t :: ys) by (by left).
  pose proof (Hsep _ _ Hqq Htt) as Hqt. pose proof (Hsep _ _ Haq Htt) as Hat.
  pose proof (Hsep _ _ Hqq Hbt) as Hqb.
  assert (Hbz : b = t ↔ z = t).
  { apply NoDup_cons in Hdt as [Hty _]. clear -Hty Hb Hz.
    destruct ys as [|y ys']; injection Hb as <- _; destruct k1 as [|k k1].
    - by injection Hz as <-.
    - by destruct k1.
    - done.
    - injection Hz as <- Hz. split; intros ->; exfalso; apply Hty; [by left|].
      rewrite Hz. apply elem_of_app. right. by left. }
  destruct (splice_eff m q t a b z _ _ Hlq Hlt) as (m1 & m' & Hs & Hi & Htq & Hlen & Hnx & Hpv & Hfr); try done.
  { intros x Hx. apply Hval. rewrite !elem_of_cons, elem_of_nil in Hx. naive_solver. }
  exists m'. rewrite Hs, Hi. split; [done|]. split; [split; [|split]|split; [done|split]].
  - rewrite Hlen, lookup_insert_ne, lookup_insert_eq by done. f_equal.
    rewrite u32_add_l, u32_add_r. f_equal. rewrite length_app. lia.
  - rewrite app_comm_cons. apply NoDup_app. apply NoDup_cons in Hdt as [_ Hdt].
    split_and!; [done| |done]. intros x Hx Hy. by apply (Hsep x x Hx); [right|].
  - destruct ys as [|y ys']; injection Hb as <- _.
    + rewrite app_nil_r. rewrite decide_True in * by done.
      assert (Htx : ∀ x, x ∈ q :: xs → x ≠ t) by (intros x Hx; by apply Hsep).
      eapply linkedf_frame; [| |exact Hkq].
      * rewrite app_comm_cons, removelast_last. intros x Hx. rewrite Hnx by auto.
        case_decide as Hxa; [subst x|done].
        unfold linked in Hkq. rewrite app_comm_cons, Ha, <- app_assoc in Hkq. apply linkedf_app in Hkq as [_ Hkq].
        symmetry. apply Hkq.
      * intros x Hx. cbn in Hx. assert (Hxq : x ∈ q :: xs) by (clear -Hx; set_solver).
        rewrite Hpv by auto. case_decide as Hx'; [by subst x|]. by rewrite decide_False by auto.
    + assert (Hyt : y ≠ t) by (apply NoDup_cons in Hdt as [H _]; intros ->; apply H; by left).
      rewrite decide_False in * by done. destruct k1 as [|k k1]; [naive_solver|]. injection Hz as <- Hz.
      by apply (join_links (next_of m) (prev_of m) _ _ q t a z y xs ys' l1 k1).
  - intros x Hx. apply Hfr. rewrite !not_elem_of_cons. clear -Hx Haq Hbt Hzt. set_solver.
  - intros x Hx. rewrite Hlen. clear -Hx. rewrite !lookup_insert_ne; set_solver.
Qed.
End splice.

(** Splice_tail moves every member of [t], in order, behind the members of
    [q] and leaves [t] empty, also when either is empty; the lengths add up. *)
Theorem queue_splice_refines m q t xs ys :
  is_queue m q xs → is_queue m t ys → (q :: xs) ## (t :: ys) →
  ∃ m', udx__queue_splice_tail m q t = Some m' ∧
    is_queue m' q (xs ++ ys) ∧ is_queue m' t [] ∧
    only_touches m m' (q :: xs ++ t :: ys) [q; t].
Proof. apply splice_rep. Qed.

(** ** Examples: queue 1 holds 2 and 3, queue 10 holds 11, node 5 is free. *)

Definition q_example : qmem := mk_qmem
  (list_to_map [(1, mk_node (Some 2) (Some 3)); (2, mk_node (Some 3) (Some 1));
                (3, mk_node (Some 1) (Some 2)); (5, mk_node None None);
                (10, mk_node (Some 11) (Some 11)); (11, mk_node (Some 10) (Some 10))]%positive)
  (list_to_map [(1%positive, 2); (10%positive, 1)]).

Lemma q_example_1 : is_queue q_example 1 [2; 3]%positive.
Proof. split; [done|]. split; [|by vm_compute]. apply (bool_decide_unpack _). by vm_compute. Qed.
Lemma q_example_10 : is_queue q_example 10 [11]%positive.
Proof. split; [done|]. split; [|by vm_compute]. apply (bool_decide_unpack _). by vm_compute. Qed.

Example queue_push_refines_witness :
  ∃ m', udx__queue_tail q_example 1 5 = Some m' ∧ is_queue m' 1 [2; 3; 5]%positive.
Proof.
  destruct (queue_push_refines q_example 1 [2; 3]%positive 5) as [(m' & H1 & H2 & _) _].
  - apply q_example_1.
  - apply (bool_decide_unpack _). by vm_compute.
  - by eexists.
  - exists m'. split; [exact H1|exact H2].
Defined.

Example queue_unlink_refines_witness :
  ∃ m', udx__queue_unlink q_example 1 3 = Some m' ∧ is_queue m' 1 [2]%positive.
Proof.
  destruct (queue_unlink_refines q_example 1 [2]%positive 3 []) as (m' & H1 & H2 & _).
  - apply q_example_1.
  - done.
  - exists m'. split; [exact H1|exact H2].
Defined.

Example queue_shift_refines_witness :
  ∃ m', udx__queue_shift q_example 1 = Some (Some 2%positive, m') ∧ is_queue m' 1 [3]%positive.
Proof.
  destruct (queue_shift_refines q_example 1 [2; 3]%positive q_example_1) as (m' & H1 & H2 & _).
  - done.
  - exists m'. split; [exact H1|exact H2].
Defined.

Example queue_splice_refines_witness :
  ∃ m', udx__queue_splice_tail q_example 1 10 = Some m' ∧
    is_queue m' 1 [2; 3; 11]%positive ∧ is_queue m' 10 [].
Proof.
  destruct (queue_splice_refines q_example 1 10 [2; 3]%positive [11]%positive) as (m' & H1 & H2 & H3 & _).
  - apply q_example_1.
  - apply q_example_10.
  - intros x Hx Hy. apply list_elem_of_In in Hx, Hy. cbn in Hx, Hy.
    destruct Hx as [<-|[<-|[<-|[]]]], Hy as [Hy|[Hy|[]]]; done.
  - exists m'. split; [exact H1|]. split; [exact H2|exact H3].
Defined.
