(* ===== verification/Link.v ===== *)
(** * The doubly linked lists of sockets, streams and listeners (src/link.h)

    The macros work on elements with [next] and [prev] pointers and on the pointer to the
    first one.  Ctx.v keeps such a list as the list of its elements: [link_add_refines] and
    [link_remove_refines] show that udx__link_add and udx__link_remove are the list operations
    of Socket.v, and [link_foreach_visits] that a traversal whose body unlinks the element it is
    at still visits every element once. *)

From S2P Require Import Prelude.

Abbreviation loc := positive.
Abbreviation ptr := (option positive).
Record link := mk_link { l_prev : ptr; l_next : ptr }.
#[export] Instance eta_link : Eta link := λ n, mk_link (l_prev n) (l_next n).
Abbreviation mem := (gmap positive link).

Definition store (g : link → link) (m : mem) (p : ptr) : option mem :=
  a ← p; n ← m !! a; Some (<[a := g n]> m).
Definition link_of (m : mem) (p : ptr) : option link := a ← p; m !! a.

(** ** The macros: the memory and the pointer [l] to the first element *)

Definition udx__link_add (m : mem) (l : ptr) (v : loc) : option (mem * ptr) :=
  m ← (match l with
       | None => store (λ n, n <| l_next := None |> <| l_prev := None |>) m (Some v)
       | Some _ =>
           m ← store (λ n, n <| l_prev := None |>) m (Some v);
           m ← store (λ n, n <| l_next := l |>) m (Some v);
           store (λ n, n <| l_prev := Some v |>) m l
       end);
  Some (m, Some v).

Definition udx__link_remove (m : mem) (l : ptr) (v : loc) : option (mem * ptr) :=
  n ← link_of m (Some v);
  m ← (match l_next n with
       | None => Some m
       | Some _ => store (λ x, x <| l_prev := l_prev n |>) m (l_next n)
       end);
  n ← link_of m (Some v);
  match l_prev n with
  | None => Some (m, l_next n)
  | Some _ => m ← store (λ x, x <| l_next := l_next n |>) m (l_prev n); Some (m, l)
  end.

(** [for (el = l; el != NULL; el = el->next) body]; the body works on a state that
    contains the links. *)
Section Foreach.
Context {S : Type} (links : S → mem) (body : S → loc → option S).
Fixpoint udx__link_foreach (fuel : nat) (s : S) (el : ptr) : option S :=
  match el with
  | None => Some s
  | Some v =>
      match fuel with
      | O => None
      | Datatypes.S fuel => s ← body s v; n ← link_of (links s) (Some v); udx__link_foreach fuel s (l_next n)
      end
  end.
End Foreach.

(** ** What a list represents *)

Definition head_or (l : list loc) (n : ptr) : ptr := match l with [] => n | a :: _ => Some a end.
Definition last_or (p : ptr) (l : list loc) : ptr := match list.last l with None => p | q => q end.
(** [l] is a run of elements between [p] and [n]. *)
Fixpoint chain (m : mem) (p : ptr) (l : list loc) (n : ptr) : Prop :=
  match l with [] => True | a :: l => m !! a = Some (mk_link p (head_or l n)) ∧ chain m (Some a) l n end.
Record is_linked (m : mem) (hd : ptr) (l : list loc) : Prop := {
  il_head : hd = head_or l None;
  il_chain : chain m None l None;
  il_nodup : NoDup l }.

Lemma last_or_snoc p l a : last_or p (l ++ [a]) = Some a.
Proof. unfold last_or. by rewrite last_snoc. Qed.
Lemma last_or_cons p a l : last_or p (a :: l) = last_or (Some a) l.
Proof. unfold last_or. rewrite last_cons. by destruct (list.last l). Qed.
Lemma head_or_app l1 l2 n : head_or (l1 ++ l2) n = head_or l1 (head_or l2 n).
Proof. by destruct l1. Qed.

Lemma chain_app m p l1 l2 n :
  chain m p (l1 ++ l2) n ↔ chain m p l1 (head_or l2 n) ∧ chain m (last_or p l1) l2 n.
Proof.
  revert p. induction l1 as [|a l1 IH]; intros p; cbn [app chain]; [naive_solver|].
  rewrite IH, head_or_app, last_or_cons. naive_solver.
Qed.

Lemma chain_frame m m' p l n : (∀ a, a ∈ l → m' !! a = m !! a) → chain m p l n → chain m' p l n.
Proof.
  revert p. induction l as [|a l IH]; intros p Hm; cbn; [done|]. intros [Ha Hl].
  split; [by rewrite Hm by left|]. apply IH; [|done]. intros ? ?. apply Hm. by right.
Qed.

Lemma store_some g m a x : m !! a = Some x → store g m (Some a) = Some (<[a := g x]> m).
Proof. intros E. unfold store. cbn. by rewrite E. Qed.

(** The first element gets another predecessor, the last one another successor. *)
Lemma chain_prev m p a l n p' : a ∉ l →
  chain m p (a :: l) n → ∃ m', store (λ x, x <| l_prev := p' |>) m (Some a) = Some m' ∧ chain m' p' (a :: l) n ∧
    ∀ b, b ≠ a → m' !! b = m !! b.
Proof.
  cbn [chain]. intros Ha [E Hl]. unfold store. cbn [mbind option_bind]. rewrite E. cbn.
  eexists. split; [done|]. rewrite lookup_insert_eq. split_and!; [done| |by intros; rewrite lookup_insert_ne].
  eapply chain_frame; [|done]. intros b Hb. rewrite lookup_insert_ne; [done|]. by intros ->.
Qed.
Lemma chain_next m p l a n n' : a ∉ l →
  chain m p (l ++ [a]) n → ∃ m', store (λ x, x <| l_next := n' |>) m (Some a) = Some m' ∧ chain m' p (l ++ [a]) n' ∧
    ∀ b, b ≠ a → m' !! b = m !! b.
Proof.
  rewrite chain_app. intros Ha [Hl [E _]]. unfold store. cbn [mbind option_bind]. rewrite E. cbn.
  eexists. split; [done|]. rewrite chain_app. cbn. rewrite lookup_insert_eq. split_and!; [|done|done|by intros; rewrite lookup_insert_ne].
  eapply chain_frame; [|exact Hl]. intros b Hb. rewrite lookup_insert_ne; [done|]. by intros ->.
Qed.

(** udx__link_add puts an element that is not in the list before all others. *)
Theorem link_add_refines m hd l v :
  is_linked m hd l → v ∉ l → is_Some (m !! v) →
  ∃ m', udx__link_add m hd v = Some (m', Some v) ∧ is_linked m' (Some v) (v :: l) ∧
    ∀ a, a ∉ v :: l → m' !! a = m !! a.
Proof.
  intros [-> Hc Hn] Hv [x Hx]. unfold udx__link_add. destruct l as [|b l]; cbn [head_or].
  - rewrite (store_some _ _ _ _ Hx). eexists. split; [done|]. split.
    + split; [done| |by constructor]. cbn. by rewrite lookup_insert_eq.
    + intros a Ha. rewrite lookup_insert_ne; [done|set_solver].
  - apply NoDup_cons in Hn as [Hb Hn]. rewrite (store_some _ _ _ _ Hx). cbn [mbind option_bind].
    rewrite (store_some _ _ v (mk_link None (l_next x))) by by rewrite lookup_insert_eq. cbn [mbind option_bind]. rewrite insert_insert_eq.
    destruct (chain_prev (<[v := mk_link None (Some b)]> m) None b l None (Some v) Hb) as (m' & E & Hc' & Hf).
    { eapply chain_frame; [|done]. intros a Ha. rewrite lookup_insert_ne; [done|]. by intros ->. }
    change (mk_link None (l_next x) <| l_next := Some b |>) with (mk_link None (Some b)). rewrite E. eexists. split; [done|]. split.
    + split; [done| |by apply NoDup_cons; split; [|apply NoDup_cons]]. split; [|done].
      rewrite Hf by set_solver. by rewrite lookup_insert_eq.
    + intros a Ha. rewrite Hf by set_solver. rewrite lookup_insert_ne; [done|set_solver].
Qed.

(** udx__link_remove takes out exactly the element it is given; the pointers of that
    element stay, so that a traversal can go on from it. *)
Theorem link_remove_refines m hd l1 v l2 :
  is_linked m hd (l1 ++ v :: l2) →
  ∃ m' hd', udx__link_remove m hd v = Some (m', hd') ∧ is_linked m' hd' (l1 ++ l2) ∧
    m' !! v = Some (mk_link (last_or None l1) (head_or l2 None)) ∧
    ∀ a, a ∉ l1 ++ l2 → m' !! a = m !! a.
Proof.
  intros [-> Hc Hn]. apply chain_app in Hc as [C1 [Ev C2]]. cbn [head_or] in C1.
  apply NoDup_app in Hn as (N1 & D & [Nv N2]%NoDup_cons).
  assert (v ∉ l1) as Nv1 by (intros H; by apply (D v H); left).
  assert (∀ a, a ∈ l1 → a ∉ l2) as D12 by (intros a Ha ?; apply (D a Ha); by right).
  unfold udx__link_remove, link_of. cbn [mbind option_bind]. rewrite Ev. cbn [mbind option_bind l_next l_prev].
  assert (∃ m1, match head_or l2 None with
                | None => Some m
                | Some _ => store (λ x, x <| l_prev := last_or None l1 |>) m (head_or l2 None)
                end = Some m1 ∧ chain m1 (last_or None l1) l2 None ∧ ∀ b, b ∉ l2 → m1 !! b = m !! b) as (m1 & -> & C2' & F1).
  { destruct l2 as [|b l2]; [by exists m|]. apply NoDup_cons in N2 as [Nb N2].
    destruct (chain_prev m (Some v) b l2 None (last_or None l1) Nb C2) as (m1 & E & C & F). exists m1. cbn [head_or].
    split_and!; [done|done|]. intros c Hc. apply F. set_solver. }
  cbn [mbind option_bind]. rewrite (F1 v Nv), Ev. cbn [mbind option_bind l_next l_prev].
  assert (chain m1 None l1 (Some v)) as C1' by (eapply chain_frame; [|exact C1]; intros a Ha; by apply F1, D12).
  destruct l1 as [|a l1 _] using rev_ind.
  - exists m1, (head_or l2 None). cbn. split_and!; [done| |by rewrite F1|done]. by split.
  - rewrite last_or_snoc in *. apply NoDup_app in N1 as (N1 & Na & _).
    assert (a ∉ l1) as Na1 by (intros H; apply (Na a H); left).
    destruct (chain_next m1 None l1 a (Some v) (head_or l2 None) Na1 C1') as (m2 & E & C & F).
    rewrite E. cbn [mbind option_bind]. eexists m2, _. split; [done|]. rewrite head_or_app.
    assert (a ∉ l2) as Na2 by (apply D12; set_solver). assert (v ≠ a) as Nva by set_solver. split_and!.
    + split.
      * rewrite <- app_assoc, !head_or_app. done.
      * apply chain_app. split; [done|]. rewrite last_or_snoc. eapply chain_frame; [|exact C2']. intros b Hb. apply F. by intros ->.
      * apply NoDup_app. split_and!; [|set_solver|done]. apply NoDup_app. split_and!; [done|set_solver|apply NoDup_singleton].
    + by rewrite F, F1.
    + intros b Hb. rewrite F by set_solver. apply F1. set_solver.
Qed.

(** ** Traversal *)

(** A body that notes the element and unlinks it when [p] says so. *)
Definition visit (p : loc → bool) (s : mem * ptr * list loc) (v : loc) : option (mem * ptr * list loc) :=
  let '(m, hd, log) := s in
  '(m, hd) ← (if p v then udx__link_remove m hd v else Some (m, hd));
  Some (m, hd, log ++ [v]).

Lemma visit_at p m hd log v :
  visit p (m, hd, log) v =
    ('(m, hd) ← (if p v then udx__link_remove m hd v else Some (m, hd)); Some (m, hd, log ++ [v])).
Proof. done. Qed.

(** C39: udx__link_foreach over a list whose elements the body may unlink while it is at
    them (as closing sockets and destroying streams does) ends, visits every element once
    and in order, and leaves the list of those that were not unlinked. *)
Theorem link_foreach_visits (p : loc → bool) m hd l :
  is_linked m hd l →
  ∃ m' hd', udx__link_foreach (λ s, s.1.1) (visit p) (length l) (m, hd, []) hd = Some (m', hd', l) ∧
    is_linked m' hd' (filter (λ v, p v = false) l).
Proof.
  intros H. assert (∀ l2 l1 m hd log, is_linked m hd (l1 ++ l2) →
    ∃ m' hd', udx__link_foreach (λ s, s.1.1) (visit p) (length l2) (m, hd, log) (head_or l2 None) = Some (m', hd', log ++ l2) ∧
      is_linked m' hd' (l1 ++ filter (λ v, p v = false) l2)) as Hgo.
  { clear. induction l2 as [|v l2 IH]; intros l1 m hd log H.
    { exists m, hd. cbn. by rewrite !app_nil_r in *. }
    pose proof H as [_ Hc _]. apply chain_app in Hc as [_ [Ev _]]. cbn [length udx__link_foreach head_or]. rewrite visit_at.
    destruct (p v) eqn:Ep.
    - destruct (link_remove_refines _ _ _ _ _ H) as (m1 & hd1 & -> & H1 & Ev1 & _). cbn [mbind option_bind fst].
      unfold link_of. cbn [mbind option_bind]. rewrite Ev1. cbn [mbind option_bind l_next].
      destruct (IH l1 m1 hd1 (log ++ [v]) H1) as (m2 & hd2 & E & H2). exists m2, hd2.
      rewrite E, <- app_assoc. split; [done|]. by rewrite filter_cons_False by (by rewrite Ep).
    - cbn [mbind option_bind fst]. unfold link_of. cbn [mbind option_bind]. rewrite Ev. cbn [mbind option_bind l_next].
      destruct (IH (l1 ++ [v]) m hd (log ++ [v])) as (m2 & hd2 & E & H2); [by rewrite <- app_assoc|]. exists m2, hd2.
      rewrite E, <- app_assoc. split; [done|]. rewrite filter_cons_True by done. by rewrite <- app_assoc in H2. }
  pose proof (il_head _ _ _ H) as ->. by apply (Hgo l []).
Qed.

(** ** Examples: the list 1, 2, 3 and the element 4 *)
Definition example_links : mem :=
  {[ 1%positive := mk_link None (Some 2%positive); 2%positive := mk_link (Some 1%positive) (Some 3%positive);
     3%positive := mk_link (Some 2%positive) None; 4%positive := mk_link None None ]}.
Lemma example_linked : is_linked example_links (Some 1%positive) [1%positive; 2%positive; 3%positive].
Proof. split; [done|by cbn|]. repeat constructor; set_solver. Qed.

Lemma link_remove_refines_witness :
  ∃ m' hd', udx__link_remove example_links (Some 1%positive) 1%positive = Some (m', hd') ∧
    is_linked m' hd' [2%positive; 3%positive].
Proof.
  destruct (link_remove_refines example_links (Some 1%positive) [] 1%positive [2%positive; 3%positive]) as (m' & hd' & E & H & _).
  - apply example_linked.
  - exists m', hd'. split; [exact E|exact H].
Defined.
Lemma link_foreach_visits_witness :
  ∃ m' hd', udx__link_foreach (λ s, s.1.1) (visit (λ _, true)) 3 (example_links, Some 1%positive, []) (Some 1%positive)
    = Some (m', hd', [1%positive; 2%positive; 3%positive]).
Proof.
  destruct (link_foreach_visits (λ _, true) example_links (Some 1%positive) [1%positive; 2%positive; 3%positive]) as (m' & hd' & E & _).
  - apply example_linked.
  - exists m', hd'. exact E.
Defined.
