(* ===== verification/StreamTable.v ===== *)
(** * The hash table of streams and timewaits (src/udx_stream_table.c)

    Entries live in memory; chains run through [hash_next].  [lookup] returns a
    pointer to the pointer that refers to the entry (or to the NULL that ends the
    chain): a [slot]. *)

From S2P Require Import Prelude Queue.

Inductive udx_stream_entry_type_t := UDX_ENTRY_UNUSED | UDX_ENTRY_STREAM | UDX_ENTRY_TIMEWAIT.

Record udx_stream_entry := mk_entry {
  local_id : Z; hash_next : ptr; entry_type : udx_stream_entry_type_t }.
#[global] Instance eta_entry : Eta udx_stream_entry :=
  λ e, mk_entry e.(local_id) e.(hash_next) e.(entry_type).

(** [udx->stream_table] and the memory of the entries. *)
Record tmem := mk_tmem { entries : gmap loc udx_stream_entry; stream_table : list ptr }.
#[global] Instance eta_tmem : Eta tmem := λ m, mk_tmem m.(entries) m.(stream_table).

Definition TABLE_SIZE : Z := 1024.

Inductive slot := Bucket (i : nat) | HashNext (l : loc).

Definition read_slot (m : tmem) (s : slot) : option ptr :=
  match s with
  | Bucket i => stream_table m !! i
  | HashNext l => e ← entries m !! l; Some (hash_next e)
  end.

Definition write_slot (m : tmem) (s : slot) (p : ptr) : option tmem :=
  match s with
  | Bucket i => t ← array_store (stream_table m) i p; Some (m <| stream_table := t |>)
  | HashNext l => e ← entries m !! l; Some (m <| entries := <[l := e <| hash_next := p |>]> (entries m) |>)
  end.

(** The loop of [lookup]. *)
Fixpoint lookup_from (fuel : nat) (m : tmem) (p : slot) (id : Z) : option slot :=
  cur ← read_slot m p;
  match cur with
  | None => Some p
  | Some l =>
      e ← entries m !! l;
      if local_id e =? id then Some p
      else match fuel with O => None | S fuel' => lookup_from fuel' m (HashNext l) id end
  end.

Definition table_lookup (m : tmem) (id : Z) : option slot :=
  lookup_from (size (entries m)) m (Bucket (Z.to_nat (id mod TABLE_SIZE))) id.

Definition udx_stream_entry_get (m : tmem) (id : Z) : option ptr :=
  p ← table_lookup m id; read_slot m p.

Definition udx_stream_entry_set (m : tmem) (new : loc) : option (ptr * tmem) :=
  e ← entries m !! new;
  p ← table_lookup m (local_id e);
  old ← read_slot m p;
  match old with
  | Some o =>
      oe ← entries m !! o;
      m ← write_slot m (HashNext new) (hash_next oe);
      m ← write_slot m p (Some new);
      Some (Some o, m)
  | None =>
      m ← write_slot m p (Some new);
      m ← write_slot m (HashNext new) None;
      Some (None, m)
  end.

Definition udx_stream_entry_remove (m : tmem) (id : Z) : option (ptr * tmem) :=
  p ← table_lookup m id;
  ret ← read_slot m p;
  match ret with
  | Some l => e ← entries m !! l; m ← write_slot m p (hash_next e); Some (ret, m)
  | None => Some (None, m)
  end.

(** ** The map a table represents *)

(** The entries from pointer [p] to pointer [q]. *)
Fixpoint seg (ent : gmap loc udx_stream_entry) (p : ptr) (xs : list loc) (q : ptr) : Prop :=
  match xs with
  | [] => p = q
  | l :: t => p = Some l ∧ ∃ e, ent !! l = Some e ∧ seg ent (hash_next e) t q
  end.

Definition id_of (m : tmem) (l : loc) : option Z := local_id <$> entries m !! l.

Record bucket_rep (m : tmem) (T : gmap Z loc) (i : nat) (xs : list loc) : Prop := {
  bucket_seg : ∃ p, stream_table m !! i = Some p ∧ seg (entries m) p xs None;
  bucket_in : ∀ l, l ∈ xs → ∃ id, id_of m l = Some id ∧ Z.to_nat (id mod TABLE_SIZE) = i ∧ T !! id = Some l;
  bucket_all : ∀ id l, T !! id = Some l → Z.to_nat (id mod TABLE_SIZE) = i → l ∈ xs ∧ id_of m l = Some id;
  bucket_nodup : NoDup xs }.

Definition table_rep (m : tmem) (T : gmap Z loc) : Prop :=
  length (stream_table m) = 1024%nat ∧ ∀ i, (i < 1024)%nat → ∃ xs, bucket_rep m T i xs.

Lemma seg_app ent p xs ys q : seg ent p (xs ++ ys) q ↔ ∃ r, seg ent p xs r ∧ seg ent r ys q.
Proof.
  revert p. induction xs as [|l xs IH]; intros p; cbn [app seg]; [naive_solver|].
  setoid_rewrite IH. naive_solver.
Qed.

Lemma seg_frame ent ent' p xs q :
  (∀ l, l ∈ xs → ent' !! l = ent !! l) → seg ent p xs q → seg ent' p xs q.
Proof.
  revert p. induction xs as [|l xs IH]; intros p He; cbn [seg]; [done|].
  intros (-> & e & Hl & Hs). split; [done|]. exists e. rewrite He by (by left).
  split; [done|]. apply IH; [|done]. intros k Hk. apply He. by right.
Qed.

(** Where the walk stands after passing [xs] from slot [s]. *)
Fixpoint slot_after (s : slot) (xs : list loc) : slot :=
  match xs with [] => s | l :: t => slot_after (HashNext l) t end.

Lemma slot_after_snoc s xs l : slot_after s (xs ++ [l]) = HashNext l.
Proof. revert s. induction xs as [|k xs IH]; intros s; cbn; auto. Qed.

Lemma read_slot_after m s p xs q :
  read_slot m s = Some p → seg (entries m) p xs q → read_slot m (slot_after s xs) = Some q.
Proof.
  revert s p. induction xs as [|l xs IH]; intros s p Hr; cbn [seg]; [by intros <-|].
  intros (-> & e & He & Hs). cbn [slot_after]. apply (IH _ (hash_next e)); [|done].
  cbn. by rewrite He.
Qed.

Lemma id_of_entry m l id : id_of m l = Some id → ∃ e, entries m !! l = Some e ∧ local_id e = id.
Proof. unfold id_of. destruct (entries m !! l) as [e|]; [|done]. intros [= <-]. eauto. Qed.

(** The walk over a chain in which [id] does not occur up to [q]. *)
Lemma lookup_from_seg fuel m s p xs q id :
  read_slot m s = Some p → seg (entries m) p xs q → (∀ l, l ∈ xs → id_of m l ≠ Some id) →
  (length xs <= fuel)%nat →
  (q = None ∨ ∃ l, q = Some l ∧ id_of m l = Some id) →
  lookup_from fuel m s id = Some (slot_after s xs).
Proof.
  revert fuel s p. induction xs as [|l xs IH]; intros fuel s p Hr Hs Hid Hf Hq; cbn [seg] in Hs.
  - subst p. destruct fuel; cbn [lookup_from]; rewrite Hr; cbn [mbind option_bind].
    all: destruct Hq as [->|(l & -> & (e & He & <-)%id_of_entry)]; [done|].
    all: rewrite He; cbn [mbind option_bind]; by rewrite Z.eqb_refl.
  - destruct Hs as (-> & e & He & Hs). destruct fuel as [|fuel]; [cbn in Hf; lia|].
    cbn [lookup_from]. rewrite Hr. cbn [mbind option_bind]. rewrite He. cbn [mbind option_bind].
    assert (Hne : local_id e ≠ id).
    { intros <-. apply (Hid l); [by left|]. unfold id_of. by rewrite He. }
    rewrite (proj2 (Z.eqb_neq _ _) Hne). cbn [slot_after].
    apply (IH fuel _ (hash_next e)); try done.
    + cbn. by rewrite He.
    + intros k Hk. apply Hid. by right.
    + cbn in Hf. lia.
Qed.

(** Redirecting the slot at the end of [xs]. *)
Lemma write_slot_after m i xs p q r :
  length (stream_table m) = 1024%nat → (i < 1024)%nat → NoDup xs →
  stream_table m !! i = Some p → seg (entries m) p xs q →
  ∃ m' p', write_slot m (slot_after (Bucket i) xs) r = Some m' ∧
    length (stream_table m') = 1024%nat ∧
    stream_table m' !! i = Some p' ∧ seg (entries m') p' xs r ∧
    (∀ j, j ≠ i → stream_table m' !! j = stream_table m !! j) ∧
    (∀ l, l ∉ xs → entries m' !! l = entries m !! l) ∧
    (∀ l, id_of m' l = id_of m l).
Proof.
  intros Hlen Hi Hnd Hp Hs. destruct (decide (xs = [])) as [->|Hne].
  - cbn. rewrite array_store_Some by lia. cbn. eexists _, r. split; [done|]. cbn.
    rewrite length_insert, list_lookup_insert_eq by lia. split_and!; try done.
    intros j Hj. by rewrite list_lookup_insert_ne.
  - destruct (exists_last Hne) as (k & z & ->). rewrite slot_after_snoc.
    apply NoDup_app in Hnd as (_ & Hzk & _). apply seg_app in Hs as (pz & Hk & Hz).
    cbn [seg] in Hz. destruct Hz as (-> & e & He & <-).
    cbn [write_slot]. rewrite He. cbn [mbind option_bind]. eexists _, p. split; [done|]. cbn.
    split; [done|]. split; [done|]. split; [|split; [done|split]].
    + apply seg_app. exists (Some z). split.
      * eapply seg_frame; [|exact Hk]. intros l Hl. rewrite lookup_insert_ne; [done|].
        intros <-. apply (Hzk z Hl). by left.
      * cbn [seg]. split; [done|]. eexists. by rewrite lookup_insert_eq.
    + intros l Hl. rewrite lookup_insert_ne; [done|]. intros <-. apply Hl. apply elem_of_app. right. by left.
    + intros l. unfold id_of. cbn. destruct (decide (l = z)) as [->|].
      * by rewrite lookup_insert_eq, He.
      * by rewrite lookup_insert_ne.
Qed.

Lemma seg_size ent p xs q : NoDup xs → seg ent p xs q → (length xs <= size ent)%nat.
Proof.
  intros Hnd Hs.
  assert (Hd : ∀ l, l ∈ xs → is_Some (ent !! l)).
  { clear Hnd. revert p Hs. induction xs as [|k xs IH]; intros p Hs l Hl; [by apply elem_of_nil in Hl|].
    destruct Hs as (-> & e & He & Hs). apply elem_of_cons in Hl as [->|Hl]; eauto. }
  rewrite <- size_dom, <- (size_list_to_set (C := gset loc) xs) by done.
  apply subseteq_size. intros l. rewrite elem_of_list_to_set, elem_of_dom. auto.
Qed.

Definition bucket_of (id : Z) : nat := Z.to_nat (id mod TABLE_SIZE).
Lemma bucket_of_lt id : (bucket_of id < 1024)%nat.
Proof. unfold bucket_of, TABLE_SIZE. pose proof (Z.mod_pos_bound id 1024). lia. Qed.

(** Looking an id up: the chain splits at its entry, or ends without one. *)
Lemma table_lookup_rep m T id :
  table_rep m T →
  ∃ xs p, bucket_rep m T (bucket_of id) xs ∧ stream_table m !! bucket_of id = Some p ∧
  match T !! id with
  | Some l => ∃ l1 l2, xs = l1 ++ l :: l2 ∧ seg (entries m) p l1 (Some l) ∧
      table_lookup m id = Some (slot_after (Bucket (bucket_of id)) l1)
  | None => seg (entries m) p xs None ∧
      table_lookup m id = Some (slot_after (Bucket (bucket_of id)) xs)
  end.
Proof.
  intros [Hlen Hb]. destruct (Hb _ (bucket_of_lt id)) as (xs & Hx).
  pose proof Hx as [(p & Hp & Hs) Hin Hall Hnd]. exists xs, p. split; [done|]. split; [done|].
  pose proof (seg_size _ _ _ _ Hnd Hs) as Hsz.
  destruct (T !! id) as [l|] eqn:Hid.
  - destruct (Hall id l Hid eq_refl) as [Hl Hli].
    apply list_elem_of_split in Hl as (l1 & l2 & ->). exists l1, l2. split; [done|].
    apply seg_app in Hs as (r & Hs1 & Hs2). pose proof Hs2 as [-> _]. split; [done|].
    apply (lookup_from_seg _ m _ p l1 (Some l) id); try done; [| |eauto].
    + intros k Hk Hkid. destruct (Hin k) as (id' & Hid' & _ & HT); [apply elem_of_app; by left|].
      rewrite Hkid in Hid'. injection Hid' as <-. rewrite Hid in HT. injection HT as <-.
      apply NoDup_app in Hnd as (_ & H & _). apply (H l Hk). by left.
    + rewrite length_app in Hsz. lia.
  - split; [done|]. apply (lookup_from_seg _ m _ p xs None id); try done; [|by left].
    intros k Hk Hkid. destruct (Hin k Hk) as (id' & Hid' & _ & HT). congruence.
Qed.

(** A new chain in the bucket of [id] makes a new table. *)
Lemma table_rep_update m m' T T' id xs ys p' :
  table_rep m T → bucket_rep m T (bucket_of id) xs →
  length (stream_table m') = 1024%nat →
  stream_table m' !! bucket_of id = Some p' → seg (entries m') p' ys None →
  (∀ j, j ≠ bucket_of id → stream_table m' !! j = stream_table m !! j) →
  (∀ l, l ∉ xs → l ∉ ys → entries m' !! l = entries m !! l) →
  (∀ l, id_of m' l = id_of m l) → NoDup ys →
  (∀ id', bucket_of id' ≠ bucket_of id → T' !! id' = T !! id') →
  (∀ l, l ∈ ys → ∃ id', id_of m l = Some id' ∧ bucket_of id' = bucket_of id ∧ T' !! id' = Some l) →
  (∀ id' l, T' !! id' = Some l → bucket_of id' = bucket_of id → l ∈ ys ∧ id_of m l = Some id') →
  table_rep m' T'.
Proof.
  intros [Hlen Hb] [_ Hxin _ _] Hlen' Hp' Hs' Hot Hoe Hid Hnd HT Hin Hall.
  split; [done|]. intros j Hj. destruct (decide (j = bucket_of id)) as [->|Hne].
  - exists ys. split; try done; [eauto| |].
    + intros l Hl. destruct (Hin l Hl) as (id' & H1 & H2 & H3). exists id'. by rewrite Hid.
    + intros id' l HTl Hbi. rewrite Hid. by apply Hall.
  - destruct (Hb j Hj) as (zs & [(p & Hp & Hs) Hzin Hzall Hznd]). exists zs.
    assert (Hz : ∀ l, l ∈ zs → l ∉ xs ∧ l ∉ ys).
    { intros l Hl. destruct (Hzin l Hl) as (i1 & H1 & H2 & H3). split; intros Hx.
      - destruct (Hxin l Hx) as (i2 & H4 & H5 & H6). congruence.
      - destruct (Hin l Hx) as (i2 & H4 & H5 & H6). unfold bucket_of in *. congruence. }
    split; try done.
    + exists p. rewrite Hot by done. split; [done|]. eapply seg_frame; [|exact Hs].
      intros l Hl. by apply Hoe; apply Hz.
    + intros l Hl. destruct (Hzin l Hl) as (i1 & H1 & H2 & H3). exists i1.
      rewrite Hid, HT; [done|]. unfold bucket_of in *. congruence.
    + intros id' l HTl Hbi. rewrite Hid. apply Hzall; [|done].
      rewrite <- HT; [done|]. unfold bucket_of in *. congruence.
Qed.

Lemma get_rep m T id : table_rep m T → udx_stream_entry_get m id = Some (T !! id).
Proof.
  intros Hr. destruct (table_lookup_rep m T id Hr) as (xs & p & _ & Hp & H).
  unfold udx_stream_entry_get.
  destruct (T !! id) as [l|]; [destruct H as (l1 & l2 & _ & Hs & ->)|destruct H as [Hs ->]];
    cbn [mbind option_bind]; by apply (read_slot_after m (Bucket (bucket_of id)) p).
Qed.

(** An id's entry, seen from its chain. *)
Lemma bucket_entry m T id xs l :
  bucket_rep m T (bucket_of id) xs → T !! id = Some l → ∃ e, entries m !! l = Some e ∧ local_id e = id.
Proof.
  intros [_ _ Hall _] HT. destruct (Hall id l HT eq_refl) as [_ Hid]. by apply id_of_entry.
Qed.

Lemma remove_table_rep m T id :
  table_rep m T →
  ∃ m', udx_stream_entry_remove m id = Some (T !! id, m') ∧ table_rep m' (delete id T) ∧
    (∀ l, id_of m' l = id_of m l).
Proof.
  intros Hr. pose proof (table_lookup_rep m T id Hr) as (xs & p & Hb & Hp & H).
  unfold udx_stream_entry_remove. destruct (T !! id) as [l|] eqn:HT.
  - destruct H as (l1 & l2 & -> & Hs & ->). cbn [mbind option_bind].
    rewrite (read_slot_after m (Bucket (bucket_of id)) p l1 (Some l)) by done. cbn [mbind option_bind].
    destruct (bucket_entry _ _ _ _ _ Hb HT) as (e & He & Heid). rewrite He. cbn [mbind option_bind].
    pose proof Hb as [(p0 & Hp0 & Hs0) Hin Hall Hnd]. assert (p0 = p) as -> by congruence.
    pose proof Hnd as Hnd'. apply NoDup_app in Hnd' as (Hnd1 & Hnd2 & Hnd3).
    apply NoDup_cons in Hnd3 as [Hl2 Hnd3].
    destruct (write_slot_after m (bucket_of id) l1 p (Some l) (hash_next e))
      as (m' & p' & Hw & Hlen' & Hp' & Hs' & Hot & Hoe & Hid'); try done; [apply Hr|apply bucket_of_lt|].
    rewrite Hw. cbn [mbind option_bind]. exists m'. split; [done|]. split; [|done].
    apply seg_app in Hs0 as (r & Hs1 & Hs2). cbn [seg] in Hs2.
    destruct Hs2 as (-> & e' & He' & Hs2). assert (e' = e) as -> by congruence.
    eapply (table_rep_update m m' T _ id (l1 ++ l :: l2) (l1 ++ l2)); try done.
    + apply seg_app. exists (hash_next e). split; [done|]. eapply seg_frame; [|exact Hs2].
      intros k Hk. apply Hoe. intros Hk1. apply (Hnd2 k Hk1). by right.
    + intros k Hk _. apply Hoe. intros Hk'. apply Hk, elem_of_app. by left.
    + apply NoDup_app. split_and!; try done. intros k Hk1 Hk2. apply (Hnd2 k Hk1). by right.
    + intros id' Hne. rewrite lookup_delete_ne; congruence.
    + intros k Hk. assert (Hkl : k ≠ l).
      { intros ->. apply elem_of_app in Hk as [Hk|Hk]; [|done]. apply (Hnd2 l Hk). by left. }
      destruct (Hin k) as (id' & H1 & H2 & H3); [set_solver|]. exists id'. split_and!; try done.
      rewrite lookup_delete_ne; [done|]. congruence.
    + intros id' k [Hne HTk]%lookup_delete_Some Hbi.
      destruct (Hall id' k HTk Hbi) as [Hk Hki]. split; [|done].
      assert (k ≠ l) by (intros ->; unfold id_of in Hki; rewrite He in Hki; cbn in Hki; congruence).
      set_solver.
  - destruct H as [Hs ->]. cbn [mbind option_bind].
    rewrite (read_slot_after m (Bucket (bucket_of id)) p xs None) by done. cbn [mbind option_bind].
    exists m. split; [done|]. split; [|done]. by rewrite delete_id.
Qed.

(** Looking up any id returns the entry the table's map holds for it, or NULL;
    removing it returns the same and deletes that id alone. *)
Theorem table_get_remove_refine m T id :
  table_rep m T →
  udx_stream_entry_get m id = Some (T !! id) ∧
  ∃ m', udx_stream_entry_remove m id = Some (T !! id, m') ∧ table_rep m' (delete id T) ∧
    (∀ l, id_of m' l = id_of m l).
Proof. intros. split; [by apply get_rep|by apply remove_table_rep]. Qed.

Lemma write_hash_next m new r e :
  entries m !! new = Some e →
  ∃ m1, write_slot m (HashNext new) r = Some m1 ∧ stream_table m1 = stream_table m ∧
    entries m1 !! new = Some (mk_entry (local_id e) r (entry_type e)) ∧
    (∀ l, l ≠ new → entries m1 !! l = entries m !! l) ∧ (∀ l, id_of m1 l = id_of m l).
Proof.
  intros He. cbn [write_slot]. rewrite He. cbn. eexists. split; [done|]. cbn.
  rewrite lookup_insert_eq. split_and!; try done.
  - intros l Hl. by rewrite lookup_insert_ne.
  - intros l. unfold id_of. cbn. destruct (decide (l = new)) as [->|].
    + by rewrite lookup_insert_eq, He.
    + by rewrite lookup_insert_ne.
Qed.

Section set.
Context (m : tmem) (T : gmap Z loc) (new : loc) (e : udx_stream_entry).
Hypothesis (Hr : table_rep m T) (He : entries m !! new = Some e).
Hypothesis (Hfresh : ∀ id, T !! id ≠ Some new).
Let id := local_id e.

Lemma new_id : id_of m new = Some id.
Proof. unfold id_of. by rewrite He. Qed.

Lemma new_notin i xs : bucket_rep m T i xs → new ∉ xs.
Proof.
  intros [_ Hin _ _] Hn. destruct (Hin new Hn) as (id' & _ & _ & HT). by apply (Hfresh id').
Qed.

Lemma set_replace l1 o l2 p oe :
  bucket_rep m T (bucket_of id) (l1 ++ o :: l2) → T !! id = Some o →
  stream_table m !! bucket_of id = Some p → seg (entries m) p l1 (Some o) →
  entries m !! o = Some oe →
  ∃ m1 m', write_slot m (HashNext new) (hash_next oe) = Some m1 ∧
    write_slot m1 (slot_after (Bucket (bucket_of id)) l1) (Some new) = Some m' ∧
    table_rep m' (<[id := new]> T) ∧ (∀ l, id_of m' l = id_of m l).
Proof.
  intros Hb HT Hp Hs Hoe. pose proof (new_notin _ _ Hb) as Hnew.
  destruct (write_hash_next m new (hash_next oe) e He) as (m1 & Hw1 & Ht1 & Hn1 & Ho1 & Hi1).
  pose proof Hb as [(p0 & Hp0 & Hs0) Hin Hall Hnd]. assert (p0 = p) as -> by congruence.
  pose proof Hnd as Hnd'. apply NoDup_app in Hnd' as (Hnd1 & Hnd2 & Hnd3).
  apply NoDup_cons in Hnd3 as [Hl2 Hnd3].
  assert (new ∉ l1 ∧ new ∉ l2) as [Hnl1 Hnl2] by (clear -Hnew; set_solver).
  destruct (write_slot_after m1 (bucket_of id) l1 p (Some o) (Some new))
    as (m' & p' & Hw & Hlen' & Hp' & Hs' & Hot & Ho & Hid'); try done.
  1: rewrite Ht1; apply Hr. 1: apply bucket_of_lt. 1: by rewrite Ht1.
  1: { eapply seg_frame; [|exact Hs]. intros l Hl. apply Ho1. intros Heq. by rewrite Heq in Hl. }
  exists m1, m'. split_and!; try done; [|intros l; by rewrite Hid', Hi1].
  apply seg_app in Hs0 as (r & Hs1 & Hs2). cbn [seg] in Hs2.
  destruct Hs2 as (-> & e' & He' & Hs2). assert (e' = oe) as -> by congruence.
  eapply (table_rep_update m m' T _ id (l1 ++ o :: l2) (l1 ++ new :: l2)); try done.
  - apply seg_app. exists (Some new). split; [done|]. cbn [seg]. split; [done|].
    exists (mk_entry (local_id e) (hash_next oe) (entry_type e)). rewrite Ho, Hn1 by done.
    split; [done|]. cbn. eapply seg_frame; [|exact Hs2].
    intros k Hk. rewrite Ho, Ho1; [done| |].
    + intros Heq. by rewrite Heq in Hk.
    + intros Hk1. apply (Hnd2 k Hk1). by right.
  - intros j Hj. by rewrite Hot, Ht1.
  - intros k Hk1 Hk2. rewrite Ho, Ho1; [done|..]; clear -Hk1 Hk2; set_solver.
  - intros l. by rewrite Hid', Hi1.
  - apply NoDup_app. split_and!; [done| |by apply NoDup_cons].
    intros k Hk1 [Heq|Hk2]%elem_of_cons; [by rewrite Heq in Hk1|]. apply (Hnd2 k Hk1). by right.
  - intros id' Hne. rewrite lookup_insert_ne; congruence.
  - intros k Hk. destruct (decide (k = new)) as [->|Hkn].
    + exists id. rewrite lookup_insert_eq. split; [apply new_id|done].
    + assert (Hko : k ≠ o).
      { intros ->. apply elem_of_app in Hk as [Hk|[->|Hk]%elem_of_cons]; try done.
        apply (Hnd2 o Hk). by left. }
      destruct (Hin k) as (id' & H1 & H2 & H3); [clear -Hk Hkn; set_solver|].
      exists id'. split_and!; try done. rewrite lookup_insert_ne; congruence.
  - intros id' k HTk Hbi. apply lookup_insert_Some in HTk as [[<- <-]|[Hne HTk]].
    + split; [clear; set_solver|apply new_id].
    + destruct (Hall id' k HTk Hbi) as [Hk Hki]. split; [|done].
      assert (k ≠ o) by (intros ->; destruct (Hall id o HT eq_refl); congruence).
      clear -Hk H. set_solver.
Qed.

Lemma set_append xs p :
  bucket_rep m T (bucket_of id) xs → T !! id = None →
  stream_table m !! bucket_of id = Some p → seg (entries m) p xs None →
  ∃ m1 m', write_slot m (slot_after (Bucket (bucket_of id)) xs) (Some new) = Some m1 ∧
    write_slot m1 (HashNext new) None = Some m' ∧
    table_rep m' (<[id := new]> T) ∧ (∀ l, id_of m' l = id_of m l).
Proof.
  intros Hb HT Hp Hs. pose proof (new_notin _ _ Hb) as Hnew. pose proof Hb as [_ Hin Hall Hnd].
  destruct (write_slot_after m (bucket_of id) xs p None (Some new))
    as (m1 & p1 & Hw1 & Hlen1 & Hp1 & Hs1 & Hot1 & Ho1 & Hid1); try done; [apply Hr|apply bucket_of_lt|].
  destruct (write_hash_next m1 new None e) as (m' & Hw & Ht & Hn & Ho & Hi); [by rewrite Ho1|].
  exists m1, m'. split_and!; try done; [|intros l; by rewrite Hi, Hid1].
  eapply (table_rep_update m m' T _ id xs (xs ++ [new])); try done.
  - by rewrite Ht.
  - rewrite Ht. exact Hp1.
  - apply seg_app. exists (Some new). split.
    + eapply seg_frame; [|exact Hs1]. intros l Hl. apply Ho. intros ->. done.
    + cbn [seg]. split; [done|]. eexists. by rewrite Hn.
  - intros j Hj. by rewrite Ht, Hot1.
  - intros k Hk1 Hk2. rewrite Ho, Ho1; [done..|]. intros ->. apply Hk2, elem_of_app. right. by left.
  - intros l. by rewrite Hi, Hid1.
  - apply NoDup_app. split_and!; [done| |apply NoDup_singleton].
    intros k Hk1 Hk2. apply elem_of_cons in Hk2 as [->|Hk2]; [done|by apply elem_of_nil in Hk2].
  - intros id' Hne. rewrite lookup_insert_ne; congruence.
  - intros k Hk. apply elem_of_app in Hk as [Hk|Hk].
    + destruct (Hin k Hk) as (id' & H1 & H2 & H3). exists id'. split_and!; try done.
      rewrite lookup_insert_ne; congruence.
    + apply elem_of_cons in Hk as [->|Hk]; [|by apply elem_of_nil in Hk].
      exists id. rewrite lookup_insert_eq. split; [apply new_id|done].
  - intros id' k HTk Hbi. apply lookup_insert_Some in HTk as [[<- <-]|[Hne HTk]].
    + split; [apply elem_of_app; right; by left|apply new_id].
    + destruct (Hall id' k HTk Hbi) as [Hk Hki]. split; [apply elem_of_app; by left|done].
Qed.
End set.

Lemma set_table_rep m T new e :
  table_rep m T → entries m !! new = Some e → (∀ id, T !! id ≠ Some new) →
  ∃ m', udx_stream_entry_set m new = Some (T !! local_id e, m') ∧
    table_rep m' (<[local_id e := new]> T) ∧ (∀ l, id_of m' l = id_of m l).
Proof.
  intros Hr He Hfresh.
  destruct (table_lookup_rep m T (local_id e) Hr) as (xs & p & Hb & Hp & H).
  unfold udx_stream_entry_set. rewrite He. cbn [mbind option_bind].
  destruct (T !! local_id e) as [o|] eqn:HT.
  - destruct H as (l1 & l2 & -> & Hs & ->). cbn [mbind option_bind].
    rewrite (read_slot_after m (Bucket (bucket_of (local_id e))) p l1 (Some o)) by done. cbn [mbind option_bind].
    destruct (bucket_entry _ _ _ _ _ Hb HT) as (oe & Hoe & _). rewrite Hoe. cbn [mbind option_bind].
    destruct (set_replace m T new e Hr He Hfresh l1 o l2 p oe) as (m1 & m' & H1 & H2 & H3 & H4); try done.
    rewrite H1. cbn [mbind option_bind]. rewrite H2. cbn [mbind option_bind]. eauto.
  - destruct H as [Hs ->]. cbn [mbind option_bind].
    rewrite (read_slot_after m (Bucket (bucket_of (local_id e))) p xs None) by done. cbn [mbind option_bind].
    destruct (set_append m T new e Hr He Hfresh xs p) as (m1 & m' & H1 & H2 & H3 & H4); try done.
    rewrite H1. cbn [mbind option_bind]. rewrite H2. cbn [mbind option_bind]. eauto.
Qed.

(** C35: inserting a fresh entry makes it the entry of its id, in place of an older
    one, which is returned (NULL when there was none), whatever the collisions in
    its bucket; every other id keeps its entry. *)
Theorem table_set_refines m T new e :
  table_rep m T → entries m !! new = Some e → (∀ id, T !! id ≠ Some new) →
  ∃ m', udx_stream_entry_set m new = Some (T !! local_id e, m') ∧
    table_rep m' (<[local_id e := new]> T) ∧ (∀ l, id_of m' l = id_of m l).
Proof. apply set_table_rep. Qed.

Lemma empty_table_rep ent : table_rep (mk_tmem ent (replicate 1024 None)) ∅.
Proof.
  split; [done|]. intros i Hi. exists []. split; try done.
  - exists None. split; [|done]. by apply lookup_replicate.
  - intros l Hl. by apply elem_of_nil in Hl.
  - constructor.
Qed.

(** ** Example: the colliding ids 5 and 1029 *)

Definition table_example : tmem := mk_tmem
  (list_to_map [(1%positive, mk_entry 5 None UDX_ENTRY_STREAM);
                (2%positive, mk_entry 1029 None UDX_ENTRY_STREAM);
                (3%positive, mk_entry 5 None UDX_ENTRY_TIMEWAIT)])
  (replicate 1024 None).

Lemma table_example_rep :
  ∃ m, udx_stream_entry_set table_example 1 = Some (None, m) ∧
    table_rep m {[5 := 1%positive]} ∧ entries m !! 2%positive = Some (mk_entry 1029 None UDX_ENTRY_STREAM).
Proof.
  destruct (set_table_rep table_example ∅ 1 (mk_entry 5 None UDX_ENTRY_STREAM)) as (m & H1 & H2 & _).
  - apply empty_table_rep.
  - by vm_compute.
  - intros id. by rewrite lookup_empty.
  - exists m. split; [exact H1|]. split; [exact H2|]. vm_compute in H1. injection H1 as <-. by vm_compute.
Qed.

Example table_set_refines_witness :
  ∃ m m', udx_stream_entry_set m 2 = Some (None, m') ∧
    table_rep m' (<[1029 := 2%positive]> {[5 := 1%positive]}).
Proof.
  destruct table_example_rep as (m & _ & Hr & He).
  destruct (table_set_refines m {[5 := 1%positive]} 2 _ Hr He) as (m' & H1 & H2 & _).
  - intros id H. apply lookup_singleton_Some in H as [_ H]. done.
  - exists m, m'. split; [exact H1|exact H2].
Defined.

Example table_get_remove_refine_witness :
  ∃ m, table_rep m {[5 := 1%positive]} ∧ udx_stream_entry_get m 1029 = Some None ∧
    udx_stream_entry_get m 5 = Some (Some 1%positive).
Proof.
  destruct table_example_rep as (m & _ & Hr & He). exists m. split; [exact Hr|]. split.
  - apply (table_get_remove_refine m _ 1029 Hr).
  - apply (table_get_remove_refine m _ 5 Hr).
Defined.
