(* ===== verification/WinFilter.v ===== *)
(** * Windowed minimum and maximum filters (src/win_filter.c, src/win_filter_f64.c)

    The two files hold the same algorithm over uint32_t and double values; it is
    written once over a value type [V] and the comparison [leb v w] ("[v] is at
    least as good as [w]": [<=] for a minimum, [>=] for a maximum) and then
    instantiated.  Doubles are IEEE binary64 numbers of SpecFloat.  The uint32_t
    that the f64 functions return is a truncation no caller reads; the model
    returns the double. *)

From Stdlib Require Export SpecFloat.
From S2P Require Import Prelude.

Record win_filter_entry (V : Type) := mk_wf_entry { wf_t : Z; wf_v : V }.
Arguments mk_wf_entry {V}.
Arguments wf_t {V}.
Arguments wf_v {V}.

(** [entries[3]]. *)
Record win_filter (V : Type) := mk_wf {
  wf0 : win_filter_entry V; wf1 : win_filter_entry V; wf2 : win_filter_entry V }.
Arguments mk_wf {V}.
Arguments wf0 {V}.
Arguments wf1 {V}.
Arguments wf2 {V}.

Section filter.
Context {V : Type} (leb : V → V → bool).
Implicit Types wf : win_filter V.

Definition wf_get wf : V := wf_v (wf0 wf).

Definition wf_apply_common wf (win t : Z) (v : V) : win_filter V :=
  let dt := u32 (t - wf_t (wf0 wf)) in
  let new := mk_wf_entry t v in
  if win <? dt then
    let wf := mk_wf (wf1 wf) (wf2 wf) new in
    if win <? u64 (t - wf_t (wf0 wf)) then mk_wf (wf1 wf) (wf2 wf) new else wf
  else if (wf_t (wf1 wf) =? wf_t (wf0 wf)) && (win / 4 <? dt) then mk_wf (wf0 wf) new new
  else if (wf_t (wf2 wf) =? wf_t (wf1 wf)) && (win / 2 <? dt) then mk_wf (wf0 wf) (wf1 wf) new
  else wf.

Definition wf_reset (t : Z) (v : V) : win_filter V :=
  let val := mk_wf_entry t v in mk_wf val val val.

Definition wf_apply wf (win t : Z) (v : V) : win_filter V :=
  if leb v (wf_v (wf0 wf)) || (win <? u64 (t - wf_t (wf2 wf))) then wf_reset t v
  else
    let new := mk_wf_entry t v in
    let wf :=
      if leb v (wf_v (wf1 wf)) then mk_wf (wf0 wf) new new
      else if leb v (wf_v (wf2 wf)) then mk_wf (wf0 wf) (wf1 wf) new
      else wf in
    wf_apply_common wf win t v.

(** ** What the filter promises *)

(** [e] is a sample of [hist] (newest first) and no newer one is as good. *)
Definition best_since (hist : list (win_filter_entry V)) (e : win_filter_entry V) : Prop :=
  ∃ newer older, hist = newer ++ e :: older ∧ ∀ s, s ∈ newer → leb (wf_v s) (wf_v e) = false.

(** The specification of a filter state after the samples [hist], the last at
    time [now]. *)
Record wf_inv (win now : Z) (hist : list (win_filter_entry V)) wf : Prop := {
  inv_best0 : best_since hist (wf0 wf);
  inv_best1 : best_since hist (wf1 wf);
  inv_best2 : best_since hist (wf2 wf);
  inv_order : 0 <= wf_t (wf0 wf) ∧ wf_t (wf0 wf) <= wf_t (wf1 wf) <= wf_t (wf2 wf) ∧ wf_t (wf2 wf) <= now;
  inv_age : now - wf_t (wf0 wf) <= win }.

Lemma best_since_new hist e : best_since (e :: hist) e.
Proof. exists [], hist. split; [done|]. intros s Hs. by apply elem_of_nil in Hs. Qed.

Lemma best_since_older hist e s :
  best_since hist e → leb (wf_v s) (wf_v e) = false → best_since (s :: hist) e.
Proof.
  intros (newer & older & -> & Hn) Hs. exists (s :: newer), older. split; [done|].
  intros k [->|Hk]%elem_of_cons; auto.
Qed.

Lemma reset_inv win t v hist :
  0 <= win → 0 <= t → wf_inv win t (mk_wf_entry t v :: hist) (wf_reset t v).
Proof. intros. split; cbn; try apply best_since_new; lia. Qed.

(** [wf_apply_common] runs when [e0] is better than the new sample and the
    others are, or are the new sample. *)
Lemma common_inv win now t v hist wf :
  0 <= win < 2147483648 → is_u64 t → now <= t → is_u64 (t - wf_t (wf2 wf)) →
  t - wf_t (wf2 wf) <= win → t - wf_t (wf0 wf) <= 2 * win →
  0 <= wf_t (wf0 wf) → wf_t (wf0 wf) <= wf_t (wf1 wf) <= wf_t (wf2 wf) →
  best_since (mk_wf_entry t v :: hist) (wf0 wf) → best_since (mk_wf_entry t v :: hist) (wf1 wf) →
  best_since (mk_wf_entry t v :: hist) (wf2 wf) →
  wf_inv win t (mk_wf_entry t v :: hist) (wf_apply_common wf win t v).
Proof.
  intros Hw Ht Hnow Hu2 Hage Hspan H0 Hord B0 B1 B2. unfold is_u64 in *.
  unfold wf_apply_common. rewrite (u32_id (t - _)) by (unfold is_u32; lia).
  destruct (Z.ltb_spec win (t - wf_t (wf0 wf))).
  - cbn [wf0 wf1 wf2]. rewrite u64_id by (unfold is_u64; lia).
    destruct (Z.ltb_spec win (t - wf_t (wf1 wf))); split; cbn; try assumption; try apply best_since_new; lia.
  - destruct (_ && _); [split; cbn; try assumption; try apply best_since_new; lia|].
    destruct (_ && _); split; cbn; try assumption; try apply best_since_new; lia.
Qed.

Lemma apply_inv win now t v hist wf :
  0 <= win < 2147483648 → is_u64 t → now <= t →
  wf_inv win now hist wf → wf_inv win t (mk_wf_entry t v :: hist) (wf_apply wf win t v).
Proof.
  intros Hw Ht Hnow [B0 B1 B2 Ho Ha]. unfold is_u64 in *. unfold wf_apply.
  rewrite u64_id by (unfold is_u64; lia).
  destruct (leb v (wf_v (wf0 wf))) eqn:E0; [apply reset_inv; lia|].
  destruct (Z.ltb_spec win (t - wf_t (wf2 wf))); [apply reset_inv; lia|]. cbn [orb].
  apply (common_inv win now); try done; unfold is_u64;
    destruct (leb v (wf_v (wf1 wf))) eqn:E1; try destruct (leb v (wf_v (wf2 wf))) eqn:E2; cbn; try lia;
    try apply best_since_new; by apply best_since_older.
Qed.

(** Feeding samples in order of time. *)
Fixpoint wf_run (win : Z) wf (samples : list (win_filter_entry V)) : win_filter V :=
  match samples with
  | [] => wf
  | s :: rest => wf_run win (wf_apply wf win (wf_t s) (wf_v s)) rest
  end.

Fixpoint timed (now : Z) (samples : list (win_filter_entry V)) : Prop :=
  match samples with
  | [] => True
  | s :: rest => now <= wf_t s ∧ is_u64 (wf_t s) ∧ timed (wf_t s) rest
  end.

Definition last_time (now : Z) (samples : list (win_filter_entry V)) : Z :=
  foldl (λ _ s, wf_t s) now samples.

Lemma run_inv win now hist wf samples :
  0 <= win < 2147483648 → wf_inv win now hist wf → timed now samples →
  wf_inv win (last_time now samples) (rev samples ++ hist) (wf_run win wf samples).
Proof.
  intros Hw. revert now hist wf. induction samples as [|[t v] rest IH]; intros now hist wf Hi Ht; [done|].
  destruct Ht as (Hn & Hu & Ht). cbn [wf_run rev last_time foldl] in *. rewrite <- app_assoc. cbn [app].
  apply IH; [|done]. by apply (apply_inv win now).
Qed.

(** C36: after any sequence of samples at non-decreasing times, for a window below
    2^31, the filter reports a sample that really occurred, that is at most
    [win] old, and that no later sample equals or beats; in particular a new
    sample at least as good as the reported one becomes the reported one.  The
    32-bit truncation of the age never loses an expiry. *)
Theorem win_filter_tracks win t0 v0 samples :
  0 <= win < 2147483648 → is_u64 t0 → timed t0 samples →
  let wf := wf_run win (wf_reset t0 v0) samples in
  let hist := rev samples ++ [mk_wf_entry t0 v0] in
  let now := last_time t0 samples in
  best_since hist (wf0 wf) ∧ now - win <= wf_t (wf0 wf) <= now ∧ wf_get wf = wf_v (wf0 wf) ∧
  ∀ t v, now <= t → is_u64 t → leb v (wf_get wf) = true → wf_get (wf_apply wf win t v) = v.
Proof.
  intros Hw Ht0 Hs wf hist now. unfold is_u64 in *.
  destruct (run_inv win t0 [mk_wf_entry t0 v0] (wf_reset t0 v0) samples Hw) as [B0 _ _ Ho Ha]; try done.
  { apply reset_inv; lia. }
  fold wf in B0, Ho, Ha. fold now in Ho, Ha. fold hist in B0. split; [done|]. split; [lia|]. split; [done|].
  intros t v Hnt Ht Hle. unfold wf_apply, wf_get in *. by rewrite Hle.
Qed.
End filter.

(** ** The instances *)

Definition win_filter_reset : Z → Z → win_filter Z := wf_reset.
Definition win_filter_get : win_filter Z → Z := wf_get.
Definition win_filter_apply_max : win_filter Z → Z → Z → Z → win_filter Z := wf_apply (λ v w, w <=? v).
Definition win_filter_apply_min : win_filter Z → Z → Z → Z → win_filter Z := wf_apply (λ v w, v <=? w).

Definition win_filter_f64_reset : Z → spec_float → win_filter spec_float := wf_reset.
Definition win_filter_f64_get : win_filter spec_float → spec_float := wf_get.
Definition win_filter_f64_apply_max : win_filter spec_float → Z → Z → spec_float → win_filter spec_float :=
  wf_apply (λ v w, SFleb w v).
Definition win_filter_f64_apply_min : win_filter spec_float → Z → Z → spec_float → win_filter spec_float :=
  wf_apply (λ v w, SFleb v w).

(** The sequence of test/win-filter.c on a shorter window: increasing samples
    keep the first minimum until it leaves the window. *)
Definition wf_ramp (n : nat) : list (win_filter_entry Z) :=
  map (λ i, mk_wf_entry (Z.of_nat i) (Z.of_nat i)) (seq 0 n).

Example win_filter_tracks_witness :
  let wf := wf_run (λ v w, v <=? w) 20 (wf_reset 0 4294967295) (wf_ramp 25) in
  best_since (λ v w, v <=? w) (rev (wf_ramp 25) ++ [mk_wf_entry 0 4294967295]) (wf0 wf) ∧ wf_get wf = 6.
Proof.
  split; [|by vm_compute].
  apply (win_filter_tracks (λ v w, v <=? w) 20 0 4294967295 (wf_ramp 25)).
  - lia.
  - by vm_compute.
  - vm_compute. repeat split; congruence.
Defined.
