(* ===== verification/Stream.v ===== *)
(** * The data of a stream (include/udx.h; constants and window arithmetic of src/udx.c)

    [struct udx_stream_s] is the record [stream]; fields that one module of the
    C code owns are grouped in sub-records ([rtt_st], [mtu_st], [rate_st],
    [bbr_st], [tlp_st], [wnd_st], [acct_st], [stats_st], [cb_st]).  Intrusive
    queues are lists of objects (Queue.v proves the pointers refine them), the
    circular buffer of outgoing packets is a finite map (Cirbuf.v), the tree of
    received blocks is the list of its blocks in sequence order (SackTree.v).
    A [uint*_t] field is a [Z] that the operations keep in range. *)

From S2P Require Import Prelude SeqNum Wire Cirbuf WinFilter.

(** ** Constants *)

Definition UDX_IPV4_HEADER_SIZE : Z := 20 + 8 + UDX_HEADER_SIZE.
Definition UDX_IPV6_HEADER_SIZE : Z := 40 + 8 + UDX_HEADER_SIZE.
Definition UDX_MTU_BASE : Z := 1200.
Definition UDX_MTU_MAX_PROBES : Z := 3.
Definition UDX_MTU_MAX : Z := 1500.
Definition UDX_MTU_STEP : Z := 32.
Definition UDX_MTU_STATE_BASE : Z := 1.
Definition UDX_MTU_STATE_SEARCH : Z := 2.
Definition UDX_MTU_STATE_ERROR : Z := 3.
Definition UDX_MTU_STATE_SEARCH_COMPLETE : Z := 4.

Definition UDX_STREAM_CONNECTED : Z := 1.
Definition UDX_STREAM_RECEIVING : Z := 2.
Definition UDX_STREAM_READING : Z := 4.
Definition UDX_STREAM_ENDING : Z := 8.
Definition UDX_STREAM_ENDING_REMOTE : Z := 16.
Definition UDX_STREAM_ENDED : Z := 32.
Definition UDX_STREAM_ENDED_REMOTE : Z := 64.
Definition UDX_STREAM_DESTROYING : Z := 128.
Definition UDX_STREAM_CLOSED : Z := 256.
Definition UDX_STREAM_TIMEWAIT_WANTED : Z := 512.

Definition UDX_STREAM_ALL_ENDED : Z := Z.lor UDX_STREAM_ENDED UDX_STREAM_ENDED_REMOTE.
Definition UDX_STREAM_DEAD : Z := Z.lor UDX_STREAM_DESTROYING UDX_STREAM_CLOSED.
Definition UDX_STREAM_SHOULD_READ : Z := Z.lor UDX_STREAM_ENDED_REMOTE UDX_STREAM_DEAD.
Definition UDX_STREAM_READ : Z := 0.
Definition UDX_STREAM_SHOULD_END : Z :=
  Z.lor (Z.lor UDX_STREAM_ENDING UDX_STREAM_ENDED) UDX_STREAM_DEAD.
Definition UDX_STREAM_END : Z := UDX_STREAM_ENDING.
Definition UDX_STREAM_SHOULD_END_REMOTE : Z :=
  Z.lor (Z.lor UDX_STREAM_ENDED_REMOTE UDX_STREAM_DEAD) UDX_STREAM_ENDING_REMOTE.
Definition UDX_STREAM_END_REMOTE : Z := UDX_STREAM_ENDING_REMOTE.

Definition UDX_CA_OPEN : Z := 1.
Definition UDX_CA_RECOVERY : Z := 2.
Definition UDX_CA_LOSS : Z := 3.

Definition UDX_INIT_PACING_RATE : Z := 25000.
Definition UDX_MAX_RTO_TIMEOUTS : Z := 6.
Definition UDX_RTO_MAX_MS : Z := 30000.
Definition UDX_RTT_MAX_MS : Z := 30000.
Definition UDX_RTT_MIN_WINDOW_MS : Z := 300000.
Definition UDX_DEFAULT_RWND_MAX : Z := 4 * 1024 * 1024.
Definition UDX_HIGH_WATERMARK : Z := 262144.
Definition UDX_TLP_MAX_ACK_DELAY : Z := 2.

(** ** Objects *)

(** The addresses of the C objects the model keeps in stores. *)
Abbreviation stream_id := positive (only parsing).
Abbreviation socket_id := positive (only parsing).
Abbreviation packet_id := positive (only parsing).
Abbreviation wbuf_id := positive (only parsing).
Abbreviation write_id := positive (only parsing).

(** [struct sockaddr]: the families the code distinguishes, the port and the
    address bytes (4 or 16, network order). *)
Inductive sa_family := AF_UNSPEC | AF_INET | AF_INET6.
#[export] Instance sa_family_eq_dec : EqDecision sa_family.
Proof. solve_decision. Defined.

Record sockaddr := mk_sockaddr { sa_fam : sa_family; sin_port : Z; sin_addr : list Z }.
#[export] Instance sockaddr_eq_dec : EqDecision sockaddr.
Proof. solve_decision. Defined.

Inductive udx_stream_timer_type_t :=
  UDX_TIMER_NONE | UDX_TIMER_RTO | UDX_TIMER_RACK_REO | UDX_TIMER_TLP | UDX_TIMER_ZWP
| UDX_TIMER_KEEPALIVE.
#[export] Instance timer_eq_dec : EqDecision udx_stream_timer_type_t.
Proof. solve_decision. Defined.

(** One data buffer of a packet: [bufs[i + 1]] points [ck_off] bytes into the
    write buffer [wbufs[i]]. *)
Record chunk := mk_chunk { ck_wbuf : wbuf_id; ck_off : Z; ck_len : Z }.
#[export] Instance eta_chunk : Eta chunk := λ r,
  mk_chunk (ck_wbuf r) (ck_off r) (ck_len r).

Record packet := mk_packet {
  p_seq : Z; p_lost : bool; p_retransmitted : bool; p_transmits : Z;
  p_is_mtu_probe : bool; p_ref_count : Z; p_size : Z;
  p_remote_addr : sockaddr; p_remote_addr_len : Z; p_remote_id : Z;
  p_time_sent : Z; p_stream_offset : Z;
  p_first_sent_ts : Z; p_delivered_ts : Z; p_delivered : Z; p_is_app_limited : bool;
  p_header : list Z; p_nwbufs_capacity : Z; p_chunks : list chunk }.
#[export] Instance eta_packet : Eta packet := λ r,
  mk_packet (p_seq r) (p_lost r) (p_retransmitted r) (p_transmits r)
    (p_is_mtu_probe r) (p_ref_count r) (p_size r)
    (p_remote_addr r) (p_remote_addr_len r) (p_remote_id r)
    (p_time_sent r) (p_stream_offset r)
    (p_first_sent_ts r) (p_delivered_ts r) (p_delivered r) (p_is_app_limited r)
    (p_header r) (p_nwbufs_capacity r) (p_chunks r).

Definition p_nwbufs (p : packet) : Z := Z.of_nat (length (p_chunks p)).

(** [struct udx_stream_write_buf_s] and [struct udx_stream_write_s]. *)
Record wbuf := mk_wbuf {
  wb_buf : list Z; wb_bytes_inflight : Z; wb_bytes_acked : Z; wb_write : write_id;
  wb_is_write_end : bool }.
#[export] Instance eta_wbuf : Eta wbuf := λ r,
  mk_wbuf (wb_buf r) (wb_bytes_inflight r) (wb_bytes_acked r) (wb_write r) (wb_is_write_end r).

Definition wb_len (b : wbuf) : Z := Z.of_nat (length (wb_buf b)).

Record write := mk_write {
  wr_size : Z; wr_bytes_acked : Z; wr_is_write_end : bool; wr_stream : stream_id;
  wr_on_ack : bool }.
#[export] Instance eta_write : Eta write := λ r,
  mk_write (wr_size r) (wr_bytes_acked r) (wr_is_write_end r) (wr_stream r) (wr_on_ack r).

(** [udx_buf_t] and [struct udx_sack_block_s] (the tree links are SackTree.v's). *)
Record udx_buf := mk_udx_buf { ub_type : Z; ub_data : list Z }.
Record sack_block := mk_sack_block { sb_start : Z; sb_end : Z; sb_queue : list udx_buf }.
#[export] Instance eta_sack_block : Eta sack_block := λ r,
  mk_sack_block (sb_start r) (sb_end r) (sb_queue r).

(** ** The stream *)

Record rtt_st := mk_rtt_st {
  srtt : Z; rttvar : Z; rto : Z; rtt_min : win_filter Z;
  rack_rtt : Z; rack_time_sent : Z; rack_next_seq : Z; rack_fack : Z;
  reordering_seen : bool }.
#[export] Instance eta_rtt_st : Eta rtt_st := λ r,
  mk_rtt_st (srtt r) (rttvar r) (rto r) (rtt_min r) (rack_rtt r) (rack_time_sent r)
    (rack_next_seq r) (rack_fack r) (reordering_seen r).

Record mtu_st := mk_mtu_st {
  mtu_state : Z; mtu_probe_wanted : bool; mtu_probe_count : Z; mtu_probe_size : Z;
  mtu_max : Z; mtu : Z }.
#[export] Instance eta_mtu_st : Eta mtu_st := λ r,
  mk_mtu_st (mtu_state r) (mtu_probe_wanted r) (mtu_probe_count r) (mtu_probe_size r)
    (mtu_max r) (mtu r).

Record rate_st := mk_rate_st {
  delivered : Z; lost : Z; app_limited : Z; first_sent_ts : Z; delivered_ts : Z;
  rate_delivered : Z; rate_interval_ms : Z; rate_sample_is_app_limited : bool }.
#[export] Instance eta_rate_st : Eta rate_st := λ r,
  mk_rate_st (delivered r) (lost r) (app_limited r) (first_sent_ts r) (delivered_ts r)
    (rate_delivered r) (rate_interval_ms r) (rate_sample_is_app_limited r).

Record bbr_st := mk_bbr_st {
  b_min_rtt_ms : Z; b_min_rtt_stamp : Z; b_probe_rtt_done_time : Z;
  b_bw : win_filter spec_float; b_rtt_count : Z; b_next_rtt_delivered : Z;
  b_cycle_timestamp : Z; b_state : Z; b_prev_ca_state : Z;
  b_use_packet_conservation : bool; b_round_start : bool; b_idle_restart : bool;
  b_probe_rtt_round_done : bool;
  b_pacing_gain : spec_float; b_cwnd_gain : spec_float;
  b_full_bw_reached : bool; b_full_bw_count : Z; b_cycle_index : Z; b_has_seen_rtt : bool;
  b_prior_cwnd : Z; b_full_bw : spec_float;
  b_ack_epoch_start : Z; b_extra_acked : list Z; b_ack_epoch_acked : Z;
  b_extra_acked_win_rtts : Z; b_extra_acked_win_index : Z }.
#[export] Instance eta_bbr_st : Eta bbr_st := λ r,
  mk_bbr_st (b_min_rtt_ms r) (b_min_rtt_stamp r) (b_probe_rtt_done_time r)
    (b_bw r) (b_rtt_count r) (b_next_rtt_delivered r)
    (b_cycle_timestamp r) (b_state r) (b_prev_ca_state r)
    (b_use_packet_conservation r) (b_round_start r) (b_idle_restart r)
    (b_probe_rtt_round_done r) (b_pacing_gain r) (b_cwnd_gain r)
    (b_full_bw_reached r) (b_full_bw_count r) (b_cycle_index r) (b_has_seen_rtt r)
    (b_prior_cwnd r) (b_full_bw r)
    (b_ack_epoch_start r) (b_extra_acked r) (b_ack_epoch_acked r)
    (b_extra_acked_win_rtts r) (b_extra_acked_win_index r).

Record tlp_st := mk_tlp_st {
  tlp_is_retrans : bool; tlp_in_flight : bool; tlp_permitted : bool; tlp_end_seq : Z }.
#[export] Instance eta_tlp_st : Eta tlp_st := λ r,
  mk_tlp_st (tlp_is_retrans r) (tlp_in_flight r) (tlp_permitted r) (tlp_end_seq r).

Record wnd_st := mk_wnd_st {
  send_rwnd : Z; recv_rwnd_max : Z; send_wl1 : Z; send_wl2 : Z }.
#[export] Instance eta_wnd_st : Eta wnd_st := λ r,
  mk_wnd_st (send_rwnd r) (recv_rwnd_max r) (send_wl1 r) (send_wl2 r).

Record acct_st := mk_acct_st {
  bytes_queued : Z; bytes_packetized : Z; bytes_acked : Z; writes_queued_bytes : Z;
  hit_high_watermark : bool }.
#[export] Instance eta_acct_st : Eta acct_st := λ r,
  mk_acct_st (bytes_queued r) (bytes_packetized r) (bytes_acked r) (writes_queued_bytes r)
    (hit_high_watermark r).

Record stats_st := mk_stats_st {
  bytes_rx : Z; bytes_tx : Z; packets_rx : Z; packets_tx : Z; dropped_sacks : Z;
  zwp_count : Z; fast_recovery_count : Z; retransmit_count : Z; lifetime_rto_count : Z }.
#[export] Instance eta_stats_st : Eta stats_st := λ r,
  mk_stats_st (bytes_rx r) (bytes_tx r) (packets_rx r) (packets_tx r) (dropped_sacks r)
    (zwp_count r) (fast_recovery_count r) (retransmit_count r) (lifetime_rto_count r).

(** The callbacks of the stream: [true] is a function, [false] is NULL. *)
Record cb_st := mk_cb_st {
  on_firewall : bool; on_read : bool; on_recv : bool; on_drain : bool; on_close : bool;
  on_finalize : bool; on_remote_changed : bool; get_read_buffer_size : bool }.
#[export] Instance eta_cb_st : Eta cb_st := λ r,
  mk_cb_st (on_firewall r) (on_read r) (on_recv r) (on_drain r) (on_close r)
    (on_finalize r) (on_remote_changed r) (get_read_buffer_size r).

Record stream := mk_stream {
  s_local_id : Z; s_remote_id : Z; s_status : Z;
  s_acct : acct_st;
  s_ca_state : Z; s_high_seq : Z; s_rto_count : Z;
  s_pkt_capacity : Z; s_pkt_header_flag : Z; s_pkt : option packet_id;
  s_pending_packet_prepare : bool;
  s_ack_needed : bool;
  s_socket : option socket_id;
  s_relayed : bool; s_relay_to : option stream_id; s_relaying_streams : cirbuf (Z * stream_id);
  s_remote_addr : sockaddr; s_remote_addr_len : Z;
  s_remote_changing : bool; s_seq_on_remote_changed : Z;
  s_cb : cb_st;
  s_mtu : mtu_st;
  s_seq : Z; s_ack : Z; s_remote_acked : Z; s_remote_ended : Z;
  s_rate : rate_st;
  s_pending_timer : udx_stream_timer_type_t; s_next_rto_ts : Z;
  s_timer : option Z; s_refill_pacing_timer : option Z;
  s_rtt : rtt_st;
  s_keepalive_timeout_ms : Z;
  s_bbr : bbr_st;
  s_pacing_bytes_per_ms : Z; s_tb_available : Z; s_tb_last_refill_ms : Z;
  s_tlp : tlp_st;
  s_nrefs : Z;
  s_inflight : Z; s_sacks : Z; s_cwnd : Z;
  s_wnd : wnd_st;
  s_write_queue : list wbuf_id;
  s_outgoing : option (gmap Z packet_id);   (** [None]: destroyed *)
  s_sack_tree : list sack_block;
  s_retransmit_queue : list packet_id; s_inflight_queue : list packet_id;
  s_stats : stats_st }.

#[export] Instance eta_stream : Eta stream := λ r,
  mk_stream (s_local_id r) (s_remote_id r) (s_status r) (s_acct r)
    (s_ca_state r) (s_high_seq r) (s_rto_count r)
    (s_pkt_capacity r) (s_pkt_header_flag r) (s_pkt r) (s_pending_packet_prepare r)
    (s_ack_needed r) (s_socket r) (s_relayed r) (s_relay_to r) (s_relaying_streams r)
    (s_remote_addr r) (s_remote_addr_len r) (s_remote_changing r) (s_seq_on_remote_changed r)
    (s_cb r) (s_mtu r) (s_seq r) (s_ack r) (s_remote_acked r) (s_remote_ended r)
    (s_rate r) (s_pending_timer r) (s_next_rto_ts r) (s_timer r) (s_refill_pacing_timer r)
    (s_rtt r) (s_keepalive_timeout_ms r) (s_bbr r)
    (s_pacing_bytes_per_ms r) (s_tb_available r) (s_tb_last_refill_ms r)
    (s_tlp r) (s_nrefs r) (s_inflight r) (s_sacks r) (s_cwnd r) (s_wnd r)
    (s_write_queue r) (s_outgoing r) (s_sack_tree r)
    (s_retransmit_queue r) (s_inflight_queue r) (s_stats r).

(** The stream after memset to zero; 0.0 is the double zero. *)
Definition addr_zero : sockaddr := mk_sockaddr AF_UNSPEC 0 [].
Definition wf_zero {V} (v : V) : win_filter V :=
  mk_wf (mk_wf_entry 0 v) (mk_wf_entry 0 v) (mk_wf_entry 0 v).
Definition bbr_zero : bbr_st :=
  mk_bbr_st 0 0 0 (wf_zero (S754_zero false)) 0 0 0 0 0 false false false false
    (S754_zero false) (S754_zero false) false 0 0 false 0 (S754_zero false) 0 [0; 0] 0 0 0.
Definition stream_zero : stream :=
  mk_stream 0 0 0 (mk_acct_st 0 0 0 0 false) 0 0 0 0 0 None false false None false None (udx__cirbuf_destroy (udx__cirbuf_init 1))
    addr_zero 0 false 0 (mk_cb_st false false false false false false false false)
    (mk_mtu_st 0 false 0 0 0 0) 0 0 0 0 (mk_rate_st 0 0 0 0 0 0 0 false)
    UDX_TIMER_NONE 0 None None (mk_rtt_st 0 0 0 (wf_zero 0) 0 0 0 0 false) 0 bbr_zero
    0 0 0 (mk_tlp_st false false false 0) 0 0 0 0 (mk_wnd_st 0 0 0 0) [] (Some ∅) [] [] []
    (mk_stats_st 0 0 0 0 0 0 0 0 0).

(** A length as the C code reads it: the [uint32_t] field [len] of a queue. *)
Definition qlen {A} (q : list A) : Z := u32 (Z.of_nat (length q)).

(** ** Window arithmetic (udx.c:95-121) *)

Definition header_size (f : sa_family) : Z :=
  if decide (f = AF_INET) then UDX_IPV4_HEADER_SIZE else UDX_IPV6_HEADER_SIZE.

(** The assertion tests the constant AF_INET, which is not zero. *)
Definition udx__max_payload (s : stream) : option Z :=
  assert! UDX_IPV4_HEADER_SIZE <? mtu (s_mtu s);
  Some (u32 (mtu (s_mtu s) - header_size (sa_fam (s_remote_addr s)))).

Definition cwnd_in_bytes (s : stream) : option Z :=
  mp ← udx__max_payload s; Some (u32 (s_cwnd s * mp)).

Definition send_window_in_bytes (s : stream) : option Z :=
  c ← cwnd_in_bytes s; Some (min_uint32 c (send_rwnd (s_wnd s))).

Definition send_rwnd_in_packets (s : stream) : option Z :=
  if send_rwnd (s_wnd s) =? 0 then Some 0
  else mp ← udx__max_payload s;
       assert! negb (mp =? 0);
       Some (max_uint32 (send_rwnd (s_wnd s) / mp) 1).

Definition send_window_in_packets (s : stream) : option Z :=
  r ← send_rwnd_in_packets s; Some (min_uint32 (s_cwnd s) r).

(** [get_recv_rwnd], with the value the user's callback returns as an argument. *)
Definition get_recv_rwnd (read_buffer_size : Z) (s : stream) : Z :=
  let bufsize := if get_read_buffer_size (s_cb s) then read_buffer_size else 0 in
  if bufsize <? recv_rwnd_max (s_wnd s) then u32 (recv_rwnd_max (s_wnd s) - bufsize) else 0.

(** ** Lemmas *)

(** The path MTU of a stream stays in this range (Mtu.v proves it). *)
Definition mtu_in_range (m : mtu_st) : Prop := UDX_MTU_BASE <= mtu m <= UDX_MTU_MAX.

Lemma max_payload_spec s :
  mtu_in_range (s_mtu s) →
  udx__max_payload s = Some (mtu (s_mtu s) - header_size (sa_fam (s_remote_addr s))) ∧
  1132 <= mtu (s_mtu s) - header_size (sa_fam (s_remote_addr s)) <= 1452.
Proof.
  unfold mtu_in_range, udx__max_payload, header_size, UDX_IPV4_HEADER_SIZE, UDX_IPV6_HEADER_SIZE,
    UDX_MTU_BASE, UDX_MTU_MAX, UDX_HEADER_SIZE. intros H.
  rewrite (proj2 (Z.ltb_lt _ _)) by lia.
  case_decide; (split; [f_equal; apply u32_id; unfold is_u32|]; lia).
Qed.

(** The window in packets never exceeds the congestion window, is zero only on
    a zero receive window (or congestion window), and is positive otherwise. *)
Lemma send_window_spec s :
  mtu_in_range (s_mtu s) → is_u32 (s_cwnd s) → is_u32 (send_rwnd (s_wnd s)) →
  ∃ w, send_window_in_packets s = Some w ∧ 0 <= w <= s_cwnd s ∧
    (w = 0 ↔ s_cwnd s = 0 ∨ send_rwnd (s_wnd s) = 0).
Proof.
  intros Hm Hc Hr. destruct (max_payload_spec s Hm) as [Hmp Hb].
  unfold send_window_in_packets, send_rwnd_in_packets, min_uint32, max_uint32.
  destruct (Z.eqb_spec (send_rwnd (s_wnd s)) 0) as [E|E].
  - eexists. split; [reflexivity|]. rewrite E. unfold is_u32 in *. case_ltb; split; lia.
  - rewrite Hmp. cbn [mbind option_bind].
    set (mp := mtu _ - _) in *. rewrite (proj2 (Z.eqb_neq mp 0)) by lia. cbn [negb].
    eexists. split; [reflexivity|]. unfold is_u32 in *.
    assert (0 <= send_rwnd (s_wnd s) / mp) by (apply Z.div_pos; lia).
    case_ltb; split; lia.
Qed.
