(* ===== verification/Rtt.v ===== *)
(** * Round-trip time, RTO and RACK state (src/udx.c)

    [clamp_rtt], the parts of [ack_packet] that update the RTT estimator and the
    RACK state (RFC 8985, 6.2), [udx_rtt_min] and [rack_update_reo_wnd].  The
    estimator works in uint32_t; [rtt_sample_spec] shows that it does not wrap
    while a packet is acked within [RTT_BOUND] milliseconds (about three days). *)

From S2P Require Import Prelude SeqNum WinFilter Stream.

Definition clamp_rtt (r : rtt_st) (rtt : Z) : Z :=
  if srtt r =? 0 then min_uint32 (u32 rtt) UDX_RTT_MAX_MS
  else
    let outlier_threshold := u32 (srtt r + u32 (5 * rttvar r)) in
    if (outlier_threshold <? rtt) && (5000 <? rtt)
    then min_uint32 outlier_threshold UDX_RTT_MAX_MS
    else u32 rtt.

Definition udx_rtt_min (r : rtt_st) : Z := win_filter_get (rtt_min r).

(** The estimator update of ack_packet for a packet that was never
    retransmitted; [rtt] has been rounded up to one. *)
Definition rtt_estimate (r : rtt_st) (rtt : Z) : rtt_st :=
  if srtt r =? 0 then r <| srtt := rtt |> <| rttvar := rtt / 2 |>
  else
    let delta := if rtt <? srtt r then u32 (srtt r - rtt) else u32 (rtt - srtt r) in
    r <| rttvar := u32 (u32 (3 * rttvar r) + delta) / 4 |>
      <| srtt := u32 (u32 (7 * srtt r) + rtt) / 8 |>.

Definition rto_update (r : rtt_st) : rtt_st :=
  let r := r <| rto := max_uint32 (u32 (srtt r + u32 (4 * rttvar r))) 1000 |> in
  if UDX_RTO_MAX_MS <? rto r then r <| rto := UDX_RTO_MAX_MS |> else r.

Definition rtt_sample (r : rtt_st) (time rtt : Z) : rtt_st :=
  let r := r <| rtt_min := win_filter_apply_min (rtt_min r) UDX_RTT_MIN_WINDOW_MS time rtt |> in
  rto_update (rtt_estimate r rtt).

(** RACK step 2: the most recently sent packet that was delivered. *)
Definition rack_update (r : rtt_st) (rtt time_sent next : Z) : rtt_st :=
  let r := r <| rack_rtt := rtt |> in
  if rack_sent_after time_sent next (rack_time_sent r) (rack_next_seq r)
  then r <| rack_time_sent := time_sent |> <| rack_next_seq := next |>
  else r.

(** RACK step 3: reordering. *)
Definition rack_detect_reordering (r : rtt_st) (next : Z) (retransmitted : bool) : rtt_st :=
  if 0 <? seq_compare next (rack_fack r) then r <| rack_fack := next |>
  else if (seq_compare next (rack_fack r) <? 0) && negb retransmitted
  then r <| reordering_seen := true |> else r.

(** The RTT part of ack_packet: the new state, the sample, and whether RACK
    accepted it ([rs->rtt_ms] is then set to it). *)
Definition ack_rtt (r : rtt_st) (time time_sent seq : Z) (retransmitted : bool) : rtt_st * Z * bool :=
  let rtt := clamp_rtt r (u64 (time - time_sent)) in
  let next := u32 (seq + 1) in
  let '(r, rtt) :=
    if negb retransmitted
    then let rtt := if rtt =? 0 then 1 else rtt in (rtt_sample r time rtt, rtt)
    else (r, rtt) in
  let accepted := negb retransmitted || (udx_rtt_min r <=? rtt) in
  let r := if accepted then rack_update r rtt time_sent next else r in
  (rack_detect_reordering r next retransmitted, rtt, accepted).

Definition rack_update_reo_wnd (s : stream) : Z :=
  let r := udx_rtt_min (s_rtt s) / 4 in
  let wnd := if r <? srtt (s_rtt s) then r else srtt (s_rtt s) in
  if negb (reordering_seen (s_rtt s)) then
    if (s_ca_state s =? UDX_CA_RECOVERY) || (s_ca_state s =? UDX_CA_LOSS) then 0
    else if 3 <=? s_sacks s then 0
    else wnd
  else wnd.

(** ** The estimator stays in range *)

Definition RTT_BOUND : Z := 2 ^ 28.

(** What holds between packets: the estimates are below the bound, and the RTO
    is between one second and thirty. *)
Record rtt_ok (r : rtt_st) : Prop := {
  ok_srtt : 0 <= srtt r <= RTT_BOUND;
  ok_rttvar : 0 <= rttvar r <= RTT_BOUND;
  ok_rto : 1000 <= rto r <= UDX_RTO_MAX_MS }.

Lemma clamp_rtt_spec r rtt :
  rtt_ok r → 0 <= rtt <= RTT_BOUND →
  0 <= clamp_rtt r rtt <= rtt ∧
  (clamp_rtt r rtt = rtt ∨ clamp_rtt r rtt = UDX_RTT_MAX_MS ∨
   srtt r ≠ 0 ∧ clamp_rtt r rtt = srtt r + 5 * rttvar r).
Proof.
  intros [[] [] _] ?. unfold clamp_rtt, min_uint32, RTT_BOUND, UDX_RTT_MAX_MS in *.
  rewrite (u32_id (5 * rttvar r)) by (unfold is_u32; lia).
  rewrite !u32_id by (unfold is_u32; lia).
  destruct (Z.eqb_spec (srtt r) 0); [case_ltb; lia|].
  destruct (Z.ltb_spec (srtt r + 5 * rttvar r) rtt), (Z.ltb_spec 5000 rtt); cbn [andb];
    case_ltb; lia.
Qed.

(** The reference estimator (RFC 6298 with the code's gains) over unbounded integers. *)
Definition ref_srtt (srtt rtt : Z) : Z := if srtt =? 0 then rtt else (7 * srtt + rtt) / 8.
Definition ref_rttvar (srtt rttvar rtt : Z) : Z :=
  if srtt =? 0 then rtt / 2 else (3 * rttvar + Z.abs (srtt - rtt)) / 4.
Definition ref_rto (srtt rttvar : Z) : Z := Z.min 30000 (Z.max 1000 (srtt + 4 * rttvar)).

Lemma rtt_estimate_ref r rtt :
  rtt_ok r → 1 <= rtt <= RTT_BOUND →
  srtt (rtt_estimate r rtt) = ref_srtt (srtt r) rtt ∧
  rttvar (rtt_estimate r rtt) = ref_rttvar (srtt r) (rttvar r) rtt.
Proof.
  intros [[] [] _] ?. unfold rtt_estimate, ref_srtt, ref_rttvar, RTT_BOUND in *.
  destruct (Z.eqb_spec (srtt r) 0); [done|]. cbn.
  rewrite (u32_id (3 * _)), (u32_id (7 * _)) by (unfold is_u32; lia).
  assert ((if rtt <? srtt r then u32 (srtt r - rtt) else u32 (rtt - srtt r)) = Z.abs (srtt r - rtt)) as ->.
  { destruct (Z.ltb_spec rtt (srtt r)); rewrite u32_id by (unfold is_u32; lia); lia. }
  rewrite !u32_id by (unfold is_u32; lia). done.
Qed.

Lemma ref_bounds srtt0 rttvar0 rtt :
  0 <= srtt0 <= RTT_BOUND → 0 <= rttvar0 <= RTT_BOUND → 1 <= rtt <= RTT_BOUND →
  1 <= ref_srtt srtt0 rtt <= RTT_BOUND ∧ 0 <= ref_rttvar srtt0 rttvar0 rtt <= RTT_BOUND ∧
  (srtt0 ≠ 0 → Z.min srtt0 rtt <= ref_srtt srtt0 rtt <= Z.max srtt0 rtt).
Proof.
  unfold ref_srtt, ref_rttvar, RTT_BOUND. intros.
  destruct (Z.eqb_spec srtt0 0); [repeat split; Z.to_euclidean_division_equations; lia|].
  repeat split; intros; Z.to_euclidean_division_equations; lia.
Qed.

Lemma rto_update_spec r :
  0 <= srtt r <= RTT_BOUND → 0 <= rttvar r <= RTT_BOUND →
  rto (rto_update r) = ref_rto (srtt r) (rttvar r) ∧
  srtt (rto_update r) = srtt r ∧ rttvar (rto_update r) = rttvar r.
Proof.
  unfold rto_update, ref_rto, max_uint32, UDX_RTO_MAX_MS, RTT_BOUND. intros. cbn.
  rewrite (u32_id (4 * _)), u32_id by (unfold is_u32; lia).
  repeat case_match; cbn; repeat split; try lia.
Qed.

(** C24: while packets are acked within [RTT_BOUND] ms, the uint32_t arithmetic of
    the RTT estimator computes the unbounded reference estimator on the clamped
    sample rounded up to one, so srtt is never zero after a sample, moves
    between its old value and the sample, and the RTO stays within 1 s and 30 s. *)
Theorem rtt_sample_spec r time time_sent seq :
  rtt_ok r → 0 <= time_sent <= time → time - time_sent <= RTT_BOUND → is_u64 time →
  let sample := Z.max 1 (clamp_rtt r (time - time_sent)) in
  let r' := (ack_rtt r time time_sent seq false).1.1 in
  rtt_ok r' ∧
  srtt r' = ref_srtt (srtt r) sample ∧
  rttvar r' = ref_rttvar (srtt r) (rttvar r) sample ∧
  rto r' = ref_rto (srtt r') (rttvar r') ∧
  1 <= srtt r' ∧ (srtt r ≠ 0 → Z.min (srtt r) sample <= srtt r' <= Z.max (srtt r) sample).
Proof.
  intros Hr ? ? Ht sample r'.
  destruct (clamp_rtt_spec r (time - time_sent) Hr ltac:(lia)) as [Hc _].
  assert (Hs : 1 <= sample <= RTT_BOUND) by (unfold sample, RTT_BOUND in *; lia).
  set (r1 := r <| rtt_min := win_filter_apply_min (rtt_min r) UDX_RTT_MIN_WINDOW_MS time sample |>).
  assert (Hr' : srtt r' = srtt (rto_update (rtt_estimate r1 sample)) ∧
          rttvar r' = rttvar (rto_update (rtt_estimate r1 sample)) ∧
          rto r' = rto (rto_update (rtt_estimate r1 sample))).
  { unfold r', ack_rtt. cbn [negb orb]. rewrite (u64_id (time - time_sent)) by (unfold is_u64 in *; lia).
    assert ((if clamp_rtt r (time - time_sent) =? 0 then 1 else clamp_rtt r (time - time_sent)) = sample)
      as -> by (unfold sample; case_ltb; lia).
    unfold rack_detect_reordering, rack_update, rtt_sample. fold r1. cbn [fst snd].
    repeat case_match; done. }
  destruct Hr' as (G1 & G2 & G3).
  assert (Hr1 : rtt_ok r1) by (destruct Hr; split; done).
  destruct (rtt_estimate_ref r1 sample Hr1 Hs) as [E1 E2].
  destruct (ref_bounds (srtt r) (rttvar r) sample (ok_srtt _ Hr) (ok_rttvar _ Hr) Hs) as (B1 & B2 & B3).
  change (srtt r1) with (srtt r) in *. change (rttvar r1) with (rttvar r) in *.
  destruct (rto_update_spec (rtt_estimate r1 sample)) as (F1 & F2 & F3);
    [rewrite E1; lia | rewrite E2; lia|].
  rewrite F2, E1 in G1. rewrite F3, E2 in G2. rewrite F1, E1, E2 in G3.
  split; [constructor; rewrite ?G1, ?G2, ?G3; unfold ref_rto, UDX_RTO_MAX_MS; lia|].
  rewrite G1, G2, G3. split_and!; try done; lia.
Qed.

Example rtt_sample_spec_witness :
  let r := mk_rtt_st 100 50 1000 (win_filter_reset 0 90) 90 5 7 7 false in
  rtt_ok r ∧ srtt ((ack_rtt r 400 200 9 false).1.1) = 112 ∧
  1 <= srtt ((ack_rtt r 400 200 9 false).1.1).
Proof.
  intros r. assert (Hr : rtt_ok r) by (by split; vm_compute).
  split; [exact Hr|]. split; [reflexivity|].
  destruct (rtt_sample_spec r 400 200 9 Hr) as (_ & _ & _ & _ & H & _);
    [lia | unfold RTT_BOUND; lia | unfold is_u64; lia | exact H].
Defined.

(** ** RACK *)

Lemma rtt_sample_rack r time rtt :
  rack_time_sent (rtt_sample r time rtt) = rack_time_sent r ∧
  rack_next_seq (rtt_sample r time rtt) = rack_next_seq r ∧
  rack_rtt (rtt_sample r time rtt) = rack_rtt r ∧ rack_fack (rtt_sample r time rtt) = rack_fack r.
Proof. unfold rtt_sample, rto_update, rtt_estimate. repeat case_match; done. Qed.

Lemma rack_reordering_frame r next rx :
  let r' := rack_detect_reordering r next rx in
  rack_time_sent r' = rack_time_sent r ∧ rack_next_seq r' = rack_next_seq r ∧ rack_rtt r' = rack_rtt r.
Proof. unfold rack_detect_reordering. repeat case_match; done. Qed.

Lemma rack_update_spec r rtt ts next :
  rack_rtt (rack_update r rtt ts next) = rtt ∧
  (rack_time_sent (rack_update r rtt ts next), rack_next_seq (rack_update r rtt ts next)) =
    (if rack_sent_after ts next (rack_time_sent r) (rack_next_seq r)
     then (ts, next) else (rack_time_sent r, rack_next_seq r)).
Proof. unfold rack_update. cbn. destruct (rack_sent_after _ _ _ _); done. Qed.

Lemma ack_rtt_rack r time time_sent seq rx :
  let '(r', rtt, accepted) := ack_rtt r time time_sent seq rx in
  (rack_time_sent r', rack_next_seq r') =
    (if accepted && rack_sent_after time_sent (u32 (seq + 1)) (rack_time_sent r) (rack_next_seq r)
     then (time_sent, u32 (seq + 1)) else (rack_time_sent r, rack_next_seq r)) ∧
  (rack_rtt r' = if accepted then rtt else rack_rtt r).
Proof.
  unfold ack_rtt. set (c := clamp_rtt _ _). destruct rx; cbn [negb orb].
  - destruct (udx_rtt_min r <=? c); cbn [andb].
    + destruct (rack_reordering_frame (rack_update r c time_sent (u32 (seq + 1))) (u32 (seq + 1)) true)
        as (-> & -> & ->).
      destruct (rack_update_spec r c time_sent (u32 (seq + 1))) as (-> & ->). done.
    + destruct (rack_reordering_frame r (u32 (seq + 1)) true) as (-> & -> & ->). done.
  - set (x := if c =? 0 then 1 else c). cbn [andb].
    destruct (rack_reordering_frame (rack_update (rtt_sample r time x) x time_sent (u32 (seq + 1)))
      (u32 (seq + 1)) false) as (-> & -> & ->).
    destruct (rack_update_spec (rtt_sample r time x) x time_sent (u32 (seq + 1))) as (-> & ->).
    destruct (rtt_sample_rack r time x) as (-> & -> & _ & _). done.
Qed.

(** C25: acking a packet makes (rack_time_sent, rack_next_seq) the later, in the
    order of [rack_sent_after], of its old value and the packet's when the
    sample is accepted, and leaves it alone when a retransmitted packet's sample
    is below the minimum RTT; a packet never retransmitted is always accepted. *)
Theorem rack_most_recent r time time_sent seq rx :
  let '(r', rtt, accepted) := ack_rtt r time time_sent seq rx in
  (accepted = true →
     rack_rtt r' = rtt ∧
     rack_sent_after time_sent (u32 (seq + 1)) (rack_time_sent r') (rack_next_seq r') = false ∧
     (rack_sent_after time_sent (u32 (seq + 1)) (rack_time_sent r) (rack_next_seq r) = false →
        (rack_time_sent r', rack_next_seq r') = (rack_time_sent r, rack_next_seq r))) ∧
  (accepted = false →
     rx = true ∧ rtt < udx_rtt_min r ∧ rack_rtt r' = rack_rtt r ∧
     (rack_time_sent r', rack_next_seq r') = (rack_time_sent r, rack_next_seq r)).
Proof.
  pose proof (ack_rtt_rack r time time_sent seq rx) as H.
  assert (Ha : (ack_rtt r time time_sent seq rx).2 = false →
     rx = true ∧ (ack_rtt r time time_sent seq rx).1.2 < udx_rtt_min r).
  { unfold ack_rtt. destruct rx; cbn; [|done]. destruct (Z.leb_spec (udx_rtt_min r)
      (clamp_rtt r (u64 (time - time_sent)))); cbn; [done|]. intros _. split; [done|]. lia. }
  destruct (ack_rtt r time time_sent seq rx) as [[r' rtt] accepted]. cbn in Ha.
  destruct H as [H1 H2]. split; intros ->; cbn [andb] in H1.
  - split; [done|]. destruct (rack_sent_after time_sent _ (rack_time_sent r) _) eqn:E;
      injection H1 as -> ->; (split; [|done || (intros; congruence)]); [|done].
    unfold rack_sent_after, seq_compare. rewrite seq_diff_self, Z.ltb_irrefl, Z.eqb_refl. done.
  - destruct (Ha eq_refl). done.
Qed.

Example rack_most_recent_witness :
  let r := mk_rtt_st 100 50 1000 (win_filter_reset 0 90) 90 5 7 7 false in
  let r' := (ack_rtt r 400 200 9 false).1.1 in
  (ack_rtt r 400 200 9 false).2 = true ∧ rack_time_sent r' = 200 ∧
  rack_sent_after 200 10 (rack_time_sent r') (rack_next_seq r') = false.
Proof.
  intros r r'. split; [reflexivity|]. split; [reflexivity|].
  apply (proj1 (rack_most_recent r 400 200 9 false)). reflexivity.
Defined.

(** The reordering window is at most srtt and a quarter of the minimum RTT. *)
Lemma reo_wnd_bound s :
  0 <= srtt (s_rtt s) → 0 <= udx_rtt_min (s_rtt s) →
  0 <= rack_update_reo_wnd s <= srtt (s_rtt s) ∧ rack_update_reo_wnd s <= udx_rtt_min (s_rtt s) / 4.
Proof.
  intros. unfold rack_update_reo_wnd.
  assert (0 <= udx_rtt_min (s_rtt s) / 4) by (apply Z.div_pos; lia).
  repeat case_match; case_ltb; lia.
Qed.
