(* ===== verification/Mtu.v ===== *)
(** * Path MTU discovery (RFC 8899; src/udx.c)

    The state machine of [reset_mtu_state_machine], the MTU part of
    [udx_stream_connect], the probe bookkeeping of [_send_new_packet], the MTU
    part of [ack_packet] and [mtu_unprobeify_packet]; padding a packet into a
    probe ([mtu_probeify_packet], the probe part of [_send_packet]) and removing
    the padding on the other side ([process_packet]). *)

From S2P Require Import Prelude SeqNum Endian Wire WinFilter Stream.

(** ** The state machine *)

Definition reset_mtu_state_machine (m : mtu_st) : mtu_st :=
  m <| mtu := UDX_MTU_BASE |> <| mtu_state := UDX_MTU_STATE_BASE |> <| mtu_probe_count := 0 |>
    <| mtu_probe_size := UDX_MTU_BASE |> <| mtu_max := UDX_MTU_MAX |>.

(** [link_mtu] is the result of udx__get_link_mtu, -1 on failure. *)
Definition mtu_connect (m : mtu_st) (link_mtu : Z) : mtu_st :=
  if (link_mtu =? -1) || (UDX_MTU_MAX <? link_mtu) then m <| mtu_max := UDX_MTU_MAX |>
  else if link_mtu <=? UDX_MTU_BASE
       then m <| mtu_state := UDX_MTU_STATE_SEARCH_COMPLETE |> <| mtu_max := link_mtu |>
       else m <| mtu_max := link_mtu |>.

(** The statements under [if (mtu_probe)] of _send_new_packet. *)
Definition mtu_probe_sent (m : mtu_st) : mtu_st :=
  m <| mtu_probe_count ::= λ c, c + 1 |> <| mtu_probe_wanted := false |>.

(** ack_packet, for an acked packet that is (or not) a probe. *)
Definition mtu_on_ack (m : mtu_st) (is_mtu_probe : bool) : mtu_st :=
  let m :=
    if (mtu_state m =? UDX_MTU_STATE_SEARCH) && (0 <? mtu_probe_count m) && is_mtu_probe then
      let m := m <| mtu_probe_count := 0 |> <| mtu := u16 (mtu_probe_size m) |> in
      if mtu_probe_size m =? mtu_max m then m <| mtu_state := UDX_MTU_STATE_SEARCH_COMPLETE |>
      else
        let m := m <| mtu_probe_size ::= λ z, z + UDX_MTU_STEP |> in
        let m := if mtu_max m <=? mtu_probe_size m then m <| mtu_probe_size := mtu_max m |> else m in
        m <| mtu_probe_wanted := true |>
    else m in
  if (mtu_state m =? UDX_MTU_STATE_BASE) || (mtu_state m =? UDX_MTU_STATE_ERROR)
  then m <| mtu_state := UDX_MTU_STATE_SEARCH |> <| mtu_probe_wanted := true |>
  else m.

(** The stream's half of mtu_unprobeify_packet. *)
Definition mtu_probe_lost (m : mtu_st) : mtu_st :=
  if mtu_state m =? UDX_MTU_STATE_SEARCH then
    if UDX_MTU_MAX_PROBES <=? mtu_probe_count m
    then m <| mtu_state := UDX_MTU_STATE_SEARCH_COMPLETE |>
    else m <| mtu_probe_wanted := true |>
  else m.

Definition mtu_unprobeify_packet (p : packet) (m : mtu_st) : option (packet * mtu_st) :=
  assert! p_is_mtu_probe p;
  Some (p <| p_header ::= λ h, <[3%nat := 0]> h |> <| p_is_mtu_probe := false |>,
        mtu_probe_lost m).

(** [None] is the failed assertion; the boolean is the C result. *)
Definition mtu_probeify_packet (p : packet) (wanted_size : Z) : option (packet * bool) :=
  if negb (has (nth 2 (p_header p) 0) UDX_HEADER_DATA) || negb (nth 3 (p_header p) 0 =? 0)
  then Some (p, false)
  else
    let family := sa_fam (p_remote_addr p) in
    assert! bool_decide (family = AF_INET ∨ family = AF_INET6);
    let ip_udp_overhead := header_size family - UDX_HEADER_SIZE in
    let ip_packet_size := p_size p + ip_udp_overhead in
    let padding_size := wanted_size - ip_packet_size in
    if (padding_size <? 0) || (255 <? padding_size) then Some (p, false)
    else Some (p <| p_header ::= λ h, <[3%nat := padding_size]> h |> <| p_is_mtu_probe := true |>,
               true).

(** ** The invariant *)

Definition searching (st : Z) : Prop :=
  st = UDX_MTU_STATE_BASE ∨ st = UDX_MTU_STATE_SEARCH ∨ st = UDX_MTU_STATE_ERROR.
#[export] Instance searching_dec st : Decision (searching st).
Proof. unfold searching. apply _. Defined.

Record mtu_ok (m : mtu_st) : Prop := {
  mok_state : searching (mtu_state m) ∨ mtu_state m = UDX_MTU_STATE_SEARCH_COMPLETE;
  mok_mtu : UDX_MTU_BASE <= mtu m <= mtu_probe_size m;
  mok_size : mtu_probe_size m <= UDX_MTU_MAX;
  mok_max : searching (mtu_state m) → mtu_probe_size m <= mtu_max m <= UDX_MTU_MAX;
  mok_count : 0 <= mtu_probe_count m <= UDX_MTU_MAX_PROBES;
  mok_wanted : mtu_probe_wanted m = true → mtu_probe_count m < UDX_MTU_MAX_PROBES;
  (** a wanted probe may survive a reset, so one may be out before the search *)
  mok_base : mtu_state m = UDX_MTU_STATE_BASE ∨ mtu_state m = UDX_MTU_STATE_ERROR →
    mtu_probe_count m + Z.b2z (mtu_probe_wanted m) <= 1 }.

Ltac unfold_mtu :=
  unfold searching, UDX_MTU_STATE_BASE, UDX_MTU_STATE_SEARCH, UDX_MTU_STATE_ERROR,
    UDX_MTU_STATE_SEARCH_COMPLETE, UDX_MTU_BASE, UDX_MTU_MAX, UDX_MTU_MAX_PROBES, UDX_MTU_STEP in *.

(** Case analysis on the state machine: record states, branches, arithmetic. *)
Ltac mtu_cases m :=
  destruct m as [st [|] c z mx mt];
  unfold mtu_on_ack, mtu_probe_lost, mtu_probe_sent, mtu_connect, reset_mtu_state_machine in *;
  unfold_mtu; cbn in *;
  repeat match goal with
  | |- context [?a =? ?b] => destruct (Z.eqb_spec a b); cbn in *
  | |- context [?a <? ?b] => destruct (Z.ltb_spec a b); cbn in *
  | |- context [?a <=? ?b] => destruct (Z.leb_spec a b); cbn in *
  end.

Lemma u16_small x : 0 <= x < 65536 → u16 x = x.
Proof. intros. unfold u16. apply Z.mod_small. lia. Qed.

Ltac mtu_close := constructor; unfold_mtu; cbn in *; rewrite ?u16_small by lia;
  intuition (subst; cbn in *; try done; try lia).

Lemma reset_mtu_ok m : mtu_ok m → mtu_ok (reset_mtu_state_machine m).
Proof. intros [H1 H2 H3 H4 H5 H6 H7]. destruct (mtu_probe_wanted m) eqn:E; mtu_cases m; mtu_close. Qed.

Lemma mtu_connect_ok m link_mtu :
  mtu_ok m → mtu_probe_size m = UDX_MTU_BASE → mtu_ok (mtu_connect m link_mtu).
Proof. intros [H1 H2 H3 H4 H5 H6 H7] Hz. mtu_cases m; mtu_close. Qed.

Lemma mtu_on_ack_ok m b : mtu_ok m → mtu_ok (mtu_on_ack m b).
Proof.
  intros [H1 H2 H3 H4 H5 H6 H7]. destruct b; mtu_cases m; try lia;
    mtu_close.
Qed.

Lemma mtu_probe_lost_ok m : mtu_ok m → mtu_ok (mtu_probe_lost m).
Proof.
  intros [H1 H2 H3 H4 H5 H6 H7]. mtu_cases m; try lia;
    mtu_close.
Qed.

Lemma mtu_probe_sent_ok m : mtu_ok m → mtu_probe_wanted m = true → mtu_ok (mtu_probe_sent m).
Proof.
  intros [H1 H2 H3 H4 H5 H6 H7] Hw. specialize (H6 Hw). mtu_cases m;
    mtu_close.
Qed.

(** ** The search

    One round sends a probe of [mtu_probe_size] bytes; [path] says whether a
    datagram of that size arrives.  A probe that is lost is repaired by the
    retransmission of its packet without the padding. *)

Definition mtu_round (path : Z → bool) (m : mtu_st) : mtu_st :=
  let m := mtu_probe_sent m in
  if path (mtu_probe_size m) then mtu_on_ack m true else mtu_probe_lost m.

Fixpoint mtu_search (fuel : nat) (path : Z → bool) (m : mtu_st) : mtu_st :=
  match fuel with
  | O => m
  | S fuel => if mtu_probe_wanted m then mtu_search fuel path (mtu_round path m) else m
  end.

(** Sizes left to try, three probes each. *)
Definition mtu_measure (m : mtu_st) : Z :=
  3 * (mtu_max m - mtu_probe_size m) + (UDX_MTU_MAX_PROBES - mtu_probe_count m).

(** What the search has established: every size up to [mtu m] passes, and a
    search that is over has tried the next size, or reached the maximum. *)
Record search_inv (path : Z → bool) (m : mtu_st) : Prop := {
  si_ok : mtu_ok m;
  si_base : mtu m = UDX_MTU_BASE ∨ path (mtu m) = true;
  si_next : mtu_probe_size m = mtu m ∧ mtu m = UDX_MTU_BASE ∨ mtu_probe_size m = mtu m ∧ mtu m = mtu_max m ∨
            mtu_probe_size m = Z.min (mtu m + UDX_MTU_STEP) (mtu_max m);
  si_state : mtu_state m = UDX_MTU_STATE_SEARCH ∧ mtu_probe_wanted m = true ∨
             mtu_state m = UDX_MTU_STATE_SEARCH_COMPLETE ∧ mtu_probe_wanted m = false ∧
             (mtu m = mtu_max m ∨ path (mtu_probe_size m) = false) }.

Lemma mtu_round_inv path m :
  search_inv path m → mtu_probe_wanted m = true →
  search_inv path (mtu_round path m) ∧ mtu_max (mtu_round path m) = mtu_max m ∧
  (mtu_probe_wanted (mtu_round path m) = true → mtu_measure (mtu_round path m) < mtu_measure m).
Proof.
  intros [Hok Hb Hn Hs] Hw. pose proof (mtu_probe_sent_ok m Hok Hw) as Hok1.
  assert (Hok2 : mtu_ok (mtu_round path m)).
  { unfold mtu_round. cbv zeta. case_match; [by apply mtu_on_ack_ok | by apply mtu_probe_lost_ok]. }
  destruct Hs as [[Hs _]|[_ [Hs _]]]; [|congruence].
  destruct Hok as [_ M2 M3 M4 M5 M6 _].
  unfold mtu_round, mtu_measure in *. rewrite Hs in M4. unfold searching in M4.
  destruct (path (mtu_probe_size (mtu_probe_sent m))) eqn:E;
    mtu_cases m; simplify_eq; try lia; rewrite ?u16_small in * by lia;
    (split; [split; unfold_mtu; cbn in *; rewrite ?u16_small in * by lia; try done; try lia; intuition (try done; try lia)
            | split; [done|intros ?; try done; lia]]).
Qed.

Lemma mtu_search_inv fuel path m :
  search_inv path m → mtu_measure m < Z.of_nat fuel →
  search_inv path (mtu_search fuel path m) ∧ mtu_probe_wanted (mtu_search fuel path m) = false ∧
  mtu_max (mtu_search fuel path m) = mtu_max m.
Proof.
  revert m. induction fuel as [|fuel IH]; intros m Hi Hf; cbn [mtu_search].
  - destruct (mtu_probe_wanted m) eqn:E; [|done].
    destruct Hi as [[_ _ M3 M4 M5 M6 _] _ _ [[Hs _]|[_ [? _]]]]; [|congruence].
    unfold mtu_measure, searching in *. unfold_mtu. specialize (M4 ltac:(lia)). lia.
  - destruct (mtu_probe_wanted m) eqn:E; [|done].
    destruct (mtu_round_inv path m Hi E) as (Hi' & Hmax & Hdec).
    destruct (mtu_probe_wanted (mtu_round path m)) eqn:E'.
    + rewrite <- Hmax. apply IH; [done|]. specialize (Hdec eq_refl). lia.
    + destruct fuel; cbn [mtu_search]; rewrite ?E'; done.
Qed.

(** The state in which the search starts: the stream was reset and connected,
    and a first packet was acked. *)
Definition mtu_search_start (m : mtu_st) (link_mtu : Z) : mtu_st :=
  mtu_on_ack (mtu_connect (reset_mtu_state_machine m) link_mtu) false.

Lemma mtu_search_start_inv path m link_mtu :
  link_mtu = -1 ∨ UDX_MTU_BASE < link_mtu →
  search_inv path (mtu_search_start m link_mtu) ∧
  mtu_max (mtu_search_start m link_mtu) = (if link_mtu =? -1 then UDX_MTU_MAX else Z.min link_mtu UDX_MTU_MAX) ∧
  mtu_measure (mtu_search_start m link_mtu) < 904.
Proof.
  intros Hl. unfold mtu_search_start, mtu_connect. unfold_mtu.
  destruct (Z.eqb_spec link_mtu (-1)) as [->|]; cbn [orb].
  { destruct m as [? [|] ? ? ? ?]; cbn; (split; [|split; [done|]]); [|done| |done];
      (split; [split|..]; cbn; unfold_mtu; try (left; done || lia); try done; lia). }
  destruct (Z.ltb_spec 1500 link_mtu); [|rewrite (proj2 (Z.leb_gt _ _)) by lia];
    destruct m as [? [|] ? ? ? ?]; cbn; (split; [|split; [lia|unfold mtu_measure; cbn; unfold_mtu; lia]]);
    (split; [split|..]; cbn; unfold_mtu; try (left; done || lia); try done; lia).
Qed.

(** C22: path MTU search terminates, with the answer the path dictates: after a
    reset, a connect and one ack, at most 904 probe rounds (sizes times three
    tries) reach SEARCH_COMPLETE; the MTU is then the base or a size that
    passes, and it is the maximum or the next size to try does not pass. *)
Theorem mtu_search_complete path m link_mtu fuel :
  link_mtu = -1 ∨ UDX_MTU_BASE < link_mtu → (904 <= fuel)%nat →
  let m' := mtu_search fuel path (mtu_search_start m link_mtu) in
  let max := if link_mtu =? -1 then UDX_MTU_MAX else Z.min link_mtu UDX_MTU_MAX in
  mtu_state m' = UDX_MTU_STATE_SEARCH_COMPLETE ∧ mtu_probe_wanted m' = false ∧
  UDX_MTU_BASE <= mtu m' <= max ∧
  (mtu m' = UDX_MTU_BASE ∨ path (mtu m') = true) ∧
  (mtu m' = max ∨ path (Z.min (mtu m' + UDX_MTU_STEP) max) = false ∨
   mtu m' = UDX_MTU_BASE ∧ path UDX_MTU_BASE = false).
Proof.
  intros Hl Hf m' max.
  destruct (mtu_search_start_inv path m link_mtu Hl) as (Hi & Hmax & Hme).
  destruct (mtu_search_inv fuel path _ Hi ltac:(lia)) as (Hi' & Hw & Hmx).
  fold m' in Hi', Hw, Hmx. rewrite Hmax in Hmx. fold max in Hmx.
  destruct Hi' as [[_ M2 _ _ _ _ _] Hb Hn Hs].
  destruct Hs as [[_ ?]|(Hs & _ & Hend)]; [congruence|].
  assert (mtu m' <= max) by (destruct Hn as [[? ?]|[[? ?]|?]]; unfold max in *; unfold_mtu; case_ltb; lia).
  split_and!; try done; [lia|]. rewrite Hmx in *.
  destruct Hend as [?|Hend]; [by left|].
  destruct Hn as [[Hz E]|[[Hz E]|Hz]]; [right; right|by left|right; left]; rewrite Hz in Hend; [|done].
  rewrite E in Hend. done.
Qed.

Example mtu_search_complete_witness :
  let m' := mtu_search 904 (λ z, z <=? 1420) (mtu_search_start (mk_mtu_st 0 false 0 0 0 0) 1492) in
  (mtu_state m' = UDX_MTU_STATE_SEARCH_COMPLETE ∧ mtu m' = 1392).
Proof.
  intros m'. split; [|vm_compute; reflexivity].
  apply (mtu_search_complete (λ z, z <=? 1420) (mk_mtu_st 0 false 0 0 0 0) 1492 904);
    [right; done | lia].
Defined.

(** ** Padding *)

(** The bytes [_send_packet] hands to the socket: header, zeros, data. *)
Definition packet_wire (p : packet) (data : list Z) : list Z :=
  if p_is_mtu_probe p
  then p_header p ++ repeat 0 (Z.to_nat (nth 3 (p_header p) 0)) ++ data
  else p_header p ++ data.

(** The payload [process_packet] finds; [None] is its [return 1] on an offset
    beyond the datagram. *)
Definition skip_data_offset (data_offset : Z) (buf : list Z) : option (list Z) :=
  let buf := drop (Z.to_nat UDX_HEADER_SIZE) buf in
  if data_offset =? 0 then Some buf
  else if Z.of_nat (length buf) <? data_offset then None
  else Some (drop (Z.to_nat data_offset) buf).

Lemma header_set_offset host type rid rwnd seq ack o :
  <[3%nat := o]> (header_bytes host type rid rwnd seq ack) =
    [UDX_MAGIC_BYTE; UDX_VERSION; u8 type; o] ++ put_words host [rid; rwnd; seq; ack].
Proof. reflexivity. Qed.

(** Only the offset byte of the parsed header depends on the offset byte sent. *)
Lemma parse_header_offset host sender type rid rwnd seq ack o payload :
  is_u8 type → Forall is_u32 [rid; rwnd; seq; ack] →
  parse_header host (<[3%nat := o]> (header_bytes sender type rid rwnd seq ack) ++ payload) =
    Some (mk_header type o rid rwnd seq ack).
Proof.
  intros Ht Hw. pose proof (parse_header_bytes sender host type rid rwnd seq ack payload Ht Hw) as Hp.
  rewrite header_set_offset. unfold parse_header in *.
  rewrite (proj2 (Z.ltb_ge _ _)) in Hp
    by (rewrite length_app, header_bytes_length; unfold UDX_HEADER_SIZE; lia).
  rewrite (proj2 (Z.ltb_ge _ _))
    by (rewrite !length_app, put_words_length; unfold UDX_HEADER_SIZE; cbn; lia).
  cbn [app header_bytes] in Hp |- *.
  change (negb (UDX_MAGIC_BYTE =? UDX_MAGIC_BYTE) || negb (UDX_VERSION =? UDX_VERSION)) with false in *.
  cbv iota in *. injection Hp as E0 E1 E2 E3 E4. f_equal. f_equal; assumption.
Qed.

(** Whatever the words written, their low 32 bits are read. *)
Lemma parse_header_any host sender type rid rwnd seq ack o payload :
  is_u8 type →
  parse_header host (<[3%nat := o]> (header_bytes sender type rid rwnd seq ack) ++ payload) =
    Some (mk_header type o (u32 rid) (u32 rwnd) (u32 seq) (u32 ack)).
Proof.
  intros Ht. rewrite <- (parse_header_offset host sender type (u32 rid) (u32 rwnd) (u32 seq) (u32 ack) o payload Ht).
  - rewrite !header_set_offset. by rewrite <- (put_words_u32 sender [rid; rwnd; seq; ack]).
  - repeat constructor; apply u32_range.
Qed.

(** C23: turning a data packet into an MTU probe is transparent: the datagram
    with its IP and UDP headers has exactly the wanted size, the receiver parses
    the same header but for the offset byte and finds the same payload, and
    unprobeify gives the packet back. *)
Theorem mtu_probe_transparent host sender p p' wanted type rid rwnd seq ack data m :
  p_header p = header_bytes sender type rid rwnd seq ack →
  is_u8 type → Forall is_u32 [rid; rwnd; seq; ack] → p_is_mtu_probe p = false →
  p_size p = UDX_HEADER_SIZE + Z.of_nat (length data) →
  mtu_probeify_packet p wanted = Some (p', true) →
  let wire := packet_wire p' data in
  let padding := nth 3 (p_header p') 0 in
  Z.of_nat (length wire) + (header_size (sa_fam (p_remote_addr p)) - UDX_HEADER_SIZE) = wanted ∧
  0 <= padding <= 255 ∧
  parse_header host wire = Some (mk_header type padding rid rwnd seq ack) ∧
  skip_data_offset padding wire = Some data ∧
  mtu_unprobeify_packet p' m = Some (p, mtu_probe_lost m).
Proof.
  intros Hh Ht Hw Hpr Hsz Hp wire padding. unfold mtu_probeify_packet in Hp. cbv zeta in Hp.
  destruct (negb (has _ _) || _) eqn:E1; [done|].
  destruct (bool_decide _) eqn:E2; [|done].
  set (pad := wanted - _) in Hp.
  destruct ((pad <? 0) || (255 <? pad)) eqn:E3; [done|].
  injection Hp as Hp. apply orb_false_iff in E3 as [E3 E4]. apply Z.ltb_ge in E3, E4.
  apply orb_false_iff in E1 as [_ E1]. apply negb_false_iff, Z.eqb_eq in E1.
  assert (Hpad : padding = pad) by (unfold padding; rewrite <- Hp; cbn; rewrite Hh; reflexivity).
  assert (Hwire : wire = <[3%nat := pad]> (header_bytes sender type rid rwnd seq ack) ++ repeat 0 (Z.to_nat pad) ++ data).
  { unfold wire, packet_wire. fold padding. rewrite Hpad. rewrite <- Hp. cbn. by rewrite Hh. }
  rewrite Hpad, Hwire. split_and!; try lia.
  - rewrite !length_app, length_insert, header_bytes_length, repeat_length.
    unfold pad, UDX_HEADER_SIZE in *. lia.
  - by apply parse_header_offset.
  - unfold skip_data_offset, UDX_HEADER_SIZE.
    rewrite drop_app_ge by (rewrite length_insert, header_bytes_length; lia).
    rewrite length_insert, header_bytes_length. change (Z.to_nat 20 - 20)%nat with 0%nat. rewrite drop_0.
    rewrite length_app, repeat_length.
    destruct (Z.eqb_spec pad 0) as [->|]; [done|]. rewrite (proj2 (Z.ltb_ge _ _)) by lia.
    rewrite drop_app_ge by (rewrite repeat_length; lia). rewrite repeat_length, Nat.sub_diag. done.
  - unfold mtu_unprobeify_packet. rewrite <- Hp. cbn. do 2 f_equal.
    destruct p. cbn in *. by subst.
Qed.

Example mtu_probe_transparent_witness :
  let a := mk_sockaddr AF_INET 9 [127; 0; 0; 1] in
  let p := mk_packet 7 false false 0 false 1 1172 a 16 5 0 0 0 0 0 false
    (header_bytes UDX_LE 1 5 100 7 3) 5 [mk_chunk 1 0 1152] in
  let p' := (p <| p_header ::= λ h, <[3%nat := 32]> h |> <| p_is_mtu_probe := true |>) in
  mtu_probeify_packet p 1232 = Some (p', true) ∧
  skip_data_offset 32 (packet_wire p' (repeat 9 1152)) = Some (repeat 9 1152).
Proof.
  intros a p p'. split; [reflexivity|].
  apply (mtu_probe_transparent UDX_LE UDX_LE p p' 1232 1 5 100 7 3 (repeat 9 1152) (mk_mtu_st 2 false 1 1232 1500 1200));
    try reflexivity; [done | by repeat constructor].
Defined.
