(* ===== verification/Rate.v ===== *)
(** * Delivery rate sampling (src/udx_rate.c) *)

From S2P Require Import Prelude SeqNum WinFilter Stream Rtt.

(** [udx_rate_sample_t] (src/internal.h). *)
Record udx_rate_sample_t := mk_rs {
  rs_prior_timestamp : Z; rs_prior_delivered : Z; rs_delivered : Z; rs_interval_ms : Z;
  rs_snd_interval_ms : Z; rs_rcv_interval_ms : Z; rs_rtt_ms : Z; rs_losses : Z;
  rs_acked_sacked : Z; rs_prior_in_flight : Z; rs_seq : Z;
  rs_is_app_limited : bool; rs_is_retrans : bool; rs_is_ack_delayed : bool }.
#[export] Instance eta_rs : Eta udx_rate_sample_t := λ r,
  mk_rs (rs_prior_timestamp r) (rs_prior_delivered r) (rs_delivered r) (rs_interval_ms r)
    (rs_snd_interval_ms r) (rs_rcv_interval_ms r) (rs_rtt_ms r) (rs_losses r)
    (rs_acked_sacked r) (rs_prior_in_flight r) (rs_seq r)
    (rs_is_app_limited r) (rs_is_retrans r) (rs_is_ack_delayed r).

(** [udx_rate_sample_t rs = {.rtt_ms = -1}]. *)
Definition rs_init : udx_rate_sample_t := mk_rs 0 0 0 0 0 0 (-1) 0 0 0 0 false false false.

Definition udx__rate_pkt_sent (now : Z) (s : stream) (p : packet) : stream * packet :=
  let s := if s_seq s =? s_remote_acked s
           then s <| s_rate ::= λ r, r <| first_sent_ts := now |> <| delivered_ts := now |> |>
           else s in
  let r := s_rate s in
  (s, p <| p_first_sent_ts := first_sent_ts r |> <| p_delivered_ts := delivered_ts r |>
        <| p_delivered := delivered r |> <| p_is_app_limited := truthy (app_limited r) |>).

(** uint64_t stamps below 2^63, so the int64_t difference is the exact one. *)
Definition stamp_ms_delta (t1 t0 : Z) : Z := u32 (max_int64 (i64 (i64 t1 - i64 t0)) 0).

Definition udx__rate_pkt_delivered (r : rate_st) (p : packet) (rs : udx_rate_sample_t) :
    rate_st * udx_rate_sample_t :=
  if p_delivered_ts p =? 0 then (r, rs)
  else if (rs_prior_delivered rs =? 0)
          || rack_sent_after (p_time_sent p) (p_seq p) (first_sent_ts r) (rs_seq rs)
  then
    let rs := rs <| rs_prior_delivered := p_delivered p |>
                 <| rs_prior_timestamp := p_delivered_ts p |>
                 <| rs_is_app_limited := p_is_app_limited p |>
                 <| rs_is_retrans := p_retransmitted p |>
                 <| rs_seq := p_seq p |> in
    let r := r <| first_sent_ts := p_time_sent p |> in
    (r, rs <| rs_interval_ms := stamp_ms_delta (first_sent_ts r) (p_first_sent_ts p) |>)
  else (r, rs).

Definition udx__rate_gen (now : Z) (rtt : rtt_st) (r : rate_st) (dlv lst : Z)
    (rs : udx_rate_sample_t) : rate_st * udx_rate_sample_t :=
  let r := if truthy (app_limited r) && (0 <? seq_compare (delivered r) (app_limited r))
           then r <| app_limited := 0 |> else r in
  let r := if truthy dlv then r <| delivered_ts := now |> else r in
  let rs := rs <| rs_acked_sacked := dlv |> <| rs_losses := i32 lst |> in
  if rs_prior_timestamp rs =? 0
  then (r, rs <| rs_delivered := -1 |> <| rs_interval_ms := -1 |>)
  else
    let rs := rs <| rs_delivered := i32 (delivered r - rs_prior_delivered rs) |> in
    let snd_ms := u32 (rs_interval_ms rs) in
    let ack_ms := stamp_ms_delta now (rs_prior_timestamp rs) in
    let rs := rs <| rs_interval_ms := max_uint32 snd_ms ack_ms |>
                 <| rs_snd_interval_ms := snd_ms |> <| rs_rcv_interval_ms := ack_ms |> in
    if rs_interval_ms rs <? udx_rtt_min rtt then (r, rs <| rs_interval_ms := -1 |>)
    else if negb (rs_is_app_limited rs)
            || (u64 (u64 (rate_delivered r) * u64 (rs_interval_ms rs))
                <=? u64 (u64 (rs_delivered rs) * rate_interval_ms r))
    then (r <| rate_delivered := u32 (rs_delivered rs) |>
            <| rate_interval_ms := u32 (rs_interval_ms rs) |>
            <| rate_sample_is_app_limited := rs_is_app_limited rs |>, rs)
    else (r, rs).

Definition udx__rate_check_app_limited (s : stream) : option stream :=
  mp ← udx__max_payload s;
  if (writes_queued_bytes (s_acct s) <? mp) && (qlen (s_inflight_queue s) <? s_cwnd s)
     && (qlen (s_retransmit_queue s) =? 0)
  then
    let x := u32 (delivered (s_rate s) + qlen (s_inflight_queue s)) in
    Some (s <| s_rate ::= λ r, r <| app_limited := if x =? 0 then 1 else x |> |>)
  else Some s.

(** ** The sample describes the most recently sent packet of the batch *)

Lemma stamp_ms_delta_spec t1 t0 :
  0 <= t1 < 2 ^ 62 → 0 <= t0 < 2 ^ 62 → t1 - t0 < 4294967296 →
  stamp_ms_delta t1 t0 = Z.max (t1 - t0) 0.
Proof.
  intros. unfold stamp_ms_delta, max_int64.
  assert (Hi : ∀ x, - 2 ^ 62 < x < 2 ^ 62 → i64 x = x) by (intros; word_lia).
  rewrite !Hi by (rewrite ?Hi; lia). rewrite u32_id by (unfold is_u32; case_ltb; lia). case_ltb; lia.
Qed.

(** A batch of acked packets, each with its own rate state. *)
Definition rate_batch (r : rate_st) (ps : list packet) (rs : udx_rate_sample_t) :
    rate_st * udx_rate_sample_t :=
  foldl (λ '(r, rs) p, udx__rate_pkt_delivered r p rs) (r, rs) ps.

(** Packets sent while something had been delivered, in one half-window. *)
Definition rate_sent (base : Z) (p : packet) : Prop :=
  p_delivered_ts p ≠ 0 ∧ p_delivered p ≠ 0 ∧
  ∃ d, 0 <= d < 2147483648 ∧ p_seq p = u32 (base + d).

Definition sent_after (p q : packet) : bool :=
  rack_sent_after (p_time_sent p) (p_seq p) (p_time_sent q) (p_seq q).

(** What the sample says of the packet [p] it was taken from. *)
Definition sample_of (p : packet) (r : rate_st) (rs : udx_rate_sample_t) : Prop :=
  rs_prior_delivered rs = p_delivered p ∧ rs_prior_timestamp rs = p_delivered_ts p ∧
  rs_is_app_limited rs = p_is_app_limited p ∧ rs_is_retrans rs = p_retransmitted p ∧
  rs_seq rs = p_seq p ∧ first_sent_ts r = p_time_sent p ∧
  rs_interval_ms rs = stamp_ms_delta (p_time_sent p) (p_first_sent_ts p).

Lemma sent_after_irrefl base p : rate_sent base p → sent_after p p = false.
Proof.
  intros (_ & _ & d & Hd & E). apply not_true_is_false. unfold sent_after.
  rewrite E, rack_sent_after_at by done. lia.
Qed.

Lemma sent_after_step base p c q :
  rate_sent base p → rate_sent base c → rate_sent base q →
  sent_after p c = true → sent_after q c = false → sent_after q p = false.
Proof.
  intros (_ & _ & d & Hd & E) (_ & _ & d' & Hd' & E') (_ & _ & e & He & F) H1 H2.
  apply not_true_iff_false in H2. apply not_true_is_false. unfold sent_after in *.
  rewrite E, E', ?F, rack_sent_after_at in * by done. lia.
Qed.

Lemma pkt_delivered_first r p rs :
  p_delivered_ts p ≠ 0 → rs_prior_delivered rs = 0 →
  sample_of p (udx__rate_pkt_delivered r p rs).1 (udx__rate_pkt_delivered r p rs).2.
Proof.
  intros Ht Hz. unfold udx__rate_pkt_delivered. rewrite (proj2 (Z.eqb_neq _ _) Ht), Hz. by repeat split.
Qed.

Lemma pkt_delivered_next r p rs c :
  p_delivered_ts p ≠ 0 → p_delivered c ≠ 0 → sample_of c r rs →
  let '(r', rs') := udx__rate_pkt_delivered r p rs in
  if sent_after p c then sample_of p r' rs' else (r', rs') = (r, rs).
Proof.
  intros Ht Hc (E1 & _ & _ & _ & E2 & E3 & _). unfold udx__rate_pkt_delivered, sent_after.
  rewrite (proj2 (Z.eqb_neq _ _) Ht), E1, (proj2 (Z.eqb_neq _ _) Hc), E2, E3. cbn [orb].
  destruct (rack_sent_after _ _ _ _); [by repeat split|done].
Qed.

Lemma rate_batch_inv base ps r rs c done_ :
  rate_sent base c → Forall (rate_sent base) ps → Forall (rate_sent base) done_ →
  sample_of c r rs → c ∈ done_ → Forall (λ q, sent_after q c = false) done_ →
  ∃ p, p ∈ done_ ++ ps ∧ rate_sent base p ∧
    sample_of p (rate_batch r ps rs).1 (rate_batch r ps rs).2 ∧
    Forall (λ q, sent_after q p = false) (done_ ++ ps).
Proof.
  revert r rs c done_. induction ps as [|p ps IH]; intros r rs c dn Hc Hps Hdn Hs Hin Hmax.
  { exists c. rewrite app_nil_r. done. }
  apply Forall_cons in Hps as [Hp Hps].
  pose proof (pkt_delivered_next r p rs c (proj1 Hp) (proj1 (proj2 Hc)) Hs) as Hn.
  unfold rate_batch. cbn [foldl]. destruct (udx__rate_pkt_delivered r p rs) as [r' rs'] eqn:E.
  fold (rate_batch r' ps rs').
  rewrite cons_middle, app_assoc.
  assert (Hdn' : Forall (rate_sent base) (dn ++ [p])) by (apply Forall_app; split; [done|by apply Forall_singleton]).
  destruct (sent_after p c) eqn:Hpc.
  - apply (IH r' rs' p (dn ++ [p])); try done; [set_solver|].
    apply Forall_app. split.
    + rewrite Forall_forall in Hmax, Hdn |- *. intros q Hq.
      by apply (sent_after_step base p c q); auto.
    + apply Forall_singleton. by apply (sent_after_irrefl base).
  - injection Hn as -> ->. apply (IH r rs c (dn ++ [p])); try done; [set_solver|].
    apply Forall_app. split; [done|]. by apply Forall_singleton.
Qed.

Lemma rate_batch_latest base ps r rs :
  Forall (rate_sent base) ps → ps ≠ [] → rs_prior_delivered rs = 0 →
  ∃ p, p ∈ ps ∧ rate_sent base p ∧ sample_of p (rate_batch r ps rs).1 (rate_batch r ps rs).2 ∧
    Forall (λ q, sent_after q p = false) ps.
Proof.
  intros Hps Hne Hz. destruct ps as [|p ps]; [done|]. apply Forall_cons in Hps as [Hp Hps].
  pose proof (pkt_delivered_first r p rs (proj1 Hp) Hz) as Hs.
  unfold rate_batch. cbn [foldl]. destruct (udx__rate_pkt_delivered r p rs) as [r' rs'].
  fold (rate_batch r' ps rs').
  apply (rate_batch_inv base ps r' rs' p [p]); try done; [by apply Forall_singleton|set_solver|].
  apply Forall_singleton. by apply (sent_after_irrefl base).
Qed.

(** What rate_gen makes of a batch's sample. *)
Lemma rate_gen_interval now rtt r dlv lst rs :
  rs_prior_timestamp rs ≠ 0 →
  let '(r', rs') := udx__rate_gen now rtt r dlv lst rs in
  let ivl := max_uint32 (u32 (rs_interval_ms rs)) (stamp_ms_delta now (rs_prior_timestamp rs)) in
  rs_delivered rs' = i32 (delivered r - rs_prior_delivered rs) ∧
  rs_interval_ms rs' = (if ivl <? udx_rtt_min rtt then -1 else ivl) ∧
  rs_acked_sacked rs' = dlv ∧ delivered r' = delivered r ∧
  (rs_interval_ms rs' ≠ -1 → rs_is_app_limited rs = false →
     rate_delivered r' = u32 (rs_delivered rs') ∧ rate_interval_ms r' = u32 (rs_interval_ms rs')).
Proof.
  intros Hz. unfold udx__rate_gen.
  destruct (truthy (app_limited r) && _); destruct (truthy dlv); cbn -[u32 i32 u64];
    rewrite (proj2 (Z.eqb_neq _ _) Hz); cbn -[u32 i32 u64];
    (destruct (_ <? udx_rtt_min rtt); cbn -[u32 i32 u64]; [by split_and!|]);
    (destruct (negb (rs_is_app_limited rs) || _) eqn:E; cbn -[u32 i32 u64]; split_and!; try done);
    intros _ Hl; by rewrite Hl in E.
Qed.

(** C26: the rate sample of an ACK is taken from the most recently sent packet it
    acks: the delivered count and the interval are measured from the moment that
    packet was sent (the longer of the send and the ack interval), and an
    interval below the minimum RTT makes the sample invalid (-1). *)
Theorem rate_sample_latest base now rtt r ps dlv lst :
  Forall (rate_sent base) ps → ps ≠ [] → 0 <= now < 2 ^ 62 →
  Forall (λ p, 0 <= p_first_sent_ts p <= p_time_sent p ∧ 0 <= p_delivered_ts p <= now ∧
               p_time_sent p - p_first_sent_ts p < 4294967296 ∧ p_time_sent p <= now ∧
               now - p_delivered_ts p < 4294967296) ps →
  ∃ p, p ∈ ps ∧ (∀ q, q ∈ ps → sent_after q p = false) ∧
    let '(r1, rs1) := rate_batch r ps rs_init in
    let '(r2, rs2) := udx__rate_gen now rtt r1 dlv lst rs1 in
    let ivl := Z.max (p_time_sent p - p_first_sent_ts p) (now - p_delivered_ts p) in
    first_sent_ts r1 = p_time_sent p ∧ rs_is_retrans rs1 = p_retransmitted p ∧
    rs_delivered rs2 = i32 (delivered r1 - p_delivered p) ∧
    rs_interval_ms rs2 = (if ivl <? udx_rtt_min rtt then -1 else ivl).
Proof.
  intros Hps Hne Hnow Ht.
  destruct (rate_batch_latest base ps r rs_init Hps Hne eq_refl) as (p & Hin & Hp & Hs & Hmax).
  exists p. split; [done|]. split; [by apply Forall_forall|].
  destruct (rate_batch r ps rs_init) as [r1 rs1]. cbn in Hs.
  destruct Hs as (E1 & E2 & E3 & E4 & E5 & E6 & E7).
  rewrite Forall_forall in Ht. destruct (Ht p Hin) as (B1 & B2 & B3 & B4 & B5).
  pose proof (rate_gen_interval now rtt r1 dlv lst rs1 ltac:(rewrite E2; apply Hp)) as Hg.
  destruct (udx__rate_gen now rtt r1 dlv lst rs1) as [r2 rs2].
  destruct Hg as (G1 & G2 & _). rewrite E1 in G1. rewrite E2, E7 in G2.
  rewrite !stamp_ms_delta_spec in G2 by lia. unfold max_uint32 in G2.
  rewrite u32_id in G2 by (unfold is_u32; lia).
  split_and!; try done. rewrite G2. case_ltb; lia.
Qed.

Example rate_sample_latest_witness :
  let a := mk_sockaddr AF_INET 9 [127; 0; 0; 1] in
  let pk sq t := mk_packet sq false false 1 false 1 1172 a 16 5 t 0 90 95 4 false [] 5 [] in
  let ps := [pk 7 100; pk 9 120; pk 8 110] in
  let r := mk_rate_st 7 0 0 50 60 0 0 false in
  let rtt := mk_rtt_st 20 5 1000 (win_filter_reset 0 15) 20 5 7 7 false in
  Forall (rate_sent 0) ps ∧
  rs_interval_ms (udx__rate_gen 140 rtt (rate_batch r ps rs_init).1 3 0 (rate_batch r ps rs_init).2).2 = 45 ∧
  ∃ p, p ∈ ps ∧ ∀ q, q ∈ ps → sent_after q p = false.
Proof.
  intros a pk ps r rtt.
  assert (Hps : Forall (rate_sent 0) ps).
  { assert (H : ∀ d t, 0 <= d < 100 → rate_sent 0 (pk d t)).
    { intros d t Hd. split; [done|]. split; [done|]. exists d. split; [lia|].
      change (d = u32 (0 + d)). rewrite u32_id; unfold is_u32; lia. }
    unfold ps. rewrite !Forall_cons. split_and!; try (apply H; lia). by apply Forall_nil. }
  split; [exact Hps|]. split; [reflexivity|].
  destruct (rate_sample_latest 0 140 rtt r ps 3 0 Hps) as (p & Hp & Hq & _);
    [done | lia | | by exists p].
  unfold ps. rewrite !Forall_cons. split_and!; try (cbn; lia). by apply Forall_nil.
Defined.
