(* ===== verification/Float64.v ===== *)
(** * C's double and float (IEEE 754 binary64 and binary32, SpecFloat)

    The arithmetic of src/udx_bbr.c: conversions from integers, products and
    quotients rounded to nearest even, comparisons, and the truncating
    conversions back to unsigned integers, undefined out of range. *)

From Stdlib Require Export SpecFloat.
From S2P Require Import Prelude.

Definition f64_of_Z (z : Z) : spec_float := binary_normalize 53 1024 z 0 false.
Definition f64_mul : spec_float → spec_float → spec_float := SFmul 53 1024.
Definition f64_div : spec_float → spec_float → spec_float := SFdiv 53 1024.
Definition f64_eqb : spec_float → spec_float → bool := SFeqb.
Definition f64_ltb : spec_float → spec_float → bool := SFltb.
Definition f64_leb : spec_float → spec_float → bool := SFleb.

(** The double nearest to the decimal literal n / d, both exact doubles. *)
Definition f64_lit (n d : Z) : spec_float := f64_div (f64_of_Z n) (f64_of_Z d).

(** Conversions between the two formats. *)
Definition f32_of_f64 (f : spec_float) : spec_float :=
  match f with S754_finite s m e => binary_normalize 24 128 (cond_Zopp s (Zpos m)) e s | _ => f end.
Definition f64_of_f32 (f : spec_float) : spec_float :=
  match f with S754_finite s m e => binary_normalize 53 1024 (cond_Zopp s (Zpos m)) e s | _ => f end.

(** The integral part; there is none for infinities and NaN. *)
Definition f64_trunc (f : spec_float) : option Z :=
  match f with
  | S754_zero _ => Some 0
  | S754_finite s m e =>
      Some (cond_Zopp s (if 0 <=? e then Zpos m * 2 ^ e else Zpos m / 2 ^ (- e)))
  | _ => None
  end.
Definition f64_to_u32 (f : spec_float) : option Z :=
  z ← f64_trunc f; if bool_decide (is_u32 z) then Some z else None.
Definition f64_to_u64 (f : spec_float) : option Z :=
  z ← f64_trunc f; if bool_decide (is_u64 z) then Some z else None.

Lemma f64_to_u32_range f z : f64_to_u32 f = Some z → is_u32 z.
Proof. unfold f64_to_u32. destruct (f64_trunc f); [|done]. cbn. case_bool_decide; congruence. Qed.
Lemma f64_to_u64_range f z : f64_to_u64 f = Some z → is_u64 z.
Proof. unfold f64_to_u64. destruct (f64_trunc f); [|done]. cbn. case_bool_decide; congruence. Qed.
