(* ===== verification/Bbr.v ===== *)
(** * BBR congestion control (src/udx_bbr.c)

    The functions act on the stream; [now] is uv_now of its loop.  [None] is a
    failed assertion or a floating-point conversion that C leaves undefined. *)

From S2P Require Import Prelude SeqNum WinFilter Stream Rtt Rate Float64.

Definition UDX_BBR_STATE_STARTUP : Z := 0.
Definition UDX_BBR_STATE_DRAIN : Z := 1.
Definition UDX_BBR_STATE_PROBE_BW : Z := 2.
Definition UDX_BBR_STATE_PROBE_RTT : Z := 3.
Definition UDX_BBR_CYCLE_LEN : Z := 8.
Definition UDX_BBR_MIN_RTT_INTERVAL_MS : Z := 10000.
Definition UDX_BBR_MIN_PROBE_RTT_MODE_MS : Z := 200.

Definition bbr_pacing_margin_percent : spec_float := f64_lit 99 100.
Definition bbr_high_gain : spec_float := f64_lit 288539 100000.
Definition bbr_drain_gain : spec_float := f64_div (f64_of_Z 1) (f64_lit 288539 100000).
Definition bbr_cwnd_gain : spec_float := f64_of_Z 2.
Definition f64_one : spec_float := f64_of_Z 1.
Definition bbr_pacing_gain : list spec_float :=
  [f64_lit 125 100; f64_lit 75 100; f64_one; f64_one; f64_one; f64_one; f64_one; f64_one].
Definition bbr_cwnd_min_target : Z := 4.
Definition bbr_full_bw_thresh : spec_float := f64_lit 125 100.
Definition bbr_full_bw_count : Z := 3.
Definition bbr_extra_acked_gain : spec_float := f64_one.
Definition bbr_extra_acked_win_rtts : Z := 5.
Definition bbr_ack_epoch_acked_reset_thresh : Z := UINT32_MAX.
Definition bbr_extra_acked_max_ms : Z := 100.

(** ** Pacing and window arithmetic *)

Definition bbr_max_bw (s : stream) : spec_float := win_filter_f64_get (b_bw (s_bbr s)).
Definition bbr_full_bw_reached (s : stream) : bool := b_full_bw_reached (s_bbr s).
Definition bbr_bw (s : stream) : spec_float := bbr_max_bw s.

Definition extra_acked_at (b : bbr_st) (i : Z) : option Z := b_extra_acked b !! Z.to_nat i.
Definition bbr_extra_acked (s : stream) : option Z :=
  a ← extra_acked_at (s_bbr s) 0; b ← extra_acked_at (s_bbr s) 1; Some (u16 (max_uint32 a b)).

Definition bbr_bw_to_pacing_rate (s : stream) (bw gain : spec_float) : option Z :=
  mss ← udx__max_payload s;
  bpms ← f64_to_u64 (f64_mul (f64_mul (f64_mul bw (f64_of_Z mss)) gain) bbr_pacing_margin_percent);
  Some (max_uint64 bpms 1).

Definition bbr_init_pacing_rate_from_rtt (s : stream) : option stream :=
  let '(s, srtt0) :=
    if truthy (srtt (s_rtt s))
    then (s <| s_bbr ::= λ b, b <| b_has_seen_rtt := true |> |>, srtt (s_rtt s))
    else (s, 1) in
  let bw := f64_div (f64_of_Z (s_cwnd s)) (f64_of_Z srtt0) in
  assert! negb (f64_eqb bw (f64_of_Z 0));
  rate ← bbr_bw_to_pacing_rate s bw bbr_high_gain;
  Some (s <| s_pacing_bytes_per_ms := u32 rate |>).

Definition bbr_set_pacing_rate (s : stream) (bw gain : spec_float) : option stream :=
  rate_bpms ← bbr_bw_to_pacing_rate s bw gain;
  s ← (if negb (b_has_seen_rtt (s_bbr s)) && truthy (srtt (s_rtt s))
       then bbr_init_pacing_rate_from_rtt s else Some s);
  Some (if b_full_bw_reached (s_bbr s) || (s_pacing_bytes_per_ms s <? rate_bpms)
        then s <| s_pacing_bytes_per_ms := u32 rate_bpms |> else s).

Definition bbr_save_cwnd (s : stream) : stream :=
  if (b_prev_ca_state (s_bbr s) <? UDX_CA_RECOVERY)
     && negb (b_state (s_bbr s) =? UDX_BBR_STATE_PROBE_RTT)
  then s <| s_bbr ::= λ b, b <| b_prior_cwnd := s_cwnd s |> |>
  else s <| s_bbr ::= λ b, b <| b_prior_cwnd := max_uint32 (b_prior_cwnd b) (s_cwnd s) |> |>.

(** The comparison with [~0U] is the one with "no sample yet". *)
Definition bbr_bdp (s : stream) (bw gain : spec_float) : option Z :=
  if b_min_rtt_ms (s_bbr s) =? UINT32_MAX then Some 10
  else x ← f64_to_u32 (f64_mul (f64_mul bw (f64_of_Z (b_min_rtt_ms (s_bbr s)))) gain);
       Some (max_uint32 x 1).
Definition bbr_inflight (s : stream) (bw gain : spec_float) : option Z := bbr_bdp s bw gain.

Definition bbr_ack_aggregation_cwnd (s : stream) : option Z :=
  if negb (f64_eqb bbr_extra_acked_gain (f64_of_Z 0)) && bbr_full_bw_reached s then
    max_aggr_cwnd ← f64_to_u32 (f64_mul (bbr_bw s) (f64_of_Z bbr_extra_acked_max_ms));
    ea ← bbr_extra_acked s;
    aggr_cwnd ← f64_to_u32 (f64_mul bbr_extra_acked_gain (f64_of_Z ea));
    Some (min_uint32 aggr_cwnd max_aggr_cwnd)
  else Some 0.

(** The stream, the new window, and whether packet conservation fixed it. *)
Definition bbr_set_cwnd_to_recover_or_restore (s : stream) (rs : udx_rate_sample_t) (acked : Z) :
    stream * Z * bool :=
  let prev_state := b_prev_ca_state (s_bbr s) in
  let state := s_ca_state s in
  let cwnd := if 0 <? rs_losses rs
              then u32 (max_int32 (i32 (s_cwnd s - rs_losses rs)) 1) else s_cwnd s in
  let '(s, cwnd) :=
    if (state =? UDX_CA_RECOVERY) && negb (prev_state =? UDX_CA_RECOVERY)
    then (s <| s_bbr ::= λ b, b <| b_use_packet_conservation := true |>
                                <| b_next_rtt_delivered := delivered (s_rate s) |> |>,
          u32 (qlen (s_inflight_queue s) + acked))
    else if (UDX_CA_RECOVERY <=? prev_state) && (state =? UDX_CA_OPEN)
    then (s <| s_bbr ::= λ b, b <| b_use_packet_conservation := false |> |>,
          max_uint32 cwnd (b_prior_cwnd (s_bbr s)))
    else (s, cwnd) in
  let s := s <| s_bbr ::= λ b, b <| b_prev_ca_state := state |> |> in
  if b_use_packet_conservation (s_bbr s)
  then (s, max_uint32 cwnd (u32 (qlen (s_inflight_queue s) + acked)), true)
  else (s, cwnd, false).

Definition bbr_set_cwnd (s : stream) (rs : udx_rate_sample_t) (acked : Z) (bw gain : spec_float) :
    option stream :=
  '(s, cwnd) ←
    (if acked =? 0 then Some (s, s_cwnd s)
     else
       let '(s, cwnd, conserve) := bbr_set_cwnd_to_recover_or_restore s rs acked in
       if (conserve : bool) then Some (s, cwnd)
       else
         target ← bbr_bdp s bw gain;
         aggr ← bbr_ack_aggregation_cwnd s;
         let target_cwnd := u32 (target + aggr) in
         let cwnd :=
           if bbr_full_bw_reached s then min_uint32 (u32 (cwnd + acked)) target_cwnd
           else if (cwnd <? target_cwnd) || (delivered (s_rate s) <? 10) then u32 (cwnd + acked)
           else cwnd in
         Some (s, max_uint32 cwnd bbr_cwnd_min_target));
  let s := s <| s_cwnd := cwnd |> in
  assert! 0 <? s_cwnd s;
  Some (if b_state (s_bbr s) =? UDX_BBR_STATE_PROBE_RTT
        then s <| s_cwnd := min_uint32 (s_cwnd s) bbr_cwnd_min_target |> else s).

(** ** The state machine *)

(** The uint64_t stamps are below 2^63; the int64_t difference is converted to
    the uint32_t parameter of max_uint32, so it wraps. *)
Definition time_delta_ms (t1 t0 : Z) : Z := max_uint32 (u32 (i64 t1 - i64 t0)) 0.
Definition time_diff (a b : Z) : Z := i64 (a - b).

Definition bbr_is_next_cycle_phase (s : stream) (rs : udx_rate_sample_t) : option bool :=
  let is_full_length :=
    b_min_rtt_ms (s_bbr s) <? time_delta_ms (delivered_ts (s_rate s)) (b_cycle_timestamp (s_bbr s)) in
  let gain := f64_of_f32 (b_pacing_gain (s_bbr s)) in
  if f64_eqb gain f64_one then Some is_full_length
  else
    let inflight := qlen (s_inflight_queue s) in
    let bw := bbr_max_bw s in
    if f64_ltb f64_one gain then
      if is_full_length then
        if truthy (rs_losses rs) then Some true
        else x ← bbr_inflight s bw gain; Some (x <? inflight)
      else Some false
    else if is_full_length then Some true
    else x ← bbr_inflight s bw f64_one; Some (inflight <=? x).

Definition bbr_advance_cycle_phase (s : stream) : stream :=
  s <| s_bbr ::= λ b,
    b <| b_cycle_index := Z.land (b_cycle_index b + 1) (UDX_BBR_CYCLE_LEN - 1) |>
      <| b_cycle_timestamp := delivered_ts (s_rate s) |> |>.

Definition bbr_update_cycle_phase (s : stream) (rs : udx_rate_sample_t) : option stream :=
  if b_state (s_bbr s) =? UDX_BBR_STATE_PROBE_BW then
    next ← bbr_is_next_cycle_phase s rs;
    Some (if (next : bool) then bbr_advance_cycle_phase s else s)
  else Some s.

Definition bbr_reset_startup_mode (s : stream) : stream :=
  s <| s_bbr ::= λ b, b <| b_state := UDX_BBR_STATE_STARTUP |> |>.

Definition bbr_reset_probe_bw_mode (s : stream) : stream :=
  bbr_advance_cycle_phase
    (s <| s_bbr ::= λ b, b <| b_state := UDX_BBR_STATE_PROBE_BW |> <| b_cycle_index := 3 |> |>).

Definition bbr_reset_mode (s : stream) : stream :=
  if negb (bbr_full_bw_reached s) then bbr_reset_startup_mode s else bbr_reset_probe_bw_mode s.

Definition bbr_update_bw (s : stream) (rs : udx_rate_sample_t) : option stream :=
  let s := s <| s_bbr ::= λ b, b <| b_round_start := false |> |> in
  if (rs_delivered rs <? 0) || (rs_interval_ms rs <=? 0) then Some s
  else
    let s :=
      if 0 <=? seq_diff (rs_prior_delivered rs) (b_next_rtt_delivered (s_bbr s))
      then s <| s_bbr ::= λ b, b <| b_next_rtt_delivered := delivered (s_rate s) |>
                                 <| b_rtt_count ::= λ c, u32 (c + 1) |>
                                 <| b_round_start := true |>
                                 <| b_use_packet_conservation := false |> |>
      else s in
    let bw := f64_div (f64_of_Z (rs_delivered rs)) (f64_of_Z (rs_interval_ms rs)) in
    assert! negb (f64_eqb bw (f64_of_Z 0));
    Some (if negb (rs_is_app_limited rs) || f64_leb (bbr_max_bw s) bw
          then s <| s_bbr ::= λ b, b <| b_bw ::= λ f,
                 win_filter_f64_apply_max f (UDX_BBR_CYCLE_LEN + 2) (b_rtt_count b) bw |> |>
          else s).

(** [array_store] at index [i] of [extra_acked]. *)
Definition extra_acked_store (b : bbr_st) (i v : Z) : option bbr_st :=
  l ← array_store (b_extra_acked b) (Z.to_nat i) (u16 v); Some (b <| b_extra_acked := l |>).

(** The rotation of the two windows at the start of a round. *)
Definition ack_aggregation_rotate (b : bbr_st) : option bbr_st :=
  if b_round_start b then
    let b := b <| b_extra_acked_win_rtts := u8 (min_uint32 255 (b_extra_acked_win_rtts b + 1)) |> in
    if bbr_extra_acked_win_rtts <=? b_extra_acked_win_rtts b then
      let b := b <| b_extra_acked_win_rtts := 0 |>
                 <| b_extra_acked_win_index := if truthy (b_extra_acked_win_index b) then 0 else 1 |> in
      extra_acked_store b (b_extra_acked_win_index b) 0
    else Some b
  else Some b.

Definition bbr_update_ack_aggregation (s : stream) (rs : udx_rate_sample_t) : option stream :=
  if f64_eqb bbr_extra_acked_gain (f64_of_Z 0) || (rs_acked_sacked rs <=? 0)
     || (rs_delivered rs <? 0) || (rs_interval_ms rs <=? 0)
  then Some s
  else
    b ← ack_aggregation_rotate (s_bbr s);
    let epoch_ms := time_delta_ms (delivered_ts (s_rate s)) (b_ack_epoch_start b) in
    expected_acked ← f64_to_u32 (f64_mul (win_filter_f64_get (b_bw b)) (f64_of_Z epoch_ms));
    let '(b, expected_acked) :=
      if (b_ack_epoch_acked b <=? expected_acked)
         || (bbr_ack_epoch_acked_reset_thresh <=? b_ack_epoch_acked b + rs_acked_sacked rs)
      then (b <| b_ack_epoch_acked := 0 |> <| b_ack_epoch_start := delivered_ts (s_rate s) |>, 0)
      else (b, expected_acked) in
    assert! b_ack_epoch_acked b <? u32 (b_ack_epoch_acked b + rs_acked_sacked rs);
    let b := b <| b_ack_epoch_acked ::= λ a, u32 (a + rs_acked_sacked rs) |> in
    let extra_acked := min_uint32 (u32 (b_ack_epoch_acked b - expected_acked)) (s_cwnd s) in
    cur ← extra_acked_at b (b_extra_acked_win_index b);
    b ← (if cur <? extra_acked
         then extra_acked_store b (b_extra_acked_win_index b) extra_acked else Some b);
    Some (s <| s_bbr := b |>).

Definition bbr_check_full_bw_reached (s : stream) (rs : udx_rate_sample_t) : stream :=
  if bbr_full_bw_reached s || negb (b_round_start (s_bbr s)) || rs_is_app_limited rs then s
  else
    let bw_thresh := f64_mul (b_full_bw (s_bbr s)) bbr_full_bw_thresh in
    if f64_leb bw_thresh (bbr_max_bw s)
    then s <| s_bbr ::= λ b, b <| b_full_bw := bbr_max_bw s |> <| b_full_bw_count := 0 |> |>
    else
      let c := u8 (b_full_bw_count (s_bbr s) + 1) in
      s <| s_bbr ::= λ b, b <| b_full_bw_count := c |>
                            <| b_full_bw_reached := bbr_full_bw_count <=? c |> |>.

Definition bbr_check_drain (s : stream) : option stream :=
  let s := if (b_state (s_bbr s) =? UDX_BBR_STATE_STARTUP) && bbr_full_bw_reached s
           then s <| s_bbr ::= λ b, b <| b_state := UDX_BBR_STATE_DRAIN |> |> else s in
  if b_state (s_bbr s) =? UDX_BBR_STATE_DRAIN then
    x ← bbr_inflight s (bbr_max_bw s) f64_one;
    Some (if qlen (s_inflight_queue s) <=? x then bbr_reset_probe_bw_mode s else s)
  else Some s.

Definition bbr_check_probe_rtt_done (s : stream) (now_ms : Z) : stream :=
  if negb (truthy (b_probe_rtt_done_time (s_bbr s))
           && (0 <? time_diff now_ms (b_probe_rtt_done_time (s_bbr s))))
  then s
  else bbr_reset_mode
         (s <| s_bbr ::= λ b, b <| b_min_rtt_stamp := now_ms |> |>
            <| s_cwnd := max_uint32 (s_cwnd s) (b_prior_cwnd (s_bbr s)) |>).

(** The three blocks of bbr_update_min_rtt: take the sample, enter PROBE_RTT,
    run PROBE_RTT. *)
Definition min_rtt_take (now : Z) (filter_expired : bool) (s : stream) (rs : udx_rate_sample_t) : stream :=
  if (0 <=? rs_rtt_ms rs)
     && ((rs_rtt_ms rs <? b_min_rtt_ms (s_bbr s)) || (filter_expired && negb (rs_is_ack_delayed rs)))
  then s <| s_bbr ::= λ b,
         b <| b_min_rtt_ms := if truthy (rs_rtt_ms rs) then u32 (rs_rtt_ms rs) else 1 |>
           <| b_min_rtt_stamp := now |> |>
  else s.

Definition probe_rtt_enter (filter_expired : bool) (s : stream) : stream :=
  if (0 <? UDX_BBR_MIN_PROBE_RTT_MODE_MS) && filter_expired && negb (b_idle_restart (s_bbr s))
     && negb (b_state (s_bbr s) =? UDX_BBR_STATE_PROBE_RTT)
  then bbr_save_cwnd (s <| s_bbr ::= λ b, b <| b_state := UDX_BBR_STATE_PROBE_RTT |> |>)
         <| s_bbr ::= λ b, b <| b_probe_rtt_done_time := 0 |> |>
  else s.

Definition probe_rtt_run (now : Z) (s : stream) : stream :=
  if b_state (s_bbr s) =? UDX_BBR_STATE_PROBE_RTT then
    let x := u32 (delivered (s_rate s) + qlen (s_inflight_queue s)) in
    let s := s <| s_rate ::= λ r, r <| app_limited := if x =? 0 then 1 else x |> |> in
    if negb (truthy (b_probe_rtt_done_time (s_bbr s)))
       && (qlen (s_inflight_queue s) <=? bbr_cwnd_min_target)
    then s <| s_bbr ::= λ b,
           b <| b_probe_rtt_done_time := u64 (now + UDX_BBR_MIN_PROBE_RTT_MODE_MS) |>
             <| b_probe_rtt_round_done := false |>
             <| b_next_rtt_delivered := delivered (s_rate s) |> |>
    else if truthy (b_probe_rtt_done_time (s_bbr s)) then
      let s := if b_round_start (s_bbr s)
               then s <| s_bbr ::= λ b, b <| b_probe_rtt_round_done := true |> |> else s in
      if b_probe_rtt_round_done (s_bbr s) then bbr_check_probe_rtt_done s now else s
    else s
  else s.

Definition bbr_update_min_rtt (now : Z) (s : stream) (rs : udx_rate_sample_t) : stream :=
  let filter_expired :=
    0 <? time_diff now (u64 (b_min_rtt_stamp (s_bbr s) + UDX_BBR_MIN_RTT_INTERVAL_MS)) in
  let s := min_rtt_take now filter_expired s rs in
  let s := probe_rtt_enter filter_expired s in
  let s := probe_rtt_run now s in
  if 0 <? rs_delivered rs then s <| s_bbr ::= λ b, b <| b_idle_restart := false |> |> else s.

Definition set_gains (s : stream) (pacing cwnd : spec_float) : stream :=
  s <| s_bbr ::= λ b, b <| b_pacing_gain := f32_of_f64 pacing |> <| b_cwnd_gain := f32_of_f64 cwnd |> |>.

Definition bbr_update_gains (s : stream) : option stream :=
  if b_state (s_bbr s) =? UDX_BBR_STATE_STARTUP then Some (set_gains s bbr_high_gain bbr_high_gain)
  else if b_state (s_bbr s) =? UDX_BBR_STATE_DRAIN then Some (set_gains s bbr_drain_gain bbr_high_gain)
  else if b_state (s_bbr s) =? UDX_BBR_STATE_PROBE_BW then
    g ← bbr_pacing_gain !! Z.to_nat (b_cycle_index (s_bbr s));
    Some (set_gains s g bbr_cwnd_gain)
  else if b_state (s_bbr s) =? UDX_BBR_STATE_PROBE_RTT then Some (set_gains s f64_one f64_one)
  else None.

Definition bbr_update_model (now : Z) (s : stream) (rs : udx_rate_sample_t) : option stream :=
  s ← bbr_update_bw s rs;
  s ← bbr_update_ack_aggregation s rs;
  s ← bbr_update_cycle_phase s rs;
  let s := bbr_check_full_bw_reached s rs in
  s ← bbr_check_drain s;
  let s := bbr_update_min_rtt now s rs in
  bbr_update_gains s.

Definition bbr_main (now : Z) (s : stream) (rs : udx_rate_sample_t) : option stream :=
  s ← bbr_update_model now s rs;
  let bw := bbr_bw s in
  s ← bbr_set_pacing_rate s bw (f64_of_f32 (b_pacing_gain (s_bbr s)));
  bbr_set_cwnd s rs (rs_acked_sacked rs) bw (f64_of_f32 (b_cwnd_gain (s_bbr s))).

Definition bbr_on_transmit_start (s : stream) (now_ms : Z) : option stream :=
  if truthy (app_limited (s_rate s)) then
    let s := s <| s_bbr ::= λ b, b <| b_idle_restart := true |> <| b_ack_epoch_start := now_ms |>
                                   <| b_ack_epoch_acked := 0 |> |> in
    if b_state (s_bbr s) =? UDX_BBR_STATE_PROBE_BW then bbr_set_pacing_rate s (bbr_bw s) f64_one
    else if b_state (s_bbr s) =? UDX_BBR_STATE_PROBE_RTT then Some (bbr_check_probe_rtt_done s now_ms)
    else Some s
  else Some s.

Definition bbr_init (now : Z) (s : stream) : option stream :=
  let s := s <| s_bbr ::= λ b,
    b <| b_prior_cwnd := 0 |> <| b_rtt_count := 0 |>
      <| b_next_rtt_delivered := delivered (s_rate s) |> <| b_prev_ca_state := UDX_CA_OPEN |>
      <| b_use_packet_conservation := false |>
      <| b_probe_rtt_done_time := 0 |> <| b_probe_rtt_round_done := false |>
      <| b_min_rtt_ms := udx_rtt_min (s_rtt s) |> <| b_min_rtt_stamp := now |>
      <| b_bw := win_filter_f64_reset 0 (f64_of_Z 0) |>
      <| b_has_seen_rtt := false |> |> in
  s ← bbr_init_pacing_rate_from_rtt s;
  let s := bbr_reset_startup_mode
    (s <| s_bbr ::= λ b,
      b <| b_round_start := false |> <| b_idle_restart := false |>
        <| b_full_bw_reached := false |> <| b_full_bw := f64_of_Z 0 |>
        <| b_full_bw_count := 0 |> <| b_cycle_timestamp := 0 |> <| b_cycle_index := 0 |> |>) in
  Some (s <| s_bbr ::= λ b,
    b <| b_ack_epoch_start := now |> <| b_ack_epoch_acked := 0 |>
      <| b_extra_acked_win_rtts := 0 |> <| b_extra_acked_win_index := 0 |>
      <| b_extra_acked := [0; 0] |> |>).

Definition udx_stream_get_bw (s : stream) : option Z :=
  mss ← udx__max_payload s;
  f64_to_u64 (f64_mul (f64_mul (bbr_bw s) (f64_of_Z 1000)) (f64_of_Z mss)).
Definition udx_stream_get_min_rtt (s : stream) : Z := b_min_rtt_ms (s_bbr s).

Definition bbr_on_rto (s : stream) : stream :=
  s <| s_bbr ::= λ b, b <| b_prev_ca_state := UDX_CA_LOSS |> <| b_full_bw := f64_of_Z 0 |>
                        <| b_round_start := true |> |>.

(** ** What BBR may touch *)

(** BBR writes its own record, the congestion window, the pacing rate and
    [app_limited], and nothing else of the stream. *)
Definition bbr_touch (s s' : stream) : Prop :=
  s' = s <| s_bbr := s_bbr s' |> <| s_cwnd := s_cwnd s' |>
         <| s_rate ::= λ r, r <| app_limited := app_limited (s_rate s') |> |>
         <| s_pacing_bytes_per_ms := s_pacing_bytes_per_ms s' |>.

Lemma bbr_touch_refl s : bbr_touch s s.
Proof. destruct s as [? ? ? ? ? ? ? ? ? ? ? ? ? ? ? ? ? ? ? ? ? ? ? ? ? ? []]. reflexivity. Qed.

Lemma bbr_touch_trans s1 s2 s3 : bbr_touch s1 s2 → bbr_touch s2 s3 → bbr_touch s1 s3.
Proof. unfold bbr_touch. intros H1 H2. rewrite H2, H1. reflexivity. Qed.

(** [touch s]: [s'] is written as field updates of [s]. *)
Ltac touch s :=
  unfold bbr_touch;
  destruct s as [? ? ? ? ? ? ? ? ? ? ? ? ? ? ? ? ? ? ? ? ? ? ? ? ? ? []]; reflexivity.

(** ** The invariant of the BBR record *)

Record bbr_ok (b : bbr_st) : Prop := {
  bok_state : 0 <= b_state b <= 3;
  bok_cycle : 0 <= b_cycle_index b < UDX_BBR_CYCLE_LEN;
  bok_extra : length (b_extra_acked b) = 2%nat;
  bok_index : b_extra_acked_win_index b = 0 ∨ b_extra_acked_win_index b = 1;
  bok_full : b_state b = UDX_BBR_STATE_DRAIN ∨ b_state b = UDX_BBR_STATE_PROBE_BW →
             b_full_bw_reached b = true;
  bok_prior : is_u32 (b_prior_cwnd b) }.

(** One move of the state machine inside a call of bbr_main. *)
Inductive bbr_edge (now : Z) (b b' : bbr_st) : Prop :=
| edge_stay : b_state b' = b_state b → bbr_edge now b b'
| edge_full :
    b_state b = UDX_BBR_STATE_STARTUP → b_full_bw_reached b' = true →
    b_state b' = UDX_BBR_STATE_DRAIN ∨ b_state b' = UDX_BBR_STATE_PROBE_BW →
    bbr_edge now b b'
| edge_drained :
    b_state b = UDX_BBR_STATE_DRAIN → b_state b' = UDX_BBR_STATE_PROBE_BW → bbr_edge now b b'
| edge_probe_rtt :
    b_state b ≠ UDX_BBR_STATE_PROBE_RTT → b_state b' = UDX_BBR_STATE_PROBE_RTT →
    b_idle_restart b = false →
    0 < time_diff now (u64 (b_min_rtt_stamp b + UDX_BBR_MIN_RTT_INTERVAL_MS)) →
    bbr_edge now b b'
| edge_probe_rtt_done :
    b_state b = UDX_BBR_STATE_PROBE_RTT → b_probe_rtt_done_time b ≠ 0 →
    0 < time_diff now (b_probe_rtt_done_time b) →
    b_state b' = (if b_full_bw_reached b' then UDX_BBR_STATE_PROBE_BW else UDX_BBR_STATE_STARTUP) →
    bbr_edge now b b'.

(** The steps before the state machine keep the fields it reads. *)
Definition bbr_quiet (b b' : bbr_st) : Prop :=
  b_state b' = b_state b ∧ b_idle_restart b' = b_idle_restart b ∧
  b_min_rtt_stamp b' = b_min_rtt_stamp b ∧ b_probe_rtt_done_time b' = b_probe_rtt_done_time b ∧
  b_prior_cwnd b' = b_prior_cwnd b ∧ b_prev_ca_state b' = b_prev_ca_state b ∧
  (b_full_bw_reached b = true → b_full_bw_reached b' = true).

Lemma bbr_quiet_refl b : bbr_quiet b b.
Proof. by repeat split. Qed.
#[export] Hint Resolve bbr_quiet_refl : udx.
Lemma bbr_quiet_trans b1 b2 b3 : bbr_quiet b1 b2 → bbr_quiet b2 b3 → bbr_quiet b1 b3.
Proof.
  intros (? & ? & ? & ? & ? & ? & ?) (? & ? & ? & ? & ? & ? & ?). split_and!; [congruence..|auto].
Qed.

(** A step that leaves the window alone and respects the invariant. *)
Record bbr_calm (s s' : stream) : Prop := {
  calm_touch : bbr_touch s s';
  calm_cwnd : s_cwnd s' = s_cwnd s;
  calm_quiet : bbr_quiet (s_bbr s) (s_bbr s');
  calm_ok : bbr_ok (s_bbr s) → bbr_ok (s_bbr s') }.

Lemma bbr_calm_refl s : bbr_calm s s.
Proof. split; [apply bbr_touch_refl | done | by repeat split | done]. Qed.

Lemma bbr_calm_trans s1 s2 s3 : bbr_calm s1 s2 → bbr_calm s2 s3 → bbr_calm s1 s3.
Proof.
  intros [T1 C1 Q1 O1] [T2 C2 Q2 O2].
  split; [by eapply bbr_touch_trans | congruence | by eapply bbr_quiet_trans | by auto].
Qed.

(** Decomposes a successful computation into its successful steps. *)
Ltac inv_some :=
  repeat match goal with
  | H : Some _ = Some _ |- _ => injection H as H
  | H : None = Some _ |- _ => discriminate H
  | H : (_ ≫= _) = Some _ |- _ =>
      apply bind_Some in H; let x := fresh "x" in let Hx := fresh "Hx" in destruct H as (x & Hx & H)
  | H : (if ?b then _ else None) = Some _ |- _ =>
      let E := fresh "E" in destruct b eqn:E; [|discriminate H]
  end.

Lemma bbr_update_bw_calm s rs s' : bbr_update_bw s rs = Some s' → bbr_calm s s'.
Proof.
  unfold bbr_update_bw. intros H.
  destruct (_ || _); [injection H as <-|
    match type of H with context [0 <=? ?d] => destruct (0 <=? d) end; cbn in H; inv_some;
    match type of H with context [if ?c then _ else _] => destruct c end; subst s'];
  (split; [touch s | done | by repeat split | intros []; by split]).
Qed.

Lemma extra_acked_store_ok b i v b' :
  extra_acked_store b i v = Some b' →
  (bbr_ok b → bbr_ok b') ∧ bbr_quiet b b' ∧ b_round_start b' = b_round_start b.
Proof.
  unfold extra_acked_store. intros H. inv_some. subst b'. apply array_store_inv in Hx as [_ ->].
  split; [|by repeat split]. intros []. split; try done. cbn. by rewrite length_insert.
Qed.

Lemma ack_aggregation_rotate_ok b b' :
  ack_aggregation_rotate b = Some b' → (bbr_ok b → bbr_ok b') ∧ bbr_quiet b b'.
Proof.
  unfold ack_aggregation_rotate. intros H. destruct (b_round_start b); [|inv_some; subst; split; auto with udx].
  match type of H with context [bbr_extra_acked_win_rtts <=? ?x] => destruct (bbr_extra_acked_win_rtts <=? x) end.
  - apply extra_acked_store_ok in H as (H1 & H2 & _). split; [|exact H2].
    intros []. apply H1. split; try done. cbn. destruct (truthy _); auto.
  - injection H as <-. split; [|by repeat split]. intros []. by split.
Qed.

Lemma bbr_update_ack_aggregation_calm s rs s' :
  bbr_update_ack_aggregation s rs = Some s' → bbr_calm s s'.
Proof.
  unfold bbr_update_ack_aggregation. intros H.
  destruct (_ || _ || _ || _); [injection H as <-; apply bbr_calm_refl|].
  inv_some. apply ack_aggregation_rotate_ok in Hx as [Ho Hq].
  match type of H with context [if ?c then _ else _] => destruct c end; inv_some; subst s';
  (match goal with Hs : (if ?c then extra_acked_store ?b ?i ?v else Some ?b) = Some ?b' |- _ =>
     assert ((bbr_ok b → bbr_ok b') ∧ bbr_quiet b b') as [Ho2 Hq2];
     [destruct c; [by apply extra_acked_store_ok in Hs as (? & ? & _) | inv_some; subst; split; auto with udx]|]
   end;
   split; [touch s | done | |];
   [ apply (bbr_quiet_trans _ _ _ Hq); refine (bbr_quiet_trans _ _ _ _ Hq2); by repeat split
   | intros Hk; apply Ho2; destruct (Ho Hk); by split ]).
Qed.

Lemma bbr_advance_calm s : bbr_calm s (bbr_advance_cycle_phase s).
Proof.
  split; [touch s | done | by repeat split|]. intros []. split; try done. cbn. unfold UDX_BBR_CYCLE_LEN in *.
  change (8 - 1) with (2 ^ 3 - 1). rewrite land_pow2_mask by lia. apply Z.mod_pos_bound. lia.
Qed.

Lemma bbr_update_cycle_phase_calm s rs s' : bbr_update_cycle_phase s rs = Some s' → bbr_calm s s'.
Proof.
  unfold bbr_update_cycle_phase. intros H. destruct (_ =? _); inv_some; subst s'; [|apply bbr_calm_refl].
  destruct x; [apply bbr_advance_calm | apply bbr_calm_refl].
Qed.

Lemma bbr_check_full_bw_calm s rs : bbr_calm s (bbr_check_full_bw_reached s rs).
Proof.
  unfold bbr_check_full_bw_reached. destruct (bbr_full_bw_reached s) eqn:E; [apply bbr_calm_refl|].
  destruct (_ || _); [apply bbr_calm_refl|].
  destruct (f64_leb _ _); (split; [touch s | done | |]).
  - by repeat split.
  - intros []; by split.
  - repeat split. cbn. unfold bbr_full_bw_reached in E. congruence.
  - intros []; split; try done. cbn. unfold bbr_full_bw_reached in E. intros. rewrite E in *. intuition congruence.
Qed.

Lemma bbr_check_drain_spec s s' :
  bbr_check_drain s = Some s' →
  bbr_touch s s' ∧ s_cwnd s' = s_cwnd s ∧ (bbr_ok (s_bbr s) → bbr_ok (s_bbr s')) ∧
  b_idle_restart (s_bbr s') = b_idle_restart (s_bbr s) ∧
  b_min_rtt_stamp (s_bbr s') = b_min_rtt_stamp (s_bbr s) ∧
  b_probe_rtt_done_time (s_bbr s') = b_probe_rtt_done_time (s_bbr s) ∧
  b_prior_cwnd (s_bbr s') = b_prior_cwnd (s_bbr s) ∧
  b_full_bw_reached (s_bbr s') = b_full_bw_reached (s_bbr s) ∧
  (b_state (s_bbr s') = b_state (s_bbr s) ∨
   b_state (s_bbr s) = UDX_BBR_STATE_STARTUP ∧ b_full_bw_reached (s_bbr s) = true ∧
     (b_state (s_bbr s') = UDX_BBR_STATE_DRAIN ∨ b_state (s_bbr s') = UDX_BBR_STATE_PROBE_BW) ∨
   b_state (s_bbr s) = UDX_BBR_STATE_DRAIN ∧ b_state (s_bbr s') = UDX_BBR_STATE_PROBE_BW).
Proof.
  unfold bbr_check_drain, bbr_full_bw_reached. intros H.
  destruct (Z.eqb_spec (b_state (s_bbr s)) UDX_BBR_STATE_STARTUP) as [Es|Es];
    destruct (b_full_bw_reached (s_bbr s)) eqn:Ef; cbn [andb] in H;
    match type of H with context [b_state ?x =? UDX_BBR_STATE_DRAIN] =>
      destruct (Z.eqb_spec (b_state x) UDX_BBR_STATE_DRAIN) as [Ed|Ed] end;
    inv_some; subst s'; try (destruct (qlen _ <=? x));
    (split; [touch s|]); (split; [done|]);
    (split; [intros []; split; try done; cbn in *; unfold UDX_BBR_STATE_DRAIN, UDX_BBR_STATE_PROBE_BW, UDX_BBR_CYCLE_LEN, UDX_BBR_STATE_STARTUP in *;
        try done; try lia; intuition (try congruence; try lia)|]);
    split_and!; try done; auto 6.
Qed.

Lemma min_rtt_take_calm now e s rs :
  let s' := min_rtt_take now e s rs in
  bbr_touch s s' ∧ s_cwnd s' = s_cwnd s ∧ (bbr_ok (s_bbr s) → bbr_ok (s_bbr s')) ∧
  b_state (s_bbr s') = b_state (s_bbr s) ∧ b_idle_restart (s_bbr s') = b_idle_restart (s_bbr s) ∧
  b_probe_rtt_done_time (s_bbr s') = b_probe_rtt_done_time (s_bbr s) ∧
  b_prior_cwnd (s_bbr s') = b_prior_cwnd (s_bbr s) ∧
  b_full_bw_reached (s_bbr s') = b_full_bw_reached (s_bbr s).
Proof.
  unfold min_rtt_take. destruct (_ && _); (split; [touch s|]); (split; [done|]);
    (split; [intros []; by split|by split_and!]).
Qed.

Lemma max_uint32_max a b : max_uint32 a b = Z.max a b.
Proof. unfold max_uint32. case_ltb; lia. Qed.
Lemma min_uint32_min a b : min_uint32 a b = Z.min a b.
Proof. unfold min_uint32. case_ltb; lia. Qed.

Lemma probe_rtt_enter_spec e s :
  is_u32 (s_cwnd s) →
  let s' := probe_rtt_enter e s in
  bbr_touch s s' ∧ s_cwnd s' = s_cwnd s ∧ (bbr_ok (s_bbr s) → bbr_ok (s_bbr s')) ∧
  (b_prior_cwnd (s_bbr s') = b_prior_cwnd (s_bbr s) ∨
   b_prior_cwnd (s_bbr s') = Z.max (b_prior_cwnd (s_bbr s)) (s_cwnd s)) ∧
  b_full_bw_reached (s_bbr s') = b_full_bw_reached (s_bbr s) ∧
  (b_state (s_bbr s') = b_state (s_bbr s) ∧
     b_probe_rtt_done_time (s_bbr s') = b_probe_rtt_done_time (s_bbr s) ∨
   b_state (s_bbr s) ≠ UDX_BBR_STATE_PROBE_RTT ∧ b_state (s_bbr s') = UDX_BBR_STATE_PROBE_RTT ∧
     b_probe_rtt_done_time (s_bbr s') = 0 ∧ e = true ∧ b_idle_restart (s_bbr s) = false).
Proof.
  intros Hc. unfold probe_rtt_enter.
  destruct e; cbn [andb]; [|split_and!; try done; [apply bbr_touch_refl|by left|by left]].
  destruct (b_idle_restart (s_bbr s)) eqn:Ei; cbn [andb negb];
    [split_and!; try done; [apply bbr_touch_refl|by left|by left]|].
  destruct (Z.eqb_spec (b_state (s_bbr s)) UDX_BBR_STATE_PROBE_RTT) as [Es|Es]; cbn [andb negb];
    [split_and!; try done; [apply bbr_touch_refl|by left|by left]|].
  change (0 <? UDX_BBR_MIN_PROBE_RTT_MODE_MS) with true. cbn [andb negb]. cbv iota.
  unfold bbr_save_cwnd. cbn [s_bbr b_state]. rewrite andb_false_r. cbv iota.
  split; [touch s|]. split; [done|]. cbn.
  split; [intros []; split; try done; cbn; unfold UDX_BBR_STATE_PROBE_RTT, UDX_BBR_STATE_DRAIN, UDX_BBR_STATE_PROBE_BW; try lia;
      rewrite max_uint32_max; unfold is_u32 in *; lia|].
  rewrite max_uint32_max. split; [by right|]. split; [done|]. by right.
Qed.

Lemma bbr_reset_mode_ok s :
  bbr_ok (s_bbr s) → bbr_ok (s_bbr (bbr_reset_mode s)) ∧
  b_state (s_bbr (bbr_reset_mode s)) =
    (if b_full_bw_reached (s_bbr s) then UDX_BBR_STATE_PROBE_BW else UDX_BBR_STATE_STARTUP).
Proof.
  intros []. unfold bbr_reset_mode, bbr_full_bw_reached.
  destruct (b_full_bw_reached (s_bbr s)) eqn:E; cbn [negb]; (split; [|done]); split; try done; cbn;
    unfold UDX_BBR_STATE_STARTUP, UDX_BBR_STATE_DRAIN, UDX_BBR_STATE_PROBE_BW; try lia.
Qed.

Lemma bbr_reset_mode_touch s :
  bbr_touch s (bbr_reset_mode s) ∧ s_cwnd (bbr_reset_mode s) = s_cwnd s ∧
  b_prior_cwnd (s_bbr (bbr_reset_mode s)) = b_prior_cwnd (s_bbr s) ∧
  b_full_bw_reached (s_bbr (bbr_reset_mode s)) = b_full_bw_reached (s_bbr s).
Proof. unfold bbr_reset_mode. destruct (negb _); (split; [touch s|done]). Qed.

(** [s'] left PROBE_RTT, or the state and the window are those of [s]. *)
Definition probe_rtt_left (now : Z) (s s' : stream) : Prop :=
  b_state (s_bbr s') = b_state (s_bbr s) ∧ s_cwnd s' = s_cwnd s ∨
  b_probe_rtt_done_time (s_bbr s) ≠ 0 ∧ 0 < time_diff now (b_probe_rtt_done_time (s_bbr s)) ∧
  b_state (s_bbr s') = (if b_full_bw_reached (s_bbr s) then UDX_BBR_STATE_PROBE_BW
                        else UDX_BBR_STATE_STARTUP) ∧
  s_cwnd s' = Z.max (s_cwnd s) (b_prior_cwnd (s_bbr s)).

Lemma check_probe_rtt_done_spec now s :
  let s' := bbr_check_probe_rtt_done s now in
  bbr_touch s s' ∧ (bbr_ok (s_bbr s) → bbr_ok (s_bbr s')) ∧
  b_prior_cwnd (s_bbr s') = b_prior_cwnd (s_bbr s) ∧
  b_full_bw_reached (s_bbr s') = b_full_bw_reached (s_bbr s) ∧ probe_rtt_left now s s'.
Proof.
  unfold bbr_check_probe_rtt_done, probe_rtt_left, truthy.
  destruct (Z.eqb_spec (b_probe_rtt_done_time (s_bbr s)) 0) as [Ed|Ed]; cbn [negb andb].
  { split_and!; try done; [apply bbr_touch_refl|by left]. }
  destruct (Z.ltb_spec 0 (time_diff now (b_probe_rtt_done_time (s_bbr s)))); cbn [negb].
  2: { split_and!; try done; [apply bbr_touch_refl|by left]. }
  set (s1 := s <| s_bbr ::= _ |> <| s_cwnd := _ |>).
  destruct (bbr_reset_mode_touch s1) as (T & C & P & F). rewrite C, P, F.
  assert (T1 : bbr_touch s s1) by (unfold s1; touch s).
  assert (O1 : bbr_ok (s_bbr s) → bbr_ok (s_bbr s1)) by (intros []; by split).
  split; [by eapply bbr_touch_trans|].
  split; [intros Hk; apply bbr_reset_mode_ok; auto|].
  split; [done|]. split; [done|]. right. split; [done|]. split; [done|].
  split; [|unfold s1; cbn; apply max_uint32_max].
  unfold bbr_reset_mode, bbr_full_bw_reached.
  change (b_full_bw_reached (s_bbr s1)) with (b_full_bw_reached (s_bbr s)).
  by destruct (b_full_bw_reached (s_bbr s)).
Qed.

Lemma probe_rtt_run_spec now s :
  let s' := probe_rtt_run now s in
  bbr_touch s s' ∧ (bbr_ok (s_bbr s) → bbr_ok (s_bbr s')) ∧
  b_prior_cwnd (s_bbr s') = b_prior_cwnd (s_bbr s) ∧
  b_full_bw_reached (s_bbr s') = b_full_bw_reached (s_bbr s) ∧
  (b_state (s_bbr s) ≠ UDX_BBR_STATE_PROBE_RTT → s' = s) ∧ probe_rtt_left now s s'.
Proof.
  unfold probe_rtt_run, probe_rtt_left.
  destruct (Z.eqb_spec (b_state (s_bbr s)) UDX_BBR_STATE_PROBE_RTT) as [Es|Es].
  2: { split_and!; try done; [apply bbr_touch_refl|by left]. }
  cbv zeta. set (al := if _ =? 0 then 1 else _). clearbody al.
  change (s_bbr (s <| s_rate ::= λ r, r <| app_limited := al |> |>)) with (s_bbr s).
  destruct (negb _ && _).
  { split; [touch s|]. split; [intros []; by split|]. split; [done|]. split; [done|]. split; [done|by left]. }
  destruct (truthy (b_probe_rtt_done_time (s_bbr s))).
  2: { split; [touch s|]. split; [intros []; by split|]. split; [done|]. split; [done|]. split; [done|by left]. }
  set (s1 := if b_round_start (s_bbr s) then _ else _).
  assert (H1 : bbr_touch s s1 ∧ (bbr_ok (s_bbr s) → bbr_ok (s_bbr s1)) ∧ s_cwnd s1 = s_cwnd s ∧
    b_state (s_bbr s1) = b_state (s_bbr s) ∧ b_prior_cwnd (s_bbr s1) = b_prior_cwnd (s_bbr s) ∧
    b_full_bw_reached (s_bbr s1) = b_full_bw_reached (s_bbr s) ∧
    b_probe_rtt_done_time (s_bbr s1) = b_probe_rtt_done_time (s_bbr s)).
  { unfold s1. destruct (b_round_start (s_bbr s)); (split; [touch s|]); (split; [intros []; by split|done]). }
  destruct H1 as (T1 & O1 & C1 & S1 & P1 & F1 & D1). clearbody s1.
  destruct (b_probe_rtt_round_done (s_bbr s1)).
  2: { split_and!; try done. by left. }
  destruct (check_probe_rtt_done_spec now s1) as (T & O & P & F & L).
  split; [by eapply bbr_touch_trans|]. split; [by auto|]. split; [congruence|]. split; [congruence|].
  split; [done|]. unfold probe_rtt_left in L. rewrite S1, C1, D1, F1, P1 in L. done.
Qed.

Lemma bbr_update_gains_calm s s' : bbr_update_gains s = Some s' → bbr_calm s s'.
Proof.
  unfold bbr_update_gains. intros H.
  repeat match type of H with context [b_state (s_bbr s) =? ?k] =>
    destruct (Z.eqb_spec (b_state (s_bbr s)) k) end; inv_some; try subst s'; try done;
  (split; [unfold set_gains; touch s | done | by repeat split | intros []; by split]).
Qed.

Lemma bbr_update_gains_full s s' :
  bbr_update_gains s = Some s' → b_full_bw_reached (s_bbr s') = b_full_bw_reached (s_bbr s).
Proof. unfold bbr_update_gains. intros H. repeat case_match; inv_some; by subst. Qed.

Lemma edge_into_probe_rtt now b b' :
  bbr_edge now b b' → b_state b ≠ UDX_BBR_STATE_PROBE_RTT → b_state b' = UDX_BBR_STATE_PROBE_RTT →
  b_idle_restart b = false ∧ 0 < time_diff now (u64 (b_min_rtt_stamp b + UDX_BBR_MIN_RTT_INTERVAL_MS)).
Proof.
  intros [|? ? []| | |]; unfold UDX_BBR_STATE_PROBE_RTT, UDX_BBR_STATE_DRAIN, UDX_BBR_STATE_PROBE_BW in *;
    intros; try lia; done.
Qed.

(** The window before it is set, between the old one and the saved one. *)
Definition cwnd_restored (s s' : stream) : Prop :=
  s_cwnd s <= s_cwnd s' <= Z.max (s_cwnd s) (b_prior_cwnd (s_bbr s)) ∧
  b_prior_cwnd (s_bbr s) <= b_prior_cwnd (s_bbr s') <= Z.max (s_cwnd s) (b_prior_cwnd (s_bbr s)).

Lemma bbr_update_min_rtt_spec now s rs :
  is_u32 (s_cwnd s) → bbr_ok (s_bbr s) →
  let s' := bbr_update_min_rtt now s rs in
  bbr_touch s s' ∧ bbr_ok (s_bbr s') ∧ bbr_edge now (s_bbr s) (s_bbr s') ∧ cwnd_restored s s' ∧
  (b_state (s_bbr s) ≠ UDX_BBR_STATE_PROBE_RTT →
     b_state (s_bbr s') = b_state (s_bbr s) ∨ b_state (s_bbr s') = UDX_BBR_STATE_PROBE_RTT) ∧
  b_full_bw_reached (s_bbr s') = b_full_bw_reached (s_bbr s).
Proof.
  intros Hc Hk. unfold bbr_update_min_rtt. cbv zeta.
  remember (0 <? time_diff now _) as e eqn:He.
  destruct (min_rtt_take_calm now e s rs) as (T1 & C1 & O1 & S1 & I1 & D1 & P1 & F1).
  set (s1 := min_rtt_take now e s rs) in *. clearbody s1.
  destruct (probe_rtt_enter_spec e s1) as (T2 & C2 & O2 & P2 & F2 & S2); [by rewrite C1|].
  set (s2 := probe_rtt_enter e s1) in *. clearbody s2.
  destruct (probe_rtt_run_spec now s2) as (T3 & O3 & P3 & F3 & N3 & L3).
  set (s3 := probe_rtt_run now s2) in *. clearbody s3.
  set (s4 := if _ <? _ then _ else _).
  assert (H4 : bbr_touch s3 s4 ∧ (bbr_ok (s_bbr s3) → bbr_ok (s_bbr s4)) ∧ s_cwnd s4 = s_cwnd s3 ∧
    b_state (s_bbr s4) = b_state (s_bbr s3) ∧ b_prior_cwnd (s_bbr s4) = b_prior_cwnd (s_bbr s3) ∧
    b_full_bw_reached (s_bbr s4) = b_full_bw_reached (s_bbr s3)).
  { unfold s4. destruct (0 <? rs_delivered rs); (split; [touch s3|]); (split; [intros []; by split|done]). }
  destruct H4 as (T4 & O4 & C4 & S4 & P4 & F4). clearbody s4.
  split; [by eauto using bbr_touch_trans|]. split; [by auto|].
  rewrite S1, D1, I1 in S2. unfold probe_rtt_left in L3.
  assert (Hfull : b_full_bw_reached (s_bbr s4) = b_full_bw_reached (s_bbr s)) by congruence.
  assert (Hs : b_state (s_bbr s) ≠ UDX_BBR_STATE_PROBE_RTT →
     b_state (s_bbr s4) = b_state (s_bbr s) ∨ b_state (s_bbr s4) = UDX_BBR_STATE_PROBE_RTT).
  { intros Hn. destruct S2 as [[S2 D2]|(_ & S2 & D2 & _)].
    - left. rewrite S4, N3; congruence.
    - destruct L3 as [[L3 _]|(L3 & _)]; [right; congruence|congruence]. }
  split; [|split; [|by split]].
  - destruct S2 as [[S2 D2]|(N2 & S2 & D2 & Ee & Ei)].
    + destruct L3 as [[L3 _]|(L3 & L4 & L5 & _)]; [apply edge_stay; congruence|].
      destruct (decide (b_state (s_bbr s) = UDX_BBR_STATE_PROBE_RTT)) as [Hp|Hp].
      * apply edge_probe_rtt_done; [done|congruence|congruence|]. rewrite Hfull, S4, L5. by rewrite F2, F1.
      * apply edge_stay. rewrite S4, N3; congruence.
    + destruct L3 as [[L3 _]|(L3 & _)]; [|congruence].
      apply edge_probe_rtt; [done|congruence|done|]. rewrite He in Ee. by apply Z.ltb_lt.
  - unfold cwnd_restored. rewrite C4, P4, P3. rewrite C2, C1 in *. rewrite P1 in P2.
    split; [|lia]. destruct L3 as [[_ ->]|(_ & _ & _ & ->)]; lia.
Qed.

(** Only the window step moves [prev_ca_state]. *)
Lemma bbr_check_drain_prev s s' :
  bbr_check_drain s = Some s' → b_prev_ca_state (s_bbr s') = b_prev_ca_state (s_bbr s).
Proof.
  unfold bbr_check_drain. intros H.
  destruct ((b_state (s_bbr s) =? UDX_BBR_STATE_STARTUP) && bbr_full_bw_reached s);
    match type of H with context [b_state ?x =? UDX_BBR_STATE_DRAIN] =>
      destruct (b_state x =? UDX_BBR_STATE_DRAIN) end;
    inv_some; subst s'; try (destruct (qlen _ <=? _)); done.
Qed.

Lemma probe_rtt_run_prev now s :
  b_prev_ca_state (s_bbr (probe_rtt_run now s)) = b_prev_ca_state (s_bbr s).
Proof.
  assert (Hd : ∀ s1, b_prev_ca_state (s_bbr (bbr_check_probe_rtt_done s1 now)) = b_prev_ca_state (s_bbr s1)).
  { intros s1. unfold bbr_check_probe_rtt_done, bbr_reset_mode. destruct (negb _); [done|].
    by destruct (negb _). }
  unfold probe_rtt_run. destruct (_ =? _); [|done]. cbv zeta. destruct (negb _ && _); [done|].
  destruct (truthy _); [|done]. destruct (b_round_start _);
    match goal with |- context [if b_probe_rtt_round_done ?b then _ else _] =>
      destruct (b_probe_rtt_round_done b) end; rewrite ?Hd; done.
Qed.

Lemma bbr_update_min_rtt_prev now s rs :
  b_prev_ca_state (s_bbr (bbr_update_min_rtt now s rs)) = b_prev_ca_state (s_bbr s).
Proof.
  unfold bbr_update_min_rtt. cbv zeta. set (e := 0 <? time_diff now _). clearbody e.
  assert (H1 : b_prev_ca_state (s_bbr (min_rtt_take now e s rs)) = b_prev_ca_state (s_bbr s))
    by (unfold min_rtt_take; by destruct (_ && _)).
  set (s1 := min_rtt_take now e s rs) in *. clearbody s1.
  assert (H2 : b_prev_ca_state (s_bbr (probe_rtt_enter e s1)) = b_prev_ca_state (s_bbr s1)).
  { unfold probe_rtt_enter, bbr_save_cwnd. destruct (_ && _ && _ && _); [|done]. by destruct (_ && _). }
  destruct (0 <? rs_delivered rs); cbn; rewrite probe_rtt_run_prev; congruence.
Qed.

Lemma bbr_update_model_spec now s rs s' :
  is_u32 (s_cwnd s) → bbr_ok (s_bbr s) → bbr_update_model now s rs = Some s' →
  bbr_touch s s' ∧ bbr_ok (s_bbr s') ∧ bbr_edge now (s_bbr s) (s_bbr s') ∧ cwnd_restored s s' ∧
  (b_full_bw_reached (s_bbr s) = true → b_full_bw_reached (s_bbr s') = true) ∧
  b_prev_ca_state (s_bbr s') = b_prev_ca_state (s_bbr s).
Proof.
  intros Hc Hk H. unfold bbr_update_model in H. inv_some.
  pose proof (bbr_calm_trans _ _ _ (bbr_calm_trans _ _ _ (bbr_calm_trans _ _ _
    (bbr_update_bw_calm _ _ _ Hx) (bbr_update_ack_aggregation_calm _ _ _ Hx0))
    (bbr_update_cycle_phase_calm _ _ _ Hx1)) (bbr_check_full_bw_calm x1 rs)) as [T1 C1 Q1 O1].
  set (s1 := bbr_check_full_bw_reached x1 rs) in *. clearbody s1. clear Hx Hx0 Hx1.
  destruct Q1 as (S1 & I1 & M1 & D1 & P1 & A1 & F1).
  pose proof (bbr_check_drain_prev _ _ Hx2) as A2.
  pose proof (bbr_update_min_rtt_prev now x2 rs) as A3.
  apply bbr_check_drain_spec in Hx2 as (T2 & C2 & O2 & I2 & M2 & D2 & P2 & F2 & S2).
  destruct (bbr_update_min_rtt_spec now x2 rs) as (T3 & O3 & E3 & R3 & N3 & F3); [by rewrite C2, C1|by auto|].
  set (s3 := bbr_update_min_rtt now x2 rs) in *. clearbody s3.
  pose proof (bbr_update_gains_full _ _ H) as F4.
  apply bbr_update_gains_calm in H as [T4 C4 Q4 O4].
  destruct Q4 as (S4 & _ & _ & _ & P4 & A4 & _).
  split; [by eauto using bbr_touch_trans|]. split; [by auto|].
  assert (Hff : b_full_bw_reached (s_bbr s') = b_full_bw_reached (s_bbr x2)) by congruence.
  split; [|split].
  - clear A1 A2 A3 A4. destruct S2 as [S2|[(S2 & S2f & S2')|(S2 & S2')]].
    + rewrite S1 in S2. destruct E3 as [E|E E' E''|E E'|E E' E'' E3|E E' E'' E3].
      * apply edge_stay. congruence.
      * apply edge_full; [congruence..|]. by rewrite S4.
      * apply edge_drained; congruence.
      * apply edge_probe_rtt; [congruence..|]. by rewrite <- M1, <- M2.
      * apply edge_probe_rtt_done; [congruence|congruence|by rewrite <- D1, <- D2|].
        rewrite S4, E3, F4; congruence.
    + destruct N3 as [N3|N3].
      { unfold UDX_BBR_STATE_PROBE_RTT, UDX_BBR_STATE_DRAIN, UDX_BBR_STATE_PROBE_BW in *. lia. }
      * apply edge_full; [congruence..|]. by rewrite S4, N3.
      * destruct (edge_into_probe_rtt _ _ _ E3) as [? ?];
          [unfold UDX_BBR_STATE_PROBE_RTT, UDX_BBR_STATE_DRAIN, UDX_BBR_STATE_PROBE_BW in *; lia|done|].
        apply edge_probe_rtt; [by rewrite <- S1, S2|congruence|congruence|by rewrite <- M1, <- M2].
    + destruct N3 as [N3|N3]; [by rewrite S2'|apply edge_drained; congruence|].
      destruct (edge_into_probe_rtt _ _ _ E3) as [? ?]; [by rewrite S2'|done|].
      apply edge_probe_rtt; [by rewrite <- S1, S2|congruence|congruence|by rewrite <- M1, <- M2].
  - unfold cwnd_restored in *. rewrite C4, P4. rewrite C2, C1, P2, P1 in R3. done.
  - split; [intros Hfs; rewrite Hff, F2; auto|]. rewrite A4, A3, A2. done.
Qed.

Lemma bbr_init_pacing_calm s s' : bbr_init_pacing_rate_from_rtt s = Some s' → bbr_calm s s'.
Proof.
  unfold bbr_init_pacing_rate_from_rtt. intros H.
  destruct (truthy _); inv_some; subst s';
    (split; [touch s | done | by repeat split | intros []; by split]).
Qed.

Lemma bbr_set_pacing_rate_calm s bw gain s' : bbr_set_pacing_rate s bw gain = Some s' → bbr_calm s s'.
Proof.
  unfold bbr_set_pacing_rate. intros H. inv_some.
  assert (Hc : bbr_calm s x0).
  { destruct (_ && _); [by apply bbr_init_pacing_calm in Hx0|]. inv_some. subst. apply bbr_calm_refl. }
  apply (bbr_calm_trans _ _ _ Hc). clear Hc Hx Hx0. subst s'.
  destruct (_ || _); [|apply bbr_calm_refl].
  split; [touch x0 | done | by repeat split | intros []; by split].
Qed.

(** What recovery does to the window: it deducts losses, entering recovery sets
    it to what is in flight plus what was just delivered, leaving it restores
    the saved window. *)
Lemma recover_or_restore_spec s rs acked :
  1 <= s_cwnd s < 2 ^ 31 → 0 <= rs_losses rs < 2 ^ 31 → 1 <= acked →
  0 <= b_prior_cwnd (s_bbr s) → Z.of_nat (length (s_inflight_queue s)) + acked < 2 ^ 32 →
  let '(s', cwnd, conserve) := bbr_set_cwnd_to_recover_or_restore s rs acked in
  let q := Z.of_nat (length (s_inflight_queue s)) in
  bbr_touch s s' ∧ (bbr_ok (s_bbr s) → bbr_ok (s_bbr s')) ∧
  b_state (s_bbr s') = b_state (s_bbr s) ∧ b_full_bw_reached (s_bbr s') = b_full_bw_reached (s_bbr s) ∧
  s_rate s' = s_rate s ∧ s_cwnd s' = s_cwnd s ∧ b_prev_ca_state (s_bbr s') = s_ca_state s ∧
  1 <= cwnd <= Z.max (Z.max (s_cwnd s) (b_prior_cwnd (s_bbr s))) (q + acked) ∧
  (conserve = false → cwnd <= Z.max (s_cwnd s) (b_prior_cwnd (s_bbr s))) ∧
  (s_ca_state s = UDX_CA_RECOVERY → b_prev_ca_state (s_bbr s) ≠ UDX_CA_RECOVERY →
     cwnd = q + acked ∧ conserve = true) ∧
  (s_ca_state s = UDX_CA_OPEN → UDX_CA_RECOVERY <= b_prev_ca_state (s_bbr s) →
     b_prior_cwnd (s_bbr s) <= cwnd ∧ conserve = false).
Proof.
  intros Hc Hl Ha Hp Hq. unfold bbr_set_cwnd_to_recover_or_restore.
  set (q := Z.of_nat (length (s_inflight_queue s))) in *.
  assert (Hqa : u32 (qlen (s_inflight_queue s) + acked) = q + acked).
  { unfold qlen. fold q. rewrite u32_add_l, u32_id; [done|]. unfold is_u32. lia. }
  set (c1 := if 0 <? rs_losses rs then _ else _).
  assert (Hc1 : 1 <= c1 <= s_cwnd s).
  { unfold c1, max_int32. destruct (Z.ltb_spec 0 (rs_losses rs)); [|lia].
    rewrite i32_id by lia. rewrite u32_id by (unfold is_u32; case_ltb; lia). case_ltb; lia. }
  clearbody c1. rewrite !max_uint32_max.
  destruct (Z.eqb_spec (s_ca_state s) UDX_CA_RECOVERY) as [Er|Er],
    (Z.eqb_spec (b_prev_ca_state (s_bbr s)) UDX_CA_RECOVERY) as [Ep|Ep]; cbn [negb andb];
    try (destruct (Z.leb_spec UDX_CA_RECOVERY (b_prev_ca_state (s_bbr s))) as [El|El]; cbn [andb];
         try destruct (Z.eqb_spec (s_ca_state s) UDX_CA_OPEN) as [Eo|Eo]);
    cbn; rewrite ?Hqa, ?max_uint32_max;
    try destruct (b_use_packet_conservation (s_bbr s));
    (split; [touch s|]); (split; [intros []; by split|]);
    unfold UDX_CA_RECOVERY, UDX_CA_OPEN in *;
    split_and!; try done; intros; try lia; split_and!; try done; lia.
Qed.

Lemma bbr_bdp_ge_1 s bw gain x : bbr_bdp s bw gain = Some x → 1 <= x < 2 ^ 32.
Proof.
  unfold bbr_bdp. intros H. destruct (_ =? _); [injection H as <-; lia|]. inv_some. subst x.
  apply f64_to_u32_range in Hx. unfold is_u32 in *. rewrite max_uint32_max. lia.
Qed.

(** What an ACK may do to the window. *)
Record cwnd_step (s : stream) (q acked : Z) (b' : bbr_st) (cwnd' : Z) : Prop := {
  cs_pos : 1 <= cwnd';
  cs_growth : cwnd' <= Z.max bbr_cwnd_min_target
                (Z.max (Z.max (s_cwnd s) (b_prior_cwnd (s_bbr s))) q + acked);
  cs_probe_rtt : b_state b' = UDX_BBR_STATE_PROBE_RTT → cwnd' <= bbr_cwnd_min_target;
  cs_recovery : 1 <= acked → s_ca_state s = UDX_CA_RECOVERY →
    b_prev_ca_state (s_bbr s) ≠ UDX_CA_RECOVERY → b_state b' ≠ UDX_BBR_STATE_PROBE_RTT →
    cwnd' = q + acked }.

Lemma bbr_set_cwnd_spec s rs acked bw gain s' :
  1 <= s_cwnd s → 0 <= rs_losses rs < 2 ^ 31 → 0 <= acked → bbr_ok (s_bbr s) →
  Z.max (Z.max (s_cwnd s) (b_prior_cwnd (s_bbr s))) (Z.of_nat (length (s_inflight_queue s))) + acked < 2 ^ 31 →
  bbr_set_cwnd s rs acked bw gain = Some s' →
  bbr_touch s s' ∧ bbr_ok (s_bbr s') ∧ b_state (s_bbr s') = b_state (s_bbr s) ∧
  b_full_bw_reached (s_bbr s') = b_full_bw_reached (s_bbr s) ∧
  cwnd_step s (Z.of_nat (length (s_inflight_queue s))) acked (s_bbr s') (s_cwnd s').
Proof.
  intros Hc Hl Ha Hk Hb H. destruct (bok_prior _ Hk) as [Hp0 Hp1].
  set (q := Z.of_nat _) in *. assert (0 <= q) by lia.
  unfold bbr_set_cwnd in H. apply bind_Some in H as ([s1 c1] & H1 & H).
  assert (Hs1 : bbr_touch s s1 ∧ bbr_ok (s_bbr s1) ∧ b_state (s_bbr s1) = b_state (s_bbr s) ∧
    b_full_bw_reached (s_bbr s1) = b_full_bw_reached (s_bbr s) ∧
    1 <= c1 <= Z.max bbr_cwnd_min_target (Z.max (Z.max (s_cwnd s) (b_prior_cwnd (s_bbr s))) q + acked) ∧
    (1 <= acked → s_ca_state s = UDX_CA_RECOVERY → b_prev_ca_state (s_bbr s) ≠ UDX_CA_RECOVERY →
       c1 = q + acked)).
  { destruct (Z.eqb_spec acked 0) as [E|E].
    { injection H1 as <- <-. split; [apply bbr_touch_refl|]. split_and!; try done; lia. }
    pose proof (recover_or_restore_spec s rs acked ltac:(lia) Hl ltac:(lia) ltac:(lia) ltac:(lia)) as Hr.
    destruct (bbr_set_cwnd_to_recover_or_restore s rs acked) as [[s2 c2] conserve].
    fold q in Hr. destruct Hr as (T & O & S & F & R & C & P & B & Bc & Br & Bo).
    destruct conserve.
    { injection H1 as <- <-. split_and!; first [done | lia | by auto | intros; by apply Br]. }
    apply bind_Some in H1 as (x & Hx & H1). apply bind_Some in H1 as (x0 & _ & H1).
    apply bbr_bdp_ge_1 in Hx. cbv zeta in H1. injection H1 as -> H1. specialize (Bc eq_refl).
    split_and!; try done; [by auto|subst c1; rewrite max_uint32_max; unfold bbr_cwnd_min_target; lia| |].
    - subst c1. rewrite !max_uint32_max, !min_uint32_min.
      destruct (bbr_full_bw_reached s1); [|destruct (_ || _)];
        rewrite ?(u32_id (c2 + acked)) by (unfold is_u32; lia); lia.
    - intros. destruct Br; done. }
  destruct Hs1 as (T & O & S & F & B & Br). cbn in H. inv_some. clear E.
  change (s_bbr (s1 <| s_cwnd := c1 |>)) with (s_bbr s1) in H.
  destruct (Z.eqb_spec (b_state (s_bbr s1)) UDX_BBR_STATE_PROBE_RTT) as [Ep|Ep]; subst s'; cbn in *.
  - rewrite min_uint32_min. split; [apply (bbr_touch_trans _ _ _ T); touch s1|].
    split_and!; try done. unfold bbr_cwnd_min_target in *; split; unfold bbr_cwnd_min_target; cbn; intros; first [lia | congruence].
  - split; [apply (bbr_touch_trans _ _ _ T); touch s1|]. split_and!; try done.
    unfold bbr_cwnd_min_target in *; split; unfold bbr_cwnd_min_target; cbn; intros; first [lia | congruence | by auto].
Qed.

(** Bounds on the inputs under which nothing wraps. *)
Record bbr_inputs (s : stream) (rs : udx_rate_sample_t) : Prop := {
  bi_cwnd : 1 <= s_cwnd s;
  bi_losses : 0 <= rs_losses rs < 2 ^ 31;
  bi_acked : 0 <= rs_acked_sacked rs;
  bi_sum : Z.max (Z.max (s_cwnd s) (b_prior_cwnd (s_bbr s))) (Z.of_nat (length (s_inflight_queue s)))
           + rs_acked_sacked rs < 2 ^ 31 }.

Lemma bbr_set_pacing_rate_full s bw gain s' :
  bbr_set_pacing_rate s bw gain = Some s' → b_full_bw_reached (s_bbr s') = b_full_bw_reached (s_bbr s).
Proof.
  unfold bbr_set_pacing_rate, bbr_init_pacing_rate_from_rtt. intros H. inv_some.
  assert (b_full_bw_reached (s_bbr x0) = b_full_bw_reached (s_bbr s)) as <-.
  { destruct (truthy (srtt (s_rtt s))), (negb (b_has_seen_rtt (s_bbr s))); cbn [andb] in Hx0; inv_some; by subst. }
  subst s'. by destruct (_ || _).
Qed.

(** The successful run of bbr_main, as the model update and the window step. *)
Lemma bbr_main_split now s rs s' :
  bbr_main now s rs = Some s' → bbr_inputs s rs → bbr_ok (s_bbr s) →
  bbr_touch s s' ∧ bbr_ok (s_bbr s') ∧ bbr_edge now (s_bbr s) (s_bbr s') ∧
  (b_full_bw_reached (s_bbr s) = true → b_full_bw_reached (s_bbr s') = true) ∧
  cwnd_step s (Z.of_nat (length (s_inflight_queue s))) (rs_acked_sacked rs) (s_bbr s') (s_cwnd s').
Proof.
  intros H [I1 I2 I3 I4] Hk. unfold bbr_main in H.
  apply bind_Some in H as (s1 & H1 & H). apply bind_Some in H as (s2 & H2 & H).
  pose proof (bok_prior _ Hk) as Hp. unfold is_u32 in Hp.
  destruct (bbr_update_model_spec now s rs s1) as (T1 & O1 & E1 & [R1 R1'] & F1 & V1);
    [unfold is_u32; lia|done|done|].
  pose proof (bbr_set_pacing_rate_full _ _ _ _ H2) as F2.
  apply bbr_set_pacing_rate_calm in H2 as [T2 C2 (S2 & _ & _ & _ & P2 & A2 & _) O2].
  assert (Hq : s_inflight_queue s2 = s_inflight_queue s) by (rewrite T2, T1; reflexivity).
  assert (Hca : s_ca_state s2 = s_ca_state s) by (rewrite T2, T1; reflexivity).
  destruct (bbr_set_cwnd_spec s2 rs (rs_acked_sacked rs) _ _ s' ltac:(lia) I2 I3 (O2 O1)
    ltac:(rewrite Hq, C2; lia) H) as (T3 & O3 & S3 & F3 & X3).
  split; [by eauto using bbr_touch_trans|]. split; [done|].
  rewrite S2 in S3. rewrite F2 in F3. split; [|split; [by rewrite F3|]].
  - destruct E1 as [E|E E' E''|E E'|E E' E'' E3|E E' E'' E3].
    + apply edge_stay. congruence.
    + apply edge_full; [congruence..|]. by rewrite S3.
    + apply edge_drained; congruence.
    + apply edge_probe_rtt; congruence.
    + apply edge_probe_rtt_done; [done..|]. by rewrite S3, F3.
  - rewrite Hq in X3. destruct X3 as [X1 X2 X3 X4]. split; try done; [lia|].
    rewrite Hca, A2, V1 in X4. done.
Qed.

(** C28: each ACK moves the congestion window by the rules: it stays positive,
    grows by at most the packets acked over the larger of its old value, the
    saved window and what is in flight (or up to the minimum target), is at most
    four packets in PROBE_RTT, and on entering fast recovery is exactly what is
    in flight plus what was just delivered (packet conservation). *)
Theorem bbr_cwnd_bounds now s rs s' :
  bbr_main now s rs = Some s' → bbr_inputs s rs → bbr_ok (s_bbr s) →
  cwnd_step s (Z.of_nat (length (s_inflight_queue s))) (rs_acked_sacked rs) (s_bbr s') (s_cwnd s').
Proof. intros H Hi Hk. by destruct (bbr_main_split now s rs s' H Hi Hk) as (_ & _ & _ & _ & X). Qed.

(** C27: the BBR state machine: bbr_main keeps the record well formed, changes
    state only along the edges STARTUP to DRAIN or PROBE_BW with the pipe
    full, DRAIN to PROBE_BW, any state to PROBE_RTT when the minimum RTT is
    older than ten seconds and the stream was not idle, and PROBE_RTT back to
    PROBE_BW or STARTUP once its end time has passed; a full pipe stays full;
    nothing outside the BBR record, the window, the pacing rate and app_limited changes. *)
Theorem bbr_state_machine now s rs s' :
  bbr_main now s rs = Some s' → bbr_inputs s rs → bbr_ok (s_bbr s) →
  bbr_ok (s_bbr s') ∧ bbr_edge now (s_bbr s) (s_bbr s') ∧
  (b_full_bw_reached (s_bbr s) = true → b_full_bw_reached (s_bbr s') = true) ∧ bbr_touch s s'.
Proof. intros H Hi Hk. by destruct (bbr_main_split now s rs s' H Hi Hk) as (? & ? & ? & ? & _). Qed.

(** A connected stream with three packets in flight, and the sample of an ACK
    of five packets in 20 ms. *)
Definition bbr_example : option stream :=
  bbr_init 1000 (stream_zero <| s_cwnd := 10 |> <| s_ca_state := UDX_CA_OPEN |>
    <| s_remote_addr := mk_sockaddr AF_INET 9 [127; 0; 0; 1] |>
    <| s_mtu := mk_mtu_st 1 false 0 1200 1500 1200 |>
    <| s_rtt ::= λ r, r <| rtt_min := win_filter_reset 1000 20 |> |>
    <| s_rate ::= λ r, r <| delivered := 12 |> <| delivered_ts := 1050 |> |>
    <| s_inflight_queue := [1; 2; 3]%positive |>).
Definition bbr_example_rs : udx_rate_sample_t :=
  rs_init <| rs_delivered := 5 |> <| rs_interval_ms := 20 |> <| rs_rtt_ms := 20 |>
          <| rs_acked_sacked := 5 |> <| rs_prior_delivered := 12 |>.

Example bbr_cwnd_bounds_witness :
  ∃ s s', bbr_example = Some s ∧ bbr_main 1060 s bbr_example_rs = Some s' ∧
    s_cwnd s' = 15 ∧ 1 <= s_cwnd s' ∧ b_state (s_bbr s') = UDX_BBR_STATE_STARTUP.
Proof.
  destruct bbr_example as [s|] eqn:E; [|by vm_compute in E].
  destruct (bbr_main 1060 s bbr_example_rs) as [s'|] eqn:E'.
  2: { exfalso. revert E'. vm_compute in E. injection E as <-. by vm_compute. }
  exists s, s'. split; [done|]. split; [done|].
  assert (Hs : bbr_inputs s bbr_example_rs ∧ bbr_ok (s_bbr s)).
  { vm_compute in E. injection E as <-. split; split; vm_compute; intuition congruence. }
  split; [revert E'; vm_compute in E; injection E as <-; intros E'; vm_compute in E'; injection E' as <-; reflexivity|].
  split; [apply (bbr_cwnd_bounds 1060 s bbr_example_rs s' E'); apply Hs|].
  revert E'. vm_compute in E. injection E as <-. intros E'. vm_compute in E'. by injection E' as <-.
Defined.

Example bbr_state_machine_witness :
  ∃ s s', bbr_example = Some s ∧ bbr_main 1060 s bbr_example_rs = Some s' ∧
    bbr_ok (s_bbr s') ∧ bbr_edge 1060 (s_bbr s) (s_bbr s').
Proof.
  destruct bbr_example as [s|] eqn:E; [|by vm_compute in E].
  destruct (bbr_main 1060 s bbr_example_rs) as [s'|] eqn:E'.
  2: { exfalso. revert E'. vm_compute in E. injection E as <-. by vm_compute. }
  exists s, s'. split; [done|]. split; [done|].
  assert (Hs : bbr_inputs s bbr_example_rs ∧ bbr_ok (s_bbr s)).
  { vm_compute in E. injection E as <-. split; split; vm_compute; intuition congruence. }
  destruct (bbr_state_machine 1060 s bbr_example_rs s' E' (proj1 Hs) (proj2 Hs)) as (H1 & H2 & _).
  split; [exact H1 | exact H2].
Defined.

(** ** Filling the pipe *)

(** The end of a round in which the filter reports [bw]. *)
Definition full_bw_round (s : stream) (bw : spec_float) : stream :=
  bbr_check_full_bw_reached
    (s <| s_bbr ::= λ b, b <| b_round_start := true |>
                           <| b_bw := win_filter_f64_reset (b_rtt_count b) bw |> |>)
    (rs_init <| rs_is_app_limited := false |>).

Definition no_growth (s : stream) (bw : spec_float) : Prop :=
  f64_leb (f64_mul (b_full_bw (s_bbr s)) bbr_full_bw_thresh) bw = false.

Lemma full_bw_rounds s bws :
  Forall (no_growth s) bws → 0 <= b_full_bw_count (s_bbr s) <= 3 →
  b_full_bw_reached (s_bbr s) = (3 <=? b_full_bw_count (s_bbr s)) →
  b_full_bw_reached (s_bbr (foldl full_bw_round s bws)) =
    (3 <=? b_full_bw_count (s_bbr s) + Z.of_nat (length bws)).
Proof.
  revert s. induction bws as [|bw bws IH]; intros s Hg Hc Hr; cbn [foldl length].
  { by rewrite Z.add_0_r. }
  apply Forall_cons in Hg as [Hbw Hg]. unfold no_growth in Hbw.
  set (s1 := full_bw_round s bw).
  assert (H1 : b_full_bw (s_bbr s1) = b_full_bw (s_bbr s) ∧
    0 <= b_full_bw_count (s_bbr s1) <= 3 ∧
    b_full_bw_count (s_bbr s1) = Z.min 3 (b_full_bw_count (s_bbr s) + 1) ∧
    b_full_bw_reached (s_bbr s1) = (3 <=? b_full_bw_count (s_bbr s1))).
  { unfold s1, full_bw_round, bbr_check_full_bw_reached, bbr_full_bw_reached. cbn.
    rewrite Hr. destruct (Z.leb_spec 3 (b_full_bw_count (s_bbr s))); cbn.
    { rewrite Hr. split_and!; try done; try lia. }
    unfold bbr_max_bw, win_filter_f64_get, wf_get, win_filter_f64_reset, wf_reset. cbn. rewrite Hbw. cbn.
    unfold u8. rewrite Z.mod_small by lia. split_and!; try done; lia. }
  destruct H1 as (F1 & C1 & C2 & R1).
  rewrite IH; [| |done|done].
  - rewrite C2. apply eq_true_iff_eq. rewrite !Z.leb_le. clear - Hc. lia.
  - eapply Forall_impl; [exact Hg|]. intros b. unfold no_growth. by rewrite F1.
Qed.

(** C29: BBR declares the pipe full after exactly three rounds, not limited by
    the application, in which the bandwidth did not grow by a quarter over the
    recorded one: not after two, and for good from the third on. *)
Theorem bbr_full_pipe s bws :
  Forall (no_growth s) bws → b_full_bw_count (s_bbr s) = 0 → b_full_bw_reached (s_bbr s) = false →
  b_full_bw_reached (s_bbr (foldl full_bw_round s bws)) = (3 <=? Z.of_nat (length bws)).
Proof. intros Hg Hc Hr. rewrite full_bw_rounds; rewrite ?Hc, ?Hr; done || lia. Qed.

Example bbr_full_pipe_witness :
  let s := stream_zero <| s_bbr ::= λ b, b <| b_full_bw := f64_of_Z 8 |> |> in
  no_growth s (f64_of_Z 9) ∧
  b_full_bw_reached (s_bbr (foldl full_bw_round s [f64_of_Z 9; f64_of_Z 8; f64_of_Z 9])) = true.
Proof.
  intros s. split; [reflexivity|].
  apply (bbr_full_pipe s [f64_of_Z 9; f64_of_Z 8; f64_of_Z 9]); [|reflexivity|reflexivity].
  repeat constructor; reflexivity.
Defined.
