(* ===== verification/Ctx.v ===== *)
(** * The context a stream runs in (include/udx.h: udx_t, sockets, requests)

    [ctx] is the running stream with the objects only it owns (packets, write
    buffers, write requests), the rest of the world (the udx_t, its sockets, its other
    streams), and [io]: the time of the loop, the debug switches and the counters of
    the udx_t.  [Env] is everything libudx calls and does not define: the results
    of libuv's send calls, as a function of all that happened before, and the
    values the user's callbacks return.  [io_log] records the datagrams handed to libuv
    and the callbacks called, newest first. *)

From S2P Require Import Prelude SeqNum Endian Wire WinFilter Stream.

(** libuv's error codes (Linux values). *)
Definition UV_EAGAIN : Z := -11.
Definition UV_EBUSY : Z := -16.
Definition UV_EINVAL : Z := -22.
Definition UV_EPIPE : Z := -32.
Definition UV_ECONNRESET : Z := -104.
Definition UV_EISCONN : Z := -106.
Definition UV_ENOTCONN : Z := -107.
Definition UV_ETIMEDOUT : Z := -110.
Definition UV_EALREADY : Z := -114.
Definition UV_ECANCELED : Z := -125.
Definition UV_EOF : Z := -4095.

Definition UDX_DEBUG_FORCE_RELAY_SLOW_PATH : Z := 1.
Definition UDX_DEBUG_FORCE_DROP_PROBES : Z := 2.
Definition UDX_DEBUG_FORCE_DROP_DATA : Z := 4.
Definition UDX_DEBUG_FORCE_SEND_SLOW_PATH : Z := 8.

(** Calls to the user's functions. *)
Inductive callback :=
| CbRead (nread : Z) (data : list Z)
| CbRecv (data : list Z)
| CbDrain
| CbAck (req : write_id) (status unordered : Z)
| CbRemoteChanged
| CbFirewall (sk : positive) (from : sockaddr)
| CbClose (status : Z)
| CbFinalize
| CbSocketClose (sk : positive)
| CbSocketSend (req : positive) (status : Z)
| CbSocketRecv (sk : positive) (data : list Z) (from : sockaddr)
| CbIdle
| CbInterfaceEvent (handle : positive) (status : Z)
| CbInterfaceClose (handle : positive)
| CbLookup (req : positive) (status : Z) (addr : option sockaddr).

Inductive event :=
| EvTrySend (dest : sockaddr) (bytes : list Z) (result : Z)
| EvSend (dest : sockaddr) (bytes : list Z) (result : Z)
| EvTtlSend (ttl : Z) (dest : sockaddr) (bytes : list Z) (result : Z)
| EvCallback (cb : callback).

(** The four traffic counters kept by streams, sockets and the udx_t. *)
Record counters := mk_counters { k_bytes_rx : Z; k_bytes_tx : Z; k_packets_rx : Z; k_packets_tx : Z }.
#[export] Instance eta_counters : Eta counters := λ r,
  mk_counters (k_bytes_rx r) (k_bytes_tx r) (k_packets_rx r) (k_packets_tx r).

Definition count_tx (k : counters) (n : Z) : counters :=
  k <| k_packets_tx ::= λ x, u64 (x + 1) |> <| k_bytes_tx ::= λ x, u64 (x + n) |>.
Definition count_rx (k : counters) (n : Z) : counters :=
  k <| k_bytes_rx ::= λ x, u64 (x + n) |> <| k_packets_rx ::= λ x, u64 (x + 1) |>.

Record io := mk_io {
  io_now : Z;                    (** uv_now of the loop *)
  io_log : list event;
  io_udx : counters;
  io_debug_flags : Z;
  io_drop_n : Z }.               (** the static [n] of _send_packet *)
#[export] Instance eta_io : Eta io := λ r,
  mk_io (io_now r) (io_log r) (io_udx r) (io_debug_flags r) (io_drop_n r).

(** ** The rest of the world *)

(** [udx_stream_entry_t]: a stream or the record that answers after its close. *)
Inductive entry := EntryStream (s : stream_id) | EntryTimewait (t : positive).
#[export] Instance entry_eq_dec : EqDecision entry.
Proof. solve_decision. Defined.

Record timewait := mk_timewait {
  tw_local_id : Z; tw_socket : socket_id; tw_remote_addr : sockaddr; tw_header : list Z;
  tw_timer : option Z }.
#[export] Instance eta_timewait : Eta timewait := λ r,
  mk_timewait (tw_local_id r) (tw_socket r) (tw_remote_addr r) (tw_header r) (tw_timer r).

(** [struct udx_socket_s]; [sk_streams] is the list [udx__link_*] maintains,
    [sk_uv_ttl] the TTL libuv's handle has been given last. *)
Record socket := mk_socket {
  sk_nrefs : Z; sk_ttl_queue : list positive; sk_streams : list stream_id;
  sk_timewait_queue : list positive; sk_family : Z; sk_status : Z; sk_ttl : Z; sk_uv_ttl : Z;
  sk_on_recv : bool; sk_on_close : bool; sk_counters : counters;
  sk_ttl_check : bool; sk_ttl_check_timer : bool }.
#[export] Instance eta_socket : Eta socket := λ r,
  mk_socket (sk_nrefs r) (sk_ttl_queue r) (sk_streams r) (sk_timewait_queue r)
    (sk_family r) (sk_status r) (sk_ttl r) (sk_uv_ttl r) (sk_on_recv r) (sk_on_close r)
    (sk_counters r) (sk_ttl_check r) (sk_ttl_check_timer r).

(** [struct udx_socket_send_s]. *)
Record sock_send := mk_sock_send {
  ss_ttl : Z; ss_on_send : bool; ss_socket : socket_id; ss_buf : list Z; ss_remote_addr : sockaddr }.

(** A stream with the objects only it owns. *)
Record objs := mk_objs {
  o_s : stream; o_packets : gmap packet_id packet; o_wbufs : gmap wbuf_id wbuf;
  o_writes : gmap write_id write }.
#[export] Instance eta_objs : Eta objs := λ r,
  mk_objs (o_s r) (o_packets r) (o_wbufs r) (o_writes r).

(** The udx_t and what hangs off it; [w_others] are the streams that are not
    the running one.  [w_stream_next] and [w_socket_next] are the [next] fields, which udx__link_remove leaves as they
    were, of streams and sockets that were taken out of their lists. *)
Record world := mk_world {
  w_refs : Z; w_teardown : bool; w_on_idle : bool;
  w_sockets : list socket_id; w_streams : list stream_id;
  w_stream_table : gmap Z entry;
  w_socket_objs : gmap socket_id socket;
  w_timewaits : gmap positive timewait;
  w_sends : gmap positive sock_send;
  w_others : gmap stream_id objs;
  w_stream_next : gmap stream_id (option stream_id);
  w_socket_next : gmap socket_id (option socket_id) }.
#[export] Instance eta_world : Eta world := λ r,
  mk_world (w_refs r) (w_teardown r) (w_on_idle r) (w_sockets r) (w_streams r)
    (w_stream_table r) (w_socket_objs r) (w_timewaits r) (w_sends r) (w_others r)
    (w_stream_next r) (w_socket_next r).

(** ** The running stream *)

Record ctx := mk_ctx {
  c_s : stream;
  c_packets : gmap packet_id packet;
  c_wbufs : gmap wbuf_id wbuf;
  c_writes : gmap write_id write;
  c_next : positive;             (** the next address malloc returns *)
  c_io : io;
  c_self : stream_id;
  c_world : world }.
#[export] Instance eta_ctx : Eta ctx := λ r,
  mk_ctx (c_s r) (c_packets r) (c_wbufs r) (c_writes r) (c_next r) (c_io r) (c_self r) (c_world r).

Definition now (c : ctx) : Z := io_now (c_io c).

(** What the code does not define. *)
Class Env := {
  env_host : udx__endianness_t;
  env_try_send : list event → sockaddr → list Z → Z;
  env_send : list event → sockaddr → list Z → Z;
  env_read_buffer_size : list event → Z;
  env_firewall : list event → bool }.

Section Io.
Context `{Env}.

Definition uv_udp_try_send (i : io) (dest : sockaddr) (bytes : list Z) : io * Z :=
  let r := env_try_send (io_log i) dest bytes in
  (i <| io_log ::= cons (EvTrySend dest bytes r) |>, r).
Definition uv_udp_send (i : io) (dest : sockaddr) (bytes : list Z) : io * Z :=
  let r := env_send (io_log i) dest bytes in
  (i <| io_log ::= cons (EvSend dest bytes r) |>, r).

(** The pattern of send_ack, send_probe and process_timewait: try, and queue a
    copy on EAGAIN. *)
Definition send_small (i : io) (dest : sockaddr) (bytes : list Z) : io :=
  let '(i, err) := uv_udp_try_send i dest bytes in
  if err =? UV_EAGAIN then (uv_udp_send i dest bytes).1 else i.

Definition c_rwnd (c : ctx) : Z :=
  get_recv_rwnd (env_read_buffer_size (io_log (c_io c))) (c_s c).

(** [udx_write_header(header, stream, type, remote_id)]. *)
Definition udx_write_header (c : ctx) (type remote_id : Z) : list Z :=
  header_bytes env_host type remote_id (c_rwnd c) (s_seq (c_s c)) (s_ack (c_s c)).

End Io.

(** "consider the packet to be sent": the counters of the stream, its socket
    and the udx_t. *)
Definition count_sent (c : ctx) (n : Z) : ctx :=
  c <| c_s ::= λ s, s <| s_stats ::= λ k,
         k <| packets_tx ::= λ x, u64 (x + 1) |> <| bytes_tx ::= λ x, u64 (x + n) |> |> |>
    <| c_io ::= λ i, i <| io_udx ::= λ k, count_tx k n |> |>
    <| c_world ::= λ w, match s_socket (c_s c) with
         | Some sk => w <| w_socket_objs ::= alter (λ o, o <| sk_counters ::= λ k, count_tx k n |>) sk |>
         | None => w
         end |>.

(** udx__queue_unlink on a queue seen as a list: the node must be a member. *)
Definition queue_unlink (q : list positive) (x : positive) : option (list positive) :=
  if decide (x ∈ q) then Some (filter (.≠ x) q) else None.

Lemma queue_unlink_Some q x q' :
  queue_unlink q x = Some q' → x ∈ q ∧ q' = filter (.≠ x) q.
Proof. unfold queue_unlink. case_decide; [|done]. by intros [= <-]. Qed.

(** The bytes a chunk points to. *)
Definition chunk_bytes (wbufs : gmap wbuf_id wbuf) (k : chunk) : option (list Z) :=
  b ← wbufs !! ck_wbuf k;
  Some (take (Z.to_nat (ck_len k)) (drop (Z.to_nat (ck_off k)) (wb_buf b))).
Fixpoint chunks_bytes (wbufs : gmap wbuf_id wbuf) (ks : list chunk) : option (list Z) :=
  match ks with
  | [] => Some []
  | k :: ks => x ← chunk_bytes wbufs k; xs ← chunks_bytes wbufs ks; Some (x ++ xs)
  end.

(** [stream_timer_start] and [stream_timer_stop]; the deadline stands for the
    libuv timer. *)
Definition stream_timer_start (c : ctx) (timer : udx_stream_timer_type_t) (time_wait_ms : Z) : ctx :=
  let s := c_s c in
  let s := if decide (timer = UDX_TIMER_RTO)
           then s <| s_next_rto_ts := u64 (now c + time_wait_ms) |> else s in
  c <| c_s := s <| s_pending_timer := timer |> <| s_timer := Some (u64 (now c + time_wait_ms)) |> |>.
Definition stream_timer_stop (c : ctx) : ctx :=
  c <| c_s ::= λ s, s <| s_timer := None |> <| s_pending_timer := UDX_TIMER_NONE |> |>.
