(* ===== verification/Send.v ===== *)
(** * Sending (src/udx.c: pacing, packetization, transmission, timers) *)

From S2P Require Import Prelude SeqNum Endian Wire WinFilter Stream Rtt Mtu Rate Float64 Bbr Ctx.

Section Send.
Context `{Env}.

(** ** Pacing *)

Definition update_pacing_time (c : ctx) : option ctx :=
  let s := c_s c in
  if s_tb_last_refill_ms s <? now c then
    let factor := now c - s_tb_last_refill_ms s in
    assert! 0 <? s_pacing_bytes_per_ms s;
    Some (c <| c_s := s <| s_tb_available := u32 (u64 (factor * s_pacing_bytes_per_ms s)) |>
                        <| s_tb_last_refill_ms := now c |> |>)
  else Some c.

Definition stream_may_send (c : ctx) (retransmit : bool) : option (ctx * bool) :=
  assert! 0 <? s_cwnd (c_s c);
  c ← update_pacing_time c;
  let s := c_s c in
  if s_tb_available s =? 0 then Some (c, false)
  else if retransmit then Some (c, qlen (s_inflight_queue s) <? s_cwnd s)
  else w ← send_window_in_packets s; Some (c, qlen (s_inflight_queue s) <? w).

(** ** Timers *)

(** The int64_t difference to the saved deadline, rounded up to one. *)
Definition rto_delta (c : ctx) : Z :=
  let delta := i64 (s_next_rto_ts (c_s c) - now c) in if delta <? 0 then 1 else delta.

Definition rearm_rto (c : ctx) (from_now : bool) : option ctx :=
  let s := c_s c in
  if s_seq s =? s_remote_acked s then Some (stream_timer_stop c)
  else if from_now then Some (stream_timer_start c UDX_TIMER_RTO (rto (s_rtt s)))
  else
    assert! bool_decide (s_pending_timer s = UDX_TIMER_RACK_REO ∨ s_pending_timer s = UDX_TIMER_TLP);
    Some (stream_timer_start c UDX_TIMER_RTO (u32 (rto_delta c))).

Definition schedule_loss_probe (c : ctx) (advancing_rto : bool) : ctx * bool :=
  let s := c_s c in
  if (s_seq s =? s_remote_acked s) || negb (s_ca_state s =? UDX_CA_OPEN) || truthy (s_sacks s)
  then (c, false)
  else
    let timeout :=
      if truthy (srtt (s_rtt s)) then
        let t := u32 (srtt (s_rtt s) * 2) in
        if u32 (qlen (s_inflight_queue s) + qlen (s_retransmit_queue s)) =? 1
        then u32 (t + UDX_TLP_MAX_ACK_DELAY) else t
      else 1000 in
    let rto_delta_ms := if advancing_rto then rto (s_rtt s) else u32 (rto_delta c) in
    (stream_timer_start c UDX_TIMER_TLP (min_uint32 timeout rto_delta_ms), true).

Definition arm_stream_timers (c : ctx) (arm_tlp : bool) : option ctx :=
  let s := c_s c in
  assert! 0 <? qlen (s_inflight_queue s);
  assert! negb (s_remote_acked s =? s_seq s);
  assert! 0 <? rto (s_rtt s);
  assert! negb (s_status s =? UDX_STREAM_CLOSED);
  let c := if decide (s_pending_timer s = UDX_TIMER_NONE ∨ s_pending_timer s = UDX_TIMER_ZWP ∨
                      s_pending_timer s = UDX_TIMER_KEEPALIVE)
           then stream_timer_start c UDX_TIMER_RTO (rto (s_rtt s)) else c in
  Some (if arm_tlp && (s_ca_state s =? UDX_CA_OPEN) && negb (truthy (s_sacks s))
        then (schedule_loss_probe c false).1 else c).

(** ** Packets *)

Definition deref_packet (c : ctx) (pid : packet_id) : option ctx :=
  p ← c_packets c !! pid;
  let n := u8 (p_ref_count p - 1) in
  Some (if n =? 0 then c <| c_packets ::= delete pid |>
        else c <| c_packets ::= <[pid := p <| p_ref_count := n |>]> |>).

(** The completion of a queued uv_udp_send. *)
Definition on_stream_data_write (c : ctx) (pid : packet_id) : option ctx := deref_packet c pid.

Definition packet_bytes (c : ctx) (p : packet) : option (list Z) :=
  data ← chunks_bytes (c_wbufs c) (p_chunks p); Some (packet_wire p data).

(** The two debug switches of _send_packet; the counter advances only when the
    second one is on. *)
Definition drop_decision (i : io) (p : packet) : io * bool :=
  let drop := has (io_debug_flags i) UDX_DEBUG_FORCE_DROP_PROBES && p_is_mtu_probe p in
  if has (io_debug_flags i) UDX_DEBUG_FORCE_DROP_DATA then
    let n := io_drop_n i in
    (i <| io_drop_n := u32 (n + 1) |>, drop || ((n mod 3 =? 0) && (p_transmits p <? 3)))
  else (i, drop).

(** Handing the datagram to libuv. *)
Definition transmit (c : ctx) (pid : packet_id) (p : packet) : option ctx :=
  bytes ← packet_bytes c p;
  let '(i, err) := uv_udp_try_send (c_io c) (p_remote_addr p) bytes in
  let c := c <| c_io := i |> in
  if err =? UV_EAGAIN then
    let p := p <| p_ref_count := u8 (p_ref_count p + 1) |> in
    let c := c <| c_packets ::= <[pid := p]> |> in
    assert! p_ref_count p =? 2;
    let '(i, err) := uv_udp_send (c_io c) (p_remote_addr p) bytes in
    let c := c <| c_io := i |> in
    if truthy err then deref_packet c pid else Some c
  else Some c.

Definition _send_packet (c : ctx) (pid : packet_id) (is_retransmit : bool) : option ctx :=
  s ← udx__rate_check_app_limited (c_s c);
  p ← c_packets c !! pid;
  let p := if p_transmits p <? 255 then p <| p_transmits ::= λ t, t + 1 |> else p in
  let p := if is_retransmit then p <| p_retransmitted := true |> else p in
  let p := p <| p_time_sent := now c |> in
  let '(s, p) := udx__rate_pkt_sent (now c) s p in
  '(s, p) ← (if p_lost p
             then q ← queue_unlink (s_retransmit_queue s) pid;
                  Some (s <| s_retransmit_queue := q |>, p <| p_lost := false |>)
             else Some (s, p));
  let s := s <| s_inflight_queue ::= λ q, q ++ [pid] |>
             <| s_inflight ::= λ x, u64 (x + p_size p) |> in
  let c := c <| c_s := s |> <| c_packets ::= <[pid := p]> |> in
  let '(i, drop_packet) := drop_decision (c_io c) p in
  let c := c <| c_io := i |> in
  c ← (if (drop_packet : bool) then Some c else transmit c pid p);
  _ ← s_socket (c_s c);
  let c := count_sent c (p_size p) in
  let s := c_s c in
  let tb := if s_tb_available s <? p_size p then 0 else s_tb_available s - p_size p in
  let s := s <| s_tb_available := tb |> in
  Some (c <| c_s := if tb =? 0 then s <| s_refill_pacing_timer := Some (u64 (now c + 1)) |> else s |>).

Definition new_packet (stream_offset : Z) : packet :=
  mk_packet 0 false false 0 false 1 UDX_HEADER_SIZE addr_zero 0 0 0 stream_offset 0 0 0 false
    (repeat 0 20) 5 [].

Definition reset_next_packet (c : ctx) : option ctx :=
  cap ← udx__max_payload (c_s c);
  let pid := c_next c in
  Some (c <| c_s ::= λ s, s <| s_pkt_capacity := u16 cap |> <| s_pkt_header_flag := 0 |>
                            <| s_pkt := Some pid |> <| s_pending_packet_prepare := false |> |>
          <| c_packets ::= <[pid := new_packet (bytes_packetized (s_acct (c_s c)))]> |>
          <| c_next ::= Pos.succ |>).

Definition bind_packet_remote (p : packet) (s : stream) : option packet :=
  assert! p_remote_addr_len p =? 0;
  Some (p <| p_remote_id := s_remote_id s |> <| p_remote_addr := s_remote_addr s |>
          <| p_remote_addr_len := s_remote_addr_len s |>).

(** The packet under construction gets its header, its number and perhaps
    probe padding; [stream->mtu_probe_wanted && ... && mtu_probeify_packet(...)]. *)
Definition finish_packet (c : ctx) (p : packet) (tlp : bool) : option (packet * bool) :=
  let s := c_s c in
  p ← (if p_remote_addr_len p =? 0 then bind_packet_remote p s else Some p);
  let p := p <| p_header := udx_write_header c (s_pkt_header_flag s) (p_remote_id p) |>
             <| p_seq := s_seq s |> <| p_ref_count := 1 |> in
  if mtu_probe_wanted (s_mtu s) && negb tlp && negb (s_remote_changing s)
  then mtu_probeify_packet p (mtu_probe_size (s_mtu s))
  else Some (p, false).

Definition _send_new_packet (c : ctx) (tlp : bool) : option ctx :=
  assert! Z.ldiff (s_pkt_header_flag (c_s c)) UDX_HEADER_DATA_OR_END =? 0;
  let inflight_queue_was_empty := qlen (s_inflight_queue (c_s c)) =? 0 in
  pid ← s_pkt (c_s c);
  p ← c_packets c !! pid;
  '(p, mtu_probe) ← finish_packet c p tlp;
  out ← s_outgoing (c_s c);
  let c := c <| c_packets ::= <[pid := p]> |>
             <| c_s ::= λ s, s <| s_outgoing := Some (<[p_seq p := pid]> out) |> |> in
  c ← _send_packet c pid false;
  let c := c <| c_s ::= λ s, s <| s_seq ::= λ q, u32 (q + 1) |> |> in
  s ← (if inflight_queue_was_empty then bbr_on_transmit_start (c_s c) (now c) else Some (c_s c));
  let s := if (mtu_probe : bool) then s <| s_mtu ::= mtu_probe_sent |> else s in
  let s := if tlp then s <| s_tlp := mk_tlp_st false true false (p_seq p) |> else s in
  c ← arm_stream_timers (c <| c_s := s |>) (negb tlp);
  assert! (0 <? p_size p) && (p_size p <? 1500);
  reset_next_packet c.

Definition on_pending_packet_prepare (c : ctx) : option ctx := _send_new_packet c false.

(** ** Packetization: one turn of the loop of send_new_packet *)
Definition packetize_step (c : ctx) (wid : wbuf_id) : option ctx :=
  let s := c_s c in
  pid ← s_pkt s;
  p ← c_packets c !! pid;
  b ← c_wbufs c !! wid;
  let off := u64 (wb_bytes_acked b + wb_bytes_inflight b) in
  let writesz := u64 (u64 (wb_len b - wb_bytes_acked b) - wb_bytes_inflight b) in
  let len := min_uint64 (s_pkt_capacity s) writesz in
  let b := b <| wb_bytes_inflight ::= λ x, u64 (x + len) |> in
  let s := s <| s_pkt_capacity ::= λ x, u16 (x - len) |>
             <| s_acct ::= λ a, a <| bytes_packetized ::= λ x, u64 (x + len) |> |> in
  let p := p <| p_size ::= λ x, u16 (x + len) |> in
  let p := if p_nwbufs p =? p_nwbufs_capacity p
           then p <| p_nwbufs_capacity ::= λ x, u16 (x * 2) |> else p in
  assert! p_nwbufs p <? p_nwbufs_capacity p;
  let p := p <| p_chunks ::= λ l, l ++ [mk_chunk wid off len] |> in
  '(s, p) ← (if (0 <? len) && negb (has (s_pkt_header_flag s) UDX_HEADER_DATA)
             then p ← bind_packet_remote p s;
                  Some (s <| s_pkt_header_flag ::= λ f, set_flag f UDX_HEADER_DATA |>, p)
             else Some (s, p));
  let s :=
    if u64 (wb_bytes_acked b + wb_bytes_inflight b) =? wb_len b then
      let s := if wb_is_write_end b
               then s <| s_pkt_header_flag ::= λ f, set_flag f UDX_HEADER_END |> else s in
      s <| s_write_queue ::= tail |>
    else s in
  Some (c <| c_s := s |> <| c_packets ::= <[pid := p]> |> <| c_wbufs ::= <[wid := b]> |>).

(** Each turn empties the head buffer or fills the packet, so one turn per queued
    buffer and one more are enough. *)
Fixpoint packetize (fuel : nat) (c : ctx) : option ctx :=
  if 0 <? s_pkt_capacity (c_s c) then
    match s_write_queue (c_s c), fuel with
    | [], _ => Some c
    | _, O => None
    | wid :: _, S fuel => c ← packetize_step c wid; packetize fuel c
    end
  else Some c.

Definition send_new_packet (c : ctx) (tlp : bool) : option (ctx * bool) :=
  if qlen (s_write_queue (c_s c)) =? 0 then Some (c, false)
  else
    '(c, may_send) ← stream_may_send c false;
    if negb may_send && negb tlp then Some (c, false)
    else
      c ← packetize (S (length (s_write_queue (c_s c)))) c;
      let s := c_s c in
      if (s_pkt_capacity s =? 0) || tlp || has (s_pkt_header_flag s) UDX_HEADER_END
      then c ← _send_new_packet c tlp; Some (c, true)
      else if has (s_pkt_header_flag s) UDX_HEADER_DATA
           then Some (c <| c_s ::= λ s, s <| s_pending_packet_prepare := true |> |>, false)
           else Some (c, false).

(** The store [*(uint32_t * ) (header + off) = swap(w)]. *)
Definition patch_word (h : list Z) (off : nat) (w : Z) : list Z :=
  take off h ++ put_word env_host w ++ drop (off + 4) h.

Definition retransmit_packet (c : ctx) (pid : packet_id) : option ctx :=
  let inflight_queue_was_empty := qlen (s_inflight_queue (c_s c)) =? 0 in
  p ← c_packets c !! pid;
  let p := p <| p_header ::= λ h, patch_word (patch_word h 8 (c_rwnd c)) 16 (s_ack (c_s c)) |> in
  c ← _send_packet (c <| c_packets ::= <[pid := p]> |>) pid true;
  let c := c <| c_s ::= λ s, s <| s_stats ::= λ k, k <| retransmit_count ::= λ x, u16 (x + 1) |> |> |> in
  s ← (if inflight_queue_was_empty then bbr_on_transmit_start (c_s c) (now c) else Some (c_s c));
  arm_stream_timers (c <| c_s := s |>) false.

(** The first loop of send_packets: one packet of the queue per turn. *)
Fixpoint send_retransmits (fuel : nat) (c : ctx) : option ctx :=
  match s_retransmit_queue (c_s c), fuel with
  | [], _ => Some c
  | pid :: _, O => '(c, may_send) ← stream_may_send c true; if (may_send : bool) then None else Some c
  | pid :: _, S fuel =>
      '(c, may_send) ← stream_may_send c true;
      if (may_send : bool) then c ← retransmit_packet c pid; send_retransmits fuel c else Some c
  end.

(** Bytes and buffers not yet packetized: each packet of the second loop
    consumes one or the other. *)
Definition wbuf_left (b : wbuf) : Z := wb_len b - wb_bytes_acked b - wb_bytes_inflight b.
Definition write_backlog (c : ctx) : nat :=
  sum_list_with (λ wid, match c_wbufs c !! wid with
                        | Some b => S (Z.to_nat (wbuf_left b)) | None => O end)
    (s_write_queue (c_s c)).

Fixpoint send_new_packets (fuel : nat) (c : ctx) : option ctx :=
  '(c, sent) ← send_new_packet c false;
  if (sent : bool) then match fuel with O => None | S fuel => send_new_packets fuel c end
  else Some c.

Definition send_packets (c : ctx) : option ctx :=
  assert! Z.land (s_status (c_s c)) UDX_STREAM_DEAD =? 0;
  c ← send_retransmits (length (s_retransmit_queue (c_s c))) c;
  send_new_packets (write_backlog c) c.

Definition pacing_timer_timeout (c : ctx) : option ctx :=
  c ← update_pacing_time c; send_packets c.

End Send.
