(* ===== verification/Packetize.v ===== *)
(** * Packetization preserves the byte stream (src/udx.c: send_new_packet)

    Write buffers are cut into chunks of packets.  The bytes of the packet under
    construction followed by the bytes still in the write queue are the same
    before and after, and the loop needs no more turns than there are buffers. *)

From S2P Require Import Prelude SeqNum Endian Wire WinFilter Stream Rtt Mtu Rate Float64 Bbr Ctx Send.

(** What is left to packetize of a write buffer, and of the write queue. *)
Definition wbuf_rest (b : wbuf) : list Z :=
  drop (Z.to_nat (wb_bytes_acked b + wb_bytes_inflight b)) (wb_buf b).
Definition rest_of (wbufs : gmap wbuf_id wbuf) (wid : wbuf_id) : list Z :=
  match wbufs !! wid with Some b => wbuf_rest b | None => [] end.
Definition unsent (c : ctx) : list Z := s_write_queue (c_s c) ≫= rest_of (c_wbufs c).

(** The bytes of a packet. *)
Definition packet_data (c : ctx) (p : packet) : option (list Z) := chunks_bytes (c_wbufs c) (p_chunks p).

Definition wbuf_ok (b : wbuf) : Prop :=
  0 <= wb_bytes_acked b ∧ 0 <= wb_bytes_inflight b ∧
  wb_bytes_acked b + wb_bytes_inflight b <= wb_len b < 2 ^ 63.

(** A context whose packet under construction can take more bytes. *)
Record building (c : ctx) (pid : packet_id) (p : packet) : Prop := {
  bd_pkt : s_pkt (c_s c) = Some pid;
  bd_packet : c_packets c !! pid = Some p;
  bd_capacity : 0 <= s_pkt_capacity (c_s c) < 2 ^ 15;
  bd_size : 0 <= p_size p < 2 ^ 15;
  bd_total : p_size p + s_pkt_capacity (c_s c) < 2 ^ 15;
  bd_room : 0 < p_nwbufs_capacity p;
  bd_nwbufs : p_nwbufs p <= p_nwbufs_capacity p < 2 ^ 16;
  bd_chunks : 0 < s_pkt_capacity (c_s c) → p_nwbufs p + Z.of_nat (length (s_write_queue (c_s c))) < 2 ^ 15 - 1;
  bd_unbound : has (s_pkt_header_flag (c_s c)) UDX_HEADER_DATA = false → p_remote_addr_len p = 0;
  bd_nodup : NoDup (s_write_queue (c_s c));
  bd_wbufs : ∀ wid, wid ∈ s_write_queue (c_s c) → ∃ b, c_wbufs c !! wid = Some b ∧ wbuf_ok b }.

Section Packetize.

Lemma chunk_bytes_update wbufs wid b b' k :
  wbufs !! wid = Some b → wb_buf b' = wb_buf b →
  chunk_bytes (<[wid := b']> wbufs) k = chunk_bytes wbufs k.
Proof.
  intros Hb E. unfold chunk_bytes. destruct (decide (ck_wbuf k = wid)) as [->|].
  - rewrite lookup_insert_eq, Hb. cbn. by rewrite E.
  - by rewrite lookup_insert_ne.
Qed.

Lemma chunks_bytes_update wbufs wid b b' ks :
  wbufs !! wid = Some b → wb_buf b' = wb_buf b →
  chunks_bytes (<[wid := b']> wbufs) ks = chunks_bytes wbufs ks.
Proof.
  intros Hb E. induction ks as [|k ks IH]; [done|]. cbn. by rewrite (chunk_bytes_update _ _ b), IH.
Qed.

Lemma chunks_bytes_snoc wbufs ks k d x :
  chunks_bytes wbufs ks = Some d → chunk_bytes wbufs k = Some x →
  chunks_bytes wbufs (ks ++ [k]) = Some (d ++ x).
Proof.
  revert d. induction ks as [|k' ks IH]; intros d; cbn.
  - intros [= <-] ->. cbn. by rewrite app_nil_r.
  - destruct (chunk_bytes wbufs k'); [|done]. cbn. destruct (chunks_bytes wbufs ks) as [d'|]; [|done].
    cbn. intros [= <-] Hx. rewrite (IH d') by done. cbn. by rewrite app_assoc.
Qed.

Lemma rest_of_ne wbufs wid b q :
  wid ∉ q → q ≫= rest_of (<[wid := b]> wbufs) = q ≫= rest_of wbufs.
Proof.
  induction q as [|x q IH]; [done|]. intros [Hx Hq]%not_elem_of_cons. cbn. rewrite IH by done.
  f_equal. unfold rest_of. by rewrite lookup_insert_ne.
Qed.

(** What packetization leaves alone: everything but the fields reset here. *)
Definition erase (s : stream) : stream :=
  s <| s_pkt_capacity := 0 |> <| s_pkt_header_flag := 0 |> <| s_acct := mk_acct_st 0 0 0 0 false |>
    <| s_write_queue := [] |>.
Definition erase_packet (p : packet) : packet :=
  p <| p_size := 0 |> <| p_chunks := [] |> <| p_nwbufs_capacity := 0 |>
    <| p_remote_addr := addr_zero |> <| p_remote_addr_len := 0 |> <| p_remote_id := 0 |>.

Record packetized (pid : packet_id) (c : ctx) (p : packet) (c' : ctx) (p' : packet) : Prop := {
  pz_data : ∀ d, packet_data c p = Some d →
    ∃ d', packet_data c' p' = Some d' ∧ d' ++ unsent c' = d ++ unsent c;
  pz_size : p_size p' + s_pkt_capacity (c_s c') = p_size p + s_pkt_capacity (c_s c);
  pz_capacity : s_pkt_capacity (c_s c') <= s_pkt_capacity (c_s c);
  pz_stream : erase (c_s c') = erase (c_s c);
  pz_packet : erase_packet p' = erase_packet p;
  pz_packets : delete pid (c_packets c') = delete pid (c_packets c);
  pz_bufs : ∀ ks, chunks_bytes (c_wbufs c') ks = chunks_bytes (c_wbufs c) ks;
  pz_flags : Z.ldiff (s_pkt_header_flag (c_s c')) UDX_HEADER_DATA_OR_END =
             Z.ldiff (s_pkt_header_flag (c_s c)) UDX_HEADER_DATA_OR_END;
  pz_remote : (p_remote_addr p', p_remote_addr_len p') = (p_remote_addr p, p_remote_addr_len p) ∨
    (p_remote_addr p', p_remote_addr_len p') = (s_remote_addr (c_s c), s_remote_addr_len (c_s c));
  pz_queue : (length (s_write_queue (c_s c')) <= length (s_write_queue (c_s c)))%nat;
  pz_empty : has (s_pkt_header_flag (c_s c')) UDX_HEADER_DATA = false →
    has (s_pkt_header_flag (c_s c)) UDX_HEADER_DATA = false ∧ ∀ d, packet_data c p = Some d → packet_data c' p' = Some d;
  pz_rest : (c_io c', c_next c', c_world c', c_self c') = (c_io c, c_next c, c_world c, c_self c) }.

Lemma packetized_refl pid c p : packetized pid c p c p.
Proof. split; eauto; lia. Qed.
Lemma erase_remote s s' :
  erase s' = erase s → (s_remote_addr s', s_remote_addr_len s') = (s_remote_addr s, s_remote_addr_len s).
Proof. intros E. pose proof (f_equal s_remote_addr E). pose proof (f_equal s_remote_addr_len E). cbn in *. congruence. Qed.
Lemma packetized_trans pid c p c1 p1 c2 p2 :
  packetized pid c p c1 p1 → packetized pid c1 p1 c2 p2 → packetized pid c p c2 p2.
Proof.
  intros [D1 S1 C1 E1 P1 M1 B1 F1 A1 Q1 G1 R1] [D2 S2 C2 E2 P2 M2 B2 F2 A2 Q2 G2 R2].
  pose proof (erase_remote _ _ E1) as Er. split; try congruence; try lia; [|destruct A1, A2; [left|right..]; congruence|].
  - intros d Hd. destruct (D1 d Hd) as (d1 & H1 & <-). destruct (D2 d1 H1) as (d2 & H2 & <-). by exists d2.
  - intros [H1 K2]%G2. destruct (G1 H1) as [H0 K1]. auto.
Qed.

(** The bytes a turn takes from the buffer at the head of the queue. *)
Definition turn_len (s : stream) (b : wbuf) : Z := Z.min (s_pkt_capacity s) (wbuf_left b).

Lemma turn_arith s b :
  wbuf_ok b → 0 <= s_pkt_capacity s < 2 ^ 15 →
  u64 (wb_bytes_acked b + wb_bytes_inflight b) = wb_bytes_acked b + wb_bytes_inflight b ∧
  min_uint64 (s_pkt_capacity s) (u64 (u64 (wb_len b - wb_bytes_acked b) - wb_bytes_inflight b)) = turn_len s b ∧
  0 <= turn_len s b <= s_pkt_capacity s ∧ turn_len s b <= wbuf_left b ∧
  (turn_len s b = wbuf_left b ∨ turn_len s b = s_pkt_capacity s).
Proof.
  unfold wbuf_ok, turn_len, wbuf_left, min_uint64. intros (H1 & H2 & H3 & H4) Hc.
  rewrite (u64_id (wb_len b - _)) by (unfold is_u64; lia). rewrite !u64_id by (unfold is_u64; lia). case_ltb; lia.
Qed.

(** The packet after a turn that took [len] bytes at [off] of the buffer. *)
Definition grown (p : packet) (wid : wbuf_id) (off len : Z) : packet :=
  let p := p <| p_size ::= λ x, u16 (x + len) |> in
  (if p_nwbufs p =? p_nwbufs_capacity p then p <| p_nwbufs_capacity ::= λ x, u16 (x * 2) |> else p)
    <| p_chunks ::= λ l, l ++ [mk_chunk wid off len] |>.

Lemma packet_grown_ok p wid off len n :
  0 <= len → 0 <= p_size p → p_size p + len < 2 ^ 15 → 0 < p_nwbufs_capacity p →
  p_nwbufs p <= p_nwbufs_capacity p < 2 ^ 16 → p_nwbufs p + Z.of_nat (S n) < 2 ^ 15 - 1 →
  p_size (grown p wid off len) = p_size p + len ∧
  p_chunks (grown p wid off len) = p_chunks p ++ [mk_chunk wid off len] ∧
  0 < p_nwbufs_capacity (grown p wid off len) ∧
  p_nwbufs p < p_nwbufs_capacity (grown p wid off len) < 2 ^ 16 ∧
  erase_packet (grown p wid off len) = erase_packet p ∧
  (p_remote_addr (grown p wid off len), p_remote_addr_len (grown p wid off len)) = (p_remote_addr p, p_remote_addr_len p).
Proof.
  intros Hl Hs Hs2 Hc Hn Hm. unfold grown, p_nwbufs in *. cbn.
  assert (u16 (p_size p + len) = p_size p + len) as Es by (apply Z.mod_small; lia).
  destruct (Z.eqb_spec (Z.of_nat (length (p_chunks p))) (p_nwbufs_capacity p)) as [E|E]; cbn; rewrite Es.
  - assert (u16 (p_nwbufs_capacity p * 2) = p_nwbufs_capacity p * 2) as -> by (apply Z.mod_small; lia).
    split_and!; done || lia.
  - split_and!; done || lia.
Qed.

(** The stream after the header flag and the queue were updated. *)
Definition flagged (s : stream) (b : wbuf) (len : Z) : stream :=
  let s := s <| s_pkt_capacity ::= λ x, u16 (x - len) |>
             <| s_acct ::= λ a, a <| bytes_packetized ::= λ x, u64 (x + len) |> |> in
  let s := if (0 <? len) && negb (has (s_pkt_header_flag s) UDX_HEADER_DATA)
           then s <| s_pkt_header_flag ::= λ f, set_flag f UDX_HEADER_DATA |> else s in
  if len =? wbuf_left b then
    (if wb_is_write_end b then s <| s_pkt_header_flag ::= λ f, set_flag f UDX_HEADER_END |> else s)
      <| s_write_queue ::= tail |>
  else s.

Definition bound (s : stream) (p : packet) (len : Z) : packet :=
  if (0 <? len) && negb (has (s_pkt_header_flag s) UDX_HEADER_DATA)
  then p <| p_remote_id := s_remote_id s |> <| p_remote_addr := s_remote_addr s |>
         <| p_remote_addr_len := s_remote_addr_len s |>
  else p.

(** A turn of the loop, in closed form. *)
Lemma packetize_step_eq c wid q pid p b :
  building c pid p → s_write_queue (c_s c) = wid :: q → c_wbufs c !! wid = Some b →
  0 < s_pkt_capacity (c_s c) →
  let len := turn_len (c_s c) b in
  packetize_step c wid = Some (c
    <| c_s := flagged (c_s c) b len |>
    <| c_packets ::= <[pid := bound (c_s c) (grown p wid (wb_bytes_acked b + wb_bytes_inflight b) len) len]> |>
    <| c_wbufs ::= <[wid := b <| wb_bytes_inflight ::= λ x, x + len |>]> |>).
Proof.
  intros [E1 E2 Hcap Hs Ht Hr Hn Hc Hu Hnd Hw] Hq Hb Hpos len. specialize (Hc Hpos).
  assert (wbuf_ok b) as Hok by (destruct (Hw wid ltac:(rewrite Hq; left)) as (b' & ? & ?); congruence).
  destruct (turn_arith (c_s c) b Hok Hcap) as (A1 & A2 & A3 & A4 & _). fold len in A2, A3, A4.
  rewrite Hq in Hc. cbn [length] in Hc.
  destruct (packet_grown_ok p wid (wb_bytes_acked b + wb_bytes_inflight b) len (length q) ltac:(lia) ltac:(lia) ltac:(lia) Hr Hn Hc)
    as (G1 & G2 & G3 & G4 & G5 & G6).
  unfold packetize_step. rewrite E1. cbn [mbind option_bind]. rewrite E2. cbn [mbind option_bind].
  rewrite Hb. cbn [mbind option_bind]. rewrite A1, A2. cbv zeta.
  assert (b <| wb_bytes_inflight ::= λ x, u64 (x + len) |> = b <| wb_bytes_inflight ::= λ x, x + len |>) as ->.
  { unfold upd_field. f_equal. apply u64_id. unfold is_u64, wbuf_ok, wbuf_left in *. lia. }
  set (b' := b <| wb_bytes_inflight ::= _ |>). set (p0 := if p_nwbufs _ =? _ then _ else _).
  assert (p_nwbufs p0 = p_nwbufs p) as -> by (unfold p0; by destruct (_ =? _)).
  change (p0 <| p_chunks ::= λ l, l ++ [mk_chunk wid (wb_bytes_acked b + wb_bytes_inflight b) len] |>)
    with (grown p wid (wb_bytes_acked b + wb_bytes_inflight b) len).
  change (p_nwbufs_capacity p0) with (p_nwbufs_capacity (grown p wid (wb_bytes_acked b + wb_bytes_inflight b) len)).
  rewrite (proj2 (Z.ltb_lt _ _)) by lia.
  assert ((u64 (wb_bytes_acked b' + wb_bytes_inflight b') =? wb_len b') = (len =? wbuf_left b)) as ->.
  { unfold b'. cbn. unfold wbuf_ok, wbuf_left, wb_len in *. cbn in *. rewrite u64_id by (unfold is_u64; lia). lia. }
  set (p1 := grown _ _ _ _) in *. unfold flagged, bound, bind_packet_remote. cbv zeta. apply (f_equal snd) in G6. cbn [snd] in G6. rewrite G6.
  assert (∀ f g, s_pkt_header_flag (c_s c <| s_pkt_capacity ::= f |> <| s_acct ::= g |>) = s_pkt_header_flag (c_s c))
    as E by done. rewrite !E.
  destruct ((0 <? len) && _) eqn:Hf; [|done].
  rewrite Hu by (destruct (has _ _); [rewrite andb_false_r in Hf|]; done). done.
Qed.

Lemma has_set_same x f : 0 < f → has (set_flag x f) f = true.
Proof.
  intros Hf. unfold has, set_flag, truthy. rewrite Z.land_lor_distr_l, Z.land_diag.
  apply negb_true_iff, Z.eqb_neq. intros E%Z.lor_eq_0_iff. lia.
Qed.
Lemma has_set_other x f g : Z.land g f = 0 → has (set_flag x g) f = has x f.
Proof. intros E. unfold has, set_flag. by rewrite Z.land_lor_distr_l, E, Z.lor_0_r. Qed.

Lemma ldiff_set x g f : Z.ldiff g f = 0 → Z.ldiff (set_flag x g) f = Z.ldiff x f.
Proof.
  unfold set_flag. rewrite !Z.ldiff_land, Z.land_lor_distr_l. intros ->. apply Z.lor_0_r.
Qed.

Lemma flagged_spec s b len :
  0 <= len <= s_pkt_capacity s → s_pkt_capacity s < 2 ^ 15 →
  s_pkt_capacity (flagged s b len) = s_pkt_capacity s - len ∧
  s_write_queue (flagged s b len) = (if len =? wbuf_left b then tail (s_write_queue s) else s_write_queue s) ∧
  s_pkt (flagged s b len) = s_pkt s ∧ erase (flagged s b len) = erase s ∧
  Z.ldiff (s_pkt_header_flag (flagged s b len)) UDX_HEADER_DATA_OR_END =
    Z.ldiff (s_pkt_header_flag s) UDX_HEADER_DATA_OR_END ∧
  (has (s_pkt_header_flag (flagged s b len)) UDX_HEADER_DATA =
     has (s_pkt_header_flag s) UDX_HEADER_DATA || (0 <? len)).
Proof.
  intros Hl Hc. assert (u16 (s_pkt_capacity s - len) = s_pkt_capacity s - len) as Hu by (apply Z.mod_small; lia).
  unfold flagged. destruct (Z.ltb_spec 0 len); destruct (has (s_pkt_header_flag s) UDX_HEADER_DATA) eqn:Hd;
    destruct (len =? wbuf_left b); try destruct (wb_is_write_end b); cbn -[u16 has set_flag]; rewrite ?Hd, ?Hu; cbn -[u16 has set_flag];
    split_and!; try done; rewrite ?ldiff_set by done; rewrite ?has_set_other by done; try done; by apply has_set_same.
Qed.

Lemma wbuf_rest_take b len :
  wbuf_ok b → 0 <= len <= wbuf_left b →
  take (Z.to_nat len) (wbuf_rest b) ++ wbuf_rest (b <| wb_bytes_inflight ::= λ x, x + len |>) = wbuf_rest b.
Proof.
  unfold wbuf_ok, wbuf_left, wbuf_rest. intros (? & ? & ? & ?) Hl. cbn.
  rewrite Z.add_assoc, (Z2Nat.inj_add _ len), <- drop_drop by lia. apply take_drop.
Qed.
Lemma wbuf_rest_done b : wbuf_ok b → wbuf_left b = 0 → wbuf_rest b = [].
Proof.
  unfold wbuf_ok, wbuf_left, wbuf_rest, wb_len. intros (? & ? & ? & ?) Hl. apply drop_ge. lia.
Qed.

Lemma bound_spec s p len :
  p_size (bound s p len) = p_size p ∧ p_chunks (bound s p len) = p_chunks p ∧
  p_nwbufs_capacity (bound s p len) = p_nwbufs_capacity p ∧ erase_packet (bound s p len) = erase_packet p ∧
  (has (s_pkt_header_flag s) UDX_HEADER_DATA || (0 <? len) = false → bound s p len = p) ∧
  ((p_remote_addr (bound s p len), p_remote_addr_len (bound s p len)) = (p_remote_addr p, p_remote_addr_len p) ∨
   (p_remote_addr (bound s p len), p_remote_addr_len (bound s p len)) = (s_remote_addr s, s_remote_addr_len s)).
Proof.
  unfold bound. destruct (0 <? len), (has (s_pkt_header_flag s) UDX_HEADER_DATA); split_and!; try done; by (left + right).
Qed.

(** One turn of the loop: bytes move from the head buffer to the packet, and the
    buffer leaves the queue or the packet is full. *)
Lemma packetize_turn c wid q pid p :
  building c pid p → s_write_queue (c_s c) = wid :: q → 0 < s_pkt_capacity (c_s c) →
  ∃ c' p' b, packetize_step c wid = Some c' ∧ building c' pid p' ∧ packetized pid c p c' p' ∧
    c_wbufs c !! wid = Some b ∧ s_pkt_capacity (c_s c') = s_pkt_capacity (c_s c) - turn_len (c_s c) b ∧
    c_wbufs c' = <[wid := b <| wb_bytes_inflight ::= λ x, x + turn_len (c_s c) b |>]> (c_wbufs c) ∧
    s_write_queue (c_s c') = if turn_len (c_s c) b =? wbuf_left b then q else wid :: q.
Proof.
  intros Hbd Hq Hpos. pose proof Hbd as [E1 E2 Hcap Hs Ht Hr Hn Hc Hu Hnd Hw].
  destruct (Hw wid ltac:(rewrite Hq; left)) as (b & Hb & Hok).
  destruct (turn_arith (c_s c) b Hok Hcap) as (_ & _ & A3 & A4 & A5).
  pose proof (packetize_step_eq c wid q pid p b Hbd Hq Hb Hpos) as Estep. cbv zeta in Estep.
  set (len := turn_len (c_s c) b) in *. set (off := wb_bytes_acked b + wb_bytes_inflight b) in *.
  pose proof (Hc Hpos) as Hc'. rewrite Hq in Hc'. cbn [length] in Hc'.
  destruct (packet_grown_ok p wid off len (length q) ltac:(lia) ltac:(lia) ltac:(lia) Hr Hn Hc') as (G1 & G2 & G3 & G4 & G5 & G6).
  destruct (flagged_spec (c_s c) b len A3 ltac:(lia)) as (F1 & F2 & F3 & F4 & F6 & F5).
  destruct (bound_spec (c_s c) (grown p wid off len) len) as (B1 & B2 & B3 & B4 & B5 & B6).
  set (p' := bound _ _ _) in *. set (s' := flagged _ _ _) in *. set (b' := b <| wb_bytes_inflight ::= _ |>) in *.
  assert (Hok' : wbuf_ok b') by (unfold wbuf_ok, wbuf_left, wb_len in *; cbn; lia).
  assert (Hn' : p_nwbufs p' = p_nwbufs p + 1) by (unfold p_nwbufs; rewrite B2, G2, length_app; cbn; lia).
  rewrite Hq in F2. cbn [tail] in F2.
  match type of Estep with _ = Some ?x => set (c' := x) in * end.
  assert (C1 : c_s c' = s') by done. assert (C2 : c_packets c' = <[pid := p']> (c_packets c)) by done.
  assert (C3 : c_wbufs c' = <[wid := b']> (c_wbufs c)) by done.
  assert (C4 : (c_io c', c_next c', c_world c', c_self c') = (c_io c, c_next c, c_world c, c_self c)) by done.
  clearbody c' s' p'. exists c', p', b. split; [exact Estep|].
  assert (Hwq : NoDup (wid :: q)) by by rewrite <- Hq.
  split; [|split; [|split_and!; [done|by rewrite C1|exact C3|by rewrite C1]]].
  - split; rewrite ?C1, ?C2, ?C3; try (rewrite ?F1, ?B1, ?B3, ?G1, ?Hn'; lia).
    + by rewrite F3.
    + apply lookup_insert_eq.
    + rewrite Hn', F2, F1. destruct (Z.eqb_spec len (wbuf_left b)); cbn [length]; lia.
    + rewrite F5. intros Hf. rewrite (B5 Hf). apply (f_equal snd) in G6. cbn [snd] in G6. rewrite G6. apply orb_false_iff in Hf as [Hf _]. by apply Hu.
    + rewrite F2. destruct (len =? wbuf_left b); [by apply NoDup_cons in Hwq as [_ ?]|done].
    + intros x Hx. destruct (decide (x = wid)) as [->|Hne].
      * exists b'. split; [apply lookup_insert_eq|done].
      * rewrite lookup_insert_ne by done. apply Hw. rewrite Hq. rewrite F2 in Hx.
        destruct (len =? wbuf_left b); [by right|done].
  - split; rewrite ?C1, ?C2, ?C3; [|rewrite B1, G1, F1; lia|rewrite F1; lia|exact F4|by rewrite B4|by rewrite delete_insert_eq|
      by intros; apply (chunks_bytes_update _ _ b)|exact F6|by rewrite <- G6|rewrite F2, Hq; destruct (_ =? _); cbn [length]; lia| |done].
    2: { rewrite F5. intros [Hf Hl]%orb_false_iff. split; [done|]. intros d Hd. apply Z.ltb_ge in Hl. assert (len = 0) as Hz by lia.
         unfold packet_data in *. rewrite C3, (chunks_bytes_update _ _ b), B2, G2 by done.
         rewrite (chunks_bytes_snoc _ _ _ d []), app_nil_r; [done|done|]. unfold chunk_bytes. cbn. rewrite Hb, Hz. done. }
    + intros d Hd. exists (d ++ take (Z.to_nat len) (wbuf_rest b)). split.
      * unfold packet_data in *. rewrite C3, (chunks_bytes_update _ _ b), B2, G2 by done.
        apply chunks_bytes_snoc; [done|]. unfold chunk_bytes. cbn. by rewrite Hb.
      * rewrite <- app_assoc. f_equal. unfold unsent. rewrite C1, C3, F2, Hq.
        apply NoDup_cons in Hwq as [Hnin _]. rewrite (bind_cons (rest_of (c_wbufs c))).
        assert (rest_of (c_wbufs c) wid = wbuf_rest b) as -> by (unfold rest_of; by rewrite Hb).
        pose proof (wbuf_rest_take b len Hok ltac:(lia)) as Et. fold b' in Et. rewrite <- Et at 2.
        rewrite <- app_assoc. f_equal.
        destruct (Z.eqb_spec len (wbuf_left b)) as [El|].
        { rewrite rest_of_ne by done. rewrite (wbuf_rest_done b'); [done|done|]. unfold b', wbuf_left, wb_len in *. cbn. lia. }
        rewrite bind_cons, rest_of_ne by done. f_equal. unfold rest_of. by rewrite lookup_insert_eq.
Qed.

Lemma backlog_ne wbufs wid b q :
  wid ∉ q →
  sum_list_with (λ w, match <[wid := b]> wbufs !! w with Some b => S (Z.to_nat (wbuf_left b)) | None => O end) q =
  sum_list_with (λ w, match (wbufs : gmap wbuf_id wbuf) !! w with Some b => S (Z.to_nat (wbuf_left b)) | None => O end) q.
Proof.
  induction q as [|x q IH]; [done|]. intros [Hx Hq]%not_elem_of_cons. cbn. rewrite IH by done.
  by rewrite lookup_insert_ne.
Qed.

(** Each turn works off a buffer or bytes. *)
Lemma turn_backlog c c' wid q b :
  s_write_queue (c_s c) = wid :: q → NoDup (wid :: q) → c_wbufs c !! wid = Some b → wbuf_ok b →
  0 < s_pkt_capacity (c_s c) < 2 ^ 15 →
  c_wbufs c' = <[wid := b <| wb_bytes_inflight ::= λ x, x + turn_len (c_s c) b |>]> (c_wbufs c) →
  s_write_queue (c_s c') = (if turn_len (c_s c) b =? wbuf_left b then q else wid :: q) →
  (write_backlog c' < write_backlog c)%nat.
Proof.
  intros Hq [Hnin _]%NoDup_cons Hb Hok Hc Ew Eq. unfold write_backlog. rewrite Hq, Ew, Eq.
  destruct (turn_arith (c_s c) b Hok ltac:(lia)) as (_ & _ & A1 & A2 & A3).
  destruct (Z.eqb_spec (turn_len (c_s c) b) (wbuf_left b)); cbn [sum_list_with]; rewrite backlog_ne, Hb by done; [lia|].
  rewrite lookup_insert_eq. unfold wbuf_left, wb_len in *. cbn. lia.
Qed.

(** The whole loop. *)
Lemma packetize_loop fuel c pid p :
  building c pid p → (length (s_write_queue (c_s c)) < fuel)%nat →
  ∃ c' p', packetize fuel c = Some c' ∧ building c' pid p' ∧ packetized pid c p c' p' ∧
    (s_pkt_capacity (c_s c') = 0 ∨ s_write_queue (c_s c') = []) ∧
    (write_backlog c' <= write_backlog c)%nat ∧
    (0 < s_pkt_capacity (c_s c) → s_write_queue (c_s c) ≠ [] → (write_backlog c' < write_backlog c)%nat).
Proof.
  revert c p. induction fuel as [|fuel IH]; intros c p Hbd Hf; [lia|]. cbn [packetize].
  destruct (Z.ltb_spec 0 (s_pkt_capacity (c_s c))) as [Hpos|Hz].
  2: { exists c, p. pose proof (bd_capacity _ _ _ Hbd). split_and!; [done|done|apply packetized_refl|left; lia|lia|lia]. }
  destruct (s_write_queue (c_s c)) as [|wid q] eqn:Hq.
  { exists c, p. split_and!; [done|done|apply packetized_refl|by right|lia|done]. }
  destruct (packetize_turn c wid q pid p Hbd Hq Hpos) as (c1 & p1 & b & E & Hbd1 & Hp1 & Hb & Ec & Ew & Eq).
  rewrite E. cbn [mbind option_bind].
  pose proof (bd_nodup _ _ _ Hbd) as Hn. rewrite Hq in Hn. pose proof (bd_capacity _ _ _ Hbd).
  assert (wbuf_ok b) as Hok by (destruct (bd_wbufs _ _ _ Hbd wid ltac:(rewrite Hq; left)) as (? & ? & ?); congruence).
  pose proof (turn_backlog c c1 wid q b Hq Hn Hb Hok ltac:(lia) Ew Eq) as Hlt.
  destruct (turn_arith (c_s c) b Hok ltac:(lia)) as (_ & _ & A1 & A2 & A3).
  destruct (Z.eqb_spec (turn_len (c_s c) b) (wbuf_left b)) as [El|El].
  - destruct (IH c1 p1 Hbd1) as (c' & p' & E' & Hbd' & Hp' & Hd & Hle & _).
    { rewrite Eq. cbn [length] in Hf. lia. }
    exists c', p'. split_and!; [done|done|by apply (packetized_trans pid c p c1 p1)|done|lia|lia].
  - (* the packet is full *)
    assert (s_pkt_capacity (c_s c1) = 0) as Ez by lia.
    exists c1, p1. split_and!; [|done|done|by left|lia|lia].
    destruct fuel; cbn [packetize]; rewrite Ez; done.
Qed.

(** C16: packetization is transparent and terminates. The loop of send_new_packet
    ends, with the packet full or the write queue empty; the bytes of the packet
    under construction followed by those left in the write queue are the same
    bytes, in the same order, as before; and what the packet gained in size it lost
    in capacity. *)
Theorem packetize_transparent c pid p data :
  building c pid p → packet_data c p = Some data →
  ∃ c' p' data', packetize (S (length (s_write_queue (c_s c)))) c = Some c' ∧
    c_packets c' !! pid = Some p' ∧ packet_data c' p' = Some data' ∧
    data' ++ unsent c' = data ++ unsent c ∧
    p_size p' + s_pkt_capacity (c_s c') = p_size p + s_pkt_capacity (c_s c) ∧
    (s_pkt_capacity (c_s c') = 0 ∨ s_write_queue (c_s c') = []) ∧
    erase (c_s c') = erase (c_s c).
Proof.
  intros Hbd Hd. destruct (packetize_loop (S (length (s_write_queue (c_s c)))) c pid p Hbd ltac:(lia))
    as (c' & p' & E & Hbd' & [D S1 _ S2 _ _ _ _ _ _ _] & Hend & _).
  destruct (D _ Hd) as (data' & Hd' & Ed). exists c', p', data'.
  split_and!; try done. apply Hbd'.
Qed.
End Packetize.

(** Two buffers that together overflow a packet with 8 bytes left. *)
Section Example.
Definition example_wbufs : gmap wbuf_id wbuf :=
  {[ 1%positive := mk_wbuf [1; 2; 3; 4; 5] 0 2 9 false; 2%positive := mk_wbuf [6; 7; 8; 9; 10; 11; 12] 0 0 9 false ]}.
Definition example_sender : ctx :=
  mk_ctx (stream_zero <| s_pkt := Some 7%positive |> <| s_pkt_capacity := 8 |> <| s_write_queue := [1; 2]%positive |>)
    {[ 7%positive := new_packet 0 ]} example_wbufs ∅ 10 (mk_io 0 [] (mk_counters 0 0 0 0) 0 0) 1
    (mk_world 1 false false [] [] ∅ ∅ ∅ ∅ ∅ ∅ ∅).
End Example.

Lemma example_building : building example_sender 7 (new_packet 0).
Proof.
  split; [vm_compute; reflexivity|vm_compute; reflexivity|..].
  1-5: vm_compute; intuition congruence.
  - vm_compute. reflexivity.
  - intros _. vm_compute. reflexivity.
  - change (NoDup [1; 2]%positive). apply (bool_decide_unpack _). vm_compute. exact I.
  - intros wid Hw. change (wid ∈ [1; 2]%positive) in Hw.
    assert (wid = 1 ∨ wid = 2)%positive as [-> | ->] by set_solver; eexists; (split; [vm_compute; reflexivity|]); vm_compute; intuition congruence.
Qed.

Example packetize_transparent_witness :
  ∃ c' p', packetize 3 example_sender = Some c' ∧
    c_packets c' !! 7%positive = Some p' ∧
    ∃ data', packet_data c' p' = Some data' ∧ data' ++ unsent c' = [3; 4; 5; 6; 7; 8; 9; 10; 11; 12].
Proof.
  destruct (packetize_transparent example_sender 7 (new_packet 0) [] example_building eq_refl) as (c' & p' & data' & E & Hp & Hd & Hu & _).
  exists c', p'. split; [exact E|]. split; [exact Hp|]. exists data'. split; [exact Hd|].
  rewrite Hu. vm_compute. reflexivity.
Defined.
