(* ===== verification/Sender.v ===== *)
(** * The sending side keeps its books (src/udx.c: send_packets and what it calls)

    Every packet of the outgoing buffer is in exactly one of the two queues:
    in flight, or lost and waiting for retransmission.  [sender_ok] is that invariant;
    [send_packets] keeps it, fails none of its assertions and ends. *)

From S2P Require Import Prelude SeqNum Endian Wire WinFilter Stream Rtt Mtu Rate Float64 Bbr Ctx Send Packetize.

Section Sender.
Context `{Env}.

(** ** The invariant *)

Definition packet_ok (c : ctx) (p : packet) : Prop :=
  20 <= p_size p <= 1472 ∧ 1 <= p_ref_count p <= 2 ∧ (p_lost p = true → p_ref_count p = 1) ∧
  0 < p_transmits p <= 255 ∧ is_Some (packet_data c p).

Definition packet_size (c : ctx) (pid : packet_id) : Z :=
  match c_packets c !! pid with Some p => p_size p | None => 0 end.

Definition bytes_of (c : ctx) (l : list packet_id) : Z := foldr (λ pid n, packet_size c pid + n) 0 l.

(** Packets sent and not acknowledged cumulatively. *)
Definition window (s : stream) : Z := u32 (s_seq s - s_remote_acked s).

(** A packet of the outgoing buffer with the given mark. *)
Definition marked (c : ctx) (out : gmap Z packet_id) (b : bool) (pid : packet_id) : Prop :=
  ∃ p, c_packets c !! pid = Some p ∧ out !! p_seq p = Some pid ∧ p_lost p = b.

Record queues_ok (c : ctx) (out : gmap Z packet_id) : Prop := {
  qo_out : s_outgoing (c_s c) = Some out;
  qo_packets : ∀ q pid, out !! q = Some pid →
    ∃ p, c_packets c !! pid = Some p ∧ p_seq p = q ∧ packet_ok c p;
  qo_window : ∀ q pid, out !! q = Some pid → is_u32 q ∧ u32 (q - s_remote_acked (c_s c)) < window (c_s c);
  qo_inflight : ∀ pid, pid ∈ s_inflight_queue (c_s c) ↔ marked c out false pid;
  qo_retransmit : ∀ pid, pid ∈ s_retransmit_queue (c_s c) ↔ marked c out true pid;
  qo_nodup : NoDup (s_inflight_queue (c_s c)) ∧ NoDup (s_retransmit_queue (c_s c));
  qo_bytes : s_inflight (c_s c) = u64 (bytes_of c (s_inflight_queue (c_s c))) }.

Lemma window_range s : 0 <= window s < 2 ^ 32.
Proof. unfold window. pose proof (u32_range (s_seq s - s_remote_acked s)). unfold is_u32 in *. lia. Qed.

(** The two queues hold no more packets than the window. *)
Lemma queues_length c out :
  queues_ok c out →
  Z.of_nat (length (s_inflight_queue (c_s c)) + length (s_retransmit_queue (c_s c))) <= window (c_s c).
Proof.
  intros [Ho Hp Hw Hi Hr [Ni Nr] _]. rewrite <- length_app.
  set (l := s_inflight_queue (c_s c) ++ s_retransmit_queue (c_s c)).
  assert (NoDup l) as Hn.
  { apply NoDup_app. split_and!; [done| |done]. intros pid (p & E1 & _ & E2)%Hi (p' & E1' & _ & E2')%Hr. congruence. }
  assert (length l <= length (map_to_list out).*2)%nat as H1.
  { apply submseteq_length, NoDup_submseteq; [done|]. intros pid Hin.
    assert (∃ q, out !! q = Some pid) as (q & Hq).
    { apply elem_of_app in Hin as [(p & _ & E & _)%Hi|(p & _ & E & _)%Hr]; by eexists. }
    apply list_elem_of_fmap. exists (q, pid). split; [done|]. by apply elem_of_map_to_list. }
  assert (length (map_to_list out).*2 <= Z.to_nat (window (c_s c)))%nat as H2.
  { replace (Z.to_nat (window (c_s c)))
      with (length ((λ d, u32 (s_remote_acked (c_s c) + d)) <$> seqZ 0 (window (c_s c)))) by by rewrite length_fmap, length_seqZ.
    rewrite length_fmap, <- (length_fmap fst (map_to_list out)). apply submseteq_length, NoDup_submseteq; [apply NoDup_fst_map_to_list|].
    intros q ([q' pid] & -> & Hin)%list_elem_of_fmap. apply elem_of_map_to_list in Hin.
    destruct (Hw _ _ Hin) as [Hu Hd]. cbn. apply list_elem_of_fmap.
    exists (u32 (q' - s_remote_acked (c_s c))). split.
    - rewrite u32_add_r. symmetry. replace (_ + _) with q' by lia. by apply u32_id.
    - apply elem_of_seqZ. pose proof (u32_range (q' - s_remote_acked (c_s c))). unfold is_u32 in *. lia. }
  pose proof (window_range (c_s c)). lia.
Qed.

Lemma qlen_small {A} (l : list A) : Z.of_nat (length l) < 2 ^ 32 → qlen l = Z.of_nat (length l).
Proof. intros. apply u32_id. unfold is_u32. lia. Qed.

(** ** One transmission *)

(** The stream but for what handing a packet to libuv changes. *)
Definition erase_sent (s : stream) : stream :=
  s <| s_rate := s_rate stream_zero |> <| s_retransmit_queue := [] |> <| s_inflight_queue := [] |>
    <| s_inflight := 0 |> <| s_stats := s_stats stream_zero |> <| s_tb_available := 0 |>
    <| s_refill_pacing_timer := None |>.

Record sent (c : ctx) (pid : packet_id) (p : packet) (c' : ctx) (p' : packet) : Prop := {
  sn_packets : c_packets c' = <[pid := p']> (c_packets c);
  sn_rest : (c_wbufs c', c_next c', now c', c_self c') = (c_wbufs c, c_next c, now c, c_self c);
  sn_stream : erase_sent (c_s c') = erase_sent (c_s c);
  sn_inflight : s_inflight_queue (c_s c') = s_inflight_queue (c_s c) ++ [pid];
  sn_retransmit : s_retransmit_queue (c_s c') =
    if p_lost p then filter (.≠ pid) (s_retransmit_queue (c_s c)) else s_retransmit_queue (c_s c);
  sn_bytes : s_inflight (c_s c') = u64 (s_inflight (c_s c) + p_size p);
  sn_packet : (p_seq p', p_size p', p_chunks p', p_lost p') = (p_seq p, p_size p, p_chunks p, false);
  sn_refs : 1 <= p_ref_count p' <= 2;
  sn_transmits : 0 < p_transmits p' <= 255 }.

Lemma transmit_ok c pid p :
  c_packets c !! pid = Some p → p_ref_count p = 1 → is_Some (packet_data c p) →
  ∃ c' r, transmit c pid p = Some c' ∧ 1 <= r <= 2 ∧
    c_packets c' = <[pid := p <| p_ref_count := r |>]> (c_packets c) ∧
    (c_s c', c_wbufs c', c_next c', now c', c_self c', c_world c') =
    (c_s c, c_wbufs c, c_next c, now c, c_self c, c_world c).
Proof.
  intros Hp Hr [d Hd]. unfold transmit, packet_bytes. unfold packet_data in Hd. rewrite Hd. cbn [mbind option_bind].
  unfold uv_udp_try_send. set (r := env_try_send _ _ _). cbv zeta.
  destruct (r =? UV_EAGAIN).
  - rewrite Hr. change (u8 (1 + 1)) with 2. cbn [Z.eqb]. unfold uv_udp_send.
    set (e := env_send _ _ _). clearbody e r. change (p_ref_count (p <| p_ref_count := 2 |>) =? 2) with true. cbv iota.
    destruct (truthy e).
    + unfold deref_packet. cbn [c_packets upd_field]. rewrite lookup_insert_eq. cbn [mbind option_bind].
      change (u8 (p_ref_count (p <| p_ref_count := 2 |>) - 1)) with 1. cbn [Z.eqb].
      eexists _, 1. split; [reflexivity|]. split; [lia|]. split; [|done].
      cbn [c_packets upd_field]. by rewrite insert_insert_eq.
    + eexists _, 2. split; [reflexivity|]. split; [lia|]. done.
  - eexists _, 1. split; [reflexivity|]. split; [lia|]. split; [|done].
    cbn [c_packets upd_field]. rewrite <- Hr. symmetry. apply insert_id. rewrite Hp. f_equal. by destruct p.
Qed.

Lemma count_sent_spec c n :
  (c_packets (count_sent c n), c_wbufs (count_sent c n), c_next (count_sent c n), now (count_sent c n),
   c_self (count_sent c n)) = (c_packets c, c_wbufs c, c_next c, now c, c_self c) ∧
  ∃ k, c_s (count_sent c n) = c_s c <| s_stats := k |>.
Proof. split; [done|]. eexists. reflexivity. Qed.

Lemma drop_decision_now i p : io_now (drop_decision i p).1 = io_now i.
Proof. unfold drop_decision. by destruct (has _ UDX_DEBUG_FORCE_DROP_DATA). Qed.

(** What the bookkeeping of a transmission keeps of a packet. *)
Definition packet_core (p : packet) :=
  (p_seq p, p_size p, p_chunks p, p_lost p, p_ref_count p, p_transmits p).

Lemma rate_pkt_sent_core n s p :
  packet_core (udx__rate_pkt_sent n s p).2 = packet_core p ∧
  ∃ r, (udx__rate_pkt_sent n s p).1 = s <| s_rate := r |>.
Proof.
  unfold udx__rate_pkt_sent. split; [done|]. cbn [fst].
  destruct (_ =? _); [by eexists|]. exists (s_rate s). by destruct s.
Qed.

Lemma check_app_limited_ok s :
  mtu_in_range (s_mtu s) → ∃ r, udx__rate_check_app_limited s = Some (s <| s_rate := r |>).
Proof.
  intros Hm. unfold udx__rate_check_app_limited. rewrite (proj1 (max_payload_spec _ Hm)). cbn [mbind option_bind].
  destruct (_ && _); [by eexists|]. exists (s_rate s). by destruct s.
Qed.

Lemma sent_finish c pid p c1 p1 c2 p2 :
  sent c pid p c1 p1 → c_packets c2 = c_packets c1 → p2 = p1 →
  (c_wbufs c2, c_next c2, now c2, c_self c2) = (c_wbufs c1, c_next c1, now c1, c_self c1) →
  (∃ k t f, c_s c2 = c_s c1 <| s_stats := k |> <| s_tb_available := t |> <| s_refill_pacing_timer := f |>) →
  sent c pid p c2 p2.
Proof.
  intros [S1 S2 S3 S4 S5 S6 S7 S8 S9] E1 -> E2 (k & t & f & E3).
  split; rewrite ?E1, ?E2, ?E3; done.
Qed.

Lemma send_packet_ok c pid p is_retransmit :
  c_packets c !! pid = Some p → is_Some (packet_data c p) → p_ref_count p = 1 → 0 <= p_transmits p <= 255 →
  (p_lost p = true → pid ∈ s_retransmit_queue (c_s c)) →
  is_Some (s_socket (c_s c)) → mtu_in_range (s_mtu (c_s c)) →
  ∃ c' p', _send_packet c pid is_retransmit = Some c' ∧ sent c pid p c' p'.
Proof.
  intros Hp Hd Hr Ht Hl [sk Hsk] Hm. unfold _send_packet.
  destruct (check_app_limited_ok _ Hm) as (r0 & ->). rewrite Hp. cbn [mbind option_bind]. cbv zeta.
  set (p0 := if is_retransmit then _ else _).
  assert (H0 : packet_core p0 = packet_core (p <| p_transmits := p_transmits p0 |>) ∧ 0 < p_transmits p0 <= 255).
  { unfold p0. destruct (Z.ltb_spec (p_transmits p) 255), is_retransmit; cbn; (split; [done|lia]). }
  clearbody p0. destruct H0 as [H0 Ht0].
  destruct (rate_pkt_sent_core (now c) (c_s c <| s_rate := r0 |>) (p0 <| p_time_sent := now c |>)) as [H1 [r1 Es]].
  destruct (udx__rate_pkt_sent _ _ _) as [s1 p1]. cbn [fst snd] in H1, Es. subst s1.
  change (packet_core (p0 <| p_time_sent := now c |>)) with (packet_core p0) in H1. rewrite H0 in H1. clear H0.
  unfold packet_core in H1. cbn in H1. injection H1 as P1 P2 P3 P4 P5 P6.
  set (q := if p_lost p then filter (.≠ pid) (s_retransmit_queue (c_s c)) else s_retransmit_queue (c_s c)).
  assert (Eq : ∃ p2, (if p_lost p1
      then q ← queue_unlink (s_retransmit_queue (c_s c <| s_rate := r1 |>)) pid;
           Some (c_s c <| s_rate := r1 |> <| s_retransmit_queue := q |>, p1 <| p_lost := false |>)
      else Some (c_s c <| s_rate := r1 |>, p1)) = Some (c_s c <| s_rate := r1 |> <| s_retransmit_queue := q |>, p2) ∧
    (p_seq p2, p_size p2, p_chunks p2, p_lost p2, p_ref_count p2, p_transmits p2) =
    (p_seq p, p_size p, p_chunks p, false, 1, p_transmits p0)).
  { rewrite P4. unfold q. destruct (p_lost p) eqn:El.
    - exists (p1 <| p_lost := false |>). cbn [s_retransmit_queue upd_field]. unfold queue_unlink.
      rewrite decide_True by auto. cbn [mbind option_bind]. split; [done|]. cbn. congruence.
    - exists p1. split; [do 2 f_equal; by destruct (c_s c)|]. congruence. }
  change (c_s c <| s_rate := r0 |> <| s_rate := r1 |>) with (c_s c <| s_rate := r1 |>).
  destruct Eq as (p2 & -> & E2). cbn [mbind option_bind]. injection E2 as Q1 Q2 Q3 Q4 Q5 Q6.
  set (c2 := c <| c_s := _ |> <| c_packets ::= _ |>).
  pose proof (drop_decision_now (c_io c2) p2) as Hnow. destruct (drop_decision (c_io c2) p2) as [i drop]. cbn [fst] in Hnow.
  assert (S2 : sent c pid p (c2 <| c_io := i |>) p2).
  { split; try done; rewrite ?Q5, ?Q6; try lia; cbn; rewrite ?Q2; try done.
    - unfold now. cbn. rewrite Hnow. done.
    - congruence. }
  assert (S3 : ∃ c3 p3, (if drop then Some (c2 <| c_io := i |>) else transmit (c2 <| c_io := i |>) pid p2) = Some c3 ∧
    sent c pid p c3 p3 ∧ c_world c3 = c_world c ∧ s_socket (c_s c3) = Some sk).
  { destruct drop; [by exists (c2 <| c_io := i |>), p2|].
    destruct (transmit_ok (c2 <| c_io := i |>) pid p2) as (c3 & r & E & Hr3 & E3 & E4).
    - apply lookup_insert_eq.
    - by rewrite Q5.
    - unfold packet_data in *. by rewrite Q3.
    - exists c3, (p2 <| p_ref_count := r |>). split; [exact E|].
      injection E4 as R1 R2 R3 R4 R5 R6. split; [|split; [done|by rewrite R1]].
      destruct S2 as [T1 T2 T3 T4 T5 T6 T7 T8 T9]. split; rewrite ?R1; try done.
      + rewrite E3. rewrite T1. by rewrite insert_insert_eq.
      + congruence. }
  destruct S3 as (c3 & p3 & -> & S3 & Hw & Hs3). cbn [mbind option_bind]. rewrite Hs3. cbn [mbind option_bind].
  eexists _, p3. split; [reflexivity|]. apply (sent_finish c pid p c3 p3); [done|done|done|done|].
  destruct (count_sent_spec c3 (p_size p2)) as [_ (k & Ek)]. cbn [c_s upd_field]. rewrite Ek.
  set (tb := if _ <? p_size p2 then _ else _). clearbody tb.
  destruct (tb =? 0); [by eexists _, _, _|]. by exists k, tb, (s_refill_pacing_timer (c_s c3)).
Qed.

(** ** Packets that change queue *)

Lemma bytes_of_cons c x l : bytes_of c (x :: l) = packet_size c x + bytes_of c l.
Proof. done. Qed.
Lemma bytes_of_app c l1 l2 : bytes_of c (l1 ++ l2) = bytes_of c l1 + bytes_of c l2.
Proof. induction l1 as [|x l1 IH]; [done|]. cbn [app]. rewrite !bytes_of_cons, IH. lia. Qed.

Lemma bytes_of_remove c l pid :
  NoDup l → pid ∈ l → bytes_of c (filter (.≠ pid) l) = bytes_of c l - packet_size c pid.
Proof.
  induction 1 as [|x l Hx _ IH]; [by intros ?%elem_of_nil|]. intros [->|Hin]%elem_of_cons.
  - rewrite filter_cons_False by (intros []; done). rewrite bytes_of_cons.
    assert (filter (.≠ x) l = l) as ->; [|lia].
    clear -Hx. induction l as [|y l IH]; [done|]. apply not_elem_of_cons in Hx as [? ?].
    rewrite filter_cons_True by done. by rewrite IH.
  - rewrite filter_cons_True by (intros ->; done). rewrite !bytes_of_cons, IH by done. lia.
Qed.

Lemma bytes_of_ext c c' l :
  (∀ pid, pid ∈ l → packet_size c' pid = packet_size c pid) → bytes_of c' l = bytes_of c l.
Proof.
  induction l as [|y l IH]; [done|]. intros E. rewrite !bytes_of_cons, E by left.
  rewrite IH; [done|]. intros z Hz. apply E. by right.
Qed.
(** Packets that were not in the list do not count. *)
Lemma bytes_of_other c c' l pid :
  pid ∉ l → (∀ y, y ≠ pid → c_packets c' !! y = c_packets c !! y) → bytes_of c' l = bytes_of c l.
Proof. intros Hn E. apply bytes_of_ext. intros y Hy. unfold packet_size. rewrite E; [done|by intros ->]. Qed.

Lemma u64_add_l x y : u64 (u64 x + y) = u64 (x + y).
Proof. apply Z.add_mod_idemp_l. lia. Qed.

(** [c'] differs from [c] in the packet [pid], which keeps its number, its size
    and its bytes. *)
Record repacked (c : ctx) (pid : packet_id) (p : packet) (c' : ctx) (p' : packet) : Prop := {
  rp_before : c_packets c !! pid = Some p;
  rp_packets : c_packets c' = <[pid := p']> (c_packets c);
  rp_bufs : ∀ ks, chunks_bytes (c_wbufs c') ks = chunks_bytes (c_wbufs c) ks;
  rp_seq : p_seq p' = p_seq p;
  rp_size : p_size p' = p_size p;
  rp_ok : packet_ok c p → packet_ok c' p';
  rp_fixed : (s_outgoing (c_s c'), s_remote_acked (c_s c'), s_seq (c_s c')) =
             (s_outgoing (c_s c), s_remote_acked (c_s c), s_seq (c_s c)) }.

Lemma packet_ok_bufs c c' p :
  (∀ ks, chunks_bytes (c_wbufs c') ks = chunks_bytes (c_wbufs c) ks) → packet_ok c p → packet_ok c' p.
Proof. unfold packet_ok, packet_data. intros ->. done. Qed.

Lemma repacked_sizes c pid p c' p' x : repacked c pid p c' p' → packet_size c' x = packet_size c x.
Proof.
  intros [E1 E2 _ _ E3 _ _]. unfold packet_size. rewrite E2.
  destruct (decide (x = pid)) as [->|]; [by rewrite lookup_insert_eq, E1|by rewrite lookup_insert_ne].
Qed.

Lemma repacked_marked c pid p c' p' out b x :
  repacked c pid p c' p' → out !! p_seq p = Some pid →
  marked c' out b x ↔ if decide (x = pid) then p_lost p' = b else marked c out b x.
Proof.
  intros [E1 E2 _ E3 _ _ _] Ho. unfold marked. rewrite E2. case_decide as Hx.
  - subst x. rewrite lookup_insert_eq. split; [by intros (? & [= <-] & _ & ?)|].
    intros E. exists p'. by rewrite E3.
  - by rewrite lookup_insert_ne.
Qed.

(** A packet that goes from one state to another: from the lists without it
    to the lists with it. *)
Lemma repacked_queues c pid p c' p' out :
  queues_ok c out → repacked c pid p c' p' → out !! p_seq p = Some pid →
  s_inflight_queue (c_s c') = filter (.≠ pid) (s_inflight_queue (c_s c)) ++ (if p_lost p' then [] else [pid]) →
  s_retransmit_queue (c_s c') = filter (.≠ pid) (s_retransmit_queue (c_s c)) ++ (if p_lost p' then [pid] else []) →
  s_inflight (c_s c') = u64 (bytes_of c (s_inflight_queue (c_s c')))  →
  queues_ok c' out.
Proof.
  intros [Q1 Q2 Q3 Q4 Q5 [Q6 Q6'] Q7] Hr Ho Ei Er Eb. pose proof Hr as [E1 E2 E3 E4 E5 E6 E7]. injection E7 as F1 F2 F3.
  assert (Hm : ∀ (b : bool) (x : packet_id) (l l' : list packet_id), l' = filter (.≠ pid) l ++ (if p_lost p' then (if b then [pid] else []) else (if b then [] else [pid])) →
    (∀ x, x ∈ l ↔ marked c out b x) → x ∈ l' ↔ marked c' out b x).
  { intros b x l l' -> Hl. rewrite (repacked_marked _ _ _ _ _ _ b x Hr Ho), elem_of_app, list_elem_of_filter, Hl.
    case_decide as Hx; [subst x|].
    - destruct b, (p_lost p'); rewrite ?list_elem_of_singleton, ?elem_of_nil; intuition congruence.
    - destruct b, (p_lost p'); rewrite ?list_elem_of_singleton, ?elem_of_nil; intuition congruence. }
  assert (Hn : ∀ l l' : list packet_id, NoDup l → (l' = [] ∨ l' = [pid]) → NoDup (filter (.≠ pid) l ++ l')).
  { intros l l' Hl Hl'. apply NoDup_app. split_and!; [by apply NoDup_filter| |destruct Hl' as [->| ->]; [constructor|apply NoDup_singleton]].
    intros x [Hx _]%list_elem_of_filter Hin. destruct Hl' as [->| ->]; [by apply elem_of_nil in Hin|].
    by apply list_elem_of_singleton in Hin. }
  split; rewrite ?F1; try done.
  - intros q x Hx. destruct (Q2 q x Hx) as (px & P1 & P2 & P3). rewrite E2.
    destruct (decide (x = pid)) as [->|Hne].
    + rewrite lookup_insert_eq. exists p'. assert (px = p) by congruence. subst px. split_and!; [done|congruence|by apply E6].
    + rewrite lookup_insert_ne by done. exists px. split_and!; [done|done|]. by apply (packet_ok_bufs c).
  - unfold window in *. rewrite F2, F3. exact Q3.
  - intros x. apply (Hm false x (s_inflight_queue (c_s c))); [|done]. rewrite Ei. by destruct (p_lost p').
  - intros x. apply (Hm true x (s_retransmit_queue (c_s c))); [|done]. rewrite Er. by destruct (p_lost p').
  - rewrite Ei, Er. split; apply Hn; try done; destruct (p_lost p'); auto.
  - rewrite Eb. f_equal. symmetry. apply bytes_of_ext. intros x _. by apply (repacked_sizes _ pid p _ p').
Qed.

Lemma filter_absent (pid : packet_id) (l : list packet_id) : pid ∉ l → filter (.≠ pid) l = l.
Proof.
  induction l as [|y l IH]; [done|]. intros [? ?]%not_elem_of_cons.
  rewrite filter_cons_True by done. by rewrite IH.
Qed.

Lemma length_filter_in (l : list packet_id) pid : pid ∈ l → (length (filter (.≠ pid) l) < length l)%nat.
Proof. intros Hin. apply length_filter_lt with pid; [done|]. by intros []. Qed.

Lemma marked_false_true c out pid : marked c out false pid → marked c out true pid → False.
Proof. intros (p & E & _ & F) (p' & E' & _ & F'). congruence. Qed.

(** [c] is [c0] with the packet [pid] taken off the inflight queue, if it was there. *)
Record unqueued (c0 : ctx) (pid : packet_id) (c : ctx) : Prop := {
  uq_rest : (c_packets c, c_wbufs c, s_outgoing (c_s c), s_remote_acked (c_s c), s_seq (c_s c),
             s_retransmit_queue (c_s c)) =
            (c_packets c0, c_wbufs c0, s_outgoing (c_s c0), s_remote_acked (c_s c0), s_seq (c_s c0),
             s_retransmit_queue (c_s c0));
  uq_queue : s_inflight_queue (c_s c) = filter (.≠ pid) (s_inflight_queue (c_s c0));
  uq_bytes : s_inflight (c_s c) = u64 (bytes_of c0 (s_inflight_queue (c_s c))) }.

(** A packet that waited in the retransmit queue, or was in flight, is sent again. *)
Lemma queues_resent c0 c out pid p c' p' :
  queues_ok c0 out → unqueued c0 pid c → out !! p_seq p = Some pid → c_packets c0 !! pid = Some p →
  sent c pid p c' p' → queues_ok c' out.
Proof.
  intros Hq [U1 U2 U3] Ho Hp [S1 S2 S3 S4 S5 S6 S7 S8 S9]. injection S2 as W1 W2 W3 W4. injection S7 as P1 P2 P3 P4.
  injection U1 as V1 V2 V3 V4 V5 V6. pose proof Hq as [_ _ _ _ Q5 _ _].
  apply (repacked_queues c0 pid p c' p'); try done; rewrite ?P4, ?app_nil_r.
  - split; try done; [by rewrite S1, V1|by rewrite W1, V2| |].
    + unfold packet_ok, packet_data. rewrite W1, V2, P2, P3, P4. intros (? & ? & ? & ? & ?). split_and!; done || lia.
    + pose proof (f_equal s_outgoing S3). pose proof (f_equal s_remote_acked S3). pose proof (f_equal s_seq S3). cbn in *. congruence.
  - by rewrite S4, U2.
  - rewrite S5, V6. destruct (p_lost p) eqn:El; [done|]. symmetry. apply filter_absent.
    intros (p1 & Hp1 & _ & Hl1)%Q5. congruence.
  - rewrite S6, U3, u64_add_l, S4, bytes_of_app, bytes_of_cons. f_equal.
    assert (packet_size c0 pid = p_size p) as -> by (unfold packet_size; by rewrite Hp). cbn. lia.
Qed.

(** ** Conditions for sending *)

(** What bbr_on_transmit_start reads, beside the application limit. *)
Definition start_view (s : stream) :=
  (s_bbr s, s_rtt s, s_cwnd s, mtu (s_mtu s), sa_fam (s_remote_addr s), s_pacing_bytes_per_ms s).

(** The estimates of the congestion controller are numbers that its integers can hold. *)
Definition start_ok (c : ctx) : Prop :=
  ∀ s, start_view s = start_view (c_s c) →
    ∃ s', bbr_on_transmit_start s (now c) = Some s' ∧ 0 < s_cwnd s' < 2 ^ 32 ∧ 0 < s_pacing_bytes_per_ms s'.

Record can_send (c : ctx) : Prop := {
  cs_cwnd : 0 < s_cwnd (c_s c) < 2 ^ 32;
  cs_pacing : 0 < s_pacing_bytes_per_ms (c_s c);
  cs_mtu : mtu_in_range (s_mtu (c_s c));
  cs_rto : 0 < rto (s_rtt (c_s c));
  cs_socket : is_Some (s_socket (c_s c));
  cs_alive : has (s_status (c_s c)) UDX_STREAM_DEAD = false;
  cs_rwnd : is_u32 (send_rwnd (s_wnd (c_s c)));
  cs_addr : s_remote_addr_len (c_s c) ≠ 0 ∧ sa_fam (s_remote_addr (c_s c)) ≠ AF_UNSPEC;
  cs_seq : is_u32 (s_seq (c_s c));
  cs_start : s_inflight_queue (c_s c) ≠ [] ∨ start_ok c }.

Lemma transmit_start_touch s n s' : bbr_on_transmit_start s n = Some s' → bbr_touch s s'.
Proof.
  unfold bbr_on_transmit_start. destruct (truthy _); [|intros [= <-]; apply bbr_touch_refl].
  set (s1 := s <| s_bbr ::= _ |>). assert (bbr_touch s s1) as H1 by (unfold s1; touch s). cbv zeta.
  destruct (b_state (s_bbr s1) =? UDX_BBR_STATE_PROBE_BW).
  { intros [H2 _]%bbr_set_pacing_rate_calm. by apply (bbr_touch_trans _ s1). }
  destruct (_ =? _); [|by intros [= <-]]. intros [= <-]. apply (bbr_touch_trans _ s1); [done|].
  unfold bbr_check_probe_rtt_done. destruct (negb _); [apply bbr_touch_refl|].
  eapply bbr_touch_trans; [|apply bbr_reset_mode_touch]. touch s1.
Qed.

(** Outside PROBE_BW nothing has to be assumed of the estimates. *)
Lemma start_ok_simple c :
  b_state (s_bbr (c_s c)) ≠ UDX_BBR_STATE_PROBE_BW → 0 < s_cwnd (c_s c) < 2 ^ 32 →
  0 <= b_prior_cwnd (s_bbr (c_s c)) < 2 ^ 32 → 0 < s_pacing_bytes_per_ms (c_s c) → start_ok c.
Proof.
  intros Hb Hc Hp Hpa s Hv. unfold start_view in Hv. injection Hv as V1 V2 V3 V4 V5 V6.
  unfold bbr_on_transmit_start. destruct (truthy _); [|exists s; split; [done|]; by rewrite V3, V6].
  set (s1 := s <| s_bbr ::= _ |>). cbv zeta.
  assert (b_state (s_bbr s1) = b_state (s_bbr (c_s c))) as Eb by (unfold s1; cbn; by rewrite V1).
  assert (s_cwnd s1 = s_cwnd (c_s c)) as E1 by (unfold s1; cbn; done).
  assert (s_pacing_bytes_per_ms s1 = s_pacing_bytes_per_ms (c_s c)) as E2 by (unfold s1; cbn; done).
  assert (b_prior_cwnd (s_bbr s1) = b_prior_cwnd (s_bbr (c_s c))) as E3 by (unfold s1; cbn; by rewrite V1).
  clearbody s1. rewrite Eb. rewrite (proj2 (Z.eqb_neq _ _)) by done.
  destruct (_ =? _); [|exists s1; split; [done|]; by rewrite E1, E2].
  eexists. split; [reflexivity|]. unfold bbr_check_probe_rtt_done. destruct (negb _); [by rewrite E1, E2|].
  set (s2 := s1 <| s_bbr ::= _ |> <| s_cwnd := _ |>).
  assert (s_cwnd (bbr_reset_mode s2) = s_cwnd s2 ∧ s_pacing_bytes_per_ms (bbr_reset_mode s2) = s_pacing_bytes_per_ms s2)
    as [-> ->] by (unfold bbr_reset_mode; by destruct (negb _)).
  unfold s2. cbn -[max_uint32]. rewrite max_uint32_max, E1, E2, E3. lia.
Qed.

(** The packet under construction, which belongs to no queue. *)
Record current_ok (c : ctx) (out : gmap Z packet_id) (pid : packet_id) (p : packet) : Prop := {
  cu_building : building c pid p;
  cu_capacity : 0 < s_pkt_capacity (c_s c);
  cu_size : 20 <= p_size p ∧ p_size p + s_pkt_capacity (c_s c) <= 1472;
  cu_fresh : (p_ref_count p, p_lost p, p_transmits p) = (1, false, 0);
  cu_data : is_Some (packet_data c p);
  cu_remote : p_remote_addr_len p ≠ 0 → sa_fam (p_remote_addr p) ≠ AF_UNSPEC;
  cu_flags : Z.ldiff (s_pkt_header_flag (c_s c)) UDX_HEADER_DATA_OR_END = 0;
  cu_out : ∀ q, out !! q ≠ Some pid;
  cu_alloc : ∀ x, is_Some (c_packets c !! x) → (x < c_next c)%positive;
  cu_space : window (c_s c) + Z.of_nat (write_backlog c) < 2 ^ 31 }.

Definition sender_ok (c : ctx) : Prop :=
  can_send c ∧ ∃ out, queues_ok c out ∧ ∃ pid p, current_ok c out pid p.

(** The fields none of this depends on. *)
Definition core (s : stream) : stream :=
  s <| s_rate := s_rate stream_zero |> <| s_stats := s_stats stream_zero |> <| s_tb_available := 0 |>
    <| s_tb_last_refill_ms := 0 |> <| s_refill_pacing_timer := None |> <| s_next_rto_ts := 0 |>
    <| s_pending_timer := UDX_TIMER_NONE |> <| s_timer := None |> <| s_tlp := s_tlp stream_zero |>
    <| s_pending_packet_prepare := false |> <| s_ca_state := 0 |> <| s_high_seq := 0 |>
    <| s_rto_count := 0 |>.

Definition same_core (c c' : ctx) : Prop :=
  core (c_s c') = core (c_s c) ∧
  (c_packets c', c_wbufs c', c_next c', now c') = (c_packets c, c_wbufs c, c_next c, now c).

Lemma same_core_trans c1 c2 c3 : same_core c1 c2 → same_core c2 c3 → same_core c1 c3.
Proof. unfold same_core. intros [-> ->] [-> ->]. done. Qed.

Lemma same_core_stream c c' :
  same_core c c' → ∃ r k t l f n p i tl pp ca hs rc,
  c_s c' = c_s c <| s_rate := r |> <| s_stats := k |> <| s_tb_available := t |>
    <| s_tb_last_refill_ms := l |> <| s_refill_pacing_timer := f |> <| s_next_rto_ts := n |>
    <| s_pending_timer := p |> <| s_timer := i |> <| s_tlp := tl |>
    <| s_pending_packet_prepare := pp |> <| s_ca_state := ca |> <| s_high_seq := hs |>
    <| s_rto_count := rc |>.
Proof.
  intros [E _]. destruct (c_s c) as [], (c_s c') as []. unfold core in E. cbn in E. injection E.
  intros. subst. do 13 eexists. reflexivity.
Qed.

(** The context after an update of fields outside the core. *)
Ltac same_core_cases Hc :=
  destruct (same_core_stream _ _ Hc) as (? & ? & ? & ? & ? & ? & ? & ? & ? & ? & ? & ? & ? & ?Es);
  destruct Hc as [_ ?Er]; injection Er as ?Ep ?Ew ?En ?Et.

Lemma same_core_queues c c' out : same_core c c' → queues_ok c out → queues_ok c' out.
Proof.
  intros Hc [Q1 Q2 Q3 Q4 Q5 Q6 Q7]. same_core_cases Hc.
  assert (Hm : ∀ b y, marked c' out b y ↔ marked c out b y) by (intros; unfold marked; by rewrite Ep).
  split; unfold packet_ok, packet_data, window; rewrite ?Es, ?Ep, ?Ew; try done.
  - intros y. rewrite Hm. apply Q4.
  - intros y. rewrite Hm. apply Q5.
  - cbn. rewrite Q7. f_equal. symmetry. apply bytes_of_ext. intros y _. unfold packet_size. by rewrite Ep.
Qed.

Lemma same_core_can_send c c' : same_core c c' → can_send c → can_send c'.
Proof.
  intros Hc [C1 C2 C3 C4 C5 C6 C7 C8 Cs C9]. same_core_cases Hc.
  split; rewrite ?Es; try done. destruct C9 as [C9|C9]; [by left|right].
  unfold start_ok in *. rewrite Et, Es. exact C9.
Qed.

Lemma same_core_current c c' out pid p : same_core c c' → current_ok c out pid p → current_ok c' out pid p.
Proof.
  intros Hc [[B1 B2 B3 B4 B5 B6 B7 B8 B9 B10 B11] C2 C3 C4 C5 C6 C7 C8 C9 C10]. same_core_cases Hc.
  split; unfold packet_data, window, write_backlog in *; rewrite ?Es, ?Ep, ?Ew, ?En; try done.
  split; rewrite ?Es, ?Ep, ?Ew; done.
Qed.

Lemma same_core_ok c c' : same_core c c' → sender_ok c → sender_ok c'.
Proof.
  intros Hc (Hs & out & Hq & pid & p & Hp). split; [by apply (same_core_can_send c)|].
  exists out. split; [by apply (same_core_queues c)|]. exists pid, p. by apply (same_core_current c).
Qed.

Lemma pending_ok c t : sender_ok c → sender_ok (c <| c_s ::= λ s, s <| s_pending_timer := t |> |>).
Proof. by apply same_core_ok. Qed.

(** ** Timers after a transmission *)

(** A timer that will bring the sender back is pending. *)
Definition watched (s : stream) : Prop :=
  s_pending_timer s = UDX_TIMER_RTO ∨ s_pending_timer s = UDX_TIMER_RACK_REO ∨ s_pending_timer s = UDX_TIMER_TLP.

(** Packets in flight are watched. *)
Definition guarded (c : ctx) : Prop := s_inflight_queue (c_s c) ≠ [] → watched (c_s c).

Lemma guarded_view c c' :
  (s_inflight_queue (c_s c'), s_pending_timer (c_s c')) = (s_inflight_queue (c_s c), s_pending_timer (c_s c)) →
  guarded c → guarded c'.
Proof. unfold guarded, watched. by intros [= -> ->]. Qed.

Lemma timer_start_core c t ms : same_core c (stream_timer_start c t ms).
Proof. unfold stream_timer_start. by destruct (decide _). Qed.

Lemma arm_timers_ok c arm_tlp :
  s_inflight_queue (c_s c) ≠ [] → Z.of_nat (length (s_inflight_queue (c_s c))) < 2 ^ 32 →
  s_remote_acked (c_s c) ≠ s_seq (c_s c) → 0 < rto (s_rtt (c_s c)) →
  has (s_status (c_s c)) UDX_STREAM_DEAD = false →
  ∃ c', arm_stream_timers c arm_tlp = Some c' ∧ same_core c c' ∧ watched (c_s c').
Proof.
  intros Hi Hlen Hw Hr Ha. unfold arm_stream_timers.
  rewrite (qlen_small _ Hlen). destruct (s_inflight_queue (c_s c)) as [|x l] eqn:El; [done|]. cbn [length].
  rewrite (proj2 (Z.ltb_lt 0 (Z.of_nat _))) by lia. rewrite (proj2 (Z.eqb_neq _ _)) by done.
  rewrite (proj2 (Z.ltb_lt 0 (rto _))) by done. cbn [negb].
  assert (negb (s_status (c_s c) =? UDX_STREAM_CLOSED) = true) as ->.
  { apply negb_true_iff, Z.eqb_neq. intros E. rewrite E in Ha. done. }
  set (c1 := if decide _ then _ else c).
  assert (H1 : same_core c c1 ∧ watched (c_s c1)).
  { unfold c1. case_decide as Hd; [split; [apply timer_start_core|by left]|]. split; [done|].
    unfold watched. destruct (s_pending_timer (c_s c)); intuition. }
  clearbody c1. destruct H1 as [H1 H2]. eexists. split; [reflexivity|].
  destruct (_ && _ && _); [|done]. unfold schedule_loss_probe. destruct (_ || _ || _); [done|]. cbn [fst].
  split; [eapply same_core_trans; [exact H1|apply timer_start_core]|]. by right; right.
Qed.

(** ** Retransmission *)

Lemma queues_view c c' out :
  (s_outgoing (c_s c'), s_remote_acked (c_s c'), s_seq (c_s c'), s_inflight_queue (c_s c'),
   s_retransmit_queue (c_s c'), s_inflight (c_s c'), c_packets c', c_wbufs c') =
  (s_outgoing (c_s c), s_remote_acked (c_s c), s_seq (c_s c), s_inflight_queue (c_s c),
   s_retransmit_queue (c_s c), s_inflight (c_s c), c_packets c, c_wbufs c) →
  queues_ok c out → queues_ok c' out.
Proof.
  intros [= E1 E2 E3 E4 E5 E6 E7 E8] [Q1 Q2 Q3 Q4 Q5 Q6 Q7].
  assert (Hm : ∀ b y, marked c' out b y ↔ marked c out b y) by (intros; unfold marked; by rewrite E7).
  split; unfold packet_ok, packet_data, window; rewrite ?E1, ?E2, ?E3, ?E4, ?E5, ?E6, ?E7, ?E8; try done.
  - intros y. rewrite Hm. apply Q4.
  - intros y. rewrite Hm. apply Q5.
  - rewrite Q7. f_equal. symmetry. apply bytes_of_ext. intros y _. unfold packet_size. by rewrite E7.
Qed.

Lemma current_view c c' out out' pid p :
  (s_pkt (c_s c'), s_pkt_capacity (c_s c'), s_pkt_header_flag (c_s c'), s_write_queue (c_s c'),
   s_seq (c_s c'), s_remote_acked (c_s c'), c_wbufs c', c_next c') =
  (s_pkt (c_s c), s_pkt_capacity (c_s c), s_pkt_header_flag (c_s c), s_write_queue (c_s c),
   s_seq (c_s c), s_remote_acked (c_s c), c_wbufs c, c_next c) →
  c_packets c' !! pid = Some p → (∀ x, is_Some (c_packets c' !! x) → is_Some (c_packets c !! x)) →
  (∀ q, out' !! q ≠ Some pid) → current_ok c out pid p → current_ok c' out' pid p.
Proof.
  intros [= E1 E2 E3 E4 E5 E6 E7 E8] Hp Ha Ho [[B1 B2 B3 B4 B5 B6 B7 B8 B9 B10 B11] C2 C3 C4 C5 C6 C7 C8 C9 C10].
  split; unfold packet_data, window, write_backlog in *; rewrite ?E1, ?E2, ?E3, ?E4, ?E5, ?E6, ?E7, ?E8; try done; [|by auto].
  split; rewrite ?E1, ?E2, ?E3, ?E4, ?E7; done.
Qed.

(** The congestion controller's restart, when nothing was in flight. *)
Lemma start_step c0 c :
  start_ok c0 → start_view (c_s c) = start_view (c_s c0) → now c = now c0 →
  ∃ s', bbr_on_transmit_start (c_s c) (now c) = Some s' ∧ bbr_touch (c_s c) s' ∧
    0 < s_cwnd s' < 2 ^ 32 ∧ 0 < s_pacing_bytes_per_ms s'.
Proof.
  intros Hs Hv Hn. destruct (Hs (c_s c) Hv) as (s' & E & H1 & H2). rewrite <- Hn in E.
  exists s'. split; [done|]. split; [by apply (transmit_start_touch _ (now c))|done].
Qed.

(** The sender's conditions after a packet went out: [c1] is the context the
    packet was handed to libuv in. *)
Lemma restart_ok c c1 (was_empty : bool) :
  can_send c → was_empty = bool_decide (s_inflight_queue (c_s c) = []) →
  start_view (c_s c1) = start_view (c_s c) → now c1 = now c →
  s_inflight_queue (c_s c1) ≠ [] → is_u32 (s_seq (c_s c1)) →
  (s_mtu (c_s c1), s_rtt (c_s c1), s_socket (c_s c1), s_status (c_s c1), s_wnd (c_s c1), s_remote_addr (c_s c1),
   s_remote_addr_len (c_s c1)) =
  (s_mtu (c_s c), s_rtt (c_s c), s_socket (c_s c), s_status (c_s c), s_wnd (c_s c), s_remote_addr (c_s c),
   s_remote_addr_len (c_s c)) →
  ∃ s', (if was_empty then bbr_on_transmit_start (c_s c1) (now c1) else Some (c_s c1)) = Some s' ∧
    bbr_touch (c_s c1) s' ∧ can_send (c1 <| c_s := s' |>).
Proof.
  intros [C1 C2 C3 C4 C5 C6 C7 C8 Cs C9] -> Hv Hn Hi Hu [= F1 F2 F3 F4 F5 F6 F7].
  assert (∃ s', (if bool_decide (s_inflight_queue (c_s c) = []) then bbr_on_transmit_start (c_s c1) (now c1)
                 else Some (c_s c1)) = Some s' ∧ bbr_touch (c_s c1) s' ∧
             0 < s_cwnd s' < 2 ^ 32 ∧ 0 < s_pacing_bytes_per_ms s') as (s' & E & T & H1 & H2).
  { case_bool_decide as Hb.
    - apply (start_step c); [|done|done]. by destruct C9.
    - exists (c_s c1). split; [done|]. split; [apply bbr_touch_refl|].
      unfold start_view in Hv. injection Hv as _ _ V3 _ _ V6. by rewrite V3, V6. }
  exists s'. split; [done|]. split; [done|].
  split; cbn [c_s upd_field]; try done; rewrite T; cbn; rewrite ?F1, ?F2, ?F3, ?F4, ?F5, ?F6, ?F7; try done. by left.
Qed.

Lemma erase_sent_fields s s' :
  erase_sent s' = erase_sent s → ∃ r k t f q iq n,
  s' = s <| s_rate := r |> <| s_stats := k |> <| s_tb_available := t |> <| s_refill_pacing_timer := f |>
         <| s_retransmit_queue := q |> <| s_inflight_queue := iq |> <| s_inflight := n |>.
Proof.
  intros E. destruct s as [], s' as []. unfold erase_sent in E. cbn in E. injection E.
  intros. subst. do 7 eexists. reflexivity.
Qed.

Lemma queue_is_empty {A} (l : list A) : Z.of_nat (length l) < 2 ^ 32 → (qlen l =? 0) = bool_decide (l = []).
Proof. intros Hl. rewrite qlen_small by done. destruct l; [done|]. rewrite bool_decide_false by done. apply Z.eqb_neq. cbn [length]. lia. Qed.

Lemma packets_insert_some (m : gmap packet_id packet) pid (p p' : packet) x :
  m !! pid = Some p → is_Some (<[pid := p']> m !! x) → is_Some (m !! x).
Proof. intros Hp. destruct (decide (x = pid)) as [->|]; [by rewrite Hp|by rewrite lookup_insert_ne]. Qed.

(** [retransmit_packet] on a packet that is in no queue but perhaps the retransmit queue. *)
Lemma resend_ok c0 c out pid p pid0 p0 :
  queues_ok c0 out → unqueued c0 pid c → c_packets c0 !! pid = Some p → out !! p_seq p = Some pid →
  p_ref_count p = 1 → can_send c → current_ok c out pid0 p0 →
  ∃ c', retransmit_packet c pid = Some c' ∧ can_send c' ∧ queues_ok c' out ∧ current_ok c' out pid0 p0 ∧
    s_retransmit_queue (c_s c') = (if p_lost p then filter (.≠ pid) (s_retransmit_queue (c_s c0)) else s_retransmit_queue (c_s c0)) ∧
    watched (c_s c').
Proof.
  intros Hq Hu Hp Ho Hr1 Hs Hc. pose proof (queues_length _ _ Hq) as Hlen. pose proof (window_range (c_s c0)) as Hwin.
  pose proof Hu as [U1 U2 U3]. injection U1 as V1 V2 V3 V4 V5 V6.
  assert (pid ∈ s_inflight_queue (c_s c0) ++ s_retransmit_queue (c_s c0)) as Hin.
  { apply elem_of_app. destruct (p_lost p) eqn:El; [right; apply (qo_retransmit _ _ Hq)|left; apply (qo_inflight _ _ Hq)]; by exists p. }
  assert (window (c_s c0) ≠ 0 ∧ Z.of_nat (length (s_inflight_queue (c_s c))) < window (c_s c0)) as [Hw0 Hw1].
  { rewrite U2. pose proof (length_filter_in (s_inflight_queue (c_s c0)) pid) as Hf.
    apply elem_of_app in Hin as [Hin|Hin]; [specialize (Hf Hin); lia|].
    assert (0 < length (s_retransmit_queue (c_s c0)))%nat by (destruct (s_retransmit_queue (c_s c0)); [by apply elem_of_nil in Hin|cbn; lia]).
    pose proof (length_filter (.≠ pid) (s_inflight_queue (c_s c0))). lia. }
  unfold retransmit_packet. rewrite queue_is_empty by lia. rewrite V1, Hp. cbn [mbind option_bind].
  set (p1 := p <| p_header ::= _ |>). set (c1 := c <| c_packets ::= _ |>).
  destruct (qo_packets _ _ Hq _ _ Ho) as (p' & Hp' & _ & (K1 & K2 & K3 & K4 & K5)). assert (p' = p) as -> by congruence.
  destruct (send_packet_ok c1 pid p1 true) as (c2 & p2 & -> & Hsent).
  { apply lookup_insert_eq. } { unfold packet_data. change (c_wbufs c1) with (c_wbufs c). rewrite V2. exact K5. } { done. } { cbn; lia. }
  { intros El. change (s_retransmit_queue (c_s c1)) with (s_retransmit_queue (c_s c)). rewrite V6. apply (qo_retransmit _ _ Hq). by exists p. }
  { apply Hs. } { apply Hs. }
  cbn [mbind option_bind].
  assert (Hs2 : sent c pid p c2 p2).
  { destruct Hsent as [T1 T2 T3 T4 T5 T6 T7 T8 T9]. split; try done. rewrite T1. apply insert_insert_eq. }
  clear Hsent. clearbody p1 c1. pose proof (queues_resent _ _ _ _ _ _ _ Hq Hu Ho Hp Hs2) as Hq2.
  pose proof Hs2 as [S1 S2 S3 S4 S5 S6 _ _ _]. injection S2 as W1 W2 W3 W4. rewrite V6 in S5.
  destruct (erase_sent_fields _ _ S3) as (? & ? & ? & ? & ? & ? & ? & Es).
  set (c3 := c2 <| c_s ::= _ |>).
  assert (Hsv : start_view (c_s c3) = start_view (c_s c)) by (unfold c3; cbn; by rewrite Es).
  destruct (restart_ok c c3 (bool_decide (s_inflight_queue (c_s c) = [])) Hs eq_refl Hsv) as (s' & -> & T & Hs3).
  { done. } { unfold c3. cbn. rewrite S4. by destruct (s_inflight_queue (c_s c)). }
  { unfold c3. cbn. rewrite Es. apply Hs. } { unfold c3. cbn. by rewrite Es. }
  cbn [mbind option_bind]. set (c4 := c3 <| c_s := s' |>) in *.
  assert (Hq4 : queues_ok c4 out).
  { apply (queues_view c2); [|done]. unfold c4. cbn [c_s c_packets c_wbufs upd_field]. rewrite T. done. }
  assert (Hpid0 : pid ≠ pid0) by (intros ->; by apply (cu_out _ _ _ _ Hc) in Ho).
  assert (Hc4 : current_ok c4 out pid0 p0).
  { apply (current_view c _ out); try done.
    - unfold c4. cbn [c_s c_packets c_wbufs c_next upd_field]. rewrite T. cbn. rewrite Es. cbn. by rewrite W1, W2.
    - change (c_packets c4) with (c_packets c2). rewrite S1, lookup_insert_ne by done. apply Hc.
    - change (c_packets c4) with (c_packets c2). rewrite S1. intros y. apply (packets_insert_some _ _ p). by rewrite V1.
    - apply Hc. }
  assert (Ei : s_inflight_queue (c_s c4) = s_inflight_queue (c_s c) ++ [pid]) by (unfold c4; cbn; rewrite T; done).
  destruct (arm_timers_ok c4 false) as (c5 & -> & Hsame & Hw).
  { rewrite Ei. by destruct (s_inflight_queue (c_s c)). }
  { rewrite Ei, length_app. cbn. lia. }
  { intros E. apply Hw0. unfold c4 in E. cbn [c_s upd_field] in E. rewrite T in E. cbn in E.
    rewrite Es in E. cbn in E. unfold window. by rewrite <- V4, <- V5, E, Z.sub_diag. }
  { apply Hs3. } { apply Hs3. }
  exists c5. split; [done|]. split_and!; [by apply (same_core_can_send c4)|by apply (same_core_queues c4)|
    by apply (same_core_current c4)| |done].
  destruct Hsame as [Hsame _]. apply (f_equal s_retransmit_queue) in Hsame. cbn in Hsame. rewrite Hsame.
  rewrite T. cbn. exact S5.
Qed.

Lemma retransmit_packet_ok c out pid rest pid0 p0 :
  can_send c → queues_ok c out → current_ok c out pid0 p0 → s_retransmit_queue (c_s c) = pid :: rest →
  ∃ c', retransmit_packet c pid = Some c' ∧ can_send c' ∧ queues_ok c' out ∧ current_ok c' out pid0 p0 ∧
    s_retransmit_queue (c_s c') = rest ∧ watched (c_s c').
Proof.
  intros Hs Hq Hc Er.
  assert (marked c out true pid) as (p & Hp & Ho & Hl) by (apply (qo_retransmit _ _ Hq); rewrite Er; left).
  destruct (qo_packets _ _ Hq _ _ Ho) as (p' & Hp' & _ & (_ & _ & K3 & _)). assert (p' = p) as -> by congruence.
  assert (pid ∉ s_inflight_queue (c_s c)) as Hni.
  { intros Hin. apply (marked_false_true c out pid); [by apply (qo_inflight _ _ Hq)|]. by exists p. }
  assert (unqueued c pid c) as Hu by (split; [done|by rewrite filter_absent|apply Hq]).
  destruct (resend_ok c c out pid p pid0 p0 Hq Hu Hp Ho (K3 Hl) Hs Hc) as (c' & E & H1 & H2 & H3 & H4 & H5).
  exists c'. split_and!; try done. rewrite H4, Hl, Er, filter_cons_False by (intros []; done). apply filter_absent.
  destruct (qo_nodup _ _ Hq) as [_ Hn]. rewrite Er in Hn. by apply NoDup_cons in Hn as [? _].
Qed.

(** What a sender that sends nothing leaves alone. *)
Definition erase_idle (s : stream) : stream :=
  erase (s <| s_tb_available := 0 |> <| s_tb_last_refill_ms := 0 |> <| s_pending_packet_prepare := false |>).

Lemma idle_fields s s' :
  erase_idle s' = erase_idle s → ∃ n f a q t l pp,
  s' = s <| s_pkt_capacity := n |> <| s_pkt_header_flag := f |> <| s_acct := a |> <| s_write_queue := q |>
         <| s_tb_available := t |> <| s_tb_last_refill_ms := l |> <| s_pending_packet_prepare := pp |>.
Proof.
  intros E. destruct s as [], s' as []. unfold erase_idle, erase in E. cbn in E. injection E.
  intros. subst. do 7 eexists. reflexivity.
Qed.
Lemma idle_guarded c c' : erase_idle (c_s c') = erase_idle (c_s c) → guarded c → guarded c'.
Proof. intros (? & ? & ? & ? & ? & ? & ? & E)%idle_fields. apply guarded_view. by rewrite E. Qed.

Lemma may_send_ok c retransmit :
  can_send c → ∃ c' b, stream_may_send c retransmit = Some (c', b) ∧ same_core c c' ∧
    erase_idle (c_s c') = erase_idle (c_s c).
Proof.
  intros Hs. unfold stream_may_send. rewrite (proj2 (Z.ltb_lt 0 (s_cwnd _))) by apply Hs.
  assert (∃ c1, update_pacing_time c = Some c1 ∧ same_core c c1 ∧ erase_idle (c_s c1) = erase_idle (c_s c)) as (c1 & -> & H1 & Hg).
  { unfold update_pacing_time. destruct (_ <? now c); [|by exists c].
    rewrite (proj2 (Z.ltb_lt 0 _)) by apply Hs. eexists. split; [reflexivity|]. done. }
  cbn [mbind option_bind]. destruct (_ =? 0); [by exists c1, false|]. destruct retransmit; [by eexists c1, _|].
  pose proof (same_core_can_send _ _ H1 Hs) as Hs1.
  destruct (send_window_spec (c_s c1)) as (w & -> & _); [apply Hs1| |apply Hs1|by eexists c1, _].
  pose proof (cs_cwnd _ Hs1). unfold is_u32. lia.
Qed.

Lemma send_retransmits_ok n c out pid0 p0 :
  (length (s_retransmit_queue (c_s c)) <= n)%nat →
  can_send c → queues_ok c out → current_ok c out pid0 p0 →
  ∃ c', send_retransmits n c = Some c' ∧ can_send c' ∧ queues_ok c' out ∧ current_ok c' out pid0 p0 ∧
    (guarded c → guarded c').
Proof.
  revert c. induction n as [|n IH]; intros c Hn Hs Hq Hc; cbn [send_retransmits];
    destruct (s_retransmit_queue (c_s c)) as [|pid rest] eqn:Er; [by exists c|cbn in Hn; lia|by exists c|].
  destruct (may_send_ok c true Hs) as (c1 & b & -> & H1 & Hg1). pose proof (idle_guarded _ _ Hg1) as Hgd. cbn [mbind option_bind].
  pose proof (same_core_can_send _ _ H1 Hs) as Hs1. pose proof (same_core_queues _ _ _ H1 Hq) as Hq1.
  pose proof (same_core_current _ _ _ _ _ H1 Hc) as Hc1. destruct b; [|by exists c1].
  assert (s_retransmit_queue (c_s c1) = pid :: rest) as Er1.
  { destruct H1 as [H1 _]. apply (f_equal s_retransmit_queue) in H1. cbn in H1. congruence. }
  destruct (retransmit_packet_ok _ _ _ _ _ _ Hs1 Hq1 Hc1 Er1) as (c2 & -> & Hs2 & Hq2 & Hc2 & Er2 & Hw2).
  cbn [mbind option_bind]. destruct (IH c2) as (c3 & E & ? & ? & ? & Hg); try done; [rewrite Er2; cbn in Hn; lia|].
  exists c3. split_and!; try done. intros _. apply Hg. by intros _.
Qed.

(** ** New packets *)

(** The packet under construction, perhaps full. *)
Record packed (c : ctx) (out : gmap Z packet_id) (pid : packet_id) (p : packet) : Prop := {
  pk_building : building c pid p;
  pk_size : 20 <= p_size p ∧ p_size p + s_pkt_capacity (c_s c) <= 1472;
  pk_fresh : (p_ref_count p, p_lost p, p_transmits p) = (1, false, 0);
  pk_data : is_Some (packet_data c p);
  pk_remote : p_remote_addr_len p ≠ 0 → sa_fam (p_remote_addr p) ≠ AF_UNSPEC;
  pk_flags : Z.ldiff (s_pkt_header_flag (c_s c)) UDX_HEADER_DATA_OR_END = 0;
  pk_out : ∀ q, out !! q ≠ Some pid;
  pk_alloc : ∀ x, is_Some (c_packets c !! x) → (x < c_next c)%positive;
  pk_queue : Z.of_nat (length (s_write_queue (c_s c))) < 2 ^ 15 - 1 }.

Lemma current_packed c out pid p : current_ok c out pid p → packed c out pid p.
Proof.
  intros [B C1 C2 C3 C4 C5 C6 C7 C8 C9]. split; try done.
  pose proof (bd_chunks _ _ _ B C1). unfold p_nwbufs in *. lia.
Qed.

Lemma finish_packet_ok c p tlp :
  can_send c → (p_remote_addr_len p ≠ 0 → sa_fam (p_remote_addr p) ≠ AF_UNSPEC) →
  ∃ p' probe, finish_packet c p tlp = Some (p', probe) ∧
    packet_core p' = (s_seq (c_s c), p_size p, p_chunks p, p_lost p, 1, p_transmits p).
Proof.
  intros Hs Hr. destruct (cs_addr _ Hs) as [_ Ha]. unfold finish_packet, bind_packet_remote.
  set (m := if p_remote_addr_len p =? 0 then _ else _).
  assert (∃ p1, m = Some p1 ∧ packet_core p1 = packet_core p ∧ sa_fam (p_remote_addr p1) ≠ AF_UNSPEC)
    as (p1 & -> & H1 & H2).
  { unfold m. destruct (Z.eqb_spec (p_remote_addr_len p) 0) as [E|E].
    - eexists. split; [reflexivity|]. done.
    - exists p. split_and!; auto. }
  cbn [mbind option_bind]. set (p2 := p1 <| p_header := _ |> <| p_seq := _ |> <| p_ref_count := 1 |>).
  assert (packet_core p2 = (s_seq (c_s c), p_size p, p_chunks p, p_lost p, 1, p_transmits p)) as H3.
  { unfold packet_core in *. cbn. injection H1 as _ -> -> -> _ ->. done. }
  cbv zeta. destruct (_ && _ && _); [|by eexists _, _]. unfold mtu_probeify_packet.
  destruct (_ || _); [by eexists _, _|]. cbv zeta.
  rewrite bool_decide_true by (change (p_remote_addr p2) with (p_remote_addr p1); destruct (sa_fam (p_remote_addr p1)); auto; done).
  destruct (_ || _); [by eexists _, _|]. eexists _, _. split; [reflexivity|]. exact H3.
Qed.

Lemma window_next s : is_u32 (s_seq s) → window s + 1 < 2 ^ 32 →
  u32 (u32 (s_seq s + 1) - s_remote_acked s) = window s + 1.
Proof.
  unfold window. rewrite u32_sub_l. intros Hs Hw.
  replace (s_seq s + 1 - s_remote_acked s) with (s_seq s - s_remote_acked s + 1) by lia.
  rewrite <- u32_add_l. apply u32_id. pose proof (u32_range (s_seq s - s_remote_acked s)). unfold is_u32 in *. lia.
Qed.

(** A new packet joins the outgoing buffer and the packets in flight. *)
Lemma queues_sent_new c out pid p c' p' :
  queues_ok c out → (∀ q, out !! q ≠ Some pid) → is_u32 (s_seq (c_s c)) → window (c_s c) + 1 < 2 ^ 32 →
  c_packets c' = <[pid := p']> (c_packets c) →
  (∀ ks, chunks_bytes (c_wbufs c') ks = chunks_bytes (c_wbufs c) ks) →
  packet_ok c' p' → p_lost p' = false → p_seq p' = s_seq (c_s c) → p_size p' = p_size p →
  (s_outgoing (c_s c'), s_remote_acked (c_s c'), s_seq (c_s c'), s_inflight_queue (c_s c'),
   s_retransmit_queue (c_s c'), s_inflight (c_s c')) =
  (Some (<[s_seq (c_s c) := pid]> out), s_remote_acked (c_s c), u32 (s_seq (c_s c) + 1),
   s_inflight_queue (c_s c) ++ [pid], s_retransmit_queue (c_s c), u64 (s_inflight (c_s c) + p_size p)) →
  queues_ok c' (<[s_seq (c_s c) := pid]> out).
Proof.
  intros [Q1 Q2 Q3 Q4 Q5 [Q6 Q6'] Q7] Ho Hu Hw E1 E2 Hok Hl Hseq Hsz [= F1 F2 F3 F4 F5 F6].
  assert (Hfresh : out !! s_seq (c_s c) = None).
  { destruct (out !! s_seq (c_s c)) as [x|] eqn:E; [|done]. destruct (Q3 _ _ E) as [_ ?]. unfold window in *. lia. }
  assert (Hm : ∀ b x, marked c' (<[s_seq (c_s c) := pid]> out) b x ↔ (x = pid ∧ b = false) ∨ (x ≠ pid ∧ marked c out b x)).
  { intros b x. unfold marked. rewrite E1. destruct (decide (x = pid)) as [->|Hx].
    - rewrite lookup_insert_eq. split; [intros (? & [= <-] & _ & <-); left; by rewrite Hl|].
      intros [[_ ->]|[]]; [|done]. exists p'. by rewrite Hseq, lookup_insert_eq.
    - rewrite lookup_insert_ne by done. split.
      + intros (px & P1 & P2 & P3). right. split; [done|]. exists px. split_and!; [done| |done].
        apply lookup_insert_Some in P2 as [[_ ?]|[_ ?]]; [by subst|done].
      + intros [[? _]|[_ (px & P1 & P2 & P3)]]; [done|]. exists px. split_and!; [done| |done].
        rewrite lookup_insert_ne; [done|]. intros E. rewrite <- E, Hfresh in P2. done. }
  assert (Hni : ∀ b, ¬ marked c out b pid) by (intros b (px & _ & P2 & _); by apply Ho in P2).
  split; rewrite ?F1, ?F4, ?F5, ?F6; try done.
  - intros q x [[<- <-]|[Hne Hq]]%lookup_insert_Some.
    + exists p'. rewrite E1, lookup_insert_eq. done.
    + destruct (Q2 _ _ Hq) as (px & P1 & P2 & P3). exists px. rewrite E1, lookup_insert_ne by (intros ->; by apply Ho in Hq).
      split_and!; [done|done|]. by apply (packet_ok_bufs c).
  - unfold window. rewrite F2, F3, window_next by done. intros q x [[<- <-]|[Hne Hq]]%lookup_insert_Some.
    + split; [done|]. unfold window. lia.
    + destruct (Q3 _ _ Hq). split; [done|lia].
  - intros x. rewrite Hm, elem_of_app, list_elem_of_singleton, Q4.
    destruct (decide (x = pid)) as [->|]; [|intuition]. split; [by left|by right].
  - intros x. rewrite Hm, Q5. split; [intros Hx; right; split; [|done]; intros ->; by apply Hni in Hx|by intros [[_ ?]|[_ ?]]].
  - split; [|done]. apply NoDup_app. split_and!; [done| |apply NoDup_singleton].
    intros x Hx ->%list_elem_of_singleton. by apply Q4, Hni in Hx.
  - rewrite Q7, u64_add_l, bytes_of_app, bytes_of_cons. f_equal.
    assert (packet_size c' pid = p_size p) as -> by (unfold packet_size; by rewrite E1, lookup_insert_eq).
    rewrite (bytes_of_other c c' _ pid); [cbn; lia|by intros Hx%Q4%Hni|].
    intros y Hy. by rewrite E1, lookup_insert_ne.
Qed.

(** The next packet after one was sent. *)
Lemma reset_packet_ok c out :
  can_send c → queues_ok c out → (∀ x, is_Some (c_packets c !! x) → (x < c_next c)%positive) →
  NoDup (s_write_queue (c_s c)) → Z.of_nat (length (s_write_queue (c_s c))) < 2 ^ 15 - 1 →
  (∀ wid, wid ∈ s_write_queue (c_s c) → ∃ b, c_wbufs c !! wid = Some b ∧ wbuf_ok b) →
  window (c_s c) + Z.of_nat (write_backlog c) < 2 ^ 31 →
  ∃ c', reset_next_packet c = Some c' ∧ can_send c' ∧ queues_ok c' out ∧
    (∃ pid p, current_ok c' out pid p) ∧ write_backlog c' = write_backlog c ∧
    s_pending_timer (c_s c') = s_pending_timer (c_s c) ∧ c_packets c' = <[c_next c := new_packet (bytes_packetized (s_acct (c_s c)))]> (c_packets c) ∧
    s_write_queue (c_s c') = s_write_queue (c_s c).
Proof.
  intros Hs Hq Hal Hn Hl Hw Hsp. unfold reset_next_packet.
  destruct (max_payload_spec _ (cs_mtu _ Hs)) as [-> Hb]. cbn [mbind option_bind].
  set (cap := mtu _ - _) in *.
  assert (u16 cap = cap) as Ecap by (apply Z.mod_small; lia).
  eexists. split; [reflexivity|]. set (np := new_packet _).
  assert (Hnew : c_packets c !! c_next c = None).
  { destruct (c_packets c !! c_next c) eqn:E; [|done]. assert (c_next c < c_next c)%positive by (apply Hal; by eexists). lia. }
  pose proof Hq as [Q1 Q2 Q3 Q4 Q5 Q6 Q7].
  assert (Hout : ∀ q, out !! q ≠ Some (c_next c)) by (intros q E; destruct (Q2 _ _ E) as (? & ? & _); congruence).
  split_and!; try done.
  - destruct Hs as [C1 C2 C3 C4 C5 C6 C7 C8 Cs C9]. split; done.
  - assert (Hm : ∀ b x, marked (c <| c_packets ::= <[c_next c := np]> |>) out b x ↔ marked c out b x).
    { intros b x. unfold marked. cbn. destruct (decide (x = c_next c)) as [->|]; [|by rewrite lookup_insert_ne].
      split; intros (px & _ & P & _); by apply Hout in P. }
    split; try done.
    + intros q x Hx. destruct (Q2 _ _ Hx) as (px & P1 & P2 & P3). exists px. cbn.
      rewrite lookup_insert_ne by (intros <-; by apply Hout in Hx). done.
    + intros x. cbn. rewrite Q4. symmetry. apply Hm.
    + intros x. cbn. rewrite Q5. symmetry. apply Hm.
    + cbn. rewrite Q7. f_equal. symmetry. apply (bytes_of_other _ _ _ (c_next c)).
      * intros Hx%Q4. destruct Hx as (px & _ & P & _). by apply Hout in P.
      * intros y Hy. cbn. by rewrite lookup_insert_ne.
  - exists (c_next c), np. split; try (cbn; rewrite ?Ecap; lia || done).
    + split; try (cbn; rewrite ?Ecap; lia || done).
      * cbn. by rewrite lookup_insert_eq.
      * cbn. rewrite Ecap. change UDX_HEADER_SIZE with 20. lia.
    + cbn. rewrite Ecap. change UDX_HEADER_SIZE with 20. lia.
    + cbn. intros x. destruct (decide (x = c_next c)) as [->|]; [lia|]. rewrite lookup_insert_ne by done.
      intros Hx%Hal. lia.
Qed.

Lemma probe_sent_in_range m : mtu_in_range m → mtu_in_range (mtu_probe_sent m).
Proof. done. Qed.

(** The stream after the probe and tail-loss bookkeeping of a new packet. *)
Lemma can_send_view c c' :
  (s_cwnd (c_s c'), s_pacing_bytes_per_ms (c_s c'), s_rtt (c_s c'), s_socket (c_s c'), s_status (c_s c'),
   s_wnd (c_s c'), s_remote_addr_len (c_s c'), s_remote_addr (c_s c'), s_seq (c_s c'), s_inflight_queue (c_s c')) =
  (s_cwnd (c_s c), s_pacing_bytes_per_ms (c_s c), s_rtt (c_s c), s_socket (c_s c), s_status (c_s c),
   s_wnd (c_s c), s_remote_addr_len (c_s c), s_remote_addr (c_s c), s_seq (c_s c), s_inflight_queue (c_s c)) →
  mtu_in_range (s_mtu (c_s c')) → s_inflight_queue (c_s c) ≠ [] → can_send c → can_send c'.
Proof.
  intros [= E1 E2 E3 E4 E5 E6 E7 E8 E9 E10] Hm Hi [C1 C2 C3 C4 C5 C6 C7 C8 Cs C9].
  split; rewrite ?E1, ?E2, ?E3, ?E4, ?E5, ?E6, ?E7, ?E8, ?E9, ?E10; try done. by left.
Qed.

Lemma send_new_ok c out pid p tlp :
  can_send c → queues_ok c out → packed c out pid p →
  window (c_s c) + 1 + Z.of_nat (write_backlog c) < 2 ^ 31 →
  ∃ c' out' pid' p', _send_new_packet c tlp = Some c' ∧ can_send c' ∧ queues_ok c' out' ∧
    current_ok c' out' pid' p' ∧ write_backlog c' = write_backlog c ∧ watched (c_s c').
Proof.
  intros Hs Hq [[B1 B2 B3 B4 B5 B6 B7 B8 B9 B10 B11] K1 K2 K3 K4 K5 K6 K7 K8] Hsp. injection K2 as K2 K2' K2''.
  pose proof (queues_length _ _ Hq) as Hlen. pose proof (window_range (c_s c)) as Hwin.
  unfold _send_new_packet. rewrite K5, Z.eqb_refl. cbv zeta. rewrite queue_is_empty by lia.
  rewrite B1. cbn [mbind option_bind]. rewrite B2. cbn [mbind option_bind].
  destruct (finish_packet_ok c p tlp Hs K4) as (q & probe & -> & Eq). cbn [mbind option_bind].
  rewrite (qo_out _ _ Hq). cbn [mbind option_bind]. unfold packet_core in Eq. injection Eq as Q1 Q2 Q3 Q4 Q5 Q6.
  rewrite Q1, Q2. set (c1 := c <| c_packets ::= _ |> <| c_s ::= _ |>).
  destruct (send_packet_ok c1 pid q false) as (c2 & p2 & -> & Hsent).
  { apply lookup_insert_eq. } { unfold packet_data. by rewrite Q3. } { done. } { lia. }
  { rewrite Q4, K2'. done. } { apply Hs. } { apply Hs. }
  cbn [mbind option_bind]. pose proof Hsent as [S1 S2 S3 S4 S5 S6 S7 S8 S9].
  injection S2 as W1 W2 W3 W4. injection S7 as P1 P2 P3 P4. rewrite Q4, K2' in S5.
  destruct (erase_sent_fields _ _ S3) as (? & ? & ? & ? & ? & ? & ? & Es).
  set (c3 := c2 <| c_s ::= _ |>).
  assert (E3 : (s_outgoing (c_s c3), s_remote_acked (c_s c3), s_seq (c_s c3), s_inflight_queue (c_s c3),
                s_retransmit_queue (c_s c3), s_inflight (c_s c3)) =
    (Some (<[s_seq (c_s c) := pid]> out), s_remote_acked (c_s c), u32 (s_seq (c_s c) + 1),
     s_inflight_queue (c_s c) ++ [pid], s_retransmit_queue (c_s c), u64 (s_inflight (c_s c) + p_size p))).
  { change (s_inflight_queue (c_s c3)) with (s_inflight_queue (c_s c2)). rewrite S4, <- Q2.
    change (s_retransmit_queue (c_s c3)) with (s_retransmit_queue (c_s c2)). rewrite S5.
    change (s_inflight (c_s c3)) with (s_inflight (c_s c2)). rewrite S6.
    unfold c3. cbn [c_s upd_field s_outgoing s_remote_acked s_seq]. rewrite Es. done. }
  assert (Hq3 : queues_ok c3 (<[s_seq (c_s c) := pid]> out)).
  { apply (queues_sent_new c out pid p c3 p2); try done.
    - apply Hs. - lia.
    - change (c_packets c3) with (c_packets c2). rewrite S1. apply insert_insert_eq.
    - intros. change (c_wbufs c3) with (c_wbufs c2). by rewrite W1.
    - unfold packet_ok, packet_data. change (c_wbufs c3) with (c_wbufs c2). rewrite W1, P2, P3, P4, Q2, Q3.
      split_and!; try done || lia.
    - congruence. - congruence. }
  assert (Hsv : start_view (c_s c3) = start_view (c_s c)) by (unfold c3; cbn; by rewrite Es).
  destruct (restart_ok c c3 (bool_decide (s_inflight_queue (c_s c) = [])) Hs eq_refl Hsv) as (s' & -> & T & Hs3).
  { done. } { unfold c3. cbn. rewrite S4. by destruct (s_inflight_queue (c_s c1)). }
  { unfold c3. cbn -[u32]. apply u32_range. } { unfold c3. cbn. by rewrite Es. }
  cbn [mbind option_bind].
  set (s1 := if probe then _ else _). set (s2 := if tlp then _ else s1). set (c4 := c3 <| c_s := s2 |>).
  assert (E4 : ∃ m t, c_s c4 = s' <| s_mtu := m |> <| s_tlp := t |> ∧ mtu_in_range m).
  { unfold c4, s2, s1. pose proof (cs_mtu _ Hs3) as Hm. destruct probe, tlp.
    - by eexists _, _. - exists (mtu_probe_sent (s_mtu s')), (s_tlp s'). by destruct s'.
    - exists (s_mtu s'), (mk_tlp_st false true false (s_seq (c_s c))). by destruct s'.
    - exists (s_mtu s'), (s_tlp s'). by destruct s'. }
  clearbody s2. destruct E4 as (m & t & E4 & Hm).
  assert (Hs4 : can_send c4).
  { apply (can_send_view (c3 <| c_s := s' |>)); [by rewrite E4|by rewrite E4| |done].
    cbn [c_s upd_field]. rewrite T. cbn. rewrite S4. by destruct (s_inflight_queue (c_s c1)). }
  assert (Hq4 : queues_ok c4 (<[s_seq (c_s c) := pid]> out)).
  { apply (queues_view c3); [|done]. rewrite E4, T. done. }
  destruct (arm_timers_ok c4 (negb tlp)) as (c5 & -> & Hsame & Hw).
  { rewrite E4, T. cbn. rewrite S4. by destruct (s_inflight_queue (c_s c1)). }
  { rewrite E4, T. cbn. rewrite S4, length_app. unfold c1. cbn. lia. }
  { pose proof (f_equal (λ t, t.1.1.1.1.2) E3) as R2. pose proof (f_equal (λ t, t.1.1.1.2) E3) as R3.
    cbn [fst snd] in R2, R3. rewrite E4, T. cbn [s_remote_acked s_seq upd_field]. rewrite R2, R3. intros E.
    assert (window (c_s c) + 1 = 0); [|lia]. rewrite <- window_next by (apply Hs || lia). rewrite <- E. by rewrite Z.sub_diag. }
  { apply Hs4. } { apply Hs4. }
  cbn [mbind option_bind].
  assert ((0 <? p_size p) && (p_size p <? 1500) = true) as -> by (apply andb_true_intro; split; apply Z.ltb_lt; lia).
  pose proof (same_core_can_send _ _ Hsame Hs4) as Hs5. pose proof (same_core_queues _ _ _ Hsame Hq4) as Hq5.
  assert (E5 : c_packets c5 = <[pid := p2]> (c_packets c) ∧ c_wbufs c5 = c_wbufs c ∧ c_next c5 = c_next c ∧
               s_write_queue (c_s c5) = s_write_queue (c_s c) ∧ window (c_s c5) = window (c_s c) + 1).
  { destruct Hsame as [H1 H2]. injection H2 as -> -> -> _.
    pose proof (f_equal s_write_queue H1) as H3. pose proof (f_equal s_seq H1) as H4.
    pose proof (f_equal s_remote_acked H1) as H5. unfold core in H3, H4, H5. cbn [s_write_queue s_seq s_remote_acked upd_field] in H3, H4, H5.
    change (c_packets c4) with (c_packets c2). change (c_wbufs c4) with (c_wbufs c2). change (c_next c4) with (c_next c2).
    unfold window. rewrite S1, W1, W2, H3, H4, H5, E4, T. cbn [s_write_queue s_seq s_remote_acked upd_field bbr_touch].
    unfold c3. cbn [c_s s_write_queue s_seq s_remote_acked upd_field]. rewrite Es.
    split_and!; [apply insert_insert_eq|done..|]. apply (window_next (c_s c)); [apply Hs|lia]. }
  destruct E5 as (Z1 & Z2 & Z3 & Z4 & Z5).
  assert (Hb : write_backlog c5 = write_backlog c) by (unfold write_backlog; by rewrite Z2, Z4).
  destruct (reset_packet_ok c5 _ Hs5 Hq5) as (c' & -> & Hs' & Hq' & (pid' & p' & Hc') & Hb' & Hw' & _).
  { rewrite Z1, Z3. intros y Hy. apply K7. by apply (packets_insert_some _ _ p) in Hy. }
  { by rewrite Z4. } { by rewrite Z4. } { rewrite Z4, Z2. done. } { lia. }
  exists c', (<[s_seq (c_s c) := pid]> out), pid', p'. split_and!; try done; [congruence|].
  unfold watched in *. by rewrite Hw'.
Qed.

(** ** Packetizing and sending *)

Lemma erase_fields s s' :
  erase s' = erase s → ∃ n f a q,
  s' = s <| s_pkt_capacity := n |> <| s_pkt_header_flag := f |> <| s_acct := a |> <| s_write_queue := q |>.
Proof.
  intros E. destruct s as [], s' as []. unfold erase in E. cbn in E. injection E.
  intros. subst. do 4 eexists. reflexivity.
Qed.

Lemma packetized_lookup pid c p c' p' x :
  packetized pid c p c' p' → x ≠ pid → c_packets c' !! x = c_packets c !! x.
Proof.
  intros Hz Hx. pose proof (f_equal (lookup x) (pz_packets _ _ _ _ _ Hz)) as E.
  by rewrite !lookup_delete_ne in E.
Qed.

Lemma packetized_queues pid c p c' p' out :
  packetized pid c p c' p' → (∀ q, out !! q ≠ Some pid) → queues_ok c out → queues_ok c' out.
Proof.
  intros Hz Ho [Q1 Q2 Q3 Q4 Q5 Q6 Q7]. assert (Hl := λ x, packetized_lookup _ _ _ _ _ x Hz).
  destruct (erase_fields _ _ (pz_stream _ _ _ _ _ Hz)) as (? & ? & ? & ? & Es).
  assert (Hm : ∀ b y, marked c' out b y ↔ marked c out b y).
  { intros b y. unfold marked. destruct (decide (y = pid)) as [->|Hx]; [|by rewrite Hl].
    split; intros (px & _ & P & _); by apply Ho in P. }
  split; unfold window; rewrite ?Es; try done.
  - intros q y Hx. rewrite Hl by (intros ->; by apply Ho in Hx). destruct (Q2 _ _ Hx) as (px & P1 & P2 & P3).
    exists px. split_and!; [done|done|]. apply (packet_ok_bufs c); [apply Hz|done].
  - intros y. rewrite Hm. apply Q4.
  - intros y. rewrite Hm. apply Q5.
  - cbn. rewrite Q7. f_equal. symmetry. apply (bytes_of_other _ _ _ pid); [|apply Hl].
    intros (? & _ & P & _)%Q4. by apply Ho in P.
Qed.

Lemma packetized_can_send pid c p c' p' : packetized pid c p c' p' → can_send c → can_send c'.
Proof.
  intros Hz [C1 C2 C3 C4 C5 C6 C7 C8 Cs C9]. pose proof (pz_rest _ _ _ _ _ Hz) as Er. injection Er as R1 _ _ _.
  destruct (erase_fields _ _ (pz_stream _ _ _ _ _ Hz)) as (? & ? & ? & ? & Es).
  split; rewrite ?Es; try done. destruct C9 as [C9|C9]; [by left|right].
  unfold start_ok, now in *. rewrite R1, Es. exact C9.
Qed.

Lemma packetized_packed pid c p c' p' out :
  packetized pid c p c' p' → building c' pid p' → can_send c → current_ok c out pid p → packed c' out pid p'.
Proof.
  intros Hz Hb Hs [B C1 C2 C3 C4 C5 C6 C7 C8 C9]. pose proof Hz as [Z1 Z2 Zc Z3 Z4 Z5 Z6 Z7 Z8 Z9 _ Z10].
  injection Z10 as _ N _ _. split; try done.
  - lia.
  - pose proof (f_equal p_ref_count Z4). pose proof (f_equal p_lost Z4). pose proof (f_equal p_transmits Z4). cbn in *. congruence.
  - destruct C4 as [d Hd]. destruct (Z1 d Hd) as (d' & -> & _). by eexists.
  - destruct (cs_addr _ Hs). destruct Z8 as [[= -> ->]|[= -> ->]]; done.
  - congruence.
  - intros x. rewrite N. destruct (decide (x = pid)) as [->|Hx].
    + intros _. apply C8. rewrite (bd_packet _ _ _ B). by eexists.
    + rewrite (packetized_lookup _ _ _ _ _ _ Hz Hx). apply C8.
  - pose proof (bd_chunks _ _ _ B C1). unfold p_nwbufs in *. lia.
Qed.

Lemma packed_current c out pid p :
  packed c out pid p → 0 < s_pkt_capacity (c_s c) → window (c_s c) + Z.of_nat (write_backlog c) < 2 ^ 31 → current_ok c out pid p.
Proof. intros [P1 P2 P3 P4 P5 P6 P7 P8 P9] Hc Hw. by split. Qed.

Lemma send_new_packet_ok c tlp :
  sender_ok c → ∃ c' b, send_new_packet c tlp = Some (c', b) ∧ sender_ok c' ∧
    (b = true → (write_backlog c' < write_backlog c)%nat) ∧ (guarded c → guarded c') ∧
    (b = false → erase_idle (c_s c') = erase_idle (c_s c) ∧ now c' = now c).
Proof.
  intros Hok. pose proof Hok as (Hs & out & Hq & pid & p & Hc). unfold send_new_packet.
  assert (Hlen : Z.of_nat (length (s_write_queue (c_s c))) < 2 ^ 15) by (pose proof (pk_queue _ _ _ _ (current_packed _ _ _ _ Hc)); lia).
  rewrite queue_is_empty by lia. case_bool_decide as He.
  { by exists c, false. }
  destruct (may_send_ok c false Hs) as (c1 & b & -> & H1 & Hg1). cbn [mbind option_bind].
  pose proof (same_core_can_send _ _ H1 Hs) as Hs1. pose proof (same_core_queues _ _ _ H1 Hq) as Hq1.
  pose proof (same_core_current _ _ _ _ _ H1 Hc) as Hc1.
  destruct (negb b && negb tlp).
  { exists c1, false. split_and!; [done|by apply (same_core_ok c)|done|by apply idle_guarded|].
    intros _. split; [done|]. by destruct H1 as [_ [= _ _ _ ?]]. }
  assert (Hsame : s_write_queue (c_s c1) = s_write_queue (c_s c) ∧ write_backlog c1 = write_backlog c).
  { same_core_cases H1. unfold write_backlog. by rewrite Es, Ew. }
  destruct Hsame as [Ew Eb].
  destruct (packetize_loop (S (length (s_write_queue (c_s c1)))) c1 pid p (cu_building _ _ _ _ Hc1) ltac:(lia))
    as (c2 & p2 & -> & Hb2 & Hz & _ & _ & Hlt). cbn [mbind option_bind].
  specialize (Hlt (cu_capacity _ _ _ _ Hc1) ltac:(by rewrite Ew)).
  pose proof (packetized_packed _ _ _ _ _ _ Hz Hb2 Hs1 Hc1) as Hp2.
  pose proof (packetized_can_send _ _ _ _ _ Hz Hs1) as Hs2.
  pose proof (packetized_queues _ _ _ _ _ _ Hz (cu_out _ _ _ _ Hc1) Hq1) as Hq2.
  assert (Hw2 : window (c_s c2) = window (c_s c1)).
  { destruct (erase_fields _ _ (pz_stream _ _ _ _ _ Hz)) as (? & ? & ? & ? & Es). by rewrite Es. }
  pose proof (cu_space _ _ _ _ Hc1) as Hsp.
  destruct ((s_pkt_capacity (c_s c2) =? 0) || tlp || has (s_pkt_header_flag (c_s c2)) UDX_HEADER_END) eqn:Hf.
  - destruct (send_new_ok c2 out pid p2 tlp Hs2 Hq2 Hp2 ltac:(lia)) as (c3 & out' & pid' & p' & -> & Hs3 & Hq3 & Hc3 & Eb3 & Hw3).
    exists c3, true. split_and!; [done| |lia|by intros _ _|done]. split; [done|]. exists out'. split; [done|]. by exists pid', p'.
  - assert (Hok2 : sender_ok c2).
    { split; [done|]. exists out. split; [done|]. exists pid, p2. apply packed_current; [done| |lia].
      apply orb_false_iff in Hf as [[Hf _]%orb_false_iff _]. apply Z.eqb_neq in Hf. pose proof (bd_capacity _ _ _ Hb2). lia. }
    assert (Hi2 : erase_idle (c_s c2) = erase_idle (c_s c) ∧ now c2 = now c).
    { destruct (erase_fields _ _ (pz_stream _ _ _ _ _ Hz)) as (? & ? & ? & ? & Es). rewrite Es, <- Hg1. split; [reflexivity|].
      destruct H1 as [_ [= _ _ _ <-]]. pose proof (pz_rest _ _ _ _ _ Hz) as [= E _ _ _]. unfold now. by rewrite E. }
    destruct Hi2 as [Hi2 Ht2].
    destruct (has _ UDX_HEADER_DATA); eexists _, false; (split_and!; [reflexivity| |done|by apply idle_guarded|done]); [|done].
    by apply (same_core_ok c2).
Qed.

Lemma send_new_packets_ok n c :
  (write_backlog c <= n)%nat → sender_ok c →
  ∃ c', send_new_packets n c = Some c' ∧ sender_ok c' ∧ (guarded c → guarded c').
Proof.
  revert c. induction n as [|n IH]; intros c Hn Hs; cbn [send_new_packets];
    destruct (send_new_packet_ok c false Hs) as (c1 & b & -> & Hs1 & Hlt & Hg & _); cbn [mbind option_bind];
    (destruct b; [|by exists c1]); specialize (Hlt eq_refl); [lia|].
  destruct (IH c1 ltac:(lia) Hs1) as (c2 & E & Hs2 & Hg2). exists c2. auto.
Qed.

Lemma send_packets_run c :
  sender_ok c → ∃ c', send_packets c = Some c' ∧ sender_ok c' ∧ (guarded c → guarded c').
Proof.
  intros (Hs & out & Hq & pid & p & Hc). unfold send_packets.
  assert ((Z.land (s_status (c_s c)) UDX_STREAM_DEAD =? 0) = true) as ->.
  { pose proof (cs_alive _ Hs) as Ha. unfold has, truthy in Ha. by apply negb_false_iff in Ha. }
  destruct (send_retransmits_ok _ c out pid p (Nat.le_refl _) Hs Hq Hc) as (c1 & -> & Hs1 & Hq1 & Hc1 & Hg1).
  cbn [mbind option_bind]. destruct (send_new_packets_ok (write_backlog c1) c1) as (c2 & E & ? & Hg2); [done| |].
  - split; [done|]. exists out. split; [done|]. by exists pid, p.
  - exists c2. auto.
Qed.

(** C4: send_packets, on every stream whose books are in order, fails none of its
    assertions, comes to an end and leaves the books in order: each packet of the outgoing
    buffer is in exactly one of the inflight and the retransmit queue according to its lost
    mark, [inflight] counts the bytes in flight, and the packet under construction has room. *)
Theorem send_packets_ok c : sender_ok c → ∃ c', send_packets c = Some c' ∧ sender_ok c'.
Proof. intros (c' & E & Hs & _)%send_packets_run. by exists c'. Qed.

(** C13: a sender never waits for nothing. When send_packets returns and packets
    are in flight, a retransmission, reordering or tail loss timer is pending, so
    the sender runs again even if every datagram and every acknowledgement is lost. *)
Theorem send_packets_watched c c' :
  sender_ok c → guarded c → send_packets c = Some c' → guarded c'.
Proof. intros (c2 & E & _ & Hg)%send_packets_run Hc E'. assert (c2 = c') as <- by congruence. auto. Qed.
End Sender.

(** A stream with a lost packet, a packet in flight and 3 bytes to send. *)
Section Example.
#[local] Instance example_env : Env := {
  env_host := UDX_LE; env_try_send := λ _ _ _, UV_EAGAIN; env_send := λ _ _ _, 0;
  env_read_buffer_size := λ _, 0; env_firewall := λ _, false }.

Definition example_packet (seq : Z) (is_lost : bool) : packet :=
  new_packet 0 <| p_seq := seq |> <| p_lost := is_lost |> <| p_transmits := 1 |> <| p_size := 22 |>
    <| p_chunks := [mk_chunk 1 0 2] |>.
Definition example_stream : stream :=
  stream_zero <| s_status := UDX_STREAM_CONNECTED |> <| s_socket := Some 1%positive |>
    <| s_remote_addr := mk_sockaddr AF_INET 9 [127; 0; 0; 1] |> <| s_remote_addr_len := 16 |>
    <| s_mtu := mk_mtu_st 0 false 0 0 1500 UDX_MTU_BASE |> <| s_wnd := mk_wnd_st 65536 65536 0 0 |>
    <| s_rtt ::= λ r, r <| rto := 1000 |> |> <| s_cwnd := 10 |> <| s_pacing_bytes_per_ms := 1000 |>
    <| s_seq := 1 |> <| s_remote_acked := 2 ^ 32 - 1 |> <| s_outgoing := Some {[ 2 ^ 32 - 1 := 1%positive; 0 := 2%positive ]} |>
    <| s_retransmit_queue := [1%positive] |> <| s_inflight_queue := [2%positive] |> <| s_inflight := 22 |>
    <| s_pkt := Some 3%positive |> <| s_pkt_capacity := 1132 |> <| s_write_queue := [2%positive] |>.
Definition example_sending : ctx :=
  mk_ctx example_stream
    {[ 1%positive := example_packet (2 ^ 32 - 1) true; 2%positive := example_packet 0 false; 3%positive := new_packet 2 ]}
    {[ 1%positive := mk_wbuf [104; 105] 2 0 9 false; 2%positive := mk_wbuf [1; 2; 3] 0 0 9 true ]} ∅ 10
    (mk_io 1000 [] (mk_counters 0 0 0 0) 0 0) 1 (mk_world 1 false false [] [] ∅ ∅ ∅ ∅ ∅ ∅ ∅).
Definition example_out : gmap Z packet_id := {[ 2 ^ 32 - 1 := 1%positive; 0 := 2%positive ]}.

Lemma example_out_cases q pid : example_out !! q = Some pid → (q = 2 ^ 32 - 1 ∧ pid = 1%positive) ∨ (q = 0 ∧ pid = 2%positive).
Proof.
  unfold example_out. intros [[<- <-]|[_ [<- <-]%lookup_singleton_Some]]%lookup_insert_Some; auto.
Qed.

Lemma example_marked b pid :
  marked example_sending example_out b pid ↔ (pid = 1%positive ∧ b = true) ∨ (pid = 2%positive ∧ b = false).
Proof.
  split.
  - intros (p & Hp & [[_ ->]|[_ ->]]%example_out_cases & <-); vm_compute in Hp; injection Hp as <-; auto.
  - intros [[-> ->]|[-> ->]]; eexists; (split; [vm_compute; reflexivity|]); (split; vm_compute; reflexivity).
Qed.

Lemma example_queues : queues_ok example_sending example_out.
Proof.
  split; [done|..].
  - intros q pid [[-> ->]|[-> ->]]%example_out_cases; eexists; (split; [vm_compute; reflexivity|]); (split; [vm_compute; reflexivity|]);
      unfold packet_ok; split_and!; try (vm_compute; congruence); try (eexists; vm_compute; reflexivity); vm_compute; reflexivity.
  - intros q pid [[-> ->]|[-> ->]]%example_out_cases; vm_compute; intuition congruence.
  - intros pid. rewrite example_marked. change (pid ∈ [2%positive] ↔ pid = 1%positive ∧ false = true ∨ pid = 2%positive ∧ false = false).
    rewrite list_elem_of_singleton. intuition congruence.
  - intros pid. rewrite example_marked. change (pid ∈ [1%positive] ↔ pid = 1%positive ∧ true = true ∨ pid = 2%positive ∧ true = false).
    rewrite list_elem_of_singleton. intuition congruence.
  - split; apply NoDup_singleton.
  - vm_compute. reflexivity.
Qed.

Lemma example_sender_ok : sender_ok example_sending.
Proof.
  split.
  - split. 1-4, 6-9: vm_compute; intuition congruence. + by eexists. + by left.
  - exists example_out. split; [exact example_queues|]. exists 3%positive, (new_packet 2).
    split. 2-4, 6, 7, 10: vm_compute; intuition congruence.
    + split. 1-9: vm_compute; intuition congruence.
      * change (NoDup [2%positive]). apply NoDup_singleton.
      * intros wid Hw. change (wid ∈ [2%positive]) in Hw. apply list_elem_of_singleton in Hw as ->.
        eexists. split; [vm_compute; reflexivity|]. vm_compute. intuition congruence.
    + by eexists.
    + intros q [[_ ?]|[_ ?]]%example_out_cases; done.
    + intros y. change (is_Some (({[ 1%positive := example_packet (2 ^ 32 - 1) true; 2%positive := example_packet 0 false; 3%positive := new_packet 2 ]} : gmap packet_id packet) !! y) → (y < 10)%positive).
      intros [p Hp]. rewrite !lookup_insert_Some, lookup_singleton_Some in Hp. lia.
Qed.

Lemma send_packets_ok_witness : ∃ c', send_packets example_sending = Some c' ∧ sender_ok c'.
Proof. exact (send_packets_ok example_sending example_sender_ok). Defined.

Definition example_watched : ctx := example_sending <| c_s ::= λ s, s <| s_pending_timer := UDX_TIMER_TLP |> |>.
Lemma example_watched_ok : sender_ok example_watched.
Proof. exact (pending_ok example_sending UDX_TIMER_TLP example_sender_ok). Qed.
Lemma example_watched_sent : is_Some (send_packets example_watched).
Proof. destruct (send_packets_run _ example_watched_ok) as (c' & E & _). by exists c'. Qed.

Lemma send_packets_watched_witness : ∃ c', send_packets example_watched = Some c' ∧ guarded c'.
Proof.
  destruct example_watched_sent as [c' E]. exists c'. split; [exact E|].
  apply (send_packets_watched example_watched c' example_watched_ok); [|exact E].
  intros _. right. right. reflexivity.
Defined.
End Example.
