(* ===== verification/Loss.v ===== *)
(** * Loss detection and timers (src/udx.c: RACK-TLP, RTO, zero-window and keepalive probes)

    The handlers of the stream's timer.  [udx_rto_timeout] tells its caller when
    the stream has to be closed. *)

From S2P Require Import Prelude SeqNum Endian Wire WinFilter Stream Rtt Mtu Rate Float64 Bbr Ctx Send.

Section Loss.
Context `{Env}.

Definition send_probe (c : ctx) : ctx :=
  match s_socket (c_s c) with
  | None => c
  | Some _ =>
      let bytes := udx_write_header c UDX_HEADER_HEARTBEAT (s_remote_id (c_s c)) in
      let c := c <| c_io := send_small (c_io c) (s_remote_addr (c_s c)) bytes |> in
      count_sent c UDX_HEADER_SIZE
  end.

Definition udx_keepalive_timeout (c : ctx) : option ctx :=
  assert! s_seq (c_s c) =? s_remote_acked (c_s c);
  let c := send_probe c in
  Some (stream_timer_start c UDX_TIMER_KEEPALIVE (s_keepalive_timeout_ms (c_s c))).

Definition udx_zwp_timeout (c : ctx) : option ctx :=
  assert! has (s_status (c_s c)) UDX_STREAM_CONNECTED;
  assert! send_rwnd (s_wnd (c_s c)) =? 0;
  assert! Z.land (s_status (c_s c)) UDX_STREAM_CLOSED =? 0;
  let c := c <| c_s ::= λ s, s <| s_stats ::= λ k, k <| zwp_count ::= λ x, u16 (x + 1) |> |> |> in
  let c := send_probe c in
  assert! bool_decide (s_pending_timer (c_s c) = UDX_TIMER_ZWP);
  assert! (0 <? writes_queued_bytes (s_acct (c_s c)))
          || (Z.land (s_status (c_s c)) (Z.lor UDX_STREAM_ENDING UDX_STREAM_ENDED) =? UDX_STREAM_ENDING);
  Some (stream_timer_start c UDX_TIMER_ZWP (u32 (rto (s_rtt (c_s c)) * 2))).

(** ** Tail loss probe *)

Definition udx_tlp_timeout (c : ctx) : option ctx :=
  let s := c_s c in
  assert! has (s_status s) UDX_STREAM_CONNECTED;
  if s_remote_acked s =? s_seq s then Some c
  else if tlp_in_flight (s_tlp s) || negb (tlp_permitted (s_tlp s)) then rearm_rto c false
  else
    '(c, sent) ← send_new_packet c true;
    if (sent : bool) then rearm_rto c true
    else
      out ← s_outgoing (c_s c);
      match (out : gmap Z packet_id) !! u32 (s_seq (c_s c) - 1) with
      | None => rearm_rto c false
      | Some pid =>
          p ← c_packets c !! pid;
          if p_lost p || (p_ref_count p =? 2) then rearm_rto c false
          else
            q ← queue_unlink (s_inflight_queue (c_s c)) pid;
            let c := c <| c_s ::= λ s, s <| s_inflight_queue := q |>
                                         <| s_inflight ::= λ x, u64 (x - p_size p) |> |> in
            c ← retransmit_packet c pid;
            let c := c <| c_s ::= λ s, s <| s_tlp := mk_tlp_st true true false (p_seq p) |> |> in
            rearm_rto c true
      end.

(** ** RACK *)

(** Moving a packet declared lost to the retransmit queue: the statements
    shared by the two loss detectors, for the unlink from the inflight queue. *)
Definition lose_packet (c : ctx) (pid : packet_id) (p : packet) : option ctx :=
  q ← queue_unlink (s_inflight_queue (c_s c)) pid;
  Some (c <| c_packets ::= <[pid := p <| p_lost := true |>]> |>
          <| c_s ::= λ s, s <| s_inflight_queue := q |> <| s_retransmit_queue ::= λ q, q ++ [pid] |>
                            <| s_inflight ::= λ x, u64 (x - p_size p) |> |>).

Record rack_scan := mk_scan { sc_ctx : ctx; sc_timeout : Z; sc_resending : Z; sc_probes_lost : Z }.

(** The loop of rack_detect_loss over a snapshot of the inflight queue: the C loop
    saves the next node before it may unlink the current one. *)
Fixpoint rack_scan_queue (q : list packet_id) (reo_wnd : Z) (a : rack_scan) : option rack_scan :=
  match q with
  | [] => Some a
  | pid :: q =>
      let c := sc_ctx a in
      let r := s_rtt (c_s c) in
      p ← c_packets c !! pid;
      assert! 0 <? p_transmits p;
      if rack_time_sent r <? p_time_sent p then Some a
      else if p_ref_count p =? 2 then rack_scan_queue q reo_wnd a
      else if rack_sent_after (rack_time_sent r) (rack_next_seq r) (p_time_sent p) (u32 (p_seq p + 1)) then
        let remaining := i64 (u64 (p_time_sent p + rack_rtt r + reo_wnd - now c)) in
        if remaining <=? 0 then
          let c := c <| c_s ::= λ s, s <| s_rate ::= λ r, r <| lost ::= λ x, u32 (x + 1) |> |> |> in
          assert! (0 <? p_size p) && (p_size p <? 1500);
          c ← lose_packet c pid p;
          if p_is_mtu_probe p then
            '(p, m) ← mtu_unprobeify_packet (p <| p_lost := true |>) (s_mtu (c_s c));
            let c := c <| c_packets ::= <[pid := p]> |> <| c_s ::= λ s, s <| s_mtu := m |> |> in
            rack_scan_queue q reo_wnd (mk_scan c (sc_timeout a) (sc_resending a + 1) (sc_probes_lost a + 1))
          else rack_scan_queue q reo_wnd (mk_scan c (sc_timeout a) (sc_resending a + 1) (sc_probes_lost a))
        else rack_scan_queue q reo_wnd
               (mk_scan c (if sc_timeout a <? remaining then remaining else sc_timeout a)
                  (sc_resending a) (sc_probes_lost a))
      else rack_scan_queue q reo_wnd a
  end.

(** What rack_detect_loss does when something beside MTU probes was lost in the open state. *)
Definition enter_recovery (s : stream) : stream :=
  let s := s <| s_stats ::= λ k, k <| fast_recovery_count ::= λ x, u16 (x + 1) |> |>
             <| s_ca_state := UDX_CA_RECOVERY |> in
  let s := bbr_save_cwnd s in
  s <| s_high_seq := s_seq s |>
    <| s_tlp ::= λ t, t <| tlp_in_flight := false |> <| tlp_is_retrans := false |> |>.

Definition rack_detect_loss (c : ctx) : option (ctx * Z) :=
  let reo_wnd := rack_update_reo_wnd (c_s c) in
  a ← rack_scan_queue (s_inflight_queue (c_s c)) reo_wnd (mk_scan c 0 0 0);
  let c := sc_ctx a in
  let c := if sc_resending a =? sc_probes_lost a
           then c <| c_s ::= λ s, s <| s_rate ::= λ r, r <| lost ::= λ x, u32 (x - sc_probes_lost a) |> |> |>
           else c in
  let c := if (sc_probes_lost a <? sc_resending a) && (s_ca_state (c_s c) =? UDX_CA_OPEN)
           then c <| c_s ::= enter_recovery |> else c in
  c ← send_packets c;
  Some (c, u32 (sc_timeout a)).

Definition rack_detect_loss_and_arm_timer (c : ctx) : option (ctx * bool) :=
  '(c, timeout) ← rack_detect_loss c;
  if 0 <? timeout then
    assert! negb (has (s_status (c_s c)) UDX_STREAM_CLOSED);
    Some (stream_timer_start c UDX_TIMER_RACK_REO timeout, true)
  else Some (c, false).

Definition udx_rack_reo_timeout (c : ctx) : option ctx :=
  '(c, _) ← rack_detect_loss c;
  let t := s_pending_timer (c_s c) in
  let from_now := negb (bool_decide (t = UDX_TIMER_RACK_REO ∨ t = UDX_TIMER_TLP)) in
  if decide (t = UDX_TIMER_RTO) then Some c else rearm_rto c from_now.

(** ** Retransmission timeout *)

(** The loop over the outgoing packets, in sequence order. *)
Fixpoint rto_scan (seqs : list Z) (rack_reo_wnd now0 : Z) (c : ctx) : option ctx :=
  match seqs with
  | [] => Some c
  | seq :: seqs =>
      out ← s_outgoing (c_s c);
      match (out : gmap Z packet_id) !! seq with
      | None => rto_scan seqs rack_reo_wnd now0 c
      | Some pid =>
          p ← c_packets c !! pid;
          if p_lost p
          then rto_scan seqs rack_reo_wnd now0
                 (c <| c_s ::= λ s, s <| s_retransmit_queue ::= λ q, q ++ [pid] |> |>)
          else
            let remaining := i64 (u64 (p_time_sent p + rack_rtt (s_rtt (c_s c)) + rack_reo_wnd - now0)) in
            if (p_seq p =? s_remote_acked (c_s c)) || (remaining <? 0) then
              let c := c <| c_s ::= λ s, s <| s_rate ::= λ r, r <| lost ::= λ x, u32 (x + 1) |> |> |> in
              '(p, m) ← (if p_is_mtu_probe p then mtu_unprobeify_packet p (s_mtu (c_s c))
                         else Some (p, s_mtu (c_s c)));
              let c := c <| c_packets ::= <[pid := p]> |> <| c_s ::= λ s, s <| s_mtu := m |> |> in
              if p_ref_count p =? 2 then rto_scan seqs rack_reo_wnd now0 c
              else c ← lose_packet c pid p; rto_scan seqs rack_reo_wnd now0 c
            else rto_scan seqs rack_reo_wnd now0 c
      end
  end.

(** What udx_rto_timeout does before it looks at the packets. *)
Definition rto_enter_loss (s : stream) : stream :=
  let s := bbr_save_cwnd s in
  s <| s_high_seq := s_seq s |> <| s_rto_count ::= λ x, u8 (x + 1) |>
    <| s_stats ::= λ k, k <| lifetime_rto_count ::= λ x, u16 (x + 1) |> |>
    <| s_ca_state := UDX_CA_LOSS |>
    <| s_tlp ::= λ t, t <| tlp_in_flight := false |> <| tlp_is_retrans := false |> |>.

(** The scan, the new window and the transmission of udx_rto_timeout. *)
Definition rto_retransmit (c : ctx) (rack_reo_wnd : Z) : option ctx :=
  c ← rto_scan (seq_upto (s_remote_acked (c_s c)) (s_seq (c_s c))) rack_reo_wnd (now c) c;
  let c := c <| c_s ::= λ s, bbr_on_rto (s <| s_cwnd := u32 (qlen (s_inflight_queue s) + 1) |>) |> in
  send_packets c.

(** The boolean asks the caller for [close_stream(stream, UV_ETIMEDOUT)]. *)
Definition udx_rto_timeout (c : ctx) : option (ctx * bool) :=
  let c := c <| c_s ::= λ s, s <| s_pending_timer := UDX_TIMER_NONE |> |> in
  assert! has (s_status (c_s c)) UDX_STREAM_CONNECTED;
  assert! negb (s_remote_acked (c_s c) =? s_seq (c_s c));
  let c := c <| c_s ::= rto_enter_loss |> in
  assert! negb (has (s_status (c_s c)) UDX_STREAM_CLOSED);
  let c := stream_timer_start c UDX_TIMER_RTO (u32 (rto (s_rtt (c_s c)) * 2)) in
  let c := c <| c_s ::= λ s, s <| s_retransmit_queue := [] |> |> in
  let rack_reo_wnd := rack_update_reo_wnd (c_s c) in
  if UDX_MAX_RTO_TIMEOUTS <? s_rto_count (c_s c) then Some (c, true)
  else
    c ← rto_retransmit c rack_reo_wnd;
    Some (c, false).

(** ** Repair by a loss probe (RACK 7.4.2) *)

Definition detect_loss_repaired_by_loss_probe (t : tlp_st) (ack : Z) : tlp_st :=
  if tlp_in_flight t && (0 <=? seq_compare ack (tlp_end_seq t)) then
    if negb (tlp_is_retrans t) then t <| tlp_in_flight := false |>
    else if 0 <? seq_compare ack (tlp_end_seq t) then t <| tlp_in_flight := false |> else t
  else t.

End Loss.
