(* ===== verification/Write.v ===== *)
(** * Writing and acknowledging bytes (src/udx.c: udx_stream_write, on_bytes_acked, clear_outgoing_packets)

    A write request owns one write buffer per buffer of the user.  User callbacks are the
    parameter [cb] of the functions that make them: it may change the context in
    any way (it is user code), and the functions go on with what it left. *)

From S2P Require Import Prelude SeqNum Endian Wire WinFilter Stream Rtt Mtu Rate Float64 Bbr Ctx Send Loss.

Section Write.
Context `{Env}.

(** ** Queueing *)

(** The loop of _udx_stream_write; [i] counts the buffers still to come. *)
Fixpoint write_bufs (c : ctx) (wr : write_id) (bufs : list (list Z)) (is_write_end : bool) : option ctx :=
  match bufs with
  | [] => Some c
  | buf :: rest =>
      w ← c_writes c !! wr;
      let len := Z.of_nat (length buf) in
      let wid := c_next c in
      let b := mk_wbuf buf 0 0 wr (is_write_end && match rest with [] => true | _ => false end) in
      let w := w <| wr_size ::= λ x, u64 (x + len) |> in
      let c := c <| c_wbufs ::= <[wid := b]> |> <| c_writes ::= <[wr := w]> |> <| c_next ::= Pos.succ |>
                 <| c_s ::= λ s,
                    s <| s_acct ::= λ a, a <| bytes_queued ::= λ x, u64 (x + len) |>
                                           <| writes_queued_bytes ::= λ x, u64 (x + len) |> |>
                      <| s_write_queue ::= λ q, q ++ [wid] |> |> in
      write_bufs c wr rest is_write_end
  end.

Definition _udx_stream_write (c : ctx) (wr : write_id) (sid : stream_id) (bufs : list (list Z))
    (on_ack : bool) (is_write_end : bool) : option ctx :=
  assert! (0 <? length bufs)%nat;
  let stream_was_idle := writes_queued_bytes (s_acct (c_s c)) =? 0 in
  let c := c <| c_writes ::= <[wr := mk_write 0 0 is_write_end sid on_ack]> |> in
  c ← write_bufs c wr bufs is_write_end;
  let c := if stream_was_idle && (send_rwnd (s_wnd (c_s c)) =? 0)
           then stream_timer_start (send_probe c) UDX_TIMER_ZWP (rto (s_rtt (c_s c))) else c in
  send_packets c.

(** The high watermark test that ends both entry points: the result 0 asks the user to wait. *)
Definition check_watermark (c : ctx) : option (ctx * Z) :=
  w ← send_window_in_bytes (c_s c);
  if u32 (UDX_HIGH_WATERMARK + w) <? writes_queued_bytes (s_acct (c_s c))
  then Some (c <| c_s ::= λ s, s <| s_acct ::= λ a, a <| hit_high_watermark := true |> |> |>, 0)
  else Some (c, 1).

Definition udx_stream_write (c : ctx) (wr : write_id) (sid : stream_id) (bufs : list (list Z))
    (on_ack : bool) : option (ctx * Z) :=
  if negb (has (s_status (c_s c)) UDX_STREAM_CONNECTED) then Some (c, UV_ENOTCONN)
  else if has (s_status (c_s c)) UDX_STREAM_ENDING then Some (c, UV_EPIPE)
  else if (length bufs =? 0)%nat then Some (c, UV_EINVAL)
  else c ← _udx_stream_write c wr sid bufs on_ack false; check_watermark c.

Definition udx_stream_write_end (c : ctx) (wr : write_id) (sid : stream_id) (bufs : list (list Z))
    (on_ack : bool) : option (ctx * Z) :=
  if negb (has (s_status (c_s c)) UDX_STREAM_CONNECTED) then Some (c, UV_ENOTCONN)
  else if has (s_status (c_s c)) UDX_STREAM_ENDING then Some (c, UV_EPIPE)
  else
    let c := if negb (has (s_status (c_s c)) UDX_STREAM_ENDED_REMOTE)
             then c <| c_s ::= λ s, s <| s_status ::= λ f, set_flag f UDX_STREAM_TIMEWAIT_WANTED |> |>
             else c in
    let c := c <| c_s ::= λ s, s <| s_status ::= λ f, set_flag f UDX_STREAM_ENDING |> |> in
    let bufs := match bufs with [] => [[]] | _ => bufs end in
    c ← _udx_stream_write c wr sid bufs on_ack true;
    check_watermark c.

Definition udx_stream_write_resume (c : ctx) (drain_cb : bool) : ctx :=
  c <| c_s ::= λ s, s <| s_cb ::= λ k, k <| on_drain := drain_cb |> |> |>.

(** ** Acknowledgement *)

Variable cb : callback → ctx → option ctx.

(** Calling the user: the call is logged, then the user's code runs. *)
Definition call (k : callback) (c : ctx) : option ctx :=
  cb k (c <| c_io ::= λ i, i <| io_log ::= cons (EvCallback k) |> |>).

Definition on_bytes_acked (c : ctx) (wid : wbuf_id) (bytes : Z) (cancelled : bool) : option ctx :=
  b ← c_wbufs c !! wid;
  w ← c_writes c !! wb_write b;
  b ← (if cancelled then Some b
       else assert! bytes <=? wb_bytes_inflight b;
            Some (b <| wb_bytes_inflight ::= λ x, x - bytes |>));
  let b := b <| wb_bytes_acked ::= λ x, u64 (x + bytes) |> in
  assert! wb_bytes_acked b <=? wb_len b;
  let w := w <| wr_bytes_acked ::= λ x, u64 (x + bytes) |> in
  assert! wr_bytes_acked w <=? wr_size w;
  assert! bytes <=? writes_queued_bytes (s_acct (c_s c));
  let c := c <| c_wbufs ::= <[wid := b]> |> <| c_writes ::= <[wb_write b := w]> |>
             <| c_s ::= λ s, s <| s_acct ::= λ a, a <| writes_queued_bytes ::= λ x, x - bytes |> |> |> in
  if cancelled then Some c
  else
    let a := s_acct (c_s c) in
    if hit_high_watermark a then
      win ← send_window_in_bytes (c_s c);
      if writes_queued_bytes a <? u32 (UDX_HIGH_WATERMARK + win) then
        let c := c <| c_s ::= λ s, s <| s_acct ::= λ a, a <| hit_high_watermark := false |> |> |> in
        if on_drain (s_cb (c_s c)) then call CbDrain c else Some c
      else Some c
    else Some c.

(** [if (write->bytes_acked == write->size && write->on_ack) write->on_ack(...)]. *)
Definition ack_write (c : ctx) (wid : wbuf_id) (status unordered : Z) : option ctx :=
  b ← c_wbufs c !! wid;
  w ← c_writes c !! wb_write b;
  if (wr_bytes_acked w =? wr_size w) && wr_on_ack w
  then call (CbAck (wb_write b) status unordered) c else Some c.

Fixpoint cancel_chunks (c : ctx) (ks : list chunk) : option ctx :=
  match ks with
  | [] => Some c
  | k :: ks =>
      c ← on_bytes_acked c (ck_wbuf k) (ck_len k) true;
      c ← ack_write c (ck_wbuf k) UV_ECANCELED 0;
      cancel_chunks c ks
  end.
Definition cancel_packet (c : ctx) (pid : packet_id) : option ctx :=
  p ← c_packets c !! pid; cancel_chunks c (p_chunks p).

(** The three loops of clear_outgoing_packets. *)
Fixpoint clear_outgoing_seqs (c : ctx) (seqs : list Z) : option ctx :=
  match seqs with
  | [] => Some c
  | seq :: seqs =>
      out ← s_outgoing (c_s c);
      match (out : gmap Z packet_id) !! seq with
      | None => clear_outgoing_seqs c seqs
      | Some pid =>
          let c := c <| c_s ::= λ s, s <| s_outgoing := Some (delete seq out) |> |> in
          c ← cancel_packet c pid;
          c ← deref_packet c pid;
          clear_outgoing_seqs c seqs
      end
  end.
Fixpoint clear_write_queue (fuel : nat) (c : ctx) : option ctx :=
  match s_write_queue (c_s c), fuel with
  | [], _ => Some c
  | _, O => None
  | wid :: q, S fuel =>
      let c := c <| c_s ::= λ s, s <| s_write_queue := q |> |> in
      b ← c_wbufs c !! wid;
      c ← on_bytes_acked c wid (u64 (wb_len b - wb_bytes_acked b)) true;
      c ← ack_write c wid UV_ECANCELED 0;
      clear_write_queue fuel c
  end.
Definition clear_outgoing_packets (c : ctx) : option ctx :=
  c ← (match s_pkt (c_s c) with
       | None => Some c
       | Some pid =>
           p ← c_packets c !! pid;
           assert! p_ref_count p =? 1;
           c ← cancel_packet c pid;
           deref_packet c pid
       end);
  c ← clear_outgoing_seqs c (seq_upto (s_remote_acked (c_s c)) (s_seq (c_s c)));
  clear_write_queue (length (s_write_queue (c_s c))) c.

End Write.
