(* ===== verification/Ack.v ===== *)
(** * Acknowledging packets (src/udx.c: ack_packet, send_ack, the SACK checks)

    [ack_packet] removes a packet from the outgoing buffer, updates the MTU, rate,
    RTT and RACK state, and acknowledges its bytes to the writes they came from,
    calling the user when a write is complete. *)

From S2P Require Import Prelude SeqNum Endian Wire WinFilter Stream Rtt Mtu Rate Float64 Bbr Ctx Send Loss Write.

Section Ack.
Context `{Env}.
Variable cb : callback → ctx → option ctx.

(** The result codes of ack_packet: 0 nothing was there, 1 acked, 2 stop. *)

(** The loop over the data buffers; [true] when user code killed the stream. *)
Fixpoint ack_chunks (c : ctx) (ks : list chunk) (sack : bool) : option (ctx * bool) :=
  match ks with
  | [] => Some (c, false)
  | k :: ks =>
      let c := c <| c_s ::= λ s, s <| s_acct ::= λ a, a <| bytes_acked ::= λ x, u64 (x + ck_len k) |> |> |> in
      c ← on_bytes_acked cb c (ck_wbuf k) (ck_len k) false;
      if has (s_status (c_s c)) UDX_STREAM_DEAD then Some (c, true)
      else
        c ← ack_write cb c (ck_wbuf k) 0 (if sack then 1 else 0);
        if has (s_status (c_s c)) UDX_STREAM_DEAD then Some (c, true)
        else ack_chunks c ks sack
  end.

(** The condition under which the local end is acknowledged. *)
Definition end_acked (s : stream) : bool :=
  (Z.land (s_status s) UDX_STREAM_SHOULD_END =? UDX_STREAM_END)
  && (qlen (s_inflight_queue s) =? 0) && (qlen (s_retransmit_queue s) =? 0)
  && (qlen (s_write_queue s) =? 0).

(** The queue and estimator updates of ack_packet, before any byte is acknowledged. *)
Definition ack_update (now0 : Z) (s : stream) (pid : packet_id) (p : packet) (seq : Z) (sack : bool)
    (rs : udx_rate_sample_t) : option (stream * udx_rate_sample_t) :=
  let s := s <| s_mtu ::= λ m, mtu_on_ack m (p_is_mtu_probe p) |> in
  let s := if sack then s <| s_sacks ::= λ x, u32 (x + 1) |> else s in
  s ← (if p_lost p
       then q ← queue_unlink (s_retransmit_queue s) pid; Some (s <| s_retransmit_queue := q |>)
       else q ← queue_unlink (s_inflight_queue s) pid;
            Some (s <| s_inflight_queue := q |> <| s_inflight ::= λ x, u64 (x - p_size p) |>));
  let '(r, rs) := udx__rate_pkt_delivered (s_rate s) p rs in
  let s := s <| s_rate := r |> in
  let '(rtt_state, rtt, accepted) := ack_rtt (s_rtt s) now0 (p_time_sent p) seq (p_retransmitted p) in
  let s := s <| s_rtt := rtt_state |> in
  let s := if negb (p_retransmitted p)
           then s <| s_tlp ::= λ t, t <| tlp_permitted := true |> |> else s in
  Some (s, if accepted then rs <| rs_rtt_ms := rtt |> else rs).

Definition ack_packet (c : ctx) (seq : Z) (sack : bool) (rs : udx_rate_sample_t) :
    option (ctx * udx_rate_sample_t * Z) :=
  out ← s_outgoing (c_s c);
  match (out : gmap Z packet_id) !! seq with
  | None =>
      Some (if sack then c else c <| c_s ::= λ s, s <| s_sacks ::= λ x, u32 (x - 1) |> |>, rs, 0)
  | Some pid =>
      let c := c <| c_s ::= λ s, s <| s_outgoing := Some (delete seq out) |> |> in
      p ← c_packets c !! pid;
      '(s, rs) ← ack_update (now c) (c_s c) pid p seq sack rs;
      '(c, dead) ← ack_chunks (c <| c_s := s |>) (p_chunks p) sack;
      c ← deref_packet c pid;
      if (dead : bool) then Some (c, rs, 2)
      else if end_acked (c_s c)
           then Some (c <| c_s ::= λ s, s <| s_status ::= λ f, set_flag f UDX_STREAM_ENDED |> |>, rs, 2)
           else Some (c, rs, 1)
  end.

(** The cumulative loop of process_packet; the boolean is [ended]. *)
Fixpoint ack_cumulative (c : ctx) (seqs : list Z) (rs : udx_rate_sample_t) :
    option (ctx * udx_rate_sample_t * bool) :=
  match seqs with
  | [] => Some (c, rs, false)
  | seq :: seqs =>
      '(c, rs, a) ← ack_packet c seq false rs;
      if a =? 2 then Some (c, rs, true)
      else ack_cumulative
             (if a =? 1 then c <| c_s ::= λ s, s <| s_rate ::= λ r, r <| delivered ::= λ x, u32 (x + 1) |> |> |>
              else c) seqs rs
  end.

Definition udx_sack_is_valid (s : stream) (start_seq end_seq : Z) : bool :=
  negb (0 <? seq_diff end_seq (s_seq s))
  && negb (0 <=? seq_diff start_seq end_seq)
  && negb (0 <=? seq_diff start_seq (s_seq s))
  && negb (seq_diff start_seq (s_remote_acked s) <? 0).

(** One valid SACK block; the loop stops at a result of 2. *)
Fixpoint ack_sack_block (c : ctx) (seqs : list Z) (rs : udx_rate_sample_t) :
    option (ctx * udx_rate_sample_t) :=
  match seqs with
  | [] => Some (c, rs)
  | seq :: seqs =>
      '(c, rs, a) ← ack_packet c seq true rs;
      if a =? 2 then Some (c, rs)
      else ack_sack_block
             (if a =? 1 then c <| c_s ::= λ s, s <| s_rate ::= λ r, r <| delivered ::= λ x, u32 (x + 1) |> |> |>
              else c) seqs rs
  end.

Fixpoint ack_sacks (c : ctx) (blocks : list (Z * Z)) (rs : udx_rate_sample_t) :
    option (ctx * udx_rate_sample_t) :=
  match blocks with
  | [] => Some (c, rs)
  | (start, end_) :: blocks =>
      if udx_sack_is_valid (c_s c) start end_
      then '(c, rs) ← ack_sack_block c (seq_upto start end_) rs; ack_sacks c blocks rs
      else ack_sacks (c <| c_s ::= λ s, s <| s_stats ::= λ k, k <| dropped_sacks ::= λ x, u32 (x + 1) |> |> |>)
             blocks rs
  end.

(** ** Sending an ACK

    The boolean asks the caller for [close_stream(stream, 0)]: both sides have ended. *)
Definition send_ack (c : ctx) : option (ctx * bool) :=
  match s_socket (c_s c) with
  | None => Some (c <| c_s ::= λ s, s <| s_ack_needed := true |> |>, false)
  | Some _ =>
      let s := c_s c in
      let blocks := map (λ b, (sb_start b, sb_end b)) (s_sack_tree s) in
      let bytes := ack_packet_bytes env_host (s_remote_id s) (c_rwnd c) (s_seq s) (s_ack s) blocks in
      let c := c <| c_io := send_small (c_io c) (s_remote_addr s) bytes |> in
      let c := count_sent c (Z.of_nat (length bytes)) in
      c ← (if (Z.land (s_status (c_s c)) UDX_STREAM_SHOULD_END_REMOTE =? UDX_STREAM_END_REMOTE)
              && (seq_compare (s_remote_ended (c_s c)) (s_ack (c_s c)) <=? 0)
           then
             let c := c <| c_s ::= λ s, s <| s_status ::= λ f, set_flag f UDX_STREAM_ENDED_REMOTE |> |> in
             if on_read (s_cb (c_s c)) then call cb (CbRead UV_EOF []) c else Some c
           else Some c);
      if Z.land (s_status (c_s c)) UDX_STREAM_ALL_ENDED =? UDX_STREAM_ALL_ENDED then
        assert! qlen (s_retransmit_queue (c_s c)) =? 0;
        assert! qlen (s_write_queue (c_s c)) =? 0;
        Some (c, true)
      else Some (c, false)
  end.

End Ack.
