(* ===== verification/Convey.v ===== *)
(** * What is on the wire (src/udx.c: every function that sends or queues data)

    The bytes written to a stream, in order, are the payloads of the packets numbered so far, the payload of the packet under
    construction, and what is still queued.  [faithful] states this, that an outgoing packet still has the payload
    of its number, and that every data datagram handed to the network has the number and the payload of one of
    these packets, however often it was sent and whether or not it was padded into an MTU probe.  Every packet is
    allocated once, so the allocation counter bounds how many there are.
    [conveys c c'] says that an operation keeps it, for more packets. *)

From S2P Require Import Prelude SeqNum Endian Wire WinFilter Stream Rtt Mtu Rate Float64 Bbr Ctx Send Packetize Sender Loss Write Ack.

(** What the two ends agree on: the number of the first packet, and the id the peer knows its stream by. *)
Class Numbering := { first_seq : Z; peer_id : Z }.

(** The packet sent with a sequence number and not yet acknowledged. *)
Definition sent_at (c : ctx) (q : Z) : option packet_id := out ← s_outgoing (c_s c); out !! q.

Section Faithful.
Context `{Env} `{Numbering}.

(** ** The bytes written *)

(** The buffers with an address below the [n]-th, in the order of allocation, which is the order of writing. *)
Fixpoint written_below (m : gmap wbuf_id wbuf) (n : nat) : list Z :=
  match n with
  | O => []
  | S n => written_below m n ++ match m !! Pos.of_succ_nat n with Some b => wb_buf b | None => [] end
  end.
Definition written (c : ctx) : list Z := written_below (c_wbufs c) (pred (Pos.to_nat (c_next c))).

(** Type and payload of a packet. *)
Definition content : Type := Z * list Z.

(** A datagram for the peer that carries data or an end carries one of the packets. *)
Definition conveyed (sent : list content) (b : list Z) : Prop :=
  ∀ host h, parse_header host b = Some h → h_local_id h = peer_id → has (h_type h) UDX_HEADER_DATA_OR_END = true →
    ∃ i x, sent !! i = Some x ∧ h_seq h = u32 (first_seq + Z.of_nat i) ∧ h_type h = x.1 ∧ skip_data_offset (h_data_offset h) b = Some x.2.

(** The datagrams handed to libuv. *)
Definition datagram_of (e : event) : option (list Z) :=
  match e with EvTrySend _ b _ | EvSend _ b _ => Some b | _ => None end.
Definition datagrams (c : ctx) : list (list Z) := omap datagram_of (io_log (c_io c)).

(** The header of a packet of type [t] and number [q]. *)
Definition headed (p : packet) (t q : Z) : Prop :=
  ∃ o rid rwnd ack, p_header p = <[3%nat := o]> (header_bytes env_host t rid rwnd q ack) ∧ is_u8 t ∧
    if p_is_mtu_probe p then 0 <= o else o = 0.

(** Types are data and end, and what has no data has no payload. *)
Definition content_ok (x : content) : Prop :=
  Z.ldiff x.1 UDX_HEADER_DATA_OR_END = 0 ∧ (has x.1 UDX_HEADER_DATA = false → x.2 = []).

(** An outgoing packet has the payload of its number. *)
Definition outgoing_ok (sent : list content) (c : ctx) (q : Z) (pid : packet_id) : Prop :=
  ∃ p i x, c_packets c !! pid = Some p ∧ p_seq p = q ∧ sent !! i = Some x ∧ q = u32 (first_seq + Z.of_nat i) ∧
    headed p x.1 q ∧ packet_data c p = Some x.2.

Record faithful (sent : list content) (c : ctx) : Prop := {
  fa_seq : s_seq (c_s c) = u32 (first_seq + Z.of_nat (length sent));
  fa_types : Forall content_ok sent;
  fa_bytes : ∃ pid p d, s_pkt (c_s c) = Some pid ∧ c_packets c !! pid = Some p ∧ packet_data c p = Some d ∧
    p_is_mtu_probe p = false ∧ (has (s_pkt_header_flag (c_s c)) UDX_HEADER_DATA = false → d = []) ∧
    mjoin sent.*2 ++ d ++ unsent c = written c;
  fa_out : ∀ out q pid, s_outgoing (c_s c) = Some out → out !! q = Some pid → outgoing_ok sent c q pid;
  fa_wire : ∀ b, b ∈ datagrams c → conveyed sent b;
  fa_alloc : ∀ x, is_Some (c_wbufs c !! x) → (x < c_next c)%positive;
  fa_count : (length sent < Pos.to_nat (c_next c))%nat }.

(** ** Datagrams *)

Lemma conveyed_more sent more b : conveyed sent b → conveyed (sent ++ more) b.
Proof.
  intros Hc host h E Hp Ht. destruct (Hc host h E Hp Ht) as (i & x & Hi & ?). exists i, x. split; [by apply lookup_app_l_Some|done].
Qed.

(** Datagrams without data or end: acknowledgements, probes, messages. *)
Lemma header_conveyed sent t rid rwnd seq ack rest :
  is_u8 t → has t UDX_HEADER_DATA_OR_END = false → conveyed sent (header_bytes env_host t rid rwnd seq ack ++ rest).
Proof.
  intros Ht Hn host h E _ Hd. pose proof (parse_header_any host env_host t rid rwnd seq ack 0 rest Ht) as E'.
  change (<[3%nat:=0]> (header_bytes env_host t rid rwnd seq ack)) with (header_bytes env_host t rid rwnd seq ack) in E'.
  rewrite E' in E. injection E as <-. cbn in Hd. congruence.
Qed.

(** The datagram of a packet. *)
Lemma wire_conveyed sent p i x :
  headed p x.1 (u32 (first_seq + Z.of_nat i)) → sent !! i = Some x → conveyed sent (packet_wire p x.2).
Proof.
  intros (o & rid & rwnd & ack & Eh & Ht & Ho) Hi host h E _ _. exists i, x. split; [done|].
  set (q := u32 (first_seq + Z.of_nat i)) in *.
  assert (∃ pad, packet_wire p x.2 = <[3%nat := o]> (header_bytes env_host x.1 rid rwnd q ack) ++ pad ++ x.2 ∧ 0 <= o ∧ length pad = Z.to_nat o)
    as (pad & Ew & Hpos & Hpad).
  { unfold packet_wire. rewrite Eh. destruct (p_is_mtu_probe p).
    - exists (repeat 0 (Z.to_nat o)). rewrite repeat_length. done.
    - exists []. subst o. done. }
  rewrite Ew in E |- *. rewrite parse_header_any in E by done. injection E as <-. cbn [h_seq h_type h_data_offset].
  split; [unfold q; apply u32_idem|]. split; [done|]. unfold skip_data_offset, UDX_HEADER_SIZE.
  rewrite drop_app_ge by (rewrite length_insert, header_bytes_length; lia).
  rewrite length_insert, header_bytes_length. change (Z.to_nat 20 - 20)%nat with 0%nat. rewrite drop_0.
  destruct (Z.eqb_spec o 0) as [->|]; [by destruct pad|]. rewrite length_app, (proj2 (Z.ltb_ge _ _)) by lia.
  rewrite drop_app_ge by lia. by rewrite Hpad, Nat.sub_diag.
Qed.

End Faithful.

Section Conveys.
Context `{Env}.

(** What was sent stays, and more may be sent; nothing is written. *)
Definition conveys (c c' : ctx) : Prop :=
  ∀ (N : Numbering) sent, faithful sent c → written c' = written c ∧ ∃ more, faithful (sent ++ more) c'.

#[global] Instance conveys_refl : Reflexive conveys.
Proof. intros c N sent Hf. split; [done|]. exists []. by rewrite app_nil_r. Qed.
#[global] Instance conveys_trans : Transitive conveys.
Proof.
  intros c1 c2 c3 H1 H2 N sent Hf. destruct (H1 N sent Hf) as (P1 & m1 & F1). destruct (H2 N _ F1) as (P2 & m2 & F2).
  split; [congruence|]. exists (m1 ++ m2). by rewrite app_assoc.
Qed.

(** A datagram that carries no packet of the stream. *)
Definition silent (b : list Z) : Prop := ∀ (N : Numbering) sent, conveyed sent b.

(** ** Views *)

(** The fields of the stream that this is about. *)
Definition wire_view (s : stream) := (s_seq s, s_pkt s, s_pkt_header_flag s, s_write_queue s, s_outgoing s).

(** A packet that is still what it was to the wire. *)
Definition same_wire (p p' : packet) : Prop :=
  p_chunks p' = p_chunks p ∧ p_seq p' = p_seq p ∧ (∀ t q, headed p t q → headed p' t q) ∧ (p_is_mtu_probe p = false → p_is_mtu_probe p' = false).

Lemma same_wire_refl p : same_wire p p.
Proof. by split_and!. Qed.

(** Packets that the stream owns stay what they are; others may go. *)
Definition wire_packets (s : stream) (m m' : gmap packet_id packet) : Prop :=
  ∀ pid p, m !! pid = Some p → s_pkt s = Some pid ∨ (∃ out q, s_outgoing s = Some out ∧ out !! q = Some pid) →
    ∃ p', m' !! pid = Some p' ∧ same_wire p p'.

Lemma faithful_view `{Numbering} sent c c' :
  (s_seq (c_s c'), s_pkt (c_s c'), s_pkt_header_flag (c_s c'), s_write_queue (c_s c')) =
  (s_seq (c_s c), s_pkt (c_s c), s_pkt_header_flag (c_s c), s_write_queue (c_s c)) →
  (∀ out', s_outgoing (c_s c') = Some out' → ∃ out, s_outgoing (c_s c) = Some out ∧ out' ⊆ out) →
  wire_packets (c_s c') (c_packets c) (c_packets c') → (c_wbufs c', c_next c') = (c_wbufs c, c_next c) →
  (∀ b, b ∈ datagrams c' → b ∈ datagrams c ∨ conveyed sent b) →
  faithful sent c → faithful sent c'.
Proof.
  intros [= E1 E2 E3 E4] Ho Hp [= E5 E6] Hd [F1 F2 (pid & p & d & G1 & G2 & G3 & G4 & G5 & G6) F4 F5 F6 F7].
  split; rewrite ?E1, ?E2, ?E3, ?E5, ?E6; try done.
  - destruct (Hp pid p G2) as (p' & Hp' & K1 & _ & _ & K4); [left; congruence|]. exists pid, p', d. do 2 (split; [done|]).
    unfold packet_data, unsent, written. rewrite K1, E4, E5, E6. split; [done|]. split; [by apply K4|done].
  - intros out' q x Hout Hx. destruct (Ho out' Hout) as (out & Eo & Hsub). pose proof (lookup_weaken _ _ _ _ Hx Hsub) as Hx'.
    destruct (F4 out q x Eo Hx') as (p0 & i & y & P1 & P2 & P3 & P4 & P5 & P6).
    destruct (Hp x p0 P1) as (p' & Hp' & K1 & K2 & K3 & _); [right; by exists out', q|]. exists p', i, y.
    split; [done|]. split; [congruence|]. split; [done|]. split; [done|]. split; [by apply K3|]. unfold packet_data. by rewrite K1, E5.
  - intros b [Hb|Hb]%Hd; [by apply F5|done].
Qed.

Lemma conveys_view c c' :
  (s_seq (c_s c'), s_pkt (c_s c'), s_pkt_header_flag (c_s c'), s_write_queue (c_s c')) =
  (s_seq (c_s c), s_pkt (c_s c), s_pkt_header_flag (c_s c), s_write_queue (c_s c)) →
  (∀ out', s_outgoing (c_s c') = Some out' → ∃ out, s_outgoing (c_s c) = Some out ∧ out' ⊆ out) →
  wire_packets (c_s c') (c_packets c) (c_packets c') → (c_wbufs c', c_next c') = (c_wbufs c, c_next c) →
  (∀ b, b ∈ datagrams c' → b ∈ datagrams c ∨ silent b) → conveys c c'.
Proof.
  intros E1 E2 E3 [= E4 E5] E6 N sent Hf. split; [unfold written; by rewrite E4, E5|]. exists []. rewrite app_nil_r.
  apply (faithful_view sent c); [done|done|done|congruence| |done]. intros b [?|Hb]%E6; [by left|right; apply Hb].
Qed.

(** All of the packets are kept. *)
Lemma wire_packets_same s m m' : (∀ pid p, m !! pid = Some p → ∃ p', m' !! pid = Some p' ∧ same_wire p p') → wire_packets s m m'.
Proof. intros Hm pid p Hp _. by apply Hm. Qed.

Lemma conveys_same c c' :
  wire_view (c_s c') = wire_view (c_s c) → (∀ pid p, c_packets c !! pid = Some p → ∃ p', c_packets c' !! pid = Some p' ∧ same_wire p p') →
  (c_wbufs c', c_next c') = (c_wbufs c, c_next c) →
  (∀ b, b ∈ datagrams c' → b ∈ datagrams c ∨ silent b) → conveys c c'.
Proof.
  intros [= E1 E2 E3 E4 E5] Hp Eb Hd. apply conveys_view; [congruence| |by apply wire_packets_same|done|done].
  rewrite E5. intros out' E. by exists out'.
Qed.

Lemma kept_packets (m : gmap packet_id packet) : ∀ pid p, m !! pid = Some p → ∃ p', m !! pid = Some p' ∧ same_wire p p'.
Proof. intros pid p Hp. exists p. split; [done|apply same_wire_refl]. Qed.
Lemma kept_insert (m : gmap packet_id packet) pid p p' : m !! pid = Some p → same_wire p p' →
  ∀ x y, m !! x = Some y → ∃ y', <[pid := p']> m !! x = Some y' ∧ same_wire y y'.
Proof.
  intros Hp Hs x y Hy. destruct (decide (x = pid)) as [->|].
  - exists p'. rewrite lookup_insert_eq. assert (y = p) as -> by congruence. done.
  - exists y. rewrite lookup_insert_ne by done. split; [done|apply same_wire_refl].
Qed.

Lemma conveys_stream c s : wire_view s = wire_view (c_s c) → conveys c (c <| c_s := s |>).
Proof. intros E. apply conveys_same; [done|apply kept_packets|done|by left]. Qed.
Lemma conveys_packet c pid p p' : c_packets c !! pid = Some p → same_wire p p' → conveys c (c <| c_packets ::= <[pid := p']> |>).
Proof. intros Hp Hs. apply conveys_same; [done|by apply (kept_insert _ _ p)|done|by left]. Qed.
Lemma conveys_io c i : (∀ b, b ∈ datagrams (c <| c_io := i |>) → b ∈ datagrams c ∨ silent b) → conveys c (c <| c_io := i |>).
Proof. intros Hd. apply conveys_same; [done|apply kept_packets|done|done]. Qed.

(** ** Small datagrams *)

Lemma send_small_datagrams i dest bytes :
  ∀ b, b ∈ omap datagram_of (io_log (send_small i dest bytes)) → b ∈ omap datagram_of (io_log i) ∨ b = bytes.
Proof.
  intros b. unfold send_small, uv_udp_try_send, uv_udp_send. cbn. destruct (_ =? _); cbn; rewrite !elem_of_cons; intuition.
Qed.

Lemma send_small_conveys c dest t rid rwnd seq ack rest :
  is_u8 t → has t UDX_HEADER_DATA_OR_END = false →
  conveys c (c <| c_io := send_small (c_io c) dest (header_bytes env_host t rid rwnd seq ack ++ rest) |>).
Proof.
  intros Ht Hn. apply conveys_io. intros b [Hb| ->]%send_small_datagrams; [by left|right]. intros N sent. by apply header_conveyed.
Qed.

(** An ACK carries no packet. *)
Lemma ack_silent rid rwnd seq ack blocks : silent (ack_packet_bytes env_host rid rwnd seq ack blocks).
Proof. intros N sent. unfold ack_packet_bytes. cbv zeta. destruct (0 <? _); by apply header_conveyed. Qed.

Lemma send_probe_conveys c : conveys c (send_probe c).
Proof.
  unfold send_probe. destruct (s_socket (c_s c)) as [k|]; [|done].
  transitivity (c <| c_io := send_small (c_io c) (s_remote_addr (c_s c)) (udx_write_header c UDX_HEADER_HEARTBEAT (s_remote_id (c_s c))) |>).
  - unfold udx_write_header. rewrite <- (app_nil_r (header_bytes _ _ _ _ _ _)). by apply send_small_conveys.
  - apply conveys_same; [done|apply kept_packets|done|by left].
Qed.

(** ** Headers *)

Lemma put_word_shape host w : ∃ a b c d, put_word host w = [a; b; c; d].
Proof.
  pose proof (put_word_length host w) as E. destruct (put_word host w) as [|a [|b [|c [|d [|? ?]]]]]; try discriminate E. by exists a, b, c, d.
Qed.

Lemma headed_patch p t q r a :
  headed p t q → headed (p <| p_header ::= λ h, patch_word (patch_word h 8 r) 16 a |>) t q.
Proof.
  intros (o & rid & rwnd & ack & Eh & Ht & Ho). exists o, rid, r, a. split; [|done]. cbn [p_header upd_field]. rewrite Eh, !header_set_offset.
  unfold patch_word, put_words. cbn [mbind list_bind]. rewrite !app_nil_r.
  destruct (put_word_shape env_host rid) as (? & ? & ? & ? & ->), (put_word_shape env_host rwnd) as (? & ? & ? & ? & ->),
    (put_word_shape env_host q) as (? & ? & ? & ? & ->), (put_word_shape env_host ack) as (? & ? & ? & ? & ->),
    (put_word_shape env_host r) as (? & ? & ? & ? & ->), (put_word_shape env_host a) as (? & ? & ? & ? & ->). done.
Qed.

Lemma unprobeify_wire p m p' m' : mtu_unprobeify_packet p m = Some (p', m') → same_wire p p'.
Proof.
  unfold mtu_unprobeify_packet. destruct (p_is_mtu_probe p); [|done]. intros [= <- <-]. split; [done|]. split; [done|].
  split; [|done]. intros t q (o & rid & rwnd & ack & Eh & Ht & Ho). exists 0, rid, rwnd, ack. split; [|done]. cbn [p_header upd_field]. rewrite Eh.
  by rewrite list_insert_insert_eq.
Qed.

(** ** One transmission *)

Definition wire_core (p : packet) := (p_chunks p, p_seq p, p_header p, p_is_mtu_probe p).

Lemma core_same_wire p p' : wire_core p' = wire_core p → same_wire p p'.
Proof. intros [= E1 E2 E3 E4]. split; [done|]. split; [done|]. split; [|by rewrite E4]. intros t q. unfold headed. by rewrite E3, E4. Qed.

(** The context after [pid] was handed over. *)
Record on_wire (c : ctx) (pid : packet_id) (p : packet) (c' : ctx) : Prop := {
  ow_packets : ∃ p', c_packets c' = <[pid := p']> (c_packets c) ∧ wire_core p' = wire_core p;
  ow_view : wire_view (c_s c') = wire_view (c_s c);
  ow_bufs : (c_wbufs c', c_next c') = (c_wbufs c, c_next c);
  ow_log : ∀ b, b ∈ datagrams c' → b ∈ datagrams c ∨ ∃ d, packet_data c p = Some d ∧ b = packet_wire p d }.

Lemma packet_wire_core p p' d : wire_core p' = wire_core p → packet_wire p' d = packet_wire p d.
Proof. intros [= _ _ E1 E2]. unfold packet_wire. by rewrite E1, E2. Qed.

Lemma transmit_wire c pid p c' :
  transmit c pid p = Some c' → c_packets c !! pid = Some p → on_wire c pid p c'.
Proof.
  unfold transmit, uv_udp_try_send, uv_udp_send, packet_bytes. intros E Hp. apply bind_Some in E as (bytes & Eb & E).
  apply bind_Some in Eb as (d & Ed & [= <-]). cbv zeta in E.
  assert (∀ b, b = packet_wire p d → ∃ d, packet_data c p = Some d ∧ b = packet_wire p d) as Hd by (intros b ->; by exists d).
  destruct (_ =? UV_EAGAIN) in E.
  - match type of E with (if ?b then _ else None) = _ => destruct b eqn:Er; [|done] end. apply Z.eqb_eq in Er.
    destruct (truthy _) in E.
    + unfold deref_packet in E. cbn [c_packets upd_field] in E. rewrite lookup_insert_eq in E. cbn [mbind option_bind] in E. rewrite Er in E.
      change (u8 (2 - 1)) with 1 in E. cbn [Z.eqb] in E. injection E as <-. split; [| |done|].
      * eexists. cbn [c_packets upd_field]. by rewrite insert_insert_eq.
      * done.
      * intros b. unfold datagrams. cbn. rewrite !elem_of_cons. intuition.
    + injection E as <-. split; [|done|done|].
      * eexists. by cbn [c_packets upd_field].
      * intros b. unfold datagrams. cbn. rewrite !elem_of_cons. intuition.
  - injection E as <-. split; [|done|done|].
    + exists p. cbn [c_packets upd_field]. by rewrite insert_id.
    + intros b. unfold datagrams. cbn. rewrite elem_of_cons. intuition.
Qed.

Lemma rate_sent_wire n s p : wire_core (udx__rate_pkt_sent n s p).2 = wire_core p ∧ wire_view (udx__rate_pkt_sent n s p).1 = wire_view s.
Proof. unfold udx__rate_pkt_sent. cbv zeta. by repeat case_match. Qed.

Lemma app_limited_wire s s' : udx__rate_check_app_limited s = Some s' → wire_view s' = wire_view s.
Proof.
  unfold udx__rate_check_app_limited. intros E. apply bind_Some in E as (mp & _ & E). cbv zeta in E. destruct (_ && _ && _); by injection E as <-.
Qed.

(** The counters and the pacing timer, at the end. *)
Lemma count_log c n s : io_log (c_io (count_sent c n <| c_s := s |>)) = io_log (c_io c).
Proof. reflexivity. Qed.
Lemma on_wire_count c pid p c4 n s :
  on_wire c pid p c4 → wire_view s = wire_view (c_s c4) → on_wire c pid p (count_sent c4 n <| c_s := s |>).
Proof.
  intros [W1 W2 W3 W4] V. split; [exact W1|by rewrite <- W2|exact W3|]. intros b. unfold datagrams. rewrite count_log. apply W4.
Qed.
Lemma count_view c n m t :
  wire_view (c_s (count_sent c n) <| s_tb_available := m |>) = wire_view (c_s c) ∧
  wire_view (c_s (count_sent c n) <| s_tb_available := m |> <| s_refill_pacing_timer := t |>) = wire_view (c_s c).
Proof. by split. Qed.

(** The transmission of a packet that keeps its header and chunks. *)
Lemma drop_log i p : io_log (drop_decision i p).1 = io_log i.
Proof. unfold drop_decision. by destruct (has _ UDX_DEBUG_FORCE_DROP_DATA). Qed.

Lemma on_wire_through c pid p c3 p2 c4 :
  wire_core p2 = wire_core p → c_packets c3 = <[pid := p2]> (c_packets c) → wire_view (c_s c3) = wire_view (c_s c) →
  (c_wbufs c3, c_next c3) = (c_wbufs c, c_next c) → datagrams c3 = datagrams c → on_wire c3 pid p2 c4 → on_wire c pid p c4.
Proof.
  intros C3 P3 V3 B3 D3 [[p4 [P4 C4]] W2 W3 W4]. injection B3 as B3 N3. injection C3 as K1 K2 K3 K4. injection C4 as L1 L2 L3 L4. split.
  - exists p4. rewrite P4, P3, insert_insert_eq. split; [done|]. unfold wire_core. congruence.
  - by rewrite W2.
  - rewrite W3. congruence.
  - intros b Hb. destruct (W4 b Hb) as [Hb'|(d & Ed & ->)]; [left; by rewrite <- D3|right]. exists d.
    unfold packet_data in *. rewrite K1, B3 in Ed. split; [exact Ed|]. apply packet_wire_core. unfold wire_core. congruence.
Qed.

Lemma requeue_wire s1 p1 pid s2 p2 :
  (if p_lost p1 then q ← queue_unlink (s_retransmit_queue s1) pid; Some (s1 <| s_retransmit_queue := q |>, p1 <| p_lost := false |>)
   else Some (s1, p1)) = Some (s2, p2) → wire_view s2 = wire_view s1 ∧ wire_core p2 = wire_core p1.
Proof. destruct (p_lost p1); [|by intros [= <- <-]]. intros E. apply bind_Some in E as (q & _ & E). by injection E as <- <-. Qed.

(** What [_send_packet] does after the rate sample. *)
Definition send_rest (c : ctx) (pid : packet_id) (sp : stream * packet) : option ctx :=
  '(s, p) ← (if p_lost sp.2
             then q ← queue_unlink (s_retransmit_queue sp.1) pid;
                  Some (sp.1 <| s_retransmit_queue := q |>, sp.2 <| p_lost := false |>)
             else Some sp);
  let s := s <| s_inflight_queue ::= λ q, q ++ [pid] |>
             <| s_inflight ::= λ x, u64 (x + p_size p) |> in
  let c := c <| c_s := s |> <| c_packets ::= <[pid := p]> |> in
  let '(i, drop_packet) := drop_decision (c_io c) p in
  let c := c <| c_io := i |> in
  c ← (if (drop_packet : bool) then Some c else transmit c pid p);
  _ ← s_socket (c_s c);
  let c := count_sent c (p_size p) in
  let s := c_s c in
  let tb := if s_tb_available s <? p_size p then 0 else s_tb_available s - p_size p in
  let s := s <| s_tb_available := tb |> in
  Some (c <| c_s := if tb =? 0 then s <| s_refill_pacing_timer := Some (u64 (now c + 1)) |> else s |>).

Lemma send_rest_wire c pid p sp c' :
  send_rest c pid sp = Some c' → wire_core sp.2 = wire_core p → wire_view sp.1 = wire_view (c_s c) → c_packets c !! pid = Some p →
  on_wire c pid p c'.
Proof.
  destruct sp as [s1 p1]. unfold send_rest. cbn [fst snd]. intros E C1 V1 Hp.
  apply bind_Some in E as ([s2 p2] & E2 & E). apply requeue_wire in E2 as [V2 C2]. cbv zeta in E.
  set (c2 := c <| c_s := _ |> <| c_packets ::= _ |>) in E.
  pose proof (drop_log (c_io c2) p2) as Hd. destruct (drop_decision (c_io c2) p2) as [i drop]. cbn [fst] in Hd.
  set (c3 := c2 <| c_io := i |>) in E.
  apply bind_Some in E as (c4 & E4 & E). apply bind_Some in E as (k & _ & E). injection E as <-.
  assert (on_wire c3 pid p2 c4) as W.
  { destruct drop; [|eapply transmit_wire; [exact E4|apply lookup_insert_eq]].
    injection E4 as <-. split; [|done|done|by left]. exists p2. split; [|done]. symmetry. apply insert_id, lookup_insert_eq. }
  apply on_wire_count; [|destruct (_ =? 0); apply count_view].
  apply (on_wire_through c pid p c3 p2 c4); [congruence|done| |done| |exact W].
  - change (wire_view (c_s c3)) with (wire_view s2). congruence.
  - unfold datagrams. change (c_io c3) with i. by rewrite Hd.
Qed.

Definition counted (b : bool) (n : Z) (p : packet) : packet :=
  let p := if p_transmits p <? 255 then p <| p_transmits ::= λ t, t + 1 |> else p in
  (if b then p <| p_retransmitted := true |> else p) <| p_time_sent := n |>.
Lemma counted_wire b n p : wire_core (counted b n p) = wire_core p.
Proof. unfold counted. by destruct b, (_ <? _). Qed.

Lemma send_packet_split c pid b :
  _send_packet c pid b = (s ← udx__rate_check_app_limited (c_s c); p ← c_packets c !! pid;
                          send_rest c pid (udx__rate_pkt_sent (now c) s (counted b (now c) p))).
Proof.
  unfold _send_packet. destruct (udx__rate_check_app_limited (c_s c)) as [s|]; cbn [mbind option_bind]; [|reflexivity].
  destruct (c_packets c !! pid) as [p|]; cbn [mbind option_bind]; [|reflexivity].
  fold (counted b (now c) p). unfold send_rest.
  destruct (udx__rate_pkt_sent (now c) s (counted b (now c) p)) as [s1 p1]. reflexivity.
Qed.

#[local] Opaque send_rest.

Lemma send_packet_wire c pid p is_retransmit c' :
  _send_packet c pid is_retransmit = Some c' → c_packets c !! pid = Some p → on_wire c pid p c'.
Proof.
  rewrite send_packet_split. intros E Hp. apply bind_Some in E as (s0 & E0 & E). apply app_limited_wire in E0.
  rewrite Hp in E. cbn [mbind option_bind] in E.
  destruct (rate_sent_wire (now c) s0 (counted is_retransmit (now c) p)) as [C1 V1].
  apply (send_rest_wire c pid p _ c' E); [|by rewrite V1|done]. rewrite C1. apply counted_wire.
Qed.
(** ** What a transmission conveys *)

(** The state that all of this is about. *)
Definition wire_state (c : ctx) := (wire_view (c_s c), c_packets c, c_wbufs c, c_next c, datagrams c).
Lemma conveys_quiet c c' : wire_state c' = wire_state c → conveys c c'.
Proof.
  intros E. pose proof (f_equal (λ t, t.1.1.1.1) E) as E1. pose proof (f_equal (λ t, t.1.1.1.2) E) as E2.
  pose proof (f_equal (λ t, t.1.1.2) E) as E3. pose proof (f_equal (λ t, t.1.2) E) as E4. pose proof (f_equal snd E) as E5. cbn in *.
  apply conveys_same; [done|rewrite E2; apply kept_packets|congruence|rewrite E5; by left].
Qed.

Lemma on_wire_conveys c pid p c' :
  on_wire c pid p c' → c_packets c !! pid = Some p → (∃ q, sent_at c q = Some pid) → conveys c c'.
Proof.
  intros [(p' & Ep & Cp) V [= B1 B2] L] Hp (q & Hq) N sent Hf. unfold sent_at in Hq. apply bind_Some in Hq as (out & Ho & Hq).
  injection V as V1 V2 V3 V4 V5.
  split; [unfold written; by rewrite B1, B2|]. exists []. rewrite app_nil_r. apply (faithful_view sent c); [congruence| | |congruence| |done].
  - rewrite V5. intros out' E. by exists out'.
  - apply wire_packets_same. rewrite Ep. apply (kept_insert _ _ p); [done|by apply core_same_wire].
  - intros b [Hb|(d & Hd & ->)]%L; [by left|right]. destruct (fa_out _ _ Hf out q pid Ho Hq) as (p0 & i & x & P1 & P2 & P3 & P4 & P5 & P6).
    assert (p0 = p) as -> by congruence. assert (d = x.2) as -> by congruence. rewrite P4 in P5. by apply (wire_conveyed _ _ i).
Qed.

Lemma timer_start_quiet c t ms : wire_state (stream_timer_start c t ms) = wire_state c.
Proof. unfold stream_timer_start. by destruct (decide _). Qed.

Lemma loss_probe_quiet c b : wire_state (schedule_loss_probe c b).1 = wire_state c.
Proof. unfold schedule_loss_probe. destruct (_ || _ || _); [done|]. apply timer_start_quiet. Qed.

Lemma arm_timers_quiet c arm_tlp c' : arm_stream_timers c arm_tlp = Some c' → wire_state c' = wire_state c.
Proof.
  unfold arm_stream_timers. intros E. cbv zeta in E. do 4 (match type of E with (if ?b then _ else None) = _ => destruct b; [|done] end).
  injection E as <-. set (c1 := if decide _ then _ else _).
  assert (wire_state c1 = wire_state c) as H1 by (unfold c1; destruct (decide _); [apply timer_start_quiet|done]).
  destruct (_ && _ && _); [|done]. by rewrite loss_probe_quiet.
Qed.

Lemma transmit_start_wire s n s' : bbr_on_transmit_start s n = Some s' → wire_view s' = wire_view s.
Proof. intros T%transmit_start_touch. by rewrite T. Qed.

Lemma may_send_quiet c retransmit c' b : stream_may_send c retransmit = Some (c', b) → wire_state c' = wire_state c.
Proof.
  unfold stream_may_send, update_pacing_time. intros E. match type of E with (if ?b then _ else None) = _ => destruct b; [|done] end.
  apply bind_Some in E as (c1 & E1 & E). assert (wire_state c1 = wire_state c) as H1.
  { destruct (_ <? now c); [|by injection E1 as <-]. cbv zeta in E1.
    match type of E1 with (if ?b then _ else None) = _ => destruct b; [|done] end. by injection E1 as <-. }
  cbv zeta in E. destruct (_ =? 0); [by injection E as <- _|]. destruct retransmit; [by injection E as <- _|].
  apply bind_Some in E as (w & _ & E). by injection E as <- _.
Qed.

(** A packet that is sent again has the payload it was first sent with. *)
Lemma retransmit_conveys c pid c' : retransmit_packet c pid = Some c' → (∃ q, sent_at c q = Some pid) → conveys c c'.
Proof.
  unfold retransmit_packet. intros E Hq. apply bind_Some in E as (p & Hp & E). cbv zeta in E.
  set (p1 := p <| p_header ::= _ |>) in E. set (c1 := c <| c_packets ::= _ |>) in E. apply bind_Some in E as (c2 & E2 & E).
  apply bind_Some in E as (s & Es & E%arm_timers_quiet).
  assert (conveys c c1) as H1.
  { apply (conveys_packet c pid p p1 Hp). split; [done|]. split; [done|]. split; [|done]. intros t q. apply headed_patch. }
  assert (c_packets c1 !! pid = Some p1) as Hp1 by apply lookup_insert_eq.
  pose proof (send_packet_wire c1 pid p1 true c2 E2 Hp1) as W. apply (on_wire_conveys c1 pid p1 c2) in W; [|done|done].
  etransitivity; [exact H1|]. etransitivity; [exact W|]. apply conveys_quiet. rewrite E. unfold wire_state. cbn [c_s upd_field c_packets c_wbufs c_next].
  assert (wire_view s = wire_view (c_s c2)) as -> by (destruct (_ =? 0); [by apply transmit_start_wire in Es|by injection Es as <-]).
  reflexivity.
Qed.

(** ** A new packet *)

Lemma type_u8 t : Z.ldiff t UDX_HEADER_DATA_OR_END = 0 → is_u8 t.
Proof.
  intros E. assert (t = Z.land t UDX_HEADER_DATA_OR_END) as ->.
  { rewrite <- (Z.lor_ldiff_and t UDX_HEADER_DATA_OR_END) at 1. by rewrite E, Z.lor_0_l. }
  change UDX_HEADER_DATA_OR_END with (Z.ones 2). rewrite Z.land_ones by done. pose proof (Z.mod_pos_bound t (2 ^ 2) eq_refl). unfold is_u8. lia.
Qed.

(** The packet that goes out. *)
Lemma finish_packet_headed c p tlp p' probe :
  finish_packet c p tlp = Some (p', probe) → Z.ldiff (s_pkt_header_flag (c_s c)) UDX_HEADER_DATA_OR_END = 0 → p_is_mtu_probe p = false →
  p_chunks p' = p_chunks p ∧ p_seq p' = s_seq (c_s c) ∧ headed p' (s_pkt_header_flag (c_s c)) (s_seq (c_s c)).
Proof.
  unfold finish_packet, udx_write_header. intros E Ht%type_u8 Hm. apply bind_Some in E as (p1 & E1 & E). cbv zeta in E.
  assert (p_chunks p1 = p_chunks p ∧ p_is_mtu_probe p1 = false) as [Ek Em].
  { unfold bind_packet_remote in E1. destruct (_ =? 0) in E1; inv_some; by subst p1. }
  set (h := header_bytes _ _ _ _ _ _) in E. set (p2 := p1 <| p_header := h |> <| p_seq := _ |> <| p_ref_count := 1 |>) in E.
  assert (headed p2 (s_pkt_header_flag (c_s c)) (s_seq (c_s c))) as H2 by (exists 0; do 3 eexists; split; [reflexivity|]; split; [done|]; change (p_is_mtu_probe p2) with (p_is_mtu_probe p1); by rewrite Em).
  destruct (_ && _ && _) in E; [|injection E as <- <-; by split_and!]. unfold mtu_probeify_packet in E.
  destruct (_ || _) in E; [injection E as <- <-; by split_and!|]. match type of E with (if ?b then _ else None) = _ => destruct b; [|done] end.
  cbv zeta in E. match type of E with context [(?x <? 0) || _] => set (pad := x) in E; destruct (Z.ltb_spec pad 0); [injection E as <- <-; by split_and!|] end.
  destruct (255 <? pad); cbn [orb] in E; injection E as <- <-; [by split_and!|]. split; [done|]. split; [done|].
  exists pad. do 3 eexists. split; [reflexivity|]. by split.
Qed.

(** What [_send_new_packet] does to all this. *)
Record renewed (c : ctx) (c' : ctx) : Prop := {
  rn_flags : Z.ldiff (s_pkt_header_flag (c_s c)) UDX_HEADER_DATA_OR_END = 0;
  rn_packet : ∃ pid p p1 out c1 c2 z, s_pkt (c_s c) = Some pid ∧ c_packets c !! pid = Some p ∧ s_outgoing (c_s c) = Some out ∧
    (p_is_mtu_probe p = false → p_chunks p1 = p_chunks p ∧ p_seq p1 = s_seq (c_s c) ∧ headed p1 (s_pkt_header_flag (c_s c)) (s_seq (c_s c))) ∧
    wire_state c1 = (s_seq (c_s c), Some pid, s_pkt_header_flag (c_s c), s_write_queue (c_s c), Some (<[p_seq p1 := pid]> out),
                     <[pid := p1]> (c_packets c), c_wbufs c, c_next c, datagrams c) ∧
    on_wire c1 pid p1 c2 ∧
    wire_state c' = (u32 (s_seq (c_s c2) + 1), Some (c_next c2), 0, s_write_queue (c_s c2), s_outgoing (c_s c2),
                     <[c_next c2 := new_packet z]> (c_packets c2), c_wbufs c2, Pos.succ (c_next c2), datagrams c2) }.

Lemma send_new_renewed c tlp c' : _send_new_packet c tlp = Some c' → renewed c c'.
Proof.
  unfold _send_new_packet. intros E. match type of E with (if ?b then _ else None) = _ => destruct b eqn:Ef; [|done] end. apply Z.eqb_eq in Ef.
  cbv zeta in E. apply bind_Some in E as (pid & Epid & E). apply bind_Some in E as (p & Hp & E).
  apply bind_Some in E as ([p1 probe] & Efin & E). apply bind_Some in E as (out & Ho & E). set (c1 := c <| c_packets ::= _ |> <| c_s ::= _ |>) in E.
  apply bind_Some in E as (c2 & E2 & E). apply bind_Some in E as (s & Es & E). set (s1 := if tlp then _ else _) in E.
  apply bind_Some in E as (c3 & E3%arm_timers_quiet & E). match type of E with (if ?b then _ else None) = _ => destruct b; [|done] end.
  unfold reset_next_packet in E. apply bind_Some in E as (cap & _ & [= <-]).
  pose proof (send_packet_wire c1 pid p1 false c2 E2 (lookup_insert_eq _ _ _)) as W.
  assert (wire_view s1 = wire_view (c_s c2 <| s_seq ::= λ q, u32 (q + 1) |>)) as Vs.
  { transitivity (wire_view s); [unfold s1; by destruct tlp, probe|]. destruct (_ =? 0); [by apply transmit_start_wire in Es|by injection Es as <-]. }
  split; [done|]. exists pid, p, p1, out, c1, c2, (bytes_packetized (s_acct (c_s c3))). do 3 (split; [done|]).
  split; [intros Hm; by apply (finish_packet_headed c p tlp p1 probe)|]. split; [unfold wire_state, wire_view; cbn [c1 c_s c_packets c_wbufs c_next upd_field s_seq s_pkt s_pkt_header_flag s_write_queue s_outgoing]; by rewrite Epid|].
  split; [done|]. unfold wire_state in E3. cbn [c_s upd_field c_packets c_wbufs c_next] in E3. rewrite Vs in E3.
  unfold wire_state, wire_view, datagrams in *. cbn [c_s upd_field c_packets c_wbufs c_next c_io s_seq s_pkt s_pkt_header_flag s_write_queue s_outgoing] in *.
  injection E3 as F1 F2 F3 F4 F5 F6 F7 F8 F9. by rewrite F1, F4, F5, F6, F7, F8, F9.
Qed.

Lemma written_succ m x :
  written_below m (pred (Pos.to_nat (Pos.succ x))) = written_below m (pred (Pos.to_nat x)) ++ match m !! x with Some b => wb_buf b | None => [] end.
Proof.
  rewrite Pos2Nat.inj_succ. cbn [pred]. destruct (Pos2Nat.is_succ x) as [n En]. rewrite En. cbn [pred written_below].
  assert (Pos.of_succ_nat n = x) as -> by (apply Pos2Nat.inj; rewrite SuccNat2Pos.id_succ; done). done.
Qed.

Lemma renewed_conveys c c' :
  renewed c c' → c_packets c !! c_next c = None → (∀ q pid, sent_at c q = Some pid → s_pkt (c_s c) ≠ Some pid) → conveys c c'.
Proof.
  intros [Ht (pid & p & p1 & out & c1 & c2 & z & Epid & Hp & Ho & Hfin & E1 & [(p2 & P2 & C2) V2 B2 L2] & E3)] Hn Hne N sent Hf.
  destruct (fa_bytes _ _ Hf) as (pid0 & p0 & d & G1 & G2 & G3 & G4 & G5 & G6).
  assert (pid0 = pid) as -> by congruence. assert (p0 = p) as -> by congruence. destruct (Hfin G4) as (K1 & K2 & K3).
  rewrite K2 in E1. set (t := s_pkt_header_flag (c_s c)) in *. set (q := s_seq (c_s c)) in *.
  unfold wire_state, wire_view in E1, E3. injection E1 as A1 A2 A3 A4 A5 A6 A7 A8 A9. injection V2 as V1 V2 V3 V4 V5. injection B2 as B2 B3.
  injection E3 as D1 D2 D3 D4 D5 D6 D7 D8 D9. rewrite V1, A1 in D1. rewrite B3, A8 in D2, D6, D8. rewrite V4, A4 in D4. rewrite V5, A5 in D5.
  rewrite P2, A6, insert_insert_eq in D6. rewrite B2, A7 in D7.
  assert (written c' = written c) as Ew.
  { unfold written. rewrite D7, D8, written_succ. destruct (c_wbufs c !! c_next c) eqn:E; [|by rewrite app_nil_r].
    assert (c_next c < c_next c)%positive by (apply (fa_alloc _ _ Hf); by eexists). lia. }
  assert (q = u32 (first_seq + Z.of_nat (length sent))) as Eq by apply Hf.
  destruct (core_same_wire p1 p2 C2) as (W1 & W2 & W3 & _).
  assert (packet_data c' p2 = Some d) as Hd by (unfold packet_data in *; by rewrite D7, W1, K1).
  assert (sent !! length sent = None) as Hend by by apply lookup_ge_None.
  assert ((sent ++ [(t, d)]) !! length sent = Some (t, d)) as Hlast by by rewrite lookup_app_r, Nat.sub_diag.
  split; [by rewrite Ew|]. exists [(t, d)]. split.
  - rewrite D1, Eq, u32_add_l, length_app. f_equal. cbn [length]. lia.
  - apply Forall_app. split; [apply Hf|]. constructor; [|constructor]. by split.
  - exists (c_next c), (new_packet z), []. rewrite D2, D3, D6, lookup_insert_eq. do 5 (split; [done|]). rewrite fmap_app, join_app, Ew, <- G6.
    unfold unsent. rewrite D4, D7. cbn. by rewrite app_nil_r, <- app_assoc.
  - intros out' q' x Hout'. rewrite D5 in Hout'. injection Hout' as <-. intros [[<- <-]|[Hq Hx]]%lookup_insert_Some.
    + exists p2, (length sent), (t, d). rewrite D6, lookup_insert_ne, lookup_insert_eq by congruence. cbn [fst snd].
      do 3 (split; [done || congruence|]). split; [done|]. split; [by apply W3|done].
    + destruct (fa_out _ _ Hf out q' x Ho Hx) as (px & i & y & Q1 & Q2 & Q3 & Q4 & Q5 & Q6). exists px, i, y.
      assert (x ≠ pid) as Hxp. { intros ->. apply (Hne q' pid); [|done]. unfold sent_at. by rewrite Ho. }
      rewrite D6, !lookup_insert_ne by congruence. do 2 (split; [done|]). split; [by apply lookup_app_l_Some|]. do 2 (split; [done|]).
      unfold packet_data in *. by rewrite D7.
  - intros b. rewrite D9. intros [Hb|(d' & Hd' & ->)]%L2.
    + rewrite A9 in Hb. apply conveyed_more. by apply Hf.
    + assert (d' = d) as -> by (unfold packet_data in *; rewrite K1, A7 in Hd'; congruence).
      apply (wire_conveyed _ p1 (length sent) (t, d)); [|done]. cbn [fst]. by rewrite <- Eq.
  - intros x. rewrite D7, D8. intros Hx%(fa_alloc _ _ Hf). lia.
  - rewrite D8, length_app. pose proof (fa_count _ _ Hf). cbn [length]. lia.
Qed.

(** ** Packetization *)

Lemma bufs_of_chunks (m m' : gmap wbuf_id wbuf) x :
  (∀ ks, chunks_bytes m' ks = chunks_bytes m ks) → wb_buf <$> m' !! x = wb_buf <$> m !! x.
Proof.
  intros E. set (n := Z.of_nat (length (default [] (wb_buf <$> m' !! x)) + length (default [] (wb_buf <$> m !! x)))).
  specialize (E [mk_chunk x 0 n]). cbn in E. unfold chunk_bytes in E. cbn [ck_wbuf ck_len ck_off] in E. change (Z.to_nat 0) with 0%nat in E.
  subst n. rewrite Nat2Z.id in E.
  destruct (m' !! x) as [b'|], (m !! x) as [b|]; cbn in E |- *; [|done..].
  rewrite !app_nil_r, !drop_0, !take_ge in E by lia. congruence.
Qed.

Lemma written_below_ext (m m' : gmap wbuf_id wbuf) n : (∀ x, wb_buf <$> m' !! x = wb_buf <$> m !! x) → written_below m' n = written_below m n.
Proof.
  intros E. induction n as [|n IH]; [done|]. cbn [written_below]. rewrite IH. f_equal. specialize (E (Pos.of_succ_nat n)).
  destruct (m' !! _), (m !! _); cbn in E; congruence.
Qed.

Lemma packetized_conveys pid c p c' p' :
  packetized pid c p c' p' → s_pkt (c_s c) = Some pid → c_packets c !! pid = Some p → c_packets c' !! pid = Some p' →
  (∀ q, sent_at c q ≠ Some pid) → conveys c c'.
Proof.
  intros Hz Epid Hp Hp' Hne N sent Hf. pose proof Hz as [Z1 _ _ Z3 Z4 Z5 Z6 _ _ _ Z8 [= Zi Zn _ _]].
  destruct (erase_fields _ _ Z3) as (cap & fl & ac & wq & Es). pose proof (λ x, bufs_of_chunks _ _ x Z6) as Hb.
  assert (written c' = written c) as Ew by (unfold written; rewrite Zn; by apply written_below_ext).
  destruct (fa_bytes _ _ Hf) as (pid0 & p0 & d & G1 & G2 & G3 & G4 & G5 & G6).
  assert (pid0 = pid) as -> by congruence. assert (p0 = p) as -> by congruence.
  split; [by rewrite Ew|]. exists []. rewrite app_nil_r. split.
  - rewrite Es. apply Hf.
  - apply Hf.
  - destruct (Z1 d G3) as (d' & Hd' & Eu). exists pid, p', d'. split; [by rewrite Es|]. do 2 (split; [done|]).
    split; [pose proof (f_equal p_is_mtu_probe Z4) as Em; cbn in Em; congruence|]. split; [|by rewrite Ew, Eu].
    intros [H1 H2]%Z8. specialize (H2 d G3). rewrite (G5 H1) in H2. congruence.
  - intros out q x Ho Hx. rewrite Es in Ho. cbn [s_outgoing upd_field] in Ho.
    destruct (fa_out _ _ Hf out q x Ho Hx) as (px & i & y & Q1 & Q2 & Q3 & Q4 & Q5 & Q6). exists px, i, y.
    assert (x ≠ pid) as Hxp by (intros ->; apply (Hne q); unfold sent_at; by rewrite Ho).
    rewrite (packetized_lookup _ _ _ _ _ _ Hz Hxp). do 5 (split; [done|]). unfold packet_data in *. by rewrite Z6.
  - intros b. unfold datagrams. rewrite Zi. apply Hf.
  - intros x. rewrite Zn. intros Hx. apply (fa_alloc _ _ Hf). specialize (Hb x). destruct Hx as [y Hy]. rewrite Hy in Hb.
    destruct (c_wbufs c !! x); [by eexists|done].
  - rewrite Zn. apply Hf.
Qed.

(** ** Sending *)

Lemma sent_at_out c out q : queues_ok c out → sent_at c q = out !! q.
Proof. intros Q. unfold sent_at. by rewrite (qo_out _ _ Q). Qed.

Lemma send_new_packet_conveys c tlp c' b : sender_ok c → send_new_packet c tlp = Some (c', b) → conveys c c'.
Proof.
  intros (Hs & out & Hq & pid & p & Hc) E. unfold send_new_packet in E. destruct (_ =? 0) in E; [by injection E as <- _|].
  destruct (may_send_ok c false Hs) as (c1 & b1 & E1 & H1 & _). rewrite E1 in E. cbn [mbind option_bind] in E.
  apply may_send_quiet in E1. apply conveys_quiet in E1.
  destruct (negb b1 && negb tlp); [by injection E as <- _|].
  pose proof (same_core_queues _ _ _ H1 Hq) as Hq1. pose proof (same_core_current _ _ _ _ _ H1 Hc) as Hc1. pose proof (same_core_can_send _ _ H1 Hs) as Hs1.
  destruct (packetize_loop (S (length (s_write_queue (c_s c1)))) c1 pid p (cu_building _ _ _ _ Hc1) ltac:(lia))
    as (c2 & p2 & E2 & Hb2 & Hz & _). rewrite E2 in E. cbn [mbind option_bind] in E.
  pose proof (packetized_packed _ _ _ _ _ _ Hz Hb2 Hs1 Hc1) as Hp2. pose proof (packetized_queues _ _ _ _ _ _ Hz (cu_out _ _ _ _ Hc1) Hq1) as Hq2.
  assert (conveys c1 c2) as T2.
  { apply (packetized_conveys pid c1 p c2 p2 Hz); [apply (cu_building _ _ _ _ Hc1)..|apply Hb2|].
    intros q. rewrite (sent_at_out _ _ _ Hq1). apply Hc1. }
  transitivity c1; [done|]. transitivity c2; [done|].
  destruct (_ || _ || _) in E.
  - apply bind_Some in E as (c3 & E3%send_new_renewed & [= <- _]). apply renewed_conveys; [done|..].
    + destruct (c_packets c2 !! c_next c2) eqn:En; [|done]. assert (c_next c2 < c_next c2)%positive by (apply (pk_alloc _ _ _ _ Hp2); by eexists). lia.
    + intros q x Hx. rewrite (sent_at_out _ _ _ Hq2) in Hx. rewrite (bd_pkt _ _ _ Hb2). intros [= ->]. by apply (pk_out _ _ _ _ Hp2) in Hx.
  - destruct (has _ _) in E; injection E as <- _; [by apply conveys_quiet|done].
Qed.

Lemma send_new_packets_conveys n c c' : sender_ok c → send_new_packets n c = Some c' → conveys c c'.
Proof.
  revert c. induction n as [|n IH]; intros c Hok E; cbn [send_new_packets] in E;
    destruct (send_new_packet_ok c false Hok) as (c1 & b & E1 & Hok1 & _); rewrite E1 in E; cbn [mbind option_bind] in E;
    apply send_new_packet_conveys in E1; try done; (destruct b; [|by injection E as <-]); [done|].
  transitivity c1; [done|]. by apply IH.
Qed.

Lemma send_retransmits_conveys n c c' out pid0 p0 :
  can_send c → queues_ok c out → current_ok c out pid0 p0 → send_retransmits n c = Some c' → conveys c c'.
Proof.
  revert c. induction n as [|n IH]; intros c Hs Hq Hc E; cbn [send_retransmits] in E;
    destruct (s_retransmit_queue (c_s c)) as [|pid rest] eqn:Er; try by injection E as <-.
  all: destruct (may_send_ok c true Hs) as (c1 & b & E1 & H1 & _); rewrite E1 in E; cbn [mbind option_bind] in E;
    apply may_send_quiet in E1; apply conveys_quiet in E1; (destruct b; [|by injection E as <-]).
  { done. }
  pose proof (same_core_can_send _ _ H1 Hs) as Hs1. pose proof (same_core_queues _ _ _ H1 Hq) as Hq1.
  pose proof (same_core_current _ _ _ _ _ H1 Hc) as Hc1.
  assert (s_retransmit_queue (c_s c1) = pid :: rest) as Er1.
  { destruct H1 as [H1 _]. apply (f_equal s_retransmit_queue) in H1. cbn in H1. congruence. }
  destruct (retransmit_packet_ok _ _ _ _ _ _ Hs1 Hq1 Hc1 Er1) as (c2 & E2 & Hs2 & Hq2 & Hc2 & Er2 & Hw2).
  rewrite E2 in E. cbn [mbind option_bind] in E. transitivity c1; [done|]. transitivity c2; [|by apply IH].
  apply (retransmit_conveys c1 pid c2 E2).
  assert (pid ∈ s_retransmit_queue (c_s c1)) as (p & _ & Ho & _)%(qo_retransmit _ _ Hq1) by (rewrite Er1; left).
  exists (p_seq p). by rewrite (sent_at_out _ _ _ Hq1).
Qed.

Lemma send_packets_conveys c c' : sender_ok c → send_packets c = Some c' → conveys c c'.
Proof.
  intros (Hs & out & Hq & pid & p & Hc) E. unfold send_packets in E. match type of E with (if ?b then _ else None) = _ => destruct b; [|done] end.
  destruct (send_retransmits_ok (length (s_retransmit_queue (c_s c))) c out pid p ltac:(done) Hs Hq Hc) as (c1 & E1 & Hs1 & Hq1 & Hc1 & _).
  rewrite E1 in E. cbn [mbind option_bind] in E. transitivity c1; [by apply (send_retransmits_conveys _ c c1 out pid p) in E1|].
  apply (send_new_packets_conveys (write_backlog c1) c1 c'); [|done]. split; [done|]. exists out. split; [done|]. by exists pid, p.
Qed.

(** ** Loss detection *)

Lemma lose_packet_conveys c pid p p0 c' :
  lose_packet c pid p = Some c' → c_packets c !! pid = Some p0 → same_wire p0 p → conveys c c'.
Proof.
  unfold lose_packet. intros E Hp Hs. apply bind_Some in E as (q & _ & [= <-]).
  etransitivity; [by apply (conveys_packet c pid p0 (p <| p_lost := true |>))|]. by apply conveys_stream.
Qed.

Lemma unprobeify_conveys c pid p p' m :
  c_packets c !! pid = Some p → mtu_unprobeify_packet p (s_mtu (c_s c)) = Some (p', m) →
  conveys c (c <| c_packets ::= <[pid := p']> |> <| c_s ::= λ s, s <| s_mtu := m |> |>).
Proof.
  intros Hp E. etransitivity; [apply (conveys_packet c pid p p' Hp); by apply (unprobeify_wire p (s_mtu (c_s c)) p' m)|]. by apply conveys_stream.
Qed.

(** ** Acknowledged bytes *)

(** A buffer's content and how far it is packetized. *)
Definition buf_view (b : wbuf) := (wb_buf b, wb_bytes_acked b + wb_bytes_inflight b).

Lemma chunks_bytes_ext (m m' : gmap wbuf_id wbuf) ks : (∀ x, wb_buf <$> m' !! x = wb_buf <$> m !! x) → chunks_bytes m' ks = chunks_bytes m ks.
Proof.
  intros E. induction ks as [|k ks IH]; [done|]. cbn. rewrite IH. unfold chunk_bytes. specialize (E (ck_wbuf k)).
  destruct (m' !! _) as [b'|], (m !! _) as [b|]; cbn in E |- *; [by injection E as ->|done..].
Qed.

Lemma faithful_bufs `{Numbering} sent c c' :
  (wire_view (c_s c'), c_packets c', c_next c', datagrams c') = (wire_view (c_s c), c_packets c, c_next c, datagrams c) →
  (∀ x, buf_view <$> c_wbufs c' !! x = buf_view <$> c_wbufs c !! x) → faithful sent c → faithful sent c'.
Proof.
  intros [= E1 E2 E3 E4 E5 E6 E7 E8] Hv [F1 F2 F3 F4 F5 F6 F7].
  assert (∀ x, wb_buf <$> c_wbufs c' !! x = wb_buf <$> c_wbufs c !! x) as Hb.
  { intros x. specialize (Hv x). apply (f_equal (fmap fst)) in Hv. rewrite <- !option_fmap_compose in Hv. exact Hv. }
  pose proof (λ ks, chunks_bytes_ext _ _ ks Hb) as Hk.
  assert (unsent c' = unsent c) as Eu.
  { unfold unsent. rewrite E4. generalize (s_write_queue (c_s c)). intros q. induction q as [|x q IH]; [done|]. cbn. rewrite IH. f_equal.
    unfold rest_of, wbuf_rest. specialize (Hv x). destruct (_ !! x), (_ !! x); cbn in Hv; [|done..]. injection Hv as E9 E10. by rewrite E9, E10. }
  split; rewrite ?E1, ?E2, ?E3, ?E5, ?E6, ?E7, ?E8; try done.
  - destruct F3 as (pid & p & d & G). exists pid, p, d. unfold packet_data, written in *. rewrite Hk, Eu, E7, (written_below_ext _ _ _ Hb). done.
  - intros out q pid Ho Hq. destruct (F4 out q pid Ho Hq) as (p & i & x & G). exists p, i, x. unfold packet_data in *. by rewrite E6, Hk.
  - intros x [y Hy]. apply F6. specialize (Hb x). rewrite Hy in Hb. destruct (c_wbufs c !! x); [by eexists|done].
Qed.
End Conveys.
