(* ===== verification/Ledger.v ===== *)
(** * The accounts of a stream's writes (src/udx.c: write requests, their buffers, the chunks in packets)

    The bytes of a write buffer are acknowledged, carried by chunks of packets, or still in the write queue.
    [ledger] states that they add up, buffer by buffer and write by write, and that the user has been told
    about a write exactly when all its bytes are acknowledged or cancelled.  Sending moves bytes
    from the queue to chunks and leaves the accounts balanced. *)

From S2P Require Import Prelude SeqNum Endian Wire WinFilter Stream Rtt Mtu Rate Float64 Bbr Ctx Send Packetize Sender Loss Write Ack.

Section Ledger.
Context `{Env}.

(** ** The accounts *)

Definition chunks_at (m : gmap packet_id packet) (pid : packet_id) : list chunk :=
  match m !! pid with Some p => p_chunks p | None => [] end.

(** The packet under construction and the outgoing packets. *)
Definition owned (s : stream) : list packet_id :=
  match s_pkt s with Some pid => [pid] | None => [] end ++
  match s_outgoing s with Some out => (map_to_list out).*2 | None => [] end.

(** The chunks in packets the stream owns. *)
Definition flying (c : ctx) : list chunk := owned (c_s c) ≫= chunks_at (c_packets c).

(** The bytes of one buffer that the chunks [l] carry. *)
Definition carried (wid : wbuf_id) (l : list chunk) : Z :=
  foldr (λ k n, (if decide (ck_wbuf k = wid) then ck_len k else 0) + n) 0 l.

(** The share of a write in a quantity of its buffers. *)
Definition part (wr : write_id) (f : wbuf → Z) (b : wbuf) : Z := if decide (wb_write b = wr) then f b else 0.

(** The calls of a write's on_ack in the log. *)
Fixpoint acks_of (wr : write_id) (log : list event) : Z :=
  match log with
  | [] => 0
  | EvCallback (CbAck w _ _) :: log => (if decide (w = wr) then 1 else 0) + acks_of wr log
  | _ :: log => acks_of wr log
  end.

(** A write that has buffers, none of them empty. *)
Definition plain (wr : write_id) (m : gmap wbuf_id wbuf) : Prop :=
  (∃ wid b, m !! wid = Some b ∧ wb_write b = wr) ∧
  ∀ wid b, m !! wid = Some b → wb_write b = wr → 0 < wb_len b.

(** [pend]: chunks of a packet that is being acknowledged or cancelled and has left the outgoing buffer;
    [due]: the write whose last byte is accounted for and whose user is about to be told. *)
Record ledger (c : ctx) (pend : list chunk) (due : option write_id) : Prop := {
  lg_chunks : ∀ k, k ∈ pend ++ flying c →
    ∃ b, c_wbufs c !! ck_wbuf k = Some b ∧ 0 <= ck_len k ∧ (ck_len k = 0 → wb_len b = 0);
  lg_wbufs : ∀ wid b, c_wbufs c !! wid = Some b →
    0 <= wb_bytes_acked b ∧ wb_bytes_acked b + carried wid (pend ++ flying c) <= wb_len b ∧
    (wid ∉ s_write_queue (c_s c) → wb_bytes_acked b + carried wid (pend ++ flying c) = wb_len b) ∧
    is_Some (c_writes c !! wb_write b);
  lg_queue : ∀ wid, wid ∈ s_write_queue (c_s c) →
    ∃ b, c_wbufs c !! wid = Some b ∧ (wb_bytes_acked b + carried wid (pend ++ flying c) = wb_len b → wb_len b = 0);
  lg_nodup : NoDup (s_write_queue (c_s c));
  lg_writes : ∀ wr w, c_writes c !! wr = Some w →
    wr_size w = msum (part wr wb_len) (c_wbufs c) ∧ wr_bytes_acked w = msum (part wr wb_bytes_acked) (c_wbufs c);
  lg_queued : writes_queued_bytes (s_acct (c_s c)) = msum (λ b, wb_len b - wb_bytes_acked b) (c_wbufs c);
  lg_bound : msum wb_len (c_wbufs c) < 2 ^ 63;
  lg_alloc : ∀ x, is_Some (c_wbufs c !! x) → (x < c_next c)%positive;
  lg_told : ∀ wr w, c_writes c !! wr = Some w → wr_on_ack w = true → plain wr (c_wbufs c) →
    acks_of wr (io_log (c_io c)) + (if decide (due = Some wr) then 1 else 0) =
    if wr_bytes_acked w =? wr_size w then 1 else 0 }.

(** [bytes_inflight] counts the bytes carried. *)
Definition in_flight (c : ctx) (pend : list chunk) : Prop :=
  ∀ wid b, c_wbufs c !! wid = Some b → wb_bytes_inflight b = carried wid (pend ++ flying c).

(** Both, with nothing on the way. *)
Definition balanced (c : ctx) : Prop := ledger c [] None ∧ in_flight c [].

(** ** Chunks *)

Lemma carried_app wid l1 l2 : carried wid (l1 ++ l2) = carried wid l1 + carried wid l2.
Proof. induction l1 as [|k l1 IH]; [done|]. cbn. fold (carried wid (l1 ++ l2)) (carried wid l1). lia. Qed.
Lemma carried_cons wid k l : carried wid (k :: l) = (if decide (ck_wbuf k = wid) then ck_len k else 0) + carried wid l.
Proof. done. Qed.
#[global] Instance carried_perm wid : Proper ((≡ₚ) ==> eq) (carried wid).
Proof. induction 1; rewrite ?carried_cons; lia. Qed.
Lemma carried_nonneg wid l : (∀ k, k ∈ l → 0 <= ck_len k) → 0 <= carried wid l.
Proof.
  induction l as [|k l IH]; intros Hl; [done|]. rewrite carried_cons.
  assert (0 <= carried wid l) by (apply IH; intros; apply Hl; by right). specialize (Hl k ltac:(left)).
  case_decide; lia.
Qed.

(** The accounts see the chunks only up to order. *)
Lemma ledger_view c c' pend pend' due :
  (c_wbufs c', c_writes c', s_write_queue (c_s c'), writes_queued_bytes (s_acct (c_s c'))) =
  (c_wbufs c, c_writes c, s_write_queue (c_s c), writes_queued_bytes (s_acct (c_s c))) →
  (c_next c <= c_next c')%positive → pend' ++ flying c' ≡ₚ pend ++ flying c → (∀ wr, acks_of wr (io_log (c_io c')) = acks_of wr (io_log (c_io c))) →
  ledger c pend due → ledger c' pend' due.
Proof.
  intros [= E1 E2 E3 E4] Hn Hp Ha [L1 L2 L3 L4 L5 L6 L7 L8 L9]. split; rewrite ?E1, ?E2, ?E3, ?E4; try done.
  - intros k. rewrite Hp. apply L1.
  - intros wid b Hb. rewrite Hp. by apply L2.
  - intros wid Hw. destruct (L3 wid Hw) as (b & ? & ?). exists b. by rewrite Hp.
  - intros x Hx%L8. lia.
  - intros wr w. rewrite Ha. apply L9.
Qed.
Lemma in_flight_view c c' pend pend' :
  c_wbufs c' = c_wbufs c → pend' ++ flying c' ≡ₚ pend ++ flying c → in_flight c pend → in_flight c' pend'.
Proof. unfold in_flight. intros -> Hp Hi wid b Hb. rewrite Hp. by apply Hi. Qed.

(** ** Operations that do no accounting *)

Definition booked (s : stream) := (s_acct s, s_write_queue s, s_pkt s, s_outgoing s, s_mtu s, s_remote_acked s).

Record unbooked (c c' : ctx) : Prop := {
  ub_bufs : (c_wbufs c', c_writes c') = (c_wbufs c, c_writes c);
  ub_next : c_next c' = c_next c;
  ub_stream : booked (c_s c') = booked (c_s c);
  ub_chunks : ∀ x, chunks_at (c_packets c') x = chunks_at (c_packets c) x;
  ub_told : ∀ wr, acks_of wr (io_log (c_io c')) = acks_of wr (io_log (c_io c)) }.

#[global] Instance unbooked_refl : Reflexive unbooked.
Proof. split; done || lia. Qed.
#[global] Instance unbooked_trans : Transitive unbooked.
Proof. intros c1 c2 c3 [A1 A2 A3 A4 A5] [B1 B2 B3 B4 B5]. split; [congruence..|intros; by rewrite B4|intros; by rewrite B5]. Qed.

Lemma bind_ext_chunks (f g : packet_id → list chunk) l : (∀ x, f x = g x) → l ≫= f = l ≫= g.
Proof. intros E. induction l as [|x l IH]; [done|]. cbn. by rewrite E, IH. Qed.

Lemma unbooked_mtu c c' m :
  unbooked c c' → unbooked (c <| c_s ::= λ s, s <| s_mtu := m |> |>) (c' <| c_s ::= λ s, s <| s_mtu := m |> |>).
Proof.
  intros [B1 B2 [= E1 E2 E3 E4 E5 E6] B4 B5]. split; [done|done| |done|done]. unfold booked. cbn [c_s upd_field s_acct s_write_queue s_pkt s_outgoing s_mtu s_remote_acked].
  congruence.
Qed.

(** Sending keeps the left edge of the window, and the MTU search well formed. *)
Definition tuned (c c' : ctx) : Prop :=
  s_remote_acked (c_s c') = s_remote_acked (c_s c) ∧ (mtu_ok (s_mtu (c_s c)) → mtu_ok (s_mtu (c_s c'))).
#[global] Instance tuned_refl : Reflexive tuned.
Proof. by split. Qed.
#[global] Instance tuned_trans : Transitive tuned.
Proof. intros c1 c2 c3 [A1 A2] [B1 B2]. split; [congruence|auto]. Qed.
Lemma unbooked_tuned c c' : unbooked c c' → tuned c c'.
Proof. intros [_ _ [= _ _ _ _ E1 E2] _ _]. split; [done|by rewrite E1]. Qed.

Lemma unbooked_flying c c' : unbooked c c' → flying c' = flying c.
Proof.
  intros [_ _ [= _ _ E1 E2 _ _] E3 _]. unfold flying, owned. rewrite E1, E2. by apply bind_ext_chunks.
Qed.
Lemma unbooked_ledger c c' pend due : unbooked c c' → ledger c pend due → ledger c' pend due.
Proof.
  intros Hu. pose proof (unbooked_flying _ _ Hu) as Ef. destruct Hu as [[= E1 E2] E3 [= E4 E5 _ _ _ _] _ E8].
  apply ledger_view; [by rewrite E1, E2, E4, E5|lia|by rewrite Ef|done].
Qed.
Lemma unbooked_in_flight c c' pend : unbooked c c' → in_flight c pend → in_flight c' pend.
Proof.
  intros Hu. pose proof (unbooked_flying _ _ Hu) as Ef. destruct Hu as [[= E1 _] _ _ _ _].
  apply in_flight_view; [done|by rewrite Ef].
Qed.
Lemma unbooked_balanced c c' : unbooked c c' → balanced c → balanced c'.
Proof. intros Hu [H1 H2]. split; [by apply (unbooked_ledger c)|by apply (unbooked_in_flight c)]. Qed.

Lemma chunks_insert m pid (p : packet) x :
  p_chunks p = chunks_at m pid → chunks_at (<[pid := p]> m) x = chunks_at m x.
Proof.
  unfold chunks_at. intros E. destruct (decide (x = pid)) as [->|]; [by rewrite lookup_insert_eq|by rewrite lookup_insert_ne].
Qed.

(** Changes of the stream that keep these fields, and of the io that log no callback. *)
Lemma unbooked_stream c s :
  booked s = booked (c_s c) → unbooked c (c <| c_s := s |>).
Proof. intros E. split; done || lia. Qed.
Lemma unbooked_packet c pid p :
  p_chunks p = chunks_at (c_packets c) pid → unbooked c (c <| c_packets ::= <[pid := p]> |>).
Proof. intros E. split; try done || lia. intros x. by apply chunks_insert. Qed.
Lemma unbooked_io c i :
  (∀ wr, acks_of wr (io_log i) = acks_of wr (io_log (c_io c))) → unbooked c (c <| c_io := i |>).
Proof. intros E. split; done || lia. Qed.

Lemma transmit_unbooked c pid p c' :
  p_chunks p = chunks_at (c_packets c) pid → transmit c pid p = Some c' → unbooked c c'.
Proof.
  intros Ec. unfold transmit, uv_udp_try_send, uv_udp_send. intros E. inv_some. cbv zeta in E.
  destruct (_ =? UV_EAGAIN) in E; inv_some; [|subst c'; by apply unbooked_io].
  set (c1 := c <| c_io := _ |> <| c_packets ::= _ |>) in *.
  assert (unbooked c c1) as H1.
  { transitivity (c <| c_io := c_io c1 |>); [by apply unbooked_io|by apply unbooked_packet]. }
  set (c2 := c1 <| c_io := _ |>) in *. assert (unbooked c c2) as H2 by (transitivity c1; [done|by apply unbooked_io]).
  destruct (truthy _) in E; [|inv_some; by subst c']. unfold deref_packet in E.
  change (c_packets c2) with (<[pid := p <| p_ref_count := u8 (p_ref_count p + 1) |>]> (c_packets c)) in E at 1.
  rewrite lookup_insert_eq in E. cbn [mbind option_bind] in E. inv_some.
  change (p_ref_count (p <| p_ref_count := u8 (p_ref_count p + 1) |>)) with (u8 (p_ref_count p + 1)) in *.
  match goal with HE : (_ =? 2) = true |- _ => apply Z.eqb_eq in HE; rewrite HE in E end.
  change (u8 (2 - 1)) with 1 in E. cbn [Z.eqb] in E. inv_some. subst c'. transitivity c2; [done|]. apply unbooked_packet.
  cbn. rewrite (ub_chunks _ _ H2). done.
Qed.

Lemma check_app_limited_booked s s' : udx__rate_check_app_limited s = Some s' → booked s' = booked s.
Proof.
  unfold udx__rate_check_app_limited. intros E. inv_some.
  repeat match type of E with context [if ?b then _ else _] => destruct b end; inv_some; by subst s'.
Qed.

Lemma send_packet_unbooked c pid is_retransmit c' : _send_packet c pid is_retransmit = Some c' → unbooked c c'.
Proof.
  unfold _send_packet. intros E. apply bind_Some in E as (s0 & Er%check_app_limited_booked & E).
  apply bind_Some in E as (p & Hp & E). cbv zeta in E. set (p0 := if is_retransmit then _ else _) in E.
  assert (p_chunks p0 = p_chunks p) as Ep0 by (unfold p0; by destruct is_retransmit, (_ <? _)). clearbody p0.
  destruct (rate_pkt_sent_core (now c) s0 (p0 <| p_time_sent := now c |>)) as [Hc [r Es]].
  destruct (udx__rate_pkt_sent _ _ _) as [s1 p1]. cbn [fst snd] in *. subst s1.
  assert (p_chunks p1 = p_chunks p) as Ep1 by exact (eq_trans (f_equal (λ t, t.1.1.1.2) Hc) Ep0). clear Hc.
  apply bind_Some in E as ([s2 p2] & E2 & E).
  assert (booked s2 = booked (c_s c) ∧ p_chunks p2 = p_chunks p) as [Es2 Ep2].
  { destruct (p_lost p1); inv_some; subst; cbn; rewrite ?Ep1; by split. }
  set (c2 := c <| c_s := _ |> <| c_packets ::= _ |>) in E.
  assert (unbooked c c2) as H2.
  { transitivity (c <| c_s := c_s c2 |>); [by apply unbooked_stream|]. apply unbooked_packet.
    unfold chunks_at. cbn. by rewrite Hp. }
  assert (io_log (drop_decision (c_io c2) p2).1 = io_log (c_io c2)) as Hd.
  { unfold drop_decision. by destruct (has _ UDX_DEBUG_FORCE_DROP_DATA). }
  destruct (drop_decision (c_io c2) p2) as [i drop]. cbn [fst] in Hd.
  apply bind_Some in E as (c3 & E3 & E). apply bind_Some in E as (k & _ & E). injection E as <-.
  assert (unbooked c c3) as H3.
  { transitivity (c2 <| c_io := i |>); [transitivity c2; [done|]; apply unbooked_io; by rewrite Hd|].
    destruct drop; [injection E3 as <-; reflexivity|]. apply (transmit_unbooked _ pid p2); [|done].
    symmetry. unfold chunks_at. cbn. by rewrite lookup_insert_eq. }
  transitivity c3; [done|]. transitivity (count_sent c3 (p_size p2)); [by split; try done; lia|].
  cbv zeta. apply unbooked_stream. by destruct (_ =? 0).
Qed.

Lemma transmit_start_booked s n s' : bbr_on_transmit_start s n = Some s' → booked s' = booked s.
Proof. intros T%transmit_start_touch. rewrite T. done. Qed.

Lemma arm_timers_unbooked c arm_tlp c' : arm_stream_timers c arm_tlp = Some c' → unbooked c c'.
Proof.
  unfold arm_stream_timers. intros E. cbv zeta in E. do 4 (match type of E with (if ?b then _ else None) = _ => destruct b; [|done] end).
  injection E as <-. assert (∀ d t ms, unbooked d (stream_timer_start d t ms)) as Ht.
  { intros d t ms. unfold stream_timer_start. by destruct (decide _); apply unbooked_stream. }
  set (c1 := if decide _ then _ else _). assert (unbooked c c1) as H1 by (unfold c1; destruct (decide _); [apply Ht|done]).
  destruct (_ && _ && _); [|done]. transitivity c1; [done|]. unfold schedule_loss_probe.
  destruct (_ || _ || _); [done|]. apply Ht.
Qed.

Lemma retransmit_unbooked c pid c' : retransmit_packet c pid = Some c' → unbooked c c'.
Proof.
  unfold retransmit_packet. intros E. apply bind_Some in E as (p & Hp & E). cbv zeta in E.
  apply bind_Some in E as (c1 & E1%send_packet_unbooked & E). apply bind_Some in E as (s & Es & E%arm_timers_unbooked).
  etransitivity; [|exact E]. etransitivity; [apply unbooked_packet|etransitivity; [exact E1|]].
  - unfold chunks_at. by rewrite Hp.
  - set (c2 := c1 <| c_s ::= _ |>) in *. assert (booked s = booked (c_s c1)) as Hb.
    { destruct (_ =? 0); [apply transmit_start_booked in Es; by rewrite Es|by injection Es as <-]. }
    by apply (unbooked_stream c1).
Qed.

Lemma may_send_unbooked c retransmit c' b : stream_may_send c retransmit = Some (c', b) → unbooked c c'.
Proof.
  unfold stream_may_send, update_pacing_time. intros E. match type of E with (if ?b then _ else None) = _ => destruct b; [|done] end.
  apply bind_Some in E as (c1 & E1 & E). assert (unbooked c c1) as H1.
  { destruct (_ <? now c); [|by injection E1 as <-]. cbv zeta in E1.
    match type of E1 with (if ?b then _ else None) = _ => destruct b; [|done] end. injection E1 as <-. by apply unbooked_stream. }
  cbv zeta in E. destruct (_ =? 0); [by injection E as <- _|]. destruct retransmit; [by injection E as <- _|].
  apply bind_Some in E as (w & _ & E). by injection E as <- _.
Qed.

Lemma send_retransmits_unbooked n c c' : send_retransmits n c = Some c' → unbooked c c'.
Proof.
  revert c. induction n as [|n IH]; intros c E; cbn [send_retransmits] in E;
    destruct (s_retransmit_queue (c_s c)) as [|pid q]; try (injection E as <-; reflexivity);
    apply bind_Some in E as ([c1 b] & E1%may_send_unbooked & E); (destruct b; [|injection E as <-; done]); [done|].
  apply bind_Some in E as (c2 & E2%retransmit_unbooked & E%IH). transitivity c1; [done|]. by transitivity c2.
Qed.

(** ** Packetization *)

Lemma flying_cons c pid out :
  s_pkt (c_s c) = Some pid → s_outgoing (c_s c) = Some out →
  flying c = chunks_at (c_packets c) pid ++ ((map_to_list out).*2 ≫= chunks_at (c_packets c)).
Proof. intros E1 E2. unfold flying, owned. by rewrite E1, E2. Qed.

Lemma out_chunks (out : gmap Z packet_id) (m : gmap packet_id packet) pid p :
  (∀ q, out !! q ≠ Some pid) →
  (map_to_list out).*2 ≫= chunks_at (<[pid := p]> m) = (map_to_list out).*2 ≫= chunks_at m.
Proof.
  intros Ho. assert (pid ∉ (map_to_list out).*2) as Hp.
  { intros ([q x] & -> & Hx%elem_of_map_to_list)%list_elem_of_fmap. by apply Ho in Hx. }
  revert Hp. generalize (map_to_list out).*2. intros l. induction l as [|x l IH]; [done|].
  intros [Hx Hl]%not_elem_of_cons. cbn. rewrite IH by done. unfold chunks_at at 1 3. by rewrite lookup_insert_ne.
Qed.

Lemma plain_store wr m wid b b' :
  m !! wid = Some b → wb_buf b' = wb_buf b → wb_write b' = wb_write b → plain wr (<[wid := b']> m) → plain wr m.
Proof.
  intros Hb E1 E2 [(i & x & Hi & Hx) Hp]. assert (wb_len b' = wb_len b) as E3 by (unfold wb_len; by rewrite E1). split.
  - destruct (decide (i = wid)) as [->|].
    + rewrite lookup_insert_eq in Hi. injection Hi as <-. exists wid, b. by rewrite <- E2.
    + rewrite lookup_insert_ne in Hi by done. by exists i, x.
  - intros j y Hj Hy. destruct (decide (j = wid)) as [->|].
    + assert (y = b) as -> by congruence. rewrite <- E3. apply (Hp wid); [apply lookup_insert_eq|congruence].
    + apply (Hp j); [by rewrite lookup_insert_ne|done].
Qed.

(** The sums do not see the bytes in flight. *)
Lemma msum_inflight f (m : gmap wbuf_id wbuf) wid b b' :
  m !! wid = Some b → f b' = f b → msum f (<[wid := b']> m) = msum f m.
Proof. intros Hb E. rewrite (msum_store f m wid b) by done. lia. Qed.

(** A turn of packetization: [len] more bytes of the buffer at the head of the queue are carried. *)
Lemma turn_balanced c c' pend due wid q b len off :
  ledger c pend due → in_flight c pend → s_write_queue (c_s c) = wid :: q → c_wbufs c !! wid = Some b →
  0 <= len <= wbuf_left b → (len = 0 → wbuf_left b = 0) →
  c_wbufs c' = <[wid := b <| wb_bytes_inflight ::= λ x, x + len |>]> (c_wbufs c) →
  s_write_queue (c_s c') = (if len =? wbuf_left b then q else wid :: q) →
  flying c' ≡ₚ mk_chunk wid off len :: flying c →
  (c_writes c', c_next c', writes_queued_bytes (s_acct (c_s c')), io_log (c_io c')) =
  (c_writes c, c_next c, writes_queued_bytes (s_acct (c_s c)), io_log (c_io c)) →
  ledger c' pend due ∧ in_flight c' pend.
Proof.
  intros [L1 L2 L3 L4 L5 L6 L7 L8 L9] Hi Hq Hb Hl Hz Ew Eq Ef [= E1 E2 E3 E4].
  assert (pend ++ flying c' ≡ₚ mk_chunk wid off len :: pend ++ flying c) as Ep by (rewrite Ef; solve_Permutation).
  assert (∀ x, carried x (pend ++ flying c') = carried x (pend ++ flying c) + if decide (x = wid) then len else 0) as Ec.
  { intros x. rewrite Ep, carried_cons. cbn [ck_wbuf ck_len]. case_decide as Hx; case_decide; subst; try done; lia. }
  assert (Hi' : wb_bytes_inflight b = carried wid (pend ++ flying c)) by by apply Hi.
  unfold wbuf_left in *. set (b' := b <| wb_bytes_inflight ::= _ |>) in *.
  assert (Hlook : ∀ x y, c_wbufs c' !! x = Some y → ∃ y0, c_wbufs c !! x = Some y0 ∧ wb_len y = wb_len y0 ∧
            wb_bytes_acked y = wb_bytes_acked y0 ∧ wb_write y = wb_write y0 ∧
            wb_bytes_inflight y = wb_bytes_inflight y0 + if decide (x = wid) then len else 0).
  { intros x y. rewrite Ew. destruct (decide (x = wid)) as [->|].
    - rewrite lookup_insert_eq. intros [= <-]. by exists b.
    - rewrite lookup_insert_ne by done. intros Hy. exists y. split_and!; try done; lia. }
  assert (Hback : ∀ x y0, c_wbufs c !! x = Some y0 → ∃ y, c_wbufs c' !! x = Some y ∧ wb_len y = wb_len y0 ∧ wb_bytes_acked y = wb_bytes_acked y0).
  { intros x y0 Hy. rewrite Ew. destruct (decide (x = wid)) as [->|].
    - exists b'. rewrite lookup_insert_eq. assert (y0 = b) as -> by congruence. done.
    - exists y0. by rewrite lookup_insert_ne. }
  destruct (L2 wid b Hb) as (H1 & H2 & _ & H4). assert (NoDup (wid :: q)) as Hn by by rewrite <- Hq.
  apply NoDup_cons in Hn as [Hn1 Hn2]. assert (∀ x, x ∈ s_write_queue (c_s c') → x ∈ wid :: q) as Hsub.
  { intros x. rewrite Eq. destruct (_ =? _); [by right|done]. }
  split; [split|]; rewrite ?E1, ?E2, ?E3, ?E4.
  - intros k. rewrite Ep. intros [->|Hk]%elem_of_cons.
    + destruct (Hback wid b Hb) as (y & Hy & Ey & _). exists y. cbn. split_and!; [done|lia|]. intros ->. rewrite Ey.
      destruct (L3 wid) as (b0 & Hb0 & H0); [rewrite Hq; left|]. assert (b0 = b) as -> by congruence. apply H0. lia.
    + destruct (L1 k Hk) as (b0 & Hb0 & ? & ?). destruct (Hback _ _ Hb0) as (y & Hy & Ey & _). exists y. by rewrite Ey.
  - intros x y Hy. destruct (Hlook x y Hy) as (y0 & Hy0 & -> & -> & -> & _). rewrite Ec.
    destruct (L2 x y0 Hy0) as (K1 & K2 & K3 & K4). split; [done|]. case_decide as Hx; [subst x|].
    + assert (y0 = b) as -> by congruence. split; [lia|]. split; [|done]. rewrite Eq.
      destruct (Z.eqb_spec len (wb_len b - wb_bytes_acked b - wb_bytes_inflight b)); [lia|]. intros []. left.
    + rewrite Z.add_0_r. split; [done|]. split; [|done]. intros Hx'. apply K3. rewrite Hq. intros [->|Hin]%elem_of_cons; [done|].
      apply Hx'. rewrite Eq. destruct (_ =? _); [done|by right].
  - intros x Hx. pose proof (Hsub x Hx) as Hx'. rewrite <- Hq in Hx'. destruct (L3 x Hx') as (y0 & Hy0 & K).
    destruct (Hback _ _ Hy0) as (y & Hy & Ey & Ea). exists y. split; [done|]. rewrite Ey, Ea, Ec. case_decide as Hw; [subst x|by rewrite Z.add_0_r].
    assert (y0 = b) as -> by congruence. rewrite Eq in Hx.
    destruct (Z.eqb_spec len (wb_len b - wb_bytes_acked b - wb_bytes_inflight b)); [done|lia].
  - rewrite Eq. destruct (_ =? _); [done|by apply NoDup_cons].
  - intros wr w Hw. rewrite Ew, !(msum_inflight _ _ wid b) by (done || unfold part; done). by apply L5.
  - by rewrite Ew, (msum_inflight _ _ wid b).
  - by rewrite Ew, (msum_inflight _ _ wid b).
  - intros x [y (y0 & Hy0 & _)%Hlook]. apply L8. by exists y0.
  - intros wr w Hw Ho Hp. apply L9; [done|done|]. rewrite Ew in Hp. by apply (plain_store wr _ wid b b').
  - intros x y Hy. destruct (Hlook x y Hy) as (y0 & Hy0 & _ & _ & _ & ->). rewrite Ec. f_equal. by apply Hi.
Qed.

Lemma packetize_balanced fuel c c' pid p out pend due :
  building c pid p → s_outgoing (c_s c) = Some out → (∀ q, out !! q ≠ Some pid) →
  ledger c pend due → in_flight c pend → packetize fuel c = Some c' →
  ledger c' pend due ∧ in_flight c' pend ∧ c_next c' = c_next c ∧ c_writes c' = c_writes c.
Proof.
  revert c p. induction fuel as [|fuel IH]; intros c p Hbd Hout Hf Hl Hi E; cbn [packetize] in E;
    (destruct (Z.ltb_spec 0 (s_pkt_capacity (c_s c))) as [Hpos|_]; [|by injection E as <-]);
    (destruct (s_write_queue (c_s c)) as [|wid q] eqn:Hq; [by injection E as <-|]); [done|].
  destruct (packetize_turn c wid q pid p Hbd Hq Hpos) as (c1 & p1 & b & E1 & Hbd1 & Hpz & Hb & _ & Ew & Eq).
  rewrite E1 in E. cbn [mbind option_bind] in E.
  pose proof (packetize_step_eq c wid q pid p b Hbd Hq Hb Hpos) as Estep. cbv zeta in Estep. rewrite E1 in Estep.
  assert (wbuf_ok b) as Hok by (destruct (bd_wbufs _ _ _ Hbd wid ltac:(rewrite Hq; left)) as (? & ? & ?); congruence).
  destruct (turn_arith (c_s c) b Hok (bd_capacity _ _ _ Hbd)) as (_ & _ & A1 & A2 & A3).
  set (len := turn_len (c_s c) b) in *. set (off := wb_bytes_acked b + wb_bytes_inflight b) in *.
  destruct (bound_spec (c_s c) (grown p wid off len) len) as (_ & B2 & _). set (p' := bound _ _ _) in *.
  assert (p_chunks p' = p_chunks p ++ [mk_chunk wid off len]) as Ek.
  { rewrite B2. unfold grown. cbv zeta. by destruct (p_nwbufs _ =? _). }
  assert (c_packets c1 = <[pid := p']> (c_packets c)) as Ep by by injection Estep as ->.
  assert (writes_queued_bytes (s_acct (c_s c1)) = writes_queued_bytes (s_acct (c_s c))) as Ea.
  { injection Estep as ->. cbn [c_s upd_field]. unfold flagged. cbv zeta. by repeat case_match. }
  assert (c_writes c1 = c_writes c) as Ewr by by injection Estep as ->.
  pose proof (pz_rest _ _ _ _ _ Hpz) as [= Eio En _ _]. clear Estep. clearbody p'.
  assert (s_outgoing (c_s c1) = Some out) as Hout1.
  { destruct (erase_fields _ _ (pz_stream _ _ _ _ _ Hpz)) as (? & ? & ? & ? & Es). by rewrite Es. }
  assert (flying c1 ≡ₚ mk_chunk wid off len :: flying c) as Ef.
  { rewrite (flying_cons c1 pid out), (flying_cons c pid out), Ep, (out_chunks _ _ _ _ Hf) by (apply Hbd1 || apply Hbd || done).
    unfold chunks_at at 1 3. rewrite lookup_insert_eq, (bd_packet _ _ _ Hbd), Ek. solve_Permutation. }
  destruct (turn_balanced c c1 pend due wid q b len off Hl Hi Hq Hb) as [Hl1 Hi1]; try done; [lia|lia|by rewrite Ewr, En, Ea, Eio|].
  destruct (IH c1 p1 Hbd1 Hout1 Hf Hl1 Hi1 E) as (? & ? & ? & ?). split_and!; [done|done|congruence..].
Qed.

(** ** A new packet goes out *)

Lemma finish_packet_chunks c p tlp p' probe : 
  finish_packet c p tlp = Some (p', probe) →
  p_chunks p' = p_chunks p ∧ p_seq p' = s_seq (c_s c) ∧ (probe = true → mtu_probe_wanted (s_mtu (c_s c)) = true).
Proof.
  unfold finish_packet, bind_packet_remote, mtu_probeify_packet. intros E. apply bind_Some in E as (p1 & E1 & E). cbv zeta in E.
  assert (p_chunks p1 = p_chunks p) as Ep by (destruct (_ =? 0); inv_some; by subst p1).
  destruct (mtu_probe_wanted (s_mtu (c_s c))); cbn [andb] in E; [|injection E as <- <-; by split_and!].
  destruct (_ && _); [|injection E as <- <-; by split_and!]. destruct (_ || _) in E; [injection E as <- <-; by split_and!|].
  inv_some. destruct (_ || _) in E; inv_some; subst; by split_and!.
Qed.

Lemma send_new_books c tlp c' out :
  s_outgoing (c_s c) = Some out → out !! s_seq (c_s c) = None → c_packets c !! c_next c = None →
  _send_new_packet c tlp = Some c' →
  (c_wbufs c', c_writes c', s_write_queue (c_s c'), writes_queued_bytes (s_acct (c_s c'))) =
  (c_wbufs c, c_writes c, s_write_queue (c_s c), writes_queued_bytes (s_acct (c_s c))) ∧
  (c_next c <= c_next c')%positive ∧ flying c' ≡ₚ flying c ∧
  (∀ wr, acks_of wr (io_log (c_io c')) = acks_of wr (io_log (c_io c))) ∧ tuned c c'.
Proof.
  intros Ho Hs Hn E. unfold _send_new_packet in E. match type of E with (if ?b then _ else None) = _ => destruct b; [|done] end.
  cbv zeta in E. apply bind_Some in E as (pid & Epid & E). apply bind_Some in E as (p & Hp & E).
  apply bind_Some in E as ([p1 probe] & (Ek & Eseq & Hprobe)%finish_packet_chunks & E). rewrite Ho in E. cbn [mbind option_bind] in E.
  rewrite Eseq in E. set (c1 := c <| c_packets ::= _ |> <| c_s ::= _ |>) in E.
  assert (∀ x, chunks_at (c_packets c1) x = chunks_at (c_packets c) x) as Hc1.
  { intros x. apply chunks_insert. unfold chunks_at. by rewrite Hp. }
  apply bind_Some in E as (c2 & E2%send_packet_unbooked & E). set (c3 := c2 <| c_s ::= _ |>) in E.
  apply bind_Some in E as (s & Es & E). cbv zeta in E. set (s1 := if tlp then _ else _) in E.
  apply bind_Some in E as (c5 & E5%arm_timers_unbooked & E). match type of E with (if ?b then _ else None) = _ => destruct b; [|done] end.
  set (m := if probe then mtu_probe_sent (s_mtu (c_s c2)) else s_mtu (c_s c2)).
  assert (booked s1 = booked (c_s c2 <| s_mtu := m |>)) as Hb.
  { assert (booked s = booked (c_s c2)) as [= B1 B2 B3 B4 B5 B6]
      by (destruct (_ =? 0); [apply transmit_start_booked in Es; by rewrite Es|by injection Es as <-]).
    unfold s1, m, booked. destruct tlp, probe; cbn [s_acct s_write_queue s_pkt s_outgoing s_mtu s_remote_acked upd_field]; congruence. }
  clearbody s1. clear Es. pose proof (ub_stream _ _ E2) as [= _ _ _ _ Em _]. change (s_mtu (c_s c1)) with (s_mtu (c_s c)) in Em.
  assert (mtu_ok (s_mtu (c_s c)) → mtu_ok m) as Hm.
  { unfold m. rewrite Em. destruct probe; [|done]. intros. apply mtu_probe_sent_ok; auto. }
  clearbody m. set (c1' := c1 <| c_s ::= λ s, s <| s_mtu := m |> |>).
  assert (unbooked c1' c5) as [[= U1 U2] U3 [= U4 U5 U6 U7 U10 U11] U8 U9].
  { transitivity (c2 <| c_s ::= λ s, s <| s_mtu := m |> |>); [by apply unbooked_mtu|]. transitivity (c3 <| c_s := s1 |>); [|done].
    exact (unbooked_stream (c2 <| c_s ::= λ s, s <| s_mtu := m |> |>) s1 Hb). }
  unfold reset_next_packet in E. apply bind_Some in E as (cap & _ & E). injection E as <-.
  cbn [c_wbufs c_writes c_s c_next c_io upd_field s_write_queue s_acct s_pkt_capacity s_pkt_header_flag s_pkt s_pending_packet_prepare].
  split; [by rewrite U1, U2, U4, U5|]. split; [cbn; rewrite U3; cbn; lia|].
  split; [|split; [exact U9|split; [exact U11|intros; cbn; rewrite U10; by apply Hm]]].
  unfold flying, owned. cbn [c_s c_packets upd_field s_pkt s_outgoing s_pkt_capacity s_pkt_header_flag s_pending_packet_prepare].
  rewrite U7, Epid, Ho. change (s_outgoing (c_s c1)) with (Some (<[s_seq (c_s c) := pid]> out)).
  set (pk := <[c_next c5 := _]> (c_packets c5)). assert (∀ x, chunks_at pk x = chunks_at (c_packets c) x) as Hpk.
  { intros x. unfold pk. rewrite chunks_insert; [by rewrite U8|]. cbn. rewrite U8, U3, Hc1. unfold chunks_at. cbn. by rewrite Hn. }
  rewrite (bind_ext_chunks _ _ _ Hpk), map_to_list_insert by done. cbn [app fmap list_fmap snd].
  rewrite bind_cons. assert (chunks_at (c_packets c) (c_next c5) = []) as ->; [|done].
  unfold chunks_at. rewrite U3. cbn. by rewrite Hn.
Qed.

(** ** Sending leaves the accounts balanced *)

Definition accounts (c : ctx) (pend : list chunk) (due : option write_id) : Prop := ledger c pend due ∧ in_flight c pend.

Lemma unbooked_accounts c c' pend due : unbooked c c' → accounts c pend due → accounts c' pend due.
Proof. intros Hu [H1 H2]. split; [by apply (unbooked_ledger c)|by apply (unbooked_in_flight c)]. Qed.

Lemma window_next_free c out : queues_ok c out → out !! s_seq (c_s c) = None.
Proof.
  intros Q. destruct (out !! s_seq (c_s c)) as [x|] eqn:E; [|done]. destruct (qo_window _ _ Q _ _ E) as [_ ?]. unfold window in *. lia.
Qed.
Lemma next_free (m : gmap packet_id packet) n : (∀ x, is_Some (m !! x) → (x < n)%positive) → m !! n = None.
Proof. intros Hm. destruct (m !! n) eqn:E; [|done]. assert (n < n)%positive by (apply Hm; by eexists). lia. Qed.

Lemma send_new_accounts c tlp c' out pid p pend due :
  queues_ok c out → packed c out pid p → accounts c pend due → _send_new_packet c tlp = Some c' →
  accounts c' pend due ∧ c_writes c' = c_writes c ∧ tuned c c'.
Proof.
  intros Hq Hp [Hl Hi] E.
  destruct (send_new_books c tlp c' out (qo_out _ _ Hq) (window_next_free _ _ Hq) (next_free _ _ (pk_alloc _ _ _ _ Hp)) E)
    as (B1 & B2 & B3 & B4 & B5). split; [|split; [by injection B1|done]]. split.
  - by apply (ledger_view c _ pend pend); rewrite ?B3.
  - apply (in_flight_view c _ pend pend); [by injection B1|by rewrite B3|done].
Qed.

Lemma send_new_packet_accounts c tlp c' b pend due :
  sender_ok c → accounts c pend due → send_new_packet c tlp = Some (c', b) → accounts c' pend due ∧ c_writes c' = c_writes c ∧ tuned c c'.
Proof.
  intros Hok Ha E. pose proof Hok as (Hs & out & Hq & pid & p & Hc). unfold send_new_packet in E.
  destruct (qlen _ =? 0); [by injection E as <- _|].
  destruct (may_send_ok c false Hs) as (c1 & b1 & E1 & H1 & _). rewrite E1 in E. cbn [mbind option_bind] in E.
  apply may_send_unbooked in E1 as Hu1. pose proof (unbooked_accounts _ _ _ _ Hu1 Ha) as Ha1.
  pose proof (ub_bufs _ _ Hu1) as [= _ Ewr1].
  apply unbooked_tuned in Hu1 as Ht1. destruct (negb b1 && negb tlp); [by injection E as <- _|].
  pose proof (same_core_can_send _ _ H1 Hs) as Hs1. pose proof (same_core_queues _ _ _ H1 Hq) as Hq1.
  pose proof (same_core_current _ _ _ _ _ H1 Hc) as Hc1.
  destruct (packetize_loop (S (length (s_write_queue (c_s c1)))) c1 pid p (cu_building _ _ _ _ Hc1) ltac:(lia))
    as (c2 & p2 & E2 & Hb2 & Hz & _). assert (tuned c c2) as Ht2.
  { transitivity c1; [done|]. destruct (erase_fields _ _ (pz_stream _ _ _ _ _ Hz)) as (? & ? & ? & ? & Es). unfold tuned; rewrite Es; by split. }
  rewrite E2 in E. cbn [mbind option_bind] in E.
  destruct (packetize_balanced (S (length (s_write_queue (c_s c1)))) c1 c2 pid p out pend due (cu_building _ _ _ _ Hc1)) as (Hl2 & Hi2 & En2 & Ew2); try done; try apply Ha1.
  { apply Hq1. } { apply Hc1. }
  pose proof (packetized_packed _ _ _ _ _ _ Hz Hb2 Hs1 Hc1) as Hp2. pose proof (packetized_queues _ _ _ _ _ _ Hz (cu_out _ _ _ _ Hc1) Hq1) as Hq2.
  cbv zeta in E. destruct (_ || _ || _).
  - apply bind_Some in E as (c3 & E3 & E). injection E as <- _.
    destruct (send_new_accounts c2 tlp c3 out pid p2 pend due Hq2 Hp2 (conj Hl2 Hi2) E3) as (Ha3 & ? & ?).
    split; [done|]. split; [congruence|by transitivity c2].
  - assert (∀ s, booked s = booked (c_s c2) → accounts (c2 <| c_s := s |>) pend due) as Hend.
    { intros s Hb. apply (unbooked_accounts c2); [by apply unbooked_stream|done]. }
    destruct (has _ UDX_HEADER_DATA); injection E as <- _; (split; [|split; [cbn; congruence|exact Ht2]]); [by apply (Hend (c_s c2 <| s_pending_packet_prepare := true |>))|done].
Qed.

Lemma send_new_packets_accounts n c c' pend due :
  sender_ok c → accounts c pend due → send_new_packets n c = Some c' → accounts c' pend due ∧ c_writes c' = c_writes c ∧ tuned c c'.
Proof.
  revert c. induction n as [|n IH]; intros c Hok Ha E; cbn [send_new_packets] in E;
    destruct (send_new_packet_ok c false Hok) as (c1 & b & E1 & Hok1 & _); rewrite E1 in E; cbn [mbind option_bind] in E;
    destruct (send_new_packet_accounts _ _ _ _ _ _ Hok Ha E1) as (Ha1 & Ew1 & Ht1); (destruct b; [|by injection E as <-]); [done|].
  destruct (IH c1 Hok1 Ha1 E) as (? & ? & ?). split; [done|]. split; [congruence|by transitivity c1].
Qed.

Lemma send_packets_accounts c c' pend due :
  sender_ok c → accounts c pend due → send_packets c = Some c' → accounts c' pend due ∧ c_writes c' = c_writes c ∧ tuned c c'.
Proof.
  intros (Hs & out & Hq & pid & p & Hc) Ha E. unfold send_packets in E.
  match type of E with (if ?b then _ else None) = _ => destruct b; [|done] end.
  destruct (send_retransmits_ok _ c out pid p (Nat.le_refl _) Hs Hq Hc) as (c1 & E1 & Hs1 & Hq1 & Hc1 & _).
  rewrite E1 in E. cbn [mbind option_bind] in E. apply send_retransmits_unbooked in E1.
  pose proof (ub_bufs _ _ E1) as [= _ Ew]. rewrite <- Ew.
  destruct (send_new_packets_accounts (write_backlog c1) c1 c' pend due) as (? & ? & ?); [|by apply (unbooked_accounts c)|done|].
  2: { split; [done|]. split; [done|]. transitivity c1; [by apply unbooked_tuned|done]. }
  split; [done|]. exists out. split; [done|]. by exists pid, p.
Qed.

(** The packets see only the bytes of the buffers. *)
Lemma queues_more_bufs c c' out :
  (s_outgoing (c_s c'), s_remote_acked (c_s c'), s_seq (c_s c'), s_inflight_queue (c_s c'),
   s_retransmit_queue (c_s c'), s_inflight (c_s c'), c_packets c') =
  (s_outgoing (c_s c), s_remote_acked (c_s c), s_seq (c_s c), s_inflight_queue (c_s c),
   s_retransmit_queue (c_s c), s_inflight (c_s c), c_packets c) →
  (∀ ks, is_Some (chunks_bytes (c_wbufs c) ks) → is_Some (chunks_bytes (c_wbufs c') ks)) →
  queues_ok c out → queues_ok c' out.
Proof.
  intros [= E1 E2 E3 E4 E5 E6 E7] E8 [Q1 Q2 Q3 Q4 Q5 Q6 Q7].
  assert (Hm : ∀ b y, marked c' out b y ↔ marked c out b y) by (intros; unfold marked; by rewrite E7).
  split; unfold window; rewrite ?E1, ?E2, ?E3, ?E4, ?E5, ?E6, ?E7; try done.
  - intros q pid Hq. destruct (Q2 q pid Hq) as (p & Hp & Hs & K1 & K2 & K3 & K4 & K5). exists p. split; [done|]. split; [done|].
    do 4 (split; [done|]). by apply E8.
  - intros y. rewrite Hm. apply Q4.
  - intros y. rewrite Hm. apply Q5.
  - rewrite Q7. f_equal. symmetry. apply bytes_of_ext. intros y _. unfold packet_size. by rewrite E7.
Qed.

End Ledger.

(** ** A sender with its accounts in order

    Write 9 of five bytes: two in flight, one in a lost packet, two in the queue. *)
Section Example.
#[local] Existing Instance example_env.

Definition ledger_packet (seq : Z) (is_lost : bool) (k : chunk) : packet :=
  new_packet 0 <| p_seq := seq |> <| p_lost := is_lost |> <| p_transmits := 1 |> <| p_size := 20 + ck_len k |>
    <| p_chunks := [k] |> <| p_header := header_bytes UDX_LE UDX_HEADER_DATA 7 65536 seq 0 |>.
Definition ledger_packets : gmap packet_id packet :=
  {[ 1%positive := ledger_packet (2 ^ 32 - 1) false (mk_chunk 1 0 2); 2%positive := ledger_packet 0 true (mk_chunk 2 0 1);
     3%positive := new_packet 3 ]}.
Definition ledger_wbufs : gmap wbuf_id wbuf :=
  {[ 1%positive := mk_wbuf [104; 105] 2 0 9 false; 2%positive := mk_wbuf [1; 2; 3] 1 0 9 false ]}.
Definition ledger_stream : stream :=
  example_stream <| s_retransmit_queue := [2%positive] |> <| s_inflight_queue := [1%positive] |>
    <| s_mtu := mk_mtu_st UDX_MTU_STATE_BASE false 0 UDX_MTU_BASE UDX_MTU_MAX UDX_MTU_BASE |>
    <| s_acct := mk_acct_st 5 3 0 5 false |> <| s_pending_timer := UDX_TIMER_RTO |>.
Definition ledger_ctx : ctx :=
  mk_ctx ledger_stream ledger_packets ledger_wbufs {[ 9%positive := mk_write 5 0 false 1 true ]} 10
    (mk_io 1000 [] (mk_counters 0 0 0 0) 0 0) 1 (mk_world 1 false false [] [] ∅ ∅ ∅ ∅ ∅ ∅ ∅).

Lemma ledger_marked b pid :
  marked ledger_ctx example_out b pid ↔ (pid = 1%positive ∧ b = false) ∨ (pid = 2%positive ∧ b = true).
Proof.
  split.
  - intros (p & Hp & [[_ ->]|[_ ->]]%example_out_cases & <-); vm_compute in Hp; injection Hp as <-; auto.
  - intros [[-> ->]|[-> ->]]; eexists; (split; [vm_compute; reflexivity|]); (split; vm_compute; reflexivity).
Qed.

Lemma ledger_queues : queues_ok ledger_ctx example_out.
Proof.
  split; [done|..].
  - intros q pid [[-> ->]|[-> ->]]%example_out_cases; eexists; (split; [vm_compute; reflexivity|]); (split; [vm_compute; reflexivity|]);
      unfold packet_ok; split_and!; try (vm_compute; congruence); try (eexists; vm_compute; reflexivity); vm_compute; reflexivity.
  - intros q pid [[-> ->]|[-> ->]]%example_out_cases; vm_compute; intuition congruence.
  - intros pid. rewrite ledger_marked. change (pid ∈ [1%positive] ↔ pid = 1%positive ∧ false = false ∨ pid = 2%positive ∧ false = true).
    rewrite list_elem_of_singleton. intuition congruence.
  - intros pid. rewrite ledger_marked. change (pid ∈ [2%positive] ↔ pid = 1%positive ∧ true = false ∨ pid = 2%positive ∧ true = true).
    rewrite list_elem_of_singleton. intuition congruence.
  - split; apply NoDup_singleton.
  - vm_compute. reflexivity.
Qed.

Lemma ledger_alloc y : is_Some (ledger_packets !! y) → (y < 10)%positive.
Proof. unfold ledger_packets. intros [p Hp]. rewrite !lookup_insert_Some, lookup_singleton_Some in Hp. lia. Qed.

Lemma ledger_current : current_ok ledger_ctx example_out 3 (new_packet 3).
Proof.
  split. 2-4, 6, 7, 10: vm_compute; intuition congruence.
  - split. 1-9: vm_compute; intuition congruence.
    + change (NoDup [2%positive]). apply NoDup_singleton.
    + intros wid Hw. change (wid ∈ [2%positive]) in Hw. apply list_elem_of_singleton in Hw as ->.
      eexists. split; [vm_compute; reflexivity|]. vm_compute. intuition congruence.
  - by eexists.
  - intros q [[_ ?]|[_ ?]]%example_out_cases; done.
  - exact ledger_alloc.
Qed.

Lemma ledger_sender_ok : sender_ok ledger_ctx.
Proof.
  split; [|exists example_out; split; [exact ledger_queues|]; exists 3%positive, (new_packet 3); exact ledger_current].
  split. 1-4, 6-9: vm_compute; intuition congruence. - by eexists. - left. vm_compute. discriminate.
Qed.

Lemma ledger_wbuf_cases wid b : ledger_wbufs !! wid = Some b →
  (wid = 1%positive ∧ b = mk_wbuf [104; 105] 2 0 9 false) ∨ (wid = 2%positive ∧ b = mk_wbuf [1; 2; 3] 1 0 9 false).
Proof. unfold ledger_wbufs. intros [[<- <-]|[_ [<- <-]%lookup_singleton_Some]]%lookup_insert_Some; auto. Qed.
Lemma ledger_write_cases wr w : c_writes ledger_ctx !! wr = Some w → wr = 9%positive ∧ w = mk_write 5 0 false 1 true.
Proof. change (c_writes ledger_ctx) with ({[ 9%positive := mk_write 5 0 false 1 true ]} : gmap write_id write). by intros [<- <-]%lookup_singleton_Some. Qed.
Lemma ledger_flying : flying ledger_ctx ≡ₚ [mk_chunk 1 0 2; mk_chunk 2 0 1].
Proof. assert (flying ledger_ctx = [mk_chunk 2 0 1; mk_chunk 1 0 2] ∨ flying ledger_ctx = [mk_chunk 1 0 2; mk_chunk 2 0 1]) as [->| ->]
  by (vm_compute; auto); solve_Permutation. Qed.

Lemma ledger_accounts : accounts ledger_ctx [] None.
Proof.
  assert (∀ wid, carried wid ([] ++ flying ledger_ctx) = carried wid [mk_chunk 1 0 2; mk_chunk 2 0 1]) as Ec by (intros; cbn [app]; by rewrite ledger_flying).
  split; [split|].
  - intros k. cbn [app]. rewrite ledger_flying. intros [->|[->|[]%elem_of_nil]%elem_of_cons]%elem_of_cons;
      eexists; (split; [vm_compute; reflexivity|]); vm_compute; intuition congruence.
  - intros wid b [[-> ->]|[-> ->]]%ledger_wbuf_cases; rewrite Ec; (split_and!; [vm_compute; congruence|vm_compute; congruence| |by eexists]).
    + intros _. vm_compute. reflexivity. + intros []. left.
  - intros wid Hw. change (wid ∈ [2%positive]) in Hw. apply list_elem_of_singleton in Hw as ->. eexists.
    split; [vm_compute; reflexivity|]. rewrite Ec. vm_compute. congruence.
  - change (NoDup [2%positive]). apply NoDup_singleton.
  - intros wr w [-> ->]%ledger_write_cases. split; vm_compute; reflexivity.
  - vm_compute. reflexivity.
  - vm_compute. reflexivity.
  - intros x [b [[-> _]|[-> _]]%ledger_wbuf_cases]; vm_compute; reflexivity.
  - intros wr w [-> ->]%ledger_write_cases _ _. vm_compute. reflexivity.
  - intros wid b [[-> ->]|[-> ->]]%ledger_wbuf_cases; rewrite Ec; vm_compute; reflexivity.
Qed.
End Example.
