(* ===== verification/Tended.v ===== *)
(** * Sending and loss detection tend the accounts (src/udx.c: lose_packet's callers, send_packets)

    [tended c c']: what c has sent and written, c' conveys; what c accounts for, c' accounts for; the MTU search stays well formed, the left edge of the
    window and the write requests stay as they are.  Every function that sends, retransmits or declares packets
    lost is of this kind. *)

From S2P Require Import Prelude SeqNum Endian Wire WinFilter Stream Rtt Mtu Rate Float64 Bbr Ctx Send Packetize Sender Loss Write Ack Convey Ledger.

Section Tended.
Context `{Env}.

Definition tended (c c' : ctx) : Prop :=
  conveys c c' ∧ ∀ pend due, accounts c pend due → accounts c' pend due ∧ c_writes c' = c_writes c ∧ tuned c c'.

#[global] Instance tended_refl : Reflexive tended.
Proof. by split. Qed.
#[global] Instance tended_trans : Transitive tended.
Proof.
  intros c1 c2 c3 [V1 H1] [V2 H2]. split; [by transitivity c2|]. intros pend due Ha. destruct (H1 pend due Ha) as (Ha2 & E2 & T2). destruct (H2 pend due Ha2) as (Ha3 & E3 & T3).
  split; [done|]. split; [congruence|by transitivity c2].
Qed.

Lemma unbooked_tended c c' : unbooked c c' → conveys c c' → tended c c'.
Proof.
  intros Hu Hv. split; [done|]. intros pend due Ha. split; [by apply (unbooked_accounts c)|]. split; [|by apply unbooked_tuned].
  by pose proof (ub_bufs _ _ Hu) as [= _ ->].
Qed.
Lemma tended_stream c s : booked s = booked (c_s c) → wire_view s = wire_view (c_s c) → tended c (c <| c_s := s |>).
Proof. intros E1 E2. apply unbooked_tended; [by apply unbooked_stream|by apply conveys_stream]. Qed.
Lemma tended_mtu c m : (mtu_ok (s_mtu (c_s c)) → mtu_ok m) → tended c (c <| c_s ::= λ s, s <| s_mtu := m |> |>).
Proof.
  intros Hm. split; [by apply (conveys_stream c (c_s c <| s_mtu := m |>))|]. intros pend due [L Hi]. split; [|by split].
  split; [by apply (ledger_view c _ pend pend)|by apply (in_flight_view c _ pend pend)].
Qed.
Lemma tended_packet c pid p p' : c_packets c !! pid = Some p → same_wire p p' → tended c (c <| c_packets ::= <[pid := p']> |>).
Proof.
  intros Hp Hs. apply unbooked_tended; [|by apply (conveys_packet c pid p)]. apply unbooked_packet. unfold chunks_at. rewrite Hp. apply Hs.
Qed.

Lemma timer_start_tended c t ms : tended c (stream_timer_start c t ms).
Proof. unfold stream_timer_start. by apply tended_stream; destruct (decide _). Qed.
Lemma timer_stop_tended c : tended c (stream_timer_stop c).
Proof. by apply tended_stream. Qed.

Lemma send_probe_tended c : tended c (send_probe c).
Proof.
  apply unbooked_tended; [|apply send_probe_conveys]. unfold send_probe. destruct (s_socket (c_s c)); [|done]. split; try done. intros x. cbn.
  unfold send_small, uv_udp_try_send, uv_udp_send. cbn. by destruct (_ =? _).
Qed.

Lemma send_new_tended c tlp c' out pid p :
  queues_ok c out → packed c out pid p → _send_new_packet c tlp = Some c' → tended c c'.
Proof.
  intros Hq Hp E. split.
  - apply renewed_conveys; [by apply (send_new_renewed c tlp)|apply (next_free _ _ (pk_alloc _ _ _ _ Hp))|].
    intros q x. unfold sent_at. rewrite (qo_out _ _ Hq), (bd_pkt _ _ _ (pk_building _ _ _ _ Hp)). intros Hx [= <-]. by apply (pk_out _ _ _ _ Hp q).
  - intros pend due Ha. by apply (send_new_accounts c tlp c' out pid p).
Qed.
Lemma send_new_packet_tended c tlp c' b : sender_ok c → send_new_packet c tlp = Some (c', b) → tended c c'.
Proof. intros Hok E. split; [by apply (send_new_packet_conveys c tlp c' b)|]. intros pend due Ha. by apply (send_new_packet_accounts c tlp c' b). Qed.
Lemma send_packets_tended c c' : sender_ok c → send_packets c = Some c' → tended c c'.
Proof. intros Hok E. split; [by apply send_packets_conveys|]. intros pend due Ha. by apply send_packets_accounts. Qed.
Lemma retransmit_tended c pid c' : retransmit_packet c pid = Some c' → (∃ q, sent_at c q = Some pid) → tended c c'.
Proof. intros E Hq. apply unbooked_tended; [by apply (retransmit_unbooked c pid)|by apply (retransmit_conveys c pid)]. Qed.

(** ** Packets declared lost *)

(** The queue of packets in flight only loses packets. *)
Definition fewer (c c' : ctx) : Prop := ∀ x, x ∈ s_inflight_queue (c_s c') → x ∈ s_inflight_queue (c_s c).

Lemma lose_packet_tended c pid p p0 c' :
  lose_packet c pid p = Some c' → c_packets c !! pid = Some p0 → same_wire p0 p → tended c c' ∧ fewer c c'.
Proof.
  unfold lose_packet. intros E Hp Ek. apply bind_Some in E as (q & [_ ->]%queue_unlink_Some & E). injection E as <-. split.
  - transitivity (c <| c_packets ::= <[pid := p <| p_lost := true |>]> |>).
    + by apply (tended_packet c pid p0).
    + by apply tended_stream.
  - intros x. cbn [c_s upd_field s_inflight_queue]. rewrite list_elem_of_filter. by intros [_ ?].
Qed.

Lemma unprobeify_tended c pid p p' m :
  c_packets c !! pid = Some p → mtu_unprobeify_packet p (s_mtu (c_s c)) = Some (p', m) →
  tended c (c <| c_packets ::= <[pid := p']> |> <| c_s ::= λ s, s <| s_mtu := m |> |>).
Proof.
  intros Hp E. pose proof (unprobeify_wire _ _ _ _ E) as Hs. unfold mtu_unprobeify_packet in E. match type of E with (if ?b then _ else None) = _ => destruct b; [|done] end.
  injection E as <- <-. transitivity (c <| c_packets ::= <[pid := p <| p_header ::= λ h, <[3%nat := 0]> h |> <| p_is_mtu_probe := false |>]> |>).
  - by apply (tended_packet c pid p).
  - apply tended_mtu. apply mtu_probe_lost_ok.
Qed.

Lemma rack_scan_tended q reo_wnd a a' :
  rack_scan_queue q reo_wnd a = Some a' → tended (sc_ctx a) (sc_ctx a') ∧ fewer (sc_ctx a) (sc_ctx a').
Proof.
  revert a. induction q as [|pid q IH]; intros a E; cbn [rack_scan_queue] in E; [injection E as <-; split; [done|by intros x]|].
  apply bind_Some in E as (p & Hp & E). match type of E with (if ?b then _ else None) = _ => destruct b; [|done] end.
  destruct (_ <? _); [injection E as <-; split; [done|by intros x]|]. destruct (_ =? 2); [by apply IH|]. destruct (rack_sent_after _ _ _ _); [|by apply IH].
  cbv zeta in E. destruct (_ <=? 0); [|by apply IH in E].
  match type of E with (if ?b then _ else None) = _ => destruct b; [|done] end.
  apply bind_Some in E as (c1 & E1 & E). apply (lose_packet_tended _ pid p p) in E1 as E1'; [|done|apply same_wire_refl]. destruct E1' as [T1 F1].
  set (c0 := sc_ctx a <| c_s ::= _ |>) in *. assert (tended (sc_ctx a) c0) as T0 by by apply tended_stream.
  assert (tended (sc_ctx a) c1) as T01 by by transitivity c0.
  assert (c_packets c1 !! pid = Some (p <| p_lost := true |>)) as Hp1.
  { unfold lose_packet in E1. apply bind_Some in E1 as (? & _ & E1). injection E1 as <-. apply lookup_insert_eq. }
  destruct (p_is_mtu_probe p).
  - apply bind_Some in E as ([p' m] & Eu & E). pose proof (unprobeify_tended c1 pid _ p' m Hp1 Eu) as T2.
    apply IH in E as [T3 F3]. cbn [sc_ctx] in *. split; [|intros x Hx; by apply F1, F3].
    transitivity c1; [done|]. etransitivity; [exact T2|done].
  - apply IH in E as [T3 F3]. cbn [sc_ctx] in *. split; [by transitivity c1|intros x Hx; by apply F1, F3].
Qed.

Lemma rto_scan_tended seqs reo_wnd now0 c c' : rto_scan seqs reo_wnd now0 c = Some c' → tended c c'.
Proof.
  revert c. induction seqs as [|seq seqs IH]; intros c E; cbn [rto_scan] in E; [by injection E as <-|].
  apply bind_Some in E as (out & _ & E). destruct (out !! seq) as [pid|]; [|by apply IH].
  apply bind_Some in E as (p & Hp & E). destruct (p_lost p).
  { apply IH in E. etransitivity; [|exact E]. by apply tended_stream. }
  cbv zeta in E. destruct (_ || _); [|by apply IH]. set (c1 := c <| c_s ::= _ |>) in E.
  assert (tended c c1) as T1 by by apply tended_stream. apply bind_Some in E as ([p' m] & Eu & E).
  set (c2 := c1 <| c_packets ::= _ |> <| c_s ::= _ |>) in E.
  assert (tended c1 c2) as T2.
  { destruct (p_is_mtu_probe p); [by apply (unprobeify_tended c1 pid p)|]. injection Eu as <- <-.
    transitivity (c1 <| c_packets ::= <[pid := p]> |>); [by apply (tended_packet c1 pid p); [|apply same_wire_refl]|by apply tended_stream]. }
  assert (tended c c2) as T12 by by transitivity c1.
  destruct (_ =? 2); [apply IH in E; by transitivity c2|].
  apply bind_Some in E as (c3 & E3 & E%IH). transitivity c2; [done|]. transitivity c3; [|done].
  by apply (lose_packet_tended c2 pid p' p') in E3 as [? _]; [|apply lookup_insert_eq|apply same_wire_refl].
Qed.
End Tended.
