(* ===== verification/Acked.v ===== *)
(** * Acknowledgements settle the accounts (src/udx.c: on_bytes_acked, ack_packet and its callers)

    A packet that is acknowledged leaves the outgoing buffer and its queue, and its chunks are credited to
    their writes; the user is called back when a write is complete.  User code may change the context: it is
    asked to keep what libudx's own functions keep ([polite]), or to leave the stream dead. *)

From S2P Require Import Prelude SeqNum Endian Wire WinFilter Stream Rtt Mtu Rate Float64 Bbr Ctx Send Packetize Sender Loss Write Ack Convey Ledger.

Section Acked.
Context `{Env} `{Numbering}.

(** ** The state between two packets, and between two chunks *)

(** The packet being acknowledged is still there, and in no queue. *)
Definition held_ok (c : ctx) (out : gmap Z packet_id) (held : option (packet_id * packet)) : Prop :=
  match held with
  | None => True
  | Some (pid, p) => c_packets c !! pid = Some p ∧ (∀ q, out !! q ≠ Some pid) ∧ s_pkt (c_s c) ≠ Some pid
  end.

(** The conditions for sending that acknowledgements keep; [can_send] without the congestion controller's. *)
Record able (c : ctx) : Prop := {
  ab_cwnd : 0 < s_cwnd (c_s c) < 2 ^ 32;
  ab_pacing : 0 < s_pacing_bytes_per_ms (c_s c);
  ab_rto : 0 < rto (s_rtt (c_s c));
  ab_socket : is_Some (s_socket (c_s c));
  ab_alive : has (s_status (c_s c)) UDX_STREAM_DEAD = false;
  ab_rwnd : is_u32 (send_rwnd (s_wnd (c_s c)));
  ab_addr : s_remote_addr_len (c_s c) ≠ 0 ∧ sa_fam (s_remote_addr (c_s c)) ≠ AF_UNSPEC;
  ab_seq : is_u32 (s_seq (c_s c)) }.

Record acking (c : ctx) (held : option (packet_id * packet)) (pend : list chunk) (due : option write_id) : Prop := {
  ak_queues : ∃ out, queues_ok c out ∧ (∃ pid p, current_ok c out pid p) ∧ held_ok c out held;
  ak_accounts : accounts c pend due;
  ak_faithful : ∃ sent, faithful sent c;
  ak_mtu : mtu_ok (s_mtu (c_s c));
  ak_able : able c;
  ak_guarded : guarded c }.

Definition dead (c : ctx) : Prop := has (s_status (c_s c)) UDX_STREAM_DEAD = true.

Lemma mtu_ok_range m : mtu_ok m → mtu_in_range m.
Proof. intros [_ M1 M2 _ _ _ _]. unfold mtu_in_range. lia. Qed.

(** The window only grows at its end. *)
Record onward (c c' : ctx) : Prop := {
  ow_acked : s_remote_acked (c_s c') = s_remote_acked (c_s c);
  ow_window : window (c_s c) <= window (c_s c');
  ow_gone : ∀ q, u32 (q - s_remote_acked (c_s c)) < window (c_s c) → sent_at c q = None → sent_at c' q = None }.

#[global] Instance onward_refl : Reflexive onward.
Proof. split; done || lia. Qed.
#[global] Instance onward_trans : Transitive onward.
Proof.
  intros c1 c2 c3 [A1 A2 A3] [B1 B2 B3]. split; [congruence|lia|].
  intros q Hq Hs. apply B3; [rewrite A1; lia|]. by apply A3.
Qed.

(** User code adds writes and buffers and changes no account. *)
Record untouched (c c' : ctx) : Prop := {
  ut_writes : ∀ wr w, c_writes c !! wr = Some w → c_writes c' !! wr = Some w;
  ut_wbufs : ∀ wid b, c_wbufs c !! wid = Some b → ∃ b', c_wbufs c' !! wid = Some b' ∧ wb_write b' = wb_write b }.

(** User code may kill the stream, where [kill] allows it, but not touch the packet. *)
Definition killed (kill : Prop) (c : ctx) (held : option (packet_id * packet)) : Prop :=
  kill ∧ dead c ∧ ∀ pid p, held = Some (pid, p) → c_packets c !! pid = Some p.

(** The contract of user code called while a packet is acknowledged. *)
Definition polite (kill : Prop) (cb : callback → ctx → option ctx) : Prop :=
  ∀ k c held pend due, acking c held pend due →
    ∃ c', cb k c = Some c' ∧
      (killed kill c' held ∨
       (acking c' held pend due ∧ onward c c' ∧ untouched c c')).

(** ** Views: fields the state does not depend on *)

Definition ack_view (c : ctx) :=
  (c_packets c, c_wbufs c, c_writes c, c_next c,
   (s_outgoing (c_s c), s_remote_acked (c_s c), s_seq (c_s c), s_inflight_queue (c_s c), s_retransmit_queue (c_s c),
    s_inflight (c_s c), s_pkt (c_s c), s_pkt_capacity (c_s c), s_pkt_header_flag (c_s c), s_write_queue (c_s c)),
   writes_queued_bytes (s_acct (c_s c)), s_mtu (c_s c)).

Definition able_rest (s : stream) :=
  (s_cwnd s, s_pacing_bytes_per_ms s, s_socket s, has (s_status s) UDX_STREAM_DEAD, send_rwnd (s_wnd s),
   s_remote_addr_len s, sa_fam (s_remote_addr s), s_seq s, s_pending_timer s).
Definition able_view (s : stream) := (able_rest s, rto (s_rtt s)).

Lemma able_same_rest c c' :
  able_rest (c_s c') = able_rest (c_s c) → 0 < rto (s_rtt (c_s c')) → able c → able c'.
Proof. intros [= E1 E2 E3 E4 E5 E6 E7 E8 E9] Hr [A1 A2 A3 A4 A5 A6 A7 A8]. split; congruence. Qed.
Lemma able_same c c' : able_view (c_s c') = able_view (c_s c) → able c → able c'.
Proof.
  intros E Ha. assert (rto (s_rtt (c_s c')) = rto (s_rtt (c_s c))) as Er by exact (f_equal snd E).
  apply (able_same_rest c); [exact (f_equal fst E)|rewrite Er; apply Ha|done].
Qed.
Lemma guarded_fewer c c' :
  (∀ x, x ∈ s_inflight_queue (c_s c') → x ∈ s_inflight_queue (c_s c)) → s_pending_timer (c_s c') = s_pending_timer (c_s c) →
  guarded c → guarded c'.
Proof.
  intros Hx E Hg Hi. unfold watched. rewrite E. apply Hg. destruct (s_inflight_queue (c_s c')) as [|x q]; [done|].
  intros E0. specialize (Hx x ltac:(left)). rewrite E0 in Hx. by apply elem_of_nil in Hx.
Qed.

Lemma current_out c c' out pid p :
  ack_view c' = ack_view c → current_ok c out pid p → current_ok c' out pid p.
Proof.
  intros [= E1 E2 E3 E4 E5 E6 E7 E8 E9 E10 E11 E12 E13 E14 E15 E16] Hc.
  apply (current_view c _ out); try done; [congruence|rewrite E1; apply Hc|by rewrite E1|apply Hc].
Qed.

Lemma ack_view_faithful c c' sent :
  (c_packets c', c_wbufs c', c_next c', s_outgoing (c_s c'), s_seq (c_s c'), s_pkt (c_s c'), s_pkt_header_flag (c_s c'), s_write_queue (c_s c')) =
  (c_packets c, c_wbufs c, c_next c, s_outgoing (c_s c), s_seq (c_s c), s_pkt (c_s c), s_pkt_header_flag (c_s c), s_write_queue (c_s c)) →
  (∀ b, b ∈ datagrams c' → b ∈ datagrams c ∨ silent b) → faithful sent c → faithful sent c'.
Proof.
  intros [= E1 E2 E3 E4 E5 E6 E7 E8] Hd. apply faithful_view; [congruence| |rewrite E1; apply wire_packets_same, kept_packets|congruence|].
  - rewrite E4. intros out E. by exists out.
  - intros b [?|Hb]%Hd; [by left|right; apply Hb].
Qed.

Lemma acking_change c c' held pend due due' :
  ack_view c' = ack_view c → able c' → guarded c' →
  (∀ wr w, c_writes c !! wr = Some w → wr_on_ack w = true → plain wr (c_wbufs c) →
     acks_of wr (io_log (c_io c')) + (if decide (due' = Some wr) then 1 else 0) =
     acks_of wr (io_log (c_io c)) + (if decide (due = Some wr) then 1 else 0)) →
  (∀ b, b ∈ datagrams c' → b ∈ datagrams c ∨ silent b) →
  acking c held pend due → acking c' held pend due'.
Proof.
  intros Ev B G Ht Hd [(out & Q & (pid & p & C) & Hh) [L Hi] [sent F] M _ _]. pose proof (λ pid p, current_out c c' out pid p Ev) as Hc.
  injection Ev as E1 E2 E3 E4 E5 E6 E7 E8 E9 E10 E11 E12 E13 E14 E15 E16.
  assert (flying c' = flying c) as Ef by (unfold flying, owned; by rewrite E1, E5, E11).
  split; [|split| |by rewrite E16|done|done]; [| | |exists sent; apply (ack_view_faithful c); [congruence|done|done]].
  - exists out. split; [apply (queues_view c); [congruence|done]|]. split; [exists pid, p; by apply Hc|].
    destruct held as [[x px]|]; [|done]. unfold held_ok. by rewrite E1, E11.
  - destruct L as [L1 L2 L3 L4 L5 L6 L7 L8 L9]. split; rewrite ?E2, ?E3, ?E4, ?E14, ?E15, ?Ef; try done.
    intros wr w Hw Ho Hp. rewrite (Ht wr w Hw Ho Hp). by apply L9.
  - unfold in_flight. by rewrite E2, Ef.
Qed.
Lemma acking_view c c' held pend due due' :
  ack_view c' = ack_view c → able_view (c_s c') = able_view (c_s c) →
  (∀ wr w, c_writes c !! wr = Some w → wr_on_ack w = true → plain wr (c_wbufs c) →
     acks_of wr (io_log (c_io c')) + (if decide (due' = Some wr) then 1 else 0) =
     acks_of wr (io_log (c_io c)) + (if decide (due = Some wr) then 1 else 0)) →
  datagrams c' = datagrams c → acking c held pend due → acking c' held pend due'.
Proof.
  intros Ev Eb Ht Hd Ha. pose proof Ha as [_ _ _ _ B G]. apply (acking_change c c' held pend due); [done|by apply (able_same c)| |done|rewrite Hd; by left|done].
  injection Ev as E1 E2 E3 E4 E5 E6 E7 E8 E9 E10 E11 E12 E13 E14 E15 E16.
  apply (guarded_fewer c); [by rewrite E8|exact (f_equal (λ t, t.1.2) Eb)|done].
Qed.

Lemma onward_view c c' :
  (s_outgoing (c_s c'), s_remote_acked (c_s c'), s_seq (c_s c')) = (s_outgoing (c_s c), s_remote_acked (c_s c), s_seq (c_s c)) →
  onward c c'.
Proof. intros [= E1 E2 E3]. split; unfold window, sent_at; rewrite ?E1, ?E2, ?E3; done || lia. Qed.

(** Calling the user. *)
Lemma call_ok kill cb k c held pend due due' :
  polite kill cb → acking c held pend due →
  (∀ wr w, c_writes c !! wr = Some w → wr_on_ack w = true → plain wr (c_wbufs c) →
     acks_of wr (EvCallback k :: io_log (c_io c)) + (if decide (due' = Some wr) then 1 else 0) =
     acks_of wr (io_log (c_io c)) + (if decide (due = Some wr) then 1 else 0)) →
  ∃ c', call cb k c = Some c' ∧
    (killed kill c' held ∨
     (acking c' held pend due' ∧ onward c c' ∧ untouched c c')).
Proof.
  intros Hcb Ha Ht. unfold call. set (c1 := c <| c_io ::= _ |>).
  assert (acking c1 held pend due') as Ha1 by by apply (acking_view c c1 held pend due due').
  destruct (Hcb k c1 held pend due' Ha1) as (c' & -> & Hd). exists c'. split; [done|].
  destruct Hd as [Hd|(Hd & [O1 O2 O3] & [U1 U2])]; [by left|right]. split; [done|]. split; [by split|by split].
Qed.

(** ** One chunk is credited *)

Definition credited_at (c : ctx) (wid : wbuf_id) (b : wbuf) (w : write) (n m : Z) : ctx :=
  c <| c_wbufs ::= <[wid := b <| wb_bytes_inflight := m |> <| wb_bytes_acked ::= λ x, x + n |>]> |>
    <| c_writes ::= <[wb_write b := w <| wr_bytes_acked ::= λ x, x + n |>]> |>
    <| c_s ::= λ s, s <| s_acct ::= λ a, a <| writes_queued_bytes ::= λ x, x - n |> |> |>.
Definition credited (c : ctx) (wid : wbuf_id) (b : wbuf) (w : write) (n : Z) : ctx :=
  credited_at c wid b w n (wb_bytes_inflight b - n).

(** The write that a credit completes. *)
Definition completed (b : wbuf) (w : write) (n : Z) : option write_id :=
  if wr_bytes_acked w + n =? wr_size w then Some (wb_write b) else None.

(** What is acknowledged of a buffer, and its length. *)
Lemma ledger_buf c pend due wid b :
  ledger c pend due → c_wbufs c !! wid = Some b → 0 <= wb_bytes_acked b <= wb_len b ∧ wb_len b < 2 ^ 63.
Proof.
  intros L Hb. destruct (lg_wbufs _ _ _ L _ _ Hb) as (? & ? & _).
  assert (0 <= carried wid (pend ++ flying c)).
  { apply carried_nonneg. intros y Hy. by destruct (lg_chunks _ _ _ L y Hy) as (? & _ & ? & _). }
  pose proof (lg_bound _ _ _ L). pose proof (msum_le_at (λ _, 0) wb_len (c_wbufs c) _ _ Hb (λ j y _, Nat2Z.is_nonneg _)) as Hm.
  rewrite msum_zero in Hm. lia.
Qed.

Section Credit.
Variables (c : ctx) (k : chunk) (pend : list chunk) (b : wbuf) (w : write).
Hypothesis L : ledger c (k :: pend) None.
Hypothesis Hb : c_wbufs c !! ck_wbuf k = Some b.
Hypothesis Hw : c_writes c !! wb_write b = Some w.

Lemma carried_here : carried (ck_wbuf k) ((k :: pend) ++ flying c) = ck_len k + carried (ck_wbuf k) (pend ++ flying c).
Proof. cbn [app]. rewrite carried_cons. by rewrite decide_True. Qed.

Lemma pending_nonneg : 0 <= ck_len k ∧ ∀ wid, 0 <= carried wid (pend ++ flying c).
Proof.
  split; [destruct (lg_chunks _ _ _ L k ltac:(left)) as (? & _ & ? & _); done|].
  intros wid. apply carried_nonneg. intros x Hx. by destruct (lg_chunks _ _ _ L x ltac:(by right)) as (? & _ & ? & _).
Qed.

(** The assertions of on_bytes_acked. *)
Lemma credit_bounds :
  0 <= wb_bytes_acked b ∧ wb_bytes_acked b + ck_len k <= wb_len b < 2 ^ 63 ∧
  0 <= wr_bytes_acked w ∧ wr_bytes_acked w + ck_len k <= wr_size w < 2 ^ 63 ∧
  ck_len k <= writes_queued_bytes (s_acct (c_s c)).
Proof.
  destruct pending_nonneg as [Hk Hp]. specialize (Hp (ck_wbuf k)). pose proof carried_here as Ec.
  destruct (lg_wbufs _ _ _ L _ _ Hb) as (K1 & K2 & _). rewrite Ec in K2.
  assert (Hle : ∀ i x, c_wbufs c !! i = Some x → 0 <= wb_bytes_acked x <= wb_len x) by (intros i x Hx; by apply (ledger_buf c _ _ i x L)).
  pose proof (proj2 (ledger_buf c _ _ _ b L Hb)) as K4.
  destruct (lg_writes _ _ _ L _ _ Hw) as [S1 S2].
  assert (Hpart : ∀ j y, c_wbufs c !! j = Some y → 0 <= part (wb_write b) wb_bytes_acked y <= part (wb_write b) wb_len y ∧
    part (wb_write b) wb_len y <= wb_len y).
  { intros j y Hy. pose proof (Hle j y Hy). unfold part. case_decide; lia. }
  pose proof (msum_le_at (part (wb_write b) wb_bytes_acked) (part (wb_write b) wb_len) _ _ _ Hb (λ j y Hy, proj2 (proj1 (Hpart j y Hy)))) as S3.
  unfold part in S3 at 2 3. rewrite !decide_True in S3 by done. rewrite <- S1, <- S2 in S3.
  pose proof (msum_le_at (λ _, 0) (λ y, wb_len y - wb_bytes_acked y) (c_wbufs c) _ _ Hb ltac:(intros j y Hy; cbv beta; pose proof (Hle j y Hy); lia)) as S4.
  rewrite msum_zero, <- (lg_queued _ _ _ L) in S4.
  assert (wr_size w <= msum wb_len (c_wbufs c)) by (rewrite S1; apply msum_le; intros j y Hy; apply (Hpart j y Hy)).
  assert (0 <= wr_bytes_acked w) by (rewrite S2; apply msum_nonneg; intros j y Hy; apply (Hpart j y Hy)).
  pose proof (lg_bound _ _ _ L). split_and!; lia.
Qed.

Variable m : Z.
Let c1 := credited_at c (ck_wbuf k) b w (ck_len k) m.

Lemma credit_ledger : ledger c1 pend (completed b w (ck_len k)).
Proof.
  destruct credit_bounds as (B2 & B3 & B4 & B5 & B6). pose proof carried_here as Ec.
  pose proof L as [L1 L2 L3 L4 L5 L6 L7 L8 L9]. set (n := ck_len k) in *. set (wid := ck_wbuf k) in *.
  set (b' := b <| wb_bytes_inflight := m |> <| wb_bytes_acked ::= λ x, x + n |>).
  assert (Ew : c_wbufs c1 = <[wid := b']> (c_wbufs c)) by done. assert (Ef : flying c1 = flying c) by done.
  assert (Ewr : c_writes c1 = <[wb_write b := w <| wr_bytes_acked ::= λ x, x + n |>]> (c_writes c)) by done.
  assert (Hc : ∀ x, carried x ((k :: pend) ++ flying c) = carried x (pend ++ flying c) + if decide (x = wid) then n else 0).
  { intros x. cbn [app]. rewrite carried_cons. fold wid n. case_decide; case_decide; subst; done || lia. }
  assert (Hlook : ∀ x y, c_wbufs c1 !! x = Some y → ∃ y0, c_wbufs c !! x = Some y0 ∧ wb_len y = wb_len y0 ∧ wb_write y = wb_write y0 ∧
      wb_bytes_acked y = wb_bytes_acked y0 + if decide (x = wid) then n else 0).
  { intros x y. rewrite Ew. destruct (decide (x = wid)) as [->|].
    - rewrite lookup_insert_eq. intros [= <-]. by exists b.
    - rewrite lookup_insert_ne by done. intros Hy. exists y. split_and!; try done; lia. }
  assert (Hback : ∀ x y0, c_wbufs c !! x = Some y0 → ∃ y, c_wbufs c1 !! x = Some y).
  { intros x y0 Hy. rewrite Ew. destruct (decide (x = wid)) as [->|]; [rewrite lookup_insert_eq; by eexists|].
    rewrite lookup_insert_ne by done. by eexists. }
  assert (Hsum : ∀ f, msum f (c_wbufs c1) = msum f (c_wbufs c) - f b + f b').
  { intros f. rewrite Ew. by apply (msum_store f). }
  split; rewrite ?Ef.
  - intros x Hx. destruct (L1 x ltac:(by right)) as (y0 & Hy0 & K1 & K2). destruct (Hback _ _ Hy0) as (y & Hy). exists y.
    destruct (Hlook _ _ Hy) as (y1 & Hy1 & -> & _). assert (y1 = y0) as -> by congruence. done.
  - intros x y Hy. destruct (Hlook x y Hy) as (y0 & Hy0 & -> & -> & ->). destruct (L2 x y0 Hy0) as (K1 & K2 & K3 & K4).
    rewrite Hc in K2, K3. split; [case_decide; destruct pending_nonneg; lia|]. split; [lia|]. split; [intros Hx; specialize (K3 Hx); lia|].
    rewrite Ewr. destruct (decide (wb_write y0 = wb_write b)) as [->|]; [rewrite lookup_insert_eq; by eexists|by rewrite lookup_insert_ne].
  - intros x Hx. destruct (L3 x Hx) as (y0 & Hy0 & K). destruct (Hback _ _ Hy0) as (y & Hy). exists y. split; [done|].
    destruct (Hlook _ _ Hy) as (y1 & Hy1 & -> & _ & ->). assert (y1 = y0) as -> by congruence. rewrite Hc in K. intros E. apply K. lia.
  - done.
  - intros x y. rewrite Ewr. destruct (decide (x = wb_write b)) as [->|Hx].
    + rewrite lookup_insert_eq. intros [= <-]. rewrite !Hsum. destruct (L5 _ _ Hw) as [S1 S2]. cbn [wr_size wr_bytes_acked upd_field].
      rewrite S1, S2. unfold part. rewrite !decide_True by done. unfold wb_len, b'. cbn. lia.
    + rewrite lookup_insert_ne by done. intros Hy. rewrite !Hsum. destruct (L5 _ _ Hy) as [-> ->]. unfold part.
      change (wb_write b') with (wb_write b). rewrite !(decide_False (P := wb_write b = x)) by congruence. lia.
  - rewrite Hsum. change (writes_queued_bytes (s_acct (c_s c1))) with (writes_queued_bytes (s_acct (c_s c)) - n). rewrite L6. unfold b', wb_len. cbn. lia.
  - rewrite Hsum. change (wb_len b') with (wb_len b). lia.
  - intros x [y Hy]. destruct (Hlook _ _ Hy) as (y0 & Hy0 & _). apply L8. by exists y0.
  - intros x y. rewrite Ewr. change (io_log (c_io c1)) with (io_log (c_io c)). intros Hy Ho Hp. rewrite Ew in Hp.
    assert (plain x (c_wbufs c)) as Hp0 by by apply (plain_store x _ wid b b'). destruct (decide (x = wb_write b)) as [->|Hx].
    + rewrite lookup_insert_eq in Hy. injection Hy as <-. cbn [wr_on_ack wr_bytes_acked wr_size upd_field] in *.
      pose proof (L9 _ _ Hw Ho Hp0) as K. rewrite decide_False in K by done. rewrite Z.add_0_r in K. unfold completed.
      assert (0 < n) as Hn.
      { destruct (L1 k ltac:(left)) as (y & Hy & Hk0 & Hz). assert (y = b) as -> by (apply (inj Some); rewrite <- Hy; exact Hb). destruct Hp0 as [_ Hp0]. pose proof (Hp0 _ _ Hb eq_refl).
        change (0 <= n) in Hk0. destruct (Z.eq_dec n 0) as [E|]; [specialize (Hz E)|]; lia. }
      destruct (Z.eqb_spec (wr_bytes_acked w) (wr_size w)); [lia|]. rewrite K.
      destruct (_ =? _); [rewrite decide_True by done|rewrite decide_False by done]; lia.
    + rewrite lookup_insert_ne in Hy by done. pose proof (L9 _ _ Hy Ho Hp0) as K. rewrite decide_False in K by done.
      unfold completed. destruct (wr_bytes_acked w + n =? wr_size w); (rewrite decide_False by congruence; exact K).
Qed.
End Credit.

(** A chunk that is acknowledged was in flight. *)
Lemma credit_inflight c k pend b :
  accounts c (k :: pend) None → c_wbufs c !! ck_wbuf k = Some b → ck_len k <= wb_bytes_inflight b.
Proof.
  intros [L Hi] Hb. rewrite (Hi _ _ Hb), carried_here. destruct (pending_nonneg c k pend L) as [_ Hp]. specialize (Hp (ck_wbuf k)). lia.
Qed.
Lemma credit_accounts c k pend b w :
  accounts c (k :: pend) None → c_wbufs c !! ck_wbuf k = Some b → c_writes c !! wb_write b = Some w →
  accounts (credited c (ck_wbuf k) b w (ck_len k)) pend (completed b w (ck_len k)).
Proof.
  intros [L Hi] Hb Hw. split; [by apply credit_ledger|]. intros x y.
  pose proof (carried_here c k pend) as Ec. unfold credited, credited_at. cbn [c_wbufs upd_field].
  change (flying (c <| c_wbufs ::= _ |> <| c_writes ::= _ |> <| c_s ::= _ |>)) with (flying c).
  destruct (decide (x = ck_wbuf k)) as [->|Hx].
  - rewrite lookup_insert_eq. intros [= <-]. cbn [wb_bytes_inflight upd_field]. rewrite (Hi _ _ Hb). lia.
  - rewrite lookup_insert_ne by done. intros Hy. rewrite (Hi _ _ Hy). cbn [app]. rewrite carried_cons, decide_False; [lia|congruence].
Qed.

Lemma credited_chunks c wid b w n ks :
  c_wbufs c !! wid = Some b → chunks_bytes (c_wbufs (credited c wid b w n)) ks = chunks_bytes (c_wbufs c) ks.
Proof. intros Hb. by apply (chunks_bytes_update _ wid b). Qed.

Lemma credited_queues c wid b w n out :
  c_wbufs c !! wid = Some b → queues_ok c out → queues_ok (credited c wid b w n) out.
Proof. intros Hb. apply queues_more_bufs; [done|]. intros ks. by rewrite credited_chunks. Qed.

Lemma backlog_store (m : gmap wbuf_id wbuf) wid b b' q :
  m !! wid = Some b → wbuf_left b' = wbuf_left b →
  sum_list_with (λ w, match <[wid := b']> m !! w with Some b => S (Z.to_nat (wbuf_left b)) | None => O end) q =
  sum_list_with (λ w, match m !! w with Some b => S (Z.to_nat (wbuf_left b)) | None => O end) q.
Proof.
  intros Hb E. induction q as [|x q IH]; [done|]. cbn. rewrite IH. f_equal.
  destruct (decide (x = wid)) as [->|]; [by rewrite lookup_insert_eq, Hb, E|by rewrite lookup_insert_ne].
Qed.

Lemma credited_current c wid b w n out pid p :
  c_wbufs c !! wid = Some b → 0 <= n <= wb_bytes_inflight b → current_ok c out pid p → current_ok (credited c wid b w n) out pid p.
Proof.
  intros Hb Hn [[B1 B2 B3 B4 B5 B6 B7 B8 B9 B10 B11] C2 C3 C4 C5 C6 C7 C8 C9 C10]. split; try done.
  - split; try done. intros x Hx. destruct (B11 x Hx) as (y & Hy & Hok). unfold credited, credited_at. cbn [c_wbufs upd_field].
    destruct (decide (x = wid)) as [->|]; [|rewrite lookup_insert_ne by done; by exists y].
    rewrite lookup_insert_eq. eexists. split; [done|]. assert (y = b) as -> by congruence.
    unfold wbuf_ok, wb_len in *. cbn. lia.
  - unfold packet_data. by rewrite credited_chunks.
  - change (window (c_s (credited c wid b w n))) with (window (c_s c)). unfold write_backlog, credited, credited_at. cbn [c_s c_wbufs upd_field].
    rewrite (backlog_store _ wid b); [exact C10|done|]. unfold wbuf_left, wb_len. cbn. lia.
Qed.

Lemma credited_faithful c wid b w n sent : c_wbufs c !! wid = Some b → faithful sent c → faithful sent (credited c wid b w n).
Proof.
  intros Hb. apply faithful_bufs; [done|]. intros x. unfold credited, credited_at. cbn [c_wbufs upd_field].
  destruct (decide (x = wid)) as [->|]; [|by rewrite lookup_insert_ne]. rewrite lookup_insert_eq, Hb. cbn. f_equal. unfold buf_view. cbn. f_equal. lia.
Qed.

(** ** The callbacks of one chunk *)

Section Callbacks.
Variables (kill : Prop) (cb : callback → ctx → option ctx).
Hypothesis Hcb : polite kill cb.

(** Either the user has killed the stream, or [acking] still holds. *)
Definition ack_result (c c' : ctx) (held : option (packet_id * packet)) (pend : list chunk) (due : option write_id) : Prop :=
  killed kill c' held ∨ (acking c' held pend due ∧ onward c c').

Lemma credited_acking c k b w held pend :
  acking c held (k :: pend) None → c_wbufs c !! ck_wbuf k = Some b → c_writes c !! wb_write b = Some w →
  acking (credited c (ck_wbuf k) b w (ck_len k)) held pend (completed b w (ck_len k)).
Proof.
  intros [(out & Q & (pid & p & C) & Hh) Hac [sent F] M B G] Hb Hw. pose proof (credit_inflight c k pend b Hac Hb) as B1.
  destruct (pending_nonneg c k pend (proj1 Hac)) as [B0 _]. split; [|by apply credit_accounts|exists sent; by apply credited_faithful|done|by apply (able_same c)|done].
  exists out. split; [by apply credited_queues|]. split; [exists pid, p; by apply credited_current|].
  destruct held as [[x px]|]; done.
Qed.

(** What follows the bookkeeping of on_bytes_acked: the drain callback. *)
Lemma on_bytes_acked_ok c k held pend :
  acking c held (k :: pend) None →
  ∃ b w c', c_wbufs c !! ck_wbuf k = Some b ∧ c_writes c !! wb_write b = Some w ∧
    on_bytes_acked cb c (ck_wbuf k) (ck_len k) false = Some c' ∧
    (killed kill c' held ∨
     acking c' held pend (completed b w (ck_len k)) ∧ onward c c' ∧ untouched (credited c (ck_wbuf k) b w (ck_len k)) c').
Proof.
  intros Hak. pose proof (ak_accounts _ _ _ _ Hak) as Hac. pose proof Hac as [L _].
  destruct (lg_chunks _ _ _ L k ltac:(left)) as (b & Hb & _). destruct (lg_wbufs _ _ _ L _ _ Hb) as (_ & _ & _ & [w Hw]).
  pose proof (credited_acking _ _ _ _ _ _ Hak Hb Hw) as Hak1. pose proof (credit_inflight c k pend b Hac Hb) as B1. destruct (credit_bounds c k pend b w L Hb Hw) as (B2 & B3 & B4 & B5 & B6).
  destruct (pending_nonneg c k pend L) as [B0 _].
  exists b, w. unfold on_bytes_acked. rewrite Hb. cbn [mbind option_bind]. rewrite Hw. cbn [mbind option_bind].
  rewrite (proj2 (Z.leb_le _ _) B1). cbn [mbind option_bind]. cbv zeta.
  set (b1 := b <| wb_bytes_inflight ::= _ |> <| wb_bytes_acked ::= _ |>).
  assert (b1 = b <| wb_bytes_inflight ::= λ x, x - ck_len k |> <| wb_bytes_acked ::= λ x, x + ck_len k |>) as E1.
  { unfold b1, upd_field. cbn. rewrite u64_id by (unfold is_u64; lia). done. }
  assert (wb_bytes_acked b1 <=? wb_len b1 = true) as -> by (rewrite E1; apply Z.leb_le; unfold wb_len in *; cbn; lia).
  set (w1 := w <| wr_bytes_acked ::= _ |>). assert (w1 = w <| wr_bytes_acked ::= λ x, x + ck_len k |>) as E2.
  { unfold w1, upd_field. rewrite u64_id by (unfold is_u64; lia). done. }
  assert (wr_bytes_acked w1 <=? wr_size w1 = true) as -> by (rewrite E2; apply Z.leb_le; cbn; lia).
  rewrite (proj2 (Z.leb_le _ _) B6). rewrite E1, E2.
  match goal with |- context [hit_high_watermark (s_acct (c_s ?x))] => change x with (credited c (ck_wbuf k) b w (ck_len k)) end.
  set (c1 := credited c (ck_wbuf k) b w (ck_len k)) in *.
  assert (onward c c1) as Ho1 by by apply onward_view.
  assert (untouched c1 c1) as Hu1 by (split; [done|]; intros x y Hy; by exists y).
  destruct (hit_high_watermark _); [|exists c1; do 3 (split; [done|]); by right].
  pose proof (mtu_ok_range _ (ak_mtu _ _ _ _ Hak1)) as Hm.
  unfold send_window_in_bytes, cwnd_in_bytes. rewrite (proj1 (max_payload_spec _ Hm)). cbn [mbind option_bind].
  destruct (_ <? _); [|exists c1; do 3 (split; [done|]); by right]. set (c2 := c1 <| c_s ::= _ |>).
  assert (acking c2 held pend (completed b w (ck_len k))) as Hak2 by by apply (acking_view c1 c2 held pend (completed b w (ck_len k))).
  assert (onward c c2) as Ho2 by by apply onward_view.
  assert (untouched c1 c2) as Hu2 by (split; [done|]; intros x y Hy; by exists y).
  destruct (on_drain _); [|exists c2; do 3 (split; [done|]); by right].
  destruct (call_ok kill cb CbDrain c2 held pend _ (completed b w (ck_len k)) Hcb Hak2) as (c3 & -> & Hd); [done|].
  exists c3. do 3 (split; [done|]). destruct Hd as [Hd|(H3 & O3 & U3)]; [by left|right]. split; [done|]. split; [|destruct U3; by split].
  by transitivity c2.
Qed.

(** The write's own callback. *)
Lemma ack_write_ok c c0 k b w held pend unordered :
  acking c held pend (completed b w (ck_len k)) → c_wbufs c0 !! ck_wbuf k = Some b → c_writes c0 !! wb_write b = Some w →
  untouched (credited c0 (ck_wbuf k) b w (ck_len k)) c →
  ∃ c', ack_write cb c (ck_wbuf k) 0 unordered = Some c' ∧ ack_result c c' held pend None.
Proof.
  intros Hak Hb0 Hw0 [U1 U2]. destruct (U2 (ck_wbuf k) _ (lookup_insert_eq _ _ _)) as (b' & Hb' & Eb').
  change (wb_write b' = wb_write b) in Eb'. pose proof (U1 (wb_write b) _ (lookup_insert_eq _ _ _)) as Hw'.
  unfold ack_write. rewrite Hb'. cbn [mbind option_bind]. rewrite Eb', Hw'. cbn [mbind option_bind wr_bytes_acked wr_size wr_on_ack upd_field].
  unfold completed in Hak. destruct (_ =? _) eqn:E; cbn [andb].
  - destruct (wr_on_ack w) eqn:Eo.
    + destruct (call_ok kill cb (CbAck (wb_write b) 0 unordered) c held pend (Some (wb_write b)) None Hcb Hak) as (c' & -> & Hd).
      { intros wr x Hx _ _. cbn [acks_of]. rewrite (decide_False (P := None = Some wr)) by done.
        destruct (decide (wb_write b = wr)) as [->|]; [rewrite decide_True by done|rewrite decide_False by congruence]; lia. }
      exists c'. split; [done|]. destruct Hd as [Hd|(H1 & H2 & _)]; [by left|by right].
    + exists c. split; [done|]. right. split; [|done]. apply (acking_view c c held pend (Some (wb_write b))); [done|done| |done|done].
      intros wr x Hx Ho _. rewrite (decide_False (P := None = Some wr)) by done. rewrite decide_False; [done|].
      intros [= <-]. rewrite Hw' in Hx. injection Hx as <-. cbn in Ho. congruence.
  - exists c. split; [done|]. by right.
Qed.

Lemma ack_chunks_ok ks c held sack :
  acking c held ks None →
  ∃ c' d, ack_chunks cb c ks sack = Some (c', d) ∧
    (if d : bool then killed kill c' held
     else acking c' held [] None ∧ onward c c').
Proof.
  revert c. induction ks as [|k ks IH]; intros c Hak; cbn [ack_chunks]; [by exists c, false|].
  set (c1 := c <| c_s ::= _ |>). assert (acking c1 held (k :: ks) None) as Hak1 by by apply (acking_view c c1 held (k :: ks) None).
  assert (onward c c1) as Ho1 by by apply onward_view.
  destruct (on_bytes_acked_ok c1 k held ks Hak1) as (b & w & c2 & Hb & Hw & -> & Hd). cbn [mbind option_bind].
  destruct (has (s_status (c_s c2)) UDX_STREAM_DEAD) eqn:Ed.
  { exists c2, true. split; [done|]. destruct Hd as [Hd|[[_ _ _ _ B _] _]]; [done|]. pose proof (ab_alive _ B). congruence. }
  destruct Hd as [(_ & Hd & _)|(Hak2 & Ho2 & Hu2)]; [unfold dead in Hd; congruence|].
  destruct (ack_write_ok c2 c1 k b w held ks (if sack then 1 else 0) Hak2 Hb Hw Hu2) as (c3 & -> & Hr). cbn [mbind option_bind].
  destruct (has (s_status (c_s c3)) UDX_STREAM_DEAD) eqn:Ed3.
  { exists c3, true. split; [done|]. destruct Hr as [Hr|[[_ _ _ _ B _] _]]; [done|]. pose proof (ab_alive _ B). congruence. }
  destruct Hr as [(_ & Hr & _)|[Hak3 Ho3]]; [unfold dead in Hr; congruence|].
  destruct (IH c3 Hak3) as (c4 & d & E & H4). exists c4, d. split; [done|]. destruct d; [done|]. split; [apply H4|].
  transitivity c1; [done|]. transitivity c2; [done|]. transitivity c3; [done|apply H4].
Qed.

(** ** A packet leaves the outgoing buffer *)

(** The packets outside the outgoing buffer do not matter to the queues. *)
Lemma queues_packets c c' out :
  (s_outgoing (c_s c'), s_remote_acked (c_s c'), s_seq (c_s c'), s_inflight_queue (c_s c'),
   s_retransmit_queue (c_s c'), s_inflight (c_s c'), c_wbufs c') =
  (s_outgoing (c_s c), s_remote_acked (c_s c), s_seq (c_s c), s_inflight_queue (c_s c),
   s_retransmit_queue (c_s c), s_inflight (c_s c), c_wbufs c) →
  (∀ q x, out !! q = Some x → c_packets c' !! x = c_packets c !! x) →
  queues_ok c out → queues_ok c' out.
Proof.
  intros [= E1 E2 E3 E4 E5 E6 E7] Hp [Q1 Q2 Q3 Q4 Q5 Q6 Q7].
  assert (Hm : ∀ b y, marked c' out b y ↔ marked c out b y).
  { intros b y. unfold marked. split; intros (p & P1 & P2 & P3); exists p; (split; [|done]).
    - by rewrite <- (Hp _ _ P2). - by rewrite (Hp _ _ P2). }
  split; unfold packet_ok, packet_data, window; rewrite ?E1, ?E2, ?E3, ?E4, ?E5, ?E6, ?E7; try done.
  - intros q x Hq. rewrite (Hp _ _ Hq). by apply Q2.
  - intros y. rewrite Hm. apply Q4.
  - intros y. rewrite Hm. apply Q5.
  - rewrite Q7. f_equal. symmetry. apply bytes_of_ext. intros y (p & P1 & P2 & _)%Q4. unfold packet_size. by rewrite (Hp _ _ P2).
Qed.

Lemma chunks_outside (out : gmap Z packet_id) (m m' : gmap packet_id packet) :
  (∀ q x, out !! q = Some x → m' !! x = m !! x) →
  (map_to_list out).*2 ≫= chunks_at m' = (map_to_list out).*2 ≫= chunks_at m.
Proof.
  intros Hm. assert (∀ x, x ∈ (map_to_list out).*2 → m' !! x = m !! x) as Hx.
  { intros x ([q y] & -> & Hy%elem_of_map_to_list)%list_elem_of_fmap. by apply (Hm q). }
  revert Hx. generalize (map_to_list out).*2. intros l. induction l as [|x l IH]; intros Hx; [done|]. cbn.
  rewrite IH by (intros; apply Hx; by right). unfold chunks_at at 1 3. by rewrite (Hx x) by left.
Qed.

(** Giving back a packet changes no other packet. *)
Lemma deref_run c pid p :
  c_packets c !! pid = Some p →
  ∃ m, deref_packet c pid = Some (c <| c_packets := m |>) ∧ (∀ x, x ≠ pid → m !! x = c_packets c !! x) ∧
    ∀ x, is_Some (m !! x) → is_Some (c_packets c !! x).
Proof.
  intros Hp. unfold deref_packet. rewrite Hp. cbn [mbind option_bind]. cbv zeta. destruct (_ =? 0).
  - exists (delete pid (c_packets c)). split; [done|]. split; [intros x Hx; by rewrite lookup_delete_ne|].
    intros x [y [_ Hy]%lookup_delete_Some]. by exists y.
  - eexists. split; [reflexivity|]. split; [intros x Hx; by rewrite lookup_insert_ne|]. intros x. by apply (packets_insert_some _ _ p).
Qed.

(** Giving back the packet that was acknowledged. *)
Lemma release_ok c pid p pend due :
  acking c (Some (pid, p)) pend due → ∃ c', deref_packet c pid = Some c' ∧ acking c' None pend due ∧ onward c c' ∧ c_s c' = c_s c.
Proof.
  intros [(out & Q & (pid0 & p0 & C) & H1 & H2 & H3) [L Hi] [sent F] M B G]. destruct (deref_run c pid p H1) as (m & -> & Hm & Hm').
  eexists. split; [reflexivity|]. set (c1 := c <| c_packets := m |>).
  assert (Hout : ∀ q x, out !! q = Some x → m !! x = c_packets c !! x) by (intros q x Hx; apply Hm; intros ->; by apply H2 in Hx).
  pose proof (bd_pkt _ _ _ (cu_building _ _ _ _ C)) as Epkt.
  assert (flying c1 = flying c) as Ef.
  { rewrite !(flying_cons _ pid0 out) by (done || apply Q). change (c_packets c1) with m. rewrite (chunks_outside out _ m Hout).
    unfold chunks_at at 1 3. rewrite (Hm pid0) by congruence. done. }
  split; [|split; [by apply onward_view|done]]. split; [|split|exists sent|done|by apply (able_same c)|by apply (guarded_fewer c)].
  - exists out. split; [by apply (queues_packets c)|]. split; [|done]. exists pid0, p0.
    apply (current_view c _ out); try done; [|apply C]. change (c_packets c1) with m. rewrite (Hm pid0) by congruence. apply C.
  - apply (ledger_view c _ pend pend); try done. by rewrite Ef.
  - apply (in_flight_view c _ pend pend); try done. by rewrite Ef.
  - apply (faithful_view sent c); try done; [intros o E; by exists o| |by left]. intros x y Hy Hx. exists y. split; [|apply same_wire_refl].
    change (m !! x = Some y). rewrite Hm; [done|]. intros ->. destruct Hx as [Hx|(o & q & Ho & Hx)]; [by apply H3|].
    change (s_outgoing (c_s c) = Some o) in Ho. rewrite (qo_out _ _ Q) in Ho. injection Ho as <-. by apply H2 in Hx.
Qed.

(** An RTT sample leaves a timeout of a second at least. *)
Lemma ack_rtt_rto r time time_sent seq retransmitted :
  0 < rto r → 0 < rto (ack_rtt r time time_sent seq retransmitted).1.1.
Proof.
  intros Hr. unfold ack_rtt. cbv zeta. set (x := if negb retransmitted then _ else _).
  assert (0 < rto x.1) as Hx.
  { unfold x. destruct (negb retransmitted); [|done]. cbn [fst]. unfold rtt_sample, rto_update. cbv zeta.
    destruct (_ <? _); cbn [rto upd_field]; [done|]. rewrite max_uint32_max. lia. }
  destruct x as [r1 rtt]. cbn [fst] in *. unfold rack_detect_reordering, rack_update.
  destruct (negb retransmitted || _); repeat (destruct (rack_sent_after _ _ _ _)); repeat (destruct (_ <? _)); repeat (destruct (_ && _)); done.
Qed.

(** The bookkeeping of ack_packet before any byte is credited. *)
Lemma ack_update_ok n s pid p seq sack rs :
  (if p_lost p then pid ∈ s_retransmit_queue s else pid ∈ s_inflight_queue s) →
  ∃ s' rs', ack_update n s pid p seq sack rs = Some (s', rs') ∧
    (s_outgoing s', s_remote_acked s', s_seq s', s_pkt s', s_pkt_capacity s', s_pkt_header_flag s', s_write_queue s', s_acct s') =
    (s_outgoing s, s_remote_acked s, s_seq s, s_pkt s, s_pkt_capacity s, s_pkt_header_flag s, s_write_queue s, s_acct s) ∧
    s_mtu s' = mtu_on_ack (s_mtu s) (p_is_mtu_probe p) ∧ (able_rest s' = able_rest s ∧ (0 < rto (s_rtt s) → 0 < rto (s_rtt s'))) ∧
    (s_inflight_queue s', s_retransmit_queue s', s_inflight s') =
    if p_lost p then (s_inflight_queue s, filter (.≠ pid) (s_retransmit_queue s), s_inflight s)
    else (filter (.≠ pid) (s_inflight_queue s), s_retransmit_queue s, u64 (s_inflight s - p_size p)).
Proof.
  intros Hin. unfold ack_update. cbv zeta. set (s1 := if sack then _ else _).
  assert (s_mtu s1 = mtu_on_ack (s_mtu s) (p_is_mtu_probe p) ∧ able_view s1 = able_view s ∧
    (s_outgoing s1, s_remote_acked s1, s_seq s1, s_pkt s1, s_pkt_capacity s1, s_pkt_header_flag s1, s_write_queue s1, s_acct s1) =
    (s_outgoing s, s_remote_acked s, s_seq s, s_pkt s, s_pkt_capacity s, s_pkt_header_flag s, s_write_queue s, s_acct s) ∧
    (s_inflight_queue s1, s_retransmit_queue s1, s_inflight s1) = (s_inflight_queue s, s_retransmit_queue s, s_inflight s))
    as (M1 & T1 & [= E1 E2 E3 E4 E5 E6 E7 E8] & [= F1 F2 F3]) by (unfold s1; by destruct sack).
  clearbody s1. set (m := if p_lost p then _ else _).
  assert (∃ s2, m = Some s2 ∧ s_mtu s2 = s_mtu s1 ∧ able_view s2 = able_view s1 ∧
    (s_outgoing s2, s_remote_acked s2, s_seq s2, s_pkt s2, s_pkt_capacity s2, s_pkt_header_flag s2, s_write_queue s2, s_acct s2) =
    (s_outgoing s1, s_remote_acked s1, s_seq s1, s_pkt s1, s_pkt_capacity s1, s_pkt_header_flag s1, s_write_queue s1, s_acct s1) ∧
    (s_inflight_queue s2, s_retransmit_queue s2, s_inflight s2) =
    if p_lost p then (s_inflight_queue s, filter (.≠ pid) (s_retransmit_queue s), s_inflight s)
    else (filter (.≠ pid) (s_inflight_queue s), s_retransmit_queue s, u64 (s_inflight s - p_size p)))
    as (s2 & -> & M2 & T2 & [= G1 G2 G3 G4 G5 G6 G7 G8] & H2).
  { unfold m, queue_unlink. rewrite F1, F2. destruct (p_lost p); rewrite decide_True by done; cbn [mbind option_bind];
      (eexists; split; [reflexivity|]); (split; [done|]); (split; [done|]); (split; [done|]); cbn; by rewrite ?F1, ?F2, ?F3. }
  cbn [mbind option_bind]. destruct (udx__rate_pkt_delivered _ _ _) as [r rs1]. assert (able_rest s2 = able_rest s) as Ta by (rewrite T1 in T2; exact (f_equal fst T2)).
  assert (rto (s_rtt s2) = rto (s_rtt s)) as Tr by (rewrite T1 in T2; exact (f_equal snd T2)). clear T1 T2.
  change (s_rtt (s2 <| s_rate := r |>)) with (s_rtt s2). pose proof (ack_rtt_rto (s_rtt s2) n (p_time_sent p) seq (p_retransmitted p)) as Hr.
  destruct (ack_rtt _ _ _ _ _) as [[rt rtt] ok]. cbn [fst] in Hr.
  eexists _, _. split; [reflexivity|]. rewrite <- H2, <- M1, <- Ta, <- Tr, <- M2.
  rewrite <- E1, <- E2, <- E3, <- E4, <- E5, <- E6, <- E7, <- E8, <- G1, <- G2, <- G3, <- G4, <- G5, <- G6, <- G7, <- G8.
  by destruct (negb (p_retransmitted p)).
Qed.

Lemma ack_start c seq pid p out sack rs :
  acking c None [] None → s_outgoing (c_s c) = Some out → out !! seq = Some pid → c_packets c !! pid = Some p →
  ∃ s rs', ack_update (now c) (c_s c <| s_outgoing := Some (delete seq out) |>) pid p seq sack rs = Some (s, rs') ∧
    acking (c <| c_s := s |>) (Some (pid, p)) (p_chunks p) None ∧ onward c (c <| c_s := s |>) ∧
    sent_at (c <| c_s := s |>) seq = None.
Proof.
  intros [(out' & Q & (pid0 & p0 & C) & _) [L Hi] [sent F] M B G] Hout Hseq Hp.
  assert (out' = out) as -> by (pose proof (qo_out _ _ Q); congruence).
  destruct (qo_packets _ _ Q _ _ Hseq) as (p' & Hp' & Es & Hok). assert (p' = p) as -> by congruence.
  assert (Hmk : marked c out (p_lost p) pid) by (exists p; by rewrite Es).
  destruct (ack_update_ok (now c) (c_s c <| s_outgoing := Some (delete seq out) |>) pid p seq sack rs) as (s & rs' & E & Fs & Gm & [Br Bt] & K).
  { destruct (p_lost p); [by apply (qo_retransmit _ _ Q)|by apply (qo_inflight _ _ Q)]. }
  exists s, rs'. split; [exact E|]. cbn [s_outgoing s_remote_acked s_seq s_pkt s_pkt_capacity s_pkt_header_flag s_write_queue s_acct s_mtu s_inflight_queue s_retransmit_queue s_inflight upd_field] in Fs, Gm, K. injection Fs as F1 F2 F3 F4 F5 F6 F7 F8. set (c1 := c <| c_s := s |>).
  assert (Huniq : ∀ q, out !! q = Some pid → q = seq).
  { intros q Hq. destruct (qo_packets _ _ Q _ _ Hq) as (p1 & Hp1 & Es1 & _). congruence. }
  assert (Hgone : ∀ q, delete seq out !! q ≠ Some pid) by (intros q [Hne Hq]%lookup_delete_Some; by apply Hne; symmetry; apply Huniq).
  assert (Hmarked : ∀ b x, marked c1 (delete seq out) b x ↔ x ≠ pid ∧ marked c out b x).
  { intros b x. unfold marked. change (c_packets c1) with (c_packets c). split.
    - intros (px & P1 & [P2 P2']%lookup_delete_Some & P3). split; [intros ->; apply P2; symmetry; by apply Huniq|]. by exists px.
    - intros [Hx (px & P1 & P2 & P3)]. exists px. split_and!; try done. rewrite lookup_delete_ne; [done|]. intros E1. rewrite <- E1 in P2. congruence. }
  assert (Hother : ∀ b, b ≠ p_lost p → ∀ x, marked c out b x → x ≠ pid).
  { intros b Hb x (px & P1 & _ & P3) ->. congruence. }
  pose proof Q as [Q1 Q2 Q3 Q4 Q5 [Q6 Q6'] Q7]. pose proof (bd_pkt _ _ _ (cu_building _ _ _ _ C)) as Epkt.
  assert (queues_ok c1 (delete seq out)) as Qc1.
  { split.
    - exact F1.
    - intros q x [_ Hx]%lookup_delete_Some. by apply Q2.
    - unfold window. change (s_remote_acked (c_s c1)) with (s_remote_acked s). change (s_seq (c_s c1)) with (s_seq s). rewrite F2, F3.
      intros q x [_ Hx]%lookup_delete_Some. by apply (Q3 q x).
    - intros x. rewrite Hmarked. change (s_inflight_queue (c_s c1)) with (s_inflight_queue s). destruct (p_lost p) eqn:El; injection K as -> _ _.
      + rewrite Q4. split; [|by intros [_ ?]]. intros Hx. split; [by apply (Hother false)|done].
      + rewrite list_elem_of_filter, Q4. done.
    - intros x. rewrite Hmarked. change (s_retransmit_queue (c_s c1)) with (s_retransmit_queue s). destruct (p_lost p) eqn:El; injection K as _ -> _.
      + rewrite list_elem_of_filter, Q5. done.
      + rewrite Q5. split; [|by intros [_ ?]]. intros Hx. split; [by apply (Hother true)|done].
    - change (NoDup (s_inflight_queue s) ∧ NoDup (s_retransmit_queue s)). destruct (p_lost p); injection K as -> -> _; split; try done; by apply NoDup_filter.
    - change (s_inflight s = u64 (bytes_of c1 (s_inflight_queue s))).
      assert (∀ l, bytes_of c1 l = bytes_of c l) as Hbytes by (intros l; by apply bytes_of_ext).
      rewrite Hbytes. destruct (p_lost p); injection K as -> _ ->; [done|]. rewrite Q7, bytes_of_remove; [|done|by apply Q4].
      assert (packet_size c pid = p_size p) as -> by (unfold packet_size; by rewrite Hp). rewrite <- !Z.add_opp_r. apply u64_add_l. }
  assert (p_chunks p ++ flying c1 ≡ₚ [] ++ flying c) as Ef.
  { rewrite (flying_cons c1 pid0 (delete seq out)), (flying_cons c pid0 out) by (done || (cbn; congruence)).
    change (c_packets c1) with (c_packets c). rewrite <- (insert_delete_id out seq pid Hseq) at 2.
    rewrite (map_to_list_insert (delete seq out)) by apply lookup_delete_eq. cbn [fmap list_fmap snd]. rewrite bind_cons.
    assert (p_chunks p = chunks_at (c_packets c) pid) as -> by (unfold chunks_at; by rewrite Hp). cbn [app]. solve_Permutation. }
  split; [|split].
  - split.
    + exists (delete seq out). split; [done|]. split.
      * exists pid0, p0. apply (current_view c _ out); try done; try apply C.
        -- change (s_pkt (c_s c1), s_pkt_capacity (c_s c1), s_pkt_header_flag (c_s c1), s_write_queue (c_s c1), s_seq (c_s c1), s_remote_acked (c_s c1), c_wbufs c1, c_next c1)
             with (s_pkt s, s_pkt_capacity s, s_pkt_header_flag s, s_write_queue s, s_seq s, s_remote_acked s, c_wbufs c, c_next c). congruence.
        -- intros q [_ Hx]%lookup_delete_Some. by apply C in Hx.
      * split; [done|]. split; [done|]. change (s_pkt s ≠ Some pid). rewrite F4, Epkt. intros [= ->]. by apply C in Hseq.
    + split; [apply (ledger_view c _ []); try done|apply (in_flight_view c _ []); try done].
      change (c_wbufs c, c_writes c, s_write_queue s, writes_queued_bytes (s_acct s) ) with (c_wbufs c, c_writes c, s_write_queue s, writes_queued_bytes (s_acct s)).
      cbn. by rewrite F7, F8.
    + exists sent. apply (faithful_view sent c); [|intros o E1|apply wire_packets_same, kept_packets|done|by left|done].
      * change (s_seq s, s_pkt s, s_pkt_header_flag s, s_write_queue s) with (s_seq s, s_pkt s, s_pkt_header_flag s, s_write_queue s). cbn [c_s c1 upd_field]. congruence.
      * change (s_outgoing s = Some o) in E1. rewrite F1 in E1. injection E1 as <-. exists out. split; [done|apply delete_subseteq].
    + change (mtu_ok (s_mtu s)). rewrite Gm. by apply mtu_on_ack_ok.
    + apply (able_same_rest c); [exact Br|apply Bt; apply B|done].
    + apply (guarded_fewer c); [|exact (f_equal snd Br)|done]. change (s_inflight_queue (c_s c1)) with (s_inflight_queue s).
      destruct (p_lost p); injection K as -> _ _; [done|]. intros x. rewrite list_elem_of_filter. by intros [_ ?].
  - split; unfold window, sent_at; cbn [c_s upd_field c1]; rewrite ?F1, ?F2, ?F3, ?Hout; cbn [mbind option_bind]; try done.
    intros q _ Hq. by apply lookup_delete_None; right.
  - unfold sent_at. cbn [c_s upd_field c1]. rewrite F1. cbn. apply lookup_delete_eq.
Qed.

(** ** Acknowledging packets *)

(** The local end is acknowledged: nothing is left that was sent. *)
Definition end_reached (c : ctx) : Prop :=
  has (s_status (c_s c)) UDX_STREAM_ENDED = true ∧ ∀ q, sent_at c q = None.

(** Two empty queues are an empty buffer. *)
Lemma queues_empty c out :
  queues_ok c out → s_inflight_queue (c_s c) = [] → s_retransmit_queue (c_s c) = [] → ∀ q, sent_at c q = None.
Proof.
  intros Q Ei Er q. unfold sent_at. rewrite (qo_out _ _ Q). cbn [mbind option_bind]. destruct (out !! q) as [x|] eqn:E; [|done].
  destruct (qo_packets _ _ Q _ _ E) as (p & Hp & <- & _). exfalso. destruct (p_lost p) eqn:El.
  - assert (x ∈ s_retransmit_queue (c_s c)) as Hx by (apply (qo_retransmit _ _ Q); by exists p). rewrite Er in Hx. by apply elem_of_nil in Hx.
  - assert (x ∈ s_inflight_queue (c_s c)) as Hx by (apply (qo_inflight _ _ Q); by exists p). rewrite Ei in Hx. by apply elem_of_nil in Hx.
Qed.
Lemma end_acked_sent c : acking c None [] None → end_acked (c_s c) = true → ∀ q, sent_at c q = None.
Proof.
  intros [(out & Q & (pid & p & C) & _) _ _ _ _ _] E. unfold end_acked in E. rewrite !andb_true_iff, !Z.eqb_eq in E. destruct E as (((_ & Ei) & Er) & _).
  pose proof (queues_length _ _ Q) as Hl. pose proof (cu_space _ _ _ _ C).
  rewrite !qlen_small in * by lia. apply (queues_empty c out Q); by apply nil_length_inv; lia.
Qed.

Lemma ack_packet_run c seq sack rs :
  acking c None [] None →
  ∃ c' rs' a, ack_packet cb c seq sack rs = Some (c', rs', a) ∧
    ((kill ∧ dead c' ∧ a = 2) ∨
     (acking c' None [] None ∧ onward c c' ∧ sent_at c' seq = None ∧ (a = 2 → end_reached c'))).
Proof.
  intros Hak. pose proof Hak as [(out & Q & _) _ _]. unfold ack_packet. rewrite (qo_out _ _ Q). cbn [mbind option_bind].
  destruct (out !! seq) as [pid|] eqn:Hseq.
  2: { set (c' := if sack then c else _). assert (s_outgoing (c_s c') = Some out) as Eo by (unfold c'; destruct sack; apply Q).
       exists c', rs, 0. split; [done|]. right. split; [|split; [|split]].
       - apply (acking_view c c' None [] None); [unfold c'; by destruct sack..|done].
       - apply onward_view. unfold c'. by destruct sack.
       - unfold sent_at. by rewrite Eo.
       - done. }
  destruct (qo_packets _ _ Q _ _ Hseq) as (p & Hp & _ & _). destruct (qo_window _ _ Q _ _ Hseq) as [_ Hwin]. cbn [c_packets upd_field].
  destruct (ack_start c seq pid p out sack rs Hak (qo_out _ _ Q) Hseq Hp) as (s & rs' & E & Hak1 & Ho1 & Hg1).
  rewrite Hp. cbn [mbind option_bind].
  change (ack_update (now (c <| c_s ::= λ s, s <| s_outgoing := Some (delete seq out) |> |>))
    (c_s (c <| c_s ::= λ s, s <| s_outgoing := Some (delete seq out) |> |>)) pid p seq sack rs)
    with (ack_update (now c) (c_s c <| s_outgoing := Some (delete seq out) |>) pid p seq sack rs).
  rewrite E. cbn [mbind option_bind].
  change (c <| c_s ::= λ s, s <| s_outgoing := Some (delete seq out) |> |> <| c_s := s |>) with (c <| c_s := s |>).
  destruct (ack_chunks_ok (p_chunks p) (c <| c_s := s |>) (Some (pid, p)) sack Hak1) as (c2 & d & -> & Hd). cbn [mbind option_bind].
  destruct d.
  - destruct Hd as (Hk & Hd & Hp2). specialize (Hp2 pid p eq_refl). unfold deref_packet. rewrite Hp2. cbn [mbind option_bind].
    eexists _, rs', 2. split; [reflexivity|]. left. split; [done|]. split; [|done]. unfold dead in *. by destruct (_ =? 0).
  - destruct Hd as [Hak2 Ho2]. destruct (release_ok c2 pid p [] None Hak2) as (c3 & -> & Hak3 & Ho3 & Es3). cbn [mbind option_bind].
    assert (onward c c3) as Ho by (transitivity (c <| c_s := s |>); [done|]; by transitivity c2).
    assert (sent_at c3 seq = None) as Hg.
    { apply (ow_gone (c <| c_s := s |>) c3); [by transitivity c2| |done].
      pose proof (ow_acked _ _ Ho1) as E1. pose proof (ow_window _ _ Ho1). rewrite E1. lia. }
    destruct (end_acked (c_s c3)) eqn:Ee.
    + eexists _, rs', 2. split; [reflexivity|]. right. set (c4 := c3 <| c_s ::= _ |>).
      assert (able_view (c_s c4) = able_view (c_s c3)) as Eb.
      { unfold able_view, able_rest, c4. cbn [c_s upd_field s_status]. rewrite has_set_other by done. reflexivity. }
      split; [by apply (acking_view c3 c4 None [] None)|].
      split; [transitivity c3; [done|by apply onward_view]|]. split; [exact Hg|]. intros _. split.
      * unfold c4. cbn [c_s upd_field s_status]. by apply has_set_same.
      * exact (end_acked_sent c3 Hak3 Ee).
    + exists c3, rs', 1. split; [done|]. right. by split_and!.
Qed.

(** The count of packets delivered. *)
Lemma delivered_one c a :
  acking c None [] None →
  let c' := if a =? 1 then c <| c_s ::= λ s, s <| s_rate ::= λ r, r <| delivered ::= λ x, u32 (x + 1) |> |> |> else c in
  acking c' None [] None ∧ onward c c'.
Proof.
  intros Hak c'. unfold c'. destruct (_ =? 1); [|by split]. split; [|by apply onward_view].
  by apply (acking_view c (c <| c_s ::= λ s, s <| s_rate ::= λ r, r <| delivered ::= λ x, u32 (x + 1) |> |> |>) None [] None).
Qed.

(** The loop of process_packet over the numbers the peer's cumulative ACK newly covers. *)
Lemma ack_cumulative_run seqs c rs :
  acking c None [] None → (∀ q, q ∈ seqs → u32 (q - s_remote_acked (c_s c)) < window (c_s c)) →
  ∃ c' rs' ended, ack_cumulative cb c seqs rs = Some (c', rs', ended) ∧
    (if ended : bool then (kill ∧ dead c') ∨ (acking c' None [] None ∧ onward c c' ∧ end_reached c')
     else acking c' None [] None ∧ onward c c' ∧ ∀ q, q ∈ seqs → sent_at c' q = None).
Proof.
  revert c rs. induction seqs as [|seq seqs IH]; intros c rs Hak Hin; cbn [ack_cumulative].
  { exists c, rs, false. split; [done|]. split; [done|]. split; [done|]. by intros q ?%elem_of_nil. }
  destruct (ack_packet_run c seq false rs Hak) as (c1 & rs1 & a & -> & Hr). cbn [mbind option_bind].
  destruct (Z.eqb_spec a 2) as [->|Ha].
  { exists c1, rs1, true. split; [done|]. destruct Hr as [(Hk & Hr & _)|(H1 & H3 & _ & H2)]; [by left|right]. split; [done|]. split; [done|]. by apply H2. }
  destruct Hr as [(_ & _ & ?)|(Hak1 & Ho1 & Hg1 & _)]; [done|]. destruct (delivered_one c1 a Hak1) as [Hak2 Ho2].
  set (c2 := if a =? 1 then _ else c1) in *.
  assert (onward c c2) as Ho by by transitivity c1. pose proof (ow_acked _ _ Ho) as E1. pose proof (ow_window _ _ Ho) as E2.
  assert (Hgone : sent_at c2 seq = None).
  { apply (ow_gone c1 c2); [done| |done]. rewrite (ow_acked _ _ Ho1). pose proof (ow_window _ _ Ho1).
    specialize (Hin seq ltac:(left)). lia. }
  destruct (IH c2 rs1 Hak2) as (c3 & rs3 & ended & E & H3).
  { intros q Hq. rewrite E1. specialize (Hin q ltac:(by right)). lia. }
  exists c3, rs3, ended. split; [exact E|]. destruct ended; [destruct H3 as [?|(? & ? & ?)]; [by left|right]; split; [done|]; split; [by transitivity c2|done]|]. destruct H3 as (H3 & Ho3 & Hg3). split; [done|].
  split; [by transitivity c2|]. intros q [->|Hq]%elem_of_cons; [|by apply Hg3].
  apply (ow_gone c2 c3); [done| |done]. rewrite E1. specialize (Hin seq ltac:(left)). lia.
Qed.

(** Selective acknowledgements.  The loop over the blocks does not stop when user code kills the stream, so the user
    must not. *)
Lemma ack_sack_block_run seqs c rs :
  ¬ kill → acking c None [] None →
  ∃ c' rs', ack_sack_block cb c seqs rs = Some (c', rs') ∧ acking c' None [] None ∧ onward c c'.
Proof.
  intros Hk. revert c rs. induction seqs as [|seq seqs IH]; intros c rs Hak; cbn [ack_sack_block]; [by exists c, rs|].
  destruct (ack_packet_run c seq true rs Hak) as (c1 & rs1 & a & -> & Hr). cbn [mbind option_bind].
  destruct Hr as [(? & _)|(Hak1 & Ho1 & _)]; [done|]. destruct (_ =? 2); [by exists c1, rs1|].
  destruct (delivered_one c1 a Hak1) as [Hak2 Ho2]. destruct (IH _ rs1 Hak2) as (c' & rs' & E & H1 & H2).
  exists c', rs'. split; [exact E|]. split; [done|]. transitivity c1; [done|]. by etransitivity.
Qed.

Lemma ack_sacks_run blocks c rs :
  ¬ kill → acking c None [] None →
  ∃ c' rs', ack_sacks cb c blocks rs = Some (c', rs') ∧ acking c' None [] None ∧ onward c c'.
Proof.
  intros Hk. revert c rs. induction blocks as [|[start end_] blocks IH]; intros c rs Hak; cbn [ack_sacks]; [by exists c, rs|].
  destruct (udx_sack_is_valid _ _ _).
  - destruct (ack_sack_block_run (seq_upto start end_) c rs Hk Hak) as (c1 & rs1 & -> & Hak1 & Ho1). cbn [mbind option_bind].
    destruct (IH c1 rs1 Hak1) as (c' & rs' & E & H1 & H2). exists c', rs'. do 2 (split; [done|]). by transitivity c1.
  - set (c1 := c <| c_s ::= _ |>). assert (acking c1 None [] None) as Hak1 by by apply (acking_view c c1 None [] None).
    destruct (IH c1 rs Hak1) as (c' & rs' & E & H1 & H2). exists c', rs'. do 2 (split; [done|]).
    transitivity c1; [by apply onward_view|done].
Qed.

(** The new left edge of the window. *)
Lemma ack_advance c ack n :
  acking c None [] None → is_u32 (s_remote_acked (c_s c)) → is_u32 ack → u32 (ack - s_remote_acked (c_s c)) <= window (c_s c) →
  (∀ q, q ∈ seq_upto (s_remote_acked (c_s c)) ack → sent_at c q = None) →
  acking (c <| c_s ::= λ s, s <| s_remote_acked := ack |> <| s_rto_count := n |> |>) None [] None.
Proof.
  intros [(out & Q & (pid & p & C) & _) [L Hi] [sent F] M B G] Hra Hack Hle Hgone. set (c' := c <| c_s ::= _ |>).
  assert (Hw : window (c_s c') = window (c_s c) - u32 (ack - s_remote_acked (c_s c))).
  { unfold window in *. change (s_remote_acked (c_s c')) with ack. change (s_seq (c_s c')) with (s_seq (c_s c)).
    replace (s_seq (c_s c) - ack) with ((s_seq (c_s c) - s_remote_acked (c_s c)) - (ack - s_remote_acked (c_s c))) by lia.
    rewrite <- u32_sub_l, <- u32_sub_r. apply u32_id.
    pose proof (u32_range (s_seq (c_s c) - s_remote_acked (c_s c))). pose proof (u32_range (ack - s_remote_acked (c_s c))). unfold is_u32 in *. lia. }
  split; [|split; [by apply (ledger_view c _ [])|by apply (in_flight_view c _ [])]|exists sent; by apply (faithful_bufs sent c)|done|by apply (able_same c)|by apply (guarded_fewer c)]. exists out. split; [|split; [|done]].
  - pose proof Q as [Q1 Q2 Q3 Q4 Q5 Q6 Q7]. split; try done. intros q x Hq. destruct (Q3 q x Hq) as [Hu Hlt]. split; [done|].
    rewrite Hw. change (s_remote_acked (c_s c')) with ack.
    assert (u32 (ack - s_remote_acked (c_s c)) <= u32 (q - s_remote_acked (c_s c))) as Hge.
    { destruct (Z.le_gt_cases (u32 (ack - s_remote_acked (c_s c))) (u32 (q - s_remote_acked (c_s c)))) as [|Hlt']; [done|].
      assert (sent_at c q = None) as E by (apply Hgone; by apply seq_upto_elem). unfold sent_at in E. rewrite Q1 in E. cbn in E. congruence. }
    replace (q - ack) with ((q - s_remote_acked (c_s c)) - (ack - s_remote_acked (c_s c))) by lia.
    rewrite <- u32_sub_l, <- u32_sub_r, u32_id; [lia|].
    pose proof (u32_range (q - s_remote_acked (c_s c))). pose proof (u32_range (ack - s_remote_acked (c_s c))). unfold is_u32 in *. lia.
  - exists pid, p. destruct C as [[B1 B2 B3 B4 B5 B6 B7 B8 B9 B10 B11] C2 C3 C4 C5 C6 C7 C8 C9 C10]. split; try done.
    rewrite Hw. change (write_backlog c') with (write_backlog c). pose proof (u32_range (ack - s_remote_acked (c_s c))). unfold is_u32 in *. lia.
Qed.

Lemma ack_cumulative_settles c ack rs :
  acking c None [] None → is_u32 (s_remote_acked (c_s c)) → is_u32 ack → u32 (ack - s_remote_acked (c_s c)) <= window (c_s c) →
  ∃ c' rs' ended, ack_cumulative cb c (seq_upto (s_remote_acked (c_s c)) ack) rs = Some (c', rs', ended) ∧
    ((ended = true ∧ kill ∧ dead c') ∨
     (acking (c' <| c_s ::= λ s, s <| s_remote_acked := ack |> <| s_rto_count := 0 |> |>) None [] None ∧
      if ended then end_reached c' else ∀ q, q ∈ seq_upto (s_remote_acked (c_s c)) ack → sent_at c' q = None)).
Proof.
  intros Hak Hra Hack Hle. destruct (ack_cumulative_run (seq_upto (s_remote_acked (c_s c)) ack) c rs Hak) as (c' & rs' & ended & E & Hr).
  { intros q (i & Hi & ->)%seq_range_elem; [|done]. rewrite u32_sub_l. replace (_ + i - _) with i by lia.
    pose proof (u32_range (ack - s_remote_acked (c_s c))). unfold is_u32 in *. rewrite u32_id; unfold is_u32; lia. }
  exists c', rs', ended. split; [done|].
  assert (∀ P, acking c' None [] None → onward c c' → (∀ q, q ∈ seq_upto (s_remote_acked (c_s c)) ack → sent_at c' q = None) → P →
    acking (c' <| c_s ::= λ s, s <| s_remote_acked := ack |> <| s_rto_count := 0 |> |>) None [] None ∧ P) as Hadv.
  2: { destruct ended; [destruct Hr as [[? ?]|(? & ? & Hr)]; [by left|right]|right]; apply Hadv; try done; [|apply Hr..]. intros q _. apply Hr. }
  intros P Hak' Ho Hg HP. split; [|done].
  pose proof (ow_acked _ _ Ho) as E1. pose proof (ow_window _ _ Ho). rewrite <- E1 in Hg.
  apply ack_advance; try done; rewrite E1; done || lia.
Qed.


End Callbacks.
End Acked.

#[local] Existing Instance example_env.

(** A user who stops asking for drain events. *)
Definition example_user (k : callback) (c : ctx) : option ctx := Some (udx_stream_write_resume c false).
Lemma example_user_polite `{Numbering} kill : polite kill example_user.
Proof.
  intros k c held pend due Ha. eexists. split; [reflexivity|]. right. split; [|split].
  - by apply (acking_view c _ held pend due).
  - by apply onward_view.
  - split; [done|]. intros wid b Hb. by exists b.
Qed.

(** The two packets in flight, and what they carry. *)
#[local] Instance example_numbering : Numbering := {| first_seq := 2 ^ 32 - 1; peer_id := 7 |}.
Definition ledger_sent : list content := [(UDX_HEADER_DATA, [104; 105]); (UDX_HEADER_DATA, [1])].

Lemma ledger_faithful : faithful ledger_sent ledger_ctx.
Proof.
  split.
  - reflexivity.
  - repeat constructor; discriminate.
  - exists 3%positive, (new_packet 3), []. split_and!; vm_compute; reflexivity.
  - intros out q pid [= <-] [[-> ->]|[-> ->]]%example_out_cases.
    + eexists _, 0%nat, _. do 4 (split; [reflexivity|]). split; [|reflexivity]. exists 0, 7, 65536, 0. by vm_compute.
    + eexists _, 1%nat, _. do 4 (split; [reflexivity|]). split; [|reflexivity]. exists 0, 7, 65536, 0. by vm_compute.
  - intros b Hb. by apply elem_of_nil in Hb.
  - intros x [y Hy]. change (c_wbufs ledger_ctx) with ledger_wbufs in Hy. unfold ledger_wbufs in Hy.
    rewrite lookup_insert_Some, lookup_singleton_Some in Hy. change (c_next ledger_ctx) with 10%positive. lia.
  - vm_compute. lia.
Qed.

Lemma ledger_acking : acking ledger_ctx None [] None.
Proof.
  split; [|exact ledger_accounts|exists ledger_sent; exact ledger_faithful|..].
  - exists example_out. split; [exact ledger_queues|]. split; [exists 3%positive, (new_packet 3); exact ledger_current|done].
  - split; vm_compute; intuition congruence.
  - split; try (vm_compute; intuition congruence). by exists 1%positive.
  - intros _. by left.
Qed.
