(* ===== verification/Cancel.v ===== *)
(** * Closing answers every write (src/udx.c: clear_outgoing_packets, cancel_packet)

    When a stream closes, the packet under construction, the outgoing packets and the write queue are cancelled.
    User code is called on a closed stream: it is asked to leave the stream's sender alone ([quiet]). *)

From S2P Require Import Prelude SeqNum Endian Wire WinFilter Stream Rtt Mtu Rate Float64 Bbr Ctx Send Packetize Sender Loss Write Ack Convey Ledger Acked.

Section Cancel.
Context `{Env}.

(** ** The state between two chunks *)

(** The stream without the packet under construction, whose chunks are cancelled first. *)
Definition masked (c : ctx) : ctx := c <| c_s ::= λ s, s <| s_pkt := None |> |>.

Record closing (c : ctx) (out : gmap Z packet_id) (pend : list chunk) (due : option write_id) : Prop := {
  cl_out : s_outgoing (c_s c) = Some out;
  cl_packets : ∀ q pid, out !! q = Some pid → is_Some (c_packets c !! pid);
  cl_inj : ∀ q1 q2 pid, out !! q1 = Some pid → out !! q2 = Some pid → q1 = q2;
  cl_ledger : ledger (masked c) pend due }.

Definition close_view (c : ctx) :=
  (c_packets c, c_wbufs c, c_writes c, c_next c,
   (s_outgoing (c_s c), s_remote_acked (c_s c), s_seq (c_s c), s_pkt (c_s c), s_write_queue (c_s c)),
   writes_queued_bytes (s_acct (c_s c))).

(** The contract of user code called on a closed stream. *)
Definition quiet (cb : callback → ctx → option ctx) : Prop :=
  ∀ k c, ∃ c', cb k c = Some c' ∧ close_view c' = close_view c ∧
    ∀ wr, is_Some (c_writes c !! wr) → acks_of wr (io_log (c_io c')) = acks_of wr (io_log (c_io c)).

Lemma closing_view c c' out pend due due' :
  close_view c' = close_view c →
  (∀ wr w, c_writes c !! wr = Some w → wr_on_ack w = true →
     acks_of wr (io_log (c_io c')) + (if decide (due' = Some wr) then 1 else 0) =
     acks_of wr (io_log (c_io c)) + (if decide (due = Some wr) then 1 else 0)) →
  closing c out pend due → closing c' out pend due'.
Proof.
  intros [= E1 E2 E3 E4 E5 E6 E7 E8 E9 E10] Ht [K1 K2 K3 [L1 L2 L3 L4 L5 L6 L7 L8 L9]].
  assert (flying (masked c') = flying (masked c)) as Ef by (unfold flying, owned, masked; cbn [c_s c_packets s_pkt s_outgoing upd_field]; by rewrite E1, E5).
  split; [by rewrite E5|by rewrite E1|done|].
  split; rewrite ?Ef; unfold masked in *; cbn [c_wbufs c_writes c_s s_write_queue s_acct c_next c_io upd_field] in *; rewrite ?E2, ?E3, ?E4, ?E9, ?E10; try done.
  intros wr w Hw Ho Hp. rewrite (Ht wr w Hw Ho). by apply L9.
Qed.

(** ** What stays *)

(** The writes keep their sizes and callbacks, and their buffers. *)
Record same_writes (c c' : ctx) : Prop := {
  sw_writes : ∀ wr w, c_writes c !! wr = Some w →
    ∃ w', c_writes c' !! wr = Some w' ∧ wr_size w' = wr_size w ∧ wr_on_ack w' = wr_on_ack w;
  sw_plain : ∀ wr, plain wr (c_wbufs c) → plain wr (c_wbufs c') }.
#[global] Instance same_writes_refl : Reflexive same_writes.
Proof. intros c. split; [|done]. intros wr w Hw. by exists w. Qed.
#[global] Instance same_writes_trans : Transitive same_writes.
Proof.
  intros c1 c2 c3 [A1 A2] [B1 B2]. split; [|auto]. intros wr w (w2 & (w3 & Hw & E1 & E2)%B1 & E3 & E4)%A1.
  exists w3. by rewrite E1, E2.
Qed.
Lemma same_writes_eq c c' : (c_wbufs c', c_writes c') = (c_wbufs c, c_writes c) → same_writes c c'.
Proof. intros [= E1 E2]. split; rewrite ?E1, ?E2; [|done]. intros wr w Hw. by exists w. Qed.

Definition frame (c : ctx) :=
  (c_packets c, s_outgoing (c_s c), s_remote_acked (c_s c), s_seq (c_s c), s_pkt (c_s c), s_write_queue (c_s c)).

Lemma credited_same_writes c wid b w n m :
  c_wbufs c !! wid = Some b → c_writes c !! wb_write b = Some w → same_writes c (credited_at c wid b w n m).
Proof.
  intros Hb Hw. split.
  - intros wr x Hx. unfold credited_at. cbn [c_writes upd_field]. destruct (decide (wr = wb_write b)) as [->|].
    + rewrite lookup_insert_eq. eexists. split; [done|]. assert (x = w) as -> by congruence. done.
    + rewrite lookup_insert_ne by done. by exists x.
  - intros wr. unfold credited_at. cbn [c_wbufs upd_field]. set (b' := b <| wb_bytes_inflight := m |> <| wb_bytes_acked ::= _ |>).
    intros [(i & y & Hy & Ey) Hp]. split.
    + destruct (decide (i = wid)) as [->|]; [|exists i, y; by rewrite lookup_insert_ne]. exists wid, b'.
      rewrite lookup_insert_eq. split; [done|]. assert (y = b) as -> by congruence. done.
    + intros j z. destruct (decide (j = wid)) as [->|]; [|rewrite lookup_insert_ne by done; apply Hp].
      rewrite lookup_insert_eq. intros [= <-]. by apply (Hp wid b).
Qed.

(** ** One chunk is cancelled *)

Section Callbacks.
Variable cb : callback → ctx → option ctx.
Hypothesis Hcb : quiet cb.

Lemma cancel_bytes c out k pend :
  closing c out (k :: pend) None →
  ∃ b w m, c_wbufs c !! ck_wbuf k = Some b ∧ c_writes c !! wb_write b = Some w ∧
    on_bytes_acked cb c (ck_wbuf k) (ck_len k) true = Some (credited_at c (ck_wbuf k) b w (ck_len k) m) ∧
    closing (credited_at c (ck_wbuf k) b w (ck_len k) m) out pend (completed b w (ck_len k)).
Proof.
  intros [K1 K2 K3 L]. destruct (lg_chunks _ _ _ L k ltac:(left)) as (b & Hb & _). destruct (lg_wbufs _ _ _ L _ _ Hb) as (_ & _ & _ & [w Hw]).
  destruct (credit_bounds (masked c) k pend b w L Hb Hw) as (B1 & B2 & B3 & B4 & B5). destruct (pending_nonneg (masked c) k pend L) as [B0 _].
  change (c_wbufs c !! ck_wbuf k = Some b) in Hb. change (c_writes c !! wb_write b = Some w) in Hw.
  change (ck_len k <= writes_queued_bytes (s_acct (c_s c))) in B5.
  exists b, w, (wb_bytes_inflight b). do 2 (split; [done|]). split; [|by split; [..|apply (credit_ledger (masked c) k pend b w L)]].
  unfold on_bytes_acked. rewrite Hb. cbn [mbind option_bind]. rewrite Hw. cbn [mbind option_bind]. cbv zeta.
  set (b1 := b <| wb_bytes_acked ::= _ |>).
  assert (b1 = b <| wb_bytes_inflight := wb_bytes_inflight b |> <| wb_bytes_acked ::= λ x, x + ck_len k |>) as E1.
  { unfold b1, upd_field. cbn. rewrite u64_id by (unfold is_u64; lia). done. }
  assert (wb_bytes_acked b1 <=? wb_len b1 = true) as -> by (rewrite E1; apply Z.leb_le; unfold wb_len in *; cbn; lia).
  set (w1 := w <| wr_bytes_acked ::= _ |>). assert (w1 = w <| wr_bytes_acked ::= λ x, x + ck_len k |>) as E2.
  { unfold w1, upd_field. rewrite u64_id by (unfold is_u64; lia). done. }
  assert (wr_bytes_acked w1 <=? wr_size w1 = true) as -> by (rewrite E2; apply Z.leb_le; cbn; lia).
  rewrite (proj2 (Z.leb_le _ _) B5), E1, E2. done.
Qed.

(** Telling the user, when that completes the write. *)
Lemma cancel_told c out b w k m pend c0 :
  c = credited_at c0 (ck_wbuf k) b w (ck_len k) m → closing c out pend (completed b w (ck_len k)) →
  ∃ c', ack_write cb c (ck_wbuf k) UV_ECANCELED 0 = Some c' ∧ closing c' out pend None ∧ close_view c' = close_view c.
Proof.
  intros E Hcl. assert (c_wbufs c !! ck_wbuf k = Some (b <| wb_bytes_inflight := m |> <| wb_bytes_acked ::= λ x, x + ck_len k |>)) as Hb
    by (subst c; apply lookup_insert_eq).
  assert (c_writes c !! wb_write b = Some (w <| wr_bytes_acked ::= λ x, x + ck_len k |>)) as Hw by (subst c; apply lookup_insert_eq).
  clear E. unfold ack_write. rewrite Hb. cbn [mbind option_bind wb_write upd_field]. rewrite Hw.
  cbn [mbind option_bind wr_bytes_acked wr_size wr_on_ack upd_field]. unfold completed in Hcl.
  destruct (_ =? _) eqn:Ec; cbn [andb]; [|by exists c]. destruct (wr_on_ack w) eqn:Eo.
  - unfold call. set (c1 := c <| c_io ::= _ |>). destruct (Hcb (CbAck (wb_write b) UV_ECANCELED 0) c1) as (c' & -> & Ev & Ea).
    exists c'. split; [done|]. split; [|by rewrite Ev]. apply (closing_view c c' out pend (Some (wb_write b))); [by rewrite Ev| |done].
    intros wr x Hx _. rewrite (Ea wr) by by exists x. unfold c1. cbn [c_io io_log upd_field acks_of].
    rewrite (decide_False (P := None = Some wr)) by done.
    destruct (decide (wb_write b = wr)) as [->|]; [rewrite decide_True by done|rewrite decide_False by congruence]; lia.
  - exists c. split; [done|]. split; [|done]. apply (closing_view c c out pend (Some (wb_write b))); [done| |done].
    intros wr x Hx Ho. rewrite (decide_False (P := None = Some wr)) by done. rewrite decide_False; [done|].
    intros [= <-]. rewrite Hw in Hx. injection Hx as <-. cbn in Ho. congruence.
Qed.

Lemma view_frame c c' : close_view c' = close_view c → frame c' = frame c ∧ same_writes c c'.
Proof.
  intros [= E1 E2 E3 E4 E5 E6 E7 E8 E9 E10]. unfold frame. split; [congruence|]. apply same_writes_eq. congruence.
Qed.

Lemma cancel_one c out k pend :
  closing c out (k :: pend) None →
  ∃ c1 c', on_bytes_acked cb c (ck_wbuf k) (ck_len k) true = Some c1 ∧ ack_write cb c1 (ck_wbuf k) UV_ECANCELED 0 = Some c' ∧
    closing c' out pend None ∧ frame c' = frame c ∧ same_writes c c'.
Proof.
  intros Hcl. destruct (cancel_bytes c out k pend Hcl) as (b & w & m & Hb & Hw & E1 & H1).
  destruct (cancel_told _ out b w k m pend c eq_refl H1) as (c' & E2 & H2 & Ev). destruct (view_frame _ _ Ev) as [Ef Hs].
  eexists _, c'. split; [exact E1|]. split; [exact E2|]. split; [done|]. split; [by rewrite Ef|].
  etransitivity; [by apply (credited_same_writes c (ck_wbuf k) b w (ck_len k) m)|done].
Qed.

Lemma cancel_chunks_ok ks c out :
  closing c out ks None →
  ∃ c', cancel_chunks cb c ks = Some c' ∧ closing c' out [] None ∧ frame c' = frame c ∧ same_writes c c'.
Proof.
  revert c. induction ks as [|k ks IH]; intros c Hcl; cbn [cancel_chunks]; [by exists c|].
  destruct (cancel_one c out k ks Hcl) as (c1 & c2 & -> & E2 & H2 & Ef & Hs). cbn [mbind option_bind]. rewrite E2. cbn [mbind option_bind].
  destruct (IH c2 H2) as (c' & E & H3 & Ef3 & Hs3). exists c'. split; [done|]. split; [done|]. split; [congruence|]. by transitivity c2.
Qed.

(** ** Packets *)

Lemma deref_closing c out pid p :
  closing c out [] None → c_packets c !! pid = Some p → (∀ q, out !! q ≠ Some pid) →
  ∃ c', deref_packet c pid = Some c' ∧ closing c' out [] None ∧ c_s c' = c_s c ∧ same_writes c c'.
Proof.
  intros [K1 K2 K3 L] Hp Hn. destruct (deref_run c pid p Hp) as (m & -> & Hm & _). eexists. split; [reflexivity|].
  assert (Hout : ∀ q x, out !! q = Some x → m !! x = c_packets c !! x) by (intros q x Hx; apply Hm; intros ->; by apply Hn in Hx).
  split; [|split; [done|by apply same_writes_eq]]. split; [done| |done|].
  - intros q x Hx. cbn [c_packets upd_field]. rewrite (Hout q x Hx). by apply (K2 q).
  - apply (ledger_view (masked c) _ [] []); try done. cbn [app]. unfold flying, owned, masked. cbn [c_s c_packets s_pkt s_outgoing upd_field].
    rewrite K1. cbn [app]. by rewrite (chunks_outside out _ m Hout).
Qed.

(** The loop over the outgoing buffer. *)
Lemma clear_seqs_ok seqs c out :
  closing c out [] None →
  ∃ c' out', clear_outgoing_seqs cb c seqs = Some c' ∧ closing c' out' [] None ∧
    s_write_queue (c_s c') = s_write_queue (c_s c) ∧ same_writes c c' ∧
    ∀ q x, out' !! q = Some x → out !! q = Some x ∧ q ∉ seqs.
Proof.
  revert c out. induction seqs as [|seq seqs IH]; intros c out Hcl; cbn [clear_outgoing_seqs].
  { exists c, out. do 4 (split; [done|]). intros q x Hq. split; [done|]. by intros ?%elem_of_nil. }
  pose proof Hcl as [K1 K2 K3 L]. rewrite K1. cbn [mbind option_bind]. destruct (out !! seq) as [pid|] eqn:Hseq.
  2: { destruct (IH c out Hcl) as (c' & out' & E & H1 & H2 & H3 & H4). exists c', out'. do 4 (split; [done|]).
       intros q x Hq. destruct (H4 q x Hq) as [H5 H6]. split; [done|]. intros [->|?]%elem_of_cons; congruence. }
  destruct (K2 _ _ Hseq) as [p Hp]. set (c1 := c <| c_s ::= _ |>).
  assert (Hgone : ∀ q, delete seq out !! q ≠ Some pid).
  { intros q [Hne Hq]%lookup_delete_Some. apply Hne. by apply (K3 _ _ pid). }
  assert (closing c1 (delete seq out) (p_chunks p) None) as H1.
  { split; [done| | |].
    - intros q x [_ Hq]%lookup_delete_Some. by apply (K2 q).
    - intros q1 q2 x [_ Hq1]%lookup_delete_Some [_ Hq2]%lookup_delete_Some. by apply (K3 q1 q2 x).
    - apply (ledger_view (masked c) _ []); try done. unfold flying, owned, masked, c1. cbn [c_s c_packets s_pkt s_outgoing upd_field app].
      rewrite K1. cbn [app]. rewrite <- (insert_delete_id out seq pid Hseq) at 2.
      rewrite (map_to_list_insert (delete seq out)) by apply lookup_delete_eq. cbn [fmap list_fmap snd]. rewrite bind_cons.
      unfold chunks_at at 2. by rewrite Hp. }
  unfold cancel_packet. change (c_packets c1) with (c_packets c). rewrite Hp. cbn [mbind option_bind].
  destruct (cancel_chunks_ok (p_chunks p) c1 _ H1) as (c2 & -> & H2 & Ef & Hs). cbn [mbind option_bind].
  injection Ef as F1 F2 F3 F4 F5 F6. assert (c_packets c2 !! pid = Some p) as Hp2 by by rewrite F1.
  destruct (deref_closing c2 _ pid p H2 Hp2 Hgone) as (c3 & -> & H3 & Es & Hs3). cbn [mbind option_bind].
  destruct (IH c3 _ H3) as (c' & out' & E & H4 & E4 & Hs4 & Hin). exists c', out'. split; [exact E|]. split; [done|].
  split; [rewrite E4, Es, F6; done|]. split; [transitivity c1; [by apply same_writes_eq|]; transitivity c2; [done|]; by transitivity c3|].
  intros q x Hq. destruct (Hin q x Hq) as [[Hne Hq']%lookup_delete_Some Hn]. split; [done|].
  intros [->|?]%elem_of_cons; congruence.
Qed.

(** ** The write queue *)

Lemma flying_none c : s_outgoing (c_s c) = Some ∅ → flying (masked c) = [].
Proof. intros E. unfold flying, owned, masked. cbn [c_s s_pkt s_outgoing upd_field]. rewrite E. by rewrite map_to_list_empty. Qed.

(** A buffer that is taken from the queue: what is left of it is cancelled as one chunk. *)
Lemma shift_closing c wid q b :
  closing c ∅ [] None → s_write_queue (c_s c) = wid :: q → c_wbufs c !! wid = Some b →
  closing (c <| c_s ::= λ s, s <| s_write_queue := q |> |>) ∅ [mk_chunk wid 0 (wb_len b - wb_bytes_acked b)] None.
Proof.
  intros [K1 K2 K3 L] Eq Hb. set (k := mk_chunk _ _ _). set (c1 := c <| c_s ::= _ |>). split; [done..|].
  pose proof (ledger_buf _ _ _ wid b L Hb) as Hr. pose proof L as [L1 L2 L3 L4 L5 L6 L7 L8 L9].
  rewrite (flying_none c K1) in L1, L2, L3. change (s_write_queue (c_s (masked c))) with (s_write_queue (c_s c)) in *. rewrite Eq in L2, L3, L4.
  apply NoDup_cons in L4 as [Hn Hd].
  assert (Hc : ∀ x, carried x [k] = if decide (x = wid) then wb_len b - wb_bytes_acked b else 0).
  { intros x. rewrite carried_cons. unfold k. cbn. case_decide; case_decide; subst; done || lia. }
  split; rewrite ?(flying_none c1 K1), ?app_nil_r; try done.
  - intros x ->%list_elem_of_singleton. exists b. split; [exact Hb|]. unfold k. cbn. split; [lia|]. intros E.
    destruct (L3 wid ltac:(left)) as (y & Hy & Hz). assert (y = b) as -> by (apply (inj Some); by rewrite <- Hy, <- Hb).
    apply Hz. unfold carried. cbn. lia.
  - intros x y Hy. destruct (L2 x y Hy) as (M1 & M2 & M3 & M4). rewrite Hc. cbn [carried foldr app] in M2, M3.
    destruct (decide (x = wid)) as [->|Hx].
    + assert (y = b) as -> by (apply (inj Some); by rewrite <- Hy, <- Hb). split_and!; try lia; done.
    + split_and!; try lia; [|done]. intros Hq. apply M3. intros [?|?]%elem_of_cons; done.
  - intros x Hx. change (x ∈ q) in Hx. destruct (L3 x ltac:(by right)) as (y & Hy & Hz). exists y. split; [done|].
    rewrite Hc, decide_False by (intros ->; done). exact Hz.
Qed.

Lemma clear_write_queue_ok q c :
  closing c ∅ [] None → s_write_queue (c_s c) = q →
  ∃ c', clear_write_queue cb (length q) c = Some c' ∧ closing c' ∅ [] None ∧ s_write_queue (c_s c') = [] ∧ same_writes c c'.
Proof.
  revert c. induction q as [|wid q IH]; intros c Hcl Eq; cbn [length clear_write_queue]; rewrite Eq; [by exists c|].
  pose proof Hcl as [_ _ _ L]. destruct (lg_queue _ _ _ L wid) as (b & Hb & _).
  { change (wid ∈ s_write_queue (c_s c)). rewrite Eq. left. }
  change (c_wbufs c !! wid = Some b) in Hb. pose proof (ledger_buf _ _ _ wid b L Hb) as Hr.
  pose proof (shift_closing c wid q b Hcl Eq Hb) as H1. set (c1 := c <| c_s ::= _ |>) in *. cbv zeta.
  change (c_wbufs c1) with (c_wbufs c). rewrite Hb. cbn [mbind option_bind]. rewrite u64_id by (unfold is_u64; lia).
  destruct (cancel_one c1 ∅ _ [] H1) as (c2 & c3 & E2 & E3 & H3 & Ef & Hs). cbn [ck_wbuf ck_len] in E2, E3. rewrite E2.
  cbn [mbind option_bind]. rewrite E3. cbn [mbind option_bind]. injection Ef as _ _ _ _ _ F6.
  destruct (IH c3 H3 F6) as (c' & E & H4 & E4 & Hs4). exists c'. do 3 (split; [done|]). transitivity c1; [by apply same_writes_eq|]. by transitivity c3.
Qed.

(** ** The whole sender *)

(** What clear_outgoing_packets finds: every packet of the outgoing buffer is in the window the loop goes through. *)
Record closable (c : ctx) (out : gmap Z packet_id) : Prop := {
  co_out : s_outgoing (c_s c) = Some out;
  co_window : ∀ q pid, out !! q = Some pid → is_u32 q ∧ u32 (q - s_remote_acked (c_s c)) < window (c_s c);
  co_acked : is_u32 (s_remote_acked (c_s c));
  co_packets : ∀ q pid, out !! q = Some pid → is_Some (c_packets c !! pid);
  co_inj : ∀ q1 q2 pid, out !! q1 = Some pid → out !! q2 = Some pid → q1 = q2;
  co_current : ∀ pid, s_pkt (c_s c) = Some pid →
    (∃ p, c_packets c !! pid = Some p ∧ p_ref_count p = 1) ∧ ∀ q, out !! q ≠ Some pid;
  co_ledger : ledger c [] None }.

(** A sender whose books are in order can close. *)
Lemma acking_closable `{Numbering} c : acking c None [] None → is_u32 (s_remote_acked (c_s c)) → ∃ out, closable c out.
Proof.
  intros [(out & Q & (pid & p & C) & _) [L _] _] Hra. exists out. split; try done.
  - apply Q.
  - apply Q.
  - intros q x Hq. destruct (qo_packets _ _ Q q x Hq) as (y & Hy & _). by exists y.
  - intros q1 q2 x (y1 & H1 & <- & _)%(qo_packets _ _ Q) (y2 & H2 & <- & _)%(qo_packets _ _ Q). congruence.
  - rewrite (bd_pkt _ _ _ (cu_building _ _ _ _ C)). intros x [= <-]. split; [|apply C]. exists p. split; [apply C|].
    by injection (cu_fresh _ _ _ _ C).
Qed.

(** The destroy packet takes a number that is in no buffer. *)
Lemma closable_next c out :
  closable c out → window (c_s c) < 2 ^ 32 - 1 → closable (c <| c_s ::= λ s, s <| s_seq ::= λ q, u32 (q + 1) |> |>) out.
Proof.
  intros [K1 K2 K3 K4 K5 K6 K7] Hw. split; try done; [|by apply (ledger_view c _ [])].
  intros q x Hq. destruct (K2 q x Hq) as [Hu Hlt]. split; [done|]. unfold window in *.
  cbn [c_s s_seq s_remote_acked upd_field]. rewrite u32_sub_l.
  replace (s_seq (c_s c) + 1 - s_remote_acked (c_s c)) with (s_seq (c_s c) - s_remote_acked (c_s c) + 1) by lia.
  rewrite <- u32_add_l, (u32_id (_ + 1)); [lia|]. pose proof (u32_range (s_seq (c_s c) - s_remote_acked (c_s c))). unfold is_u32 in *. lia.
Qed.

Lemma closable_start c out :
  closable c out →
  closing c out (match s_pkt (c_s c) with Some pid => chunks_at (c_packets c) pid | None => [] end) None.
Proof.
  intros [K1 K2 K3 K4 K5 K6 K7]. split; [done..|]. apply (ledger_view c _ []); try done.
  unfold flying, owned, masked. cbn [c_s c_packets s_pkt s_outgoing upd_field app]. rewrite K1. by destruct (s_pkt _).
Qed.

(** The packet under construction. *)
Lemma cancel_current_ok c out :
  closable c out →
  ∃ c', (match s_pkt (c_s c) with
         | None => Some c
         | Some pid => p ← c_packets c !! pid; assert! p_ref_count p =? 1; c ← cancel_packet cb c pid; deref_packet c pid
         end) = Some c' ∧ closing c' out [] None ∧
    (s_remote_acked (c_s c'), s_seq (c_s c')) = (s_remote_acked (c_s c), s_seq (c_s c)) ∧ same_writes c c'.
Proof.
  intros Hc. pose proof (closable_start c out Hc) as H1. destruct (s_pkt (c_s c)) as [pid|] eqn:Ep; [|by exists c].
  destruct (co_current _ _ Hc pid Ep) as [(p & Hp & Er) Hn]. rewrite Hp. cbn [mbind option_bind]. rewrite Er. cbn [Z.eqb Pos.eqb].
  unfold cancel_packet. rewrite Hp. cbn [mbind option_bind]. unfold chunks_at in H1. rewrite Hp in H1.
  destruct (cancel_chunks_ok (p_chunks p) c out H1) as (c1 & -> & H2 & Ef & Hs). cbn [mbind option_bind]. injection Ef as F1 F2 F3 F4 F5 F6.
  assert (c_packets c1 !! pid = Some p) as Hp1 by by rewrite F1.
  destruct (deref_closing c1 out pid p H2 Hp1 Hn) as (c2 & -> & H3 & Es & Hs3). exists c2. split; [done|]. split; [done|].
  rewrite Es, F3, F4. split; [done|]. by transitivity c1.
Qed.

Lemma clear_outgoing_run c out :
  closable c out →
  ∃ c', clear_outgoing_packets cb c = Some c' ∧
    s_outgoing (c_s c') = Some ∅ ∧ s_write_queue (c_s c') = [] ∧ writes_queued_bytes (s_acct (c_s c')) = 0 ∧
    ∀ wr w, c_writes c !! wr = Some w →
      ∃ w', c_writes c' !! wr = Some w' ∧ wr_size w' = wr_size w ∧ wr_bytes_acked w' = wr_size w ∧
        (wr_on_ack w = true → plain wr (c_wbufs c) → acks_of wr (io_log (c_io c')) = 1).
Proof.
  intros Hc. unfold clear_outgoing_packets. destruct (cancel_current_ok c out Hc) as (c1 & -> & H1 & [= E1 E2] & Hs1).
  cbn [mbind option_bind]. rewrite E1, E2.
  destruct (clear_seqs_ok (seq_upto (s_remote_acked (c_s c)) (s_seq (c_s c))) c1 out H1) as (c2 & out2 & -> & H2 & E3 & Hs2 & Hin).
  assert (out2 = ∅) as ->.
  { apply map_empty. intros q. destruct (out2 !! q) as [x|] eqn:Hq; [|done]. destruct (Hin q x Hq) as [Hx Hn].
    destruct (co_window _ _ Hc q x Hx) as [Hu Hlt]. destruct Hn. apply seq_upto_elem; [apply Hc|done|exact Hlt]. }
  cbn [mbind option_bind]. destruct (clear_write_queue_ok (s_write_queue (c_s c2)) c2 H2 eq_refl) as (c3 & -> & H3 & Eq & Hs3).
  exists c3. split; [done|]. pose proof H3 as [K1 _ _ L]. split; [done|]. split; [done|].
  assert (Hfull : ∀ wid b, c_wbufs c3 !! wid = Some b → wb_bytes_acked b = wb_len b).
  { intros wid b Hb. destruct (lg_wbufs _ _ _ L wid b Hb) as (_ & _ & K & _). rewrite (flying_none c3 K1) in K. cbn [app carried foldr] in K.
    rewrite <- K; [lia|]. change (wid ∉ s_write_queue (c_s c3)). rewrite Eq. apply not_elem_of_nil. }
  split.
  - change (writes_queued_bytes (s_acct (c_s (masked c3))) = 0). rewrite (lg_queued _ _ _ L), <- (msum_zero (c_wbufs (masked c3))).
    apply msum_ext. intros wid b Hb. rewrite (Hfull wid b Hb). lia.
  - intros wr w Hw. assert (same_writes c c3) as [S1 S2] by (transitivity c1; [done|]; by transitivity c2).
    destruct (S1 wr w Hw) as (w' & Hw' & Es & Eo). exists w'. split; [done|]. split; [done|].
    destruct (lg_writes _ _ _ L wr w' Hw') as [M1 M2].
    assert (wr_bytes_acked w' = wr_size w') as Ew.
    { rewrite M1, M2. apply msum_ext. intros wid b Hb. unfold part. by rewrite (Hfull wid b Hb). }
    split; [congruence|]. intros Ho Hp. pose proof (lg_told _ _ _ L wr w' Hw') as Ht.
    rewrite Ew, Z.eqb_refl in Ht. rewrite <- Ht; [|congruence|by apply S2].
    rewrite decide_False by done. change (c_io (masked c3)) with (c_io c3). lia.
Qed.

End Callbacks.
End Cancel.

#[local] Existing Instance example_env.
Lemma example_user_quiet : quiet example_user.
Proof. intros k c. eexists. split; [reflexivity|]. by split. Qed.
Lemma ledger_closable : closable ledger_ctx example_out.
Proof.
  destruct (acking_closable ledger_ctx ledger_acking) as [out Ho]; [vm_compute; intuition congruence|].
  pose proof (co_out _ _ Ho) as E. by injection E as <-.
Qed.
