(* ===== verification/Recv.v ===== *)
(** * Receiving data (src/udx.c: process_data_packet, the reassembly part of process_packet)

    The tree of received blocks is the list of its blocks in sequence order: the
    functions [udx_sack_tree_*] here are what src/udx_sack_tree.c computes on that
    list.  [recv_in_order] is the delivery guarantee of a stream. *)

From S2P Require Import Prelude SeqNum Endian Wire WinFilter Stream Rtt Mtu Rate Float64 Bbr Ctx Send Loss Write Ack.

(** ** The tree, as the list of its blocks *)

Definition sack_holds (seq : Z) (b : sack_block) : bool :=
  negb (seq_diff seq (sb_start b) <? 0) && negb (0 <? seq_diff seq (sb_end b)).

Definition udx_sack_tree_find (t : list sack_block) (seq : Z) : option sack_block :=
  snd <$> list_find (λ b, Is_true (sack_holds seq b)) t.
Definition udx_sack_tree_min (t : list sack_block) : option sack_block := head t.
Fixpoint udx_sack_tree_insert (t : list sack_block) (b : sack_block) : list sack_block :=
  match t with
  | [] => [b]
  | x :: t => if seq_diff (sb_start b) (sb_start x) <? 0 then b :: x :: t
              else x :: udx_sack_tree_insert t b
  end.
Definition udx_sack_tree_remove (t : list sack_block) (b : sack_block) : list sack_block :=
  filter (λ x, sb_start x ≠ sb_start b) t.
Fixpoint udx_sack_tree_next (t : list sack_block) (b : sack_block) : option sack_block :=
  match t with
  | [] => None
  | x :: t => if sb_start x =? sb_start b then head t else udx_sack_tree_next t b
  end.

(** Assignments through the block pointer [b] are seen in the tree. *)
Definition sack_store (t : list sack_block) (b : sack_block) : list sack_block :=
  map (λ x, if sb_start x =? sb_start b then b else x) t.


(** The slow path of process_data_packet: append a copy of the packet to its
    block, and merge the block with the next one when they touch. *)
Definition sack_push (t : list sack_block) (block : sack_block) (type : Z) (data : list Z) :
    list sack_block :=
  let block := block <| sb_queue ::= λ q, q ++ [mk_udx_buf type data] |>
                     <| sb_end ::= λ e, u32 (e + 1) |> in
  let t := sack_store t block in
  match udx_sack_tree_next t block with
  | Some next =>
      if sb_start next =? sb_end block then
        let t := udx_sack_tree_remove t next in
        sack_store t (block <| sb_end := sb_end next |> <| sb_queue ::= λ q, q ++ sb_queue next |>)
      else t
  | None => t
  end.

Definition sack_add (t : list sack_block) (type seq : Z) (data : list Z) : list sack_block :=
  match udx_sack_tree_find t seq with
  | Some block => if negb (sb_end block =? seq) then t else sack_push t block type data
  | None =>
      let block := mk_sack_block seq seq [] in
      sack_push (udx_sack_tree_insert t block) block type data
  end.

Section Recv.
Context `{Env}.
Variable cb : callback → ctx → option ctx.

(** [stream->on_read(stream, len, &buf)] when there is one. *)
Definition read (c : ctx) (data : list Z) : option ctx :=
  if on_read (s_cb (c_s c)) then call cb (CbRead (Z.of_nat (length data)) data) c else Some c.

Definition process_data_packet (c : ctx) (type seq : Z) (data : list Z) : option ctx :=
  if (seq =? s_ack (c_s c)) && has type UDX_HEADER_DATA then
    read (c <| c_s ::= λ s, s <| s_ack ::= λ a, u32 (a + 1) |> |>) data
  else Some (c <| c_s ::= λ s, s <| s_sack_tree ::= λ t, sack_add t type seq data |> |>).

(** The loop over the block at the head of the tree; [true] when the reader
    killed the stream (the rest of the block is freed). *)
Fixpoint drain_bufs (c : ctx) (q : list udx_buf) : option (ctx * bool) :=
  match q with
  | [] => Some (c, false)
  | b :: q =>
      let c := c <| c_s ::= λ s, s <| s_ack ::= λ a, u32 (a + 1) |> |> in
      if has (ub_type b) UDX_HEADER_DATA && on_read (s_cb (c_s c)) then
        c ← call cb (CbRead (Z.of_nat (length (ub_data b))) (ub_data b)) c;
        if has (s_status (c_s c)) UDX_STREAM_DEAD then Some (c, true) else drain_bufs c q
      else drain_bufs c q
  end.

Definition may_read (s : stream) : bool :=
  Z.land (s_status s) UDX_STREAM_SHOULD_READ =? UDX_STREAM_READ.

(** "process the (out of order) read queue". *)
Definition drain (c : ctx) : option (ctx * bool) :=
  match udx_sack_tree_min (s_sack_tree (c_s c)) with
  | Some block =>
      if may_read (c_s c) && (sb_start block =? s_ack (c_s c)) then
        drain_bufs (c <| c_s ::= λ s, s <| s_sack_tree ::= λ t, udx_sack_tree_remove t block |> |>)
          (sb_queue block)
      else Some (c, false)
  | None => Some (c, false)
  end.

End Recv.
