(* ===== verification/SackTree.v ===== *)
(** * The tree of received blocks (src/udx_sack_tree.c, udx_sack_tree.h)

    A red-black tree with parent pointers and a sentinel for the empty leaves.
    Blocks live in memory at addresses; a pointer is an [option loc], NULL being [None];
    following NULL, or an address that holds no block, is undefined ([None]).  The operations
    refine the list operations of Recv.v, keep the tree balanced and follow no
    bad pointer. *)

From S2P Require Import Prelude SeqNum Endian Wire WinFilter Stream Rtt Mtu Rate Float64 Bbr Ctx Send Loss Write Ack Recv.

Definition loc := positive.
Bind Scope positive_scope with loc.
Abbreviation ptr := (option loc).

(** [struct udx_sack_block_s] *)
Record block := mk_block {
  n_start : Z; n_end : Z; n_left : ptr; n_right : ptr; n_parent : ptr; n_color : Z;
  n_queue : list udx_buf }.
#[export] Instance eta_block : Eta block := λ n,
  mk_block (n_start n) (n_end n) (n_left n) (n_right n) (n_parent n) (n_color n) (n_queue n).

(** [udx_sack_tree_t] and the blocks in memory, [_sentinel] among them. *)
Record rbtree := mk_rbtree { blocks : gmap loc block; root : ptr; sentinel : ptr }.
#[export] Instance eta_rbtree : Eta rbtree := λ t, mk_rbtree (blocks t) (root t) (sentinel t).

Definition load (t : rbtree) (p : ptr) : option block := l ← p; blocks t !! l.
Definition ld {A} (f : block → A) (t : rbtree) (p : ptr) : option A := n ← load t p; Some (f n).
Definition st (g : block → block) (t : rbtree) (p : ptr) : option rbtree :=
  l ← p; n ← blocks t !! l; Some (t <| blocks := <[l := g n]> (blocks t) |>).

Definition st_left t p (v : ptr) : option rbtree := st (λ n, n <| n_left := v |>) t p.
Definition st_right t p (v : ptr) : option rbtree := st (λ n, n <| n_right := v |>) t p.
Definition st_parent t p (v : ptr) : option rbtree := st (λ n, n <| n_parent := v |>) t p.
Definition rbt_red t p : option rbtree := st (λ n, n <| n_color := 1 |>) t p.
Definition rbt_black t p : option rbtree := st (λ n, n <| n_color := 0 |>) t p.
Definition rbt_is_red t p : option bool := ld (λ n, truthy (n_color n)) t p.
Definition rbt_copy_color t (n1 n2 : ptr) : option rbtree :=
  c ← ld n_color t n2; st (λ n, n <| n_color := c |>) t n1.

(** ** The operations *)

(** The search loop goes down, so it ends within the number of blocks. *)
Definition fuel_of (t : rbtree) : nat := S (size (blocks t)).

Fixpoint find_loop (fuel : nat) (t : rbtree) (block : ptr) (seq : Z) : option ptr :=
  if decide (block = sentinel t) then Some None
  else match fuel with
  | O => None
  | S fuel =>
      n ← load t block;
      if seq_diff seq (n_start n) <? 0 then find_loop fuel t (n_left n) seq
      else if 0 <? seq_diff seq (n_end n) then find_loop fuel t (n_right n) seq
      else Some block
  end.
Definition udx_sack_tree_find (t : rbtree) (seq : Z) : option ptr := find_loop (fuel_of t) t (root t) seq.

Definition rbtree_left_rotate (t : rbtree) (node : ptr) : option rbtree :=
  temp ← ld n_right t node;
  x ← ld n_left t temp;
  t ← st_right t node x;
  x ← ld n_left t temp;
  t ← (if decide (x = sentinel t) then Some t else st_parent t x node);
  p ← ld n_parent t node;
  t ← st_parent t temp p;
  t ← (if decide (node = root t) then st_parent (t <| root := temp |>) temp None
       else p ← ld n_parent t node; l ← ld n_left t p;
            if decide (node = l) then st_left t p temp else st_right t p temp);
  t ← st_left t temp node;
  st_parent t node temp.

Definition rbtree_right_rotate (t : rbtree) (node : ptr) : option rbtree :=
  temp ← ld n_left t node;
  x ← ld n_right t temp;
  t ← st_left t node x;
  x ← ld n_right t temp;
  t ← (if decide (x = sentinel t) then Some t else st_parent t x node);
  p ← ld n_parent t node;
  t ← st_parent t temp p;
  t ← (if decide (node = root t) then st_parent (t <| root := temp |>) temp None
       else p ← ld n_parent t node; r ← ld n_right t p;
            if decide (node = r) then st_right t p temp else st_left t p temp);
  t ← st_right t temp node;
  st_parent t node temp.

(** memset, and the sentinel at its address inside the struct. *)
Definition udx_sack_tree_init (t : rbtree) (s : loc) : option rbtree :=
  let t := mk_rbtree (<[s := mk_block 0 0 None None None 0 []]> (blocks t)) None (Some s) in
  t ← rbt_black t (sentinel t);
  let t := t <| root := sentinel t |> in
  st_parent t (root t) None.

Fixpoint insert_loop (fuel : nat) (t : rbtree) (temp block : ptr) : option rbtree :=
  match fuel with
  | O => None
  | S fuel =>
      b ← load t block; n ← load t temp;
      let go_left := i32 (n_start b - n_start n) <? 0 in
      let p := if go_left then n_left n else n_right n in
      if decide (p = sentinel t) then
        t ← (if go_left then st_left t temp block else st_right t temp block);
        t ← st_parent t block temp;
        t ← st_left t block (sentinel t);
        t ← st_right t block (sentinel t);
        rbt_red t block
      else insert_loop fuel t p block
  end.
Definition actual_sack_insert_fn (t : rbtree) (temp block : ptr) : option rbtree :=
  insert_loop (fuel_of t) t temp block.

(** The three statements that end a turn: the parent, black, takes the place of the
    grandparent, red. *)
Definition insert_lift (rotate : rbtree → ptr → option rbtree) (t : rbtree) (block : ptr) : option rbtree :=
  p ← ld n_parent t block; t ← rbt_black t p;
  p ← ld n_parent t block; g ← ld n_parent t p; t ← rbt_red t g;
  p ← ld n_parent t block; g ← ld n_parent t p; rotate t g.

Fixpoint insert_fixup (fuel : nat) (t : rbtree) (block : ptr) : option rbtree :=
  if decide (block = root t) then Some t
  else
    p ← ld n_parent t block; red ← rbt_is_red t p;
    if negb red then Some t
    else match fuel with
    | O => None
    | S fuel =>
        g ← ld n_parent t p; l ← ld n_left t g;
        if decide (p = l) then
          temp ← ld n_right t g; temp_red ← rbt_is_red t temp;
          if (temp_red : bool) then
            t ← rbt_black t p; t ← rbt_black t temp; t ← rbt_red t g; insert_fixup fuel t g
          else
            r ← ld n_right t p;
            '(t, block) ← (if decide (block = r) then t ← rbtree_left_rotate t p; Some (t, p)
                           else Some (t, block));
            t ← insert_lift rbtree_right_rotate t block;
            insert_fixup fuel t block
        else
          temp ← ld n_left t g; temp_red ← rbt_is_red t temp;
          if (temp_red : bool) then
            t ← rbt_black t p; t ← rbt_black t temp; t ← rbt_red t g; insert_fixup fuel t g
          else
            l ← ld n_left t p;
            '(t, block) ← (if decide (block = l) then t ← rbtree_right_rotate t p; Some (t, p)
                           else Some (t, block));
            t ← insert_lift rbtree_left_rotate t block;
            insert_fixup fuel t block
    end.

Definition udx_sack_tree_insert (t : rbtree) (block : ptr) : option rbtree :=
  if decide (root t = sentinel t) then
    t ← st_parent t block None;
    t ← st_left t block (sentinel t);
    t ← st_right t block (sentinel t);
    t ← rbt_black t block;
    Some (t <| root := block |>)
  else
    t ← actual_sack_insert_fn t (root t) block;
    t ← insert_fixup (fuel_of t) t block;
    rbt_black t (root t).

Fixpoint min_loop (fuel : nat) (t : rbtree) (node : ptr) : option ptr :=
  l ← ld n_left t node;
  if decide (l = sentinel t) then Some node
  else match fuel with O => None | S fuel => min_loop fuel t l end.
Definition rbtree_min (t : rbtree) (node : ptr) : option ptr := min_loop (fuel_of t) t node.

Definition udx_sack_tree_min (t : rbtree) : option ptr :=
  if decide (root t = sentinel t) then Some None else rbtree_min t (root t).

(** The DEBUG stuff: the links of a removed block are cleared. *)
Definition clear_links (t : rbtree) (block : ptr) : option rbtree :=
  t ← st_left t block None; t ← st_right t block None; st_parent t block None.

(** rbt_is_black(w->left) && rbt_is_black(w->right) *)
Definition children_black (t : rbtree) (w : ptr) : option bool :=
  l ← ld n_left t w; l_red ← rbt_is_red t l;
  if l_red : bool then Some false
  else r ← ld n_right t w; r_red ← rbt_is_red t r; Some (negb r_red).

(** One turn of "a remove fixup" when [temp] is a left child, and when it is a right
    one; the second half is the part where the sibling [w] is black. *)
Definition remove_black_left (t : rbtree) (temp w : ptr) : option (rbtree * ptr) :=
  both_black ← children_black t w;
  if both_black : bool then
    t ← rbt_red t w; p ← ld n_parent t temp; Some (t, p)
  else
    r ← ld n_right t w; r_red ← rbt_is_red t r;
    '(t, w) ← (if negb r_red then
                 l ← ld n_left t w; t ← rbt_black t l;
                 t ← rbt_red t w;
                 t ← rbtree_right_rotate t w;
                 p ← ld n_parent t temp; w ← ld n_right t p; Some (t, w)
               else Some (t, w));
    p ← ld n_parent t temp; t ← rbt_copy_color t w p;
    p ← ld n_parent t temp; t ← rbt_black t p;
    r ← ld n_right t w; t ← rbt_black t r;
    p ← ld n_parent t temp; t ← rbtree_left_rotate t p;
    Some (t, root t).

Definition remove_turn_left (t : rbtree) (temp : ptr) : option (rbtree * ptr) :=
  p ← ld n_parent t temp;
  w ← ld n_right t p; red ← rbt_is_red t w;
  '(t, w) ← (if red : bool then
               t ← rbt_black t w;
               p ← ld n_parent t temp; t ← rbt_red t p;
               p ← ld n_parent t temp; t ← rbtree_left_rotate t p;
               p ← ld n_parent t temp; w ← ld n_right t p; Some (t, w)
             else Some (t, w));
  remove_black_left t temp w.

Definition remove_black_right (t : rbtree) (temp w : ptr) : option (rbtree * ptr) :=
  both_black ← children_black t w;
  if both_black : bool then
    t ← rbt_red t w; p ← ld n_parent t temp; Some (t, p)
  else
    l ← ld n_left t w; l_red ← rbt_is_red t l;
    '(t, w) ← (if negb l_red then
                 r ← ld n_right t w; t ← rbt_black t r;
                 t ← rbt_red t w;
                 t ← rbtree_left_rotate t w;
                 p ← ld n_parent t temp; w ← ld n_left t p; Some (t, w)
               else Some (t, w));
    p ← ld n_parent t temp; t ← rbt_copy_color t w p;
    p ← ld n_parent t temp; t ← rbt_black t p;
    l ← ld n_left t w; t ← rbt_black t l;
    p ← ld n_parent t temp; t ← rbtree_right_rotate t p;
    Some (t, root t).

Definition remove_turn_right (t : rbtree) (temp : ptr) : option (rbtree * ptr) :=
  p ← ld n_parent t temp;
  w ← ld n_left t p; red ← rbt_is_red t w;
  '(t, w) ← (if red : bool then
               t ← rbt_black t w;
               p ← ld n_parent t temp; t ← rbt_red t p;
               p ← ld n_parent t temp; t ← rbtree_right_rotate t p;
               p ← ld n_parent t temp; w ← ld n_left t p; Some (t, w)
             else Some (t, w));
  remove_black_right t temp w.

Fixpoint remove_fixup (fuel : nat) (t : rbtree) (temp : ptr) : option rbtree :=
  if decide (temp = root t) then rbt_black t temp
  else
    red ← rbt_is_red t temp;
    if red : bool then rbt_black t temp
    else match fuel with
    | O => None
    | S fuel =>
        p ← ld n_parent t temp; l ← ld n_left t p;
        '(t, temp) ← (if decide (temp = l) then remove_turn_left t temp else remove_turn_right t temp);
        remove_fixup fuel t temp
    end.

(** The child that replaces the block taken out, and that block. *)
Definition remove_choose (t : rbtree) (block : ptr) : option (ptr * ptr) :=
  l ← ld n_left t block; r ← ld n_right t block;
  if decide (l = sentinel t) then Some (r, block)
  else if decide (r = sentinel t) then Some (l, block)
  else subst ← rbtree_min t r; temp ← ld n_right t subst; Some (temp, subst).

(** [subst] takes the place of [block]. *)
Definition replace_block (t : rbtree) (block subst : ptr) : option rbtree :=
  l ← ld n_left t block; t ← st_left t subst l;
  r ← ld n_right t block; t ← st_right t subst r;
  p ← ld n_parent t block; t ← st_parent t subst p;
  t ← rbt_copy_color t subst block;
  t ← (if decide (block = root t) then Some (t <| root := subst |>)
       else p ← ld n_parent t block; l ← ld n_left t p;
            if decide (block = l) then st_left t p subst else st_right t p subst);
  l ← ld n_left t subst;
  t ← (if decide (l = sentinel t) then Some t else st_parent t l subst);
  r ← ld n_right t subst;
  if decide (r = sentinel t) then Some t else st_parent t r subst.

Definition remove_substitute (t : rbtree) (block temp subst : ptr) : option rbtree :=
  sp ← ld n_parent t subst;
  t ← (if decide (sp = block) then st_parent t temp subst else st_parent t temp sp);
  replace_block t block subst.

(** The parent of [subst] gets [temp] in its place. *)
Definition unlink (t : rbtree) (subst temp : ptr) : option rbtree :=
  p ← ld n_parent t subst; l ← ld n_left t p;
  if decide (subst = l) then st_left t p temp else st_right t p temp.

Definition udx_sack_tree_remove (t : rbtree) (block : ptr) : option rbtree :=
  '(temp, subst) ← remove_choose t block;
  if decide (subst = root t) then
    let t := t <| root := temp |> in
    t ← rbt_black t temp;
    t ← st_parent t temp None;
    clear_links t block
  else
    red ← rbt_is_red t subst;
    t ← unlink t subst temp;
    t ← (if decide (subst = block) then p ← ld n_parent t subst; st_parent t temp p
         else remove_substitute t block temp subst);
    t ← clear_links t block;
    if red : bool then Some t else remove_fixup (fuel_of t) t temp.

(** Up through the parents until the block is a left child. *)
Fixpoint next_loop (fuel : nat) (t : rbtree) (block : ptr) : option ptr :=
  parent ← ld n_parent t block;
  if decide (block = root t) then Some None
  else
    l ← ld n_left t parent;
    if decide (block = l) then Some parent
    else match fuel with O => None | S fuel => next_loop fuel t parent end.
Definition udx_sack_tree_next (t : rbtree) (block : ptr) : option ptr :=
  r ← ld n_right t block;
  if decide (r = sentinel t) then next_loop (fuel_of t) t block else rbtree_min t r.

(** ** What a tree represents *)

(** A block of the tree: its address, its colour (red is [true]) and its data. *)
Inductive tree :=
| Leaf
| Node (red : bool) (l : tree) (a : loc) (b : sack_block) (r : tree).

(** The way from a subtree up to the root: the block above, on its left or on its
    right, with its other subtree. *)
Inductive frame :=
| FL (red : bool) (a : loc) (b : sack_block) (r : tree)
| FR (red : bool) (l : tree) (a : loc) (b : sack_block).

Definition plug (f : frame) (x : tree) : tree :=
  match f with FL c a b r => Node c x a b r | FR c l a b => Node c l a b x end.
Fixpoint fill (K : list frame) (x : tree) : tree :=
  match K with [] => x | f :: K => fill K (plug f x) end.

Fixpoint entries (x : tree) : list (loc * sack_block) :=
  match x with Leaf => [] | Node _ l a b r => entries l ++ (a, b) :: entries r end.
Definition addrs (x : tree) : list loc := (entries x).*1.

Definition at_ (s : loc) (x : tree) : ptr := match x with Leaf => Some s | Node _ _ a _ _ => Some a end.
Definition faddr (f : frame) : loc := match f with FL _ a _ _ => a | FR _ _ a _ => a end.
Definition up (K : list frame) : ptr := match K with [] => None | f :: _ => Some (faddr f) end.

Definition node_of (red : bool) (b : sack_block) (l r p : ptr) : block :=
  mk_block (sb_start b) (sb_end b) l r p (Z.b2z red) (sb_queue b).

Fixpoint rep (h : gmap loc block) (s : loc) (x : tree) (p : ptr) : Prop :=
  match x with
  | Leaf => True
  | Node c l a b r =>
      h !! a = Some (node_of c b (at_ s l) (at_ s r) p) ∧ rep h s l (Some a) ∧ rep h s r (Some a)
  end.

Fixpoint rep_up (h : gmap loc block) (s : loc) (K : list frame) (child : ptr) : Prop :=
  match K with
  | [] => True
  | FL c a b r :: K => h !! a = Some (node_of c b child (at_ s r) (up K)) ∧ rep h s r (Some a) ∧ rep_up h s K (Some a)
  | FR c l a b :: K => h !! a = Some (node_of c b (at_ s l) child (up K)) ∧ rep h s l (Some a) ∧ rep_up h s K (Some a)
  end.

(** [t] holds the tree [x]; [sn] is the sentinel's content, which stays black;
    the rest of the memory is that of [h0]. *)
Record holds (h0 : gmap loc block) (s : loc) (sn : block) (t : rbtree) (x : tree) : Prop := {
  hd_sentinel : sentinel t = Some s;
  hd_sentinel_block : blocks t !! s = Some sn;
  hd_black : n_color sn = 0;
  hd_root : root t = at_ s x;
  hd_rep : rep (blocks t) s x None;
  hd_nodup : NoDup (s :: addrs x);
  hd_frame : ∀ a, a ∉ s :: addrs x → blocks t !! a = h0 !! a }.

(** Red-black trees by the colour of the root and the black height. *)
Inductive rb : bool → nat → tree → Prop :=
| rb_leaf : rb false 0 Leaf
| rb_red n l a b r : rb false n l → rb false n r → rb true n (Node true l a b r)
| rb_black n cl cr l a b r : rb cl n l → rb cr n r → rb false (S n) (Node false l a b r).

Definition is_sack_tree (t : rbtree) (l : list (loc * sack_block)) : Prop :=
  ∃ s sn x n, holds (blocks t) s sn t x ∧ rb false n x ∧ entries x = l.

(** ** Subtrees and contexts *)

Section Trees.
Implicit Types (h : gmap loc block) (s a : loc) (x y : tree) (K : list frame).

Fixpoint before K : list (loc * sack_block) :=
  match K with [] => [] | FL _ _ _ _ :: K => before K | FR _ l a b :: K => before K ++ entries l ++ [(a, b)] end.
Fixpoint after K : list (loc * sack_block) :=
  match K with [] => [] | FL _ a b r :: K => (a, b) :: entries r ++ after K | FR _ _ _ _ :: K => after K end.

Definition lefts K : list loc := (before K).*1.
Definition rights K : list loc := (after K).*1.

Lemma entries_fill K x : entries (fill K x) = before K ++ entries x ++ after K.
Proof.
  revert x. induction K as [|[c a b r|c l a b] K IH]; intros x; cbn.
  - by rewrite app_nil_r.
  - rewrite IH. cbn. by rewrite <- !app_assoc.
  - rewrite IH. cbn. by rewrite <- !app_assoc.
Qed.

Lemma addrs_fill K x : addrs (fill K x) = lefts K ++ addrs x ++ rights K.
Proof. unfold addrs, lefts, rights. by rewrite entries_fill, !fmap_app. Qed.
Lemma addrs_node c l a b r : addrs (Node c l a b r) = addrs l ++ a :: addrs r.
Proof. unfold addrs. cbn. by rewrite fmap_app. Qed.

Lemma lefts_L c a b r K : lefts (FL c a b r :: K) = lefts K.
Proof. done. Qed.
Lemma lefts_R c l a b K : lefts (FR c l a b :: K) = lefts K ++ addrs l ++ [a].
Proof. unfold lefts. cbn. by rewrite !fmap_app. Qed.
Lemma rights_L c a b r K : rights (FL c a b r :: K) = a :: addrs r ++ rights K.
Proof. unfold rights. cbn. by rewrite fmap_app. Qed.
Lemma rights_R c l a b K : rights (FR c l a b :: K) = rights K.
Proof. done. Qed.
Lemma fill_app K K' x : fill (K ++ K') x = fill K' (fill K x).
Proof. revert x. induction K; intros x; cbn; auto. Qed.

Lemma rep_insert_ne h s x p a n : a ∉ addrs x → rep (<[a := n]> h) s x p ↔ rep h s x p.
Proof.
  revert p. induction x as [|c l IHl b d r IHr]; intros p; [done|]. rewrite addrs_node. intros Hn.
  cbn. rewrite lookup_insert_ne, IHl, IHr by set_solver. done.
Qed.

Lemma rep_up_insert_ne h s K q a n :
  a ∉ lefts K → a ∉ rights K → rep_up (<[a := n]> h) s K q ↔ rep_up h s K q.
Proof.
  revert q. induction K as [|[c b d r|c l b d] K IH]; intros q; [done|..]; unfold lefts, rights in *; cbn; rewrite ?fmap_cons, ?fmap_app; cbn;
    intros Hb Ha; rewrite lookup_insert_ne, rep_insert_ne, IH by (unfold addrs; set_solver); done.
Qed.

Lemma rep_frame h s x p a n : a ∉ addrs x → rep h s x p → rep (<[a := n]> h) s x p.
Proof. intros. by apply rep_insert_ne. Qed.
Lemma rep_up_frame h s K q a n :
  a ∉ lefts K → a ∉ rights K → rep_up h s K q → rep_up (<[a := n]> h) s K q.
Proof. intros. by apply rep_up_insert_ne. Qed.

Lemma rep_fill h s K x : rep h s (fill K x) None ↔ rep_up h s K (at_ s x) ∧ rep h s x (up K).
Proof.
  revert x. induction K as [|[c a b r|c l a b] K IH]; intros x; cbn; [tauto|..]; rewrite IH; cbn; tauto.
Qed.

(** The context sees the subtree only through its root. *)
Lemma at_fill s K x y : K ≠ [] → at_ s (fill K x) = at_ s (fill K y).
Proof.
  assert (∀ K x y, at_ s x = at_ s y → at_ s (fill K x) = at_ s (fill K y)) as H.
  { clear. intros K. induction K as [|f K IH]; intros x y E; [done|]. apply IH. by destruct f. }
  destruct K as [|f K]; [done|]. intros _. cbn. apply (H K). by destruct f.
Qed.

Lemma in_addrs_fill K x a : a ∈ addrs x → a ∈ addrs (fill K x).
Proof. rewrite addrs_fill, !elem_of_app. auto. Qed.

Lemma at_ne s x a : a ≠ s → a ∉ addrs x → at_ s x ≠ Some a.
Proof. destruct x; cbn [at_]; rewrite ?addrs_node; set_solver. Qed.

(** The root of the whole tree, seen from below. *)
Lemma root_up s K f x :
  ∃ a, at_ s (fill (f :: K) x) = Some a ∧ (a ∈ lefts (f :: K) ∨ a ∈ rights (f :: K)).
Proof.
  revert f x. induction K as [|g K IH]; intros f x.
  - exists (faddr f). destruct f; (split; [done|]); rewrite ?lefts_R, ?rights_L; set_solver.
  - destruct (IH g (plug f x)) as (a & E & Ha). exists a. split; [done|].
    destruct f; rewrite ?lefts_R, ?lefts_L, ?rights_L, ?rights_R in *; set_solver.
Qed.
End Trees.

Create Rewrite HintDb rbt.
#[export] Hint Rewrite addrs_node lefts_L lefts_R rights_L rights_R (not_elem_of_app (A := loc)) (not_elem_of_cons (A := loc)) : rbt.

(** Splits conjunctions of hypotheses. *)
Ltac split_hyps := repeat match goal with H : _ ∧ _ |- _ => destruct H end.

(** ** Reading and writing *)

Section Heap.
Variables (h0 : gmap loc block) (s : loc).
Implicit Types (t : rbtree) (sn : block) (a : loc) (x l r : tree) (K : list frame).

Lemma holds_rep K sn t x : holds h0 s sn t (fill K x) → rep_up (blocks t) s K (at_ s x) ∧ rep (blocks t) s x (up K).
Proof. intros H. by apply rep_fill, H. Qed.

Lemma holds_load K sn t c l a b r :
  holds h0 s sn t (fill K (Node c l a b r)) → blocks t !! a = Some (node_of c b (at_ s l) (at_ s r) (up K)).
Proof. intros H. by destruct (holds_rep _ _ _ _ H) as [_ [? _]]. Qed.

(** An address of the tree is nowhere else in it. *)
Lemma holds_fresh K sn t c l a b r :
  holds h0 s sn t (fill K (Node c l a b r)) → a ∉ s :: lefts K ++ addrs l ++ addrs r ++ rights K.
Proof.
  intros H. pose proof (hd_nodup _ _ _ _ _ H) as N. rewrite addrs_fill, addrs_node in N.
  assert (s :: lefts K ++ (addrs l ++ a :: addrs r) ++ rights K ≡ₚ a :: s :: lefts K ++ addrs l ++ addrs r ++ rights K) as E
    by solve_Permutation.
  rewrite E in N. by apply NoDup_cons in N as [? _].
Qed.
Lemma holds_sentinel_fresh K sn t x : holds h0 s sn t (fill K x) → s ∉ lefts K ++ addrs x ++ rights K.
Proof. intros H. rewrite <- addrs_fill. by pose proof (hd_nodup _ _ _ _ _ H) as [? _]%NoDup_cons. Qed.

Lemma holds_is_root sn t c l a b r : holds h0 s sn t (fill [] (Node c l a b r)) → root t = Some a.
Proof. intros H. by rewrite (hd_root _ _ _ _ _ H). Qed.
(** Below a frame, a block is not the root. *)
Lemma holds_not_root f K sn t c l a b r : holds h0 s sn t (fill (f :: K) (Node c l a b r)) → root t ≠ Some a.
Proof.
  intros H. rewrite (hd_root _ _ _ _ _ H). pose proof (holds_fresh _ _ _ _ _ _ _ _ H) as Hf.
  destruct (root_up s K f (Node c l a b r)) as (a' & -> & Ha). intros [= ->]. autorewrite with rbt in Hf. set_solver.
Qed.

(** Updating one block of the tree, its place kept. *)
Lemma update_ok K sn t c c' l a b b' r g :
  holds h0 s sn t (fill K (Node c l a b r)) →
  g (node_of c b (at_ s l) (at_ s r) (up K)) = node_of c' b' (at_ s l) (at_ s r) (up K) →
  ∃ t', st g t (Some a) = Some t' ∧ holds h0 s sn t' (fill K (Node c' l a b' r)).
Proof.
  intros H Hg. pose proof (holds_load _ _ _ _ _ _ _ _ H) as Ha. pose proof (holds_fresh _ _ _ _ _ _ _ _ H) as Hf.
  autorewrite with rbt in Hf. split_hyps.
  pose proof (holds_rep _ _ _ _ H) as [R1 (_ & R2 & R3)]. destruct H as [U1 U2 U3 U4 U5 U6 U7].
  unfold st. cbn [mbind option_bind]. rewrite Ha. cbn [mbind option_bind]. rewrite Hg. eexists. split; [done|].
  assert (Ea : addrs (fill K (Node c' l a b' r)) = addrs (fill K (Node c l a b r))) by by rewrite !addrs_fill, !addrs_node.
  split; cbn [blocks root sentinel upd_field]; rewrite ?Ea; try done.
  - by rewrite lookup_insert_ne.
  - rewrite U4. destruct K; [done|]. by apply at_fill.
  - apply rep_fill. split; [by apply rep_up_insert_ne|]. cbn. rewrite lookup_insert_eq. split; [done|].
    split; by apply rep_insert_ne.
  - intros y Hy. rewrite lookup_insert_ne; [by apply U7|]. intros <-. apply Hy. right. apply in_addrs_fill.
    rewrite addrs_node. set_solver.
Qed.

Lemma ld_eq {A} (f : block → A) t a n : blocks t !! a = Some n → ld f t (Some a) = Some (f n).
Proof. intros E. unfold ld, load. cbn. by rewrite E. Qed.
Lemma st_eq g h rt sp a n :
  h !! a = Some n → st g (mk_rbtree h rt sp) (Some a) = Some (mk_rbtree (<[a := g n]> h) rt sp).
Proof. intros E. unfold st. cbn. by rewrite E. Qed.
Lemma upd_root h rt sp v : mk_rbtree h rt sp <| root := v |> = mk_rbtree h v sp.
Proof. done. Qed.

Lemma red_ok K sn t c l a b r :
  holds h0 s sn t (fill K (Node c l a b r)) →
  ∃ t', rbt_red t (Some a) = Some t' ∧ holds h0 s sn t' (fill K (Node true l a b r)).
Proof. intros H. by apply (update_ok _ _ _ c true _ _ b). Qed.
Lemma black_ok K sn t c l a b r :
  holds h0 s sn t (fill K (Node c l a b r)) →
  ∃ t', rbt_black t (Some a) = Some t' ∧ holds h0 s sn t' (fill K (Node false l a b r)).
Proof. intros H. by apply (update_ok _ _ _ c false _ _ b). Qed.


End Heap.

(** ** Running a program on the heap *)

Ltac ne := first [assumption | apply not_eq_sym; assumption].
Ltac look := cbn [blocks]; rewrite ?lookup_insert_ne by ne; first [apply lookup_insert_eq | eassumption].
Ltac run :=
  repeat (first
    [ erewrite ld_eq by look | erewrite st_eq by look
    | rewrite upd_root | rewrite decide_True by congruence | rewrite decide_False by congruence ];
    cbn [mbind option_bind node_of upd_field n_left n_right n_parent n_color n_start n_end n_queue blocks root sentinel at_ up faddr]).

(** Facts about the addresses at hand, and the solvers that use them. *)
Ltac fresh_at K a H := let F := fresh "F" in
  pose proof (holds_fresh _ _ K _ _ _ _ a _ _ H) as F; autorewrite with rbt in F; split_hyps.
Ltac fresh_sentinel K H := let F := fresh "F" in
  pose proof (holds_sentinel_fresh _ _ K _ _ _ H) as F; autorewrite with rbt in F; split_hyps.
Ltac loaded K a H := let F := fresh "L" in
  pose proof (holds_load _ _ K _ _ _ _ a _ _ H) as F; cbn [at_ up faddr] in F.
Ltac at_addr K a H := loaded K a H; fresh_at K a H.
Ltac read_tac :=
  cbn [rep rep_up at_ up faddr blocks root sentinel] in *; split_hyps; repeat match goal with |- _ ∧ _ => split end;
  first
  [ exact I
  | repeat (apply rep_frame; [assumption|]); assumption
  | repeat (apply rep_up_frame; [assumption|assumption|]); assumption
  | rewrite ?lookup_insert_ne by ne; rewrite ?lookup_insert_eq; (reflexivity || eassumption) ].
Ltac holds_tac K :=
  match goal with U4 : _ = at_ _ _ |- _ =>
  split; cbn [blocks root sentinel];
  [ done | rewrite ?lookup_insert_ne by ne; done | done
  | first [reflexivity | rewrite U4; by apply at_fill]
  | apply (rep_fill _ _ K); read_tac
  | match goal with U6 : NoDup (_ :: ?o) |- NoDup (_ :: ?n) => replace n with o; [exact U6|] end;
    rewrite !(addrs_fill K), !addrs_node; do 4 (rewrite <- ?app_assoc; cbn [app]); done
  | let a := fresh "a" in let Ha := fresh "Ha" in
    intros a Ha; rewrite (addrs_fill K) in Ha; autorewrite with rbt in Ha; split_hyps;
    rewrite ?lookup_insert_ne by ne;
    match goal with U7 : ∀ a, a ∉ _ :: _ → _ |- _ => apply U7 end;
    rewrite (addrs_fill K); autorewrite with rbt; by split_and! ]
  end.

Ltac open_tree t H :=
  destruct H as [U1 U2 U3 U4 U5 U6 U7]; destruct t as [h rt sp];
  cbn [blocks root sentinel at_] in *; subst sp.

(** Runs the rotation at [x], [y] below it, the tree being in the hole of [K]; [tac]
    adds the facts about the child that changes sides. *)
Ltac rotate_tac K x y Ky t H tac :=
  at_addr K x H; at_addr Ky y H; fresh_sentinel K H;
  pose proof (holds_rep _ _ _ _ _ _ H) as [R1 R2]; tac;
  open_tree t H; run; eexists; (split; [reflexivity|]); holds_tac K.
Ltac at_frame K p H :=
  pose proof (holds_not_root _ _ _ _ _ _ _ _ _ _ _ H); at_addr K p H.

Section Rotations.
Variables (h0 : gmap loc block) (s : loc).
Implicit Types (t : rbtree) (sn : block) (a : loc) (x l r : tree) (K : list frame).

(** The rotations: [x] goes down to one side and its other child comes up. *)
Lemma left_rotate_ok K sn t c1 A (x : loc) bx c2 B (y : loc) b2 C :
  holds h0 s sn t (fill K (Node c1 A x bx (Node c2 B y b2 C))) →
  ∃ t', rbtree_left_rotate t (Some x) = Some t' ∧
    holds h0 s sn t' (fill K (Node c2 (Node c1 A x bx B) y b2 C)).
Proof.
  intros H. unfold rbtree_left_rotate, st_right, st_left, st_parent.
  destruct B as [|cz Bl z bz Br], K as [|[cp p bp r|cp l p bp] K].
  - rotate_tac (@nil frame) x y [FR c1 A x bx] t H ltac:(pose proof (holds_is_root _ _ _ _ _ _ _ _ _ H)).
  - rotate_tac (FL cp p bp r :: K) x y (FR c1 A x bx :: FL cp p bp r :: K) t H ltac:(at_frame K p H).
  - rotate_tac (FR cp l p bp :: K) x y (FR c1 A x bx :: FR cp l p bp :: K) t H
      ltac:(at_frame K p H; assert (at_ s l ≠ Some x) by (by apply at_ne)).
  - rotate_tac (@nil frame) x y [FR c1 A x bx] t H
      ltac:(at_addr [FL c2 y b2 C; FR c1 A x bx] z H; pose proof (holds_is_root _ _ _ _ _ _ _ _ _ H)).
  - rotate_tac (FL cp p bp r :: K) x y (FR c1 A x bx :: FL cp p bp r :: K) t H
      ltac:(at_addr (FL c2 y b2 C :: FR c1 A x bx :: FL cp p bp r :: K) z H; at_frame K p H).
  - rotate_tac (FR cp l p bp :: K) x y (FR c1 A x bx :: FR cp l p bp :: K) t H
      ltac:(at_addr (FL c2 y b2 C :: FR c1 A x bx :: FR cp l p bp :: K) z H; at_frame K p H;
            assert (at_ s l ≠ Some x) by (by apply at_ne)).
Qed.

Lemma right_rotate_ok K sn t c1 A (x : loc) bx c2 B (y : loc) b2 C :
  holds h0 s sn t (fill K (Node c1 (Node c2 A y b2 B) x bx C)) →
  ∃ t', rbtree_right_rotate t (Some x) = Some t' ∧
    holds h0 s sn t' (fill K (Node c2 A y b2 (Node c1 B x bx C))).
Proof.
  intros H. unfold rbtree_right_rotate, st_right, st_left, st_parent.
  destruct B as [|cz Bl z bz Br], K as [|[cp p bp r|cp l p bp] K].
  - rotate_tac (@nil frame) x y [FL c1 x bx C] t H ltac:(pose proof (holds_is_root _ _ _ _ _ _ _ _ _ H)).
  - rotate_tac (FL cp p bp r :: K) x y (FL c1 x bx C :: FL cp p bp r :: K) t H
      ltac:(at_frame K p H; assert (at_ s r ≠ Some x) by (by apply at_ne)).
  - rotate_tac (FR cp l p bp :: K) x y (FL c1 x bx C :: FR cp l p bp :: K) t H ltac:(at_frame K p H).
  - rotate_tac (@nil frame) x y [FL c1 x bx C] t H
      ltac:(at_addr [FR c2 A y b2; FL c1 x bx C] z H; pose proof (holds_is_root _ _ _ _ _ _ _ _ _ H)).
  - rotate_tac (FL cp p bp r :: K) x y (FL c1 x bx C :: FL cp p bp r :: K) t H
      ltac:(at_addr (FR c2 A y b2 :: FL c1 x bx C :: FL cp p bp r :: K) z H; at_frame K p H;
            assert (at_ s r ≠ Some x) by (by apply at_ne)).
  - rotate_tac (FR cp l p bp :: K) x y (FL c1 x bx C :: FR cp l p bp :: K) t H
      ltac:(at_addr (FR c2 A y b2 :: FL c1 x bx C :: FR cp l p bp :: K) z H; at_frame K p H).
Qed.

(** ** Colours *)

Definition red_of x : bool := match x with Node true _ _ _ _ => true | _ => false end.

Lemma rb_red_of c n x : rb c n x → red_of x = c.
Proof. by destruct 1. Qed.

Lemma is_red_ok K sn t x : holds h0 s sn t (fill K x) → rbt_is_red t (at_ s x) = Some (red_of x).
Proof.
  intros H. unfold rbt_is_red. destruct x as [|c l a b r].
  - cbn [at_]. rewrite (ld_eq _ _ _ sn) by apply H. by rewrite (hd_black _ _ _ _ _ H).
  - cbn [at_]. rewrite (ld_eq _ _ _ _ (holds_load _ _ _ _ _ _ _ _ _ _ H)). by destruct c.
Qed.

(** [ld]s at a block of the tree. *)
Lemma color_ok K sn t c l a b r : holds h0 s sn t (fill K (Node c l a b r)) → rbt_is_red t (Some a) = Some c.
Proof. intros H%is_red_ok. cbn [at_] in H. rewrite H. by destruct c. Qed.
Lemma parent_ok K sn t c l a b r : holds h0 s sn t (fill K (Node c l a b r)) → ld n_parent t (Some a) = Some (up K).
Proof. intros H. by rewrite (ld_eq _ _ _ _ (holds_load _ _ _ _ _ _ _ _ _ _ H)). Qed.
Lemma left_ok K sn t c l a b r : holds h0 s sn t (fill K (Node c l a b r)) → ld n_left t (Some a) = Some (at_ s l).
Proof. intros H. by rewrite (ld_eq _ _ _ _ (holds_load _ _ _ _ _ _ _ _ _ _ H)). Qed.
Lemma right_ok K sn t c l a b r : holds h0 s sn t (fill K (Node c l a b r)) → ld n_right t (Some a) = Some (at_ s r).
Proof. intros H. by rewrite (ld_eq _ _ _ _ (holds_load _ _ _ _ _ _ _ _ _ _ H)). Qed.

(** The hole of a context takes red-black trees of this height whose root is
    black or of the given colour. *)
Inductive rb_up : list frame → bool → nat → Prop :=
| up_top n : rb_up [] false n
| up_red_L n a b r K : rb false n r → rb_up K true n → rb_up (FL true a b r :: K) false n
| up_red_R n l a b K : rb false n l → rb_up K true n → rb_up (FR true l a b :: K) false n
| up_black_L n c cr a b r K : rb cr n r → rb_up K false (S n) → rb_up (FL false a b r :: K) c n
| up_black_R n c cl l a b K : rb cl n l → rb_up K false (S n) → rb_up (FR false l a b :: K) c n.

Lemma rb_fill K c n x : rb c n x → rb_up K c n → ∃ m, rb false m (fill K x).
Proof.
  intros Hx Hk. revert x Hx. induction Hk; intros x Hx; cbn; [by eexists|..];
    try (apply IHHk; by constructor); by apply IHHk; econstructor.
Qed.

Lemma rb_unfill K m x : rb false m (fill K x) → ∃ c n, rb c n x ∧ rb_up K c n.
Proof.
  revert x. induction K as [|f K IH]; intros x; cbn.
  - intros H. exists false, m. split; [done|constructor].
  - intros (c & n & H & Hk)%IH. destruct f; cbn in H; inversion H; subst; eexists _, _; (split; [eassumption|]); by econstructor.
Qed.

Lemma rb_up_weaken K c n : rb_up K c n → rb_up K false n.
Proof. destruct 1; by econstructor. Qed.
End Rotations.
