(* ===== verification/SackTreeOps.v ===== *)
(** * The operations on the tree of received blocks (src/udx_sack_tree.c) *)

From stdpp Require Import sorting.
From S2P Require Import Prelude SeqNum Endian Wire WinFilter Stream Rtt Mtu Rate Float64 Bbr Ctx Send Loss Write Ack Recv SackTree.

(** ** Blocks in sequence order

    The comparisons of the tree are those of offsets from [base], as long as these stay
    within half of the sequence space; blocks are in increasing order and apart. *)
Definition off (base q : Z) : Z := u32 (q - base).
Record in_window (base : Z) (l : list sack_block) : Prop := {
  iw_apart : StronglySorted (λ x y, off base (sb_end x) < off base (sb_start y)) l;
  iw_range : Forall (λ x, off base (sb_start x) <= off base (sb_end x) < 2 ^ 31) l }.

Definition data_of (n : block) : sack_block := mk_sack_block (n_start n) (n_end n) (n_queue n).
Definition goes_left (b x : sack_block) : Prop := seq_diff (sb_start b) (sb_start x) < 0.

Lemma off_diff base q1 q2 : off base q1 < 2 ^ 31 → off base q2 < 2 ^ 31 → seq_diff q1 q2 = off base q1 - off base q2.
Proof. unfold off, seq_diff. intros. change (2 ^ 31) with 2147483648 in *. word_lia. Qed.

Lemma in_window_cons base x l : in_window base (x :: l) → in_window base l.
Proof. intros [H1 H2]. apply StronglySorted_inv in H1 as [? _]. apply Forall_cons in H2 as [_ ?]. by split. Qed.

(** The place of a new block in the list. *)
Lemma insert_place base l b :
  in_window base l → off base (sb_start b) < 2 ^ 31 →
  ∃ l1 l2, l = l1 ++ l2 ∧ Recv.udx_sack_tree_insert l b = l1 ++ b :: l2 ∧
    Forall (λ x, ¬ goes_left b x) l1 ∧ Forall (goes_left b) l2.
Proof.
  intros Hw Hb. induction l as [|x l IH]; [by exists [], []|].
  pose proof Hw as [[H1 H2]%StronglySorted_inv [Hx H3]%Forall_cons]. cbn [Recv.udx_sack_tree_insert].
  rewrite (off_diff base) by lia. destruct (Z.ltb_spec (off base (sb_start b) - off base (sb_start x)) 0) as [Hlt|Hge].
  - exists [], (x :: l). split_and!; [done|done|done|]. apply Forall_cons. split; [unfold goes_left; rewrite (off_diff base); lia|].
    apply Forall_forall. intros y Hy. rewrite Forall_forall in H2, H3. specialize (H2 y Hy). specialize (H3 y Hy). cbn in H2, H3.
    unfold goes_left. rewrite (off_diff base); lia.
  - destruct (IH (in_window_cons _ _ _ Hw)) as (l1 & l2 & -> & -> & H4 & H5). exists (x :: l1), l2.
    split_and!; [done|done| |done]. apply Forall_cons. split; [|done]. unfold goes_left. rewrite (off_diff base); lia.
Qed.

Ltac entries_tac := rewrite ?entries_fill; cbn [before after entries]; do 4 (rewrite <- ?app_assoc; cbn [app]); done.

Section Insert.
Variables (h0 : gmap loc block) (s : loc) (sn : block).
Implicit Types (t : rbtree) (a : loc) (x l r : tree) (K : list frame).
#[local] Abbreviation holds := (SackTree.holds h0 s sn).

(** A turn that only recolours: the uncle is red. *)
Lemma recolour_ok K t cg cu cp x (p : loc) bp q (g : loc) bg ul (u : loc) bu ur :
  holds t (fill K (Node cg (Node cp x p bp q) g bg (Node cu ul u bu ur))) →
  ∃ t1 t2 t3, rbt_black t (Some p) = Some t1 ∧ rbt_black t1 (Some u) = Some t2 ∧ rbt_red t2 (Some g) = Some t3 ∧
    holds t3 (fill K (Node true (Node false x p bp q) g bg (Node false ul u bu ur))).
Proof.
  intros H.
  destruct (black_ok h0 s (FL cg g bg (Node cu ul u bu ur) :: K) sn t cp x p bp q H) as (t1 & E1 & H1).
  destruct (black_ok h0 s (FR cg (Node false x p bp q) g bg :: K) sn t1 cu ul u bu ur H1) as (t2 & E2 & H2).
  destruct (red_ok h0 s K sn t2 cg (Node false x p bp q) g bg (Node false ul u bu ur) H2) as (t3 & E3 & H3).
  by exists t1, t2, t3.
Qed.

Lemma recolour_mirror K t cg cu cp ul (u : loc) bu ur (g : loc) bg x (p : loc) bp q :
  holds t (fill K (Node cg (Node cu ul u bu ur) g bg (Node cp x p bp q))) →
  ∃ t1 t2 t3, rbt_black t (Some p) = Some t1 ∧ rbt_black t1 (Some u) = Some t2 ∧ rbt_red t2 (Some g) = Some t3 ∧
    holds t3 (fill K (Node true (Node false ul u bu ur) g bg (Node false x p bp q))).
Proof.
  intros H.
  destruct (black_ok h0 s (FR cg (Node cu ul u bu ur) g bg :: K) sn t cp x p bp q H) as (t1 & E1 & H1).
  destruct (black_ok h0 s (FL cg g bg (Node false x p bp q) :: K) sn t1 cu ul u bu ur H1) as (t2 & E2 & H2).
  destruct (red_ok h0 s K sn t2 cg (Node false ul u bu ur) g bg (Node false x p bp q) H2) as (t3 & E3 & H3).
  by exists t1, t2, t3.
Qed.

(** Sibling subtrees are told apart by their roots. *)
Lemma siblings_differ K t c l a b r :
  holds t (fill K (Node c l a b r)) → l ≠ Leaf → at_ s l ≠ at_ s r.
Proof.
  intros H Hl. pose proof (hd_nodup _ _ _ _ _ H) as N. rewrite addrs_fill, addrs_node in N.
  destruct l as [|cl ll al bl lr]; [done|]. cbn [at_].
  pose proof (holds_fresh h0 s (FL c a b r :: K) sn t cl ll al bl lr H) as F. autorewrite with rbt in F. split_hyps.
  intros E. by apply (at_ne s r al).
Qed.

(** Where no recolouring is possible the parent is lifted, and the loop ends. *)
Lemma lift_left_ok K t cg cp x (p : loc) bp q (g : loc) bg u cx l (a : loc) b r :
  x = Node cx l a b r → holds t (fill K (Node cg (Node cp x p bp q) g bg u)) →
  ∃ t', insert_lift rbtree_right_rotate t (Some a) = Some t' ∧
    holds t' (fill K (Node false x p bp (Node true q g bg u))) ∧ ∀ fuel, insert_fixup fuel t' (Some a) = Some t'.
Proof.
  intros -> H. unfold insert_lift.
  rewrite (parent_ok h0 s (FL cp p bp q :: FL cg g bg u :: K) sn t cx l a b r H). cbn [mbind option_bind up faddr].
  destruct (black_ok h0 s (FL cg g bg u :: K) sn t cp _ p bp q H) as (t1 & -> & H1). cbn [mbind option_bind].
  rewrite (parent_ok h0 s (FL false p bp q :: FL cg g bg u :: K) sn t1 cx l a b r H1). cbn [mbind option_bind up faddr].
  rewrite (parent_ok h0 s (FL cg g bg u :: K) sn t1 false _ p bp q H1). cbn [mbind option_bind up faddr].
  destruct (red_ok h0 s K sn t1 cg _ g bg u H1) as (t2 & -> & H2). cbn [mbind option_bind].
  rewrite (parent_ok h0 s (FL false p bp q :: FL true g bg u :: K) sn t2 cx l a b r H2). cbn [mbind option_bind up faddr].
  rewrite (parent_ok h0 s (FL true g bg u :: K) sn t2 false _ p bp q H2). cbn [mbind option_bind up faddr].
  destruct (right_rotate_ok _ _ _ _ _ _ _ _ _ _ _ _ _ _ H2) as (t3 & -> & H3). exists t3. split; [done|]. split; [done|].
  intros fuel. pose proof (holds_not_root h0 s (FL false p bp (Node true q g bg u)) K sn t3 cx l a b r H3).
  destruct fuel; cbn [insert_fixup]; rewrite decide_False by congruence;
    rewrite (parent_ok h0 s (FL false p bp (Node true q g bg u) :: K) sn t3 cx l a b r H3); cbn [mbind option_bind up faddr];
    by rewrite (color_ok h0 s K sn t3 false _ p bp _ H3).
Qed.

Lemma lift_right_ok K t cg cp x (p : loc) bp q (g : loc) bg u cx l (a : loc) b r :
  x = Node cx l a b r → holds t (fill K (Node cg u g bg (Node cp q p bp x))) →
  ∃ t', insert_lift rbtree_left_rotate t (Some a) = Some t' ∧
    holds t' (fill K (Node false (Node true u g bg q) p bp x)) ∧ ∀ fuel, insert_fixup fuel t' (Some a) = Some t'.
Proof.
  intros -> H. unfold insert_lift.
  rewrite (parent_ok h0 s (FR cp q p bp :: FR cg u g bg :: K) sn t cx l a b r H). cbn [mbind option_bind up faddr].
  destruct (black_ok h0 s (FR cg u g bg :: K) sn t cp q p bp _ H) as (t1 & -> & H1). cbn [mbind option_bind].
  rewrite (parent_ok h0 s (FR false q p bp :: FR cg u g bg :: K) sn t1 cx l a b r H1). cbn [mbind option_bind up faddr].
  rewrite (parent_ok h0 s (FR cg u g bg :: K) sn t1 false q p bp _ H1). cbn [mbind option_bind up faddr].
  destruct (red_ok h0 s K sn t1 cg u g bg _ H1) as (t2 & -> & H2). cbn [mbind option_bind].
  rewrite (parent_ok h0 s (FR false q p bp :: FR true u g bg :: K) sn t2 cx l a b r H2). cbn [mbind option_bind up faddr].
  rewrite (parent_ok h0 s (FR true u g bg :: K) sn t2 false q p bp _ H2). cbn [mbind option_bind up faddr].
  destruct (left_rotate_ok _ _ _ _ _ _ _ _ _ _ _ _ _ _ H2) as (t3 & -> & H3). exists t3. split; [done|]. split; [done|].
  intros fuel. pose proof (holds_not_root h0 s (FR false (Node true u g bg q) p bp) K sn t3 cx l a b r H3).
  destruct fuel; cbn [insert_fixup]; rewrite decide_False by congruence;
    rewrite (parent_ok h0 s (FR false (Node true u g bg q) p bp :: K) sn t3 cx l a b r H3); cbn [mbind option_bind up faddr];
    by rewrite (color_ok h0 s K sn t3 false _ p bp _ H3).
Qed.

(** The turn at a red parent [p] below its black parent [g], on the left and on the right. *)
Lemma black_of_red n x : rb true n x → ∃ l a b r, x = Node true l a b r ∧ rb false (S n) (Node false l a b r).
Proof. inversion 1; subst. eexists _, _, _, _. split; [done|]. by econstructor. Qed.


(** What the loop establishes from a context [K] whose hole takes black trees of height [n]. *)
Definition fixed fuel t (block : ptr) (e : list (loc * sack_block)) : Prop :=
  ∃ t' x c m, insert_fixup fuel t block = Some t' ∧ holds t' x ∧ rb c m x ∧ entries x = e.

Lemma lifted_fixed fuel K t (block : ptr) y n e :
  insert_fixup fuel t block = Some t → holds t (fill K y) → rb false (S n) y → rb_up K false (S n) →
  entries (fill K y) = e → fixed fuel t block e.
Proof. intros E H Hy Hk He. destruct (rb_fill _ _ _ _ Hy Hk) as [m Hm]. by exists t, (fill K y), false, m. Qed.

Lemma insert_turn_left fuel K t f (p : loc) bp q (g : loc) bg u cu l (a : loc) b r n :
  f = FL true p bp q ∨ f = FR true q p bp →
  holds t (fill (f :: FL false g bg u :: K) (Node true l a b r)) →
  rb true n (Node true l a b r) → rb false n q → rb cu n u → rb_up K false (S n) →
  (∀ t x, rb true (S n) x → holds t (fill K x) → fixed fuel t (at_ s x) (entries (fill K x))) →
  fixed (S fuel) t (Some a) (entries (fill (f :: FL false g bg u :: K) (Node true l a b r))).
Proof.
  intros Hf H Hx Hq Hu Hk IH. unfold fixed. cbn [insert_fixup].
  pose proof (holds_not_root _ _ _ _ _ _ _ _ _ _ _ H) as Hr. rewrite decide_False by congruence.
  rewrite (parent_ok _ _ _ _ _ _ _ _ _ _ H). cbn [mbind option_bind up].
  assert (∃ pl pr, plug f (Node true l a b r) = Node true pl p bp pr ∧ faddr f = p) as (pl & pr & Ep & ->)
    by (destruct Hf as [-> | ->]; by eexists _, _).
  assert (Hp : holds t (fill (FL false g bg u :: K) (Node true pl p bp pr))) by (rewrite <- Ep; exact H).
  rewrite (color_ok _ _ _ _ _ _ _ _ _ _ Hp). cbn [mbind option_bind negb].
  rewrite (parent_ok _ _ _ _ _ _ _ _ _ _ Hp). cbn [mbind option_bind up faddr].
  pose proof (left_ok h0 s K sn t false (Node true pl p bp pr) g bg u Hp) as El. rewrite El. cbn [mbind option_bind at_].
  rewrite decide_True by done. rewrite (right_ok h0 s K sn t false _ g bg u Hp). cbn [mbind option_bind].
  rewrite (is_red_ok h0 s (FR false (Node true pl p bp pr) g bg :: K) sn t u Hp), (rb_red_of _ _ _ Hu). cbn [mbind option_bind].
  destruct cu.
  - destruct (black_of_red _ _ Hu) as (ul & au & bu & ur & -> & Hu').
    destruct (recolour_ok K t false true true _ _ _ _ _ _ _ _ _ _ Hp) as (t1 & t2 & t3 & E1 & E2 & E3 & H3).
    cbn [at_]. rewrite E1. cbn [mbind option_bind]. rewrite E2. cbn [mbind option_bind]. rewrite E3. cbn [mbind option_bind].
    assert (Hb : rb false (S n) (Node false pl p bp pr)).
    { destruct Hf as [-> | ->]; cbn in Ep; injection Ep as <- <-; by econstructor. }
    destruct (IH t3 _ (rb_red _ _ g bg _ Hb Hu') H3) as (t' & x & c & m & E & ? & ? & Ee).
    exists t', x, c, m. split_and!; try done. rewrite Ee.
    change (fill (f :: ?K) ?x) with (fill K (plug f x)). rewrite Ep. entries_tac.
  - destruct Hf as [-> | ->]; cbn in Ep; injection Ep as <- <-.
    + rewrite (right_ok h0 s (FL false g bg u :: K) sn t true _ p bp q Hp). cbn [mbind option_bind].
      rewrite decide_False by by apply (siblings_differ (FL false g bg u :: K) _ _ (Node true l a b r) p bp q Hp).
      cbn [mbind option_bind].
      destruct (lift_left_ok K t _ _ _ p bp q g bg u _ _ _ _ _ eq_refl Hp) as (t1 & -> & H1 & Ef). cbn [mbind option_bind].
      eapply lifted_fixed; [apply Ef|exact H1| |done|entries_tac]. econstructor; [done|by constructor].
    + rewrite (right_ok h0 s (FL false g bg u :: K) sn t true q p bp _ Hp). cbn [mbind option_bind at_].
      rewrite decide_True by done.
      destruct (left_rotate_ok h0 s (FL false g bg u :: K) _ _ _ _ _ _ _ _ _ _ _ Hp) as (t1 & -> & H1). cbn [mbind option_bind].
      destruct (lift_left_ok K t1 _ _ _ a b r g bg u _ _ _ _ _ eq_refl H1) as (t2 & -> & H2 & Ef). cbn [mbind option_bind].
      inversion Hx; subst. eapply lifted_fixed; [apply Ef|exact H2| |done|entries_tac]. econstructor; by constructor.
Qed.

Lemma insert_turn_right fuel K t f (p : loc) bp q (g : loc) bg u cu l (a : loc) b r n :
  f = FL true p bp q ∨ f = FR true q p bp →
  holds t (fill (f :: FR false u g bg :: K) (Node true l a b r)) →
  rb true n (Node true l a b r) → rb false n q → rb cu n u → rb_up K false (S n) →
  (∀ t x, rb true (S n) x → holds t (fill K x) → fixed fuel t (at_ s x) (entries (fill K x))) →
  fixed (S fuel) t (Some a) (entries (fill (f :: FR false u g bg :: K) (Node true l a b r))).
Proof.
  intros Hf H Hx Hq Hu Hk IH. unfold fixed. cbn [insert_fixup].
  pose proof (holds_not_root _ _ _ _ _ _ _ _ _ _ _ H) as Hr. rewrite decide_False by congruence.
  rewrite (parent_ok _ _ _ _ _ _ _ _ _ _ H). cbn [mbind option_bind up].
  assert (∃ pl pr, plug f (Node true l a b r) = Node true pl p bp pr ∧ faddr f = p) as (pl & pr & Ep & ->)
    by (destruct Hf as [-> | ->]; by eexists _, _).
  assert (Hp : holds t (fill (FR false u g bg :: K) (Node true pl p bp pr))) by (rewrite <- Ep; exact H).
  rewrite (color_ok _ _ _ _ _ _ _ _ _ _ Hp). cbn [mbind option_bind negb].
  rewrite (parent_ok _ _ _ _ _ _ _ _ _ _ Hp). cbn [mbind option_bind up faddr].
  rewrite (left_ok h0 s K sn t false u g bg _ Hp). cbn [mbind option_bind at_].
  rewrite decide_False.
  2: { pose proof (holds_fresh h0 s (FR false u g bg :: K) sn t true pl p bp pr Hp) as F. autorewrite with rbt in F.
       split_hyps. intros E. by apply (at_ne s u p). }
  rewrite (is_red_ok h0 s (FL false g bg (Node true pl p bp pr) :: K) sn t u Hp), (rb_red_of _ _ _ Hu). cbn [mbind option_bind].
  destruct cu.
  - destruct (black_of_red _ _ Hu) as (ul & au & bu & ur & -> & Hu').
    destruct (recolour_mirror K t false true true _ _ _ _ _ _ _ _ _ _ Hp) as (t1 & t2 & t3 & E1 & E2 & E3 & H3).
    cbn [at_]. rewrite E1. cbn [mbind option_bind]. rewrite E2. cbn [mbind option_bind]. rewrite E3. cbn [mbind option_bind].
    assert (Hb : rb false (S n) (Node false pl p bp pr)).
    { destruct Hf as [-> | ->]; cbn in Ep; injection Ep as <- <-; by econstructor. }
    destruct (IH t3 _ (rb_red _ _ g bg _ Hu' Hb) H3) as (t' & x & c & m & E & ? & ? & Ee).
    exists t', x, c, m. split_and!; try done. rewrite Ee.
    change (fill (f :: ?K) ?x) with (fill K (plug f x)). rewrite Ep. entries_tac.
  - destruct Hf as [-> | ->]; cbn in Ep; injection Ep as <- <-.
    + rewrite (left_ok h0 s (FR false u g bg :: K) sn t true _ p bp q Hp). cbn [mbind option_bind at_].
      rewrite decide_True by done.
      destruct (right_rotate_ok h0 s (FR false u g bg :: K) _ _ _ _ _ _ _ _ _ _ _ Hp) as (t1 & -> & H1). cbn [mbind option_bind].
      destruct (lift_right_ok K t1 _ _ _ a b l g bg u _ _ _ _ _ eq_refl H1) as (t2 & -> & H2 & Ef). cbn [mbind option_bind].
      inversion Hx; subst. eapply lifted_fixed; [apply Ef|exact H2| |done|entries_tac]. econstructor; by constructor.
    + rewrite (left_ok h0 s (FR false u g bg :: K) sn t true q p bp _ Hp). cbn [mbind option_bind].
      rewrite decide_False.
      2: { intros E. symmetry in E. revert E. destruct q as [|cq ql aq bq qr].
           - cbn [at_]. pose proof (holds_fresh _ _ _ _ _ _ _ _ _ _ H) as F. autorewrite with rbt in F. split_hyps. congruence.
           - by apply (siblings_differ (FR false u g bg :: K) _ _ _ p bp (Node true l a b r) Hp). }
      cbn [mbind option_bind].
      destruct (lift_right_ok K t _ _ _ p bp q g bg u _ _ _ _ _ eq_refl Hp) as (t1 & -> & H1 & Ef). cbn [mbind option_bind].
      eapply lifted_fixed; [apply Ef|exact H1| |done|entries_tac]. econstructor; [by constructor|done].
Qed.

(** The loop of udx_sack_tree_insert, from a red block below a context for black trees. *)
Lemma insert_fixup_ok fuel K t x n :
  holds t (fill K x) → rb true n x → rb_up K false n → (length K <= fuel)%nat →
  fixed fuel t (at_ s x) (entries (fill K x)).
Proof.
  revert K t x n. induction fuel as [fuel IH] using lt_wf_ind. intros K t x n H Hx Hk Hf.
  destruct (black_of_red _ _ Hx) as (l & a & b & r & -> & _). cbn [at_].
  destruct K as [|f1 K].
  { exists t, (Node true l a b r), true, n. split_and!; try done.
    pose proof (holds_is_root _ _ _ _ _ _ _ _ _ H). destruct fuel; cbn [insert_fixup]; by rewrite decide_True by congruence. }
  destruct fuel as [|fuel]; [cbn in Hf; lia|].
  assert (Hred : ∀ p bp q, f1 = FL true p bp q ∨ f1 = FR true q p bp → rb false n q → rb_up K true n →
    fixed (S fuel) t (Some a) (entries (fill (f1 :: K) (Node true l a b r)))).
  { intros p bp q Hf1 Hq Hk'. inversion Hk'; subst.
    - eapply insert_turn_left; try eassumption. intros t' y Hy H'. apply (IH fuel ltac:(lia) _ _ _ _ H' Hy); [done|]. cbn in Hf. lia.
    - eapply insert_turn_right; try eassumption. intros t' y Hy H'. apply (IH fuel ltac:(lia) _ _ _ _ H' Hy); [done|]. cbn in Hf. lia. }
  assert (Hblack : rb_up (f1 :: K) true n → ∃ p, faddr f1 = p ∧ ∃ y, fill (f1 :: K) (Node true l a b r) = fill K y ∧ rbt_is_red t (Some p) = Some false).
  { inversion 1; subst; eexists; (split; [reflexivity|]); eexists; (split; [reflexivity|]); eapply (color_ok _ _ K); exact H. }
  assert (Hend : rb_up (f1 :: K) true n → fixed (S fuel) t (Some a) (entries (fill (f1 :: K) (Node true l a b r)))).
  { intros Hk'. destruct (Hblack Hk') as (p & Ep & _ & _ & Ec). destruct (rb_fill _ _ _ _ Hx Hk') as [m Hm].
    exists t, (fill (f1 :: K) (Node true l a b r)), false, m. split_and!; try done. cbn [insert_fixup].
    pose proof (holds_not_root _ _ _ _ _ _ _ _ _ _ _ H). rewrite decide_False by congruence.
    rewrite (parent_ok _ _ _ _ _ _ _ _ _ _ H). cbn [mbind option_bind up]. by rewrite Ep, Ec. }
  inversion Hk; subst; eauto.
  - apply Hend. by econstructor.
  - apply Hend. by econstructor.
Qed.

(** ** Going down *)

Lemma rep_alloc h x p a : rep h s x p → a ∈ addrs x → is_Some (h !! a).
Proof.
  revert p. induction x as [|c l IHl d b r IHr]; intros p; [intros _ Ha; by apply elem_of_nil in Ha|].
  rewrite addrs_node, elem_of_app, elem_of_cons. cbn [rep]. intros (E & Hl & Hr) [Ha|[->|Ha]]; eauto.
Qed.

Lemma holds_size t x : holds t x → (length (entries x) < size (blocks t))%nat.
Proof.
  intros H. assert (length (s :: addrs x) <= size (dom (blocks t)))%nat as Hs.
  { rewrite <- (size_list_to_set (C := gset loc)) by apply H. apply subseteq_size. intros a.
    rewrite elem_of_list_to_set, elem_of_dom, elem_of_cons. intros [->|Ha]; [rewrite (hd_sentinel_block _ _ _ _ _ H); by eexists|].
    eapply rep_alloc; [apply H|done]. }
  rewrite size_dom in Hs. cbn [length] in Hs. unfold addrs in Hs. rewrite length_fmap in Hs. lia.
Qed.

Lemma context_length K x : (length K <= length (entries (fill K x)))%nat.
Proof.
  rewrite entries_fill, !length_app. enough (length K <= length (before K) + length (after K))%nat by lia.
  induction K as [|[] K IH]; [done|..]; cbn; rewrite ?length_app; cbn; lia.
Qed.

(** A new block takes the place of an empty leaf. *)
Lemma attach_ok f K t a nd :
  holds t (fill (f :: K) Leaf) → blocks t !! a = Some nd → a ∉ s :: addrs (fill (f :: K) Leaf) →
  ∃ t', (t ← (match f with FL _ _ _ _ => st_left t (Some (faddr f)) (Some a) | FR _ _ _ _ => st_right t (Some (faddr f)) (Some a) end);
         t ← st_parent t (Some a) (Some (faddr f));
         t ← st_left t (Some a) (sentinel t);
         t ← st_right t (Some a) (sentinel t);
         rbt_red t (Some a)) = Some t' ∧
    holds t' (fill (f :: K) (Node true Leaf a (data_of nd) Leaf)).
Proof.
  intros H Ha Hn.
  assert (Hp : ∀ bb : sack_block, s :: addrs (fill (f :: K) (Node true Leaf a bb Leaf)) ≡ₚ a :: s :: addrs (fill (f :: K) Leaf)).
  { intros bb. rewrite !addrs_fill, addrs_node. change (addrs Leaf) with (@nil loc). solve_Permutation. }
  assert (Hnd : ∀ bb : sack_block, NoDup (s :: addrs (fill (f :: K) (Node true Leaf a bb Leaf)))).
  { intros bb. rewrite Hp. constructor; [done|]. apply H. }
  rewrite addrs_fill in Hn. pose proof (holds_rep _ _ _ _ _ _ H) as [R1 R2]. fresh_sentinel (f :: K) H.
  destruct f as [c x bx r|c l x bx]; cbn [faddr]; autorewrite with rbt in *; split_hyps.
  - at_addr K x H. unfold st_left, st_right, st_parent, rbt_red.
    open_tree t H. destruct nd as [ns ne nl nr np nc nq]. unfold data_of. run. eexists. split; [reflexivity|].
    split; cbn [blocks root sentinel].
    + done.
    + rewrite ?lookup_insert_ne by ne. done.
    + done.
    + rewrite U4. by apply at_fill.
    + apply (rep_fill _ _ (FL c x bx r :: K)). read_tac.
    + apply Hnd.
    + intros a' Ha'. rewrite Hp in Ha'. apply not_elem_of_cons in Ha' as [? Ha']. rewrite <- (U7 a' Ha').
      rewrite addrs_fill in Ha'. autorewrite with rbt in Ha'. split_hyps. rewrite ?lookup_insert_ne by ne. done.
  - at_addr K x H. unfold st_left, st_right, st_parent, rbt_red.
    open_tree t H. destruct nd as [ns ne nl nr np nc nq]. unfold data_of. run. eexists. split; [reflexivity|].
    split; cbn [blocks root sentinel].
    + done.
    + rewrite ?lookup_insert_ne by ne. done.
    + done.
    + rewrite U4. by apply at_fill.
    + apply (rep_fill _ _ (FR c l x bx :: K)). read_tac.
    + apply Hnd.
    + intros a' Ha'. rewrite Hp in Ha'. apply not_elem_of_cons in Ha' as [? Ha']. rewrite <- (U7 a' Ha').
      rewrite addrs_fill in Ha'. autorewrite with rbt in Ha'. split_hyps. rewrite ?lookup_insert_ne by ne. done.
Qed.

(** Where a split list is cut by one of its elements. *)
Lemma cut_right {A} (P : A → Prop) (l1 l2 e1 e2 : list A) z :
  l1 ++ z :: l2 = e1 ++ e2 → Forall (λ e, ¬ P e) e1 → P z → ∃ e2', l1 = e1 ++ e2' ∧ e2 = e2' ++ z :: l2.
Proof.
  revert l1. induction e1 as [|w e1 IH]; intros l1 E H1 Hz; [by exists l1|].
  apply Forall_cons in H1 as [Hw H1]. destruct l1 as [|w' l1]; injection E as -> E; [done|].
  destruct (IH l1 E H1 Hz) as (e2' & -> & ->). by exists e2'.
Qed.
Lemma cut_left {A} (P : A → Prop) (l1 l2 e1 e2 : list A) z :
  l1 ++ z :: l2 = e1 ++ e2 → Forall P e2 → ¬ P z → ∃ e1', l2 = e1' ++ e2 ∧ e1 = l1 ++ z :: e1'.
Proof.
  revert e1. induction l1 as [|w l1 IH]; intros e1 E H2 Hz; destruct e1 as [|w' e1].
  - cbn in E. subst e2. by apply Forall_cons in H2 as [? _].
  - injection E as -> E. by exists e1.
  - cbn in E. subst e2. apply Forall_cons in H2 as [_ H2]. apply Forall_app in H2 as [_ H2]. by apply Forall_cons in H2 as [? _].
  - injection E as -> E. destruct (IH e1 E H2 Hz) as (e1' & -> & ->). by exists e1'.
Qed.

Lemma insert_loop_ok fuel K t c l (x : loc) bx r (a : loc) nd e1 e2 :
  holds t (fill K (Node c l x bx r)) → blocks t !! a = Some nd → a ∉ s :: addrs (fill K (Node c l x bx r)) →
  entries (Node c l x bx r) = e1 ++ e2 →
  Forall (λ e, ¬ goes_left (data_of nd) e.2) e1 → Forall (λ e, goes_left (data_of nd) e.2) e2 →
  (length (entries (Node c l x bx r)) <= fuel)%nat →
  ∃ t' K', insert_loop fuel t (Some x) (Some a) = Some t' ∧
    holds t' (fill K' (Node true Leaf a (data_of nd) Leaf)) ∧ fill K' Leaf = fill K (Node c l x bx r) ∧
    before K' = before K ++ e1 ∧ after K' = e2 ++ after K.
Proof.
  revert K c l x bx r e1 e2. induction fuel as [|fuel IH]; intros K c l x bx r e1 e2 H Ha Hn He H1 H2 Hf;
    cbn [entries] in Hf; rewrite length_app in Hf; cbn [length] in Hf; [lia|].
  cbn [insert_loop]. unfold load. cbn [mbind option_bind]. rewrite Ha. cbn [mbind option_bind].
  rewrite (holds_load _ _ _ _ _ _ _ _ _ _ H). cbn [mbind option_bind node_of n_start n_left n_right].
  change (i32 (n_start nd - sb_start bx)) with (seq_diff (sb_start (data_of nd)) (sb_start bx)).
  destruct (Z.ltb_spec (seq_diff (sb_start (data_of nd)) (sb_start bx)) 0) as [Hlt|Hge]; cbv zeta.
  - destruct (cut_right (λ e, goes_left (data_of nd) e.2) _ _ _ _ (x, bx) He H1 Hlt) as (e2' & El & ->).
    apply Forall_app in H2 as [H2 _]. destruct l as [|cl ll al bl lr].
    + rewrite (hd_sentinel _ _ _ _ _ H). rewrite decide_True by done.
      destruct (attach_ok (FL c x bx r) K t a nd H Ha Hn) as (t' & E & H'). cbn [faddr] in E.
      exists t', (FL c x bx r :: K). symmetry in El. apply app_nil in El as [-> ->].
      cbn [before after]. rewrite app_nil_r. cbn [app]. split_and!; [exact E|exact H'|done..].
    + rewrite (hd_sentinel _ _ _ _ _ H), decide_False.
      2: { pose proof (holds_fresh _ _ (FL c x bx r :: K) _ _ _ _ _ _ _ H) as F. autorewrite with rbt in F. split_hyps. cbn [at_]. congruence. }
      destruct (IH (FL c x bx r :: K) cl ll al bl lr e1 e2' H Ha Hn El H1 H2) as (t' & K' & E & H' & EK & Eb & Ea).
      { lia. }
      exists t', K'. split_and!; [exact E|done|done|done|]. rewrite Ea. cbn [after]. by rewrite <- app_assoc.
  - destruct (cut_left (λ e, goes_left (data_of nd) e.2) _ _ _ _ (x, bx) He H2) as (e1' & Er & ->).
    { unfold goes_left. cbn [snd]. lia. }
    apply Forall_app in H1 as [_ H1]. apply Forall_cons in H1 as [_ H1]. destruct r as [|cr rl ar br rr].
    + rewrite (hd_sentinel _ _ _ _ _ H). rewrite decide_True by done.
      destruct (attach_ok (FR c l x bx) K t a nd H Ha Hn) as (t' & E & H'). cbn [faddr] in E.
      exists t', (FR c l x bx :: K). symmetry in Er. apply app_nil in Er as [-> ->].
      cbn [before after app]. split_and!; [exact E|exact H'|done..].
    + rewrite (hd_sentinel _ _ _ _ _ H), decide_False.
      2: { pose proof (holds_fresh _ _ (FR c l x bx :: K) _ _ _ _ _ _ _ H) as F. autorewrite with rbt in F. split_hyps. cbn [at_]. congruence. }
      destruct (IH (FR c l x bx :: K) cr rl ar br rr e1' e2 H Ha Hn Er H1 H2) as (t' & K' & E & H' & EK & Eb & Ea).
      { lia. }
      exists t', K'. split_and!; [exact E|done|done| |done]. rewrite Eb. cbn [before]. by rewrite <- !app_assoc.
Qed.

(** An empty tree takes its first block. *)
Lemma first_ok t (a : loc) nd :
  holds t Leaf → blocks t !! a = Some nd → a ≠ s →
  ∃ t', (t ← st_parent t (Some a) None;
         t ← st_left t (Some a) (sentinel t);
         t ← st_right t (Some a) (sentinel t);
         t ← rbt_black t (Some a);
         Some (t <| root := Some a |>)) = Some t' ∧
    holds t' (Node false Leaf a (data_of nd) Leaf).
Proof.
  intros H Ha Hn. open_tree t H. unfold st_parent, st_left, st_right, rbt_black.
  destruct nd as [ns ne nl nr np nc nq]. unfold data_of. run. eexists. split; [reflexivity|].
  split; cbn [blocks root sentinel at_ rep]; rewrite ?lookup_insert_ne, ?lookup_insert_eq by ne; try done.
  - rewrite addrs_node. constructor; [|apply NoDup_singleton]. change (s ∉ [a]). set_solver.
  - intros a' Ha'. rewrite addrs_node in Ha'. change (a' ∉ s :: [a]) in Ha'.
    rewrite !lookup_insert_ne by set_solver. apply U7. set_solver.
Qed.

Lemma fixed_black fuel t (block : ptr) e :
  fixed fuel t block e → e ≠ [] →
  ∃ t' t'' x m, insert_fixup fuel t block = Some t' ∧ rbt_black t' (root t') = Some t'' ∧ holds t'' x ∧
    rb false m x ∧ entries x = e.
Proof.
  intros (t' & x & c & m & E & H & Hx & <-) He. destruct x as [|cx l a b r]; [done|].
  destruct (black_ok h0 s [] sn t' cx l a b r H) as (t'' & E' & H').
  exists t', t'', (Node false l a b r). rewrite (hd_root _ _ _ _ _ H). cbn [at_].
  destruct c; [destruct (black_of_red _ _ Hx) as (? & ? & ? & ? & [= -> -> -> -> ->] & Hb)|inversion Hx; subst]; by eexists.
Qed.

Lemma insert_ok t x m (a : loc) nd e1 e2 :
  holds t x → rb false m x → blocks t !! a = Some nd → a ∉ s :: addrs x → entries x = e1 ++ e2 →
  Forall (λ e, ¬ goes_left (data_of nd) e.2) e1 → Forall (λ e, goes_left (data_of nd) e.2) e2 →
  ∃ t' x' m', udx_sack_tree_insert t (Some a) = Some t' ∧ holds t' x' ∧ rb false m' x' ∧
    entries x' = e1 ++ (a, data_of nd) :: e2.
Proof.
  intros H Hb Ha Hn He H1 H2. unfold udx_sack_tree_insert. rewrite (hd_root _ _ _ _ _ H), (hd_sentinel _ _ _ _ _ H).
  destruct x as [|c l a0 b r].
  - rewrite decide_True by done. symmetry in He. apply app_nil in He as [-> ->].
    destruct (first_ok t a nd H Ha ltac:(set_solver)) as (t' & E & H').
    exists t', (Node false Leaf a (data_of nd) Leaf), 1%nat. split_and!; [exact E|done|repeat econstructor|done].
  - pose proof (holds_fresh _ _ [] _ _ _ _ _ _ _ H) as F. autorewrite with rbt in F. split_hyps.
    rewrite decide_False by (cbn [at_]; congruence). unfold actual_sack_insert_fn.
    pose proof (holds_size _ _ H) as Hs.
    destruct (insert_loop_ok (fuel_of t) [] t c l a0 b r a nd e1 e2 H Ha Hn He H1 H2) as (t1 & K & E & Hh & EK & Eb & Ea).
    { unfold fuel_of. lia. }
    cbn [at_]. rewrite E. cbn [mbind option_bind].
    rewrite <- (app_nil_r K) in EK. change (fill [] ?y) with y in EK.
    assert (Hu : rb false m (fill K Leaf)) by (rewrite app_nil_r in EK; by rewrite EK).
    apply rb_unfill in Hu as (c' & n & Hl & Hu). inversion Hl; subst c' n.
    pose proof (holds_size _ _ Hh) as Hs1. pose proof (context_length K (Node true Leaf a (data_of nd) Leaf)) as Hl1.
    destruct (fixed_black (fuel_of t1) t1 (Some a) (entries (fill K (Node true Leaf a (data_of nd) Leaf)))) as (t2 & t3 & x' & m' & E2 & E3 & Hh3 & Hb3 & He3).
    { apply (insert_fixup_ok _ K t1 (Node true Leaf a (data_of nd) Leaf) 0); [done|repeat constructor|done|unfold fuel_of; lia]. }
    { rewrite entries_fill. by destruct (before K). }
    rewrite E2. cbn [mbind option_bind]. exists t3, x', m'. split_and!; [done|done|done|].
    rewrite He3, entries_fill, Eb, Ea. cbn [before after entries app]. by rewrite app_nil_r.
Qed.
End Insert.

(** C21: udx_sack_tree_insert refines insertion into the list of blocks in sequence order.
    On a red-black tree, with the blocks within half of the sequence space, it
    follows no bad pointer and ends; the tree is again red-black and balanced; its
    blocks are those of Recv.v's list insertion; and no other memory changed. *)
Theorem sack_tree_insert_refines t l (a : loc) n base :
  is_sack_tree t l → blocks t !! a = Some n → a ∉ l.*1 → sentinel t ≠ Some a →
  in_window base l.*2 → off base (n_start n) < 2 ^ 31 →
  ∃ t' l', udx_sack_tree_insert t (Some a) = Some t' ∧ is_sack_tree t' l' ∧
    l'.*2 = Recv.udx_sack_tree_insert l.*2 (data_of n) ∧ l' ≡ₚ (a, data_of n) :: l ∧
    ∀ a', a' ∉ l'.*1 → sentinel t ≠ Some a' → blocks t' !! a' = blocks t !! a'.
Proof.
  intros (s & sn & x & m & H & Hb & <-) Ha Hn Hs Hw Ho.
  destruct (insert_place base _ (data_of n) Hw Ho) as (l1 & l2 & El & Ei & H1 & H2).
  apply fmap_app_inv in El as (e1 & e2 & -> & -> & Ee). rewrite Forall_fmap in H1, H2.
  rewrite (hd_sentinel _ _ _ _ _ H) in *.
  destruct (insert_ok (blocks t) s sn t x m a n e1 e2 H Hb Ha) as (t' & x' & m' & E & H' & Hb' & He'); try done.
  { intros [->|?]%elem_of_cons; done. }
  exists t', (entries x'). split_and!; [done| | | |].
  - exists s, sn, x', m'. split_and!; [|done|done]. destruct H' as [U1 U2 U3 U4 U5 U6 U7]. by split.
  - by rewrite Ei, He', fmap_app.
  - rewrite Ee, He'. solve_Permutation.
  - intros a' Ha' Hs'. apply (hd_frame _ _ _ _ _ H'). intros [->|?]%elem_of_cons; done.
Qed.

(** ** An example: the blocks [0,1) and [5,7), and a block [10,11) to insert *)
Definition example_tree : rbtree :=
  mk_rbtree {[ 1%positive := mk_block 0 0 None None (Some 2%positive) 0 [];
               2%positive := node_of false (mk_sack_block 0 1 []) (Some 1%positive) (Some 3%positive) None;
               3%positive := node_of true (mk_sack_block 5 7 []) (Some 1%positive) (Some 1%positive) (Some 2%positive);
               4%positive := mk_block 10 11 None None None 0 [] ]} (Some 2%positive) (Some 1%positive).
Definition example_blocks : list (loc * sack_block) := [(2%positive, mk_sack_block 0 1 []); (3%positive, mk_sack_block 5 7 [])].

Lemma example_is_sack_tree : is_sack_tree example_tree example_blocks.
Proof.
  exists 1%positive, (mk_block 0 0 None None (Some 2%positive) 0 []),
    (Node false Leaf 2%positive (mk_sack_block 0 1 []) (Node true Leaf 3%positive (mk_sack_block 5 7 []) Leaf)), 1%nat.
  split_and!; [|repeat econstructor|done]. split; try done.
  unfold addrs. cbn. repeat constructor; set_solver.
Qed.
Lemma example_in_window : in_window 0 example_blocks.*2.
Proof. split; cbn; repeat constructor; vm_compute; done. Qed.

Lemma sack_tree_insert_refines_witness :
  ∃ t' l', udx_sack_tree_insert example_tree (Some 4%positive) = Some t' ∧ is_sack_tree t' l' ∧
    l'.*2 = [mk_sack_block 0 1 []; mk_sack_block 5 7 []; mk_sack_block 10 11 []].
Proof.
  destruct (sack_tree_insert_refines example_tree example_blocks 4%positive (mk_block 10 11 None None None 0 []) 0)
    as (t' & l' & H1 & H2 & H3 & _).
  - apply example_is_sack_tree.
  - reflexivity.
  - cbn. set_solver.
  - discriminate.
  - apply example_in_window.
  - reflexivity.
  - exists t', l'. split; [exact H1|split; [exact H2|exact H3]].
Defined.
