(* ===== verification/SackTreeWalk.v ===== *)
(** * Looking up, walking and removing in the tree of received blocks (src/udx_sack_tree.c) *)

From stdpp Require Import sorting.
From S2P Require Import Prelude SeqNum Endian Wire WinFilter Stream Rtt Mtu Rate Float64 Bbr Ctx Send Loss Write Ack Recv SackTree SackTreeOps.

Lemma holds_off base q b :
  off base (sb_start b) < 2 ^ 31 → off base (sb_end b) < 2 ^ 31 → off base q < 2 ^ 31 →
  sack_holds q b = true ↔ off base (sb_start b) <= off base q <= off base (sb_end b).
Proof. intros. unfold sack_holds. rewrite !(off_diff base) by lia. lia. Qed.

Lemma in_window_app base l1 x l2 :
  in_window base (l1 ++ x :: l2) →
  in_window base l1 ∧ in_window base l2 ∧ off base (sb_start x) <= off base (sb_end x) < 2 ^ 31 ∧
  Forall (λ y, off base (sb_end y) < off base (sb_start x)) l1 ∧
  Forall (λ y, off base (sb_end x) < off base (sb_start y)) l2.
Proof.
  intros [H1 H2]. apply Forall_app in H2 as [R1 [Rx R2]%Forall_cons].
  apply StronglySorted_app in H1 as (H1 & S1 & [S2 S3]%StronglySorted_inv).
  split_and!; [by split|by split|lia|lia| |done]. apply Forall_forall. intros y Hy. apply H1; [done|left].
Qed.

Section Walk.
Variables (h0 : gmap loc block) (s : loc) (sn : block).
Implicit Types (t : rbtree) (a : loc) (x l r : tree) (K : list frame).
#[local] Abbreviation holds := (SackTree.holds h0 s sn).

Lemma node_at K t x : holds t (fill K x) → at_ s x = sentinel t ↔ x = Leaf.
Proof.
  intros H. rewrite (hd_sentinel _ _ _ _ _ H). split; [|by intros ->]. destruct x as [|c l a b r]; [done|]. cbn [at_].
  pose proof (holds_fresh _ _ _ _ _ _ _ _ _ _ H) as F. autorewrite with rbt in F. split_hyps. congruence.
Qed.

(** ** udx_sack_tree_find *)

Lemma find_loop_ok base fuel K t x q :
  holds t (fill K x) → in_window base (entries x).*2 → off base q < 2 ^ 31 → (length (entries x) <= fuel)%nat →
  ∃ p, find_loop fuel t (at_ s x) q = Some p ∧
    match p with
    | None => Forall (λ e, sack_holds q e.2 = false) (entries x)
    | Some a => ∃ b, (a, b) ∈ entries x ∧ sack_holds q b = true
    end.
Proof.
  revert K x. induction fuel as [|fuel IH]; intros K x H Hw Hq Hf; pose proof (node_at _ _ _ H) as Hn.
  - destruct x as [|c l a b r]; [|cbn in Hf; rewrite length_app in Hf; cbn in Hf; lia].
    exists None. cbn [find_loop]. by rewrite decide_True by by apply Hn.
  - destruct x as [|c l a b r].
    { exists None. cbn [find_loop]. by rewrite decide_True by by apply Hn. }
    cbn [find_loop]. rewrite decide_False by (rewrite Hn; done). unfold load. cbn [at_ mbind option_bind].
    rewrite (holds_load _ _ _ _ _ _ _ _ _ _ H). cbn [mbind option_bind node_of n_start n_end n_left n_right].
    cbn [entries] in *. rewrite fmap_app in Hw. cbn in Hw. apply in_window_app in Hw as (W1 & W2 & W3 & W4 & W5).
    rewrite length_app in Hf. cbn [length] in Hf. rewrite !(off_diff base) by lia.
    rewrite Forall_fmap in W4, W5.
    destruct (Z.ltb_spec (off base q - off base (sb_start b)) 0) as [Hlt|Hge].
    + destruct (IH (FL c a b r :: K) l H W1 Hq ltac:(lia)) as (p & E & Hp). exists p. split; [done|].
      destruct p as [a'|].
      * destruct Hp as (b' & Hin & ?). exists b'. split; [set_solver|done].
      * apply Forall_app. split; [done|]. pose proof (iw_range _ _ W2) as R. rewrite Forall_fmap in R.
        assert (∀ y, off base (sb_start y) < 2 ^ 31 → off base (sb_end y) < 2 ^ 31 → off base q < off base (sb_start y) → sack_holds q y = false) as Hh.
        { intros y ? ? ?. apply not_true_is_false. rewrite (holds_off base) by lia. lia. }
        apply Forall_cons. split; [apply Hh; cbn; lia|]. rewrite Forall_forall in W5, R |- *. intros y Hy.
        specialize (W5 y Hy). specialize (R y Hy). cbn in W5, R. apply Hh; lia.
    + destruct (Z.ltb_spec 0 (off base q - off base (sb_end b))) as [Hlt'|Hle].
      * destruct (IH (FR c l a b :: K) r H W2 Hq ltac:(lia)) as (p & E & Hp). exists p. split; [done|].
        destruct p as [a'|].
        { destruct Hp as (b' & Hin & ?). exists b'. split; [set_solver|done]. }
        pose proof (iw_range _ _ W1) as R. rewrite Forall_fmap in R.
        assert (∀ y, off base (sb_start y) <= off base (sb_end y) < 2 ^ 31 → off base (sb_end y) < off base q → sack_holds q y = false) as Hh.
        { intros y ? ?. apply not_true_is_false. rewrite (holds_off base) by lia. lia. }
        apply Forall_app. split; [|apply Forall_cons; split; [apply Hh; cbn; lia|done]].
        rewrite Forall_forall in W4, R |- *. intros y Hy. specialize (W4 y Hy). specialize (R y Hy). cbn in W4, R. apply Hh; lia.
      * exists (Some a). split; [done|]. exists b. split; [set_solver|]. apply (holds_off base); lia.
Qed.

(** ** rbtree_min and udx_sack_tree_next *)

(** A way up that is to the right all along. *)
Definition leftmost K : Prop := Forall (λ f, match f with FL _ _ _ _ => True | _ => False end) K.

Lemma leftmost_before K : leftmost K → before K = [].
Proof. induction 1 as [|[] K Hf _ IH]; [done|exact IH|done]. Qed.

Lemma leftmost_of x : x ≠ Leaf → ∃ K c a b r, x = fill K (Node c Leaf a b r) ∧ leftmost K.
Proof.
  induction x as [|c l IHl a b r _]; [done|]. intros _. destruct l as [|cl ll al bl lr] eqn:El.
  - exists [], c, a, b, r. split; [done|constructor].
  - destruct IHl as (K & c' & a' & b' & r' & E & Hk); [done|].
    exists (K ++ [FL c a b r]), c', a', b', r'. split; [by rewrite fill_app, <- E|]. apply Forall_app. by repeat constructor.
Qed.

Lemma min_loop_ok fuel K' K t c a b r :
  holds t (fill K' (fill K (Node c Leaf a b r))) → leftmost K → (length K <= fuel)%nat →
  min_loop fuel t (at_ s (fill K (Node c Leaf a b r))) = Some (Some a).
Proof.
  revert K' fuel. induction K as [|f K IH] using rev_ind; intros K' fuel H Hk Hf.
  - change (fill [] ?x) with x in *. cbn [at_]. pose proof (left_ok _ _ _ _ _ _ _ _ _ _ H) as El. cbn [at_] in El.
    destruct fuel; cbn [min_loop]; rewrite El; cbn [mbind option_bind];
      by rewrite decide_True by (by rewrite (hd_sentinel _ _ _ _ _ H)).
  - rewrite fill_app in *. apply Forall_app in Hk as [Hk Hf']. rewrite length_app in Hf. cbn in Hf.
    destruct f as [c0 a0 b0 r0|]; [|by apply Forall_cons in Hf' as [[] _]]. cbn [fill plug at_] in *.
    destruct fuel as [|fuel]; [lia|]. cbn [min_loop]. rewrite (left_ok _ _ _ _ _ _ _ _ _ _ H). cbn [mbind option_bind].
    rewrite decide_False.
    { apply (IH (FL c0 a0 b0 r0 :: K')); [exact H|done|lia]. }
    rewrite (node_at (FL c0 a0 b0 r0 :: K') t _ H). intros E. apply (f_equal entries) in E. rewrite entries_fill in E.
    by destruct (before K).
Qed.

(** The head of a subtree, found from its root. *)
Lemma min_ok K t x :
  holds t (fill K x) → x ≠ Leaf → rbtree_min t (at_ s x) = Some (fst <$> head (entries x)).
Proof.
  intros H Hx. destruct (leftmost_of x Hx) as (K' & c & a & b & r & -> & Hk). unfold rbtree_min.
  rewrite (min_loop_ok _ K); [|done|done|].
  - rewrite entries_fill, (leftmost_before _ Hk). done.
  - pose proof (holds_size _ _ _ _ _ H). rewrite <- fill_app in *. pose proof (context_length (K' ++ K) (Node c Leaf a b r)) as Hl.
    rewrite length_app in Hl. unfold fuel_of. lia.
Qed.

Lemma next_loop_ok fuel K t c l a b r :
  holds t (fill K (Node c l a b r)) → (length K <= fuel)%nat →
  next_loop fuel t (Some a) = Some (fst <$> head (after K)).
Proof.
  revert fuel c l a b r. induction K as [|f K IH]; intros fuel c l a b r H Hf.
  - pose proof (holds_is_root _ _ _ _ _ _ _ _ _ H). destruct fuel; cbn [next_loop]; rewrite (parent_ok _ _ _ _ _ _ _ _ _ _ H);
      cbn [mbind option_bind]; by rewrite decide_True by congruence.
  - pose proof (holds_not_root _ _ _ _ _ _ _ _ _ _ _ H) as Hr. destruct fuel as [|fuel]; [cbn in Hf; lia|]. cbn [length] in Hf.
    cbn [next_loop]. rewrite (parent_ok _ _ _ _ _ _ _ _ _ _ H). cbn [mbind option_bind up]. rewrite decide_False by congruence.
    destruct f as [c0 a0 b0 r0|c0 l0 a0 b0]; cbn [faddr].
    + rewrite (left_ok _ _ K _ _ _ _ _ _ _ H). cbn [mbind option_bind at_]. by rewrite decide_True.
    + rewrite (left_ok _ _ K _ _ _ _ _ _ _ H). cbn [mbind option_bind]. rewrite decide_False.
      * rewrite (IH fuel _ _ _ _ _ H) by lia. done.
      * pose proof (holds_fresh _ _ _ _ _ _ _ _ _ _ H) as F. autorewrite with rbt in F. split_hyps.
        intros E. by apply (at_ne s l0 a).
Qed.

Lemma next_ok K t c l a b r :
  holds t (fill K (Node c l a b r)) →
  SackTree.udx_sack_tree_next t (Some a) = Some (fst <$> head (entries r ++ after K)).
Proof.
  intros H. unfold SackTree.udx_sack_tree_next. rewrite (right_ok _ _ _ _ _ _ _ _ _ _ H). cbn [mbind option_bind].
  pose proof (node_at (FR c l a b :: K) t r H) as Hn. case_decide as Hd.
  - rewrite (next_loop_ok _ _ _ _ _ _ _ _ H).
    + by rewrite (proj1 Hn Hd).
    + pose proof (holds_size _ _ _ _ _ H). pose proof (context_length K (Node c l a b r)). unfold fuel_of. lia.
  - rewrite (min_ok (FR c l a b :: K) t r H) by (by intros E%Hn). 
    assert (entries r ≠ []) as He by (destruct r; [by rewrite Hn in Hd|cbn; by destruct (entries r1)]).
    by destruct (entries r).
Qed.

Lemma before_app K K' : before (K ++ K') = before K' ++ before K.
Proof. induction K as [|[] K IH]; cbn; rewrite ?app_nil_r, ?IH, <- ?app_assoc; done. Qed.
Lemma after_app K K' : after (K ++ K') = after K ++ after K'.
Proof. induction K as [|[] K IH]; cbn; rewrite ?IH, <- ?app_assoc; done. Qed.

(** Where the i-th block is in the tree. *)
Lemma locate x (l1 : list (loc * sack_block)) a b (l2 : list (loc * sack_block)) :
  entries x = l1 ++ (a, b) :: l2 →
  ∃ K c l r, x = fill K (Node c l a b r) ∧ before K ++ entries l = l1 ∧ entries r ++ after K = l2.
Proof.
  revert l1 l2. induction x as [|c l IHl d bd r IHr]; intros l1 l2 E; [by destruct l1|]. cbn [entries] in E.
  apply app_eq_inv in E as [(k & E1 & E2)|(k & E1 & E2)].
  - destruct k as [|e k].
    + cbn in E2. injection E2 as -> -> ->. rewrite app_nil_r in E1. exists [], c, l, r. cbn. by rewrite app_nil_r.
    + cbn in E2. injection E2 as <- E2. destruct (IHl l1 k) as (K & c' & l' & r' & -> & H1 & H2); [done|].
      exists (K ++ [FL c d bd r]), c', l', r'. rewrite fill_app, before_app, after_app. cbn. split_and!; [done|done|].
      by rewrite app_nil_r, E2, <- H2, <- app_assoc.
  - destruct k as [|e k].
    + cbn in E2. injection E2 as <- <- <-. subst l1; rewrite ?app_nil_r. exists [], c, l, r. cbn. by rewrite app_nil_r.
    + cbn in E2. injection E2 as <- E2. destruct (IHr k l2) as (K & c' & l' & r' & -> & H1 & H2); [done|].
      exists (K ++ [FR c l d bd]), c', l', r'. rewrite fill_app, before_app, after_app. cbn. split_and!; [done| |by rewrite app_nil_r].
      by rewrite E1, <- H1, <- !app_assoc.
Qed.
End Walk.

(** ** The height *)
Fixpoint height (x : tree) : nat :=
  match x with Leaf => O | Node _ l _ _ r => S (height l `max` height r) end.

(** The path of a search, on the tree. *)
Fixpoint search (x : tree) (q : Z) : ptr :=
  match x with
  | Leaf => None
  | Node _ l a b r =>
      if seq_diff q (sb_start b) <? 0 then search l q
      else if 0 <? seq_diff q (sb_end b) then search r q else Some a
  end.

Lemma find_loop_search h0 s sn fuel K t x q :
  holds h0 s sn t (fill K x) → (height x <= fuel)%nat → find_loop fuel t (at_ s x) q = Some (search x q).
Proof.
  revert K x. induction fuel as [|fuel IH]; intros K x H Hf; pose proof (node_at _ _ _ _ _ _ H) as Hn;
    (destruct x as [|c l a b r]; [cbn [find_loop]; by rewrite decide_True by by apply Hn|]); cbn [height] in Hf; [lia|].
  cbn [find_loop search]. rewrite decide_False by (rewrite Hn; done). unfold load. cbn [at_ mbind option_bind].
  rewrite (holds_load _ _ _ _ _ _ _ _ _ _ H). cbn [mbind option_bind node_of n_start n_end n_left n_right].
  rewrite (IH (FL c a b r :: K) l H), (IH (FR c l a b :: K) r H) by lia. by repeat case_match.
Qed.

(** A red-black tree is balanced. *)
Lemma rb_balanced c n x :
  rb c n x → (2 ^ n <= S (length (entries x)) ∧ height x <= 2 * n + (if c then 1 else 0))%nat.
Proof.
  induction 1 as [|n l a b r _ [IH1 IH2] _ [IH3 IH4]|n cl cr l a b r _ [IH1 IH2] _ [IH3 IH4]]; cbn [entries height length].
  - by cbn.
  - rewrite length_app. cbn [length] in *. lia.
  - rewrite length_app. cbn [length Nat.pow] in *. destruct cl, cr; lia.
Qed.

Lemma height_bound n x : rb false n x → (height x <= 2 * Nat.log2 (S (length (entries x))))%nat.
Proof.
  intros [H1 H2]%rb_balanced. apply Nat.log2_le_mono in H1. rewrite Nat.log2_pow2 in H1; lia.
Qed.

(** Udx_sack_tree_find, _min and _next refine the list of blocks in sequence order: each
    follows no bad pointer, ends within the number of blocks and returns the address
    of the block that the list function returns, or NULL when there is none. *)
Theorem sack_tree_find_refines t l q base :
  is_sack_tree t l → in_window base l.*2 → off base q < 2 ^ 31 →
  ∃ p, udx_sack_tree_find t q = Some p ∧
    match p with
    | None => Recv.udx_sack_tree_find l.*2 q = None
    | Some a => ∃ b, (a, b) ∈ l ∧ Recv.udx_sack_tree_find l.*2 q = Some b
    end.
Proof.
  intros (s & sn & x & m & H & _ & <-) Hw Hq. unfold udx_sack_tree_find. rewrite (hd_root _ _ _ _ _ H).
  pose proof (holds_size _ _ _ _ _ H) as Hs.
  destruct (find_loop_ok (blocks t) s sn base (fuel_of t) [] t x q H Hw Hq) as (p & E & Hp); [unfold fuel_of; lia|].
  exists p. split; [done|]. unfold Recv.udx_sack_tree_find. destruct p as [a|].
  - destruct Hp as (b & Hin & Hb). exists b. split; [done|].
    apply list_elem_of_lookup in Hin as [i Hi]. assert ((entries x).*2 !! i = Some b) as Hi2 by by rewrite list_lookup_fmap, Hi.
    rewrite (proj2 (list_find_Some _ _ i b)); [done|]. split_and!; [done|by rewrite Hb|].
    intros j y Hj Hlt. rewrite <- (take_drop i (entries x).*2) in Hw. rewrite (drop_S _ b) in Hw by done.
    apply in_window_app in Hw as (W1 & _ & W3 & W4 & _). pose proof (iw_range _ _ W1) as R. rewrite Forall_forall in W4, R.
    assert (y ∈ take i (entries x).*2) as Hy by (apply list_elem_of_lookup; exists j; by rewrite lookup_take_lt).
    specialize (W4 y Hy). specialize (R y Hy). cbn in W4, R.
    apply (holds_off base) in Hb; [|lia..]. intros Hh%Is_true_true. apply (holds_off base) in Hh; lia.
  - rewrite (proj2 (list_find_None _ _)); [done|]. rewrite Forall_fmap. eapply Forall_impl; [exact Hp|].
    intros [? y] Ey Hh. cbn in *. by rewrite Ey in Hh.
Qed.

(** C33: the walk that writes a SACK packet, udx_sack_tree_min and then udx_sack_tree_next
    from block to block, visits the blocks in sequence order: min is the first block, next of
    a block the one after it, NULL at the end. *)
Theorem sack_tree_walk_refines t l :
  is_sack_tree t l →
  udx_sack_tree_min t = Some (fst <$> head l) ∧
  ∀ l1 a b l2, l = l1 ++ (a, b) :: l2 → SackTree.udx_sack_tree_next t (Some a) = Some (fst <$> head l2).
Proof.
  intros (s & sn & x & m & H & _ & <-). split.
  - unfold udx_sack_tree_min. rewrite (hd_root _ _ _ _ _ H). pose proof (node_at _ _ _ [] t x H) as Hn.
    case_decide as Hd; [by rewrite (proj1 Hn Hd)|]. apply (min_ok _ _ _ [] t x H). by intros ?%Hn.
  - intros l1 a b l2 (K & c & l & r & -> & _ & <-)%locate. by apply (next_ok _ _ _ _ _ _ _ _ _ _ H).
Qed.

(** The tree is balanced: a search in a tree of n blocks goes down at most
    2 log2 (n + 1) times. *)
Theorem sack_tree_find_logarithmic t l q :
  is_sack_tree t l →
  find_loop (2 * Nat.log2 (S (length l))) t (root t) q = udx_sack_tree_find t q.
Proof.
  intros (s & sn & x & m & H & Hb & <-). unfold udx_sack_tree_find. rewrite (hd_root _ _ _ _ _ H).
  pose proof (height_bound _ _ Hb) as Hh. pose proof (holds_size _ _ _ _ _ H) as Hs.
  assert (height x <= length (entries x))%nat.
  { clear. induction x as [|c l IHl a b r IHr]; cbn [height entries length]; [lia|]. rewrite length_app. cbn [length]. lia. }
  rewrite !(find_loop_search _ _ _ _ [] t x q H); [done|unfold fuel_of; lia|lia].
Qed.

(** udx_sack_tree_init makes the empty tree. *)
Theorem sack_tree_init_empty h (s : loc) :
  ∃ t, udx_sack_tree_init (mk_rbtree h None None) s = Some t ∧ is_sack_tree t [] ∧
    sentinel t = Some s ∧ ∀ a, a ≠ s → blocks t !! a = h !! a.
Proof.
  unfold udx_sack_tree_init, rbt_black, st_parent, st. cbn. rewrite lookup_insert_eq. cbn. rewrite lookup_insert_eq. cbn.
  eexists. split; [done|]. split.
  - exists s, (mk_block 0 0 None None None 0 []), Leaf, 0%nat. split_and!; [|constructor|done]. split; try done.
    + cbn. by rewrite lookup_insert_eq.
    + repeat constructor. set_solver.
  - split; [done|]. intros a Ha. cbn. by rewrite !lookup_insert_ne by done.
Qed.

Lemma sack_tree_find_refines_witness :
  ∃ p, udx_sack_tree_find example_tree 6 = Some p ∧
    match p with
    | None => Recv.udx_sack_tree_find example_blocks.*2 6 = None
    | Some a => ∃ b, (a, b) ∈ example_blocks ∧ Recv.udx_sack_tree_find example_blocks.*2 6 = Some b
    end.
Proof.
  apply (sack_tree_find_refines example_tree example_blocks 6 0).
  - apply example_is_sack_tree.
  - apply example_in_window.
  - reflexivity.
Defined.

Lemma sack_tree_walk_refines_witness :
  udx_sack_tree_min example_tree = Some (Some 2%positive) ∧
  SackTree.udx_sack_tree_next example_tree (Some 2%positive) = Some (Some 3%positive).
Proof.
  destruct (sack_tree_walk_refines example_tree example_blocks) as [H1 H2]; [apply example_is_sack_tree|].
  split; [exact H1|]. apply (H2 [] 2%positive (mk_sack_block 0 1 []) [(3%positive, mk_sack_block 5 7 [])]). reflexivity.
Defined.

Lemma sack_tree_find_logarithmic_witness :
  find_loop 2 example_tree (Some 2%positive) 6 = udx_sack_tree_find example_tree 6.
Proof. apply (sack_tree_find_logarithmic example_tree example_blocks 6). apply example_is_sack_tree. Defined.
