(* ===== verification/SackTreeRemove.v ===== *)
(** * Removing from the tree of received blocks (src/udx_sack_tree.c: udx_sack_tree_remove) *)

From stdpp Require Import sorting.
From S2P Require Import Prelude SeqNum Endian Wire WinFilter Stream Rtt Mtu Rate Float64 Bbr Ctx Send Loss Write Ack Recv SackTree SackTreeOps SackTreeWalk.

Section Fixup.
Variables (h0 : gmap loc block) (s : loc) (sn : block).
Implicit Types (t : rbtree) (a : loc) (x l r : tree) (K : list frame).
#[local] Abbreviation holds := (SackTree.holds h0 s sn).

(** A subtree knows the block above it: an empty one through the sentinel. *)
Definition sees K x : Prop := x = Leaf → n_parent sn = up K.

Lemma parent_of K t x : holds t (fill K x) → sees K x → ld n_parent t (at_ s x) = Some (up K).
Proof.
  intros H Hs. destruct x as [|c l a b r]; [|exact (parent_ok _ _ _ _ _ _ _ _ _ _ H)].
  cbn [at_]. rewrite (ld_eq _ _ _ sn) by apply H. by rewrite Hs.
Qed.

Lemma copy_color_ok K t c c' l a b r (q : ptr) :
  holds t (fill K (Node c l a b r)) → ld n_color t q = Some (Z.b2z c') →
  ∃ t', rbt_copy_color t (Some a) q = Some t' ∧ holds t' (fill K (Node c' l a b r)).
Proof.
  intros H Hq. unfold rbt_copy_color. rewrite Hq. cbn [mbind option_bind]. by apply (update_ok _ _ _ _ _ c c' _ _ b).
Qed.
Lemma ld_color K t c l a b r : holds t (fill K (Node c l a b r)) → ld n_color t (Some a) = Some (Z.b2z c).
Proof. intros H. by rewrite (ld_eq _ _ _ _ (holds_load _ _ _ _ _ _ _ _ _ _ H)). Qed.

(** A subtree one black block short of the height [S n] its context wants, or
    a red one that only has to become black. *)
Definition short (n : nat) x : Prop :=
  rb false n x ∨ ∃ l a b r, x = Node true l a b r ∧ rb false (S n) (Node false l a b r).

(** The outcome of a turn: nothing is short any more, or something is higher up. *)
Definition turned (N : nat) t (temp : ptr) (e : list (loc * sack_block)) : Prop :=
  (∃ y m, temp = root t ∧ holds t y ∧ rb false m y ∧ y ≠ Leaf ∧ entries y = e) ∨
  (∃ K x n, temp = at_ s x ∧ holds t (fill K x) ∧ short n x ∧ rb_up K false (S n) ∧ x ≠ Leaf ∧
     (red_of x = true ∨ (length K <= N)%nat) ∧ entries (fill K x) = e).

(** The context of [x], short, on the left of [p]: what [K0] takes for the subtree of [p]. *)
Lemma up_left cp p bp w K0 n :
  rb_up (FL cp p bp w :: K0) false (S n) →
  (∃ cw, rb cw (S n) w ∧ (cp = true → cw = false)) ∧ rb_up K0 cp (if cp then S n else S (S n)).
Proof. inversion 1; subst; (split; [eexists; by split|done]). Qed.
Lemma up_right cp p bp w K0 n :
  rb_up (FR cp w p bp :: K0) false (S n) →
  (∃ cw, rb cw (S n) w ∧ (cp = true → cw = false)) ∧ rb_up K0 cp (if cp then S n else S (S n)).
Proof. inversion 1; subst; (split; [eexists; by split|done]). Qed.

Lemma rb_node cp n l a b r :
  rb false (S n) l → rb false (S n) r → rb cp (if cp then S n else S (S n)) (Node cp l a b r).
Proof. destruct cp; intros; by econstructor. Qed.

(** The last case: the far child of the sibling is red. *)
Lemma finish_left N K0 t x (p : loc) bp cp wl (w : loc) bw rl (u : loc) bu rr n cl :
  holds t (fill (FL cp p bp (Node false wl w bw (Node true rl u bu rr)) :: K0) x) → sees (FL cp p bp Leaf :: K0) x →
  rb false n x → rb cl n wl → rb true n (Node true rl u bu rr) → rb_up K0 cp (if cp then S n else S (S n)) →
  ∃ t', (p ← ld n_parent t (at_ s x); t ← rbt_copy_color t (Some w) p;
         p ← ld n_parent t (at_ s x); t ← rbt_black t p;
         r ← ld n_right t (Some w); t ← rbt_black t r;
         p ← ld n_parent t (at_ s x); t ← rbtree_left_rotate t p;
         Some (t, root t)) = Some (t', root t') ∧
    turned N t' (root t') (entries (fill (FL cp p bp (Node false wl w bw (Node true rl u bu rr)) :: K0) x)).
Proof.
  intros H Hsee Hx Hwl Hu Hk.
  rewrite (parent_of (FL cp p bp _ :: K0) t x H Hsee). cbn [mbind option_bind up faddr].
  destruct (copy_color_ok (FR cp x p bp :: K0) t false cp wl w bw _ (Some p) H (ld_color K0 _ _ _ _ _ _ H)) as (t1 & -> & H1).
  cbn [mbind option_bind].
  rewrite (parent_of (FL cp p bp _ :: K0) t1 x H1 Hsee). cbn [mbind option_bind up faddr].
  destruct (black_ok _ _ K0 _ _ _ _ _ _ _ H1) as (t2 & -> & H2). cbn [mbind option_bind].
  rewrite (right_ok _ _ (FR false x p bp :: K0) _ _ _ _ _ _ _ H2). cbn [mbind option_bind at_].
  destruct (black_ok _ _ (FR cp wl w bw :: FR false x p bp :: K0) _ _ _ _ _ _ _ H2) as (t3 & -> & H3). cbn [mbind option_bind].
  rewrite (parent_of (FL false p bp _ :: K0) t3 x H3 Hsee). cbn [mbind option_bind up faddr].
  destruct (left_rotate_ok _ _ K0 _ _ _ _ _ _ _ _ _ _ _ H3) as (t4 & -> & H4). cbn [mbind option_bind].
  exists t4. split; [done|]. left.
  destruct (black_of_red _ _ Hu) as (? & ? & ? & ? & [= <- <- <- <-] & Hu').
  destruct (rb_fill K0 _ _ _ (rb_node cp n (Node false x p bp wl) w bw (Node false rl u bu rr) ltac:(by econstructor) Hu') Hk) as [m Hm].
  eexists _, m. split_and!; [done|exact H4|exact Hm| |entries_tac].
  intros E. apply (f_equal entries) in E. rewrite entries_fill in E. cbn in E. by destruct (before K0), (entries x).
Qed.

Lemma black_sibling_left N K0 t x (p : loc) bp cp wl (w : loc) bw wr n cl cr :
  holds t (fill (FL cp p bp (Node false wl w bw wr) :: K0) x) → sees (FL cp p bp Leaf :: K0) x →
  rb false n x → rb cl n wl → rb cr n wr → rb_up K0 cp (if cp then S n else S (S n)) →
  cp = true ∨ (length K0 <= N)%nat →
  ∃ t' temp', remove_black_left t (at_ s x) (Some w) = Some (t', temp') ∧
    turned N t' temp' (entries (fill (FL cp p bp (Node false wl w bw wr) :: K0) x)).
Proof.
  intros H Hsee Hx Hwl Hwr Hk HN. unfold remove_black_left, children_black.
  rewrite (left_ok _ _ (FR cp x p bp :: K0) _ _ _ _ _ _ _ H). cbn [mbind option_bind].
  rewrite (is_red_ok _ _ (FL false w bw wr :: FR cp x p bp :: K0) _ _ _ H), (rb_red_of _ _ _ Hwl). cbn [mbind option_bind].
  assert (Er : ld n_right t (Some w) = Some (at_ s wr)) by apply (right_ok _ _ (FR cp x p bp :: K0) _ _ _ _ _ _ _ H).
  assert (Erc : rbt_is_red t (at_ s wr) = Some cr).
  { by rewrite (is_red_ok _ _ (FR false wl w bw :: FR cp x p bp :: K0) _ _ _ H), (rb_red_of _ _ _ Hwr). }
  assert (Efar : cr = true → ∃ t', (p ← ld n_parent t (at_ s x); t ← rbt_copy_color t (Some w) p;
         p ← ld n_parent t (at_ s x); t ← rbt_black t p;
         r ← ld n_right t (Some w); t ← rbt_black t r;
         p ← ld n_parent t (at_ s x); t ← rbtree_left_rotate t p;
         Some (t, root t)) = Some (t', root t') ∧
    turned N t' (root t') (entries (fill (FL cp p bp (Node false wl w bw wr) :: K0) x))).
  { intros ->. destruct (black_of_red _ _ Hwr) as (? & ? & ? & ? & -> & _). by eapply finish_left. }
  destruct cl.
  - (* a red near child *)
    rewrite Er. cbn [mbind option_bind]. rewrite Erc. cbn [mbind option_bind]. destruct cr; cbn [negb mbind option_bind].
    { destruct (Efar eq_refl) as (t' & E & Ht). exists t', (root t'). split; [exact E|exact Ht]. }
    destruct (black_of_red _ _ Hwl) as (ll & u & bu & lr & -> & _). cbn [at_].
    destruct (black_ok _ _ (FL false w bw wr :: FR cp x p bp :: K0) _ _ _ _ _ _ _ H) as (t1 & -> & H1). cbn [mbind option_bind].
    destruct (red_ok _ _ (FR cp x p bp :: K0) _ _ _ _ _ _ _ H1) as (t2 & -> & H2). cbn [mbind option_bind].
    destruct (right_rotate_ok _ _ (FR cp x p bp :: K0) _ _ _ _ _ _ _ _ _ _ _ H2) as (t3 & -> & H3). cbn [mbind option_bind].
    rewrite (parent_of (FL cp p bp _ :: K0) t3 x H3 Hsee). cbn [mbind option_bind up faddr].
    rewrite (right_ok _ _ K0 _ _ _ _ _ _ _ H3). cbn [mbind option_bind at_].
    inversion Hwl; subst.
    destruct (finish_left N K0 t3 x p bp cp ll u bu lr w bw wr n false H3 Hsee Hx) as (t' & E & Ht); [done|by constructor|done|].
    exists t', (root t'). split; [exact E|].
    match type of Ht with turned _ _ _ ?e => match goal with |- turned _ _ _ ?e' => replace e' with e by entries_tac end end.
    exact Ht.
  - rewrite Er. cbn [mbind option_bind]. rewrite Erc. cbn [mbind option_bind]. destruct cr; cbn [negb mbind option_bind].
    { destruct (Efar eq_refl) as (t' & E & Ht). exists t', (root t'). split; [exact E|exact Ht]. }
    destruct (red_ok _ _ (FR cp x p bp :: K0) _ _ _ _ _ _ _ H) as (t1 & -> & H1). cbn [mbind option_bind].
    rewrite (parent_of (FL cp p bp _ :: K0) t1 x H1 Hsee). cbn [mbind option_bind up faddr].
    eexists t1, _. split; [done|]. right.
    assert (rb false (S n) (Node false x p bp (Node true wl w bw wr))) as Hn by (econstructor; [done|by constructor]).
    exists K0, (Node cp x p bp (Node true wl w bw wr)), (if cp then n else S n).
    split_and!; [done|exact H1| | |done| |entries_tac].
    + destruct cp; [right; by eexists _, _, _, _|by left].
    + destruct cp; [by apply rb_up_weaken in Hk|done].
    + destruct HN as [->|]; [by left|by right].
Qed.

(** A black subtree with black height [S n] is a block. *)
Lemma black_node n x : rb false (S n) x → ∃ cl l a b cr r, x = Node false l a b r ∧ rb cl n l ∧ rb cr n r.
Proof. inversion 1; subst. by eexists _, _, _, _, _, _. Qed.

Lemma turn_left_ok N K0 t x (p : loc) bp cp w n :
  holds t (fill (FL cp p bp w :: K0) x) → sees (FL cp p bp Leaf :: K0) x →
  rb false n x → rb_up (FL cp p bp w :: K0) false (S n) → (length K0 <= N)%nat →
  ∃ t' temp', remove_turn_left t (at_ s x) = Some (t', temp') ∧
    turned N t' temp' (entries (fill (FL cp p bp w :: K0) x)).
Proof.
  intros H Hsee Hx Hk HN. apply up_left in Hk as [(cw & Hw & Hc) Hk]. unfold remove_turn_left.
  rewrite (parent_of (FL cp p bp _ :: K0) t x H Hsee). cbn [mbind option_bind up faddr].
  rewrite (right_ok _ _ K0 _ _ _ _ _ _ _ H). cbn [mbind option_bind].
  rewrite (is_red_ok _ _ (FR cp x p bp :: K0) _ _ _ H), (rb_red_of _ _ _ Hw). cbn [mbind option_bind].
  destruct cw.
  - destruct cp; [by specialize (Hc eq_refl)|]. 
    destruct (black_of_red _ _ Hw) as (wl & w0 & bw & wr & -> & _). inversion Hw; subst. cbn [at_].
    destruct (black_ok _ _ (FR false x p bp :: K0) _ _ _ _ _ _ _ H) as (t1 & -> & H1). cbn [mbind option_bind].
    rewrite (parent_of (FL false p bp _ :: K0) t1 x H1 Hsee). cbn [mbind option_bind up faddr].
    destruct (red_ok _ _ K0 _ _ _ _ _ _ _ H1) as (t2 & -> & H2). cbn [mbind option_bind].
    rewrite (parent_of (FL true p bp _ :: K0) t2 x H2 Hsee). cbn [mbind option_bind up faddr].
    destruct (left_rotate_ok _ _ K0 _ _ _ _ _ _ _ _ _ _ _ H2) as (t3 & -> & H3). cbn [mbind option_bind].
    rewrite (parent_of (FL true p bp _ :: FL false w0 bw wr :: K0) t3 x H3 Hsee). cbn [mbind option_bind up faddr].
    rewrite (right_ok _ _ (FL false w0 bw wr :: K0) _ _ _ _ _ _ _ H3). cbn [mbind option_bind].
    destruct (black_node n wl) as (? & ll & v & bv & ? & lr & -> & Hl & Hr); [done|]. cbn [at_].
    destruct (black_sibling_left N (FL false w0 bw wr :: K0) t3 x p bp true ll v bv lr n _ _ H3 Hsee Hx Hl Hr) as (t' & temp' & E & Ht).
    { by econstructor. } { by left. }
    exists t', temp'. split; [exact E|].
    match type of Ht with turned _ _ _ ?e => match goal with |- turned _ _ _ ?e' => replace e' with e by entries_tac end end.
    exact Ht.
  - destruct (black_node n w Hw) as (? & ll & v & bv & ? & lr & -> & Hl & Hr). cbn [mbind option_bind at_].
    eapply black_sibling_left; eauto.
Qed.

(** The mirror images. *)
Lemma finish_right N K0 t x (p : loc) bp cp wr (w : loc) bw rl (u : loc) bu rr n cr :
  holds t (fill (FR cp (Node false (Node true rl u bu rr) w bw wr) p bp :: K0) x) → sees (FR cp Leaf p bp :: K0) x →
  rb false n x → rb cr n wr → rb true n (Node true rl u bu rr) → rb_up K0 cp (if cp then S n else S (S n)) →
  ∃ t', (p ← ld n_parent t (at_ s x); t ← rbt_copy_color t (Some w) p;
         p ← ld n_parent t (at_ s x); t ← rbt_black t p;
         l ← ld n_left t (Some w); t ← rbt_black t l;
         p ← ld n_parent t (at_ s x); t ← rbtree_right_rotate t p;
         Some (t, root t)) = Some (t', root t') ∧
    turned N t' (root t') (entries (fill (FR cp (Node false (Node true rl u bu rr) w bw wr) p bp :: K0) x)).
Proof.
  intros H Hsee Hx Hwr Hu Hk.
  rewrite (parent_of (FR cp _ p bp :: K0) t x H Hsee). cbn [mbind option_bind up faddr].
  destruct (copy_color_ok (FL cp p bp x :: K0) t false cp _ w bw wr (Some p) H (ld_color K0 _ _ _ _ _ _ H)) as (t1 & -> & H1).
  cbn [mbind option_bind].
  rewrite (parent_of (FR cp _ p bp :: K0) t1 x H1 Hsee). cbn [mbind option_bind up faddr].
  destruct (black_ok _ _ K0 _ _ _ _ _ _ _ H1) as (t2 & -> & H2). cbn [mbind option_bind].
  rewrite (left_ok _ _ (FL false p bp x :: K0) _ _ _ _ _ _ _ H2). cbn [mbind option_bind at_].
  destruct (black_ok _ _ (FL cp w bw wr :: FL false p bp x :: K0) _ _ _ _ _ _ _ H2) as (t3 & -> & H3). cbn [mbind option_bind].
  rewrite (parent_of (FR false _ p bp :: K0) t3 x H3 Hsee). cbn [mbind option_bind up faddr].
  destruct (right_rotate_ok _ _ K0 _ _ _ _ _ _ _ _ _ _ _ H3) as (t4 & -> & H4). cbn [mbind option_bind].
  exists t4. split; [done|]. left.
  destruct (black_of_red _ _ Hu) as (? & ? & ? & ? & [= <- <- <- <-] & Hu').
  destruct (rb_fill K0 _ _ _ (rb_node cp n (Node false rl u bu rr) w bw (Node false wr p bp x) Hu' ltac:(by econstructor)) Hk) as [m Hm].
  eexists _, m. split_and!; [done|exact H4|exact Hm| |entries_tac].
  intros E. apply (f_equal entries) in E. rewrite entries_fill in E. cbn in E. by destruct (before K0), (entries rl).
Qed.

Lemma black_sibling_right N K0 t x (p : loc) bp cp wl (w : loc) bw wr n cl cr :
  holds t (fill (FR cp (Node false wl w bw wr) p bp :: K0) x) → sees (FR cp Leaf p bp :: K0) x →
  rb false n x → rb cl n wl → rb cr n wr → rb_up K0 cp (if cp then S n else S (S n)) →
  cp = true ∨ (length K0 <= N)%nat →
  ∃ t' temp', remove_black_right t (at_ s x) (Some w) = Some (t', temp') ∧
    turned N t' temp' (entries (fill (FR cp (Node false wl w bw wr) p bp :: K0) x)).
Proof.
  intros H Hsee Hx Hwl Hwr Hk HN. unfold remove_black_right, children_black.
  rewrite (left_ok _ _ (FL cp p bp x :: K0) _ _ _ _ _ _ _ H). cbn [mbind option_bind].
  rewrite (is_red_ok _ _ (FL false w bw wr :: FL cp p bp x :: K0) _ _ _ H), (rb_red_of _ _ _ Hwl). cbn [mbind option_bind].
  assert (Er : ld n_right t (Some w) = Some (at_ s wr)) by apply (right_ok _ _ (FL cp p bp x :: K0) _ _ _ _ _ _ _ H).
  assert (Erc : rbt_is_red t (at_ s wr) = Some cr).
  { by rewrite (is_red_ok _ _ (FR false wl w bw :: FL cp p bp x :: K0) _ _ _ H), (rb_red_of _ _ _ Hwr). }
  destruct cl; cbn [negb mbind option_bind].
  - destruct (black_of_red _ _ Hwl) as (ll & u & bu & lr & -> & _).
    destruct (finish_right N K0 t x p bp cp wr w bw ll u bu lr n cr) as (t' & E & Ht); try done.
    exists t', (root t'). split; [exact E|exact Ht].
  - rewrite Er. cbn [mbind option_bind]. rewrite Erc. cbn [mbind option_bind]. destruct cr; cbn [negb mbind option_bind].
    + (* a red near child *)
      destruct (black_of_red _ _ Hwr) as (ll & u & bu & lr & -> & _). cbn [at_].
      destruct (black_ok _ _ (FR false wl w bw :: FL cp p bp x :: K0) _ _ _ _ _ _ _ H) as (t1 & -> & H1). cbn [mbind option_bind].
      destruct (red_ok _ _ (FL cp p bp x :: K0) _ _ _ _ _ _ _ H1) as (t2 & -> & H2). cbn [mbind option_bind].
      destruct (left_rotate_ok _ _ (FL cp p bp x :: K0) _ _ _ _ _ _ _ _ _ _ _ H2) as (t3 & -> & H3). cbn [mbind option_bind].
      rewrite (parent_of (FR cp _ p bp :: K0) t3 x H3 Hsee). cbn [mbind option_bind up faddr].
      rewrite (left_ok _ _ K0 _ _ _ _ _ _ _ H3). cbn [mbind option_bind at_].
      inversion Hwr; subst.
      destruct (finish_right N K0 t3 x p bp cp lr u bu wl w bw ll n false H3 Hsee Hx) as (t' & E & Ht); [done|by constructor|done|].
      exists t', (root t'). split; [exact E|].
      match type of Ht with turned _ _ _ ?e => match goal with |- turned _ _ _ ?e' => replace e' with e by entries_tac end end.
      exact Ht.
    + destruct (red_ok _ _ (FL cp p bp x :: K0) _ _ _ _ _ _ _ H) as (t1 & -> & H1). cbn [mbind option_bind].
      rewrite (parent_of (FR cp _ p bp :: K0) t1 x H1 Hsee). cbn [mbind option_bind up faddr].
      eexists t1, _. split; [done|]. right.
      assert (rb false (S n) (Node false (Node true wl w bw wr) p bp x)) as Hn by (econstructor; [by constructor|done]).
      exists K0, (Node cp (Node true wl w bw wr) p bp x), (if cp then n else S n).
      split_and!; [done|exact H1| | |done| |entries_tac].
      * destruct cp; [right; by eexists _, _, _, _|by left].
      * destruct cp; [by apply rb_up_weaken in Hk|done].
      * destruct HN as [->|]; [by left|by right].
Qed.

Lemma turn_right_ok N K0 t x (p : loc) bp cp w n :
  holds t (fill (FR cp w p bp :: K0) x) → sees (FR cp Leaf p bp :: K0) x →
  rb false n x → rb_up (FR cp w p bp :: K0) false (S n) → (length K0 <= N)%nat →
  ∃ t' temp', remove_turn_right t (at_ s x) = Some (t', temp') ∧
    turned N t' temp' (entries (fill (FR cp w p bp :: K0) x)).
Proof.
  intros H Hsee Hx Hk HN. apply up_right in Hk as [(cw & Hw & Hc) Hk]. unfold remove_turn_right.
  rewrite (parent_of (FR cp _ p bp :: K0) t x H Hsee). cbn [mbind option_bind up faddr].
  rewrite (left_ok _ _ K0 _ _ _ _ _ _ _ H). cbn [mbind option_bind].
  rewrite (is_red_ok _ _ (FL cp p bp x :: K0) _ _ _ H), (rb_red_of _ _ _ Hw). cbn [mbind option_bind].
  destruct cw.
  - destruct cp; [by specialize (Hc eq_refl)|]. 
    destruct (black_of_red _ _ Hw) as (wl & w0 & bw & wr & -> & _). inversion Hw; subst. cbn [at_].
    destruct (black_ok _ _ (FL false p bp x :: K0) _ _ _ _ _ _ _ H) as (t1 & -> & H1). cbn [mbind option_bind].
    rewrite (parent_of (FR false _ p bp :: K0) t1 x H1 Hsee). cbn [mbind option_bind up faddr].
    destruct (red_ok _ _ K0 _ _ _ _ _ _ _ H1) as (t2 & -> & H2). cbn [mbind option_bind].
    rewrite (parent_of (FR true _ p bp :: K0) t2 x H2 Hsee). cbn [mbind option_bind up faddr].
    destruct (right_rotate_ok _ _ K0 _ _ _ _ _ _ _ _ _ _ _ H2) as (t3 & -> & H3). cbn [mbind option_bind].
    rewrite (parent_of (FR true _ p bp :: FR false wl w0 bw :: K0) t3 x H3 Hsee). cbn [mbind option_bind up faddr].
    rewrite (left_ok _ _ (FR false wl w0 bw :: K0) _ _ _ _ _ _ _ H3). cbn [mbind option_bind].
    destruct (black_node n wr) as (? & ll & v & bv & ? & lr & -> & Hl & Hr); [done|]. cbn [at_].
    destruct (black_sibling_right N (FR false wl w0 bw :: K0) t3 x p bp true ll v bv lr n _ _ H3 Hsee Hx Hl Hr) as (t' & temp' & E & Ht).
    { by econstructor. } { by left. }
    exists t', temp'. split; [exact E|].
    match type of Ht with turned _ _ _ ?e => match goal with |- turned _ _ _ ?e' => replace e' with e by entries_tac end end.
    exact Ht.
  - destruct (black_node n w Hw) as (? & ll & v & bv & ? & lr & -> & Hl & Hr). cbn [mbind option_bind at_].
    eapply black_sibling_right; eauto.
Qed.

Lemma black_sentinel t x : holds t x → rbt_black t (Some s) = Some t.
Proof.
  intros H. pose proof (hd_sentinel_block _ _ _ _ _ H) as Hs. pose proof (hd_black _ _ _ _ _ H) as Hc.
  unfold rbt_black, st. cbn [mbind option_bind]. rewrite Hs. cbn [mbind option_bind]. f_equal.
  destruct t as [h rt sp]. cbn in *. unfold upd_field. cbn. f_equal. apply insert_id. rewrite Hs. f_equal. destruct sn. cbn in *. by subst.
Qed.

Lemma not_root f K t x : holds t (fill (f :: K) x) → at_ s x ≠ root t.
Proof.
  intros H E. symmetry in E. revert E. destruct x as [|c l a b r]; [|apply (holds_not_root _ _ _ _ _ _ _ _ _ _ _ H)].
  rewrite (hd_root _ _ _ _ _ H). destruct (root_up s K f Leaf) as (a & -> & Ha). cbn [at_]. intros [= ->].
  pose proof (holds_sentinel_fresh _ _ _ _ _ _ H) as F. autorewrite with rbt in F. set_solver.
Qed.

Definition restored fuel t (temp : ptr) (e : list (loc * sack_block)) : Prop :=
  ∃ t' y m, remove_fixup fuel t temp = Some t' ∧ holds t' y ∧ rb false m y ∧ entries y = e.

(** The loop ends at a red block, which becomes black, and at the root. *)
Lemma restored_red fuel K t l (a : loc) b r n :
  holds t (fill K (Node true l a b r)) → rb false (S n) (Node false l a b r) → rb_up K false (S n) →
  restored fuel t (Some a) (entries (fill K (Node true l a b r))).
Proof.
  intros H Hb Hk. destruct (black_ok _ _ K _ _ _ _ _ _ _ H) as (t' & E & H'). destruct (rb_fill _ _ _ _ Hb Hk) as [m Hm].
  exists t', (fill K (Node false l a b r)), m. split_and!; [|done|done|entries_tac].
  destruct fuel; cbn [remove_fixup]; (case_decide; [done|]);
    by rewrite (color_ok _ _ _ _ _ _ _ _ _ _ H).
Qed.
Lemma restored_root fuel t x m : holds t x → rb false m x → restored fuel t (root t) (entries x).
Proof.
  intros H Hb. destruct x as [|c l a b r].
  - exists t, Leaf, m. split_and!; try done. rewrite (hd_root _ _ _ _ _ H). cbn [at_].
    destruct fuel; cbn [remove_fixup]; rewrite decide_True by (by rewrite (hd_root _ _ _ _ _ H)); by apply (black_sentinel t Leaf).
  - inversion Hb; subst. destruct (black_ok h0 s [] _ _ _ _ _ _ _ H) as (t' & E & H').
    exists t', (Node false l a b r), (S n). split_and!; try done. rewrite (hd_root _ _ _ _ _ H). cbn [at_].
    destruct fuel; cbn [remove_fixup]; by rewrite decide_True by (by rewrite (hd_root _ _ _ _ _ H)).
Qed.

Lemma remove_fixup_ok fuel K t x n :
  holds t (fill K x) → sees K x → short n x → rb_up K false (S n) → red_of x = true ∨ (length K <= fuel)%nat →
  restored fuel t (at_ s x) (entries (fill K x)).
Proof.
  revert K t x n. induction fuel as [|fuel IH]; intros K t x n H Hsee Hx Hk Hf;
    (destruct Hx as [Hx|(l & a & b & r & -> & Hx)]; [|by apply (restored_red _ _ _ _ _ _ _ n)]);
    (destruct K as [|f K0]; [change (fill [] x) with x in *; rewrite <- (hd_root _ _ _ _ _ H); by apply (restored_root _ _ _ n)|]).
  { rewrite (rb_red_of _ _ _ Hx) in Hf. destruct Hf as [|Hf]; [done|cbn in Hf; lia]. }
  rewrite (rb_red_of _ _ _ Hx) in Hf. destruct Hf as [|Hf]; [done|]. cbn [length] in Hf.
  assert (Hturn : ∃ t' temp', (p ← ld n_parent t (at_ s x); l ← ld n_left t p;
      if decide (at_ s x = l) then remove_turn_left t (at_ s x) else remove_turn_right t (at_ s x)) = Some (t', temp') ∧
      turned fuel t' temp' (entries (fill (f :: K0) x))).
  { rewrite (parent_of _ _ _ H Hsee). cbn [mbind option_bind up]. destruct f as [cp p bp w|cp w p bp]; cbn [faddr].
    - rewrite (left_ok _ _ K0 _ _ _ _ _ _ _ H). cbn [mbind option_bind]. rewrite decide_True by done.
      apply (turn_left_ok fuel K0 t x p bp cp w n); try done. lia.
    - rewrite (left_ok _ _ K0 _ _ _ _ _ _ _ H). cbn [mbind option_bind]. rewrite decide_False.
      + apply (turn_right_ok fuel K0 t x p bp cp w n); try done. lia.
      + apply up_right in Hk as [(cw & Hw & _) _]. intros E.
        assert (∃ c l a b r, w = Node c l a b r) as (c & l & a & b & r & ->) by (inversion Hw; subst; by eexists _, _, _, _, _).
        pose proof (holds_fresh _ _ (FL cp p bp x :: K0) _ _ _ _ _ _ _ H) as F. autorewrite with rbt in F. split_hyps.
        by apply (at_ne s x a). }
  assert (Hstep : ∀ t' temp', (p ← ld n_parent t (at_ s x); l ← ld n_left t p;
      if decide (at_ s x = l) then remove_turn_left t (at_ s x) else remove_turn_right t (at_ s x)) = Some (t', temp') →
      remove_fixup (S fuel) t (at_ s x) = remove_fixup fuel t' temp').
  { intros t' temp' E. cbn [remove_fixup]. rewrite decide_False by by apply (not_root f K0).
    rewrite (is_red_ok _ _ _ _ _ _ H), (rb_red_of _ _ _ Hx). cbn [mbind option_bind].
    destruct (ld n_parent t (at_ s x)) as [p|]; [|done]. cbn [mbind option_bind] in *.
    destruct (ld n_left t p) as [l|]; [|done]. cbn [mbind option_bind] in *. by rewrite E. }
  destruct Hturn as (t' & temp' & E & Ht). unfold restored. rewrite (Hstep _ _ E).
  destruct Ht as [(y & m & -> & Hy & Hb & _ & Ee)|(K & y & n' & -> & Hy & Hs & Hu & Hn & Hl & Ee)]; rewrite <- Ee.
  - by apply (restored_root _ _ _ m).
  - apply (IH K t' y n'); try done. by intros ->.
Qed.
End Fixup.

(** ** Taking a block out *)

Section Remove.
Variables (h0 : gmap loc block) (s : loc).
Implicit Types (t : rbtree) (sn : block) (a : loc) (x l r : tree) (K : list frame).

(** Memory outside the tree. *)
Lemma outside_ok sn t x a g nd :
  holds h0 s sn t x → blocks t !! a = Some nd → a ∉ s :: addrs x →
  ∃ t', st g t (Some a) = Some t' ∧ holds (<[a := g nd]> h0) s sn t' x ∧ blocks t' !! a = Some (g nd).
Proof.
  intros H Ha Hn. unfold st. cbn [mbind option_bind]. rewrite Ha. cbn [mbind option_bind]. eexists. split; [done|].
  destruct H as [U1 U2 U3 U4 U5 U6 U7]. split; [|apply lookup_insert_eq]. split; cbn [blocks root sentinel upd_field]; try done.
  - rewrite lookup_insert_ne; [done|set_solver].
  - apply rep_frame; [set_solver|done].
  - intros a' Ha'. destruct (decide (a' = a)) as [->|]; [by rewrite !lookup_insert_eq|]. rewrite !lookup_insert_ne by done. by apply U7.
Qed.

(** The only child that is not empty takes the place of a block. *)
Definition only_child l r X : Prop := (l = Leaf ∧ X = r) ∨ (r = Leaf ∧ X = l).

Definition splice t (block temp : ptr) : option rbtree :=
  t ← unlink t block temp; p ← ld n_parent t block; st_parent t temp p.

Lemma taken_out K c l a b r X :
  only_child l r X → s :: addrs (fill K (Node c l a b r)) ≡ₚ a :: s :: addrs (fill K X).
Proof.
  intros HX. rewrite !addrs_fill, addrs_node.
  destruct HX as [[-> ->]|[-> ->]]; change (addrs Leaf) with (@nil loc); solve_Permutation.
Qed.

Lemma only_child_rep K sn t c l a b r X :
  holds h0 s sn t (fill K (Node c l a b r)) → only_child l r X →
  rep (blocks t) s X (Some a) ∧ a ∉ addrs X ∧ s ∉ addrs X ∧ (∀ y, y ∈ addrs X → y ∉ lefts K ∧ y ∉ rights K) ∧
  match X with
  | Leaf => True
  | Node cx lx x bx rx => blocks t !! x = Some (node_of cx bx (at_ s lx) (at_ s rx) (Some a)) ∧
      x ≠ a ∧ x ≠ s ∧ x ∉ addrs lx ∧ x ∉ addrs rx
  end.
Proof.
  intros H HX. pose proof (holds_rep _ _ _ _ _ _ H) as [_ (_ & R1 & R2)].
  pose proof (hd_nodup _ _ _ _ _ H) as N. rewrite (taken_out K c l a b r X HX) in N.
  apply NoDup_cons in N as [Na N]. apply NoDup_cons in N as [Ns N].
  assert (rep (blocks t) s X (Some a)) as HR by by destruct HX as [[_ ->]|[_ ->]].
  rewrite !not_elem_of_cons, addrs_fill, !not_elem_of_app in Na. rewrite addrs_fill, !not_elem_of_app in Ns.
  rewrite addrs_fill in N. apply NoDup_app in N as (_ & N1 & N). apply NoDup_app in N as (N2 & N3 & _).
  split_and!; try done || tauto.
  - intros y Hy. split; [intros ?; by apply (N1 y); [|apply elem_of_app; left]|by apply N3].
  - destruct X as [|cx lx x bx rx]; [done|]. cbn [rep] in HR. rewrite addrs_node in *.
    apply NoDup_app in N2 as (_ & N4 & [N5 _]%NoDup_cons). split_and!; try tauto; set_solver.
Qed.

Lemma data_of_node c b (l r p : ptr) : data_of (node_of c b l r p) = b.
Proof. by destruct b. Qed.

Ltac splice_tac t H Hdone K :=
  repeat match goal with F : ∀ y, y ∈ addrs (Node _ _ ?x _ _) → _ |- _ =>
    specialize (F x ltac:(rewrite addrs_node; set_solver)) end;
  autorewrite with rbt in *; split_hyps; open_tree t H; unfold st_left, st_right, st_parent; run; eapply Hdone;
  [ rewrite ?lookup_insert_ne by ne; first [apply lookup_insert_eq|eassumption]
  | done
  | rewrite ?lookup_insert_ne by ne; first [apply lookup_insert_eq|eassumption]
  | apply data_of_node
  | by intros
  | apply (rep_fill _ _ K); read_tac
  | let a' := fresh "a" in let Ha := fresh "Ha" in let Hn := fresh "Hn" in
    intros a' Ha Hn; rewrite (addrs_fill K) in Ha; autorewrite with rbt in Ha; split_hyps;
    rewrite ?lookup_insert_ne by ne; done ].

Lemma splice_ok f K sn t c l a b r X :
  holds h0 s sn t (fill (f :: K) (Node c l a b r)) → only_child l r X →
  ∃ t' sn' nd, splice t (Some a) (at_ s X) = Some t' ∧ holds (<[a := nd]> h0) s sn' t' (fill (f :: K) X) ∧
    blocks t' !! a = Some nd ∧ data_of nd = b ∧ (X = Leaf → n_parent sn' = up (f :: K)).
Proof.
  intros H HX. unfold splice, unlink. pose proof (taken_out (f :: K) c l a b r X HX) as Hp.
  pose proof (only_child_rep _ _ _ _ _ _ _ _ _ H HX) as (Hax & Fax & Fsx & Fx & Hx).
  pose proof (holds_rep _ _ _ _ _ _ H) as [R1 _].
  assert (Hnd : NoDup (s :: addrs (fill (f :: K) X))).
  { pose proof (hd_nodup _ _ _ _ _ H) as N. rewrite Hp in N. by apply NoDup_cons in N as [_ ?]. }
  assert (Hfr : ∀ a', a' ≠ a → a' ∉ s :: addrs (fill (f :: K) X) → a' ∉ s :: addrs (fill (f :: K) (Node c l a b r))).
  { intros a' ? ?. rewrite Hp. by apply not_elem_of_cons. }
  at_addr (f :: K) a H. fresh_sentinel (f :: K) H. clear Hp.
  assert (Hdone : ∀ h' sn' nd, h' !! s = Some sn' → n_color sn' = 0 → h' !! a = Some nd → data_of nd = b →
    (X = Leaf → n_parent sn' = up (f :: K)) → rep h' s (fill (f :: K) X) None →
    (∀ a', a' ∉ s :: addrs (fill (f :: K) X) → a' ≠ a → h' !! a' = blocks t !! a') →
    ∃ t' sn' nd, Some (mk_rbtree h' (root t) (sentinel t)) = Some t' ∧ holds (<[a := nd]> h0) s sn' t' (fill (f :: K) X) ∧
      blocks t' !! a = Some nd ∧ data_of nd = b ∧ (X = Leaf → n_parent sn' = up (f :: K))).
  { intros h' sn' nd E1 E2 E3 E4 E5 E6 E7. eexists _, sn', nd. split; [done|]. split; [|done].
    destruct H as [U1 U2 U3 U4 U5 U6 U7]. split; cbn [blocks root sentinel]; try done.
    - rewrite U4. by apply at_fill.
    - intros a' Ha'. destruct (decide (a' = a)) as [->|]; [by rewrite lookup_insert_eq|].
      rewrite lookup_insert_ne by done. rewrite E7 by done. by apply U7, Hfr. }
  assert (Hlr : ∀ f' : frame, f' = f → match f' with FL _ _ _ _ => True | FR _ w _ _ => at_ s w ≠ Some a end).
  { intros f' ->. destruct f; [done|]. autorewrite with rbt in *. split_hyps. by apply at_ne. }
  specialize (Hlr f eq_refl).
  assert (Hp : ∀ p, p ∉ addrs l → p ∉ addrs r → p ∉ addrs X) by (by destruct HX as [[_ ->]|[_ ->]]).
  destruct f as [cp p bp w|cp w p bp]; at_addr K p H; specialize (Hp p ltac:(done) ltac:(done)); destruct X as [|cx lx x bx rx].
  - splice_tac t H Hdone (FL cp p bp w :: K).
  - splice_tac t H Hdone (FL cp p bp w :: K).
  - splice_tac t H Hdone (FR cp w p bp :: K).
  - splice_tac t H Hdone (FR cp w p bp :: K).
Qed.

Lemma clear_links_ok sn t x a nd :
  holds (<[a := nd]> h0) s sn t x → blocks t !! a = Some nd → a ∉ s :: addrs x →
  ∃ t' nd', clear_links t (Some a) = Some t' ∧ holds (<[a := nd']> h0) s sn t' x.
Proof.
  intros H Ha Hn. unfold clear_links, st_left, st_right, st_parent. pose proof H as [U1 U2 U3 U4 U5 U6 U7].
  destruct t as [h rt sp]. cbn [blocks root sentinel] in *. run. eexists _, _. split; [reflexivity|].
  split; cbn [blocks root sentinel]; try done.
  - rewrite !lookup_insert_ne; [done|set_solver..].
  - do 3 (apply rep_frame; [set_solver|]). done.
  - intros a' Ha'. destruct (decide (a' = a)) as [->|].
    + rewrite !lookup_insert_eq. reflexivity.
    + rewrite !lookup_insert_ne by done. specialize (U7 a' Ha'). by rewrite lookup_insert_ne in U7.
Qed.

Definition blacken X : tree := match X with Leaf => Leaf | Node _ l a b r => Node false l a b r end.

(** The root goes and its only child becomes the root. *)
Lemma root_out_ok sn t c l a b r X :
  holds h0 s sn t (Node c l a b r) → only_child l r X →
  ∃ t' sn' nd, (t ← rbt_black (t <| root := at_ s X |>) (at_ s X); t ← st_parent t (at_ s X) None;
                clear_links t (Some a)) = Some t' ∧
    holds (<[a := nd]> h0) s sn' t' (blacken X).
Proof.
  intros H HX. pose proof (taken_out [] c l a b r X HX) as Hp. cbn [fill] in Hp.
  pose proof (only_child_rep [] _ _ _ _ _ _ _ _ H HX) as (Hax & Fax & Fsx & Fx & Hx).
  assert (Hnd : NoDup (s :: addrs X)).
  { pose proof (hd_nodup _ _ _ _ _ H) as N. rewrite Hp in N. by apply NoDup_cons in N as [_ ?]. }
  assert (Hfr : ∀ a', a' ≠ a → a' ∉ s :: addrs X → blocks t !! a' = h0 !! a').
  { intros a' ? ?. apply (hd_frame _ _ _ _ _ H). rewrite Hp. by apply not_elem_of_cons. }
  at_addr (@nil frame) a H. clear Hp.
  assert (Hdone : ∀ h' sn' nd, h' !! s = Some sn' → n_color sn' = 0 → h' !! a = Some nd → rep h' s (blacken X) None →
    (∀ a', a' ∉ s :: addrs X → a' ≠ a → h' !! a' = blocks t !! a') →
    ∃ t' sn' nd, Some (mk_rbtree h' (at_ s X) (sentinel t)) = Some t' ∧ holds (<[a := nd]> h0) s sn' t' (blacken X)).
  { intros h' sn' nd E1 E2 E3 E4 E5. eexists _, sn', nd. split; [done|].
    assert (addrs (blacken X) = addrs X ∧ at_ s (blacken X) = at_ s X) as [Ea Er] by (by destruct X).
    split; cbn [blocks root sentinel]; rewrite ?Ea, ?Er; try done; [apply H|].
    intros a' Ha'. destruct (decide (a' = a)) as [->|]; [by rewrite lookup_insert_eq|].
    rewrite lookup_insert_ne by done. rewrite E5 by done. by apply Hfr. }
  destruct X as [|cx lx x bx rx]; split_hyps; open_tree t H; unfold clear_links, rbt_black, st_left, st_right, st_parent; run.
  - eapply Hdone; [rewrite ?lookup_insert_ne by ne; apply lookup_insert_eq|done|apply lookup_insert_eq|done|].
    intros a' Ha' ?. rewrite !lookup_insert_ne by set_solver. done.
  - autorewrite with rbt in *. split_hyps. eapply Hdone.
    + rewrite ?lookup_insert_ne by ne. eassumption.
    + done.
    + apply lookup_insert_eq.
    + cbn [blacken]. read_tac.
    + intros a' Ha' ?. autorewrite with rbt in Ha'. split_hyps. rewrite ?lookup_insert_ne by ne. done.
Qed.

Ltac replace_tac Hdone Hv R K :=
  destruct R; cbn [rep rep_up] in *; autorewrite with rbt in *; split_hyps; run; (eapply Hdone;
  [ first [reflexivity | etransitivity; [eassumption|]; by apply at_fill]
  | rewrite ?lookup_insert_ne by ne; done
  | rewrite ?lookup_insert_ne by ne; first [apply lookup_insert_eq|eassumption]
  | apply (rep_fill _ _ K); read_tac
  | let a' := fresh "a" in let Ha := fresh "Ha" in let Hn := fresh "Hn" in
    intros a' Ha Hn; rewrite (addrs_fill K) in Ha; autorewrite with rbt in Ha; split_hyps;
    rewrite ?lookup_insert_ne by ne; done ]).

Lemma fresh_in e K c l a b r :
  NoDup (e ++ addrs (fill K (Node c l a b r))) → a ∉ e ++ lefts K ++ addrs l ++ addrs r ++ rights K.
Proof.
  rewrite addrs_fill, addrs_node. intros N.
  assert (e ++ lefts K ++ (addrs l ++ a :: addrs r) ++ rights K ≡ₚ a :: e ++ lefts K ++ addrs l ++ addrs r ++ rights K) as E by solve_Permutation.
  rewrite E in N. by apply NoDup_cons in N as [? _].
Qed.

(** The block [y], outside the tree, takes the place of [a]; the root of the right
    subtree may know any parent before. *)
Lemma replace_ok K sn h rt c L a b R pR y ny :
  rt = at_ s (fill K (Node c L a b R)) → h !! s = Some sn → n_color sn = 0 →
  h !! a = Some (node_of c b (at_ s L) (at_ s R) (up K)) → h !! y = Some ny →
  rep h s L (Some a) → rep h s R pR → rep_up h s K (Some a) → L ≠ Leaf →
  NoDup (s :: y :: addrs (fill K (Node c L a b R))) →
  (∀ z, z ∉ s :: y :: addrs (fill K (Node c L a b R)) → h !! z = h0 !! z) →
  ∃ t' nd, replace_block (mk_rbtree h rt (Some s)) (Some a) (Some y) = Some t' ∧
    holds (<[a := nd]> h0) s sn t' (fill K (Node c L y (data_of ny) R)) ∧ blocks t' !! a = Some nd.
Proof.
  intros U4 U2 U3 La Ly R1 R2 R3 HL N Fr.
  assert (Hp : s :: y :: addrs (fill K (Node c L a b R)) ≡ₚ a :: s :: addrs (fill K (Node c L y (data_of ny) R)))
    by (rewrite !addrs_fill, !addrs_node; solve_Permutation).
  assert (Hnd : NoDup (s :: addrs (fill K (Node c L y (data_of ny) R)))) by (rewrite Hp in N; by apply NoDup_cons in N as [_ ?]).
  assert (Fa : a ∉ s :: addrs (fill K (Node c L y (data_of ny) R))) by (rewrite Hp in N; by apply NoDup_cons in N as [? _]).
  assert (Hfr : ∀ z, z ≠ a → z ∉ s :: addrs (fill K (Node c L y (data_of ny) R)) → h !! z = h0 !! z).
  { intros z ? ?. apply Fr. rewrite Hp. by apply not_elem_of_cons. }
  assert (Hdone : ∀ h' rt' nd, rt' = at_ s (fill K (Node c L y (data_of ny) R)) →
    h' !! s = Some sn → h' !! a = Some nd → rep h' s (fill K (Node c L y (data_of ny) R)) None →
    (∀ z, z ∉ s :: addrs (fill K (Node c L y (data_of ny) R)) → z ≠ a → h' !! z = h !! z) →
    ∃ t' nd, Some (mk_rbtree h' rt' (Some s)) = Some t' ∧
      holds (<[a := nd]> h0) s sn t' (fill K (Node c L y (data_of ny) R)) ∧ blocks t' !! a = Some nd).
  { intros h' rt' nd E1 E2 E3 E4 E5. eexists _, nd. split; [done|]. split; [|done]. split; cbn [blocks root sentinel]; try done.
    intros z Hz. destruct (decide (z = a)) as [->|]; [by rewrite lookup_insert_eq|].
    rewrite lookup_insert_ne by done. rewrite E5 by done. by apply Hfr. }
  clear Hp Hnd Fa Hfr Fr.
  assert (Hroot : match K with [] => rt = Some a | _ => rt ≠ Some a end).
  { pose proof (fresh_in [s; y] _ _ _ _ _ _ N) as F. destruct K as [|f K]; [done|]. destruct (root_up s K f (Node c L a b R)) as (a' & E & Ha').
    rewrite U4, E. intros [= ->]. autorewrite with rbt in F. set_solver. }
  destruct L as [|cl ll u bu lr]; [done|]. cbn [rep] in R1. destruct R1 as (Lu & R1 & R1').
  pose proof (fresh_in [s; y] _ _ _ _ _ _ N) as Fa. pose proof (fresh_in [s; y] (FL c a b R :: K) _ _ _ _ _ N) as Fu.
  pose proof N as [Fs Fy]%NoDup_cons. apply NoDup_cons in Fy as [Fy _]. rewrite addrs_fill in Fy.
  autorewrite with rbt in Fa, Fu, Fy.
  rewrite not_elem_of_cons, addrs_fill in Fs. autorewrite with rbt in Fs. split_hyps.
  unfold replace_block, rbt_copy_color, st_left, st_right, st_parent.
  destruct ny as [ys ye yl yr yp yc yq]. unfold data_of in *.
  assert (Hv : match R with Leaf => True | Node cr rl v bv rr =>
    v ∉ [s; y] ++ lefts (FR c (Node cl ll u bu lr) a b :: K) ++ addrs rl ++ addrs rr ++ rights (FR c (Node cl ll u bu lr) a b :: K) end).
  { destruct R; [done|]. exact (fresh_in [s; y] (FR c (Node cl ll u bu lr) a b :: K) _ _ _ _ _ N). }
  destruct K as [|[cp p bp w|cp w p bp] K].
  - replace_tac Hdone Hv R (@nil frame).
  - pose proof (fresh_in [s; y] K _ _ _ _ _ N) as Fp. replace_tac Hdone Hv R (FL cp p bp w :: K).
  - pose proof (fresh_in [s; y] K _ _ _ _ _ N) as Fp.
    assert (at_ s w ≠ Some a) by (autorewrite with rbt in *; split_hyps; by apply at_ne).
    replace_tac Hdone Hv R (FR cp w p bp :: K).
Qed.

(** The successor is the right child itself. *)
Definition relink t (block temp subst : ptr) : option rbtree :=
  t ← unlink t subst temp; sp ← ld n_parent t subst;
  if decide (sp = block) then st_parent t temp subst else st_parent t temp sp.

Record ready sn t K c L a b R pR y ny : Prop := {
  rd_sentinel : blocks t !! s = Some sn;
  rd_black : n_color sn = 0;
  rd_block : blocks t !! a = Some (node_of c b (at_ s L) (at_ s R) (up K));
  rd_subst : blocks t !! y = Some ny;
  rd_left : rep (blocks t) s L (Some a);
  rd_right : rep (blocks t) s R pR;
  rd_up : rep_up (blocks t) s K (Some a);
  rd_nodup : NoDup (s :: y :: addrs (fill K (Node c L a b R)));
  rd_frame : ∀ z, z ∉ s :: y :: addrs (fill K (Node c L a b R)) → blocks t !! z = h0 !! z;
  rd_root : root t = at_ s (fill K (Node c L a b R));
  rd_tree : sentinel t = Some s }.

Lemma relink_child_ok sn t K c L a b cy (y : loc) by_ ry :
  holds h0 s sn t (fill K (Node c L a b (Node cy Leaf y by_ ry))) → L ≠ Leaf →
  ∃ t' sn' ny, relink t (Some a) (at_ s ry) (Some y) = Some t' ∧
    ready sn' t' K c L a b ry (Some y) y ny ∧ data_of ny = by_ ∧ (ry = Leaf → n_parent sn' = Some y).
Proof.
  intros H HL. at_addr K a H. at_addr (FR c L a b :: K) y H. fresh_sentinel K H.
  pose proof (holds_rep _ _ _ _ _ _ H) as [R1 (_ & R2 & _ & _ & R3)].
  assert (HyL : at_ s L ≠ Some y) by (autorewrite with rbt in *; split_hyps; by apply at_ne).
  assert (Hp : s :: y :: addrs (fill K (Node c L a b ry)) ≡ₚ s :: addrs (fill K (Node c L a b (Node cy Leaf y by_ ry)))).
  { rewrite !addrs_fill, !addrs_node. change (addrs Leaf) with (@nil loc). solve_Permutation. }
  assert (Hnd : NoDup (s :: y :: addrs (fill K (Node c L a b ry)))) by (rewrite Hp; apply H).
  assert (Hfr : ∀ z, z ∉ s :: y :: addrs (fill K (Node c L a b ry)) → blocks t !! z = h0 !! z).
  { intros z. rewrite Hp. apply H. }
  assert (Hro : root t = at_ s (fill K (Node c L a b ry))).
  { rewrite (hd_root _ _ _ _ _ H). destruct K; [done|]. by apply at_fill. }
  clear Hp. unfold relink, unlink, st_left, st_right, st_parent. destruct ry as [|cr rl v bv rr].
  - open_tree t H. run. eexists _, (sn <| n_parent := Some y |>), _. split; [reflexivity|]. split; [|split; [apply data_of_node|done]].
    autorewrite with rbt in *. split_hyps.
    split; cbn [blocks root sentinel]; rewrite ?lookup_insert_ne by ne;
      first [apply lookup_insert_eq | eassumption | done | read_tac | idtac].
    + intros z Hz. rewrite <- Hfr by done. autorewrite with rbt in Hz.
      rewrite addrs_fill in Hz. autorewrite with rbt in Hz. split_hyps. rewrite !lookup_insert_ne by ne. done.
  - at_addr (FR cy Leaf y by_ :: FR c L a b :: K) v H. open_tree t H. run. eexists _, sn, _. split; [reflexivity|]. split; [|split; [apply data_of_node|done]].
    autorewrite with rbt in *. split_hyps. cbn [rep] in R3. split_hyps.
    split; cbn [blocks root sentinel]; rewrite ?lookup_insert_ne by ne;
      first [apply lookup_insert_eq | eassumption | done | read_tac | idtac].
    + intros z Hz. rewrite <- Hfr by done. autorewrite with rbt in Hz.
      rewrite addrs_fill in Hz. autorewrite with rbt in Hz. split_hyps. rewrite !lookup_insert_ne by ne. done.
Qed.

(** ** udx_sack_tree_remove *)

Lemma rb_blacken c n x : rb c n x → ∃ m, rb false m (blacken x).
Proof. destruct 1; eexists; by econstructor. Qed.
Lemma entries_blacken x : entries (blacken x) = entries x.
Proof. by destruct x. Qed.

(** The colours do not depend on which block stands where. *)
Lemma rb_up_swap K2 c L a b K a' b' cx n :
  rb_up (K2 ++ FR c L a b :: K) cx n → rb_up (K2 ++ FR c L a' b' :: K) cx n.
Proof.
  revert cx n. induction K2 as [|f K2 IH]; intros cx n; cbn [app].
  - inversion 1; subst; by econstructor.
  - inversion 1; subst; econstructor; eauto.
Qed.

(** What the removal of [a] from [x] establishes. *)
Definition removed t (a : loc) (o : option rbtree) (e : list (loc * sack_block)) : Prop :=
  ∃ t' sn' y m nd, o = Some t' ∧ holds (<[a := nd]> h0) s sn' t' y ∧ rb false m y ∧ entries y = e.

(** The end of the removal: the subtree [X] has lost a block of colour [red]. *)
Lemma rebalance_ok sn t K X (a : loc) nd (red : bool) n :
  holds (<[a := nd]> h0) s sn t (fill K X) → (X = Leaf → n_parent sn = up K) → blocks t !! a = Some nd →
  a ∉ s :: addrs (fill K X) →
  (if red then rb false n X else ∃ c, rb c n X) → rb_up K red (if red then n else S n) →
  removed t a (t ← clear_links t (Some a); if red : bool then Some t else remove_fixup (fuel_of t) t (at_ s X))
    (entries (fill K X)).
Proof.
  intros H Hs Ha Hn HX Hk. destruct (clear_links_ok _ _ _ _ _ H Ha Hn) as (t1 & nd' & -> & H1). cbn [mbind option_bind].
  destruct red.
  - destruct (rb_fill K false n X HX) as [m Hm]; [by eapply rb_up_weaken|]. by exists t1, sn, (fill K X), m, nd'.
  - destruct HX as [cx HX].
    destruct (remove_fixup_ok (<[a := nd']> h0) s sn (fuel_of t1) K t1 X n H1 Hs) as (t2 & y & m & E & H2 & Hb & Ee).
    + destruct cx; [right; by apply black_of_red|by left].
    + done.
    + right. pose proof (holds_size _ _ _ _ _ H1). pose proof (context_length K X). unfold fuel_of. lia.
    + by exists t2, sn, y, m, nd'.
Qed.

(** A block with an empty child. *)
Lemma remove_simple sn t K c l (a : loc) b r X m :
  holds h0 s sn t (fill K (Node c l a b r)) → rb false m (fill K (Node c l a b r)) → only_child l r X →
  remove_choose t (Some a) = Some (at_ s X, Some a) →
  removed t a (udx_sack_tree_remove t (Some a)) (entries (fill K X)).
Proof.
  intros H Hb HX Hc. unfold udx_sack_tree_remove. rewrite Hc. cbn [mbind option_bind].
  apply rb_unfill in Hb as (c' & n & Hb & Hk).
  assert (a ∉ s :: addrs (fill K X)) as Hn.
  { pose proof (hd_nodup _ _ _ _ _ H) as N. rewrite (taken_out K c l a b r X HX) in N. by apply NoDup_cons in N as [? _]. }
  destruct K as [|f K].
  - rewrite decide_True by by rewrite (holds_is_root _ _ _ _ _ _ _ _ _ H).
    destruct (root_out_ok _ _ _ _ _ _ _ _ H HX) as (t' & sn' & nd & E & H'). 
    assert (∃ cX nX, rb cX nX X) as (cX & nX & HbX) by (inversion Hb; subst; destruct HX as [[_ ->]|[_ ->]]; eauto).
    destruct (rb_blacken _ _ _ HbX) as [m' Hm']. exists t', sn', (blacken X), m', nd. split_and!; [exact E|done|done|].
    by rewrite entries_blacken.
  - rewrite decide_False by (intros E; by apply (holds_not_root _ _ _ _ _ _ _ _ _ _ _ H)).
    rewrite (color_ok _ _ _ _ _ _ _ _ _ _ H). cbn [mbind option_bind].
    destruct (splice_ok _ _ _ _ _ _ _ _ _ _ H HX) as (t' & sn' & nd & E & H' & Ha & _ & Hs'). unfold splice in E.
    destruct (unlink t (Some a) (at_ s X)) as [t1|]; [|done]. cbn [mbind option_bind] in *.
    rewrite decide_True by done. rewrite E. cbn [mbind option_bind].
    destruct c.
    + inversion Hb; subst. apply (rebalance_ok sn' t' (f :: K) X a nd true n); try done. by destruct HX as [[_ ->]|[_ ->]].
    + inversion Hb as [| |n0]; subst. apply (rebalance_ok sn' t' (f :: K) X a nd false n0); try done. destruct HX as [[_ ->]|[_ ->]]; eauto.
Qed.

Lemma min_choose sn t K c L (a : loc) b R :
  holds h0 s sn t (fill K (Node c L a b R)) → L ≠ Leaf → R ≠ Leaf →
  ∃ K2 cy y by_ ry, R = fill K2 (Node cy Leaf y by_ ry) ∧ leftmost K2 ∧
    remove_choose t (Some a) = Some (at_ s ry, Some y).
Proof.
  intros H HL HR. destruct (leftmost_of R HR) as (K2 & cy & y & by_ & ry & -> & Hk).
  exists K2, cy, y, by_, ry. split_and!; [done|done|]. unfold remove_choose.
  rewrite (left_ok _ _ _ _ _ _ _ _ _ _ H). cbn [mbind option_bind]. rewrite (right_ok _ _ _ _ _ _ _ _ _ _ H). cbn [mbind option_bind].
  rewrite decide_False by (by rewrite (node_at _ _ _ (FL c a b _ :: K) t L H)).
  rewrite decide_False by (by rewrite (node_at _ _ _ (FR c L a b :: K) t _ H)).
  rewrite (min_ok _ _ _ (FR c L a b :: K) t _ H) by done. cbn [mbind option_bind].
  rewrite entries_fill, (leftmost_before _ Hk). cbn [entries app head fmap option_fmap option_map fst].
  assert (Hy : holds h0 s sn t (fill (K2 ++ FR c L a b :: K) (Node cy Leaf y by_ ry))) by (rewrite fill_app; exact H).
  by rewrite (right_ok _ _ _ _ _ _ _ _ _ _ Hy).
Qed.

Lemma st_parent_kept g t q t' p :
  st g t q = Some t' → (∀ n, n_parent (g n) = n_parent n) → ld n_parent t' p = ld n_parent t p.
Proof.
  unfold st, ld, load. intros E Hg. destruct q as [q|]; [|done]. cbn [mbind option_bind] in E.
  destruct (blocks t !! q) as [n|] eqn:En; [|done]. injection E as <-. destruct p as [p|]; [|done]. cbn [mbind option_bind blocks upd_field].
  destruct (decide (p = q)) as [->|]; [by rewrite lookup_insert_eq, En; cbn; rewrite Hg|by rewrite lookup_insert_ne].
Qed.
Lemma unlink_parent t subst temp t' p : unlink t subst temp = Some t' → ld n_parent t' p = ld n_parent t p.
Proof.
  unfold unlink. destruct (ld n_parent t subst) as [q|]; [|done]. cbn [mbind option_bind].
  destruct (ld n_left t q); [|done]. cbn [mbind option_bind]. case_decide; intros E; by apply (st_parent_kept _ _ _ _ _ E).
Qed.

Lemma relink_ok sn t K2 K c L (a : loc) b cy (y : loc) by_ ry :
  holds h0 s sn t (fill (K2 ++ FR c L a b :: K) (Node cy Leaf y by_ ry)) → leftmost K2 → L ≠ Leaf →
  ∃ t' sn' ny pR, relink t (Some a) (at_ s ry) (Some y) = Some t' ∧
    ready sn' t' K c L a b (fill K2 ry) pR y ny ∧ data_of ny = by_ ∧ (ry = Leaf → n_parent sn' = up (K2 ++ FR c L y by_ :: K)).
Proof.
  intros H Hk HL. destruct K2 as [|f K2].
  { destruct (relink_child_ok sn t K c L a b cy y by_ ry H HL) as (t' & sn' & ny & E & Hr & Hd & Hs).
    by exists t', sn', ny, (Some y). }
  destruct (splice_ok f (K2 ++ FR c L a b :: K) sn t cy Leaf y by_ ry ry H) as (t' & sn' & ny & E & H' & Hy & Hd & Hs); [by left|].
  exists t', sn', ny, (Some a). split_and!; [| |done|done].
  - unfold splice in E. unfold relink. destruct (unlink t (Some y) (at_ s ry)) as [t1|] eqn:Eu; [|done]. cbn [mbind option_bind] in *.
    rewrite (unlink_parent _ _ _ _ _ Eu) in *. rewrite (parent_ok _ _ _ _ _ _ _ _ _ _ H) in *. cbn [mbind option_bind] in *.
    rewrite decide_False; [done|]. cbn [app up]. intros [= Ef].
    pose proof (hd_nodup _ _ _ _ _ H) as N. apply NoDup_cons in N as [_ N].
    change (fill ((f :: K2) ++ ?K') ?x) with (fill (K2 ++ K') (plug f x)) in N. rewrite fill_app in N. cbn [fill plug] in N.
    rewrite addrs_fill, addrs_node in N. apply NoDup_app in N as (_ & _ & N). apply NoDup_app in N as (N & _ & _).
    apply NoDup_app in N as (_ & _ & N). apply NoDup_cons in N as [N _]. apply N. rewrite <- Ef.
    apply in_addrs_fill. destruct f; cbn [plug faddr]; rewrite addrs_node; set_solver.
  - pose proof (fill_app (f :: K2) (FR c L a b :: K) ry) as Ef.
    pose proof (taken_out (f :: K2 ++ FR c L a b :: K) cy Leaf y by_ ry ry ltac:(by left)) as Hp.
    pose proof (hd_nodup _ _ _ _ _ H) as N. change ((f :: K2) ++ ?K') with (f :: K2 ++ K') in *. rewrite Hp in N.
    rewrite Ef in H', N. cbn [fill plug] in H', N. clear Hp Ef H E Hs.
    change (fill K2 (plug f ry)) with (fill (f :: K2) ry) in *.
    pose proof (holds_rep _ _ _ _ _ _ H') as [R1 (R2 & R3 & R4)].
    split; try done; try apply H'.
    + rewrite Permutation_swap. done.
    + intros z Hz. rewrite (hd_frame _ _ _ _ _ H') by set_solver. rewrite lookup_insert_ne; [done|set_solver].
Qed.

Lemma remove_both sn t K c L (a : loc) b R m :
  holds h0 s sn t (fill K (Node c L a b R)) → rb false m (fill K (Node c L a b R)) → L ≠ Leaf → R ≠ Leaf →
  removed t a (udx_sack_tree_remove t (Some a)) (before K ++ entries L ++ entries R ++ after K).
Proof.
  intros H Hb HL HR. destruct (min_choose _ _ _ _ _ _ _ _ H HL HR) as (K2 & cy & y & by_ & ry & -> & Hk & Hc).
  unfold udx_sack_tree_remove. rewrite Hc. cbn [mbind option_bind].
  assert (Hy : holds h0 s sn t (fill (K2 ++ FR c L a b :: K) (Node cy Leaf y by_ ry))) by (rewrite fill_app; exact H).
  assert (Hby : rb false m (fill (K2 ++ FR c L a b :: K) (Node cy Leaf y by_ ry))) by (rewrite fill_app; exact Hb).
  apply rb_unfill in Hby as (c' & n & Hby & Hk2). pose proof (rb_up_swap _ _ _ _ _ _ y by_ _ _ Hk2) as Hk3.
  destruct (relink_ok _ _ _ _ _ _ _ _ _ _ _ _ Hy Hk HL) as (t2 & sn' & ny & pR & E2 & Hr & Hd & Hs).
  rewrite decide_False.
  2: { intros E. destruct K2 as [|f K2]; by apply (holds_not_root _ _ _ _ _ _ _ _ _ _ _ Hy). }
  rewrite (color_ok _ _ _ _ _ _ _ _ _ _ Hy). cbn [mbind option_bind]. unfold relink in E2.
  destruct (unlink t (Some y) (at_ s ry)) as [t1|]; [|done]. cbn [mbind option_bind] in *.
  assert (Nya : y ≠ a).
  { pose proof (rd_nodup _ _ _ _ _ _ _ _ _ _ _ Hr) as N. apply NoDup_cons in N as [_ [N _]%NoDup_cons]. intros ->. apply N.
    apply in_addrs_fill. rewrite addrs_node. set_solver. }
  rewrite decide_False by congruence. unfold remove_substitute.
  destruct (ld n_parent t1 (Some y)) as [sp|]; [|done]. cbn [mbind option_bind] in *. rewrite E2. cbn [mbind option_bind].
  destruct Hr as [D1 D2 D3 D4 D5 D6 D7 D8 D9 D10 D11]. destruct t2 as [h2 rt2 sp2]. cbn [blocks root sentinel] in *. subst sp2.
  destruct (replace_ok K sn' h2 rt2 c L a b (fill K2 ry) pR y ny) as (t3 & nd & -> & H3 & Ha); try done. cbn [mbind option_bind].
  assert (Ef : fill K (Node c L y (data_of ny) (fill K2 ry)) = fill (K2 ++ FR c L y (data_of ny) :: K) ry) by by rewrite fill_app.
  assert (Hna : a ∉ s :: addrs (fill (K2 ++ FR c L y (data_of ny) :: K) ry)).
  { rewrite <- Ef. assert (s :: y :: addrs (fill K (Node c L a b (fill K2 ry))) ≡ₚ a :: s :: addrs (fill K (Node c L y (data_of ny) (fill K2 ry)))) as Hp
      by (rewrite !addrs_fill, !addrs_node; solve_Permutation).
    rewrite Hp in D8. by apply NoDup_cons in D8 as [? _]. }
  rewrite Ef in H3. rewrite Hd in *.
  assert (removed t a (t ← clear_links t3 (Some a); if cy then Some t else remove_fixup (fuel_of t) t (at_ s ry))
           (entries (fill (K2 ++ FR c L y by_ :: K) ry))) as Hend.
  { destruct cy.
    - inversion Hby; subst c' n. apply (rebalance_ok sn' t3 _ _ a nd true n0); done.
    - inversion Hby; subst. eapply (rebalance_ok sn' t3 _ _ a nd false); try done. eauto. }
  destruct Hend as (t' & sn'' & x & m' & nd' & E & Hh & Hbx & He). exists t', sn'', x, m', nd'. split_and!; [exact E|done|done|].
  rewrite He, !entries_fill, before_app, after_app, (leftmost_before _ Hk). cbn [before after entries app].
  by rewrite <- !app_assoc.
Qed.
End Remove.

Lemma list_remove base l1 (b : sack_block) l2 :
  in_window base (l1 ++ b :: l2) → Recv.udx_sack_tree_remove (l1 ++ b :: l2) b = l1 ++ l2.
Proof.
  intros (W1 & W2 & W3 & W4 & W5)%in_window_app. unfold Recv.udx_sack_tree_remove.
  rewrite list.filter_app, filter_cons_False by (intros F; by apply F).
  pose proof (iw_range _ _ W1) as R1. pose proof (iw_range _ _ W2) as R2. rewrite Forall_forall in R1, R2, W4, W5.
  assert (∀ l : list sack_block, (∀ y, y ∈ l → sb_start y ≠ sb_start b) → filter (λ x, sb_start x ≠ sb_start b) l = l) as Hid.
  { induction l as [|y l IH]; intros Hl; [done|]. rewrite filter_cons_True by (apply Hl; left). rewrite IH; [done|]. intros z Hz. apply Hl. by right. }
  rewrite !Hid; [done|..].
  - intros y Hy E. specialize (R2 y Hy). specialize (W5 y Hy). cbn in W5. rewrite E in *. lia.
  - intros y Hy E. specialize (R1 y Hy). specialize (W4 y Hy). cbn in W4. rewrite E in *. lia.
Qed.

(** C20: udx_sack_tree_remove refines taking a block out of the list of blocks.  On a
    red-black tree it follows no bad pointer and ends, with one child, with two, and at the
    root; the tree is again red-black; its blocks are the others, each at the address
    where it was; and memory outside the tree is left alone. *)
Theorem sack_tree_remove_refines t l1 (a : loc) b l2 :
  is_sack_tree t (l1 ++ (a, b) :: l2) →
  ∃ t', udx_sack_tree_remove t (Some a) = Some t' ∧ is_sack_tree t' (l1 ++ l2) ∧
    (∀ base, in_window base (l1 ++ (a, b) :: l2).*2 →
      Recv.udx_sack_tree_remove (l1 ++ (a, b) :: l2).*2 b = (l1 ++ l2).*2) ∧
    ∀ a', a' ∉ (l1 ++ (a, b) :: l2).*1 → sentinel t ≠ Some a' → blocks t' !! a' = blocks t !! a'.
Proof.
  intros (s & sn & x & m & H & Hb & He).
  assert (removed (blocks t) s t a (udx_sack_tree_remove t (Some a)) (l1 ++ l2)) as Hrm.
  { apply locate in He as (K & c & l & r & -> & <- & <-).
    rewrite <- !app_assoc.
    assert (∀ z, z = Leaf ∨ z ≠ Leaf) as Hz by (intros []; [by left|by right]).
    destruct (Hz l) as [->|Hl]; [|destruct (Hz r) as [->|Hr]].
    - cbn [entries app]. rewrite <- entries_fill.
      apply (remove_simple _ _ _ _ _ _ _ _ _ _ _ _ H Hb); [by left|]. unfold remove_choose.
      rewrite (left_ok _ _ _ _ _ _ _ _ _ _ H), (right_ok _ _ _ _ _ _ _ _ _ _ H). cbn [mbind option_bind at_].
      by rewrite decide_True by (by rewrite (hd_sentinel _ _ _ _ _ H)).
    - cbn [entries app]. rewrite <- entries_fill.
      apply (remove_simple _ _ _ _ _ _ _ _ _ _ _ _ H Hb); [by right|]. unfold remove_choose.
      rewrite (left_ok _ _ _ _ _ _ _ _ _ _ H), (right_ok _ _ _ _ _ _ _ _ _ _ H). cbn [mbind option_bind].
      rewrite decide_False by (by rewrite (node_at _ _ _ (FL c a b Leaf :: K) t l H)).
      by rewrite decide_True by (by rewrite (hd_sentinel _ _ _ _ _ H)).
    - by apply (remove_both _ _ _ _ _ _ _ _ _ _ _ H Hb). }
  destruct Hrm as (t' & sn' & y & m' & nd & E & H' & Hb' & Hy).
  exists t'. split_and!; [done| | |].
  - exists s, sn', y, m'. split_and!; [|done|done]. destruct H' as [U1 U2 U3 U4 U5 U6 U7]. by split.
  - intros base Hw. rewrite !fmap_app in *. by apply (list_remove base).
  - intros a' Ha' Hs'. rewrite (hd_frame _ _ _ _ _ H'), lookup_insert_ne; [done| |].
    + intros ->. apply Ha'. rewrite fmap_app. cbn. set_solver.
    + rewrite (hd_sentinel _ _ _ _ _ H) in Hs'. unfold addrs. rewrite Hy. rewrite !fmap_app in *. cbn in *. set_solver.
Qed.

Lemma sack_tree_remove_refines_witness :
  ∃ t', udx_sack_tree_remove example_tree (Some 2%positive) = Some t' ∧
    is_sack_tree t' [(3%positive, mk_sack_block 5 7 [])].
Proof.
  destruct (sack_tree_remove_refines example_tree [] 2%positive (mk_sack_block 0 1 []) [(3%positive, mk_sack_block 5 7 [])])
    as (t' & H1 & H2 & _); [apply example_is_sack_tree|].
  exists t'. split; [exact H1|exact H2].
Defined.
