(* ===== verification/Socket.v ===== *)
(** * Sockets, timewait records and the udx_t (src/udx.c)

    The functions run on the whole system [sys] (no stream is running).  User
    code is the parameter [ucb]: any function of the system. *)

From S2P Require Import Prelude SeqNum Endian Wire Cirbuf WinFilter Stream Ctx.

Definition UDX_SOCKET_RECEIVING : Z := 1.
Definition UDX_SOCKET_BOUND : Z := 2.
Definition UDX_SOCKET_CLOSED : Z := 4.
Definition UDX_DEFAULT_TTL : Z := 64.
Definition UDX_STREAM_TIMEWAIT_TIMEOUT_MS : Z := 5000.

Record sys := mk_sys { y_world : world; y_io : io; y_next : positive }.
#[export] Instance eta_sys : Eta sys := λ r, mk_sys (y_world r) (y_io r) (y_next r).

Notation "y <| 'socket' k ::= f |>" :=
  (y <| y_world ::= λ w, w <| w_socket_objs ::= alter f k |> |>)
  (at level 12, k at next level, f at next level, left associativity) : udx_scope.

(** ** Addresses *)

Definition is_addr_v4_mapped (a : sockaddr) : bool :=
  bool_decide (sa_fam a = AF_INET6)
  && bool_decide (take 12 (sin_addr a) = repeat 0 10 ++ [255; 255]).
Definition addr_to_v4 (a : sockaddr) : sockaddr :=
  mk_sockaddr AF_INET (sin_port a) (take 4 (drop 12 (sin_addr a))).
Definition addr_to_v6 (a : sockaddr) : sockaddr :=
  mk_sockaddr AF_INET6 (sin_port a) (repeat 0 10 ++ [255; 255] ++ take 4 (sin_addr a)).

(** ** Lists of link.h: the newest element first *)

Definition udx__link_add (l : list positive) (v : positive) : list positive := v :: l.
Definition udx__link_remove (l : list positive) (v : positive) : list positive := filter (.≠ v) l.
(** [v->next] of an element of the list. *)
Fixpoint link_next (l : list positive) (v : positive) : option positive :=
  match l with [] => None | x :: l => if decide (x = v) then head l else link_next l v end.

(** ** The stream table (StreamTable.v refines it) *)

Definition entry_set (y : sys) (id : Z) (e : entry) : sys * option entry :=
  (y <| y_world ::= λ w, w <| w_stream_table ::= <[id := e]> |> |>, w_stream_table (y_world y) !! id).
Definition entry_remove (y : sys) (id : Z) : sys * option entry :=
  (y <| y_world ::= λ w, w <| w_stream_table ::= delete id |> |>, w_stream_table (y_world y) !! id).

Section Socket.
Context `{Env}.
Variable ucb : callback → sys → option sys.

Definition ycall (k : callback) (y : sys) : option sys :=
  ucb k (y <| y_io ::= λ i, i <| io_log ::= cons (EvCallback k) |> |>).

Definition ref_dec (y : sys) : option sys :=
  let y := y <| y_world ::= λ w, w <| w_refs ::= λ r, r - 1 |> |> in
  if truthy (w_refs (y_world y)) then Some y
  else if w_on_idle (y_world y) then ycall CbIdle y else Some y.

Definition get_socket (y : sys) (k : socket_id) : option socket := w_socket_objs (y_world y) !! k.

(** The close callback libuv runs for each of the three handles of a socket. *)
Definition on_udx_socket_handle_close (y : sys) (k : socket_id) : option sys :=
  let y := y <| socket k ::= λ o, o <| sk_nrefs ::= λ n, n - 1 |> |> in
  o ← get_socket y k;
  if sk_nrefs o =? 0 then
    y ← (if sk_on_close o then ycall (CbSocketClose k) y else Some y);
    ref_dec y
  else Some y.

(** ** Timewait *)

(** Unlinks the record from the table and from its socket; libuv then frees it. *)
Definition timewait_timeout (y : sys) (t : positive) : option sys :=
  tw ← w_timewaits (y_world y) !! t;
  let '(y, e) := entry_remove y (tw_local_id tw) in
  assert! bool_decide (e = Some (EntryTimewait t));
  o ← get_socket y (tw_socket tw);
  q ← queue_unlink (sk_timewait_queue o) t;
  Some (y <| socket (tw_socket tw) ::= λ o, o <| sk_timewait_queue := q |> |>
          <| y_world ::= λ w, w <| w_timewaits ::= delete t |> |>).

(** A data or end packet for a stream in timewait is answered by the final ACK. *)
Definition process_timewait (y : sys) (t : positive) (type : Z) : option sys :=
  if Z.land type UDX_HEADER_DATA_OR_END =? 0 then Some y
  else tw ← w_timewaits (y_world y) !! t;
       Some (y <| y_io ::= λ i, send_small i (tw_remote_addr tw) (tw_header tw) |>).

(** ** Opening and closing *)

Definition udx_init (on_idle : bool) : world := mk_world 0 false on_idle [] [] ∅ ∅ ∅ ∅ ∅ ∅ ∅.
Definition udx_is_idle (y : sys) : bool := w_refs (y_world y) =? 0.

Definition socket_zero : socket :=
  mk_socket 0 [] [] [] 0 0 0 UDX_DEFAULT_TTL false false (mk_counters 0 0 0 0) false false.

Definition udx_socket_init (y : sys) (k : socket_id) (close_cb : bool) : sys * Z :=
  if w_teardown (y_world y) then (y, UV_EINVAL)
  else (y <| y_world ::= λ w,
          w <| w_refs ::= λ r, r + 1 |> <| w_sockets ::= λ l, udx__link_add l k |>
            <| w_socket_objs ::= <[k := socket_zero <| sk_ttl := UDX_DEFAULT_TTL |>
                                          <| sk_on_close := close_cb |> <| sk_nrefs := 3 |>]> |> |>, 0).

Definition udx_socket_recv_start (o : socket) : socket * Z :=
  if has (sk_status o) UDX_SOCKET_RECEIVING then (o, UV_EALREADY)
  else (o <| sk_on_recv := true |> <| sk_status ::= λ f, set_flag f UDX_SOCKET_RECEIVING |>, 0).
Definition udx_socket_recv_stop (o : socket) : socket * Z :=
  if Z.land (sk_status o) UDX_SOCKET_RECEIVING =? 0 then (o, 0)
  else (o <| sk_on_recv := false |> <| sk_status ::= λ f, clear_flag f UDX_SOCKET_RECEIVING |>, 0).

Definition udx_socket_get_ttl (o : socket) : Z := sk_ttl o.
(** uv_udp_set_ttl is taken to succeed. *)
Definition udx_socket_set_ttl (o : socket) (ttl : Z) : socket * Z :=
  if (ttl <? 1) || (255 <? ttl) then (o, UV_EINVAL)
  else (o <| sk_ttl := ttl |> <| sk_uv_ttl := ttl |>, 0).

Fixpoint close_timewaits (fuel : nat) (y : sys) (k : socket_id) : option sys :=
  o ← get_socket y k;
  match sk_timewait_queue o, fuel with
  | [], _ => Some y
  | _, O => None
  | t :: _, S fuel => y ← timewait_timeout y t; close_timewaits fuel y k
  end.
Fixpoint cancel_sends (fuel : nat) (y : sys) (k : socket_id) : option sys :=
  o ← get_socket y k;
  match sk_ttl_queue o, fuel with
  | [], _ => Some y
  | _, O => None
  | r :: q, S fuel =>
      let y := y <| socket k ::= λ o, o <| sk_ttl_queue := q |> |> in
      req ← w_sends (y_world y) !! r;
      y ← (if ss_on_send req then ycall (CbSocketSend r UV_ECANCELED) y else Some y);
      cancel_sends fuel y k
  end.

(** The three uv_close calls take effect later, as [on_udx_socket_handle_close]. *)
Definition udx_socket_close (y : sys) (k : socket_id) : option (sys * Z) :=
  o ← get_socket y k;
  match sk_streams o with
  | _ :: _ => Some (y, UV_EBUSY)
  | [] =>
      let y := y <| socket k ::= λ o, o <| sk_status ::= λ f, set_flag f UDX_SOCKET_CLOSED |>
                                        <| sk_ttl_check := false |> <| sk_ttl_check_timer := false |> |> in
      y ← close_timewaits (length (sk_timewait_queue o)) y k;
      o ← get_socket y k;
      y ← cancel_sends (length (sk_ttl_queue o)) y k;
      Some (y <| y_world ::= λ w, w <| w_sockets ::= λ l, udx__link_remove l k |>
                              <| w_socket_next ::= <[k := link_next (w_sockets w) k]> |> |>, 0)
  end.

(** ** Datagrams with a TTL of their own *)

(** libuv sends with the TTL its handle has. *)
Definition sock_try_send (y : sys) (o : socket) (dest : sockaddr) (buf : list Z) : sys * Z :=
  let r := env_try_send (io_log (y_io y)) dest buf in
  (y <| y_io ::= λ i, i <| io_log ::= cons (EvTtlSend (sk_uv_ttl o) dest buf r) |> |>, r).

Definition set_uv_ttl (y : sys) (k : socket_id) (ttl : Z) : sys :=
  y <| socket k ::= λ o, o <| sk_uv_ttl := ttl |> |>.

Fixpoint retry_sends (fuel : nat) (y : sys) (k : socket_id) : option sys :=
  o ← get_socket y k;
  match sk_ttl_queue o, fuel with
  | [], _ => Some y
  | _, O => None
  | r :: q, S fuel =>
      req ← w_sends (y_world y) !! r;
      let y := set_uv_ttl y k (ss_ttl req) in
      o ← get_socket y k;
      let '(y, err) := sock_try_send y o (ss_remote_addr req) (ss_buf req) in
      if err =? UV_EAGAIN then Some y
      else
        let y := y <| socket k ::= λ o, o <| sk_ttl_queue := q |> |> in
        y ← (if ss_on_send req then ycall (CbSocketSend r 0) y else Some y);
        retry_sends fuel y k
  end.

Definition retry_send_specific_ttl (fuel : nat) (y : sys) (k : socket_id) : option sys :=
  y ← retry_sends fuel y k;
  o ← get_socket y k;
  let y := set_uv_ttl y k (sk_ttl o) in
  Some (match sk_ttl_queue o with
        | [] => y <| socket k ::= λ o, o <| sk_ttl_check := false |> <| sk_ttl_check_timer := false |> |>
        | _ => y end).

Definition udx_socket_send_ttl (y : sys) (r : positive) (k : socket_id) (buf : list Z)
    (dest : sockaddr) (ttl : Z) (send_cb : bool) : option (sys * Z) :=
  if (ttl <? 0) || (255 <? ttl) then Some (y, UV_EINVAL)
  else if negb (bool_decide (sa_fam dest = AF_INET ∨ sa_fam dest = AF_INET6)) then Some (y, UV_EINVAL)
  else
    let y := y <| y_world ::= λ w,
      w <| w_sends ::= <[r := mk_sock_send ttl send_cb k buf dest]> |> |> in
    o ← get_socket y k;
    let dest := if (sk_family o =? 6) && bool_decide (sa_fam dest = AF_INET)
                then addr_to_v6 dest else dest in
    '(y, err) ← (if has (io_debug_flags (y_io y)) UDX_DEBUG_FORCE_SEND_SLOW_PATH
                 then Some (y, UV_EAGAIN)
                 else
                   let y := if truthy ttl then set_uv_ttl y k ttl else y in
                   o ← get_socket y k;
                   let '(y, err) := sock_try_send y o dest buf in
                   Some (if truthy ttl then set_uv_ttl y k (sk_ttl o) else y, err));
    if err =? UV_EAGAIN then
      if truthy ttl then
        Some (y <| socket k ::= λ o, o <| sk_ttl_queue ::= λ q, q ++ [r] |>
                   <| sk_ttl_check := true |> <| sk_ttl_check_timer := true |> |>, 0)
      else Some (y <| y_io ::= λ i, (uv_udp_send i dest buf).1 |>, 0)
    else
      y ← (if send_cb then ycall (CbSocketSend r 0) y else Some y);
      Some (y, 0).

Definition udx_socket_send (y : sys) (r : positive) (k : socket_id) (buf : list Z)
    (dest : sockaddr) (send_cb : bool) : option (sys * Z) :=
  udx_socket_send_ttl y r k buf dest 0 send_cb.

(** The completion of a send that libuv had queued. *)
Definition on_socket_send_slow (y : sys) (r : positive) (status : Z) : option sys :=
  req ← w_sends (y_world y) !! r;
  if ss_on_send req then ycall (CbSocketSend r status) y else Some y.

End Socket.
