(* ===== verification/Bind.v ===== *)
(** * Socket options, binding, and the link's MTU (src/udx.c: udx_socket_bind and the setters; src/io_posix.c)

    The results of the libuv and kernel calls are arguments; what these calls are asked for is
    part of the result. *)

From stdpp Require Import gmap.
From S2P Require Import Prelude Stream Ctx Socket.

(** ** Options *)

(** [ask] is uv_send_buffer_size or uv_recv_buffer_size on the socket's handle: it gets the
    value requested (0 only reads it) and returns its error code and the value in effect. *)
Section Options.
Variable ask : Z → Z * Z.

Definition udx_socket_get_send_buffer_size : Z * Z := ask 0.
Definition udx_socket_set_send_buffer_size (value : Z) : Z := if value <? 1 then UV_EINVAL else (ask value).1.
Definition udx_socket_get_recv_buffer_size : Z * Z := ask 0.
Definition udx_socket_set_recv_buffer_size (value : Z) : Z := if value <? 1 then UV_EINVAL else (ask value).1.
End Options.

(** ** Binding *)

Definition UDX_DEFAULT_SNDBUF_SIZE : Z := 212992.
Definition buffer_sizes : list Z := [1024 * 1024; 512 * 1024; 256 * 1024; 208 * 1024].

(** What the calls of udx_socket_bind return. *)
Record bind_results := mk_bind_results {
  uv_udp_bind : Z; uv_udp_set_ttl : Z; uv_send_buffer_size : Z → Z; uv_recv_buffer_size : Z → Z;
  uv_fileno : Z; set_dontfrag : Z; uv_udp_recv_start : Z }.

(** The for loop over the sizes: the size last tried, and the error of that call. *)
Fixpoint set_rcvbuf (try : Z → Z) (sizes : list Z) (rcvbuf_size err : Z) : Z * Z :=
  match sizes with
  | [] => (rcvbuf_size, err)
  | size :: sizes => let err := try size in if err =? 0 then (size, err) else set_rcvbuf try sizes size err
  end.

(** The result has the SO_RCVBUF that was set last; a failed setsockopt for the don't-fragment
    flag is only logged. *)
Definition udx_socket_bind (r : bind_results) (o : socket) (fam : sa_family) : option (socket * option Z * Z) :=
  match fam with
  | AF_UNSPEC => Some (o, None, UV_EINVAL)
  | _ =>
      let o := o <| sk_family := if decide (fam = AF_INET) then 4 else 6 |> in
      let err := uv_udp_bind r in
      if truthy err then Some (o, None, err)
      else
        let err := uv_udp_set_ttl r in
        assert! err =? 0;
        let o := o <| sk_uv_ttl := sk_ttl o |> in
        let err := uv_send_buffer_size r UDX_DEFAULT_SNDBUF_SIZE in
        assert! err =? 0;
        let '(rcvbuf_size, err) := set_rcvbuf (uv_recv_buffer_size r) buffer_sizes (1024 * 1024) err in
        assert! err =? 0;
        let err := uv_fileno r in
        assert! err =? 0;
        Some (o, Some rcvbuf_size, uv_udp_recv_start r)
  end.

(** ** The MTU of the link to an address (src/io_posix.c, other than on Apple's systems) *)

(** [s], [rc_connect], [rc_getsockopt] and [link_mtu] are what the system calls give; [fds] are the
    process's open descriptors. *)
Definition udx__get_link_mtu (fam : sa_family) (s rc_connect rc_getsockopt link_mtu : Z) (fds : gset Z) :
    option (Z * gset Z) :=
  assert! bool_decide (fam = AF_INET ∨ fam = AF_INET6);
  if s =? -1 then Some (-1, fds)
  else
    let fds := {[s]} ∪ fds in
    if rc_connect =? -1 then Some (-1, fds ∖ {[s]})
    else if rc_getsockopt =? -1 then Some (-1, fds ∖ {[s]})
    else Some (link_mtu, fds ∖ {[s]}).

(** ** What they promise *)

Lemma set_rcvbuf_first try sizes size0 err0 :
  (∃ l1 size l2, sizes = l1 ++ size :: l2 ∧ Forall (λ s, try s ≠ 0) l1 ∧ try size = 0 ∧
     set_rcvbuf try sizes size0 err0 = (size, 0)) ∨
  (Forall (λ s, try s ≠ 0) sizes ∧ (sizes ≠ [] → (set_rcvbuf try sizes size0 err0).2 ≠ 0)).
Proof.
  revert size0 err0. induction sizes as [|size sizes IH]; intros size0 err0; [by right|]. cbn [set_rcvbuf].
  destruct (Z.eqb_spec (try size) 0) as [E|N].
  - left. exists [], size, sizes. by rewrite E.
  - destruct (IH size (try size)) as [(l1 & s & l2 & -> & H1 & H2 & H3)|[H1 H2]].
    + left. exists (size :: l1), s, l2. split_and!; [done|by constructor|done|done].
    + right. split; [by constructor|]. intros _. destruct sizes; [done|by apply H2].
Qed.


(** udx__get_link_mtu closes the descriptor it opens, whatever fails. *)
Lemma get_link_mtu_closes fam s rc1 rc2 link_mtu fds :
  fam ≠ AF_UNSPEC → s ∉ fds →
  ∃ r, udx__get_link_mtu fam s rc1 rc2 link_mtu fds = Some (r, fds) ∧ (r = -1 ∨ r = link_mtu).
Proof.
  intros Hf Hs. unfold udx__get_link_mtu. rewrite bool_decide_true by (destruct fam; naive_solver).
  assert (({[s]} ∪ fds) ∖ {[s]} = fds) as ->.
  { apply set_eq. intros x. rewrite elem_of_difference, elem_of_union, elem_of_singleton. naive_solver. }
  repeat case_match; eauto.
Qed.

