(* ===== verification/Timers.v ===== *)
(** * The sender's timers keep its books (src/udx.c: RACK-TLP and the retransmission timeout)

    Loss detection moves packets from the inflight queue to the retransmit queue and sends again.
    Every handler of the stream's timer keeps the invariant [sender_ok] of Sender.v and fails none of its
    assertions. *)

From S2P Require Import Prelude SeqNum Endian Wire WinFilter Stream Rtt Mtu Rate Float64 Bbr Ctx Send Packetize Sender Loss Write Ack Convey Ledger Tended.

Section Timers.
Context `{Env}.

(** ** Packets declared lost *)

(** The fields a scan for losses may change. *)
Definition erase_scan (s : stream) : stream :=
  s <| s_rate := s_rate stream_zero |> <| s_retransmit_queue := [] |> <| s_inflight_queue := [] |>
    <| s_inflight := 0 |> <| s_mtu := s_mtu stream_zero |>.

(** [c] is reached from [c0] by a scan. *)
Record scan_ok (c0 : ctx) (out : gmap Z packet_id) (pid0 : packet_id) (p0 : packet) (c : ctx) : Prop := {
  so_queues : queues_ok c out;
  so_current : current_ok c out pid0 p0;
  so_stream : erase_scan (c_s c) = erase_scan (c_s c0);
  so_rest : (c_next c, now c) = (c_next c0, now c0);
  so_mtu : mtu_in_range (s_mtu (c_s c)) ∧ mtu (s_mtu (c_s c)) = mtu (s_mtu (c_s c0)) }.

Lemma scan_fields s s' :
  erase_scan s' = erase_scan s → ∃ r q iq n m,
  s' = s <| s_rate := r |> <| s_retransmit_queue := q |> <| s_inflight_queue := iq |> <| s_inflight := n |> <| s_mtu := m |>.
Proof.
  intros E. destruct s as [], s' as []. unfold erase_scan in E. cbn in E. injection E.
  intros. subst. do 5 eexists. reflexivity.
Qed.

Lemma scan_rate c0 out pid0 p0 c f :
  scan_ok c0 out pid0 p0 c → scan_ok c0 out pid0 p0 (c <| c_s ::= λ s, s <| s_rate ::= f |> |>).
Proof.
  intros [Q C S R M]. split; try done.
  - by apply (queues_view c).
  - apply (current_view c _ out); try done; apply C.
Qed.

Lemma probe_lost_in_range m : mtu_in_range m → mtu_in_range (mtu_probe_lost m) ∧ mtu (mtu_probe_lost m) = mtu m.
Proof. unfold mtu_probe_lost. by repeat case_match. Qed.

(** A packet of the outgoing buffer that stays where it is. *)
Lemma repack_queues c out pid p p' :
  queues_ok c out → c_packets c !! pid = Some p → out !! p_seq p = Some pid →
  (p_seq p', p_size p', p_lost p') = (p_seq p, p_size p, p_lost p) → (packet_ok c p → packet_ok c p') →
  queues_ok (c <| c_packets ::= <[pid := p']> |>) out.
Proof.
  intros Q Hp Ho [= E1 E2 E3] Hok. set (c' := c <| c_packets ::= _ |>). assert (repacked c pid p c' p') as Hr by by split.
  pose proof Q as [Q1 Q2 Q3 Q4 Q5 Q6 Q7].
  assert (Hm : ∀ b x, marked c' out b x ↔ marked c out b x).
  { intros b x. rewrite (repacked_marked _ _ _ _ _ _ b x Hr Ho). case_decide as Hx; [subst x|done].
    unfold marked. rewrite Hp. split; [intros <-; exists p; by rewrite E3|intros (? & [= <-] & _ & <-); done]. }
  split; try done.
  - intros q x Hx. destruct (Q2 q x Hx) as (px & P1 & P2 & P3). unfold c'. cbn [c_packets upd_field].
    destruct (decide (x = pid)) as [->|Hn].
    + rewrite lookup_insert_eq. exists p'. assert (px = p) by congruence. subst px. split_and!; [done|congruence|by apply Hok].
    + rewrite lookup_insert_ne by done. by exists px.
  - intros x. rewrite Hm. apply Q4.
  - intros x. rewrite Hm. apply Q5.
  - change (s_inflight (c_s c')) with (s_inflight (c_s c)). rewrite Q7. f_equal. symmetry. apply bytes_of_ext. intros x _. by apply (repacked_sizes _ pid p _ p').
Qed.
Lemma repack_current c out pid0 p0 pid p p' :
  current_ok c out pid0 p0 → c_packets c !! pid = Some p → out !! p_seq p = Some pid →
  current_ok (c <| c_packets ::= <[pid := p']> |>) out pid0 p0.
Proof.
  intros C Hp Ho. assert (pid ≠ pid0) as Hne by (intros ->; by apply (cu_out _ _ _ _ C) in Ho).
  apply (current_view c _ out); try done; cbn [c_packets upd_field].
  - rewrite lookup_insert_ne by done. apply C.
  - intros x. by apply (packets_insert_some _ _ p).
  - apply C.
Qed.

Lemma scan_repack c0 out pid0 p0 c pid p p' :
  scan_ok c0 out pid0 p0 c → c_packets c !! pid = Some p → out !! p_seq p = Some pid →
  (p_seq p', p_size p', p_ref_count p', p_lost p', p_transmits p', p_chunks p') =
  (p_seq p, p_size p, p_ref_count p, p_lost p, p_transmits p, p_chunks p) →
  scan_ok c0 out pid0 p0 (c <| c_packets ::= <[pid := p']> |>).
Proof.
  intros [Q C S R M] Hp Ho [= E1 E2 E3 E4 E5 E6]. split; try done.
  - apply (repack_queues c out pid p p'); try done; [congruence|]. unfold packet_ok, packet_data in *. by rewrite E2, E3, E4, E5, E6.
  - by apply (repack_current c out pid0 p0 pid p).
Qed.

Lemma scan_unprobe c0 out pid0 p0 c pid p p' m :
  scan_ok c0 out pid0 p0 c → c_packets c !! pid = Some p → out !! p_seq p = Some pid →
  mtu_unprobeify_packet p (s_mtu (c_s c)) = Some (p', m) →
  scan_ok c0 out pid0 p0 (c <| c_packets ::= <[pid := p']> |> <| c_s ::= λ s, s <| s_mtu := m |> |>) ∧
  (p_seq p', p_ref_count p', p_lost p') = (p_seq p, p_ref_count p, p_lost p).
Proof.
  intros Hs Hp Ho. unfold mtu_unprobeify_packet. destruct (p_is_mtu_probe p); [|done]. intros [= <- <-].
  split; [|done]. apply (scan_repack _ _ _ _ _ pid p (p <| p_header ::= λ h, <[3%nat := 0]> h |> <| p_is_mtu_probe := false |>)) in Hs; try done.
  destruct Hs as [Q C S R [M1 M2]]. destruct (probe_lost_in_range _ M1) as [M3 M4]. split; try done.
  - by apply (queues_view (c <| c_packets ::= <[pid := p <| p_header ::= λ h, <[3%nat := 0]> h |> <| p_is_mtu_probe := false |>]> |>)).
  - apply (current_view (c <| c_packets ::= <[pid := p <| p_header ::= λ h, <[3%nat := 0]> h |> <| p_is_mtu_probe := false |>]> |>) _ out); try done; apply C.
  - split; [exact M3|]. cbn in *. congruence.
Qed.

(** A packet in flight that libuv does not hold goes to the retransmit queue. *)
Lemma scan_lose c0 out pid0 p0 c pid p :
  scan_ok c0 out pid0 p0 c → c_packets c !! pid = Some p → pid ∈ s_inflight_queue (c_s c) → p_ref_count p ≠ 2 →
  ∃ c', lose_packet c pid p = Some c' ∧ scan_ok c0 out pid0 p0 c' ∧
    c_packets c' = <[pid := p <| p_lost := true |>]> (c_packets c) ∧
    s_inflight_queue (c_s c') = filter (.≠ pid) (s_inflight_queue (c_s c)) ∧
    s_retransmit_queue (c_s c') = s_retransmit_queue (c_s c) ++ [pid] ∧ s_rtt (c_s c') = s_rtt (c_s c) ∧
    s_mtu (c_s c') = s_mtu (c_s c).
Proof.
  intros [Q C S R M] Hp Hin Hr. unfold lose_packet, queue_unlink. rewrite decide_True by done. cbn [mbind option_bind].
  eexists. split; [reflexivity|]. split; [|done]. set (c' := c <| c_packets ::= _ |> <| c_s ::= _ |>).
  assert (marked c out false pid) as (p' & Hp' & Ho & Hl) by by apply (qo_inflight _ _ Q). assert (p' = p) as -> by congruence.
  assert (pid ≠ pid0) as Hne by (intros ->; by apply (cu_out _ _ _ _ C) in Ho).
  destruct (qo_packets _ _ Q _ _ Ho) as (p' & Hp'' & _ & Hok). assert (p' = p) as -> by congruence.
  split; try done.
  - apply (repacked_queues c pid p c' (p <| p_lost := true |>) out Q); try done.
    + split; try done. intros (K1 & K2 & K3 & K4 & K5). unfold packet_ok, packet_data in *. cbn. split_and!; done || lia.
    + change (s_inflight_queue (c_s c')) with (filter (.≠ pid) (s_inflight_queue (c_s c))). by rewrite app_nil_r.
    + change (s_retransmit_queue (c_s c')) with (s_retransmit_queue (c_s c) ++ [pid]). rewrite filter_absent; [done|].
      intros Hx. apply (marked_false_true c out pid); [by apply Q|by apply (qo_retransmit _ _ Q)].
    + change (s_inflight_queue (c_s c')) with (filter (.≠ pid) (s_inflight_queue (c_s c))).
      change (s_inflight (c_s c')) with (u64 (s_inflight (c_s c) - p_size p)).
      rewrite (qo_bytes _ _ Q), bytes_of_remove; [|apply Q|done].
      assert (packet_size c pid = p_size p) as -> by (unfold packet_size; by rewrite Hp).
      rewrite <- !Z.add_opp_r. apply u64_add_l.
  - apply (current_view c _ out); try done; unfold c'; cbn [c_packets upd_field].
    + rewrite lookup_insert_ne by done. apply C.
    + intros x. by apply (packets_insert_some _ _ p).
    + apply C.
Qed.

Lemma inflight_packet c out pid :
  queues_ok c out → pid ∈ s_inflight_queue (c_s c) →
  ∃ p, c_packets c !! pid = Some p ∧ out !! p_seq p = Some pid ∧ packet_ok c p ∧ p_lost p = false.
Proof.
  intros Q Hin. assert (marked c out false pid) as (p & Hp & Ho & Hl) by by apply (qo_inflight _ _ Q).
  destruct (qo_packets _ _ Q _ _ Ho) as (p' & Hp' & _ & Hok). assert (p' = p) as -> by congruence. by exists p.
Qed.

Lemma unprobeify_some p m : p_is_mtu_probe p = true → ∃ p' m', mtu_unprobeify_packet p m = Some (p', m').
Proof. intros E. unfold mtu_unprobeify_packet. rewrite E. by do 2 eexists. Qed.

(** ** RACK *)

Lemma rack_scan_ok c0 out pid0 p0 q reo_wnd a :
  scan_ok c0 out pid0 p0 (sc_ctx a) → NoDup q → (∀ pid, pid ∈ q → pid ∈ s_inflight_queue (c_s (sc_ctx a))) →
  ∃ a', rack_scan_queue q reo_wnd a = Some a' ∧ scan_ok c0 out pid0 p0 (sc_ctx a').
Proof.
  revert a. induction q as [|pid q IH]; intros a Hs Hn Hq; cbn [rack_scan_queue]; [by exists a|].
  apply NoDup_cons in Hn as [Hx Hn].
  destruct (inflight_packet _ _ pid (so_queues _ _ _ _ _ Hs)) as (p & Hp & Ho & (K1 & K2 & K3 & K4 & K5) & Hl); [by apply Hq; left|].
  assert (Hrest : ∀ c, scan_ok c0 out pid0 p0 c → s_inflight_queue (c_s c) = s_inflight_queue (c_s (sc_ctx a)) →
    ∀ t r l, ∃ a', rack_scan_queue q reo_wnd (mk_scan c t r l) = Some a' ∧ scan_ok c0 out pid0 p0 (sc_ctx a')).
  { intros c Hc E t r l. apply IH; [done|done|]. intros y Hy. cbn [sc_ctx]. rewrite E. apply Hq. by right. }
  rewrite Hp. cbn [mbind option_bind]. rewrite (proj2 (Z.ltb_lt 0 _)) by lia.
  assert (a = mk_scan (sc_ctx a) (sc_timeout a) (sc_resending a) (sc_probes_lost a)) as Ea by by destruct a.
  destruct (_ <? _); [by exists a|]. destruct (Z.eqb_spec (p_ref_count p) 2) as [_|Hr2]; [rewrite Ea; by apply Hrest|].
  destruct (rack_sent_after _ _ _ _); [|rewrite Ea; by apply Hrest]. destruct (_ <=? 0); [|by apply Hrest].
  rewrite (proj2 (Z.ltb_lt 0 (p_size p))), (proj2 (Z.ltb_lt (p_size p) 1500)) by lia. cbn [andb].
  set (c1 := sc_ctx a <| c_s ::= _ |>). assert (scan_ok c0 out pid0 p0 c1) as Hs1 by by apply scan_rate.
  destruct (scan_lose c0 out pid0 p0 c1 pid p Hs1) as (c2 & -> & Hs2 & Ep & Ei & _ & _ & _); [done|by apply Hq; left|done|].
  cbn [mbind option_bind].
  assert (Hq2 : ∀ c, s_inflight_queue (c_s c) = s_inflight_queue (c_s c2) → ∀ y, y ∈ q → y ∈ s_inflight_queue (c_s c)).
  { intros c -> y Hy. rewrite Ei. apply list_elem_of_filter. split; [by intros ->|]. apply Hq. by right. }
  destruct (p_is_mtu_probe p) eqn:Eprobe.
  - match goal with |- context [mtu_unprobeify_packet ?x ?y] => destruct (unprobeify_some x y Eprobe) as (p' & m & Eu) end.
    rewrite Eu. cbn [mbind option_bind].
    edestruct (scan_unprobe c0 out pid0 p0 c2 pid) as [Hs3 _]; [exact Hs2| | |exact Eu|].
    { rewrite Ep. apply lookup_insert_eq. } { done. }
    apply IH; [exact Hs3|done|]. by apply Hq2.
  - apply IH; [exact Hs2|done|]. by apply Hq2.
Qed.

(** The estimates of the congestion controller stay usable when the window and
    the pacing rate change within their ranges. *)
Definition bbr_estimates (b : bbr_st) : bbr_st :=
  b <| b_prior_cwnd := 0 |> <| b_prev_ca_state := 0 |> <| b_full_bw := f64_of_Z 0 |> <| b_round_start := false |>.
Definition estimates (s : stream) := (bbr_estimates (s_bbr s), s_rtt s, mtu (s_mtu s), sa_fam (s_remote_addr s)).
Definition steady (c : ctx) : Prop :=
  ∀ s, estimates s = estimates (c_s c) → 0 < s_cwnd s < 2 ^ 32 → 0 <= b_prior_cwnd (s_bbr s) < 2 ^ 32 →
    0 < s_pacing_bytes_per_ms s →
    ∃ s', bbr_on_transmit_start s (now c) = Some s' ∧ 0 < s_cwnd s' < 2 ^ 32 ∧ 0 < s_pacing_bytes_per_ms s'.

(** A sender whose congestion controller can go on after a loss. *)
Record can_recover (c : ctx) : Prop := {
  cr_steady : steady c;
  cr_prior : 0 <= b_prior_cwnd (s_bbr (c_s c)) < 2 ^ 32;
  cr_acked : is_u32 (s_remote_acked (c_s c)) }.

Lemma estimates_start s s' : start_view s = start_view s' → estimates s = estimates s' ∧ s_bbr s = s_bbr s' ∧
  s_cwnd s = s_cwnd s' ∧ s_pacing_bytes_per_ms s = s_pacing_bytes_per_ms s'.
Proof.
  intros E. injection E as E1 E2 E3 E4 E5 E6. unfold estimates. split_and!; [|done..]. by rewrite E1, E2, E4, E5.
Qed.

Lemma steady_start c c' :
  steady c → estimates (c_s c') = estimates (c_s c) → now c' = now c →
  0 < s_cwnd (c_s c') < 2 ^ 32 → 0 <= b_prior_cwnd (s_bbr (c_s c')) < 2 ^ 32 → 0 < s_pacing_bytes_per_ms (c_s c') →
  start_ok c'.
Proof.
  intros Hs He Hn Hc Hp Hpa s (E1 & E2 & E3 & E4)%estimates_start. rewrite Hn. apply Hs; [congruence|by rewrite E3|by rewrite E2|by rewrite E4].
Qed.

(** In every state but PROBE_BW the estimates do not matter. *)
Lemma steady_simple c : b_state (s_bbr (c_s c)) ≠ UDX_BBR_STATE_PROBE_BW → steady c.
Proof.
  intros Hb s He Hc Hp Hpa. refine (start_ok_simple (c <| c_s := s |>) _ Hc Hp Hpa s eq_refl). cbn [c_s upd_field].
  assert (b_state (s_bbr s) = b_state (s_bbr (c_s c))) as -> by exact (f_equal (λ t, b_state t.1.1.1) He). done.
Qed.

(** After a scan, with the controller's record and window as the caller has set them. *)
Definition with_bbr (c : ctx) (b : bbr_st) (w : Z) : ctx := c <| c_s ::= λ s, s <| s_bbr := b |> <| s_cwnd := w |> |>.

Lemma with_bbr_estimates c0 c b w :
  erase_scan (c_s c) = erase_scan (c_s c0) → mtu (s_mtu (c_s c)) = mtu (s_mtu (c_s c0)) →
  bbr_estimates b = bbr_estimates (s_bbr (c_s c0)) →
  estimates (c_s (with_bbr c b w)) = estimates (c_s c0).
Proof.
  intros S M Hb. unfold estimates, with_bbr. cbn [c_s upd_field s_bbr s_rtt s_mtu s_remote_addr s_cwnd]. rewrite Hb, M.
  pose proof (f_equal s_rtt S : s_rtt (c_s c) = s_rtt (c_s c0)) as ->.
  by pose proof (f_equal s_remote_addr S : s_remote_addr (c_s c) = s_remote_addr (c_s c0)) as ->.
Qed.

Lemma resume_can_send c0 c b w :
  can_send c0 → steady c0 → erase_scan (c_s c) = erase_scan (c_s c0) → now c = now c0 →
  mtu_in_range (s_mtu (c_s c)) → mtu (s_mtu (c_s c)) = mtu (s_mtu (c_s c0)) →
  bbr_estimates b = bbr_estimates (s_bbr (c_s c0)) → 0 <= b_prior_cwnd b < 2 ^ 32 → 0 < w < 2 ^ 32 →
  can_send (with_bbr c b w).
Proof.
  intros [C1 C2 C3 C4 C5 C6 C7 C8 C9 _] Hst S R M1 M2 Hb Hp Hw. pose proof (with_bbr_estimates c0 c b w S M2 Hb) as He.
  assert (∀ A (f : stream → A), (∀ s, f (erase_scan s) = f s) → f (c_s c) = f (c_s c0)) as Hf.
  { intros A f Hf. by rewrite <- (Hf (c_s c)), S, Hf. }
  assert (s_pacing_bytes_per_ms (c_s c) = s_pacing_bytes_per_ms (c_s c0)) as Ep by by apply Hf.
  split; unfold with_bbr; cbn [c_s upd_field s_cwnd s_pacing_bytes_per_ms s_mtu s_rtt s_socket s_status s_wnd s_remote_addr s_remote_addr_len s_seq].
  - done.
  - by rewrite Ep.
  - done.
  - by rewrite (Hf _ s_rtt).
  - by rewrite (Hf _ s_socket).
  - by rewrite (Hf _ s_status).
  - by rewrite (Hf _ s_wnd).
  - by rewrite (Hf _ s_remote_addr), (Hf _ s_remote_addr_len).
  - by rewrite (Hf _ s_seq).
  - right. apply (steady_start c0 (with_bbr c b w)); [done|done|done|done|done|]. change (0 < s_pacing_bytes_per_ms (c_s c)). by rewrite Ep.
Qed.

Lemma resume_ok c0 out pid0 p0 c b w :
  can_send c0 → steady c0 → scan_ok c0 out pid0 p0 c → bbr_estimates b = bbr_estimates (s_bbr (c_s c0)) →
  0 <= b_prior_cwnd b < 2 ^ 32 → 0 < w < 2 ^ 32 → sender_ok (with_bbr c b w).
Proof.
  intros Hs Hst [Q C S R [M1 M2]] Hb Hp Hw. injection R as R1 R2. split; [by apply (resume_can_send c0)|].
  exists out. split; [by apply (queues_view c)|]. exists pid0, p0. apply (current_view c _ out); try done; apply C.
Qed.

Lemma scan_start c out pid0 p0 :
  can_send c → queues_ok c out → current_ok c out pid0 p0 → scan_ok c out pid0 p0 c.
Proof. intros Hs Q C. split; try done. split; [apply Hs|done]. Qed.

Lemma save_cwnd_ok s : 0 < s_cwnd s < 2 ^ 32 → 0 <= b_prior_cwnd (s_bbr s) < 2 ^ 32 →
  ∃ b, bbr_save_cwnd s = s <| s_bbr := b |> ∧ bbr_estimates b = bbr_estimates (s_bbr s) ∧ 0 <= b_prior_cwnd b < 2 ^ 32.
Proof.
  intros Hc Hp. unfold bbr_save_cwnd. destruct (_ && _); eexists; (split; [destruct s; reflexivity|]); (split; [done|]).
  - cbn. lia.
  - cbn -[max_uint32]. rewrite max_uint32_max. lia.
Qed.

Lemma save_cwnd_field {A} (f : stream → A) s : (∀ s b, f (s <| s_bbr := b |>) = f s) → f (bbr_save_cwnd s) = f s.
Proof. intros Hf. unfold bbr_save_cwnd. destruct (_ && _); exact (Hf s _). Qed.
Lemma scan_field {A} (f : stream → A) c0 out pid0 p0 c :
  (∀ s, f (erase_scan s) = f s) → scan_ok c0 out pid0 p0 c → f (c_s c) = f (c_s c0).
Proof. intros Hf [_ _ S _ _]. by rewrite <- (Hf (c_s c)), S, Hf. Qed.

Lemma enter_recovery_core s b :
  bbr_save_cwnd (s <| s_stats ::= λ k, k <| fast_recovery_count ::= λ x, u16 (x + 1) |> |> <| s_ca_state := UDX_CA_RECOVERY |>)
    = s <| s_stats ::= λ k, k <| fast_recovery_count ::= λ x, u16 (x + 1) |> |> <| s_ca_state := UDX_CA_RECOVERY |> <| s_bbr := b |> →
  core (enter_recovery s) = core (s <| s_bbr := b |> <| s_cwnd := s_cwnd s |>).
Proof. intros E. unfold enter_recovery. cbv zeta. rewrite E. done. Qed.

Lemma rack_detect_loss_run c :
  sender_ok c → can_recover c →
  ∃ c' timeout, rack_detect_loss c = Some (c', timeout) ∧ sender_ok c' ∧ tended c c' ∧ (guarded c → guarded c').
Proof.
  intros (Hs & out & Hq & pid0 & p0 & Hc) [Hst Hpr _]. unfold rack_detect_loss.
  destruct (rack_scan_ok c out pid0 p0 (s_inflight_queue (c_s c)) (rack_update_reo_wnd (c_s c)) (mk_scan c 0 0 0)) as (a & Ea & Ha).
  { by apply scan_start. } { apply (qo_nodup _ _ Hq). } { done. }
  rewrite Ea. apply rack_scan_tended in Ea as [T1 F1]. cbn [sc_ctx] in T1, F1.
  cbn [mbind option_bind]. set (c1 := if sc_resending a =? _ then _ else _).
  assert (scan_ok c out pid0 p0 c1) as H1 by (unfold c1; destruct (_ =? _); [by apply scan_rate|done]).
  assert (tended (sc_ctx a) c1 ∧ fewer c c1) as [T2 F2] by (unfold c1; destruct (_ =? _); [|done]; split; [by apply tended_stream|exact F1]).
  clearbody c1. pose proof H1 as [_ _ S1 R1 _]. destruct (scan_fields _ _ S1) as (r & q & iq & n & m & Es).
  set (s2 := c_s c1 <| s_stats ::= λ k, k <| fast_recovery_count ::= λ x, u16 (x + 1) |> |> <| s_ca_state := UDX_CA_RECOVERY |>).
  destruct (save_cwnd_ok s2) as (b & Eb & Hb & Hbp); unfold s2; cbn [s_cwnd s_bbr upd_field]; rewrite ?Es; [apply Hs|done|].
  change (s_bbr s2) with (s_bbr (c_s c1)) in Hb. assert (s_bbr (c_s c1) = s_bbr (c_s c) ∧ s_cwnd (c_s c1) = s_cwnd (c_s c)) as [Eb1 Ec1] by by rewrite Es.
  rewrite Eb1 in Hb. set (c2 := if _ && _ then _ else c1).
  assert (sender_ok c2) as H2.
  { unfold c2. destruct (_ && _).
    - apply (same_core_ok (with_bbr c1 b (s_cwnd (c_s c1)))).
      + split; [|done]. by apply enter_recovery_core.
      + apply (resume_ok c out pid0 p0); try done. rewrite Ec1. apply Hs.
    - assert (c1 = with_bbr c1 (s_bbr (c_s c1)) (s_cwnd (c_s c1))) as ->.
      { destruct c1 as [s1]. cbn. destruct s1. reflexivity. }
      apply (resume_ok c out pid0 p0); rewrite ?Eb1, ?Ec1; try done; apply Hs. }
  assert (tended c1 c2) as T3.
  { unfold c2. destruct (_ && _); [|done]. apply (tended_stream c1); unfold enter_recovery, booked, wire_view; cbv zeta;
    cbn [s_acct s_write_queue s_pkt s_outgoing s_mtu s_remote_acked s_seq s_pkt_header_flag upd_field]; by rewrite !(save_cwnd_field _ _) by done. }
  assert (guarded c → guarded c2) as Hg.
  { intros Hg. assert (s_inflight_queue (c_s c2) = s_inflight_queue (c_s c1) ∧ s_pending_timer (c_s c2) = s_pending_timer (c_s c)) as [E1 E2].
    { rewrite <- (scan_field s_pending_timer _ _ _ _ _ (λ _, eq_refl) H1). unfold c2. destruct (_ && _); [|done].
      unfold enter_recovery. cbv zeta. cbn [c_s upd_field s_inflight_queue s_pending_timer]. by rewrite !(save_cwnd_field _ _) by done. }
    intros Hi. unfold watched. rewrite E2. apply Hg. rewrite E1 in Hi. destruct (s_inflight_queue (c_s c1)) as [|x l] eqn:El; [done|].
    intros E0. specialize (F2 x). rewrite El, E0 in F2. by apply F2, elem_of_nil in Hi || (specialize (F2 ltac:(left)); by apply elem_of_nil in F2). }
  destruct (send_packets_run c2 H2) as (c3 & E3 & H3 & Hg3). apply send_packets_tended in E3 as T4; [|done]. rewrite E3.
  cbn [mbind option_bind]. exists c3. eexists. split; [reflexivity|]. split; [done|]. split; [|auto].
  transitivity (sc_ctx a); [done|]. transitivity c1; [done|]. by transitivity c2.
Qed.

(** C15: RACK's loss detection, run on every ACK that delivers something and when the reordering
    timer fires, fails none of its assertions and keeps the sender's books: the packets it declares
    lost are in the retransmit queue or sent again, the others still in flight. *)
Theorem rack_detect_loss_ok c :
  sender_ok c → can_recover c → ∃ c' timeout, rack_detect_loss c = Some (c', timeout) ∧ sender_ok c'.
Proof. intros Hok Hcr. destruct (rack_detect_loss_run c Hok Hcr) as (c' & t & ? & ? & _). by exists c', t. Qed.

(** ** The retransmission timeout *)

Lemma scan_permute c0 out pid0 p0 c q :
  scan_ok c0 out pid0 p0 c → q ≡ₚ s_retransmit_queue (c_s c) →
  scan_ok c0 out pid0 p0 (c <| c_s ::= λ s, s <| s_retransmit_queue := q |> |>).
Proof.
  intros [[Q1 Q2 Q3 Q4 Q5 [Q6 Q6'] Q7] C S R M] Hp. split; try done.
  - split; try done.
    + intros x. cbn. rewrite Hp. apply Q5.
    + split; [done|]. cbn. by rewrite Hp.
  - apply (current_view c _ out); try done; apply C.
Qed.

(** The lost packets among the numbers [todo] that the scan has not come to. *)
Definition lost_in (c : ctx) (out : gmap Z packet_id) (todo : list Z) : list packet_id :=
  omap (λ q, pid ← out !! q; p ← c_packets c !! pid; if p_lost p then Some pid else None) todo.
(** The context with these packets back in the queue that the timeout has emptied. *)
Definition refilled (c : ctx) (out : gmap Z packet_id) (todo : list Z) : ctx :=
  c <| c_s ::= λ s, s <| s_retransmit_queue ::= λ q, q ++ lost_in c out todo |> |>.

Lemma lost_in_ext c c' out todo :
  (∀ q pid, q ∈ todo → out !! q = Some pid → p_lost <$> c_packets c' !! pid = p_lost <$> c_packets c !! pid) →
  lost_in c' out todo = lost_in c out todo.
Proof.
  intros Hl. induction todo as [|q todo IH]; [done|]. unfold lost_in in *. cbn [omap list_omap].
  assert ((pid ← out !! q; p ← c_packets c' !! pid; if p_lost p then Some pid else None) =
          (pid ← out !! q; p ← c_packets c !! pid; if p_lost p then Some pid else None)) as ->.
  { destruct (out !! q) as [pid|] eqn:E; [|done]. cbn [mbind option_bind]. specialize (Hl q pid ltac:(left) E).
    destruct (c_packets c' !! pid), (c_packets c !! pid); cbn in *; try done. injection Hl as ->. done. }
  rewrite IH; [done|]. intros q' pid Hin. apply Hl. by right.
Qed.

Lemma refilled_nil c out : refilled c out [] = c.
Proof. destruct c as [s]. destruct s. unfold refilled, lost_in, upd_field. cbn. by rewrite app_nil_r. Qed.

Lemma lost_in_cons c out q todo pid p :
  out !! q = Some pid → c_packets c !! pid = Some p →
  lost_in c out (q :: todo) = if p_lost p then pid :: lost_in c out todo else lost_in c out todo.
Proof. intros E1 E2. unfold lost_in. cbn [omap list_omap]. rewrite E1. cbn [mbind option_bind]. rewrite E2. cbn. by destruct (p_lost p). Qed.

(** The scan goes on after a change to the packet it has come to, seen in the refilled context. *)
Lemma refilled_lost c c' out todo pid p p' :
  c_packets c !! pid = Some p → c_packets c' = <[pid := p']> (c_packets c) →
  (p_lost p' = p_lost p ∨ ∀ q, q ∈ todo → out !! q ≠ Some pid) → lost_in c' out todo = lost_in c out todo.
Proof.
  intros Hp E Hl. apply lost_in_ext. intros q x Hq Hx. rewrite E. destruct (decide (x = pid)) as [->|Hn].
  - rewrite lookup_insert_eq, Hp. cbn. destruct Hl as [->|Hl]; [done|by apply Hl in Hx].
  - by rewrite lookup_insert_ne.
Qed.

Lemma refilled_lose c out pid p todo c' :
  lose_packet c pid p = Some c' → c_packets c !! pid = Some p → (∀ q, q ∈ todo → out !! q ≠ Some pid) →
  ∃ c2, lose_packet (refilled c out todo) pid p = Some c2 ∧
    refilled c' out todo = c2 <| c_s ::= λ s, s <| s_retransmit_queue := s_retransmit_queue (c_s c) ++ [pid] ++ lost_in c out todo |> |>.
Proof.
  unfold lose_packet, queue_unlink. intros E Hp Hq.
  change (s_inflight_queue (c_s (refilled c out todo))) with (s_inflight_queue (c_s c)).
  case_decide as Hin; [|done]. cbn [mbind option_bind] in *. injection E as <-. eexists. split; [reflexivity|].
  unfold refilled at 1.
  rewrite (refilled_lost c _ out todo pid p (p <| p_lost := true |>)); [|done|done|by right].
  set (l := lost_in c out todo). rewrite (app_assoc _ [pid] l). reflexivity.
Qed.

Lemma rto_scan_ok c0 out pid0 p0 todo reo_wnd now0 c :
  scan_ok c0 out pid0 p0 (refilled c out todo) → NoDup todo →
  ∃ c', rto_scan todo reo_wnd now0 c = Some c' ∧ scan_ok c0 out pid0 p0 c'.
Proof.
  revert c. induction todo as [|q todo IH]; intros c Hs Hn; cbn [rto_scan].
  { rewrite refilled_nil in Hs. by exists c. }
  apply NoDup_cons in Hn as [Hq Hn].
  assert (s_outgoing (c_s c) = Some out) as Eo by exact (qo_out _ _ (so_queues _ _ _ _ _ Hs)). rewrite Eo. cbn [mbind option_bind].
  destruct (out !! q) as [pid|] eqn:Ep.
  2: { apply IH; [|done]. unfold refilled, lost_in in Hs. cbn [omap list_omap] in Hs. by rewrite Ep in Hs. }
  destruct (qo_packets _ _ (so_queues _ _ _ _ _ Hs) _ _ Ep) as (p & Hp & Hseq & (K1 & K2 & K3 & K4 & K5)).
  change (c_packets (refilled c out (q :: todo))) with (c_packets c) in Hp. rewrite Hp. cbn [mbind option_bind].
  assert (∀ q', q' ∈ todo → out !! q' ≠ Some pid) as Hother.
  { intros q' Hin E. destruct (qo_packets _ _ (so_queues _ _ _ _ _ Hs) _ _ E) as (p' & Hp' & Hseq' & _).
    change (c_packets (refilled c out (q :: todo))) with (c_packets c) in Hp'. congruence. }
  unfold refilled in Hs. rewrite (lost_in_cons c out q todo pid p Ep Hp) in Hs.
  destruct (p_lost p) eqn:El.
  { apply IH; [|done]. set (l := lost_in c out todo) in *.
    assert (lost_in (c <| c_s ::= λ s, s <| s_retransmit_queue ::= λ q, q ++ [pid] |> |>) out todo = l) as E by by apply lost_in_ext.
    unfold refilled. rewrite E.
    assert (c <| c_s ::= λ s, s <| s_retransmit_queue ::= λ q, q ++ pid :: l |> |> =
            c <| c_s ::= λ s, s <| s_retransmit_queue := (s_retransmit_queue (c_s c) ++ [pid]) ++ l |> |>) as E2
      by (rewrite <- app_assoc; reflexivity).
    rewrite E2 in Hs. exact Hs. }
  fold (refilled c out todo) in Hs. destruct (_ || _); [|by apply IH].
  set (c1 := c <| c_s ::= _ |>). assert (scan_ok c0 out pid0 p0 (refilled c1 out todo)) as Hs1.
  { change (refilled c1 out todo) with (refilled c out todo <| c_s ::= λ s, s <| s_rate ::= λ r, r <| lost ::= λ x, u32 (x + 1) |> |> |>).
    by apply scan_rate. }
  assert (∃ p' m, (if p_is_mtu_probe p then mtu_unprobeify_packet p (s_mtu (c_s c1)) else Some (p, s_mtu (c_s c1))) = Some (p', m) ∧
    (p_seq p', p_ref_count p', p_lost p') = (p_seq p, p_ref_count p, p_lost p) ∧
    scan_ok c0 out pid0 p0 (refilled (c1 <| c_packets ::= <[pid := p']> |> <| c_s ::= λ s, s <| s_mtu := m |> |>) out todo))
    as (p' & m & -> & [= F1 F2 F3] & Hs2).
  { assert (∀ p' m, p_lost p' = p_lost p → scan_ok c0 out pid0 p0 (refilled c1 out todo <| c_packets ::= <[pid := p']> |> <| c_s ::= λ s, s <| s_mtu := m |> |>) →
      scan_ok c0 out pid0 p0 (refilled (c1 <| c_packets ::= <[pid := p']> |> <| c_s ::= λ s, s <| s_mtu := m |> |>) out todo)) as Hgo.
    { intros p' m E. unfold refilled. rewrite (refilled_lost c1 (c1 <| c_packets ::= <[pid := p']> |> <| c_s ::= λ s, s <| s_mtu := m |> |>) out todo pid p p'); [done|done|done|by left]. }
    destruct (p_is_mtu_probe p) eqn:Epr.
    - destruct (unprobeify_some p (s_mtu (c_s c1)) Epr) as (p' & m & E). rewrite E. exists p', m. split; [done|].
      destruct (scan_unprobe c0 out pid0 p0 (refilled c1 out todo) pid p p' m Hs1) as [Hs2 E2]; [done|by rewrite Hseq|done|].
      split; [done|]. apply Hgo; [by injection E2|done].
    - exists p, (s_mtu (c_s c1)). split; [done|]. split; [done|]. apply Hgo; [done|].
      assert (refilled c1 out todo <| c_packets ::= <[pid := p]> |> <| c_s ::= λ s, s <| s_mtu := s_mtu (c_s c1) |> |> = refilled c1 out todo) as ->; [|done].
      change (c_packets c) with (c_packets c1) in Hp. transitivity (refilled c1 out todo <| c_packets := <[pid := p]> (c_packets c1) |>); [reflexivity|].
      rewrite (insert_id _ _ _ Hp). reflexivity. }
  cbn [mbind option_bind]. set (c2 := c1 <| c_packets ::= _ |> <| c_s ::= _ |>) in *.
  destruct (Z.eqb_spec (p_ref_count p') 2) as [|Hr]; [by apply IH|].
  assert (c_packets c2 !! pid = Some p') as Hp2 by apply lookup_insert_eq.
  assert (pid ∈ s_inflight_queue (c_s (refilled c2 out todo))) as Hin.
  { apply (qo_inflight _ _ (so_queues _ _ _ _ _ Hs2)). exists p'. split_and!; [exact Hp2|by rewrite F1, Hseq|congruence]. }
  destruct (scan_lose c0 out pid0 p0 (refilled c2 out todo) pid p' Hs2 Hp2 Hin Hr) as (c3 & E3 & Hs3 & _ & _ & Er3 & _ & _).
  assert (∃ c4, lose_packet c2 pid p' = Some c4) as [c4 E4].
  { unfold lose_packet, queue_unlink. rewrite decide_True by exact Hin. cbn. by eexists. }
  rewrite E4. cbn [mbind option_bind]. apply IH; [|done].
  destruct (refilled_lose c2 out pid p' todo c4 E4 Hp2 Hother) as (c3' & E3' & ->). assert (c3' = c3) as -> by congruence.
  apply scan_permute; [done|]. rewrite Er3. change (s_retransmit_queue (c_s (refilled c2 out todo))) with (s_retransmit_queue (c_s c2) ++ lost_in c2 out todo).
  solve_Permutation.
Qed.

(** The lost packets of the whole window are those of the retransmit queue. *)
Lemma lost_in_window c out :
  is_u32 (s_remote_acked (c_s c)) → queues_ok c out → lost_in c out (seq_upto (s_remote_acked (c_s c)) (s_seq (c_s c))) ≡ₚ s_retransmit_queue (c_s c).
Proof.
  intros Ha Q. pose proof Q as [_ Q2 Q3 _ Q5 [_ Q6] _]. set (todo := seq_upto _ _).
  assert (Hin : ∀ l pid, pid ∈ lost_in c out l ↔ ∃ q, q ∈ l ∧ out !! q = Some pid ∧ ∃ p, c_packets c !! pid = Some p ∧ p_lost p = true).
  { intros l pid. unfold lost_in. rewrite list_elem_of_omap. split.
    - intros (q & Hq & E). destruct (out !! q) as [x|] eqn:Ex; [|done]. cbn in E. destruct (c_packets c !! x) as [p|] eqn:Epx; [|done]. cbn in E.
      destruct (p_lost p) eqn:El; [|done]. injection E as ->. exists q. split_and!; [done|done|]. by exists p.
    - intros (q & Hq & Ex & p & Ep & El). exists q. split; [done|]. rewrite Ex. cbn. rewrite Ep. cbn. by rewrite El. }
  apply NoDup_Permutation; [|done|].
  - pose proof (seq_upto_nodup (s_remote_acked (c_s c)) (s_seq (c_s c)) Ha) as Hn. fold todo in Hn. clearbody todo. induction Hn as [|q l Hq Hn IH]; [constructor|].
    destruct (out !! q) as [pid|] eqn:Ex; [|unfold lost_in; cbn; by rewrite Ex].
    destruct (Q2 q pid Ex) as (p & Ep & Es & _). rewrite (lost_in_cons c out q l pid p Ex Ep). destruct (p_lost p); [|done].
    apply NoDup_cons. split; [|done]. intros (q' & Hq' & Ex' & _)%Hin. destruct (Q2 q' pid Ex') as (p' & Ep' & Es' & _). congruence.
  - intros pid. rewrite Hin, Q5. split.
    + intros (q & _ & Ex & p & Ep & El). exists p. destruct (Q2 q pid Ex) as (p' & Ep' & Es & _). split_and!; [done|congruence|done].
    + intros (p & Ep & Ex & El). exists (p_seq p). destruct (Q3 _ _ Ex) as [H1 H2]. split_and!; [by apply seq_upto_elem|done|by exists p].
Qed.

(** What the timeout does before and after the scan, on the fields the invariant reads. *)
Lemma enter_loss_core s b :
  bbr_save_cwnd s = s <| s_bbr := b |> → core (rto_enter_loss s) = core (s <| s_bbr := b |> <| s_cwnd := s_cwnd s |>).
Proof. intros E. unfold rto_enter_loss. rewrite E. done. Qed.

Lemma steady_view c c' : steady c → estimates (c_s c') = estimates (c_s c) → now c' = now c → steady c'.
Proof. intros Hs He Hn s E. rewrite Hn. apply Hs. congruence. Qed.

Lemma same_core_field {A} (f : stream → A) c c' :
  (∀ s, f (core s) = f s) → same_core c c' → f (c_s c') = f (c_s c).
Proof. intros Hf [E _]. by rewrite <- (Hf (c_s c')), E, Hf. Qed.

(** The timeout up to the scan: the sender's books are those of before. *)
Lemma enter_loss_ok c c1 :
  sender_ok c → can_recover c → c_s c1 = rto_enter_loss (c_s c) →
  (c_packets c1, c_wbufs c1, c_next c1, now c1) = (c_packets c, c_wbufs c, c_next c, now c) →
  sender_ok c1 ∧ steady c1 ∧ 0 <= b_prior_cwnd (s_bbr (c_s c1)) < 2 ^ 32.
Proof.
  intros (Hs & out & Hq & pid0 & p0 & Hc) [Hst Hpr _] Es Er.
  destruct (save_cwnd_ok (c_s c)) as (b & Eb & Hb & Hbp); [apply Hs|done|].
  assert (same_core (with_bbr c b (s_cwnd (c_s c))) c1) as Hsame by (split; [rewrite Es; by apply enter_loss_core|done]).
  assert (sender_ok (with_bbr c b (s_cwnd (c_s c)))) as H1.
  { apply (resume_ok c out pid0 p0); try done; [by apply scan_start|apply Hs]. }
  split; [by apply (same_core_ok (with_bbr c b (s_cwnd (c_s c))))|]. split.
  - apply (steady_view c); [done| |by injection Er].
    transitivity (estimates (c_s (with_bbr c b (s_cwnd (c_s c))))); [|by apply with_bbr_estimates].
    apply (same_core_field estimates); [done|done].
  - by rewrite (same_core_field s_bbr _ _ (λ _, eq_refl) Hsame).
Qed.

Lemma closed_alive st : has st UDX_STREAM_DEAD = false → has st UDX_STREAM_CLOSED = false.
Proof.
  unfold has, truthy, UDX_STREAM_DEAD. rewrite Z.land_lor_distr_r, !negb_false_iff, !Z.eqb_eq. by intros [_ ?]%Z.lor_eq_0_iff.
Qed.


Definition bbr_rto (b : bbr_st) : bbr_st := b <| b_prev_ca_state := UDX_CA_LOSS |> <| b_full_bw := f64_of_Z 0 |> <| b_round_start := true |>.
Lemma bbr_rto_facts b : bbr_estimates (bbr_rto b) = bbr_estimates b ∧ b_prior_cwnd (bbr_rto b) = b_prior_cwnd b.
Proof. done. Qed.
Lemma rto_restart c :
  c <| c_s ::= λ s, bbr_on_rto (s <| s_cwnd := u32 (qlen (s_inflight_queue s) + 1) |>) |> =
  with_bbr c (bbr_rto (s_bbr (c_s c))) (u32 (qlen (s_inflight_queue (c_s c)) + 1)).
Proof. reflexivity. Qed.

(** The scan of a timeout, from the emptied retransmit queue. *)
Lemma rto_rescan c out pid0 p0 reo_wnd now0 :
  can_send c → queues_ok c out → current_ok c out pid0 p0 → is_u32 (s_remote_acked (c_s c)) →
  ∃ c', rto_scan (seq_upto (s_remote_acked (c_s c)) (s_seq (c_s c))) reo_wnd now0
          (c <| c_s ::= λ s, s <| s_retransmit_queue := [] |> |>) = Some c' ∧ scan_ok c out pid0 p0 c'.
Proof.
  intros Hs Hq Hc Ha. apply rto_scan_ok; [|by apply seq_upto_nodup]. set (todo := seq_upto _ _). set (c' := c <| c_s ::= _ |>).
  change (scan_ok c out pid0 p0 (c <| c_s ::= λ s, s <| s_retransmit_queue := lost_in c' out todo |> |>)).
  apply scan_permute; [by apply scan_start|]. by apply (lost_in_window c).
Qed.

(** The second half of the timeout. *)
Lemma rto_resend c reo_wnd :
  sender_ok c → steady c → 0 <= b_prior_cwnd (s_bbr (c_s c)) < 2 ^ 32 → is_u32 (s_remote_acked (c_s c)) →
  s_pending_timer (c_s c) = UDX_TIMER_RTO →
  ∃ c', rto_retransmit (c <| c_s ::= λ s, s <| s_retransmit_queue := [] |> |>) reo_wnd = Some c' ∧ sender_ok c' ∧ guarded c' ∧ tended c c'.
Proof.
  intros (Hs & out & Hq & pid0 & p0 & Hc) Hst Hp Ha Ht.
  destruct (rto_rescan c out pid0 p0 reo_wnd (now c) Hs Hq Hc Ha) as (c4 & E4 & H4).
  apply rto_scan_tended in E4 as T4.
  assert (rto_retransmit (c <| c_s ::= λ s, s <| s_retransmit_queue := [] |> |>) reo_wnd =
    send_packets (with_bbr c4 (bbr_rto (s_bbr (c_s c4))) (u32 (qlen (s_inflight_queue (c_s c4)) + 1)))) as ->.
  { rewrite <- rto_restart. unfold rto_retransmit. cbv zeta.
    change (now (c <| c_s ::= λ s, s <| s_retransmit_queue := [] |> |>)) with (now c). by setoid_rewrite E4. } set (c5 := with_bbr c4 _ _).
  pose proof (queues_length _ _ (so_queues _ _ _ _ _ H4)) as Hl.
  pose proof (cu_space _ _ _ _ (so_current _ _ _ _ _ H4)) as Hw.
  pose proof (scan_field s_bbr _ _ _ _ _ (λ _, eq_refl) H4) as Eb4. destruct (bbr_rto_facts (s_bbr (c_s c4))) as [F1 F2].
  assert (sender_ok c5) as H5.
  { unfold c5. rewrite qlen_small by lia. apply (resume_ok c out pid0 p0 c4); try done.
    - by rewrite F1, Eb4.
    - by rewrite F2, Eb4.
    - rewrite u32_id; unfold is_u32; lia. }
  destruct (send_packets_run c5 H5) as (c6 & E6 & H6 & Hg). apply send_packets_tended in E6 as T6; [|done]. rewrite E6. exists c6. split; [done|].
  split; [done|]. split; [|transitivity (c <| c_s ::= λ s, s <| s_retransmit_queue := [] |> |>); [by apply tended_stream|];
    transitivity c4; [done|]; transitivity c5; [by apply (tended_stream c4)|done]]. apply Hg. intros _. left. unfold c5, with_bbr. cbn [c_s upd_field s_pending_timer].
  by rewrite (scan_field s_pending_timer _ _ _ _ _ (λ _, eq_refl) H4).
Qed.

Lemma timer_start_facts c t ms :
  s_rto_count (c_s (stream_timer_start c t ms)) = s_rto_count (c_s c) ∧ s_pending_timer (c_s (stream_timer_start c t ms)) = t.
Proof. unfold stream_timer_start. by destruct (decide _). Qed.

Lemma enter_loss_fields s :
  s_rto_count (rto_enter_loss s) = u8 (s_rto_count s + 1) ∧ s_remote_acked (rto_enter_loss s) = s_remote_acked s.
Proof.
  assert (∀ x, s_rto_count (x <| s_high_seq := s_seq x |> <| s_rto_count ::= λ n, u8 (n + 1) |>
    <| s_stats ::= λ k, k <| lifetime_rto_count ::= λ n, u16 (n + 1) |> |> <| s_ca_state := UDX_CA_LOSS |>
    <| s_tlp ::= λ t, t <| tlp_in_flight := false |> <| tlp_is_retrans := false |> |>) = u8 (s_rto_count x + 1)) as H1 by done.
  assert (∀ x, s_remote_acked (x <| s_high_seq := s_seq x |> <| s_rto_count ::= λ n, u8 (n + 1) |>
    <| s_stats ::= λ k, k <| lifetime_rto_count ::= λ n, u16 (n + 1) |> |> <| s_ca_state := UDX_CA_LOSS |>
    <| s_tlp ::= λ t, t <| tlp_in_flight := false |> <| tlp_is_retrans := false |> |>) = s_remote_acked x) as H2 by done.
  unfold rto_enter_loss. cbv zeta. by rewrite H1, H2, !(save_cwnd_field _ _) by done.
Qed.

(** From the empty retransmit queue on. *)
Lemma rto_tail c n :
  sender_ok c → steady c → 0 <= b_prior_cwnd (s_bbr (c_s c)) < 2 ^ 32 → is_u32 (s_remote_acked (c_s c)) →
  s_pending_timer (c_s c) = UDX_TIMER_RTO → s_rto_count (c_s c) = n →
  ∃ c', (let c := c <| c_s ::= λ s, s <| s_retransmit_queue := [] |> |> in
         let rack_reo_wnd := rack_update_reo_wnd (c_s c) in
         if UDX_MAX_RTO_TIMEOUTS <? s_rto_count (c_s c) then Some (c, true)
         else c ← rto_retransmit c rack_reo_wnd; Some (c, false)) = Some (c', UDX_MAX_RTO_TIMEOUTS <? n) ∧
    (UDX_MAX_RTO_TIMEOUTS <? n = false → sender_ok c' ∧ guarded c' ∧ tended c c').
Proof.
  intros Hok Hst Hp Ha Ht <-. cbv zeta.
  assert (s_rto_count (c_s (c <| c_s ::= λ s, s <| s_retransmit_queue := [] |> |>)) = s_rto_count (c_s c)) as -> by reflexivity.
  destruct (_ <? _); [by eexists|].
  destruct (rto_resend c (rack_update_reo_wnd (c_s (c <| c_s ::= λ s, s <| s_retransmit_queue := [] |> |>)))) as (c' & -> & H'); try done.
  by exists c'.
Qed.

(** From the restart of the timer on. *)
Lemma rto_middle c ms n :
  sender_ok c → steady c → 0 <= b_prior_cwnd (s_bbr (c_s c)) < 2 ^ 32 → is_u32 (s_remote_acked (c_s c)) →
  s_rto_count (c_s c) = n →
  ∃ c', (let c := stream_timer_start c UDX_TIMER_RTO ms in
         let c := c <| c_s ::= λ s, s <| s_retransmit_queue := [] |> |> in
         let rack_reo_wnd := rack_update_reo_wnd (c_s c) in
         if UDX_MAX_RTO_TIMEOUTS <? s_rto_count (c_s c) then Some (c, true)
         else c ← rto_retransmit c rack_reo_wnd; Some (c, false)) = Some (c', UDX_MAX_RTO_TIMEOUTS <? n) ∧
    (UDX_MAX_RTO_TIMEOUTS <? n = false → sender_ok c' ∧ guarded c' ∧ tended c c').
Proof.
  intros Hok Hst Hp Ha <-. pose proof (timer_start_core c UDX_TIMER_RTO ms) as Hsame.
  destruct (timer_start_facts c UDX_TIMER_RTO ms) as [Ec Et].
  destruct (rto_tail (stream_timer_start c UDX_TIMER_RTO ms) (s_rto_count (c_s c))) as (c' & E & H').
  - by apply (same_core_ok c).
  - apply (steady_view c); [done|by apply (same_core_field estimates)|reflexivity].
  - by rewrite (same_core_field s_bbr _ _ (λ _, eq_refl) Hsame).
  - by rewrite (same_core_field s_remote_acked _ _ (λ _, eq_refl) Hsame).
  - done.
  - done.
  - exists c'. split; [exact E|]. intros En. destruct (H' En) as (? & ? & ?). split; [done|]. split; [done|].
    etransitivity; [apply timer_start_tended|done].
Qed.

Lemma rto_timeout_run c :
  sender_ok c → can_recover c → has (s_status (c_s c)) UDX_STREAM_CONNECTED = true →
  s_remote_acked (c_s c) ≠ s_seq (c_s c) →
  ∃ c', udx_rto_timeout c = Some (c', UDX_MAX_RTO_TIMEOUTS <? u8 (s_rto_count (c_s c) + 1)) ∧
    (UDX_MAX_RTO_TIMEOUTS <? u8 (s_rto_count (c_s c) + 1) = false → sender_ok c' ∧ guarded c' ∧ tended c c').
Proof.
  intros Hok Hcr Hconn Hne. unfold udx_rto_timeout. set (c0 := c <| c_s ::= λ s, s <| s_pending_timer := UDX_TIMER_NONE |> |>).
  assert (sender_ok c0) as Hok0 by by apply pending_ok.
  change (s_status (c_s c0)) with (s_status (c_s c)). rewrite Hconn.
  change (s_remote_acked (c_s c0)) with (s_remote_acked (c_s c)). change (s_seq (c_s c0)) with (s_seq (c_s c)).
  rewrite (proj2 (Z.eqb_neq _ _) Hne). cbn [negb]. set (c1 := c0 <| c_s ::= rto_enter_loss |>).
  destruct (enter_loss_ok c0 c1) as (Hok1 & Hst1 & Hp1); [done|by destruct Hcr|done|done|].
  destruct (enter_loss_fields (c_s c0)) as [Ec Ha0].
  pose proof (closed_alive _ (cs_alive _ (proj1 Hok1))) as Hcl. rewrite Hcl. cbn [negb].
  destruct (rto_middle c1 (u32 (rto (s_rtt (c_s c1)) * 2)) (u8 (s_rto_count (c_s c0) + 1))) as (c' & E & H'); [done|done|done| |exact Ec|].
  { apply (eq_ind_r is_u32 (cr_acked _ Hcr) Ha0). }
  exists c'. split; [exact E|]. intros En. destruct (H' En) as (? & ? & ?). split; [done|]. split; [done|]. transitivity c1; [|done].
  transitivity c0; [by apply tended_stream|]. apply (tended_stream c0); unfold rto_enter_loss, booked, wire_view; cbv zeta;
  cbn [s_acct s_write_queue s_pkt s_outgoing s_mtu s_remote_acked s_seq s_pkt_header_flag upd_field]; by rewrite !(save_cwnd_field _ _) by done.
Qed.

End Timers.

(** ** The stream of Sender.v's example: a lost packet, a packet in flight *)
#[local] Existing Instance example_env.

Lemma example_can_recover : can_recover example_sending.
Proof.
  split.
  - apply steady_simple. vm_compute. done.
  - vm_compute. done.
  - vm_compute. done.
Qed.

Lemma rack_detect_loss_ok_witness : ∃ c' timeout, rack_detect_loss example_sending = Some (c', timeout) ∧ sender_ok c'.
Proof. exact (rack_detect_loss_ok example_sending example_sender_ok example_can_recover). Defined.

