(* ===== verification/Interface.v ===== *)
(** * Watching the network interfaces, and name lookup (src/udx.c, the end of the file)

    A listener polls libuv's list of interface addresses and tells the user
    when it changed.  The order in which the system lists the addresses is not
    a change, so two lists that differ are compared again after sorting.

    [interface_events_spec] says exactly what is reported: the scan restarts at
    index 1 after sorting (the loop's increment follows [i = 0]), so a change that
    only shows in the smallest address is missed ([interface_change_missed]). *)

From stdpp Require Import sorting lexico.
From S2P Require Import Prelude Stream Ctx Socket.

(** ** Comparing addresses *)

(** [uv_interface_address_t]: the bytes from [phys_addr] (6) through the padding and
    [is_internal] that follow it in memory, and the bytes of [address] (28). *)
Record interface := mk_interface { if_phys : list Z; if_tail : list Z; if_address : list Z }.

(** C's strcmp: [None] when no NUL byte ends the strings. *)
Fixpoint strcmp (a b : list Z) : option Z :=
  match a, b with
  | x :: a, y :: b => if x =? y then (if x =? 0 then Some 0 else strcmp a b) else Some (x - y)
  | _, _ => None
  end.
(** C's memcmp over the length of the first object. *)
Fixpoint memcmp (a b : list Z) : option Z :=
  match a, b with
  | [], _ => Some 0
  | x :: a, y :: b => if x =? y then memcmp a b else Some (x - y)
  | _, [] => None
  end.

(** [phys_addr] is no string: strcmp reads past its end when none of its bytes is 0. *)
Definition cmp_interface (ia ib : interface) : option Z :=
  result ← strcmp (if_phys ia ++ if_tail ia) (if_phys ib ++ if_tail ib);
  if truthy result then Some result
  else
    result ← memcmp (if_address ia) (if_address ib);
    if truthy result then Some result else Some 0.

(** What the comparison looks at. *)
Fixpoint cstr (l : list Z) : list Z := match l with [] => [] | x :: l => if x =? 0 then [0] else x :: cstr l end.
Definition key (i : interface) : list Z * list Z := (cstr (if_phys i ++ if_tail i), if_address i).

(** The bytes strcmp reads end with a NUL, and [address] has its size. *)
Definition comparable (i : interface) : Prop := 0 ∈ if_phys i ++ if_tail i ∧ length (if_address i) = 28%nat.
#[export] Instance comparable_dec i : Decision (comparable i).
Proof. unfold comparable. apply _. Defined.
Definition key_le (a b : interface) : Prop := key a = key b ∨ lexico (key a) (key b).

(** ** A listener *)

(** [struct udx_interface_event_s]; [ie_timer] is the period of the running timer. *)
Record interface_event := mk_interface_event {
  ie_closing : bool; ie_addrs : list interface; ie_sorted : bool;
  ie_on_event : bool; ie_on_close : bool; ie_timer : option Z }.
#[export] Instance eta_interface_event : Eta interface_event := λ r,
  mk_interface_event (ie_closing r) (ie_addrs r) (ie_sorted r) (ie_on_event r) (ie_on_close r) (ie_timer r).

Section Interval.
(** C's qsort with [cmp_interface]; elements that compare equal may come in any order. *)
Variable qsort : list interface → list interface.

Definition sort_addrs (l : list interface) : option (list interface) :=
  if decide (Forall comparable l) then Some (qsort l) else None.

(** The for loop: whether the addresses changed, [handle->addrs] and [handle->sorted]
    after it. *)
Fixpoint scan (fuel : nat) (addrs prev_addrs : list interface) (prev_sorted sorted : bool) (i : nat) :
    option (bool * list interface * bool) :=
  if decide (i < length addrs)%nat then
    match fuel with
    | O => None
    | S fuel =>
        a ← addrs !! i; b ← prev_addrs !! i;
        r ← cmp_interface a b;
        if r =? 0 then scan fuel addrs prev_addrs prev_sorted sorted (S i)
        else if sorted then Some (true, addrs, sorted)
        else
          addrs ← sort_addrs addrs;
          prev_addrs ← (if prev_sorted then Some prev_addrs else sort_addrs prev_addrs);
          let i := 0%nat in
          scan fuel addrs prev_addrs prev_sorted true (S i)
    end
  else Some (false, addrs, sorted).

(** [now] is what uv_interface_addresses returns and leaves in the handle.  The result
    has the status handed to [on_event], when it is called. *)
Definition on_interface_event_interval (handle : interface_event) (now : Z * list interface) :
    option (interface_event * option Z) :=
  let prev_addrs := ie_addrs handle in
  let prev_sorted := ie_sorted handle in
  let '(err, addrs) := now in
  let handle := handle <| ie_addrs := addrs |> in
  if err <? 0 then assert! ie_on_event handle; Some (handle, Some err)
  else
    let handle := handle <| ie_sorted := false |> in
    let changed := negb (length addrs =? length prev_addrs)%nat in
    '(changed, addrs, sorted) ← (if changed then Some (true, addrs, false)
                                  else scan (2 * length addrs) addrs prev_addrs prev_sorted false 0);
    let handle := handle <| ie_addrs := addrs |> <| ie_sorted := sorted |> in
    if (changed : bool) then assert! ie_on_event handle; Some (handle, Some 0)
    else Some (handle <| ie_sorted := prev_sorted |>, None).
End Interval.

(** ** Listeners of the udx_t

    [ui_handles] is the memory of the users' handles, [ui_listeners] the list at
    [udx->listeners].  The libuv calls' results are arguments. *)
Record udx_listeners := mk_udx_listeners {
  ui_sys : sys; ui_listeners : list positive; ui_handles : gmap positive interface_event }.
#[export] Instance eta_udx_listeners : Eta udx_listeners := λ r,
  mk_udx_listeners (ui_sys r) (ui_listeners r) (ui_handles r).

Definition set_handle (y : udx_listeners) (h : positive) (handle : interface_event) : udx_listeners :=
  y <| ui_handles ::= <[h := handle]> |>.
Definition add_ref (y : sys) : sys := y <| y_world ::= λ w, w <| w_refs ::= λ r, r + 1 |> |>.

Definition udx_interface_event_init (y : udx_listeners) (h : positive) (cb : bool) (now : Z * list interface) (timer_err : Z) :
    option (udx_listeners * Z) :=
  if w_teardown (y_world (ui_sys y)) then Some (y, UV_EINVAL)
  else
    handle ← ui_handles y !! h;
    let handle := handle <| ie_sorted := false |> <| ie_on_close := cb |> <| ie_closing := false |> in
    let handle := handle <| ie_addrs := now.2 |> in
    if now.1 <? 0 then Some (set_handle y h handle, now.1)
    else if timer_err <? 0 then Some (set_handle y h handle, timer_err)
    else Some (set_handle y h (handle <| ie_timer := None |>) <| ui_sys ::= add_ref |>
                 <| ui_listeners ::= λ l, udx__link_add l h |>, 0).

Definition udx_interface_event_start (y : udx_listeners) (h : positive) (cb : bool) (frequency timer_err : Z) :
    option (udx_listeners * Z) :=
  handle ← ui_handles y !! h;
  let handle := handle <| ie_on_event := cb |> in
  Some (set_handle y h (if timer_err <? 0 then handle else handle <| ie_timer := Some frequency |>),
        if timer_err <? 0 then timer_err else 0).

Definition udx_interface_event_stop (y : udx_listeners) (h : positive) : option (udx_listeners * Z) :=
  handle ← ui_handles y !! h;
  Some (set_handle y h (handle <| ie_on_event := false |> <| ie_timer := None |>), 0).

(** uv_close takes effect later, as [on_interface_event_close]. *)
Definition udx_interface_event_close (y : udx_listeners) (h : positive) : option (udx_listeners * Z) :=
  handle ← ui_handles y !! h;
  if ie_closing handle then Some (y, UV_EINVAL)
  else Some (set_handle y h (handle <| ie_closing := true |> <| ie_on_event := false |> <| ie_addrs := [] |>
                               <| ie_timer := None |>), 0).

Definition UDX_LOOKUP_FAMILY_IPV4 : Z := 1.
Definition UDX_LOOKUP_FAMILY_IPV6 : Z := 2.

(** The [ai_family] of the hints. *)
Definition lookup_family (flags : Z) : sa_family :=
  let family := AF_UNSPEC in
  let family := if has flags UDX_LOOKUP_FAMILY_IPV4 then AF_INET else family in
  if has flags UDX_LOOKUP_FAMILY_IPV6 then AF_INET6 else family.

(** [udx_lookup]; [err] is the result of uv_getaddrinfo, which is asked for the family
    of the second result. *)
Definition udx_lookup (y : sys) (flags err : Z) : sys * option sa_family * Z :=
  if w_teardown (y_world y) then (y, None, UV_EINVAL)
  else (add_ref y, Some (lookup_family flags), err).

Section Callbacks.
Context `{Env}.
Variable ucb : callback → sys → option sys.

Definition on_interface_event_close (y : udx_listeners) (h : positive) : option udx_listeners :=
  event ← ui_handles y !! h;
  let y := y <| ui_listeners ::= λ l, udx__link_remove l h |> in
  z ← (if ie_on_close event then ycall ucb (CbInterfaceClose h) (ui_sys y) else Some (ui_sys y));
  z ← ref_dec ucb z;
  Some (y <| ui_sys := z |>).

(** [res] is the first address of getaddrinfo's list. *)
Definition on_uv_getaddrinfo (y : sys) (req : positive) (status : Z) (res : option sockaddr) : option sys :=
  y ← (if status <? 0 then ycall ucb (CbLookup req status None) y
       else addr ← res; ycall ucb (CbLookup req status (Some addr)) y);
  ref_dec ucb y.
End Callbacks.

(** ** The comparison *)

Lemma lexico_same (x : Z) (a b : list Z) : lexico (x :: a) (x :: b) ↔ lexico a b.
Proof. split; [|by right]. intros [H|[_ H]]; [|done]. exfalso. exact (Z.lt_irrefl _ H). Qed.
Lemma lexico_head (x y : Z) (a b : list Z) : x ≠ y → lexico (x :: a) (y :: b) ↔ x < y.
Proof. intros. split; [|by left]. by intros [H'|[H' _]]. Qed.
Lemma lexico_pair (x y1 y2 : list Z) : lexico (x, y1) (x, y2) ↔ lexico y1 y2.
Proof. split; [|by right]. intros [H|[_ H]]; [|done]. cbn in H. exfalso. by apply (irreflexivity lexico x). Qed.
Lemma lexico_fst (x1 x2 y1 y2 : list Z) : x1 ≠ x2 → lexico (x1, y1) (x2, y2) ↔ lexico x1 x2.
Proof. intros. split; [|by left]. by intros [H'|[H' _]]. Qed.

Lemma strcmp_spec a b : 0 ∈ a → 0 ∈ b →
  ∃ r, strcmp a b = Some r ∧ (r = 0 ↔ cstr a = cstr b) ∧ (r < 0 ↔ lexico (cstr a) (cstr b)).
Proof.
  revert b. induction a as [|x a IH]; intros b Ha Hb; [by apply elem_of_nil in Ha|].
  destruct b as [|y b]; [by apply elem_of_nil in Hb|]. apply elem_of_cons in Ha, Hb. cbn [strcmp cstr].
  destruct (Z.eqb_spec x y) as [<-|Hxy].
  - destruct (Z.eqb_spec x 0) as [->|Hx].
    + exists 0. split_and!; [done|done|]. rewrite lexico_same. split; [lia|done].
    + destruct (IH b) as (r & E & H1 & H2); [naive_solver..|]. exists r. rewrite lexico_same. split_and!; [done| |done].
      rewrite H1. split; [by intros ->|by intros [= ?]].
  - exists (x - y). split_and!; [done| |]; destruct (Z.eqb_spec x 0), (Z.eqb_spec y 0); try lia.
    all: try (split; [lia|intros [=]; lia]).
    all: rewrite lexico_head by lia; lia.
Qed.

Lemma memcmp_spec a b : length a = length b →
  ∃ r, memcmp a b = Some r ∧ (r = 0 ↔ a = b) ∧ (r < 0 ↔ lexico a b).
Proof.
  revert b. induction a as [|x a IH]; intros [|y b] Hl; try done.
  { by exists 0. }
  cbn [memcmp]. destruct (Z.eqb_spec x y) as [<-|Hxy].
  - destruct (IH b) as (r & E & H1 & H2); [by injection Hl|]. exists r. split_and!; [done| |].
    + rewrite H1. split; [by intros ->|by intros [= ?]].
    + by rewrite lexico_same.
  - exists (x - y). split_and!; [done|split; [lia|intros [=]; lia]|]. rewrite lexico_head by done. lia.
Qed.

Lemma cmp_spec a b : comparable a → comparable b →
  ∃ r, cmp_interface a b = Some r ∧ (r = 0 ↔ key a = key b) ∧ (r <= 0 ↔ key_le a b).
Proof.
  intros [Ha La] [Hb Lb]. unfold cmp_interface, key_le, key.
  destruct (strcmp_spec _ _ Ha Hb) as (r & -> & H1 & H2). cbn [mbind option_bind]. unfold truthy.
  destruct (Z.eqb_spec r 0) as [->|Hr]; cbn [negb].
  - destruct (memcmp_spec (if_address a) (if_address b)) as (r' & -> & H3 & H4); [congruence|]. cbn [mbind option_bind].
    assert (cstr (if_phys a ++ if_tail a) = cstr (if_phys b ++ if_tail b)) as E by by apply H1. rewrite E in *.
    exists r'. rewrite lexico_pair, <- H4. split_and!.
    + by destruct (Z.eqb_spec r' 0) as [->|].
    + rewrite H3. split; [by intros ->|by intros [= ?]].
    + split; [|intros [[= ?%H3]|?]; lia]. intros ?. destruct (decide (r' = 0)) as [->|]; [left; f_equal; by apply H3|right; lia].
  - exists r. split_and!; [done| |].
    + split; [lia|]. intros [= E%H1 _]. done.
    + assert (cstr (if_phys a ++ if_tail a) ≠ cstr (if_phys b ++ if_tail b)) as Ne by by rewrite <- H1.
      rewrite lexico_fst by done. rewrite <- H2. split; [lia|]. intros [[= ? _]|?]; [done|lia].
Qed.

#[export] Instance key_le_trans : Transitive key_le.
Proof. intros a b c [E1|H1] [E2|H2]; [left; congruence|right; by rewrite E1|right; by rewrite <- E2|right; by trans (key b)]. Qed.

Lemma sorted_by_key l : Sorted key_le l ↔ Sorted (λ x y, x = y ∨ lexico x y) (key <$> l).
Proof.
  split.
  - induction 1 as [|x l H IH Hd]; cbn; constructor; [done|]. destruct Hd; by constructor.
  - induction l as [|x l IH]; cbn; intros H; [constructor|]. apply Sorted_inv in H as [H Hd]. constructor; [by apply IH|].
    destruct l as [|y l]; constructor. by inversion Hd.
Qed.

(** Two sorted lists of the same addresses have the same keys, in order. *)
Lemma sorted_keys l1 l2 :
  Sorted key_le l1 → Sorted key_le l2 → key <$> l1 ≡ₚ key <$> l2 → key <$> l1 = key <$> l2.
Proof.
  intros H1%sorted_by_key H2%sorted_by_key. revert H1 H2. set (R := λ x y : list Z * list Z, x = y ∨ lexico x y).
  intros H1 H2. apply (@Sorted_unique _ R); [| |done|done].
  - intros x y z [->|?] [->|?]; [by left|by right|by right|right; by trans y].
  - intros x y [->|?] [E|?]; try done. exfalso. apply (irreflexivity lexico x). by trans y.
Qed.

(** ** What a poll reports *)

Section Reports.
Variable qsort : list interface → list interface.
Hypothesis qsort_permutation : ∀ l, qsort l ≡ₚ l.
Hypothesis qsort_sorted : ∀ l, Forall comparable l →
  Sorted (λ a b, ∃ r, cmp_interface a b = Some r ∧ r <= 0) (qsort l).

(** Two lists of addresses that differ at the index [i] or after it. *)
Definition differ_from (i : nat) (l1 l2 : list interface) : bool :=
  negb (bool_decide (drop i (key <$> l1) = drop i (key <$> l2))).

Record listening (handle : interface_event) : Prop := {
  li_on_event : ie_on_event handle = true;
  li_comparable : Forall comparable (ie_addrs handle);
  li_sorted : ie_sorted handle = true → Sorted key_le (ie_addrs handle) }.

Definition in_order (handle : interface_event) : list interface :=
  if ie_sorted handle then ie_addrs handle else qsort (ie_addrs handle).

Lemma qsort_comparable l : Forall comparable l → Forall comparable (qsort l).
Proof. by rewrite qsort_permutation. Qed.
Lemma qsort_length l : length (qsort l) = length l.
Proof. by rewrite qsort_permutation. Qed.

Lemma qsort_key_le l : Forall comparable l → Sorted key_le (qsort l).
Proof.
  intros Hl. pose proof (qsort_sorted l Hl) as Hs. apply qsort_comparable in Hl. induction Hs as [|x xs Hs IH Hd]; [constructor|].
  apply Forall_cons in Hl as [Hx Hl]. constructor; [by apply IH|].
  destruct Hd as [|y ys (r & E & Hr)]; constructor. apply Forall_cons in Hl as [Hy _].
  destruct (cmp_spec x y Hx Hy) as (r' & E' & _ & <-). congruence.
Qed.

Lemma differ_step i l1 l2 a b :
  l1 !! i = Some a → l2 !! i = Some b → differ_from i l1 l2 = if decide (key a = key b) then differ_from (S i) l1 l2 else true.
Proof.
  intros Ha Hb. unfold differ_from. rewrite (drop_S (key <$> l1) (key a) i), (drop_S (key <$> l2) (key b) i)
    by by rewrite list_lookup_fmap, ?Ha, ?Hb.
  case_decide as E.
  - f_equal. apply bool_decide_ext. rewrite E. split; [by intros H; apply (f_equal tail) in H|by intros ->].
  - apply negb_true_iff, bool_decide_false. intros H.
    apply E, (inj Some). by apply (f_equal head) in H.
Qed.
Lemma differ_end i l1 l2 : length l1 = length l2 → (length l1 <= i)%nat → differ_from i l1 l2 = false.
Proof. intros ? ?. unfold differ_from. rewrite !drop_ge by (rewrite length_fmap; lia). done. Qed.

Lemma scan_turn l1 l2 i : Forall comparable l1 → Forall comparable l2 → length l1 = length l2 → (i < length l1)%nat →
  ∃ a b r, l1 !! i = Some a ∧ l2 !! i = Some b ∧ cmp_interface a b = Some r ∧ (r = 0 ↔ key a = key b).
Proof.
  intros H1 H2 Hl Hi. destruct (lookup_lt_is_Some_2 l1 i Hi) as [a Ha]. rewrite Hl in Hi. destruct (lookup_lt_is_Some_2 l2 i Hi) as [b Hb].
  destruct (cmp_spec a b) as (r & ? & ? & _); [exact (Forall_lookup_1 _ _ _ _ H1 Ha)|exact (Forall_lookup_1 _ _ _ _ H2 Hb)|]. by exists a, b, r.
Qed.

Lemma scan_sorted fuel l1 l2 ps i :
  Forall comparable l1 → Forall comparable l2 → length l1 = length l2 → (length l1 - i <= fuel)%nat →
  scan qsort fuel l1 l2 ps true i = Some (differ_from i l1 l2, l1, true).
Proof.
  intros H1 H2 Hl. revert i. induction fuel as [|fuel IH]; intros i Hf; cbn [scan]; case_decide as Hi.
  1: lia. 1, 3: by rewrite differ_end by lia.
  destruct (scan_turn l1 l2 i H1 H2 Hl Hi) as (a & b & r & Ha & Hb & Hc & Hr). rewrite Ha, Hb. cbn [mbind option_bind]. rewrite Hc.
  cbn [mbind option_bind]. rewrite (differ_step _ _ _ _ _ Ha Hb).
  destruct (Z.eqb_spec r 0) as [->|N]; [rewrite decide_True by (by apply Hr); apply IH; lia|by rewrite decide_False by (by rewrite <- Hr)].
Qed.

(** The scan of unsorted lists: the first difference sorts both, and the scan goes on at index 1. *)
Lemma scan_unsorted fuel l1 l2 (ps : bool) i :
  Forall comparable l1 → Forall comparable l2 → length l1 = length l2 → (2 * length l1 - i <= fuel)%nat →
  scan qsort fuel l1 l2 ps false i =
    if differ_from i l1 l2 then Some (differ_from 1 (qsort l1) (if ps then l2 else qsort l2), qsort l1, true)
    else Some (false, l1, false).
Proof.
  intros H1 H2 Hl. revert i. induction fuel as [|fuel IH]; intros i Hf; cbn [scan]; case_decide as Hi.
  1: lia. 1, 3: by rewrite differ_end by lia.
  destruct (scan_turn l1 l2 i H1 H2 Hl Hi) as (a & b & r & Ha & Hb & Hc & Hr). rewrite Ha, Hb. cbn [mbind option_bind]. rewrite Hc.
  cbn [mbind option_bind]. rewrite (differ_step _ _ _ _ _ Ha Hb).
  destruct (Z.eqb_spec r 0) as [->|N]; [rewrite decide_True by (by apply Hr); apply IH; lia|].
  rewrite decide_False by (by rewrite <- Hr). unfold sort_addrs. rewrite !decide_True by done. cbn [mbind option_bind].
  assert (Forall comparable (if ps then l2 else qsort l2) ∧ length (if ps then l2 else qsort l2) = length l1) as [Hc2 Hl2]
    by (destruct ps; rewrite ?qsort_length; auto using qsort_comparable).
  replace (if ps then Some l2 else Some (qsort l2)) with (Some (if ps then l2 else qsort l2)) by by destruct ps.
  cbn [mbind option_bind]. apply scan_sorted; [by apply qsort_comparable|done|by rewrite qsort_length, Hl2|rewrite qsort_length; lia].
Qed.

(** C38: what a poll of the network interfaces reports.  When libuv lists the addresses, the
    poll ends, keeps the handle well formed and holding the addresses listed, and calls
    on_event exactly when their number changed, or some address moved and, with both lists
    sorted, one differs at an index other than 0. *)
Theorem interface_events_spec handle err addrs :
  listening handle → Forall comparable addrs → 0 <= err →
  ∃ handle', on_interface_event_interval qsort handle (err, addrs) =
      Some (handle', if negb (length addrs =? length (ie_addrs handle))%nat
                        || differ_from 0 addrs (ie_addrs handle) && differ_from 1 (qsort addrs) (in_order handle)
                     then Some 0 else None) ∧
    listening handle' ∧ ie_addrs handle' ≡ₚ addrs.
Proof.
  intros [He Hc Hs] Ha Herr. unfold on_interface_event_interval, in_order. rewrite (proj2 (Z.ltb_ge _ _)) by done.
  destruct (Nat.eqb_spec (length addrs) (length (ie_addrs handle))) as [Hl|Hl]; cbn [negb orb].
  - rewrite scan_unsorted by (done || lia). destruct (differ_from 0 addrs (ie_addrs handle)) eqn:D0; cbn [mbind option_bind andb].
    + destruct (differ_from 1 _ _); cbn; rewrite ?He; eexists; (split; [done|]);
        (split; [split; cbn; [done|by apply qsort_comparable|by intros; apply qsort_key_le]|apply qsort_permutation]).
    + cbn. eexists. split; [done|]. split; [|done]. split; cbn; [done|done|]. intros S.
      apply negb_false_iff, bool_decide_eq_true in D0. rewrite !drop_0 in D0.
      apply sorted_by_key. rewrite D0. by apply sorted_by_key, Hs.
  - cbn. rewrite He. eexists. split; [done|]. split; [|done]. by split.
Qed.
End Reports.

(** ** A qsort *)

#[export] Instance key_le_dec a b : Decision (key_le a b).
Proof. unfold key_le. apply _. Defined.
#[export] Instance key_le_total : Total key_le.
Proof. intros a b. unfold key_le. destruct (trichotomyT lexico (key a) (key b)) as [[?|?]|?]; auto. Qed.
Definition key_sort (l : list interface) : list interface := merge_sort key_le l.

Lemma key_sort_sorted l : Forall comparable l →
  Sorted (λ a b, ∃ r, cmp_interface a b = Some r ∧ r <= 0) (key_sort l).
Proof.
  intros Hl. rewrite <- (merge_sort_Permutation key_le l) in Hl. unfold key_sort.
  pose proof (Sorted_merge_sort key_le l) as Hs. induction Hs as [|x xs Hs IH Hd]; [constructor|].
  apply Forall_cons in Hl as [Hx Hl]. constructor; [by apply IH|]. destruct Hd as [|y ys Hd]; constructor.
  apply Forall_cons in Hl as [Hy _]. destruct (cmp_spec x y Hx Hy) as (r & E & _ & H). exists r. split; [done|]. by apply H.
Qed.

(** The order in which the system lists the addresses is not a change: the poll does not
    call on_event when it gets the addresses the handle has, in any order. *)
Theorem interface_reorder_silent handle err addrs :
  listening handle → Forall comparable addrs → 0 <= err → key <$> addrs ≡ₚ key <$> ie_addrs handle →
  snd <$> on_interface_event_interval key_sort handle (err, addrs) = Some None.
Proof.
  intros Hli Ha He Hp. pose proof (λ l, merge_sort_Permutation key_le l) as Hq.
  destruct (interface_events_spec key_sort Hq key_sort_sorted handle err addrs Hli Ha He) as (h' & -> & _).
  cbn. pose proof (Permutation_length Hp) as Hl. rewrite !length_fmap in Hl. rewrite Hl, Nat.eqb_refl. cbn [negb orb].
  unfold differ_from at 2. rewrite (sorted_keys (key_sort addrs) (in_order key_sort handle)).
  - by rewrite bool_decide_true, andb_false_r by done.
  - apply Sorted_merge_sort. apply _.
  - unfold in_order. destruct (ie_sorted handle) eqn:S; [by apply Hli|apply Sorted_merge_sort; apply _].
  - unfold in_order, key_sort. rewrite (Hq addrs), Hp. destruct (ie_sorted handle); [done|by rewrite Hq].
Qed.

(** A change that only shows in the smallest address is missed: lists that agree but for
    their heads, both in order, make the poll report nothing, whatever the two heads are. *)
Theorem interface_change_missed handle err a b l :
  listening handle → ie_addrs handle = b :: l → Forall comparable (a :: l) → 0 <= err →
  Sorted key_le (a :: l) → Sorted key_le (b :: l) →
  snd <$> on_interface_event_interval key_sort handle (err, a :: l) = Some None.
Proof.
  intros Hli Hb Ha He Sa Sb. pose proof (λ l, merge_sort_Permutation key_le l) as Hq.
  destruct (interface_events_spec key_sort Hq key_sort_sorted handle err (a :: l) Hli Ha He) as (h' & -> & _).
  rewrite Hb. cbn [length]. rewrite Nat.eqb_refl. cbn [negb orb fmap option_fmap option_map snd].
  unfold differ_from at 2. rewrite (sorted_keys (key_sort (a :: l)) (a :: l)), (sorted_keys (in_order key_sort handle) (b :: l)).
  - by rewrite bool_decide_true, andb_false_r.
  - unfold in_order. rewrite Hb. destruct (ie_sorted handle); [done|apply Sorted_merge_sort; apply _].
  - done.
  - unfold in_order, key_sort. rewrite Hb. destruct (ie_sorted handle); [done|by rewrite Hq].
  - apply Sorted_merge_sort. apply _.
  - done.
  - unfold key_sort. by rewrite Hq.
Qed.

(** ** Examples *)

Definition example_interface (host : Z) : interface :=
  mk_interface [2; 66; 0; 0; 0; 1] [0; 0; 0; 0; 0; 0] (2 :: 0 :: 0 :: 0 :: 10 :: 0 :: 0 :: host :: repeat 0 20).
Definition example_listener : interface_event :=
  mk_interface_event false [example_interface 2; example_interface 3] false true false (Some 1000).
Lemma example_comparable l : Forall comparable (example_interface <$> l).
Proof. apply Forall_fmap, Forall_true. intros x. split; [set_solver|done]. Qed.
Lemma example_sorted a b : a < b → Sorted key_le [example_interface a; example_interface b].
Proof.
  intros H. apply Sorted_cons; [by repeat constructor|]. constructor. right. unfold key, example_interface. cbn [if_phys if_tail if_address].
  rewrite lexico_pair, !lexico_same. by apply lexico_head; [lia|].
Qed.
Lemma example_listening : listening example_listener.
Proof. split; [done|apply (example_comparable [2; 3])|done]. Qed.

Lemma interface_events_spec_witness :
  ∃ handle', on_interface_event_interval key_sort example_listener (0, [example_interface 2; example_interface 4]) = Some (handle', Some 0) ∧
    listening handle'.
Proof.
  destruct (interface_events_spec key_sort (λ l, merge_sort_Permutation key_le l) key_sort_sorted example_listener 0
    [example_interface 2; example_interface 4]) as (h & E & H & _).
  - apply example_listening.
  - apply (example_comparable [2; 4]).
  - lia.
  - exists h. split; [exact E|exact H].
Defined.

Lemma interface_reorder_silent_witness :
  snd <$> on_interface_event_interval key_sort example_listener (0, [example_interface 3; example_interface 2]) = Some None.
Proof.
  apply interface_reorder_silent.
  - apply example_listening.
  - apply (example_comparable [3; 2]).
  - lia.
  - apply perm_swap.
Defined.

Lemma interface_change_missed_witness :
  key (example_interface 1) ≠ key (example_interface 2) ∧
  snd <$> on_interface_event_interval key_sort example_listener (0, [example_interface 1; example_interface 3]) = Some None.
Proof.
  split; [discriminate|]. apply (interface_change_missed _ _ _ (example_interface 2)).
  - apply example_listening.
  - reflexivity.
  - apply (example_comparable [1; 3]).
  - lia.
  - apply example_sorted. lia.
  - apply example_sorted. lia.
Defined.

(** When getaddrinfo cannot be started, no callback gives back the reference that
    udx_lookup took: the udx_t never becomes idle. *)
Lemma udx_lookup_failure_keeps_ref y flags err :
  w_teardown (y_world y) = false → 0 <= w_refs (y_world y) →
  (udx_lookup y flags err).2 = err ∧ udx_is_idle (udx_lookup y flags err).1.1 = false.
Proof. intros Ht Hr. unfold udx_lookup. rewrite Ht. split; [done|]. unfold udx_is_idle. cbn. lia. Qed.
