(* ===== verification/Lifecycle.v ===== *)
(** * Opening, connecting, relaying and closing streams (src/udx.c)

    [enter] makes a stream of the system the running one and [leave] puts it
    back.  Closing a stream destroys the streams it relays, so [close_stream] and
    [udx_stream_destroy] recurse; the fuel counts the nesting of relays. *)

From S2P Require Import Prelude SeqNum Endian Wire Cirbuf WinFilter Stream Rtt Mtu Rate Float64 Bbr Ctx Send Loss Write Ack Recv Socket.

Definition leave (c : ctx) : sys :=
  mk_sys (c_world c <| w_others ::= <[c_self c := mk_objs (c_s c) (c_packets c) (c_wbufs c) (c_writes c)]> |>)
    (c_io c) (c_next c).

Definition enter (sid : stream_id) (y : sys) : option ctx :=
  o ← w_others (y_world y) !! sid;
  Some (mk_ctx (o_s o) (o_packets o) (o_wbufs o) (o_writes o) (y_next y) (y_io y) sid
          (y_world y <| w_others ::= delete sid |>)).

(** Runs [f] on the whole system and comes back to the stream. *)
Definition outside (f : sys → option sys) (c : ctx) : option ctx :=
  y ← f (leave c); enter (c_self c) y.

Section Lifecycle.
Context `{Env}.
Variable ucb : callback → sys → option sys.

(** User code called from a stream. *)
Definition cb (k : callback) : ctx → option ctx := outside (ucb k).

(** ** The stream's place in the udx_t or its socket *)

Definition stream_list (w : world) (s : stream) : list stream_id :=
  match s_socket s with
  | Some k => match w_socket_objs w !! k with Some o => sk_streams o | None => [] end
  | None => w_streams w
  end.
Definition unlink_stream (c : ctx) : ctx :=
  c <| c_world ::= λ w,
    match s_socket (c_s c) with
    | Some k => w <| w_socket_objs ::= alter (λ o, o <| sk_streams ::= λ l, udx__link_remove l (c_self c) |>) k |>
    | None => w <| w_streams ::= λ l, udx__link_remove l (c_self c) |>
    end <| w_stream_next ::= <[c_self c := link_next (stream_list w (c_s c)) (c_self c)]> |> |>.

Definition set_stream_socket (c : ctx) (k : socket_id) : ctx :=
  if decide (s_socket (c_s c) = Some k) then c
  else
    unlink_stream c
      <| c_s ::= λ s, s <| s_socket := Some k |> |>
      <| c_world ::= λ w, w <| w_socket_objs ::=
           alter (λ o, o <| sk_streams ::= λ l, udx__link_add l (c_self c) |>) k |> |>.

Definition stream_timewait (c : ctx) : option ctx :=
  k ← s_socket (c_s c);
  let t := c_next c in
  let s := c_s c in
  let tw := mk_timewait (s_local_id s) k (s_remote_addr s)
              (udx_write_header c 0 (s_remote_id s))
              (Some (u64 (now c + UDX_STREAM_TIMEWAIT_TIMEOUT_MS))) in
  Some (c <| c_next ::= Pos.succ |>
          <| c_world ::= λ w,
             w <| w_timewaits ::= <[t := tw]> |>
               <| w_stream_table ::= <[s_local_id s := EntryTimewait t]> |>
               <| w_socket_objs ::= alter (λ o, o <| sk_timewait_queue ::= λ q, q ++ [t] |>) k |> |>).

(** [udx_stream_read_stop] and the other toggles. *)
Definition udx_stream_read_stop (s : stream) : stream * Z :=
  if Z.land (s_status s) UDX_STREAM_READING =? 0 then (s, 0)
  else (s <| s_cb ::= λ k, k <| on_read := false |> |>
          <| s_status ::= λ f, Z.lxor f UDX_STREAM_READING |>, 0).
Definition udx_stream_read_start (s : stream) : stream * Z :=
  if has (s_status s) UDX_STREAM_READING then (s, UV_EALREADY)
  else (s <| s_cb ::= λ k, k <| on_read := true |> |>
          <| s_status ::= λ f, set_flag f UDX_STREAM_READING |>, 0).
Definition udx_stream_recv_stop (s : stream) : stream * Z :=
  if Z.land (s_status s) UDX_STREAM_RECEIVING =? 0 then (s, 0)
  else (s <| s_cb ::= λ k, k <| on_recv := false |> |>
          <| s_status ::= λ f, Z.lxor f UDX_STREAM_RECEIVING |>, 0).
Definition udx_stream_recv_start (s : stream) : stream * Z :=
  if has (s_status s) UDX_STREAM_RECEIVING then (s, UV_EALREADY)
  else (s <| s_cb ::= λ k, k <| on_recv := true |> |>
          <| s_status ::= λ f, set_flag f UDX_STREAM_RECEIVING |>, 0).

Definition clear_incoming_packets (s : stream) : stream := s <| s_sack_tree := [] |>.

(** The tail of close_stream_internal: the containers go, the timers stop; the
    three uv_close calls take effect later, as [finalize_maybe]. *)
Definition close_teardown (s : stream) : stream :=
  s <| s_relaying_streams ::= udx__cirbuf_destroy |> <| s_outgoing := None |>
    <| s_timer := None |> <| s_refill_pacing_timer := None |> <| s_pending_packet_prepare := false |>.

(** ** Close and destroy *)

Fixpoint close_stream_internal (fuel : nat) (c : ctx) (err : Z) : option ctx :=
  match fuel with
  | O => None
  | S fuel =>
      assert! Z.land (s_status (c_s c)) UDX_STREAM_CLOSED =? 0;
      let c := c <| c_s ::= λ s, s <| s_status ::= λ f,
                 clear_flag (set_flag f UDX_STREAM_CLOSED) UDX_STREAM_CONNECTED |> |> in
      let socket := s_socket (c_s c) in
      let c := unlink_stream c in
      c ← (if has (s_status (c_s c)) UDX_STREAM_TIMEWAIT_WANTED then stream_timewait c
           else Some (c <| c_world ::= λ w, w <| w_stream_table ::= delete (s_local_id (c_s c)) |> |>));
      c ← (if on_close (s_cb (c_s c)) then call cb (CbClose err) c else Some c);
      c ← clear_outgoing_packets cb c;
      let c := c <| c_s ::= clear_incoming_packets |> in
      let c := if has (s_status (c_s c)) UDX_STREAM_READING
               then c <| c_s ::= λ s, (udx_stream_read_stop s).1 |> else c in
      c ← (match s_relay_to (c_s c) with
           | None => Some c
           | Some r =>
               outside (λ y, d ← enter r y;
                             '(_, ring) ← udx__cirbuf_remove fst (s_relaying_streams (c_s d)) (s_local_id (c_s c));
                             Some (leave (d <| c_s ::= λ s, s <| s_relaying_streams := ring |> |>))) c
           end);
      c ← (fix destroy_all (l : list (option (Z * stream_id))) (c : ctx) : option ctx :=
             match l with
             | [] => Some c
             | None :: l => destroy_all l c
             | Some (_, sid) :: l =>
                 c ← outside (λ y, d ← enter sid y;
                                   '(d, _) ← stream_destroy fuel (d <| c_s ::= λ s, s <| s_relay_to := None |> |>);
                                   Some (leave d)) c;
                 destroy_all l c
             end) (cb_values (s_relaying_streams (c_s c))) c;
      let c := c <| c_s ::= close_teardown |> in
      match socket with
      | Some k =>
          if w_teardown (c_world c)
             && (match sk_streams <$> (w_socket_objs (c_world c) !! k) with Some [] => true | _ => false end)
          then outside (λ y, '(y, _) ← udx_socket_close ucb y k; Some y) c
          else Some c
      | None => Some c
      end
  end
with stream_destroy (fuel : nat) (c : ctx) : option (ctx * Z) :=
  match fuel with
  | O => None
  | S fuel =>
      if has (s_status (c_s c)) UDX_STREAM_CLOSED then Some (c, 0)
      else if has (s_status (c_s c)) UDX_STREAM_DESTROYING then Some (c, 0)
      else
        let c := c <| c_s ::= λ s, s <| s_status ::= λ f, clear_flag f UDX_STREAM_TIMEWAIT_WANTED |> |> in
        if Z.land (s_status (c_s c)) UDX_STREAM_CONNECTED =? 0
        then c ← close_stream_internal fuel c 0; Some (c, 0)
        else
          let c := c <| c_s ::= λ s, s <| s_status ::= λ f, set_flag f UDX_STREAM_DESTROYING |> |> in
          if s_relayed (c_s c) then c ← close_stream_internal fuel c 0; Some (c, 0)
          else
            let bytes := udx_write_header c UDX_HEADER_DESTROY (s_remote_id (c_s c)) in
            let c := c <| c_s ::= λ s, s <| s_seq ::= λ q, u32 (q + 1) |> |> in
            _ ← s_socket (c_s c);
            let '(i, err) := uv_udp_try_send (c_io c) (s_remote_addr (c_s c)) bytes in
            let c := c <| c_io := i |> in
            if err =? UV_EAGAIN then
              let '(i, err) := uv_udp_send (c_io c) (s_remote_addr (c_s c)) bytes in
              let c := c <| c_io := i |> in
              if err <? 0 then c ← close_stream_internal fuel (count_sent c UDX_HEADER_SIZE) 0; Some (c, 1)
              else Some (c, 1)
            else c ← close_stream_internal fuel (count_sent c UDX_HEADER_SIZE) 0; Some (c, 1)
  end.

Definition close_stream (fuel : nat) (c : ctx) (err : Z) : option ctx :=
  let c := if truthy err
           then c <| c_s ::= λ s, s <| s_status ::= λ f, clear_flag f UDX_STREAM_TIMEWAIT_WANTED |> |>
           else c in
  if has (s_status (c_s c)) UDX_STREAM_DESTROYING then Some c
  else close_stream_internal fuel c err.

(** The nesting of relays is at most the number of streams. *)
Definition relay_fuel (c : ctx) : nat := 2 * (2 + size (w_others (c_world c))).

Definition udx_stream_destroy (c : ctx) : option (ctx * Z) := stream_destroy (relay_fuel c) c.

(** The completion of a destroy packet that libuv had queued. *)
Definition stream_on_destroy_send (c : ctx) : option ctx :=
  _ ← s_socket (c_s c);
  close_stream_internal (relay_fuel c) (count_sent c UDX_HEADER_SIZE) 0.

(** The close callback libuv runs for each of the three handles of a stream. *)
Definition finalize_maybe (c : ctx) : option ctx :=
  let c := c <| c_s ::= λ s, s <| s_nrefs ::= λ n, n - 1 |> |> in
  if 0 <? s_nrefs (c_s c) then Some c
  else
    c ← (if on_finalize (s_cb (c_s c)) then call cb CbFinalize c else Some c);
    outside (ref_dec ucb) c.

(** ** Opening *)

(** The fields udx_stream_init sets before bbr_init. *)
Definition stream_start (now0 : Z) (local_id : Z) (close_cb finalize_cb : bool) : stream :=
  stream_zero
    <| s_local_id := local_id |>
    <| s_ca_state := UDX_CA_OPEN |>
    <| s_mtu ::= reset_mtu_state_machine |>
    <| s_rate ::= λ r, r <| app_limited := UINT32_MAX |> <| rate_sample_is_app_limited := true |> |>
    <| s_rtt ::= λ r, r <| rto := 1000 |> <| rtt_min := win_filter_reset now0 UINT32_MAX |> |>
    <| s_tb_available := UDX_INIT_PACING_RATE |>
    <| s_tb_last_refill_ms := now0 |>
    <| s_nrefs := 3 |>
    <| s_cwnd := 10 |>
    <| s_wnd ::= λ w, w <| recv_rwnd_max := UDX_DEFAULT_RWND_MAX |> <| send_rwnd := UDX_DEFAULT_RWND_MAX |> |>
    <| s_cb ::= λ k, k <| on_close := close_cb |> <| on_finalize := finalize_cb |> |>.

(** The clean-up of a timewait record that the new stream's entry replaced. *)
Definition drop_timewait (y : sys) (t : positive) : option sys :=
  tw ← w_timewaits (y_world y) !! t;
  o ← get_socket y (tw_socket tw);
  q ← queue_unlink (sk_timewait_queue o) t;
  Some (y <| socket (tw_socket tw) ::= λ o, o <| sk_timewait_queue := q |> |>
          <| y_world ::= λ w, w <| w_timewaits ::= delete t |> |>).

(** [udx_stream_init]; [sid] is the address of the user's stream object.  The
    context it returns has the new stream running. *)
Definition udx_stream_init (y : sys) (sid : stream_id) (local_id : Z) (close_cb finalize_cb : bool) :
    option (ctx + Z) :=
  if w_teardown (y_world y) then Some (inr UV_EINVAL)
  else
    let y := y <| y_world ::= λ w, w <| w_refs ::= λ r, r + 1 |>
                                     <| w_streams ::= λ l, udx__link_add l sid |> |> in
    s ← bbr_init (io_now (y_io y)) (stream_start (io_now (y_io y)) local_id close_cb finalize_cb);
    let s := s <| s_relaying_streams := udx__cirbuf_init 2 |> <| s_outgoing := Some ∅ |>
               <| s_sack_tree := [] |> in
    let '(y, old) := entry_set y local_id (EntryStream sid) in
    y ← (match old with Some (EntryTimewait t) => drop_timewait y t | _ => Some y end);
    c ← reset_next_packet (mk_ctx s ∅ ∅ ∅ (y_next y) (y_io y) sid (y_world y));
    Some (inl c).

(** The checks and copies of the remote address in connect and change_remote;
    [None] is [return UV_EINVAL]. *)
Definition sockaddr_in_len : Z := 16.
Definition sockaddr_in6_len : Z := 28.
Definition set_remote_addr (s : stream) (family : Z) (addr : sockaddr) : stream * bool :=
  match sa_fam addr with
  | AF_UNSPEC => (s, false)
  | f =>
      let len := if decide (f = AF_INET) then sockaddr_in_len else sockaddr_in6_len in
      let s := s <| s_remote_addr_len := len |> in
      if sin_port addr =? 0 then (s, false)
      else
        let s := s <| s_remote_addr := addr |> in
        if (family =? 6) && bool_decide (sa_fam addr = AF_INET)
        then (s <| s_remote_addr := addr_to_v6 addr |> <| s_remote_addr_len := sockaddr_in6_len |>, true)
        else (s, true)
  end.

Definition dead_or_teardown (c : ctx) : bool :=
  has (s_status (c_s c)) UDX_STREAM_DEAD || w_teardown (c_world c).

(** [link_mtu] is the result of udx__get_link_mtu(remote_addr). *)
Definition udx_stream_connect (c : ctx) (k : socket_id) (remote_id : Z) (addr : sockaddr)
    (link_mtu : Z) : option (ctx * Z) :=
  if dead_or_teardown c then Some (c, UV_EINVAL)
  else if has (s_status (c_s c)) UDX_STREAM_CONNECTED then Some (c, UV_EISCONN)
  else
    let c := c <| c_s ::= λ s, s <| s_status ::= λ f, set_flag f UDX_STREAM_CONNECTED |>
                                 <| s_remote_id := remote_id |> |> in
    let c := set_stream_socket c k in
    o ← w_socket_objs (c_world c) !! k;
    let '(s, ok) := set_remote_addr (c_s c) (sk_family o) addr in
    let c := c <| c_s := s |> in
    if negb ok then Some (c, UV_EINVAL)
    else
      let c := c <| c_s ::= λ s, s <| s_mtu ::= λ m, mtu_connect m link_mtu |> |> in
      '(c, dead) ← (if s_ack_needed (c_s c) then
             '(c, close) ← send_ack cb c;
             c ← (if (close : bool) then close_stream (relay_fuel c) c 0 else Some c);
             let c := c <| c_s ::= λ s, s <| s_ack_needed := false |> |> in
             Some (c, has (s_status (c_s c)) UDX_STREAM_DEAD)
           else Some (c, false));
      if (dead : bool) then Some (c, 0)
      else Some (if truthy (s_keepalive_timeout_ms (c_s c))
                 then stream_timer_start c UDX_TIMER_KEEPALIVE (s_keepalive_timeout_ms (c_s c)) else c, 0).

Definition udx_stream_change_remote (c : ctx) (k : socket_id) (remote_id : Z) (addr : sockaddr)
    (remote_changed_cb : bool) : option (ctx * Z) :=
  k0 ← s_socket (c_s c);
  if dead_or_teardown c then Some (c, UV_EINVAL)
  else if negb (has (s_status (c_s c)) UDX_STREAM_CONNECTED) then Some (c, UV_EINVAL)
  else
    o ← w_socket_objs (c_world c) !! k0;
    let '(s, ok) := set_remote_addr (c_s c) (sk_family o) addr in
    let c := c <| c_s := s |> in
    if negb ok then Some (c, UV_EINVAL)
    else
      let c := c <| c_s ::= λ s, s <| s_remote_id := remote_id |> |> in
      let c := set_stream_socket c k in
      let s := c_s c in
      let seq_of_change := u32 (s_seq s + (if has (s_pkt_header_flag s) UDX_HEADER_DATA then 1 else 0)) in
      let defer_change := negb (seq_of_change =? s_remote_acked s) in
      let s := if defer_change
               then s <| s_remote_changing := true |> <| s_seq_on_remote_changed := seq_of_change |>
                      <| s_cb ::= λ k, k <| on_remote_changed := remote_changed_cb |> |>
               else s in
      let s := s <| s_mtu ::= reset_mtu_state_machine |> in
      s ← (if negb (has (s_pkt_header_flag s) UDX_HEADER_DATA)
           then cap ← udx__max_payload s; Some (s <| s_pkt_capacity := u16 cap |>)
           else Some s);
      Some (c <| c_s := s |>, if defer_change then 0 else 1).

(** [udx_stream_relay_to(stream, destination)]. *)
Definition udx_stream_relay_to (c : ctx) (dest : stream_id) : option (ctx * Z) :=
  if s_relayed (c_s c) then Some (c, UV_EINVAL)
  else
    d ← enter dest (leave c);
    if has (s_status (c_s d)) UDX_STREAM_CLOSED then Some (c, UV_EINVAL)
    else
      let c := c <| c_s ::= λ s, s <| s_relayed := true |> <| s_relay_to := Some dest |> |> in
      c ← outside (λ y, d ← enter dest y;
                        ring ← udx__cirbuf_set fst (s_relaying_streams (c_s d)) (s_local_id (c_s c), c_self c);
                        Some (leave (d <| c_s ::= λ s, s <| s_relaying_streams := ring |> |>))) c;
      Some (c, 0).

(** ** Accessors *)

Definition udx_stream_get_mtu (s : stream) : Z := mtu (s_mtu s).
Definition udx_stream_get_seq (s : stream) : Z := s_seq s.
Definition udx_stream_get_ack (s : stream) : Z := s_ack s.
Definition udx_stream_set_seq (s : stream) (seq : Z) : stream :=
  s <| s_seq := seq |> <| s_remote_acked := seq |> <| s_wnd ::= λ w, w <| send_wl2 := seq |> |>.
Definition udx_stream_set_ack (s : stream) (ack : Z) : stream :=
  s <| s_ack := ack |> <| s_wnd ::= λ w, w <| send_wl1 := ack |> |>.
Definition udx_stream_get_rwnd_max (s : stream) : Z := recv_rwnd_max (s_wnd s).
Definition udx_stream_set_rwnd_max (s : stream) (size : Z) : stream :=
  s <| s_wnd ::= λ w, w <| recv_rwnd_max := size |> |>.
Definition udx_stream_set_keepalive (c : ctx) (keepalive_timeout_ms : Z) : ctx :=
  let c := c <| c_s ::= λ s, s <| s_keepalive_timeout_ms := keepalive_timeout_ms |> |> in
  if (s_remote_acked (c_s c) =? s_seq (c_s c)) && truthy keepalive_timeout_ms
     && has (s_status (c_s c)) UDX_STREAM_CONNECTED
  then stream_timer_start c UDX_TIMER_KEEPALIVE keepalive_timeout_ms else c.

(** ** Unordered messages *)

(** [udx_stream_send]; the boolean result says that the send callback was run at once. *)
Definition udx_stream_send (c : ctx) (buf : list Z) : option (ctx * Z * bool) :=
  if negb (has (s_status (c_s c)) UDX_STREAM_CONNECTED) then Some (c, UV_ENOTCONN, false)
  else
    _ ← s_socket (c_s c);
    let bytes := udx_write_header c UDX_HEADER_MESSAGE (s_remote_id (c_s c)) ++ buf in
    let '(i, err) := uv_udp_try_send (c_io c) (s_remote_addr (c_s c)) bytes in
    if err =? UV_EAGAIN
    then Some (c <| c_io := (uv_udp_send i (s_remote_addr (c_s c)) bytes).1 |>, 0, false)
    else Some (c <| c_io := i |>, 0, true).

(** ** Timers of the stream *)

(** The libuv timer of the stream fires: it becomes inactive and the handler of
    [pending_timer] runs. *)
Definition on_stream_timer (c : ctx) : option ctx :=
  let c := c <| c_s ::= λ s, s <| s_timer := None |> |> in
  match s_pending_timer (c_s c) with
  | UDX_TIMER_NONE => None
  | UDX_TIMER_RTO =>
      '(c, close) ← udx_rto_timeout c;
      if (close : bool) then close_stream (relay_fuel c) c UV_ETIMEDOUT else Some c
  | UDX_TIMER_RACK_REO => udx_rack_reo_timeout c
  | UDX_TIMER_TLP => udx_tlp_timeout c
  | UDX_TIMER_ZWP => udx_zwp_timeout c
  | UDX_TIMER_KEEPALIVE => udx_keepalive_timeout c
  end.

End Lifecycle.
