(* ===== verification/StreamTimer.v ===== *)
(** * Every timer of a stream (src/udx.c: the handlers behind stream_timer_start)

    The tail loss probe, the reordering timer, the zero-window and keepalive probes: with the
    retransmission timeout of Timers.v, [stream_timer_ok] states what the libuv timer of a stream does,
    whichever handler [pending_timer] selects. *)

From S2P Require Import Prelude SeqNum Endian Wire WinFilter Stream Rtt Mtu Rate Float64 Bbr Ctx Send Packetize Sender Loss Write Ack Convey Ledger Tended Timers Socket Lifecycle.

Section StreamTimer.
Context `{Env}.

Lemma empty_window c out :
  queues_ok c out → s_remote_acked (c_s c) = s_seq (c_s c) →
  s_inflight_queue (c_s c) = [] ∧ s_retransmit_queue (c_s c) = [].
Proof.
  intros Hq E. pose proof (queues_length _ _ Hq) as Hl. unfold window in Hl. rewrite E, Z.sub_diag in Hl.
  change (u32 0) with 0 in Hl. destruct (s_inflight_queue _), (s_retransmit_queue _); cbn in Hl; done || lia.
Qed.

Lemma idle_nothing_in_flight c : sender_ok c → s_remote_acked (c_s c) = s_seq (c_s c) → s_inflight_queue (c_s c) = [].
Proof. intros (_ & out & Hq & _) E. by apply (empty_window c out). Qed.

Lemma timer_start_ok c t ms : sender_ok c → sender_ok (stream_timer_start c t ms).
Proof. apply same_core_ok, timer_start_core. Qed.

(** Going back to the retransmission timer. *)
Lemma rearm_rto_ok c from_now :
  sender_ok c → (from_now = true ∨ s_pending_timer (c_s c) = UDX_TIMER_RACK_REO ∨ s_pending_timer (c_s c) = UDX_TIMER_TLP) →
  ∃ c', rearm_rto c from_now = Some c' ∧ sender_ok c' ∧ guarded c' ∧ tended c c'.
Proof.
  intros Hok Ht. unfold rearm_rto. destruct (Z.eqb_spec (s_seq (c_s c)) (s_remote_acked (c_s c))) as [E|E].
  - eexists. split; [reflexivity|]. split; [by apply (same_core_ok c)|]. split; [|apply timer_stop_tended]. intros Hi. destruct Hi.
    exact (idle_nothing_in_flight c Hok (eq_sym E)).
  - assert (∀ ms, guarded (stream_timer_start c UDX_TIMER_RTO ms)) as Hg by (intros ms _; left; apply timer_start_facts).
    destruct from_now.
    + eexists. split; [reflexivity|]. split; [by apply timer_start_ok|]. split; [apply Hg|apply timer_start_tended].
    + destruct Ht as [?|Ht]; [done|]. rewrite bool_decide_true by done.
      eexists. split; [reflexivity|]. split; [by apply timer_start_ok|]. split; [apply Hg|apply timer_start_tended].
Qed.

(** Going back to it after another step. *)
Lemma rearm_after c0 c from_now :
  tended c0 c → sender_ok c →
  (from_now = true ∨ s_pending_timer (c_s c) = UDX_TIMER_RACK_REO ∨ s_pending_timer (c_s c) = UDX_TIMER_TLP) →
  ∃ c', rearm_rto c from_now = Some c' ∧ sender_ok c' ∧ guarded c' ∧ tended c0 c'.
Proof.
  intros T Hok Ht. destruct (rearm_rto_ok c from_now Hok Ht) as (c' & E & H1 & H2 & H3). exists c'. do 3 (split; [done|]). by transitivity c.
Qed.

(** ** The tail loss probe *)

Lemma idle_estimates s s' : erase_idle s' = erase_idle s →
  estimates s' = estimates s ∧ s_bbr s' = s_bbr s ∧ s_pending_timer s' = s_pending_timer s.
Proof. intros (? & ? & ? & ? & ? & ? & ? & ->)%idle_fields. done. Qed.

(** A packet in flight, not lost and not held by libuv, is taken off the queue and sent again. *)
Lemma probe_again c out pid p pid0 p0 :
  can_send c → queues_ok c out → current_ok c out pid0 p0 → steady c → 0 <= b_prior_cwnd (s_bbr (c_s c)) < 2 ^ 32 →
  c_packets c !! pid = Some p → out !! p_seq p = Some pid → p_lost p = false → p_ref_count p ≠ 2 →
  ∃ q, queue_unlink (s_inflight_queue (c_s c)) pid = Some q ∧ ∃ c',
    retransmit_packet (c <| c_s ::= λ s, s <| s_inflight_queue := q |> <| s_inflight ::= λ x, u64 (x - p_size p) |> |>) pid = Some c' ∧
    sender_ok c' ∧ tended c c'.
Proof.
  intros Hs Hq Hc Hst Hpr Hp Ho Hl Hr. assert (pid ∈ s_inflight_queue (c_s c)) as Hin by (apply (qo_inflight _ _ Hq); by exists p).
  destruct (qo_packets _ _ Hq _ _ Ho) as (p' & Hp' & _ & (_ & K2 & _)). assert (p' = p) as -> by congruence.
  unfold queue_unlink. rewrite decide_True by done. eexists. split; [reflexivity|]. set (c1 := c <| c_s ::= _ |>).
  assert (unqueued c pid c1) as Hu.
  { split; [done|done|]. change (s_inflight_queue (c_s c1)) with (filter (.≠ pid) (s_inflight_queue (c_s c))).
    change (s_inflight (c_s c1)) with (u64 (s_inflight (c_s c) - p_size p)).
    rewrite (qo_bytes _ _ Hq), bytes_of_remove; [|apply Hq|done].
    assert (packet_size c pid = p_size p) as -> by (unfold packet_size; by rewrite Hp).
    rewrite <- !Z.add_opp_r. apply u64_add_l. }
  assert (can_send c1) as Hs1.
  { destruct Hs as [C1 C2 C3 C4 C5 C6 C7 C8 C9 _]. split; try done. right. by apply (steady_start c c1). }
  destruct (resend_ok c c1 out pid p pid0 p0 Hq Hu Hp Ho ltac:(lia) Hs1) as (c' & E & H1 & H2 & H3 & _).
  { apply (current_view c _ out); try done; apply Hc. }
  exists c'. split; [exact E|]. split; [split; [done|]; exists out; split; [done|]; by exists pid0, p0|].
  transitivity c1; [by apply tended_stream|]. apply (retransmit_tended c1 pid c' E). exists (p_seq p). change (sent_at c (p_seq p) = Some pid).
  by rewrite (sent_at_out _ _ _ Hq).
Qed.

Lemma tlp_timeout_run c :
  sender_ok c → can_recover c → has (s_status (c_s c)) UDX_STREAM_CONNECTED = true →
  s_pending_timer (c_s c) = UDX_TIMER_TLP →
  ∃ c', udx_tlp_timeout c = Some c' ∧ sender_ok c' ∧ guarded c' ∧ tended c c'.
Proof.
  intros Hok [Hst Hpr _] Hconn Ht. unfold udx_tlp_timeout. rewrite Hconn.
  destruct (Z.eqb_spec (s_remote_acked (c_s c)) (s_seq (c_s c))) as [E|_].
  { exists c. split; [done|]. split; [done|]. split; [|done]. intros Hi. destruct Hi. by apply idle_nothing_in_flight. }
  destruct (_ || _); [apply rearm_rto_ok; auto|].
  destruct (send_new_packet_ok c true Hok) as (c1 & b & E1 & Hok1 & _ & _ & Hidle). apply send_new_packet_tended in E1 as T1; [|done].
  rewrite E1. cbn [mbind option_bind].
  destruct b; [apply rearm_after; auto|]. destruct (Hidle eq_refl) as [Hi1 Hn1].
  destruct (idle_estimates _ _ Hi1) as (He1 & Hb1 & Ht1). rewrite Ht in Ht1.
  pose proof Hok1 as (Hs1 & out & Hq1 & pid0 & p0 & Hc1). rewrite (qo_out _ _ Hq1). cbn [mbind option_bind].
  destruct (out !! u32 (s_seq (c_s c1) - 1)) as [pid|] eqn:Ho; [|apply rearm_after; auto].
  destruct (qo_packets _ _ Hq1 _ _ Ho) as (p & Hp & Hseq & _). rewrite Hp. cbn [mbind option_bind]. rewrite <- Hseq in Ho.
  destruct (p_lost p) eqn:Hl; [apply rearm_after; auto|]. cbn [orb].
  destruct (Z.eqb_spec (p_ref_count p) 2) as [|Hr]; [apply rearm_after; auto|].
  destruct (probe_again c1 out pid p pid0 p0) as (q & -> & c2 & E2 & Hok2 & T2); try done.
  { by apply (steady_view c). } { by rewrite Hb1. }
  cbn [mbind option_bind]. rewrite E2. cbn [mbind option_bind]. apply rearm_after; [|by apply (same_core_ok c2)|by left].
  transitivity c1; [done|]. transitivity c2; [done|]. by apply tended_stream.
Qed.

(** ** The reordering timer *)

Lemma reo_timeout_run c :
  sender_ok c → can_recover c → ∃ c', udx_rack_reo_timeout c = Some c' ∧ sender_ok c' ∧ guarded c' ∧ tended c c'.
Proof.
  intros Hok Hcr. unfold udx_rack_reo_timeout.
  destruct (rack_detect_loss_run c Hok Hcr) as (c1 & t & -> & Hok1 & T1 & _). cbn [mbind option_bind].
  destruct (decide (s_pending_timer (c_s c1) = UDX_TIMER_RTO)) as [Ht|Ht].
  - exists c1. split; [done|]. split; [done|]. split; [|done]. intros _. by left.
  - apply rearm_after; [done|done|]. case_bool_decide; auto.
Qed.

(** ** Zero-window and keepalive probes *)

Lemma send_probe_core c :
  same_core c (send_probe c) ∧ s_pending_timer (c_s (send_probe c)) = s_pending_timer (c_s c) ∧
  s_acct (c_s (send_probe c)) = s_acct (c_s c).
Proof.
  unfold send_probe. destruct (s_socket (c_s c)) as [k|]; [|done]. set (c1 := c <| c_io ::= _ |>).
  assert (io_now (c_io c1) = io_now (c_io c)) as E.
  { unfold c1, send_small, uv_udp_try_send, uv_udp_send. cbn. by destruct (_ =? _). }
  split; [|done]. split; [reflexivity|]. change (now (count_sent c1 UDX_HEADER_SIZE)) with (io_now (c_io c1)). by rewrite E.
Qed.

(** The stream waits for the window, with bytes queued or its end to announce. *)
Definition zero_window (s : stream) : Prop :=
  send_rwnd (s_wnd s) = 0 ∧
  (0 < writes_queued_bytes (s_acct s) ∨ Z.land (s_status s) (Z.lor UDX_STREAM_ENDING UDX_STREAM_ENDED) = UDX_STREAM_ENDING).

Lemma zwp_timeout_run c :
  sender_ok c → guarded c → has (s_status (c_s c)) UDX_STREAM_CONNECTED = true → zero_window (c_s c) →
  s_pending_timer (c_s c) = UDX_TIMER_ZWP →
  ∃ c', udx_zwp_timeout c = Some c' ∧ sender_ok c' ∧ guarded c' ∧ tended c c'.
Proof.
  intros Hok Hg Hconn [Hw Hq] Ht. unfold udx_zwp_timeout. rewrite Hconn, (proj2 (Z.eqb_eq _ 0) Hw).
  pose proof (closed_alive _ (cs_alive _ (proj1 Hok))) as Hcl. unfold has, truthy in Hcl. rewrite negb_false_iff in Hcl. rewrite Hcl.
  set (c1 := c <| c_s ::= _ |>). assert (sender_ok c1) as Hok1 by by apply (same_core_ok c).
  destruct (send_probe_core c1) as (Hsame & Et & Ea). cbv zeta. rewrite Et, Ea.
  change (s_pending_timer (c_s c1)) with (s_pending_timer (c_s c)). rewrite bool_decide_true by done.
  change (s_acct (c_s c1)) with (s_acct (c_s c)).
  assert (s_status (c_s (send_probe c1)) = s_status (c_s c)) as -> by by rewrite (same_core_field s_status _ _ (λ _, eq_refl) Hsame).
  assert ((0 <? writes_queued_bytes (s_acct (c_s c))) ||
    (Z.land (s_status (c_s c)) (Z.lor UDX_STREAM_ENDING UDX_STREAM_ENDED) =? UDX_STREAM_ENDING) = true) as ->.
  { apply orb_true_iff. rewrite Z.ltb_lt, Z.eqb_eq. exact Hq. }
  eexists. split; [reflexivity|]. split; [apply timer_start_ok; by apply (same_core_ok c1)|]. split.
  2: { transitivity c1; [by apply tended_stream|]. etransitivity; [apply send_probe_tended|apply timer_start_tended]. }
  intros Hi. exfalso. unfold stream_timer_start in Hi. cbn [c_s upd_field] in Hi.
  rewrite decide_False in Hi by done. cbn [s_inflight_queue upd_field] in Hi.
  rewrite (same_core_field s_inflight_queue _ _ (λ _, eq_refl) Hsame) in Hi. destruct (Hg Hi) as [?|[?|?]]; congruence.
Qed.

Lemma keepalive_timeout_run c :
  sender_ok c → s_seq (c_s c) = s_remote_acked (c_s c) →
  ∃ c', udx_keepalive_timeout c = Some c' ∧ sender_ok c' ∧ guarded c' ∧ tended c c'.
Proof.
  intros Hok E. unfold udx_keepalive_timeout. rewrite (proj2 (Z.eqb_eq _ _) E). destruct (send_probe_core c) as (Hsame & _).
  assert (∀ ms, same_core c (stream_timer_start (send_probe c) UDX_TIMER_KEEPALIVE ms)) as Hsame2
    by (intros; eapply same_core_trans; [exact Hsame|apply timer_start_core]).
  eexists. split; [reflexivity|]. split; [by eapply same_core_ok|]. split.
  2: { etransitivity; [apply send_probe_tended|apply timer_start_tended]. }
  intros Hi. destruct Hi.
  apply idle_nothing_in_flight; [by eapply same_core_ok|].
  rewrite (same_core_field s_remote_acked _ _ (λ _, eq_refl) (Hsame2 _)), (same_core_field s_seq _ _ (λ _, eq_refl) (Hsame2 _)). done.
Qed.

(** ** The timer *)

(** What holds when the handler of [pending_timer] is called. *)
Definition timer_ready (s : stream) : Prop :=
  match s_pending_timer s with
  | UDX_TIMER_NONE => False
  | UDX_TIMER_RTO => has (s_status s) UDX_STREAM_CONNECTED = true ∧ s_remote_acked s ≠ s_seq s
  | UDX_TIMER_RACK_REO => True
  | UDX_TIMER_TLP => has (s_status s) UDX_STREAM_CONNECTED = true
  | UDX_TIMER_ZWP => has (s_status s) UDX_STREAM_CONNECTED = true ∧ zero_window s
  | UDX_TIMER_KEEPALIVE => s_seq s = s_remote_acked s
  end.

(** The stream has not timed out too often. *)
Definition may_go_on (s : stream) : Prop :=
  s_pending_timer s = UDX_TIMER_RTO → u8 (s_rto_count s + 1) <= UDX_MAX_RTO_TIMEOUTS.

Lemma recover_view c c' : can_recover c → estimates (c_s c') = estimates (c_s c) → now c' = now c →
  b_prior_cwnd (s_bbr (c_s c')) = b_prior_cwnd (s_bbr (c_s c)) → s_remote_acked (c_s c') = s_remote_acked (c_s c) → can_recover c'.
Proof. intros [H1 H2 H3] E1 E2 E3 E4. split; [by apply (steady_view c)|by rewrite E3|by rewrite E4]. Qed.

Lemma stream_timer_run ucb c :
  sender_ok c → guarded c → can_recover c → timer_ready (c_s c) → may_go_on (c_s c) →
  ∃ c', on_stream_timer ucb c = Some c' ∧ sender_ok c' ∧ guarded c' ∧ tended c c'.
Proof.
  intros Hok Hg Hcr Hr Hmax. unfold on_stream_timer. set (c1 := c <| c_s ::= _ |>).
  assert (sender_ok c1) as Hok1 by by apply (same_core_ok c).
  assert (guarded c1) as Hg1 by by apply (guarded_view c).
  assert (can_recover c1) as Hcr1 by by apply (recover_view c).
  assert (tended c c1) as T1 by by apply tended_stream.
  assert (∃ c', match s_pending_timer (c_s c1) with
    | UDX_TIMER_NONE => None
    | UDX_TIMER_RTO => '(c, close) ← udx_rto_timeout c1; if (close : bool) then close_stream ucb (relay_fuel c) c UV_ETIMEDOUT else Some c
    | UDX_TIMER_RACK_REO => udx_rack_reo_timeout c1
    | UDX_TIMER_TLP => udx_tlp_timeout c1
    | UDX_TIMER_ZWP => udx_zwp_timeout c1
    | UDX_TIMER_KEEPALIVE => udx_keepalive_timeout c1
    end = Some c' ∧ sender_ok c' ∧ guarded c' ∧ tended c1 c') as (c' & E & ? & ? & ?).
  2: { exists c'. split; [exact E|]. split; [done|]. split; [done|]. by transitivity c1. }
  change (timer_ready (c_s c1)) in Hr. change (may_go_on (c_s c1)) in Hmax. clearbody c1. clear c Hok Hg Hcr T1.
  unfold timer_ready in Hr. destruct (s_pending_timer (c_s c1)) eqn:Et.
  - done.
  - destruct Hr as [Hc Hn]. specialize (Hmax Et).
    destruct (rto_timeout_run c1 Hok1 Hcr1 Hc Hn) as (c' & -> & H'). rewrite (proj2 (Z.ltb_ge _ _) Hmax) in *.
    cbn [mbind option_bind]. exists c'. split; [done|]. by apply H'.
  - by apply reo_timeout_run.
  - by apply tlp_timeout_run.
  - destruct Hr. by apply zwp_timeout_run.
  - by apply keepalive_timeout_run.
Qed.
End StreamTimer.

(** ** The stream of Sender.v's example, waiting with a tail loss probe *)
#[local] Existing Instance example_env.

Lemma example_watched_guarded : guarded example_watched.
Proof. intros _. right. right. reflexivity. Qed.
Lemma example_watched_recovers : can_recover example_watched.
Proof.
  apply (recover_view example_sending _ example_can_recover); vm_compute; reflexivity.
Qed.

