(* ===== verification/Open.v ===== *)
(** * A new stream is well formed (src/udx.c: udx_stream_init, udx_stream_connect)

    The invariants that the other files carry from one operation to the next hold when a stream starts:
    opening and connecting it gives a sender whose books, accounts, timers, MTU search and congestion
    controller are in order. *)

From S2P Require Import Prelude SeqNum Endian Wire Cirbuf WinFilter Stream Rtt Mtu Rate Float64 Bbr Ctx Send Packetize Sender Loss Write Ack Convey Ledger Acked Cancel Socket Timers Lifecycle.

Section Open.
Context `{Env}.

(** What every operation of the sender may rely on. *)
Record well_formed (c : ctx) : Prop := {
  wf_sender : sender_ok c;
  wf_accounts : accounts c [] None;
  wf_able : able c;
  wf_guarded : guarded c;
  wf_recover : can_recover c;
  wf_mtu : mtu_ok (s_mtu (c_s c));
  wf_bbr : bbr_ok (s_bbr (c_s c));
  (* nothing is sent and nothing written, where no stream before sent to the peer's id *)
  wf_faithful : ∀ N : Numbering, first_seq = 0 → (∀ b, b ∈ datagrams c → conveyed [] b) → faithful [] c ∧ written c = [] }.

(** ** Initialisation *)

(** A stream that has sent nothing. *)
Definition sender_part (s : stream) :=
  (s_outgoing s, s_inflight_queue s, s_retransmit_queue s, s_inflight s, s_write_queue s, s_seq s, s_remote_acked s, s_acct s).
Definition sent_nothing (s : stream) : Prop :=
  sender_part s = (Some ∅, [], [], 0, [], 0, 0, mk_acct_st 0 0 0 0 false).

(** What connecting keeps. *)
Record started (s : stream) : Prop := {
  sd_sent : sent_nothing s;
  sd_cwnd : s_cwnd s = 10;
  sd_pacing : 0 < s_pacing_bytes_per_ms s;
  sd_rto : rto (s_rtt s) = 1000;
  sd_rwnd : send_rwnd (s_wnd s) = UDX_DEFAULT_RWND_MAX;
  sd_bbr : bbr_ok (s_bbr s) ∧ b_state (s_bbr s) = UDX_BBR_STATE_STARTUP }.
(** What it reads. *)
Definition unconnected (s : stream) : Prop :=
  s_mtu s = mk_mtu_st UDX_MTU_STATE_BASE false 0 UDX_MTU_BASE UDX_MTU_MAX UDX_MTU_BASE ∧
  (s_status s, s_pending_timer s, s_ack_needed s, s_keepalive_timeout_ms s) = (0, UDX_TIMER_NONE, false, 0).

Lemma started_view s s' :
  sender_part s' = sender_part s →
  (s_cwnd s', s_pacing_bytes_per_ms s', s_rtt s', s_wnd s', s_bbr s') =
  (s_cwnd s, s_pacing_bytes_per_ms s, s_rtt s, s_wnd s, s_bbr s) → started s → started s'.
Proof. intros E1 [= E2 E3 E4 E5 E6] [S1 S2 S3 S4 S5 S6]. split; unfold sent_nothing in *; congruence. Qed.
Lemma unconnected_view s s' :
  (s_mtu s', s_status s', s_pending_timer s', s_ack_needed s', s_keepalive_timeout_ms s') =
  (s_mtu s, s_status s, s_pending_timer s, s_ack_needed s, s_keepalive_timeout_ms s) → unconnected s → unconnected s'.
Proof. intros [= E1 E2 E3 E4 E5] [U1 U2]. split; congruence. Qed.

Lemma bbr_init_started now0 id b1 b2 :
  ∃ s, bbr_init now0 (stream_start now0 id b1 b2) = Some s ∧
    let s := s <| s_relaying_streams := udx__cirbuf_init 2 |> <| s_outgoing := Some ∅ |> <| s_sack_tree := [] |> in
    started s ∧ unconnected s.
Proof.
  eexists. split; [vm_compute; reflexivity|]. split; [|by split]. split; try (vm_compute; done).
  split; [|vm_compute; done]. split; vm_compute; intuition congruence.
Qed.

Lemma unconnected_mtu s : unconnected s → mtu_in_range (s_mtu s).
Proof. intros [-> _]. by vm_compute. Qed.

(** The record of a stream that used the id before can be taken out of its socket's queue. *)
Definition timewait_kept (y : sys) (id : Z) : Prop :=
  ∀ t, w_stream_table (y_world y) !! id = Some (EntryTimewait t) →
    ∃ tw o, w_timewaits (y_world y) !! t = Some tw ∧ w_socket_objs (y_world y) !! tw_socket tw = Some o ∧ t ∈ sk_timewait_queue o.

(** A context whose only packet is the empty one under construction. *)
Record fresh (pid : packet_id) (c : ctx) : Prop := {
  fr_started : started (c_s c);
  fr_packet : s_pkt (c_s c) = Some pid ∧ s_pkt_header_flag (c_s c) = 0 ∧ 1132 <= s_pkt_capacity (c_s c) <= 1452;
  fr_heap : (c_packets c, c_wbufs c, c_writes c, c_next c) = ({[ pid := new_packet 0 ]}, ∅, ∅, Pos.succ pid) }.

(** The context that udx_stream_init returns. *)
Record opened (y : sys) (c : ctx) : Prop := {
  op_fresh : fresh (y_next y) c;
  op_unconnected : unconnected (c_s c);
  op_world : w_teardown (c_world c) = false ∧
    ∀ k, is_Some (w_socket_objs (y_world y) !! k) → is_Some (w_socket_objs (c_world c) !! k) }.

Lemma drop_timewait_run y t tw o :
  w_timewaits (y_world y) !! t = Some tw → w_socket_objs (y_world y) !! tw_socket tw = Some o → t ∈ sk_timewait_queue o →
  ∃ w, drop_timewait y t = Some (y <| y_world := w |>) ∧ w_teardown w = w_teardown (y_world y) ∧
    ∀ k, is_Some (w_socket_objs (y_world y) !! k) → is_Some (w_socket_objs w !! k).
Proof.
  intros Ht Ho Hq. unfold drop_timewait. rewrite Ht. cbn [mbind option_bind]. unfold get_socket. rewrite Ho. cbn [mbind option_bind].
  unfold queue_unlink. rewrite decide_True by done. cbn [mbind option_bind]. eexists. split; [reflexivity|]. split; [done|].
  intros k Hk. cbn [y_world w_socket_objs upd_field]. by apply lookup_alter_is_Some.
Qed.

Lemma stream_init_run y sid id b1 b2 :
  w_teardown (y_world y) = false → timewait_kept y id →
  ∃ c, udx_stream_init y sid id b1 b2 = Some (inl c) ∧ opened y c.
Proof.
  intros Ht Htw. unfold udx_stream_init. rewrite Ht. set (y1 := y <| y_world ::= _ |>).
  destruct (bbr_init_started (io_now (y_io y)) id b1 b2) as (s & Es & Hs & Hu). change (io_now (y_io y1)) with (io_now (y_io y)).
  rewrite Es. cbn [mbind option_bind]. cbv zeta. set (s1 := s <| s_relaying_streams := _ |> <| s_outgoing := _ |> <| s_sack_tree := _ |>) in *.
  unfold entry_set. set (y2 := y1 <| y_world ::= _ |>).
  assert (∃ w, match w_stream_table (y_world y1) !! id with Some (EntryTimewait t) => drop_timewait y2 t | _ => Some y2 end
    = Some (y2 <| y_world := w |>) ∧ w_teardown w = false ∧
    ∀ k, is_Some (w_socket_objs (y_world y) !! k) → is_Some (w_socket_objs w !! k)) as (w & -> & Ew & Hw).
  { change (w_stream_table (y_world y1)) with (w_stream_table (y_world y)).
    assert (∃ w, Some y2 = Some (y2 <| y_world := w |>) ∧ w_teardown w = false ∧
      ∀ k, is_Some (w_socket_objs (y_world y) !! k) → is_Some (w_socket_objs w !! k)) as Hsame by (exists (y_world y2); split; [reflexivity|split; [exact Ht|intros k Hk; exact Hk]]).
    destruct (w_stream_table (y_world y) !! id) as [[|t]|] eqn:Ee; [exact Hsame| |exact Hsame].
    destruct (Htw t Ee) as (tw & o & H1 & H2 & H3). destruct (drop_timewait_run y2 t tw o H1 H2 H3) as (w & E & E1 & E2).
    exists w. split; [done|]. split; [by rewrite E1|done]. }
  cbn [mbind option_bind]. unfold reset_next_packet. set (c0 := mk_ctx _ _ _ _ _ _ _ _).
  assert (mtu_in_range (s_mtu (c_s c0))) as Hm by exact (unconnected_mtu s1 Hu).
  destruct (max_payload_spec _ Hm) as [Em Hr]. rewrite Em. cbn [mbind option_bind].
  eexists. split; [reflexivity|]. unfold u16. rewrite Z.mod_small by lia.
  assert (bytes_packetized (s_acct s1) = 0) as Ea by exact (f_equal (λ t, bytes_packetized t.2) (sd_sent _ Hs)).
  change (s_acct (c_s c0)) with (s_acct s1). rewrite Ea. split; [split|..].
  - apply (started_view s1); [reflexivity|reflexivity|exact Hs].
  - split; [reflexivity|]. split; [reflexivity|]. exact Hr.
  - reflexivity.
  - apply (unconnected_view s1); [reflexivity|exact Hu].
  - split; [exact Ew|exact Hw].
Qed.

(** ** Connection *)

Lemma fresh_view pid c c' :
  sender_part (c_s c') = sender_part (c_s c) →
  (s_cwnd (c_s c'), s_pacing_bytes_per_ms (c_s c'), s_rtt (c_s c'), s_wnd (c_s c'), s_bbr (c_s c')) =
  (s_cwnd (c_s c), s_pacing_bytes_per_ms (c_s c), s_rtt (c_s c), s_wnd (c_s c), s_bbr (c_s c)) →
  (s_pkt (c_s c'), s_pkt_header_flag (c_s c'), s_pkt_capacity (c_s c')) = (s_pkt (c_s c), s_pkt_header_flag (c_s c), s_pkt_capacity (c_s c)) →
  (c_packets c', c_wbufs c', c_writes c', c_next c') = (c_packets c, c_wbufs c, c_writes c, c_next c) →
  fresh pid c → fresh pid c'.
Proof.
  intros E1 E2 [= E3 E4 E5] E6 [F1 F2 F3]. split; [by apply (started_view (c_s c))|by rewrite E3, E4, E5|congruence].
Qed.

(** A fresh stream with a peer is well formed. *)
Lemma fresh_well_formed pid c :
  fresh pid c → has (s_status (c_s c)) UDX_STREAM_DEAD = false → is_Some (s_socket (c_s c)) →
  s_remote_addr_len (c_s c) ≠ 0 ∧ sa_fam (s_remote_addr (c_s c)) ≠ AF_UNSPEC → mtu_ok (s_mtu (c_s c)) →
  well_formed c.
Proof.
  intros [[S1 S2 S3 S4 S5 [S6 S7]] (P1 & P2 & P3) F] Hd Hk Ha Hm. injection F as F1 F2 F3 F4.
  injection S1 as O1 O2 O3 O4 O5 O6 O7 O8.
  assert (Hcw : 0 < s_cwnd (c_s c) < 2 ^ 32) by (rewrite S2; lia).
  assert (Hst : b_state (s_bbr (c_s c)) ≠ UDX_BBR_STATE_PROBE_BW) by by rewrite S7.
  assert (Hfl : flying c = []).
  { rewrite (flying_cons c pid ∅) by done. rewrite F1, map_to_list_empty. unfold chunks_at. by rewrite lookup_singleton_eq. }
  pose proof (bok_prior _ S6) as Hp.
  split; [split| |split| | |exact Hm|exact S6|].
  - split; try done; [by apply mtu_ok_range|by rewrite S4|by rewrite S5|by rewrite O6|]. right. by apply start_ok_simple.
  - exists ∅. split.
    + split; try done. * intros x. rewrite O2. split; [by intros ?%elem_of_nil|]. by intros (? & _ & ? & _).
      * intros x. rewrite O3. split; [by intros ?%elem_of_nil|]. by intros (? & _ & ? & _).
      * rewrite O2, O3. split; apply NoDup_nil_2. * by rewrite O4, O2.
    + exists pid, (new_packet 0). assert (c_packets c !! pid = Some (new_packet 0)) as Hpid by (rewrite F1; apply lookup_singleton_eq).
      assert (p_size (new_packet 0) = 20) as Es by done.
      split; [split|..]; rewrite ?Es, ?O5, ?P2; try done; try lia.
      * apply NoDup_nil_2. * by intros wid ?%elem_of_nil.
      * intros x. rewrite F1, F4. intros [y [-> _]%lookup_singleton_Some]. lia.
      * unfold window, write_backlog. rewrite O5, O6, O7. done.
  - assert (forall wid b, c_wbufs c !! wid = Some b → False) as Hno by (intros wid b; rewrite F2, lookup_empty; done).
    split; [split|]; rewrite ?Hfl, ?O5.
    + by intros k ?%elem_of_nil. + by intros wid b ?%Hno. + by intros wid ?%elem_of_nil. + apply NoDup_nil_2.
    + intros wr w. by rewrite F3, lookup_empty.
    + by rewrite O8, F2, msum_empty.
    + by rewrite F2, msum_empty.
    + intros x [b []%Hno].
    + intros wr w. by rewrite F3, lookup_empty.
    + by intros wid b ?%Hno.
  - exact Hcw. - exact S3. - by rewrite S4. - done. - done. - by rewrite S5. - done. - by rewrite O6.
  - intros Hq. by destruct Hq.
  - split; [by apply steady_simple|exact Hp|]. by rewrite O7.
  - assert (∀ n, written_below ∅ n = []) as Hnil.
    { induction n as [|n IH]; [done|]. cbn [written_below]. by rewrite IH, lookup_empty. }
    intros N Hz Hb. assert (written c = []) as Hw by (unfold written; rewrite F2; apply Hnil). split; [|done].
    split; rewrite ?F2, ?O6; [by rewrite Hz|constructor| | |done|by intros x [y Hy]|cbn [length]; lia].
    + exists pid, (new_packet 0), []. split; [done|]. split; [by rewrite F1, lookup_singleton_eq|]. do 3 (split; [done|]).
      rewrite Hw. unfold unsent. by rewrite O5.
    + rewrite O1. by intros out q x [= <-] ?.
Qed.

Lemma set_stream_socket_view c k :
  (∃ k', c_s (set_stream_socket c k) = c_s c <| s_socket := Some k' |> ∨ c_s (set_stream_socket c k) = c_s c) ∧
  s_socket (c_s (set_stream_socket c k)) = Some k ∧
  (c_packets (set_stream_socket c k), c_wbufs (set_stream_socket c k), c_writes (set_stream_socket c k), c_next (set_stream_socket c k)) =
  (c_packets c, c_wbufs c, c_writes c, c_next c) ∧
  ∀ i, is_Some (w_socket_objs (c_world c) !! i) → is_Some (w_socket_objs (c_world (set_stream_socket c k)) !! i).
Proof.
  unfold set_stream_socket. case_decide as E.
  - split; [exists k; by right|]. by split.
  - split; [exists k; by left|]. split; [done|]. split; [done|]. intros i Hi. unfold unlink_stream. cbn [c_world c_s upd_field w_socket_objs].
    apply lookup_alter_is_Some. destruct (s_socket (c_s c)); [|done]. by apply lookup_alter_is_Some.
Qed.

Lemma set_remote_addr_run s family addr :
  sa_fam addr ≠ AF_UNSPEC → sin_port addr ≠ 0 →
  ∃ a n, set_remote_addr s family addr = (s <| s_remote_addr := a |> <| s_remote_addr_len := n |>, true) ∧ n ≠ 0 ∧ sa_fam a ≠ AF_UNSPEC.
Proof.
  intros Hf Hp. unfold set_remote_addr. rewrite (proj2 (Z.eqb_neq _ _) Hp). destruct (sa_fam addr) eqn:E; [done| |];
    rewrite ?decide_True, ?decide_False by done; destruct ((family =? 6) && _) eqn:E6;
    (eexists _, _; split; [reflexivity|]); (split; [done|]); rewrite ?E; done.
Qed.

(** What connecting adds to a stream, in one record of fields. *)
Definition kept_by_connect (s s' : stream) : Prop :=
  sender_part s' = sender_part s ∧
  (s_cwnd s', s_pacing_bytes_per_ms s', s_rtt s', s_wnd s', s_bbr s') = (s_cwnd s, s_pacing_bytes_per_ms s, s_rtt s, s_wnd s, s_bbr s) ∧
  (s_pkt s', s_pkt_header_flag s', s_pkt_capacity s') = (s_pkt s, s_pkt_header_flag s, s_pkt_capacity s).

Lemma stream_connect_run ucb pid c k o rid addr link_mtu :
  fresh pid c → unconnected (c_s c) → w_teardown (c_world c) = false → w_socket_objs (c_world c) !! k = Some o →
  sa_fam addr ≠ AF_UNSPEC → sin_port addr ≠ 0 →
  ∃ c', udx_stream_connect ucb c k rid addr link_mtu = Some (c', 0) ∧ fresh pid c' ∧
    (s_status (c_s c'), s_remote_id (c_s c'), s_socket (c_s c'), s_mtu (c_s c')) =
      (UDX_STREAM_CONNECTED, rid, Some k, mtu_connect (s_mtu (c_s c)) link_mtu) ∧
    s_remote_addr_len (c_s c') ≠ 0 ∧ sa_fam (s_remote_addr (c_s c')) ≠ AF_UNSPEC.
Proof.
  intros Hf [Um Us] Ht Ho Ha Hp. injection Us as U1 U2 U3 U4. unfold udx_stream_connect, dead_or_teardown. rewrite Ht, U1. cbn [orb has].
  change (has 0 UDX_STREAM_DEAD || false) with false. change (has 0 UDX_STREAM_CONNECTED) with false. cbv iota.
  set (c1 := c <| c_s ::= _ |>). cbv zeta. destruct (set_stream_socket_view c1 k) as (Hs & Ek & Eh & Hw).
  set (c2 := set_stream_socket c1 k) in *. destruct (Hw k) as [o2 Ho2]; [by exists o|]. rewrite Ho2. cbn [mbind option_bind].
  destruct (set_remote_addr_run (c_s c2) (sk_family o2) addr Ha Hp) as (a & n & -> & Hn & Hfa). cbn [negb].
  assert (Hk2 : kept_by_connect (c_s c) (c_s c2) ∧
    (s_status (c_s c2), s_remote_id (c_s c2), s_ack_needed (c_s c2), s_keepalive_timeout_ms (c_s c2), s_mtu (c_s c2)) =
    (UDX_STREAM_CONNECTED, rid, false, 0, s_mtu (c_s c))).
  { destruct Hs as (k' & [-> | ->]); unfold c1; cbn [c_s upd_field]; (split; [by split|]); cbn; rewrite ?U1, ?U3, ?U4; done. }
  destruct Hk2 as [(K1 & K2 & K3) K4]. injection K4 as V1 V2 V3 V4 V5. cbn [c_s upd_field s_ack_needed s_keepalive_timeout_ms].
  rewrite V3. cbn [mbind option_bind c_s upd_field s_keepalive_timeout_ms]. rewrite V4. change (truthy 0) with false. cbv iota. eexists. split; [reflexivity|].
  split; [apply (fresh_view pid c); try done; by rewrite Eh|]. cbn [c_s upd_field s_status s_remote_id s_socket s_mtu s_remote_addr_len s_remote_addr].
  rewrite V1, V2, V5, Ek. by split.
Qed.

Lemma stream_open_run ucb y sid id close_cb finalize_cb k o rid addr link_mtu :
  w_teardown (y_world y) = false → timewait_kept y id → w_socket_objs (y_world y) !! k = Some o →
  sa_fam addr ≠ AF_UNSPEC → sin_port addr ≠ 0 →
  ∃ c0 c, udx_stream_init y sid id close_cb finalize_cb = Some (inl c0) ∧
    udx_stream_connect ucb c0 k rid addr link_mtu = Some (c, 0) ∧
    well_formed c ∧ s_remote_id (c_s c) = rid ∧ s_socket (c_s c) = Some k.
Proof.
  intros Ht Htw Ho Ha Hp. destruct (stream_init_run y sid id close_cb finalize_cb Ht Htw) as (c0 & E0 & [Hf Hu [Hw1 Hw2]]).
  destruct (Hw2 k) as [o' Ho']; [by exists o|].
  destruct (stream_connect_run ucb _ c0 k o' rid addr link_mtu Hf Hu Hw1 Ho' Ha Hp) as (c & E & Hf' & Es & Hlen & Hfam).
  injection Es as E1 E2 E3 E4. exists c0, c. do 2 (split; [done|]). split; [|done].
  apply (fresh_well_formed (y_next y)); [done|by rewrite E1|by rewrite E3|done|].
  rewrite E4, (proj1 Hu). apply mtu_connect_ok; [|done]. split; vm_compute; intuition congruence.
Qed.

(** C12: a stream that is opened and connected is a well-formed sender: its books and accounts are in order,
    nothing is in flight, its controller, MTU search and addresses are in range, whatever the system it is opened in,
    the id (even one that was in timewait) and the MTU of the link; every invariant that the operations keep holds at the start. *)
Theorem stream_open_ok ucb y sid id close_cb finalize_cb k o rid addr link_mtu :
  w_teardown (y_world y) = false → timewait_kept y id → w_socket_objs (y_world y) !! k = Some o →
  sa_fam addr ≠ AF_UNSPEC → sin_port addr ≠ 0 →
  ∃ c0 c, udx_stream_init y sid id close_cb finalize_cb = Some (inl c0) ∧
    udx_stream_connect ucb c0 k rid addr link_mtu = Some (c, 0) ∧
    well_formed c ∧ s_remote_id (c_s c) = rid ∧ s_socket (c_s c) = Some k.
Proof. apply stream_open_run. Qed.
End Open.

#[local] Existing Instance example_env.
Definition open_addr : sockaddr := mk_sockaddr AF_INET 9 [127; 0; 0; 1].
(** The second stream of a udx_t with one socket, on an id that is in timewait there. *)
Definition open_sys : sys :=
  mk_sys (mk_world 1 false false [3%positive] [] {[ 7 := EntryTimewait 4 ]}
            {[ 3%positive := socket_zero <| sk_timewait_queue := [4%positive] |> ]}
            {[ 4%positive := mk_timewait 7 3 addr_zero [] None ]} ∅ ∅ ∅ ∅)
    (mk_io 1000 [] (mk_counters 0 0 0 0) 0 0) 10.
Lemma open_sys_timewait : timewait_kept open_sys 7.
Proof.
  intros t. change (w_stream_table (y_world open_sys)) with ({[ 7 := EntryTimewait 4 ]} : gmap Z entry). rewrite lookup_singleton_eq.
  intros [= <-]. eexists _, _. split; [vm_compute; reflexivity|]. split; [vm_compute; reflexivity|]. by left.
Qed.
Lemma stream_open_ok_witness :
  ∃ c0 c, udx_stream_init open_sys 5 7 true true = Some (inl c0) ∧
    udx_stream_connect (λ _ y, Some y) c0 3 8 open_addr 1500 = Some (c, 0) ∧
    well_formed c ∧ s_remote_id (c_s c) = 8 ∧ s_socket (c_s c) = Some 3%positive.
Proof.
  apply (stream_open_ok (λ _ y, Some y) open_sys 5 7 true true 3 (socket_zero <| sk_timewait_queue := [4%positive] |>) 8
    open_addr 1500); [reflexivity|exact open_sys_timewait|reflexivity|discriminate|discriminate].
Defined.
