(* ===== verification/Writes.v ===== *)
(** * Writing (src/udx.c: _udx_stream_write, udx_stream_write)

    A write of any buffers on a sender whose books and accounts are in order leaves them in order: the
    request owns its bytes, and they are in the queue, in chunks or acknowledged. *)

From S2P Require Import Prelude SeqNum Endian Wire WinFilter Stream Rtt Mtu Rate Float64 Bbr Ctx Send Packetize Sender Loss Timers Write Ack Convey Ledger Tended Socket Lifecycle StreamTimer.

Section Writes.
Context `{Env}.

Lemma chunks_bytes_fresh m wid b ks d :
  m !! wid = None → chunks_bytes m ks = Some d → chunks_bytes (<[wid := b]> m) ks = Some d.
Proof.
  intros Hm. revert d. induction ks as [|k ks IH]; intros d E; [done|]. cbn in *. apply bind_Some in E as (x & Ex & E).
  apply bind_Some in E as (xs & Exs & E). unfold chunk_bytes in *. apply bind_Some in Ex as (y & Ey & Ex).
  rewrite lookup_insert_ne by congruence. rewrite Ey. cbn [mbind option_bind]. injection Ex as ->.
  rewrite (IH xs) by done. exact E.
Qed.

(** The bytes of buffers, and what they add to the backlog. *)
Definition total (bufs : list (list Z)) : Z := foldr (λ b n, Z.of_nat (length b) + n) 0 bufs.
Lemma total_nonneg bufs : 0 <= total bufs.
Proof. induction bufs as [|b bufs IH]; cbn; [done|]. fold (total bufs). lia. Qed.

(** Room for more buffers: in the packet's arrays and in the sequence space. *)
Definition room (c : ctx) (p : packet) (bufs : list (list Z)) : Prop :=
  p_nwbufs p + Z.of_nat (length (s_write_queue (c_s c)) + length bufs) < 2 ^ 15 - 1 ∧
  window (c_s c) + Z.of_nat (write_backlog c) + Z.of_nat (length bufs) + total bufs < 2 ^ 31 ∧
  msum wb_len (c_wbufs c) + total bufs < 2 ^ 63.

(** One buffer joins the queue. *)
Definition add_buf (c : ctx) (wr : write_id) (w : write) (buf : list Z) (is_end : bool) : ctx :=
  c <| c_wbufs ::= <[c_next c := mk_wbuf buf 0 0 wr is_end]> |>
    <| c_writes ::= <[wr := w <| wr_size ::= λ x, u64 (x + Z.of_nat (length buf)) |>]> |> <| c_next ::= Pos.succ |>
    <| c_s ::= λ s, s <| s_acct ::= λ a, a <| bytes_queued ::= λ x, u64 (x + Z.of_nat (length buf)) |>
                                           <| writes_queued_bytes ::= λ x, u64 (x + Z.of_nat (length buf)) |> |>
                      <| s_write_queue ::= λ q, q ++ [c_next c] |> |>.

Lemma backlog_fresh (m : gmap wbuf_id wbuf) wid b q :
  wid ∉ q →
  sum_list_with (λ w, match <[wid := b]> m !! w with Some b => S (Z.to_nat (wbuf_left b)) | None => O end) (q ++ [wid]) =
  (sum_list_with (λ w, match m !! w with Some b => S (Z.to_nat (wbuf_left b)) | None => O end) q + S (Z.to_nat (wbuf_left b)))%nat.
Proof. intros Hq. rewrite sum_list_with_app, backlog_ne by done. cbn. rewrite lookup_insert_eq. lia. Qed.

(** The data is appended to what was written, and nothing that was sent changes. *)
Definition appends (data : list Z) (c c' : ctx) : Prop :=
  ∀ (N : Numbering) sent, faithful sent c → written c' = written c ++ data ∧ ∃ more, faithful (sent ++ more) c'.

Lemma conveys_appends c c' : conveys c c' → appends [] c c'.
Proof. intros Hc N sent Hf. rewrite app_nil_r. by apply Hc. Qed.
Lemma appends_trans d1 d2 c1 c2 c3 : appends d1 c1 c2 → appends d2 c2 c3 → appends (d1 ++ d2) c1 c3.
Proof.
  intros H1 H2 N sent Hf. destruct (H1 N sent Hf) as (E1 & m1 & F1). destruct (H2 N _ F1) as (E2 & m2 & F2).
  split; [by rewrite E2, E1, app_assoc|]. exists (m1 ++ m2). by rewrite app_assoc.
Qed.

Lemma rest_of_fresh m wid b q : wid ∉ q → (q ++ [wid]) ≫= rest_of (<[wid := b]> m) = (q ≫= rest_of m) ++ wbuf_rest b.
Proof.
  intros Hq. rewrite bind_app, rest_of_ne by done. f_equal. cbn. unfold rest_of. by rewrite lookup_insert_eq, app_nil_r.
Qed.
Lemma written_below_fresh m x b n : (n < Pos.to_nat x)%nat → written_below (<[x := b]> m) n = written_below m n.
Proof.
  induction n as [|n IH]; intros Hn; [done|]. cbn [written_below]. rewrite IH by lia. rewrite lookup_insert_ne by lia. done.
Qed.

(** A buffer joins the queue: its bytes are written. *)
Lemma add_buf_appends c wr w buf is_end : c_next c ∉ s_write_queue (c_s c) → appends buf c (add_buf c wr w buf is_end).
Proof.
  intros Hn N sent Hf. set (c' := add_buf c wr w buf is_end). set (b := mk_wbuf buf 0 0 wr is_end).
  assert (c_wbufs c !! c_next c = None) as Hfresh.
  { destruct (c_wbufs c !! c_next c) eqn:E; [|done]. assert (c_next c < c_next c)%positive by (apply (fa_alloc _ _ Hf); by eexists). lia. }
  assert (written c' = written c ++ buf) as Ew.
  { unfold written. change (c_wbufs c') with (<[c_next c := b]> (c_wbufs c)). change (c_next c') with (Pos.succ (c_next c)).
    rewrite written_succ, lookup_insert_eq, written_below_fresh by lia. done. }
  split; [done|]. exists []. rewrite app_nil_r. destruct Hf as [F1 F2 (pid & p & d & G1 & G2 & G3 & G4 & G5 & G6) F4 F5 F6 F7]. split; try done.
  - exists pid, p, d. do 2 (split; [done|]). split; [by apply chunks_bytes_fresh|]. do 2 (split; [done|]). rewrite Ew, <- G6, <- !app_assoc. do 2 f_equal.
    unfold unsent. change (s_write_queue (c_s c')) with (s_write_queue (c_s c) ++ [c_next c]). change (c_wbufs c') with (<[c_next c := b]> (c_wbufs c)).
    by rewrite rest_of_fresh.
  - intros out q x Ho Hx. destruct (F4 out q x Ho Hx) as (px & i & y & Q1 & Q2 & Q3 & Q4 & Q5 & Q6). exists px, i, y. do 5 (split; [done|]). by apply chunks_bytes_fresh.
  - intros x. change (c_wbufs c') with (<[c_next c := b]> (c_wbufs c)). change (c_next c') with (Pos.succ (c_next c)).
    destruct (decide (x = c_next c)) as [->|Hx]; [lia|]. rewrite lookup_insert_ne by done. intros Hx'%F6. lia.
  - change (c_next c') with (Pos.succ (c_next c)). lia.
Qed.

Section Step.
Variables (c : ctx) (wr : write_id) (w : write) (buf : list Z) (is_end : bool) (rest : list (list Z)).
Variables (out : gmap Z packet_id) (pid : packet_id) (p : packet).
Hypothesis Hq : queues_ok c out.
Hypothesis Hc : current_ok c out pid p.
Hypothesis Hroom : room c p (buf :: rest).
Let c' := add_buf c wr w buf is_end.

Lemma add_buf_window : window (c_s c') = window (c_s c).
Proof. done. Qed.

Lemma add_buf_fresh pend due : ledger c pend due → c_wbufs c !! c_next c = None ∧ c_next c ∉ s_write_queue (c_s c).
Proof.
  intros L. assert (c_wbufs c !! c_next c = None) as E.
  { destruct (c_wbufs c !! c_next c) eqn:E; [|done]. assert (c_next c < c_next c)%positive by (apply (lg_alloc _ _ _ L); by eexists). lia. }
  split; [done|]. intros Hin. destruct (lg_queue _ _ _ L _ Hin) as (b & Hb & _). congruence.
Qed.

Lemma add_buf_backlog pend due : ledger c pend due →
  write_backlog c' = (write_backlog c + S (length buf))%nat.
Proof.
  intros L. destruct (add_buf_fresh _ _ L) as [_ Hn]. unfold write_backlog. unfold c', add_buf. cbn [c_s c_wbufs upd_field s_write_queue].
  rewrite backlog_fresh by done. unfold wbuf_left, wb_len. cbn. lia.
Qed.

Lemma add_buf_queues pend due : ledger c pend due → queues_ok c' out.
Proof.
  intros L. destruct (add_buf_fresh _ _ L) as [Hf _]. apply (queues_more_bufs c); [done| |done].
  intros ks [d Hd]. exists d. by apply chunks_bytes_fresh.
Qed.

Lemma add_buf_current pend due : ledger c pend due → current_ok c' out pid p.
Proof.
  intros L. destruct (add_buf_fresh _ _ L) as [Hf Hn]. pose proof (add_buf_backlog _ _ L) as Hb.
  destruct Hroom as (R1 & R2 & R3). cbn [length total foldr] in R1, R2, R3. fold (total rest) in R2, R3. pose proof (total_nonneg rest).
  destruct Hc as [[B1 B2 B3 B4 B5 B6 B7 B8 B9 B10 B11] C2 C3 C4 C5 C6 C7 C8 C9 C10].
  split; try done.
  - split; try done; unfold c', add_buf; cbn [c_s c_wbufs upd_field s_write_queue s_pkt_capacity].
    + intros _. rewrite length_app. cbn. lia.
    + apply NoDup_app. split_and!; [done| |apply NoDup_singleton]. by intros x Hx ->%list_elem_of_singleton.
    + intros x. rewrite elem_of_app, list_elem_of_singleton. intros [Hx| ->].
      * destruct (B11 x Hx) as (b & Hb1 & Hb2). exists b. rewrite lookup_insert_ne by congruence. done.
      * eexists. rewrite lookup_insert_eq. split; [done|]. unfold wbuf_ok, wb_len. cbn.
        assert (0 <= msum wb_len (c_wbufs c)) by (apply msum_nonneg; intros; unfold wb_len; lia). lia.
  - destruct C5 as [d Hd]. exists d. by apply chunks_bytes_fresh.
  - cbn. intros x Hx%C9. lia.
  - rewrite Hb. change (window (c_s c')) with (window (c_s c)). lia.
Qed.

Lemma add_buf_accounts pend due :
  accounts c pend due → c_writes c !! wr = Some w → due ≠ Some wr → wr_bytes_acked w = 0 →
  (wr_on_ack w = true → acks_of wr (io_log (c_io c)) = 0) →
  accounts c' pend due.
Proof.
  intros [L Hi] Hw Hd Ha Ht. destruct (add_buf_fresh _ _ L) as [Hf Hn].
  destruct Hroom as (R1 & R2 & R3). cbn [total foldr] in R3. fold (total rest) in R3. pose proof (total_nonneg rest) as Htot.
  pose proof L as [L1 L2 L3 L4 L5 L6 L7 L8 L9].
  set (n := Z.of_nat (length buf)) in *. set (b := mk_wbuf buf 0 0 wr is_end). assert (wb_len b = n) as Eb by done.
  assert (0 <= msum wb_len (c_wbufs c)) as H0 by (apply msum_nonneg; intros; unfold wb_len; lia).
  assert (c_wbufs c' = <[c_next c := b]> (c_wbufs c)) as Ew by done. assert (flying c' = flying c) as Ef by done.
  assert (carried (c_next c) (pend ++ flying c) = 0) as Ec.
  { assert (Hk : ∀ k, k ∈ pend ++ flying c → ck_wbuf k ≠ c_next c).
    { intros k (y & Hy & _)%L1 E. congruence. }
    revert Hk. generalize (pend ++ flying c). intros l. induction l as [|k l IH]; intros Hk; [done|]. rewrite carried_cons.
    rewrite decide_False by (apply Hk; left). rewrite IH; [done|]. intros k' Hk'. apply Hk. by right. }
  destruct (L5 wr w Hw) as [S1 S2].
  assert (0 <= wr_size w <= msum wb_len (c_wbufs c)) as Hsz.
  { rewrite S1. split; [apply msum_nonneg|apply msum_le]; intros i x _; unfold part, wb_len; case_decide; lia. }
  assert (Hnew : ∀ f, f b = 0 → msum f (c_wbufs c') = msum f (c_wbufs c)) by (intros f E; rewrite Ew, msum_insert by done; lia).
  split; [split|]; rewrite ?Ef.
  - intros k Hk. destruct (L1 k Hk) as (y & Hy & K). exists y. rewrite Ew, lookup_insert_ne by congruence. done.
  - intros x y. rewrite Ew. destruct (decide (x = c_next c)) as [->|Hx].
    + rewrite lookup_insert_eq. intros [= <-]. rewrite Ec, Eb. cbn. split_and!; [lia|lia| |].
      * intros []. change (c_next c ∈ s_write_queue (c_s c) ++ [c_next c]). apply elem_of_app. right. by left.
      * unfold is_Some. eexists. change (c_writes c') with (<[wr := w <| wr_size ::= λ x, u64 (x + n) |>]> (c_writes c)). apply lookup_insert_eq.
    + rewrite lookup_insert_ne by done. intros Hy. destruct (L2 x y Hy) as (K1 & K2 & K3 & K4). split_and!; [done|done| |].
      * intros Hx'. apply K3. intros Hin. apply Hx'. change (x ∈ s_write_queue (c_s c) ++ [c_next c]). apply elem_of_app. by left.
      * change (c_writes c') with (<[wr := w <| wr_size ::= λ x, u64 (x + n) |>]> (c_writes c)).
        destruct (decide (wb_write y = wr)) as [->|]; [rewrite lookup_insert_eq; by eexists|by rewrite lookup_insert_ne].
  - intros x. change (x ∈ s_write_queue (c_s c') ) with (x ∈ s_write_queue (c_s c) ++ [c_next c]).
    rewrite elem_of_app, list_elem_of_singleton. intros [Hx| ->].
    + destruct (L3 x Hx) as (y & Hy & K). exists y. rewrite Ew, lookup_insert_ne by congruence. done.
    + exists b. rewrite Ew, lookup_insert_eq, Ec, Eb. split; [done|]. cbn. lia.
  - change (NoDup (s_write_queue (c_s c) ++ [c_next c])). apply NoDup_app. split_and!; [done| |apply NoDup_singleton].
    by intros x Hx ->%list_elem_of_singleton.
  - intros x y. change (c_writes c') with (<[wr := w <| wr_size ::= λ x, u64 (x + n) |>]> (c_writes c)).
    destruct (decide (x = wr)) as [->|Hx].
    + rewrite lookup_insert_eq. intros [= <-]. rewrite Ew, !msum_insert by done. cbn [wr_size wr_bytes_acked upd_field].
      rewrite <- S1, <- S2. unfold part. rewrite !decide_True by done. rewrite Eb. split; [|cbn; lia].
      rewrite u64_id by (unfold is_u64; lia). lia.
    + rewrite lookup_insert_ne by done. intros Hy. destruct (L5 x y Hy) as [-> ->].
      rewrite !Hnew by (unfold part; rewrite decide_False by (cbn; congruence); done). done.
  - rewrite Ew, msum_insert by done. change (writes_queued_bytes (s_acct (c_s c'))) with (u64 (writes_queued_bytes (s_acct (c_s c)) + n)).
    rewrite L6, Eb. cbn [wb_bytes_acked b]. assert (msum (λ y, wb_len y - wb_bytes_acked y) (c_wbufs c) <= msum wb_len (c_wbufs c)).
    { apply msum_le. intros i x Hx. destruct (L2 i x Hx). lia. }
    assert (0 <= msum (λ y, wb_len y - wb_bytes_acked y) (c_wbufs c)).
    { apply msum_nonneg. intros i x Hx. destruct (L2 i x Hx) as (? & ? & _). assert (0 <= carried i (pend ++ flying c)); [|lia].
      apply carried_nonneg. intros k (? & _ & ? & _)%L1. done. }
    rewrite u64_id by (unfold is_u64; lia). lia.
  - rewrite Ew, msum_insert by done. rewrite Eb. lia.
  - intros x. rewrite Ew. change (c_next c') with (Pos.succ (c_next c)). destruct (decide (x = c_next c)) as [->|Hx]; [lia|].
    rewrite lookup_insert_ne by done. intros Hx'%L8. lia.
  - intros x y Hy Hon Hpl. change (io_log (c_io c')) with (io_log (c_io c)). change (c_writes c') with (<[wr := w <| wr_size ::= λ x, u64 (x + n) |>]> (c_writes c)) in Hy.
    assert (Hpl' : x ≠ wr → plain x (c_wbufs c)).
    { intros Hx. destruct Hpl as [(i & z & Hi' & Hz) Hp]. rewrite Ew in Hi', Hp. split.
      - destruct (decide (i = c_next c)) as [->|]; [rewrite lookup_insert_eq in Hi'; injection Hi' as <-; by destruct Hx|].
        rewrite lookup_insert_ne in Hi' by done. by exists i, z.
      - intros j u Hj. apply (Hp j). rewrite lookup_insert_ne; [done|congruence]. }
    destruct (decide (x = wr)) as [->|Hx].
    + rewrite lookup_insert_eq in Hy. injection Hy as <-. cbn [wr_on_ack wr_bytes_acked wr_size upd_field] in *.
      rewrite Ht, decide_False by (done || congruence). rewrite Ha. assert (0 < n).
      { destruct Hpl as [_ Hp]. rewrite <- Eb. apply (Hp (c_next c)); [rewrite Ew; apply lookup_insert_eq|done]. }
      rewrite u64_id by (unfold is_u64; lia). destruct (Z.eqb_spec 0 (wr_size w + n)); lia.
    + rewrite lookup_insert_ne in Hy by done. by apply L9; [| |apply Hpl'].
  - intros x y. rewrite Ew, Ef. destruct (decide (x = c_next c)) as [->|Hx]; [rewrite lookup_insert_eq; intros [= <-]; by rewrite Ec|].
    rewrite lookup_insert_ne by done. apply Hi.
Qed.
End Step.

Lemma add_buf_room c wr w buf is_end rest p pend due :
  ledger c pend due → room c p (buf :: rest) → room (add_buf c wr w buf is_end) p rest.
Proof.
  intros L (R1 & R2 & R3). cbn [length total foldr] in *. fold (total rest) in *.
  unfold room. rewrite (add_buf_backlog c wr w buf is_end pend due L). change (window (c_s (add_buf c wr w buf is_end))) with (window (c_s c)).
  destruct (add_buf_fresh c pend due L) as [Hf _]. unfold add_buf. cbn [c_s c_wbufs upd_field s_write_queue].
  rewrite length_app, msum_insert by done. unfold wb_len at 1. cbn [wb_buf length]. split_and!; lia.
Qed.

(** All of them. *)
Lemma write_bufs_ok bufs wr is_end out pid p pend due : due ≠ Some wr → ∀ c w,
  can_send c → queues_ok c out → current_ok c out pid p → room c p bufs → accounts c pend due →
  c_writes c !! wr = Some w → wr_bytes_acked w = 0 → (wr_on_ack w = true → acks_of wr (io_log (c_io c)) = 0) →
  ∃ c', write_bufs c wr bufs is_end = Some c' ∧ can_send c' ∧ queues_ok c' out ∧ current_ok c' out pid p ∧
    accounts c' pend due ∧ c_writes c' = <[wr := w <| wr_size := wr_size w + total bufs |>]> (c_writes c) ∧
    erase (c_s c') = erase (c_s c) ∧ (c_io c', c_packets c', c_world c', c_self c') = (c_io c, c_packets c, c_world c, c_self c) ∧
    appends (mjoin bufs) c c'.
Proof.
  intros Hd. induction bufs as [|buf rest IH]; intros c w Hs Hq Hc Hr Ha Hw Hz Ht; cbn [write_bufs].
  { exists c. split_and!; try done; [|by apply conveys_appends]. rewrite Z.add_0_r. symmetry. apply insert_id. rewrite Hw. by destruct w. }
  rewrite Hw. cbn [mbind option_bind]. set (e := is_end && _).
  change (∃ c', write_bufs (add_buf c wr w buf e) wr rest is_end = Some c' ∧ can_send c' ∧ queues_ok c' out ∧ current_ok c' out pid p ∧
    accounts c' pend due ∧ c_writes c' = <[wr := w <| wr_size := wr_size w + total (buf :: rest) |>]> (c_writes c) ∧
    erase (c_s c') = erase (c_s c) ∧ (c_io c', c_packets c', c_world c', c_self c') = (c_io c, c_packets c, c_world c, c_self c) ∧
    appends (mjoin (buf :: rest)) c c').
  pose proof (proj1 Ha) as L. set (w1 := w <| wr_size ::= λ x, u64 (x + Z.of_nat (length buf)) |>).
  destruct (IH (add_buf c wr w buf e) w1) as (c' & E & Hs' & Hq' & Hc' & Ha' & Hw' & He & Hi & Hap).
  - destruct Hs as [C1 C2 C3 C4 C5 C6 C7 C8 Cs C9]. by split.
  - by apply (add_buf_queues c wr w buf e out Hq pend due).
  - by apply (add_buf_current c wr w buf e rest out pid p Hc Hr pend due).
  - by apply (add_buf_room c wr w buf e rest p pend due).
  - by apply (add_buf_accounts c wr w buf e rest p Hr).
  - apply lookup_insert_eq.
  - done.
  - done.
  - exists c'. split_and!; try done; [|apply (appends_trans buf _ _ (add_buf c wr w buf e)); [apply add_buf_appends; apply (add_buf_fresh c pend due L)|done]].
    rewrite Hw'. unfold add_buf. cbn [c_writes upd_field]. rewrite insert_insert_eq. f_equal.
    unfold w1. cbn [wr_size upd_field total foldr]. fold (total rest).
    assert (0 <= wr_size w < 2 ^ 63) as Hsz.
    { destruct (lg_writes _ _ _ L wr w Hw) as [-> _]. pose proof (lg_bound _ _ _ L). split; [apply msum_nonneg|eapply Z.le_lt_trans; [apply (msum_le _ wb_len)|done]];
        intros i x _; unfold part, wb_len; case_decide; lia. }
    destruct Hr as (_ & _ & R3). cbn [total foldr] in R3. fold (total rest) in R3. pose proof (total_nonneg rest).
    assert (0 <= msum wb_len (c_wbufs c)) by (apply msum_nonneg; intros; unfold wb_len; lia).
    destruct w as [z1 z2 z3 z4 z5]. unfold upd_field. cbn [wr_size wr_bytes_acked wr_is_write_end wr_stream wr_on_ack] in *. f_equal.
    rewrite u64_id by (unfold is_u64; lia). lia.
Qed.

(** A new request, still without buffers. *)
Lemma new_write_accounts c wr is_end sid on_ack pend due :
  c_writes c !! wr = None → accounts c pend due → accounts (c <| c_writes ::= <[wr := mk_write 0 0 is_end sid on_ack]> |>) pend due.
Proof.
  intros Hn [[L1 L2 L3 L4 L5 L6 L7 L8 L9] Hi]. set (c' := c <| c_writes ::= _ |>).
  assert (Hnone : ∀ wid b, c_wbufs c !! wid = Some b → wb_write b ≠ wr).
  { intros wid b Hb E. destruct (L2 wid b Hb) as (_ & _ & _ & [w Hw]). congruence. }
  assert (Hz : ∀ f, msum (part wr f) (c_wbufs c) = 0).
  { intros f. rewrite <- (msum_zero (c_wbufs c)). apply msum_ext. intros i x Hx. unfold part. by rewrite decide_False by by apply (Hnone i). }
  split; [split|]; try done.
  - intros wid b Hb. destruct (L2 wid b Hb) as (K1 & K2 & K3 & K4). split_and!; try done.
    cbn. rewrite lookup_insert_ne; [done|]. intros E. by apply (Hnone wid b Hb).
  - intros x w. cbn. destruct (decide (x = wr)) as [->|Hx]; [rewrite lookup_insert_eq; intros [= <-]; by rewrite !Hz|].
    rewrite lookup_insert_ne by done. apply L5.
  - intros x w. cbn. destruct (decide (x = wr)) as [->|Hx].
    + intros _ _ [(i & y & Hy & Ey) _]. by apply Hnone in Hy.
    + rewrite lookup_insert_ne by done. apply L9.
Qed.

(** A write to an idle stream with a zero window starts the zero-window timer; it must not be the timer of a
    packet in flight, which could only be one that carries empty buffers. *)
Definition probe_clear (c : ctx) : Prop :=
  writes_queued_bytes (s_acct (c_s c)) = 0 → send_rwnd (s_wnd (c_s c)) = 0 → s_inflight_queue (c_s c) = [].

Lemma stream_write_run c wr sid bufs on_ack is_end pid p pend due :
  sender_ok c → accounts c pend due → due ≠ Some wr →
  c_writes c !! wr = None → (on_ack = true → acks_of wr (io_log (c_io c)) = 0) →
  bufs ≠ [] → s_pkt (c_s c) = Some pid → c_packets c !! pid = Some p → room c p bufs →
  ∃ c', _udx_stream_write c wr sid bufs on_ack is_end = Some c' ∧ sender_ok c' ∧ accounts c' pend due ∧
    c_writes c' = <[wr := mk_write (total bufs) 0 is_end sid on_ack]> (c_writes c) ∧
    tuned c c' ∧ (probe_clear c → guarded c → guarded c') ∧ appends (mjoin bufs) c c'.
Proof.
  intros (Hs & out & Hq & pid1 & p1 & Hc) Ha Hd Hn Ht Hb Hpid Hp Hr.
  assert (pid1 = pid ∧ p1 = p) as [-> ->].
  { pose proof (bd_pkt _ _ _ (cu_building _ _ _ _ Hc)). pose proof (bd_packet _ _ _ (cu_building _ _ _ _ Hc)). split; congruence. }
  unfold _udx_stream_write. assert ((0 <? length bufs)%nat = true) as -> by (apply Nat.ltb_lt; destruct bufs; [done|cbn; lia]).
  cbv zeta. set (c1 := c <| c_writes ::= _ |>). set (w := mk_write 0 0 is_end sid on_ack) in *.
  destruct (write_bufs_ok bufs wr is_end out pid p pend due Hd c1 w) as (c2 & -> & Hs2 & Hq2 & Hc2 & Ha2 & Hw2 & He2 & _ & Hap).
  - destruct Hs as [C1 C2 C3 C4 C5 C6 C7 C8 Cs C9]. by split.
  - by apply (queues_view c).
  - apply (current_view c _ out); try done; apply Hc.
  - done.
  - by apply new_write_accounts.
  - apply lookup_insert_eq.
  - done.
  - done.
  - cbn [mbind option_bind]. set (c3 := if _ && _ then _ else c2).
    assert (s_inflight_queue (c_s c2) = s_inflight_queue (c_s c) ∧ s_pending_timer (c_s c2) = s_pending_timer (c_s c) ∧
      send_rwnd (s_wnd (c_s c2)) = send_rwnd (s_wnd (c_s c)) ∧ tuned c c2) as (F1 & F2 & F3 & Ht2).
    { destruct (erase_fields _ _ He2) as (? & ? & ? & ? & Es). unfold tuned. rewrite Es. by split. }
    assert (probe_clear c → guarded c → guarded c3) as Hg3.
    { intros Hz Hg. unfold c3. destruct (_ && _) eqn:Eb; [|by apply (guarded_view c); [congruence|]].
      apply andb_true_iff in Eb as [Eb1%Z.eqb_eq Eb2%Z.eqb_eq]. intros Hi. destruct Hi.
      transitivity (s_inflight_queue (c_s c2)); [|rewrite F1; apply Hz; [exact Eb1|congruence]].
      unfold stream_timer_start, send_probe. by destruct (s_socket (c_s c2)). }
    assert (same_core c2 c3 ∧ unbooked c2 c3 ∧ conveys c2 c3) as (Hsame & Hu & Hv).
    { clear Hg3. unfold c3. destruct (_ && _); [|done]. destruct (send_probe_core c2) as (H1 & _ & _). split; [|split; [|etransitivity; [apply send_probe_conveys|apply timer_start_tended]]].
      - eapply same_core_trans; [exact H1|apply timer_start_core].
      - assert (unbooked c2 (send_probe c2)) as H2.
        { unfold send_probe. destruct (s_socket (c_s c2)); [|done]. split; try done. intros x. cbn.
          unfold send_small, uv_udp_try_send, uv_udp_send. cbn. by destruct (_ =? _). }
        etransitivity; [exact H2|]. unfold stream_timer_start. by apply unbooked_stream. }
    clearbody c3. assert (sender_ok c3) as Hok3.
    { apply (same_core_ok c2); [done|]. split; [done|]. exists out. split; [done|]. by exists pid, p. }
    destruct (send_packets_run c3 Hok3) as (c4 & E4 & Hok4 & Hg4). rewrite E4.
    pose proof (send_packets_conveys c3 c4 Hok3 E4) as Hv4.
    destruct (send_packets_accounts c3 c4 pend due Hok3) as (Ha4 & Ew4 & Ht4); [by apply (unbooked_accounts c2)|done|].
    exists c4. split; [done|]. split; [done|]. split; [done|]. split; [|split; [|split; [auto|]]].
    2: { transitivity c2; [done|]. transitivity c3; [by apply unbooked_tuned|done]. }
    2: { rewrite <- (app_nil_r (mjoin bufs)). apply (appends_trans _ _ _ c2); [|apply conveys_appends; by transitivity c3].
         apply (appends_trans [] _ _ c1); [by apply conveys_appends, conveys_quiet|done]. }
    rewrite Ew4. pose proof (ub_bufs _ _ Hu) as [= _ ->]. rewrite Hw2. cbn [c_writes upd_field c1].
    by rewrite insert_insert_eq.
Qed.
(** What udx_stream_write asks for beside a sender in order: an open stream, a request that is not in use,
    and room. *)
Record writable (c : ctx) (wr : write_id) (bufs : list (list Z)) (on_ack : bool) : Prop := {
  wt_connected : has (s_status (c_s c)) UDX_STREAM_CONNECTED = true;
  wt_open : has (s_status (c_s c)) UDX_STREAM_ENDING = false;
  wt_bufs : bufs ≠ [];
  wt_fresh : c_writes c !! wr = None;
  wt_untold : on_ack = true → acks_of wr (io_log (c_io c)) = 0;
  wt_room : ∃ pid p, s_pkt (c_s c) = Some pid ∧ c_packets c !! pid = Some p ∧ room c p bufs }.

(** C8: a write on an open stream goes through: no assertion fails, the sender's books stay in order, the
    request owns exactly the bytes given, which are appended to what was written, the accounts stay balanced (every byte of every write is
    acknowledged, carried by a packet, or queued, and nobody has been told too early or twice), and the
    user is asked to wait only when the high watermark was passed and noted. *)
Theorem stream_write_ok c wr sid bufs on_ack :
  sender_ok c → accounts c [] None → writable c wr bufs on_ack →
  ∃ c' r, udx_stream_write c wr sid bufs on_ack = Some (c', r) ∧ sender_ok c' ∧ accounts c' [] None ∧
    c_writes c' = <[wr := mk_write (total bufs) 0 false sid on_ack]> (c_writes c) ∧
    appends (mjoin bufs) c c' ∧ (r = 1 ∨ r = 0 ∧ hit_high_watermark (s_acct (c_s c')) = true).
Proof.
  intros Hok Ha [W1 W2 W3 W4 W5 (pid & p & W6 & W7 & W8)]. unfold udx_stream_write. rewrite W1, W2. cbn [negb].
  assert ((length bufs =? 0)%nat = false) as -> by (by destruct bufs).
  destruct (stream_write_run c wr sid bufs on_ack false pid p [] None) as (c1 & -> & Hok1 & Ha1 & Ew1 & _ & _ & Hap); try done.
  cbn [mbind option_bind]. unfold check_watermark, send_window_in_bytes, cwnd_in_bytes.
  rewrite (proj1 (max_payload_spec _ (cs_mtu _ (proj1 Hok1)))). cbn [mbind option_bind]. destruct (_ <? _).
  - eexists _, 0. split; [reflexivity|]. split; [|split; [split|split; [done|split; [|by right]]]].
    4: { rewrite <- (app_nil_r (mjoin bufs)). apply (appends_trans _ _ _ c1); [done|]. by apply conveys_appends, conveys_quiet. }
    2: { apply (ledger_view c1 _ [] []); try done; apply Ha1. } 2: { apply (in_flight_view c1 _ [] []); try done. apply Ha1. }
    destruct Hok1 as ([C1 C2 C3 C4 C5 C6 C7 C8 Cs C9] & out & Hq & pid1 & p1 & Hc). split; [by split|].
    exists out. split; [by apply (queues_view c1)|]. exists pid1, p1. apply (current_view c1 _ out); try done; apply Hc.
  - exists c1, 1. auto 10.
Qed.
End Writes.

(** ** Four more bytes on the stream of Ledger.v's example *)
#[local] Existing Instance example_env.
Definition more_bytes : list (list Z) := [[7; 8; 9]; [10]].

Lemma stream_write_ok_witness : ∃ c' r, udx_stream_write ledger_ctx 11 1 more_bytes true = Some (c', r) ∧
  sender_ok c' ∧ c_writes c' = {[ 11%positive := mk_write 4 0 false 1 true; 9%positive := mk_write 5 0 false 1 true ]}.
Proof.
  destruct (stream_write_ok ledger_ctx 11 1 more_bytes true ledger_sender_ok ledger_accounts) as (c' & r & E & Hok & _ & Ew & _).
  - split.
    + vm_compute. reflexivity.
    + vm_compute. reflexivity.
    + discriminate.
    + vm_compute. reflexivity.
    + intros _. reflexivity.
    + exists 3%positive, (new_packet 3). split; [reflexivity|]. split; [vm_compute; reflexivity|].
      vm_compute. intuition congruence.
  - exists c', r. split; [exact E|]. split; [exact Hok|]. rewrite Ew. vm_compute. reflexivity.
Defined.
