(* ===== verification/Process.v ===== *)
(** * Processing a received datagram (src/udx.c: process_packet, relay_packet, on_uv_udp_recv)

    [process_packet] is cut where the C function has its own sections: data,
    read queue, window, acknowledgements, end of stream, loss and congestion.  A
    section that may return early gives [Done]. *)

From S2P Require Import Prelude SeqNum Endian Wire Cirbuf WinFilter Stream Rtt Mtu Rate Float64 Bbr Ctx Send Loss Write Ack Recv Socket Lifecycle.

(** [Done c]: the C function has returned 1; [Go x]: it goes on. *)
Inductive flow (A : Type) := Done (c : ctx) | Go (x : A).
Arguments Done {A} c.
Arguments Go {A} x.

Definition flow_bind {A B} (m : option (flow A)) (f : A → option (flow B)) : option (flow B) :=
  x ← m; match x with Done c => Some (Done c) | Go x => f x end.
Notation "x <~ e ; f" := (flow_bind e (λ x, f))
  (at level 20, e at level 100, f at level 200, only parsing) : udx_scope.
Notation "' pat <~ e ; f" := (flow_bind e (λ x, match x with pat => f end))
  (at level 20, pat pattern, e at level 100, f at level 200, only parsing) : udx_scope.

Section Process.
Context `{Env}.
Variable ucb : callback → sys → option sys.
Notation cb := (cb ucb).

Definition is_dead (c : ctx) : bool := has (s_status (c_s c)) UDX_STREAM_DEAD.

(** [if (stream->status & UDX_STREAM_DEAD) return 1]. *)
Definition unless_dead (c : ctx) : option (flow ctx) := Some (if is_dead c then Done c else Go c).

Definition send_ack_close (c : ctx) : option ctx :=
  '(c, close) ← send_ack cb c;
  if (close : bool) then close_stream ucb (relay_fuel c) c 0 else Some c.

(** "For all stream packets, ensure that they are causally newer (or same)". *)
Definition process_payload (c : ctx) (h : udx_header) (data : list Z) : option (flow ctx) :=
  if seq_compare (s_ack (c_s c)) (h_seq h) <=? 0 then
    c <~ (if has (h_type h) UDX_HEADER_DATA_OR_END && may_read (c_s c)
          then c ← process_data_packet cb c (h_type h) (h_seq h) data; unless_dead c
          else Some (Go c));
    let c := if has (h_type h) UDX_HEADER_END
             then c <| c_s ::= λ s, s <| s_status ::= λ f, set_flag f UDX_STREAM_ENDING_REMOTE |>
                                      <| s_remote_ended := h_seq h |> |>
             else c in
    if has (h_type h) UDX_HEADER_DESTROY
    then c ← close_stream ucb (relay_fuel c) c UV_ECONNRESET; Some (Done c)
    else Some (Go c)
  else Some (Go c).

Definition process_message (c : ctx) (h : udx_header) (data : list Z) : option (flow ctx) :=
  if has (h_type h) UDX_HEADER_MESSAGE && on_recv (s_cb (c_s c))
  then c ← call cb (CbRecv data) c; unless_dead c
  else Some (Go c).

Definition process_read_queue (c : ctx) : option (flow ctx) :=
  '(c, dead) ← drain cb c; Some (if (dead : bool) then Done c else Go c).

(** The window update (RFC 9293's SND.WL1 and SND.WL2), after the check that
    [ack] is not beyond what was sent. *)
Definition process_window (c : ctx) (h : udx_header) : option (flow ctx) :=
  if seq_compare (s_seq (c_s c)) (h_ack h) <? 0 then Some (Done c)
  else
    let s := c_s c in
    Some (Go (
      if (0 <=? seq_compare (h_ack h) (s_remote_acked s))
         && ((seq_compare (send_wl1 (s_wnd s)) (h_seq h) <? 0)
             || ((send_wl1 (s_wnd s) =? h_seq h) && (seq_compare (send_wl2 (s_wnd s)) (h_ack h) <=? 0)))
      then
        let c := if (0 <? h_rwnd h) && bool_decide (s_pending_timer s = UDX_TIMER_ZWP)
                 then stream_timer_stop c else c in
        c <| c_s ::= λ s, s <| s_wnd ::= λ w, w <| send_rwnd := h_rwnd h |> <| send_wl1 := h_seq h |>
                                              <| send_wl2 := h_ack h |> |> |>
      else c)).

Definition process_remote_change (c : ctx) (h : udx_header) : option (flow ctx) :=
  if s_remote_changing (c_s c) && (0 <=? seq_diff (h_ack h) (s_seq_on_remote_changed (c_s c))) then
    let c := c <| c_s ::= λ s, s <| s_remote_changing := false |> |> in
    if on_remote_changed (s_cb (c_s c))
    then c ← call cb CbRemoteChanged c; unless_dead c
    else Some (Go c)
  else Some (Go c).

(** TLP repair and leaving recovery. *)
Definition process_recovery (s : stream) (h : udx_header) : stream :=
  let s := s <| s_tlp ::= λ t, detect_loss_repaired_by_loss_probe t (h_ack h) |> in
  if (0 <? seq_compare (h_ack h) (s_high_seq s))
     && ((s_ca_state s =? UDX_CA_RECOVERY) || (s_ca_state s =? UDX_CA_LOSS))
  then s <| s_ca_state := UDX_CA_OPEN |> else s.

(** The timer an idle stream waits with: keepalive or none. *)
Definition idle_timer (c : ctx) : ctx :=
  if truthy (s_keepalive_timeout_ms (c_s c))
  then stream_timer_start c UDX_TIMER_KEEPALIVE (s_keepalive_timeout_ms (c_s c))
  else stream_timer_stop c.

(** "remote acked our end". *)
Definition process_ended (c : ctx) : option ctx :=
  if is_dead c then Some c
  else
    let c := if s_remote_acked (c_s c) =? s_seq (c_s c) then idle_timer c else c in
    if Z.land (s_status (c_s c)) UDX_STREAM_ALL_ENDED =? UDX_STREAM_ALL_ENDED
    then close_stream ucb (relay_fuel c) c 0
    else send_ack_close c.

(** The cumulative and selective acknowledgements. *)
Definition process_acks (c : ctx) (h : udx_header) (prior : Z) (ack_advanced : bool)
    (sacks : list (Z * Z)) : option (flow (ctx * udx_rate_sample_t)) :=
  '(c, rs, ended) ← ack_cumulative cb c
     (if seq_compare prior (h_ack h) <? 0 then seq_upto prior (h_ack h) else []) rs_init;
  let c := if ack_advanced
           then c <| c_s ::= λ s, s <| s_remote_acked := h_ack h |> <| s_rto_count := 0 |> |> else c in
  if (ended : bool) then c ← process_ended c; Some (Done c)
  else
    '(c, rs) ← ack_sacks cb c sacks rs;
    Some (if is_dead c then Done c else Go (c, rs)).

(** "delivered > 0": the timer of an idle stream, or RACK.  The boolean is
    [arm_rto_or_tlp]. *)
Definition process_delivered (c : ctx) (arm : bool) : option (ctx * bool) :=
  let s := c_s c in
  '(c, arm) ← (if s_remote_acked s =? s_seq s then
      assert! (qlen (s_inflight_queue s) =? 0) && (qlen (s_retransmit_queue s) =? 0);
      let end_queued := Z.land (s_status s) (Z.lor UDX_STREAM_ENDING UDX_STREAM_ENDED) =? UDX_STREAM_ENDING in
      Some (if (send_rwnd (s_wnd s) =? 0) && ((0 <? writes_queued_bytes (s_acct s)) || end_queued)
            then stream_timer_start c UDX_TIMER_ZWP (rto (s_rtt s)) else idle_timer c, false)
    else Some (c <| c_s ::= λ s, s <| s_next_rto_ts := u64 (now c + rto (s_rtt s)) |> |>, arm));
  '(c, started) ← rack_detect_loss_and_arm_timer c;
  Some (c, arm && negb started).

(** Loss detection and the timers. *)
Definition process_arm (c : ctx) (dlv : Z) (arm : bool) : option ctx :=
  '(c, arm) ← (if 0 <? dlv then process_delivered c arm else Some (c, arm));
  if (arm : bool)
  then let '(c, started) := schedule_loss_probe c true in
       if (started : bool) then Some c else rearm_rto c true
  else Some c.

(** The rate sample and congestion control. *)
Definition process_congestion (c : ctx) (rs : udx_rate_sample_t) (dlv lost0 : Z) (data_inflight : bool) : option ctx :=
  let lst := u32 (lost (s_rate (c_s c)) - lost0) in
  if data_inflight then
    let '(r, rs) := udx__rate_gen (now c) (s_rtt (c_s c)) (s_rate (c_s c)) dlv lst rs in
    s ← bbr_main (now c) (c_s c <| s_rate := r |>) rs;
    Some (c <| c_s := s |>)
  else Some c.

(** The rest of process_packet: loss detection, timers, the ACK, congestion control. *)
Definition process_finish (c : ctx) (h : udx_header) (rs : udx_rate_sample_t)
    (delivered0 lost0 : Z) (ack_advanced data_inflight : bool) : option ctx :=
  let dlv := u32 (delivered (s_rate (c_s c)) - delivered0) in
  c ← process_arm c dlv (ack_advanced && data_inflight);
  c ← (if has (h_type h) UDX_HEADER_DATA_OR_END then send_ack_close c else Some c);
  if has (h_type h) UDX_HEADER_DATA_OR_END && is_dead c then Some c
  else
    c ← process_congestion c rs dlv lost0 data_inflight;
    send_packets c.

(** The payload, the window and the acknowledgements of a datagram. *)
Definition process_received (c : ctx) (h : udx_header) (data : list Z) (prior : Z) (ack_advanced : bool)
    (sacks : list (Z * Z)) : option (flow (ctx * udx_rate_sample_t)) :=
  c <~ process_payload c h data;
  c <~ process_message c h data;
  c <~ process_read_queue c;
  c <~ process_window c h;
  c <~ process_remote_change c h;
  process_acks (c <| c_s ::= λ s, process_recovery s h |>) h prior ack_advanced sacks.

(** From "start ack code" to the end. *)
Definition process_stream_packet (c : ctx) (h : udx_header) (buf : list Z) : option ctx :=
  let delivered0 := delivered (s_rate (c_s c)) in
  let lost0 := lost (s_rate (c_s c)) in
  let prior := s_remote_acked (c_s c) in
  let ack_advanced := 0 <? seq_diff (h_ack h) prior in
  let data_inflight := negb (s_remote_acked (c_s c) =? s_seq (c_s c)) in
  let sacks := read_sacks env_host buf 20 (Z.to_nat (nsack_blocks h (Z.of_nat (length buf)))) in
  if has (h_type h) UDX_HEADER_HEARTBEAT then send_ack_close c
  else match skip_data_offset (h_data_offset h) buf with
  | None => Some c
  | Some data =>
      r ← process_received c h data prior ack_advanced sacks;
      match r with
      | Done c => Some c
      | Go (c, rs) => process_finish c h rs delivered0 lost0 ack_advanced data_inflight
      end
  end.

(** Forwarding to the stream this one is relayed to. *)
Definition relay_packet (c : ctx) (relay : stream_id) (h : udx_header) (buf : list Z) : option ctx :=
  let c := c <| c_s ::= λ s, s <| s_seq ::= λ q, seq_max q (h_seq h) |> |> in
  d ← enter relay (leave c);
  let c := match s_socket (c_s d) with
           | None => c
           | Some _ =>
               let b := patch_word buf 4 (s_remote_id (c_s d)) in
               let dest := s_remote_addr (c_s d) in
               let '(i, err) :=
                 if has (io_debug_flags (c_io c)) UDX_DEBUG_FORCE_RELAY_SLOW_PATH then (c_io c, UV_EAGAIN)
                 else uv_udp_try_send (c_io c) dest b in
               c <| c_io := if err =? UV_EAGAIN then (uv_udp_send i dest b).1 else i |>
           end in
  if has (h_type h) UDX_HEADER_DESTROY then close_stream ucb (relay_fuel c) c UV_ECONNRESET else Some c.

Definition count_rx_stream (s : stream) (n : Z) : stream :=
  s <| s_stats ::= λ k, k <| bytes_rx ::= λ x, u64 (x + n) |> <| packets_rx ::= λ x, u64 (x + 1) |> |>.

(** The stream's part of process_packet, firewall first. *)
Definition process_for_stream (c : ctx) (k : socket_id) (addr : sockaddr) (h : udx_header)
    (buf : list Z) : option ctx :=
  let c := c <| c_s ::= λ s, count_rx_stream s (Z.of_nat (length buf)) |> in
  '(c, stop) ← (if negb (bool_decide (s_socket (c_s c) = Some k)) && on_firewall (s_cb (c_s c)) then
      let addr := if is_addr_v4_mapped addr then addr_to_v4 addr else addr in
      let reject := env_firewall (io_log (c_io c)) in
      c ← call cb (CbFirewall k addr) c;
      Some (c, reject || is_dead c)
    else Some (c, false));
  if (stop : bool) then Some c
  else match s_relay_to (c_s c) with
  | Some relay => relay_packet c relay h buf
  | None => process_stream_packet c h buf
  end.

(** The result is C's: 1 when the datagram was for a stream. *)
Definition process_packet (y : sys) (k : socket_id) (buf : list Z) (addr : sockaddr) : option (sys * Z) :=
  let n := Z.of_nat (length buf) in
  let y := y <| socket k ::= λ o, o <| sk_counters ::= λ c, count_rx c n |> |>
             <| y_io ::= λ i, i <| io_udx ::= λ c, count_rx c n |> |> in
  match parse_header env_host buf with
  | None => Some (y, 0)
  | Some h =>
      match w_stream_table (y_world y) !! h_local_id h with
      | None => Some (y, 0)
      | Some (EntryTimewait t) => y ← process_timewait y t (h_type h); Some (y, 1)
      | Some (EntryStream sid) =>
          c ← enter sid y;
          if is_dead c then Some (y, 0)
          else c ← process_for_stream c k addr h buf; Some (leave c, 1)
      end
  end.

(** [on_uv_udp_recv] for a datagram of [nread] >= 0 bytes. *)
Definition on_uv_udp_recv (y : sys) (k : socket_id) (buf : list Z) (addr : sockaddr) : option sys :=
  o ← get_socket y k;
  assert! negb (has (sk_status o) UDX_SOCKET_CLOSED);
  '(y, r) ← process_packet y k buf addr;
  o ← get_socket y k;
  if (r =? 0) && sk_on_recv o
  then ycall ucb (CbSocketRecv k buf (if is_addr_v4_mapped addr then addr_to_v4 addr else addr)) y
  else Some y.

End Process.
