(* ===== verification/AckPath.v ===== *)
(** * A datagram of the peer keeps the sender's state (src/udx.c: process_packet)

    From the payload to the congestion controller, for datagrams that neither end nor destroy the stream.
    [settled] is what holds of a stream between two events: the sender's books, the accounts of the writes, the MTU
    search, a timer for what is in flight.  The user's callbacks are polite (Acked.v) and do not kill the stream. *)

From S2P Require Import Prelude SeqNum Endian Wire Cirbuf WinFilter Stream Rtt Mtu Rate Float64 Bbr Ctx Send Packetize Sender Loss Write Ack Convey Ledger Tended Acked Recv Timers Socket Lifecycle StreamTimer Process.

Section AckPath.
Context `{Env} `{Numbering}.

Definition settled (c : ctx) : Prop := acking c None [] None.

(** ** Views *)

Lemma settled_change c c' :
  ack_view c' = ack_view c → able c' → guarded c' → (∀ wr, acks_of wr (io_log (c_io c')) = acks_of wr (io_log (c_io c))) →
  (∀ b, b ∈ datagrams c' → b ∈ datagrams c ∨ silent b) → settled c → settled c'.
Proof. intros Ev B G Hl Hd. apply acking_change; [done..| |done]. intros wr w _ _ _. by rewrite Hl. Qed.

Lemma settled_view c c' :
  ack_view c' = ack_view c → able_view (c_s c') = able_view (c_s c) →
  (∀ wr, acks_of wr (io_log (c_io c')) = acks_of wr (io_log (c_io c))) → datagrams c' = datagrams c → settled c → settled c'.
Proof. intros Ev Eb Hl Hd. apply acking_view; [done..| |done]. intros wr w _ _ _. by rewrite Hl. Qed.

Lemma settled_out c : settled c → ∃ out, queues_ok c out ∧ ∃ pid p, current_ok c out pid p.
Proof. intros [(out & Q & Hc & _) _ _ _ _ _]. by exists out. Qed.

Lemma settled_alive c : settled c → has (s_status (c_s c)) UDX_STREAM_DEAD = false.
Proof. intros [_ _ _ _ B _]. apply B. Qed.
Lemma settled_window c : settled c → window (c_s c) < 2 ^ 31.
Proof. intros (out & _ & pid & p & C)%settled_out. pose proof (cu_space _ _ _ _ C). lia. Qed.

(** What is settled can send, given a start for the congestion controller. *)
Lemma settled_sender c : settled c → s_inflight_queue (c_s c) ≠ [] ∨ start_ok c → sender_ok c.
Proof.
  intros Hs Hstart. pose proof (settled_out c Hs) as (out & Q & Hc). destruct Hs as [_ _ _ M B _].
  split; [|exists out; by split]. destruct B. split; try done. by apply mtu_ok_range.
Qed.
Lemma settled_recover c : settled c → can_recover c → sender_ok c.
Proof.
  intros Hs [R1 R2 _]. apply settled_sender; [done|right]. destruct Hs as [_ _ _ _ B _]. apply (steady_start c c); try done; apply B.
Qed.

(** Sending and loss detection keep it. *)
Lemma settled_tended c c' : settled c → tended c c' → sender_ok c' → guarded c' → settled c'.
Proof.
  intros [_ Ha [sent F] M _ _] [V T] (Hs & out & Q & pid & p & C) G. destruct (T _ _ Ha) as (Ha' & _ & _ & HM).
  split; [|done| |by apply HM| |done]; [|destruct (V _ sent F) as (_ & more & F'); by eexists|].
  - exists out. split; [done|]. split; [by exists pid, p|done].
  - destruct Hs. by split.
Qed.

(** ** The timer *)

Lemma idle_in_flight c : settled c → s_remote_acked (c_s c) = s_seq (c_s c) →
  s_inflight_queue (c_s c) = [] ∧ s_retransmit_queue (c_s c) = [].
Proof. intros (out & Q & _)%settled_out. by apply (empty_window c out). Qed.

Lemma timer_start_settled c t ms :
  settled c → s_inflight_queue (c_s c) = [] ∨ t = UDX_TIMER_RTO ∨ t = UDX_TIMER_RACK_REO ∨ t = UDX_TIMER_TLP →
  settled (stream_timer_start c t ms).
Proof.
  intros Hs Ht. apply (settled_change c); [| | |done|by left|done].
  - unfold stream_timer_start. by destruct (decide _).
  - pose proof (ak_able _ _ _ _ Hs) as []. unfold stream_timer_start. destruct (decide _); by split.
  - assert (s_inflight_queue (c_s (stream_timer_start c t ms)) = s_inflight_queue (c_s c)) as E by (unfold stream_timer_start; by destruct (decide _)).
    intros Hi. rewrite E in Hi. unfold watched. rewrite (proj2 (timer_start_facts c t ms)). intuition congruence.
Qed.
Lemma timer_stop_settled c : settled c → s_inflight_queue (c_s c) = [] → settled (stream_timer_stop c).
Proof.
  intros Hs Hi. apply (settled_change c); [done| | |done|by left|done].
  - pose proof (ak_able _ _ _ _ Hs) as []. by split.
  - by intros Hn.
Qed.
Lemma idle_timer_settled c : settled c → s_inflight_queue (c_s c) = [] → settled (idle_timer c).
Proof. intros Hs Hi. unfold idle_timer. destruct (truthy _); [apply timer_start_settled; auto|by apply timer_stop_settled]. Qed.

(** ** Payload and window *)

Section Polite.
Variable ucb : callback → sys → option sys.
Hypothesis Hcb : polite False (Lifecycle.cb ucb).

(** A callback that is not the answer to a write. *)
Lemma call_settled k c :
  (∀ wr log, acks_of wr (EvCallback k :: log) = acks_of wr log) → settled c →
  ∃ c', call (Lifecycle.cb ucb) k c = Some c' ∧ settled c' ∧ onward c c'.
Proof.
  intros Hk Hs. destruct (call_ok False _ k c None [] None None Hcb Hs) as (c' & E & Hr); [intros wr w _ _ _; by rewrite Hk|].
  exists c'. split; [done|]. destruct Hr as [[[] _]|(H1 & H2 & _)]. by split.
Qed.

(** The result of a section of process_packet that does not end the run. *)
Definition runs_on (c : ctx) (r : option (flow ctx)) : Prop := ∃ c', r = Some (Go c') ∧ settled c' ∧ onward c c'.

Lemma runs_on_go c c' : settled c' → onward c c' → runs_on c (Some (Go c')).
Proof. intros H1 H2. by exists c'. Qed.

Lemma unless_dead_on c c' : settled c' → onward c c' → runs_on c (unless_dead c').
Proof. intros Hs Ho. unfold unless_dead, is_dead. rewrite (settled_alive c' Hs). by apply runs_on_go. Qed.

Lemma runs_on_bind c c0 r (f : ctx → option (flow ctx)) :
  runs_on c r → onward c0 c → (∀ c', settled c' → onward c0 c' → runs_on c' (f c')) → runs_on c0 (flow_bind r f).
Proof.
  intros (c1 & -> & Hs & Ho) Ho0 Hf. assert (onward c0 c1) as Ho1 by by transitivity c. cbn [flow_bind mbind option_bind].
  destruct (Hf c1 Hs Ho1) as (c2 & -> & Hs2 & Ho2). apply runs_on_go; [done|by transitivity c1].
Qed.

(** Data is read or stored. *)
Lemma process_data_on c type seq data :
  settled c → ∃ c', process_data_packet (Lifecycle.cb ucb) c type seq data = Some c' ∧ settled c' ∧ onward c c'.
Proof.
  intros Hs. unfold process_data_packet, read. destruct (_ && _).
  - set (c1 := c <| c_s ::= _ |>). assert (settled c1) as Hs1 by by apply (settled_view c).
    assert (onward c c1) as Ho1 by by apply onward_view.
    destruct (on_read _); [|by exists c1]. destruct (call_settled (CbRead (Z.of_nat (length data)) data) c1) as (c' & E & H1 & H2); [done..|].
    exists c'. split; [exact E|]. split; [done|]. by transitivity c1.
  - eexists. split; [reflexivity|]. split; [by apply (settled_view c)|by apply onward_view].
Qed.

Definition keeps_open (h : udx_header) : Prop := has (h_type h) UDX_HEADER_END = false ∧ has (h_type h) UDX_HEADER_DESTROY = false.

Lemma process_payload_on c h data : settled c → keeps_open h → runs_on c (process_payload ucb c h data).
Proof.
  intros Hs [He Hd]. unfold process_payload. rewrite He, Hd. destruct (_ <=? 0); [|by apply runs_on_go].
  assert (∀ c', settled c' → onward c c' → runs_on c' (Some (Go c'))) as Hgo by (intros; by apply runs_on_go).
  destruct (_ && _); [|by apply (runs_on_bind c c); [apply runs_on_go| |]].
  destruct (process_data_on c (h_type h) (h_seq h) data Hs) as (c1 & -> & Hs1 & Ho1). cbn [mbind option_bind].
  apply (runs_on_bind c c); [by apply unless_dead_on|done|done].
Qed.

Lemma process_message_on c h data : settled c → runs_on c (process_message ucb c h data).
Proof.
  intros Hs. unfold process_message. destruct (_ && _); [|by apply runs_on_go].
  destruct (call_settled (CbRecv data) c) as (c' & -> & H1 & H2); [done..|]. by apply unless_dead_on.
Qed.

(** The blocks that have become readable. *)
Lemma drain_bufs_on q c :
  settled c → ∃ c', drain_bufs (Lifecycle.cb ucb) c q = Some (c', false) ∧ settled c' ∧ onward c c'.
Proof.
  revert c. induction q as [|b q IH]; intros c Hs; cbn [drain_bufs]; [by exists c|].
  set (c1 := c <| c_s ::= _ |>). assert (settled c1) as Hs1 by by apply (settled_view c).
  assert (onward c c1) as Ho1 by by apply onward_view. destruct (_ && _).
  - destruct (call_settled (CbRead (Z.of_nat (length (ub_data b))) (ub_data b)) c1) as (c2 & -> & Hs2 & Ho2); [done..|].
    cbn [mbind option_bind]. rewrite (settled_alive c2 Hs2). destruct (IH c2 Hs2) as (c3 & -> & Hs3 & Ho3).
    exists c3. do 2 (split; [done|]). transitivity c1; [done|]. by transitivity c2.
  - destruct (IH c1 Hs1) as (c3 & -> & Hs3 & Ho3). exists c3. do 2 (split; [done|]). by transitivity c1.
Qed.

Lemma process_read_queue_on c : settled c → runs_on c (process_read_queue ucb c).
Proof.
  intros Hs. unfold process_read_queue, drain. destruct (udx_sack_tree_min _) as [block|]; [|by apply runs_on_go].
  destruct (_ && _); [|by apply runs_on_go]. set (c1 := c <| c_s ::= _ |>).
  destruct (drain_bufs_on (sb_queue block) c1) as (c2 & -> & Hs2 & Ho2); [by apply (settled_view c)|].
  apply runs_on_go; [done|]. transitivity c1; [by apply onward_view|done].
Qed.

Lemma process_remote_change_on c h : settled c → runs_on c (process_remote_change ucb c h).
Proof.
  intros Hs. unfold process_remote_change. destruct (_ && _); [|by apply runs_on_go]. set (c1 := c <| c_s ::= _ |>).
  assert (settled c1) as Hs1 by by apply (settled_view c). assert (onward c c1) as Ho1 by by apply onward_view.
  destruct (on_remote_changed _); [|by apply runs_on_go].
  destruct (call_settled CbRemoteChanged c1) as (c' & -> & H1 & H2); [done..|]. apply unless_dead_on; [done|by transitivity c1].
Qed.

(** The window's new size. *)
Lemma window_settled c w : settled c → is_u32 (send_rwnd w) → settled (c <| c_s ::= λ s, s <| s_wnd := w |> |>).
Proof.
  intros Hs Hw. apply (settled_change c); [done| | |done|by left|done].
  - pose proof (ak_able _ _ _ _ Hs) as []. by split.
  - by destruct Hs.
Qed.

Lemma process_window_on c h :
  settled c → is_u32 (h_rwnd h) → 0 <= seq_compare (s_seq (c_s c)) (h_ack h) → runs_on c (process_window c h).
Proof.
  intros Hs Hw Hc. unfold process_window. rewrite (proj2 (Z.ltb_ge _ _) Hc). set (c1 := if (0 <? h_rwnd h) && _ then _ else c).
  assert (settled c1 ∧ onward c c1) as [Hs1 Ho1].
  { unfold c1. destruct (0 <? h_rwnd h); cbn [andb]; [|done]. case_bool_decide as Et; [|done].
    split; [|by apply onward_view]. apply timer_stop_settled; [done|]. destruct (s_inflight_queue (c_s c)) eqn:Ei; [done|].
    destruct (ak_guarded _ _ _ _ Hs) as [?|[?|?]]; [by rewrite Ei|congruence..]. }
  match goal with |- context [if ?b then _ else c] => destruct b end; [|by apply runs_on_go]. apply runs_on_go.
  - exact (window_settled c1 (s_wnd (c_s c1) <| send_rwnd := h_rwnd h |> <| send_wl1 := h_seq h |> <| send_wl2 := h_ack h |>) Hs1 Hw).
  - transitivity c1; [done|by apply onward_view].
Qed.

(** ** Acknowledgements *)

(** An ACK that is not beyond what was sent is in the window, or old. *)
Definition ack_in_order (s : stream) (ack : Z) : Prop :=
  (seq_compare (s_remote_acked s) ack < 0 ∧ 0 < seq_diff ack (s_remote_acked s) ∧ u32 (ack - s_remote_acked s) <= window s) ∨
  (0 <= seq_compare (s_remote_acked s) ack ∧ seq_diff ack (s_remote_acked s) <= 0).

Lemma ack_edges s ack :
  is_u32 (s_remote_acked s) → is_u32 ack → window s < 2 ^ 31 → 0 <= seq_compare (s_seq s) ack → ack_in_order s ack.
Proof.
  unfold ack_in_order, window. generalize (s_remote_acked s) (s_seq s). intros ra seq. rewrite seq_compare_ge_iff. unfold seq_diff. intros.
  rewrite seq_compare_lt_iff, seq_compare_ge_iff. unfold seq_diff. word_lia.
Qed.
Lemma ack_in_order_later c c' ack : onward c c' → ack_in_order (c_s c) ack → ack_in_order (c_s c') ack.
Proof. intros [E Hw _]. unfold ack_in_order. rewrite E. intros [(? & ? & ?)|?]; [left|by right]. split; [done|]. split; [done|lia]. Qed.

(** The state with the new left edge, where there is one. *)
Definition advanced (adv : bool) (ack : Z) (c : ctx) : ctx :=
  if adv then c <| c_s ::= λ s, s <| s_remote_acked := ack |> <| s_rto_count := 0 |> |> else c.

(** The stream goes on: not both sides have ended, and the peer's end is not to be announced to the reader. *)
Definition goes_on (c : ctx) : Prop :=
  Z.land (s_status (c_s c)) UDX_STREAM_ALL_ENDED ≠ UDX_STREAM_ALL_ENDED ∧
  Z.land (s_status (c_s c)) UDX_STREAM_SHOULD_END_REMOTE ≠ UDX_STREAM_END_REMOTE.

(** The ACK that leaves at the end of a run. *)
Lemma send_ack_on c :
  settled c → goes_on c → ∃ c', send_ack_close ucb c = Some c' ∧ settled c' ∧ (sender_ok c → sender_ok c').
Proof.
  intros Hs [He Hr]. unfold send_ack_close, send_ack. destruct (ab_socket _ (ak_able _ _ _ _ Hs)) as [k ->].
  cbv zeta. set (bytes := ack_packet_bytes _ _ _ _ _ _). set (i := send_small _ _ _). set (c1 := count_sent _ _).
  assert (∀ wr, acks_of wr (io_log i) = acks_of wr (io_log (c_io c))) as Hl.
  { intros wr. unfold i, send_small, uv_udp_try_send, uv_udp_send. cbn. by destruct (_ =? _). }
  assert (io_now i = io_now (c_io c)) as Hn.
  { unfold i, send_small, uv_udp_try_send, uv_udp_send. cbn. by destruct (_ =? _). }
  change (s_status (c_s c1)) with (s_status (c_s c)). rewrite (proj2 (Z.eqb_neq _ _) Hr). cbn [andb mbind option_bind].
  change (s_status (c_s c1)) with (s_status (c_s c)). rewrite (proj2 (Z.eqb_neq _ _) He). cbn [mbind option_bind].
  exists c1. split; [done|]. split; [apply (settled_change c); [done| | |exact Hl| |done]|].
  { apply (able_same c); [done|apply Hs]. } { apply (guarded_view c); [done|apply Hs]. }
  { intros b [Hb| ->]%send_small_datagrams; [by left|right; apply ack_silent]. }
  apply same_core_ok. split; [done|]. unfold now. change (io_now (c_io c1)) with (io_now i). by rewrite Hn.
Qed.

(** ** The end of the stream *)

(** What process_packet comes to when the peer has acknowledged the local end: the stream goes on with the timer of an
    idle stream; or the peer has ended too, and the run is that of the final ACK or of the close. *)
Definition ends_well (r : option ctx) : Prop :=
  (∃ c', r = Some c' ∧ settled c') ∨
  (∃ c1, settled c1 ∧ end_reached c1 ∧ ¬ goes_on c1 ∧ (r = send_ack_close ucb c1 ∨ r = close_stream ucb (relay_fuel c1) c1 0)).

Lemma sent_nothing_idle c : settled c → (∀ q, sent_at c q = None) → s_inflight_queue (c_s c) = [].
Proof.
  intros (out & Q & _)%settled_out Hn. destruct (s_inflight_queue (c_s c)) as [|x l] eqn:E; [done|].
  assert (x ∈ s_inflight_queue (c_s c)) as (p & _ & Ho & _)%(qo_inflight _ _ Q) by (rewrite E; left).
  specialize (Hn (p_seq p)). unfold sent_at in Hn. rewrite (qo_out _ _ Q) in Hn. cbn in Hn. congruence.
Qed.

Lemma process_ended_on c : settled c → end_reached c → ends_well (process_ended ucb c).
Proof.
  intros Hs [He Hn]. pose proof (sent_nothing_idle c Hs Hn) as Hi. unfold process_ended, is_dead. rewrite (settled_alive c Hs). cbv zeta.
  set (c1 := if _ =? _ then _ else c).
  assert (settled c1 ∧ end_reached c1) as [Hs1 He1].
  { unfold c1. destruct (_ =? _); [|done]. split; [by apply idle_timer_settled|]. unfold idle_timer. by destruct (truthy _). }
  clearbody c1. clear c Hs He Hn Hi. destruct (Z.eqb_spec (Z.land (s_status (c_s c1)) UDX_STREAM_ALL_ENDED) UDX_STREAM_ALL_ENDED) as [E|E].
  - right. exists c1. split; [done|]. split; [done|]. split; [by intros [? _]|by right].
  - destruct (decide (Z.land (s_status (c_s c1)) UDX_STREAM_SHOULD_END_REMOTE = UDX_STREAM_END_REMOTE)) as [E'|E'].
    + right. exists c1. split; [done|]. split; [done|]. split; [by intros [_ ?]|by left].
    + left. destruct (send_ack_on c1 Hs1 (conj E E')) as (c' & ? & ? & _). by exists c'.
Qed.


Lemma process_acks_on c h adv sacks :
  settled c → is_u32 (s_remote_acked (c_s c)) → is_u32 (h_ack h) → adv = (0 <? seq_diff (h_ack h) (s_remote_acked (c_s c))) →
  ack_in_order (c_s c) (h_ack h) →
  (∃ r, process_acks ucb c h (s_remote_acked (c_s c)) adv sacks = (c2 ← r; Some (Done c2)) ∧ ends_well r) ∨
  (∃ c' rs, process_acks ucb c h (s_remote_acked (c_s c)) adv sacks = Some (Go (c', rs)) ∧ settled c' ∧ is_u32 (s_remote_acked (c_s c'))).
Proof.
  intros Hs Hra Hack -> Hin. unfold process_acks. fold (advanced (0 <? seq_diff (h_ack h) (s_remote_acked (c_s c))) (h_ack h)).
  assert (∀ c1 rs, settled c1 → is_u32 (s_remote_acked (c_s c1)) → ∃ c' rs',
    ('(c, rs) ← ack_sacks (Lifecycle.cb ucb) c1 sacks rs; Some (if is_dead c then Done c else Go (c, rs))) = Some (Go (c', rs')) ∧
    settled c' ∧ is_u32 (s_remote_acked (c_s c'))) as Hsacks.
  { intros c1 rs Hs1 Hr1. destruct (ack_sacks_run False _ Hcb sacks c1 rs) as (c' & rs' & -> & Hs' & Ho'); [by intros []|done|].
    cbn [mbind option_bind]. unfold is_dead. rewrite (settled_alive c' Hs'). exists c', rs'. split; [done|]. split; [done|]. by rewrite (ow_acked _ _ Ho'). }
  destruct Hin as [(E1 & E2 & E3)|(E1 & E2)].
  - rewrite (proj2 (Z.ltb_lt _ _) E1), (proj2 (Z.ltb_lt _ _) E2).
    destruct (ack_cumulative_settles False _ Hcb c (h_ack h) rs_init Hs Hra Hack E3) as (c1 & rs1 & ended & -> & Hr). cbn [mbind option_bind].
    destruct ended.
    + left. destruct Hr as [(_ & [] & _)|[Hs1 He1]]. eexists. split; [reflexivity|]. by apply process_ended_on.
    + right. destruct Hr as [(? & _)|[Hs1 _]]; [done|]. by apply Hsacks.
  - rewrite (proj2 (Z.ltb_ge _ _) E1), (proj2 (Z.ltb_ge _ _) E2). right. by apply Hsacks.
Qed.

Lemma process_recovery_fields s h : ∃ t a, process_recovery s h = s <| s_tlp := t |> <| s_ca_state := a |>.
Proof.
  unfold process_recovery. cbv zeta. exists (detect_loss_repaired_by_loss_probe (s_tlp s) (h_ack h)).
  match goal with |- context [if ?b then _ else _] => destruct b end; [by exists UDX_CA_OPEN|].
  exists (s_ca_state s). by destruct s.
Qed.

(** The run up to loss detection. *)
Lemma process_received_on c h data sacks :
  settled c → keeps_open h → is_u32 (s_remote_acked (c_s c)) → is_u32 (h_ack h) → is_u32 (h_rwnd h) →
  let r := process_received ucb c h data (s_remote_acked (c_s c)) (0 <? seq_diff (h_ack h) (s_remote_acked (c_s c))) sacks in
  (∃ e, r = (c2 ← e; Some (Done c2)) ∧ ends_well e) ∨
  (∃ c', r = Some (Done c') ∧ settled c') ∨
  (∃ c' rs, r = Some (Go (c', rs)) ∧ settled c' ∧ is_u32 (s_remote_acked (c_s c'))).
Proof.
  intros Hs Hk Hra Hack Hrw r. subst r. unfold process_received.
  destruct (process_payload_on c h data Hs Hk) as (c1 & -> & Hs1 & Ho1). cbn [flow_bind mbind option_bind].
  destruct (process_message_on c1 h data Hs1) as (c2 & -> & Hs2 & Ho2). cbn [flow_bind mbind option_bind].
  destruct (process_read_queue_on c2 Hs2) as (c3 & -> & Hs3 & Ho3). cbn [flow_bind mbind option_bind].
  destruct (Z.lt_ge_cases (seq_compare (s_seq (c_s c3)) (h_ack h)) 0) as [Hc|Hc].
  { right. left. unfold process_window. rewrite (proj2 (Z.ltb_lt _ _) Hc). by exists c3. }
  destruct (process_window_on c3 h Hs3 Hrw Hc) as (c4 & E4 & Hs4 & Ho4). rewrite E4. cbn [flow_bind mbind option_bind].
  destruct (process_remote_change_on c4 h Hs4) as (c5 & -> & Hs5 & Ho5). cbn [flow_bind mbind option_bind].
  set (c6 := c5 <| c_s ::= _ |>).
  assert (settled c6 ∧ onward c5 c6) as [Hs6 Ho6].
  { destruct (process_recovery_fields (c_s c5) h) as (t & a & E).
    assert (c6 = c5 <| c_s ::= λ s, s <| s_tlp := t |> <| s_ca_state := a |> |>) as -> by (unfold c6, upd_field; cbn; by rewrite E).
    split; [by apply (settled_view c5)|by apply onward_view]. }
  assert (onward c c6) as Ho by (transitivity c1; [done|]; transitivity c2; [done|]; transitivity c3; [done|]; transitivity c4; [done|]; by transitivity c5).
  assert (onward c3 c6) as Ho36 by (transitivity c4; [done|]; by transitivity c5).
  pose proof (ow_acked _ _ Ho) as Ea. rewrite <- Ea in Hra |- *.
  destruct (process_acks_on c6 h _ sacks Hs6 Hra Hack eq_refl) as [?|?]; [|by left|by right; right].
  apply (ack_in_order_later c3); [done|]. apply ack_edges; [by rewrite <- (ow_acked _ _ Ho36)|done|by apply settled_window|done].
Qed.

(** ** Loss detection and the timers *)

Lemma process_delivered_on c arm :
  settled c → can_recover c → ∃ c' b, process_delivered c arm = Some (c', b) ∧ settled c' ∧ sender_ok c'.
Proof.
  intros Hs Hcr. unfold process_delivered. cbv zeta. set (m := if _ =? _ then _ else _).
  assert (∃ c1 b, m = Some (c1, b) ∧ settled c1 ∧ can_recover c1) as (c1 & b & -> & Hs1 & Hcr1).
  { unfold m. destruct (Z.eqb_spec (s_remote_acked (c_s c)) (s_seq (c_s c))) as [E|E].
    - destruct (idle_in_flight c Hs E) as [Hi Hr]. rewrite Hi, Hr. cbn [qlen length Z.of_nat]. change (u32 0 =? 0) with true. cbv iota.
      do 2 eexists. split; [reflexivity|].
      match goal with |- context [if ?b then stream_timer_start _ _ _ else _] => destruct b end.
      + split; [apply timer_start_settled; auto|by apply (recover_view c)].
      + split; [by apply idle_timer_settled|]. apply (recover_view c); [done|..]; unfold idle_timer; by destruct (truthy _).
    - do 2 eexists. split; [reflexivity|]. split; [by apply (settled_view c)|by apply (recover_view c)]. }
  cbn [mbind option_bind]. unfold rack_detect_loss_and_arm_timer.
  destruct (rack_detect_loss_run c1 (settled_recover c1 Hs1 Hcr1) Hcr1) as (c2 & t & -> & Hok2 & T2 & Hg2). cbn [mbind option_bind].
  assert (settled c2) as Hs2 by (apply (settled_tended c1); [done..|]; apply Hg2; apply Hs1).
  destruct (0 <? t); [|by do 2 eexists].
  rewrite (closed_alive _ (settled_alive c2 Hs2)). cbn [negb mbind option_bind]. do 2 eexists. split; [reflexivity|].
  split; [apply timer_start_settled; auto|by apply timer_start_ok].
Qed.

Lemma process_arm_on c dlv arm :
  settled c → can_recover c → ∃ c', process_arm c dlv arm = Some c' ∧ settled c' ∧ sender_ok c'.
Proof.
  intros Hs Hcr. unfold process_arm.
  assert (∃ c1 b, (if 0 <? dlv then process_delivered c arm else Some (c, arm)) = Some (c1, b) ∧ settled c1 ∧ sender_ok c1) as (c1 & b & -> & Hs1 & Hok1).
  { destruct (0 <? dlv); [by apply process_delivered_on|]. exists c, arm. split; [done|]. split; [done|by apply settled_recover]. }
  cbn [mbind option_bind]. destruct b; [|by exists c1]. unfold schedule_loss_probe. cbv zeta.
  destruct (_ || _ || _).
  - destruct (rearm_rto_ok c1 true Hok1 (or_introl eq_refl)) as (c2 & -> & Hok2 & Hg2 & T2). exists c2. split; [done|]. split; [|done].
    by apply (settled_tended c1).
  - eexists. split; [reflexivity|]. split; [apply timer_start_settled; auto|by apply timer_start_ok].
Qed.

(** ** The ACK for data, and congestion control *)

(** What the rate sample and BBR have to give: the run of bbr_main ends, and leaves a rate and a start for the next
    transmission. *)
Definition controller_copes (c : ctx) (rs : udx_rate_sample_t) (dlv lost0 : Z) : Prop :=
  let '(r, rs) := udx__rate_gen (now c) (s_rtt (c_s c)) (s_rate (c_s c)) dlv (u32 (lost (s_rate (c_s c)) - lost0)) rs in
  let s := c_s c <| s_rate := r |> in
  ∃ s', bbr_main (now c) s rs = Some s' ∧ bbr_inputs s rs ∧ bbr_ok (s_bbr s) ∧ 0 < s_pacing_bytes_per_ms s' ∧
    start_ok (c <| c_s := s' |>).

(** A test for it, for a controller that is in STARTUP before and after. *)
Definition in_startup (s : stream) : bool :=
  (b_state (s_bbr s) =? UDX_BBR_STATE_STARTUP) && (0 <=? b_prior_cwnd (s_bbr s)) && (b_prior_cwnd (s_bbr s) <? 2 ^ 32) &&
  (0 <? s_cwnd s) && (s_cwnd s <? 2 ^ 32).
Definition copes_in_startup (c : ctx) (rs : udx_rate_sample_t) (dlv lost0 : Z) : bool :=
  let '(r, rs) := udx__rate_gen (now c) (s_rtt (c_s c)) (s_rate (c_s c)) dlv (u32 (lost (s_rate (c_s c)) - lost0)) rs in
  let s := c_s c in
  let b := s_bbr s in
  match bbr_main (now c) (s <| s_rate := r |>) rs with
  | Some s' =>
      in_startup s && in_startup s' && (0 <? s_pacing_bytes_per_ms s') && (0 <=? b_cycle_index b) &&
      (b_cycle_index b <? UDX_BBR_CYCLE_LEN) && (length (b_extra_acked b) =? 2)%nat && (b_extra_acked_win_index b =? 0) &&
      (0 <=? rs_losses rs) && (rs_losses rs <? 2 ^ 31) && (0 <=? rs_acked_sacked rs) &&
      (Z.max (Z.max (s_cwnd s) (b_prior_cwnd b)) (Z.of_nat (length (s_inflight_queue s))) + rs_acked_sacked rs <? 2 ^ 31)
  | None => false
  end.

Lemma copes_in_startup_ok c rs dlv lost0 : copes_in_startup c rs dlv lost0 = true → controller_copes c rs dlv lost0.
Proof.
  unfold copes_in_startup, controller_copes. destruct (udx__rate_gen _ _ _ _ _ _) as [r rs']. cbv zeta.
  destruct (bbr_main _ _ _) as [s'|]; [|done]. unfold in_startup. rewrite !andb_true_iff, !Z.ltb_lt, !Z.leb_le, !Z.eqb_eq, Nat.eqb_eq.
  intros H1. destruct_and?. exists s'. split; [done|]. split; [by split; cbn; lia|]. split; [|split; [done|]].
  - split; cbn [s_bbr upd_field]; try (unfold is_u32; lia || by left); [unfold UDX_BBR_STATE_STARTUP in *; lia|].
    intros [E|E]; unfold UDX_BBR_STATE_DRAIN, UDX_BBR_STATE_PROBE_BW, UDX_BBR_STATE_STARTUP in *; lia.
  - apply start_ok_simple; cbn [c_s upd_field]; try lia. unfold UDX_BBR_STATE_PROBE_BW, UDX_BBR_STATE_STARTUP in *. lia.
Qed.

Lemma process_congestion_on c rs dlv lost0 data_inflight :
  settled c → sender_ok c → (data_inflight = true → controller_copes c rs dlv lost0) →
  ∃ c', process_congestion c rs dlv lost0 data_inflight = Some c' ∧ settled c' ∧ sender_ok c'.
Proof.
  intros Hs Hok Hcc. unfold process_congestion. cbv zeta. destruct data_inflight; [|by exists c].
  specialize (Hcc eq_refl). unfold controller_copes in Hcc. destruct (udx__rate_gen _ _ _ _ _ _) as [r rs'].
  cbv zeta in Hcc. destruct Hcc as (s' & E & Hi & Hb & Hp & Hst). rewrite E. cbn [mbind option_bind].
  destruct (bbr_main_split _ _ _ _ E Hi Hb) as (T & _ & _ & _ & [X1 X2 _ _]). pose proof (bi_sum _ _ Hi).
  set (c' := c <| c_s := s' |>). assert (settled c') as Hs'.
  { apply (settled_change c); [| | |done|by left|done].
    - unfold ack_view, c'. cbn [c_s c_packets c_wbufs c_writes c_next upd_field]. rewrite T. reflexivity.
    - pose proof (ak_able _ _ _ _ Hs) as [A1 A2 A3 A4 A5 A6 A7 A8].
      split; unfold c'; cbn [c_s upd_field]; try (rewrite T; exact A3 || exact A4 || exact A5 || exact A6 || exact A7 || exact A8).
      + unfold bbr_cwnd_min_target in *. cbn [s_cwnd s_inflight_queue upd_field] in *. lia.
      + exact Hp.
    - apply (guarded_view c); [|apply Hs]. unfold c'. cbn [c_s upd_field]. rewrite T. reflexivity. }
  exists c'. split; [done|]. split; [done|]. apply settled_sender; [done|by right].
Qed.

Lemma send_packets_on c : settled c → sender_ok c → ∃ c', send_packets c = Some c' ∧ settled c' ∧ sender_ok c'.
Proof.
  intros Hs Hok. destruct (send_packets_run c Hok) as (c' & E & Hok' & Hg). exists c'. split; [done|]. split; [|done].
  apply (settled_tended c); [done|by apply send_packets_tended|done|]. apply Hg, Hs.
Qed.

(** ** The datagram *)

(** What the second half of process_packet asks of the state the first half leaves: the congestion controller copes, and
    neither side has ended when data is acknowledged. *)
Definition finishes (c : ctx) (h : udx_header) (rs : udx_rate_sample_t) (dlv lost0 : Z) (arm data_inflight : bool) : Prop :=
  can_recover c ∧
  ∀ c2, process_arm c dlv arm = Some c2 → (has (h_type h) UDX_HEADER_DATA_OR_END = true → goes_on c2) ∧
    ∀ c3, (if has (h_type h) UDX_HEADER_DATA_OR_END then send_ack_close ucb c2 else Some c2) = Some c3 →
      data_inflight = true → controller_copes c3 rs dlv lost0.

(** The test for it, where no data has to be acknowledged. *)
Definition finishes_in_startup (c : ctx) (rs : udx_rate_sample_t) (dlv lost0 : Z) (arm : bool) : bool :=
  in_startup (c_s c) && (0 <=? s_remote_acked (c_s c)) && (s_remote_acked (c_s c) <? 2 ^ 32) &&
  match process_arm c dlv arm with Some c2 => copes_in_startup c2 rs dlv lost0 | None => true end.

Lemma finishes_in_startup_ok c h rs dlv lost0 arm data_inflight :
  has (h_type h) UDX_HEADER_DATA_OR_END = false → finishes_in_startup c rs dlv lost0 arm = true →
  finishes c h rs dlv lost0 arm data_inflight.
Proof.
  unfold finishes_in_startup, in_startup, finishes. intros -> Ht. rewrite !andb_true_iff, !Z.ltb_lt, !Z.leb_le, !Z.eqb_eq in Ht.
  destruct_and?. split.
  - split; [|lia|unfold is_u32; lia]. apply steady_simple. unfold UDX_BBR_STATE_STARTUP, UDX_BBR_STATE_PROBE_BW in *. lia.
  - intros c2 E2. split; [done|]. intros c3 [= <-] _. apply copes_in_startup_ok. by rewrite E2 in *.
Qed.

Lemma process_finish_on c h rs delivered0 lost0 adv data_inflight :
  settled c → finishes c h rs (u32 (delivered (s_rate (c_s c)) - delivered0)) lost0 (adv && data_inflight) data_inflight →
  ∃ c', process_finish ucb c h rs delivered0 lost0 adv data_inflight = Some c' ∧ settled c' ∧ sender_ok c'.
Proof.
  intros Hs [Hcr Hf]. unfold process_finish. cbv zeta.
  destruct (process_arm_on c (u32 (delivered (s_rate (c_s c)) - delivered0)) (adv && data_inflight) Hs Hcr) as (c2 & E2 & Hs2 & Hok2).
  destruct (Hf c2 E2) as [Ho Hc]. rewrite E2. cbn [mbind option_bind].
  assert (∃ c3, (if has (h_type h) UDX_HEADER_DATA_OR_END then send_ack_close ucb c2 else Some c2) = Some c3 ∧ settled c3 ∧ sender_ok c3)
    as (c3 & E3 & Hs3 & Hok3).
  { destruct (has (h_type h) UDX_HEADER_DATA_OR_END); [|by exists c2].
    destruct (send_ack_on c2 Hs2 (Ho eq_refl)) as (c3 & E3 & Hs3 & H3). exists c3. auto. }
  rewrite E3. cbn [mbind option_bind]. unfold is_dead. rewrite (settled_alive c3 Hs3), andb_false_r.
  destruct (process_congestion_on c3 rs _ lost0 data_inflight Hs3 Hok3 (Hc c3 E3)) as (c4 & -> & Hs4 & Hok4). cbn [mbind option_bind].
  by apply send_packets_on.
Qed.

Lemma process_datagram_ends c h buf :
  settled c → is_u32 (s_remote_acked (c_s c)) → is_u32 (h_ack h) → is_u32 (h_rwnd h) → keeps_open h →
  (has (h_type h) UDX_HEADER_HEARTBEAT = true → goes_on c) →
  (∀ data c1 rs, skip_data_offset (h_data_offset h) buf = Some data →
     process_received ucb c h data (s_remote_acked (c_s c)) (0 <? seq_diff (h_ack h) (s_remote_acked (c_s c)))
       (read_sacks env_host buf 20 (Z.to_nat (nsack_blocks h (Z.of_nat (length buf))))) = Some (Go (c1, rs)) →
     finishes c1 h rs (u32 (delivered (s_rate (c_s c1)) - delivered (s_rate (c_s c)))) (lost (s_rate (c_s c)))
       ((0 <? seq_diff (h_ack h) (s_remote_acked (c_s c))) && negb (s_remote_acked (c_s c) =? s_seq (c_s c)))
       (negb (s_remote_acked (c_s c) =? s_seq (c_s c)))) →
  ends_well (process_stream_packet ucb c h buf).
Proof.
  intros Hs Hra Hack Hrw Hk Hhb Hf. unfold process_stream_packet. cbv zeta.
  destruct (has (h_type h) UDX_HEADER_HEARTBEAT).
  { left. destruct (send_ack_on c Hs (Hhb eq_refl)) as (c' & E & Hs' & _). by exists c'. }
  destruct (skip_data_offset _ _) as [data|]; [|left; by exists c]. specialize (Hf data).
  set (sacks := read_sacks _ _ _ _) in *.
  destruct (process_received_on c h data sacks Hs Hk Hra Hack Hrw) as [(r & E & He)|[(c' & -> & Hs')|(c1 & rs & E & Hs1 & _)]].
  - rewrite E. by destruct r.
  - left. by exists c'.
  - left. rewrite E. cbn [mbind option_bind].
    destruct (process_finish_on c1 h rs _ _ _ _ Hs1 (Hf c1 rs eq_refl E)) as (c' & E' & Hs' & _). by exists c'.
Qed.
End Polite.
End AckPath.

(** ** An ACK for the stream of Ledger.v's example

    It acknowledges the packet in flight; the lost one is sent again. *)
#[local] Existing Instances example_env example_numbering.

Definition silent_user (k : callback) (y : sys) : option sys := Some y.

(** Code that does nothing gives the stream back as it was. *)
Lemma silent_user_polite `{Numbering} kill : polite kill (Lifecycle.cb silent_user).
Proof.
  intros k c held pend due Ha. unfold Lifecycle.cb, outside, enter, leave, silent_user. cbn [mbind option_bind y_world w_others upd_field c_world].
  cbn. rewrite lookup_insert_eq. cbn [mbind option_bind]. eexists. split; [reflexivity|]. right. split; [|split].
  - by apply (acking_view c _ held pend due due).
  - by apply onward_view.
  - split; [done|]. intros wid b Hb. by exists b.
Qed.

Definition example_ack : udx_header := mk_header 0 0 7 65536 5 0.
Definition example_datagram : list Z := repeat 0 20.

(** The test on the run of a datagram without data. *)
Definition example_test (r : option (flow (ctx * udx_rate_sample_t))) : bool :=
  match r with
  | Some (Go (c, rs)) => finishes_in_startup c rs (u32 (delivered (s_rate (c_s c)) - 0)) 0 true
  | _ => true
  end.

