(* ===== verification/Session.v ===== *)
(** * The sender over its whole life (src/udx.c: the entry points of libuv and of the user)

    A connected stream is driven by writes, by its two timers, by the prepare handle that flushes a partial packet, by datagrams, by the completions of its sends and by the
    clock.  [handle] runs one of these; [reaches] is the relation of the states of a stream that is not yet
    closing.  No event makes an assertion fail in any of them, and all of them are [settled]. *)

From S2P Require Import Prelude SeqNum Endian Wire Cirbuf WinFilter Stream Rtt Mtu Rate Float64 Bbr Ctx Send Packetize Sender Loss Write Ack Convey Ledger Tended Acked Recv Timers Socket Lifecycle StreamTimer Writes Process AckPath.

Section Session.
Context `{Env} `{Numbering}.
Variable ucb : callback → sys → option sys.
Hypothesis Hcb : polite False (Lifecycle.cb ucb).

(** ** Events *)

Inductive event :=
  | OnWrite (wr : write_id) (sid : stream_id) (bufs : list (list Z)) (on_ack : bool)
  | OnWriteEnd (wr : write_id) (sid : stream_id) (bufs : list (list Z)) (on_ack : bool)
  | OnTimer
  | OnPacing
  | OnPrepare
  | OnDatagram (h : udx_header) (buf : list Z)
  | OnSent (pid : packet_id)
  | OnClock (time : Z).

(** The function that libuv or the user calls. *)
Definition handle (e : event) (c : ctx) : option ctx :=
  match e with
  | OnWrite wr sid bufs on_ack => '(c, _) ← udx_stream_write c wr sid bufs on_ack; Some c
  | OnWriteEnd wr sid bufs on_ack => '(c, _) ← udx_stream_write_end c wr sid bufs on_ack; Some c
  | OnTimer => on_stream_timer ucb c
  | OnPacing => pacing_timer_timeout c
  | OnPrepare => on_pending_packet_prepare c
  | OnDatagram h buf => process_stream_packet ucb c h buf
  | OnSent pid => on_stream_data_write c pid
  | OnClock time => Some (c <| c_io ::= λ i, i <| io_now := time |> |>)
  end.

(** libuv holds a send of the packet: one that is outgoing, or one that was acknowledged in the meantime. *)
Definition held_by_uv (c : ctx) (pid : packet_id) : Prop :=
  ∃ p, c_packets c !! pid = Some p ∧
    ((sent_at c (p_seq p) = Some pid ∧ p_ref_count p = 2) ∨
     ((∀ q, sent_at c q ≠ Some pid) ∧ s_pkt (c_s c) ≠ Some pid)).

(** The conditions of process_stream_packet_ok (AckPath.v) on a datagram. *)
Definition acceptable (c : ctx) (h : udx_header) (buf : list Z) : Prop :=
  is_u32 (h_ack h) ∧ is_u32 (h_rwnd h) ∧ keeps_open h ∧ is_u32 (s_remote_acked (c_s c)) ∧
  (has (h_type h) UDX_HEADER_HEARTBEAT = true → goes_on c) ∧
  ∀ data c1 rs, skip_data_offset (h_data_offset h) buf = Some data →
    process_received ucb c h data (s_remote_acked (c_s c)) (0 <? seq_diff (h_ack h) (s_remote_acked (c_s c)))
      (read_sacks env_host buf 20 (Z.to_nat (nsack_blocks h (Z.of_nat (length buf))))) = Some (Go (c1, rs)) →
    finishes ucb c1 h rs (u32 (delivered (s_rate (c_s c1)) - delivered (s_rate (c_s c)))) (lost (s_rate (c_s c)))
      ((0 <? seq_diff (h_ack h) (s_remote_acked (c_s c))) && negb (s_remote_acked (c_s c) =? s_seq (c_s c)))
      (negb (s_remote_acked (c_s c) =? s_seq (c_s c))).

(** What each event asks for beside a settled stream. *)
Definition allowed (c : ctx) (e : event) : Prop :=
  match e with
  | OnWrite wr _ bufs on_ack => can_recover c ∧ writable c wr bufs on_ack ∧ probe_clear c
  | OnWriteEnd wr _ bufs on_ack => can_recover c ∧ writable c wr (match bufs with [] => [[]] | _ => bufs end) on_ack ∧ probe_clear c
  | OnTimer => can_recover c ∧ timer_ready (c_s c) ∧ may_go_on (c_s c)
  | OnPacing => can_recover c
  | OnPrepare => s_pending_packet_prepare (c_s c) = true ∧ can_recover c ∧ window (c_s c) + 1 + Z.of_nat (write_backlog c) < 2 ^ 31
  | OnDatagram h buf => acceptable c h buf
  | OnSent pid => held_by_uv c pid
  | OnClock _ => True
  end.

(** ** One event *)

Lemma watermark_settled c : settled c → ∃ c' r, check_watermark c = Some (c', r) ∧ settled c'.
Proof.
  intros Hs. unfold check_watermark, send_window_in_bytes, cwnd_in_bytes.
  rewrite (proj1 (max_payload_spec _ (mtu_ok_range _ (ak_mtu _ _ _ _ Hs)))). cbn [mbind option_bind].
  destruct (_ <? _); do 2 eexists; (split; [reflexivity|]); [|done]. by apply (settled_view c).
Qed.

(** The request [wr] can be queued in a stream with this status. *)
Lemma queue_settled c c1 wr sid bufs on_ack is_end :
  settled c → can_recover c → writable c wr bufs on_ack → probe_clear c →
  (∃ st, c1 = c <| c_s ::= λ s, s <| s_status := st |> |> ∧ has st UDX_STREAM_DEAD = has (s_status (c_s c)) UDX_STREAM_DEAD) →
  ∃ c', _udx_stream_write c1 wr sid bufs on_ack is_end = Some c' ∧ settled c'.
Proof.
  intros Hs Hcr [_ _ W3 W4 W5 (pid & p & W6 & W7 & W8)] Hz (st & -> & Hst). set (c1 := c <| c_s ::= _ |>).
  assert (settled c1) as Hs1.
  { apply (settled_view c); try done. unfold able_view, able_rest. cbn [c_s c1 upd_field s_status]. rewrite Hst. reflexivity. }
  pose proof Hs1 as [_ Ha [sent F] M _ G]. assert (can_recover c1) as Hcr1 by by apply (recover_view c).
  destruct (stream_write_run c1 wr sid bufs on_ack is_end pid p [] None (settled_recover c1 Hs1 Hcr1) Ha)
    as (c2 & -> & Hok2 & Ha2 & _ & [_ T2] & G2 & Hap); try done.
  exists c2. split; [done|]. destruct Hok2 as (C2 & out & Q & pid2 & p2 & C). split; [|done| |by apply T2| |by apply G2]; [|destruct (Hap _ sent F) as (_ & more & F'); by eexists|].
  - exists out. split; [done|]. split; [by exists pid2, p2|done].
  - destruct C2. by split.
Qed.

Lemma write_settled c wr sid bufs on_ack :
  settled c → can_recover c → writable c wr bufs on_ack → probe_clear c →
  ∃ c' r, udx_stream_write c wr sid bufs on_ack = Some (c', r) ∧ settled c'.
Proof.
  intros Hs Hcr Hw Hz. pose proof Hw as [W1 W2 W3 _ _ _]. unfold udx_stream_write. rewrite W1, W2. cbn [negb].
  assert ((length bufs =? 0)%nat = false) as -> by (by destruct bufs).
  destruct (queue_settled c c wr sid bufs on_ack false Hs Hcr Hw Hz) as (c1 & -> & Hs1).
  - exists (s_status (c_s c)). split; [|done]. destruct c as [s]. by destruct s.
  - by apply watermark_settled.
Qed.

Lemma write_end_settled c wr sid bufs on_ack :
  settled c → can_recover c → writable c wr (match bufs with [] => [[]] | _ => bufs end) on_ack → probe_clear c →
  ∃ c' r, udx_stream_write_end c wr sid bufs on_ack = Some (c', r) ∧ settled c'.
Proof.
  intros Hs Hcr Hw Hz. pose proof Hw as [W1 W2 W3 _ _ _]. unfold udx_stream_write_end. rewrite W1, W2. cbn [negb]. cbv zeta.
  destruct (queue_settled c ((if negb (has (s_status (c_s c)) UDX_STREAM_ENDED_REMOTE)
      then c <| c_s ::= λ s, s <| s_status ::= λ f, set_flag f UDX_STREAM_TIMEWAIT_WANTED |> |> else c)
      <| c_s ::= λ s, s <| s_status ::= λ f, set_flag f UDX_STREAM_ENDING |> |>)
    wr sid _ on_ack true Hs Hcr Hw Hz) as (c1 & -> & Hs1); [|by apply watermark_settled].
  destruct (negb _).
  - exists (set_flag (set_flag (s_status (c_s c)) UDX_STREAM_TIMEWAIT_WANTED) UDX_STREAM_ENDING). split; [done|].
    by rewrite !has_set_other.
  - exists (set_flag (s_status (c_s c)) UDX_STREAM_ENDING). split; [done|]. by rewrite has_set_other.
Qed.

Lemma pacing_settled c : settled c → can_recover c → ∃ c', pacing_timer_timeout c = Some c' ∧ settled c'.
Proof.
  intros Hs Hcr. unfold pacing_timer_timeout, update_pacing_time.
  set (m := if _ <? _ then _ else Some c). assert (∃ c1, m = Some c1 ∧ settled c1 ∧ can_recover c1) as (c1 & -> & Hs1 & Hcr1).
  { unfold m. destruct (_ <? now c); [|by exists c]. rewrite (proj2 (Z.ltb_lt 0 _)) by apply (ak_able _ _ _ _ Hs).
    eexists. split; [reflexivity|]. split; [by apply (settled_view c)|by apply (recover_view c)]. }
  cbn [mbind option_bind]. destruct (send_packets_on c1 Hs1 (settled_recover c1 Hs1 Hcr1)) as (c' & ? & ? & _). by exists c'.
Qed.

(** The packet held back for more data. *)
Lemma prepare_settled c :
  settled c → can_recover c → window (c_s c) + 1 + Z.of_nat (write_backlog c) < 2 ^ 31 →
  ∃ c', on_pending_packet_prepare c = Some c' ∧ settled c'.
Proof.
  intros Hs Hcr Hsp. destruct (settled_recover c Hs Hcr) as (Hcs & out & Q & pid & p & P%current_packed).
  destruct (send_new_ok c out pid p false Hcs Q P Hsp) as (c' & out' & pid' & p' & E & Hcs' & Q' & C' & _ & Hw).
  exists c'. split; [exact E|]. apply (settled_tended c); [done|by apply (send_new_tended c false c' out pid p)| |by intros _].
  split; [done|]. exists out'. split; [done|by exists pid', p'].
Qed.

Lemma timer_settled c :
  settled c → can_recover c → timer_ready (c_s c) → may_go_on (c_s c) → ∃ c', on_stream_timer ucb c = Some c' ∧ settled c'.
Proof.
  intros Hs Hcr Hr Hm. destruct (stream_timer_run ucb c (settled_recover c Hs Hcr) (ak_guarded _ _ _ _ Hs) Hcr Hr Hm)
    as (c' & E & Hok & G & T). exists c'. split; [done|]. by apply (settled_tended c).
Qed.

(** The completion of a send. *)
Lemma sent_settled c pid : settled c → held_by_uv c pid → ∃ c', on_stream_data_write c pid = Some c' ∧ settled c'.
Proof.
  intros Hs (p & Hp & Hd). pose proof Hs as [(out & Q & (pid0 & p0 & C) & _) Ha [sent F] M B G].
  assert (∀ q, sent_at c q = out !! q) as Eq by (intros q; unfold sent_at; by rewrite (qo_out _ _ Q)).
  destruct Hd as [[Ho Hr]|[Hn Hn']].
  - rewrite Eq in Ho. unfold on_stream_data_write, deref_packet. rewrite Hp. cbn [mbind option_bind]. rewrite Hr. change (u8 (2 - 1)) with 1.
    change (1 =? 0) with false. cbv zeta iota. eexists. split; [reflexivity|].
    set (c' := c <| c_packets ::= _ |>).
    assert (tended c c') as [V T] by by apply (tended_packet c pid p). destruct (T _ _ Ha) as (Ha' & _ & _ & HM). destruct (V _ sent F) as (_ & more & F').
    split; [|done|by eexists|by apply HM|by apply (able_same c)|by apply (guarded_view c)].
    exists out. split; [|split; [|done]].
    + apply (repack_queues c out pid p); try done. intros (K1 & K2 & K3 & K4 & K5). unfold packet_ok, packet_data in *. cbn. split_and!; done || lia.
    + exists pid0, p0. by apply (repack_current c out pid0 p0 pid p).
  - destruct (release_ok c pid p [] None) as (c' & E & Hs' & _); [|by exists c'].
    split; [|done|by exists sent|done..]. exists out. split; [done|]. split; [by exists pid0, p0|]. split; [done|]. split; [|done]. intros q. rewrite <- Eq. apply Hn.
Qed.

(** The peer has acknowledged the local end and has ended too: the run is that of the final ACK or of the close. *)
Definition closes (e : event) (c : ctx) : Prop :=
  match e with
  | OnDatagram _ _ => ∃ c1, settled c1 ∧ end_reached c1 ∧ ¬ goes_on c1 ∧
      (handle e c = send_ack_close ucb c1 ∨ handle e c = close_stream ucb (relay_fuel c1) c1 0)
  | _ => False
  end.

Lemma handle_settled c e : settled c → allowed c e → (∃ c', handle e c = Some c' ∧ settled c') ∨ closes e c.
Proof.
  intros Hs Ha. destruct e as [wr sid bufs on_ack|wr sid bufs on_ack| | | |h buf|pid|time]; cbn [allowed handle] in *.
  - left. destruct Ha as (H1 & H2 & H3). destruct (write_settled c wr sid bufs on_ack Hs H1 H2 H3) as (c' & r & -> & Hs'). by exists c'.
  - left. destruct Ha as (H1 & H2 & H3). destruct (write_end_settled c wr sid bufs on_ack Hs H1 H2 H3) as (c' & r & -> & Hs'). by exists c'.
  - left. destruct Ha as (H1 & H2 & H3). by apply timer_settled.
  - left. by apply pacing_settled.
  - left. destruct Ha as (_ & H1 & H2). by apply prepare_settled.
  - destruct Ha as (H1 & H2 & H3 & H4 & H5 & H6). exact (process_datagram_ends ucb Hcb c h buf Hs H4 H1 H2 H3 H5 H6).
  - left. by apply sent_settled.
  - left. eexists. split; [reflexivity|]. by apply (settled_view c).
Qed.

(** ** The life of a stream *)

Inductive reaches (c0 : ctx) : ctx → Prop :=
  | reaches_start : reaches c0 c0
  | reaches_event c e c' : reaches c0 c → allowed c e → handle e c = Some c' → ¬ closes e c → reaches c0 c'.

Lemma reaches_settled c0 c : settled c0 → reaches c0 c → settled c.
Proof.
  intros Hs0. induction 1 as [|c e c' Hr IH Ha E Hn]; [done|].
  destruct (handle_settled c e IH Ha) as [(c2 & E2 & Hs2)|Hc]; [|done]. congruence.
Qed.


End Session.

(** ** The stream of Ledger.v's example, five milliseconds later

    Four more bytes are written.  The state before was reached by a tick of the clock. *)
#[local] Existing Instances example_env example_numbering.

Definition later_ctx : ctx := ledger_ctx <| c_io ::= λ i, i <| io_now := 1005 |> |>.

