(* ===== verification/Reassembly.v ===== *)
(** * In-order delivery (the receive path of src/udx.c)

    The reassembly buffer refines a set of received offsets: whatever the order
    and the repetitions in which packets arrive, the reader gets the longest prefix
    received, in order and once, and the blocks advertised as SACKs are the
    maximal runs received beyond it. *)

From S2P Require Import Prelude SeqNum Endian Wire Cirbuf WinFilter Stream Rtt Mtu Rate Float64 Bbr Ctx Send Loss Write Ack Recv Socket Lifecycle Process.

(** ** Lists of blocks with distinct starts *)

Lemma filter_id {A} (P : A → Prop) `{∀ x, Decision (P x)} (l : list A) :
  (∀ x, x ∈ l → P x) → filter P l = l.
Proof.
  induction l as [|x l IH]; intros HP; [done|]. rewrite filter_cons_True by (apply HP; left).
  f_equal. apply IH. intros y Hy. apply HP. by right.
Qed.

Section Blocks.
Implicit Types (t l : list sack_block) (b x y : sack_block).

Definition starts t : list Z := map sb_start t.

Lemma starts_mid l1 x l2 :
  NoDup (starts (l1 ++ x :: l2)) →
  (∀ y, y ∈ l1 → sb_start y ≠ sb_start x) ∧ (∀ y, y ∈ l2 → sb_start y ≠ sb_start x).
Proof.
  unfold starts. rewrite map_app, NoDup_app. cbn. rewrite NoDup_cons. intros (_ & H1 & H2 & _). split.
  - intros y Hy E. apply (H1 (sb_start y)); [apply list_elem_of_fmap; by exists y|]. rewrite E. apply list_elem_of_here.
  - intros y Hy E. apply H2. rewrite <- E. apply list_elem_of_fmap. by exists y.
Qed.

Lemma store_absent l b : (∀ y, y ∈ l → sb_start y ≠ sb_start b) → sack_store l b = l.
Proof.
  intros H. induction l as [|y l IH]; [done|]. cbn. rewrite (proj2 (Z.eqb_neq _ _)) by (apply H; left).
  f_equal. apply IH. intros z Hz. apply H. by right.
Qed.

Lemma store_mid l1 x l2 b :
  NoDup (starts (l1 ++ x :: l2)) → sb_start b = sb_start x →
  sack_store (l1 ++ x :: l2) b = l1 ++ b :: l2.
Proof.
  intros Hn Hb. destruct (starts_mid _ _ _ Hn) as [H1 H2]. rewrite <- Hb in H1, H2.
  pose proof (store_absent l1 b H1) as E1. pose proof (store_absent l2 b H2) as E2.
  unfold sack_store in *. rewrite map_app. cbn. rewrite E1, E2, Hb, Z.eqb_refl. done.
Qed.

Lemma next_mid l1 x l2 b :
  NoDup (starts (l1 ++ x :: l2)) → sb_start b = sb_start x →
  udx_sack_tree_next (l1 ++ x :: l2) b = head l2.
Proof.
  intros Hn Hb. destruct (starts_mid _ _ _ Hn) as [H1 _]. clear Hn.
  induction l1 as [|y l1 IH]; cbn; [by rewrite Hb, Z.eqb_refl|].
  rewrite (proj2 (Z.eqb_neq _ _)) by (rewrite Hb; apply H1; left). apply IH.
  intros z Hz. apply H1. by right.
Qed.

Lemma remove_mid l1 x l2 :
  NoDup (starts (l1 ++ x :: l2)) → udx_sack_tree_remove (l1 ++ x :: l2) x = l1 ++ l2.
Proof.
  intros Hn. destruct (starts_mid _ _ _ Hn) as [H1 H2].
  unfold udx_sack_tree_remove. rewrite list.filter_app, filter_cons_False by (by intros []).
  f_equal; by apply filter_id.
Qed.

(** The block after a packet was pushed, and after it took over the next one. *)
Definition pushed x type data : sack_block :=
  x <| sb_queue ::= λ q, q ++ [mk_udx_buf type data] |> <| sb_end ::= λ e, u32 (e + 1) |>.
Definition joined x y : sack_block :=
  x <| sb_end := sb_end y |> <| sb_queue ::= λ q, q ++ sb_queue y |>.

Lemma push_mid l1 x l2 type data :
  NoDup (starts (l1 ++ x :: l2)) →
  sack_push (l1 ++ x :: l2) x type data =
    let x' := pushed x type data in
    match l2 with
    | y :: l2' => if sb_start y =? sb_end x' then l1 ++ joined x' y :: l2' else l1 ++ x' :: l2
    | [] => l1 ++ [x']
    end.
Proof.
  intros Hn. unfold sack_push. fold (pushed x type data). cbv zeta.
  assert (Hst : starts (l1 ++ pushed x type data :: l2) = starts (l1 ++ x :: l2))
    by (unfold starts; rewrite !map_app; done).
  rewrite store_mid by done. rewrite next_mid by (by rewrite ?Hst).
  destruct l2 as [|y l2]; [done|]. cbn [head].
  destruct (sb_start y =? _); [|done].
  change (l1 ++ pushed x type data :: y :: l2) with (l1 ++ [pushed x type data] ++ y :: l2).
  rewrite app_assoc, remove_mid, <- app_assoc.
  2: { rewrite <- app_assoc. cbn. by rewrite Hst. }
  cbn [app]. apply store_mid; [|done].
  rewrite <- Hst in Hn. unfold starts in *. rewrite map_app in *. cbn in *.
  change (map sb_start l1 ++ sb_start x :: sb_start y :: map sb_start l2)
    with (map sb_start l1 ++ [sb_start x] ++ [sb_start y] ++ map sb_start l2) in Hn.
  rewrite !NoDup_app, !NoDup_cons in *. set_solver.
Qed.
End Blocks.

(** ** Runs of offsets

    A run (a, b) stands for the block that holds the packets of offsets a .. b - 1. *)

Definition run : Type := Z * Z.

(** Runs in increasing order from [lo], none touching the next. *)
Fixpoint runs_ok (lo : Z) (rs : list run) : Prop :=
  match rs with [] => True | (a, b) :: rs => lo < a ∧ a < b ∧ runs_ok b rs end.

Definition in_runs (rs : list run) (i : Z) : Prop := ∃ a b, (a, b) ∈ rs ∧ a <= i < b.

Fixpoint runs_add (rs : list run) (i : Z) : list run :=
  match rs with
  | [] => [(i, i + 1)]
  | (a, b) :: r =>
      if i <? a then (if i + 1 =? a then (i, b) :: r else (i, i + 1) :: (a, b) :: r)
      else if i <? b then (a, b) :: r
      else if i =? b then
        match r with
        | (a', b') :: r' => if b + 1 =? a' then (a, b') :: r' else (a, b + 1) :: r
        | [] => [(a, b + 1)]
        end
      else (a, b) :: runs_add r i
  end.

Lemma in_runs_cons a b rs i : in_runs ((a, b) :: rs) i ↔ a <= i < b ∨ in_runs rs i.
Proof.
  unfold in_runs. split.
  - intros (a' & b' & [E|Hin]%elem_of_cons & Hi); [injection E as <- <-; by left|]. right. by exists a', b'.
  - intros [Hi|(a' & b' & Hin & Hi)]; [exists a, b; split; [left|done]|exists a', b'; split; [by right|done]].
Qed.
Lemma in_runs_nil i : in_runs [] i ↔ False.
Proof. unfold in_runs. split; [|done]. by intros (a & b & ?%elem_of_nil & _). Qed.

Lemma runs_ok_weaken lo lo' rs : lo' <= lo → runs_ok lo rs → runs_ok lo' rs.
Proof. destruct rs as [|[a b] rs]; cbn; [done|]. intros ? (? & ? & ?). split_and!; try done; lia. Qed.

Lemma runs_ok_above lo rs i : runs_ok lo rs → in_runs rs i → lo < i.
Proof.
  revert lo. induction rs as [|[a b] rs IH]; intros lo; [by rewrite in_runs_nil|].
  cbn. intros (? & ? & Hr) [?|Hi]%in_runs_cons; [lia|]. specialize (IH b Hr Hi). lia.
Qed.

Lemma runs_add_ok lo rs i : runs_ok lo rs → lo < i → runs_ok lo (runs_add rs i).
Proof.
  revert lo. induction rs as [|[a b] rs IH]; intros lo; cbn; [lia|]. intros (H1 & H2 & H3) Hi.
  destruct (Z.ltb_spec i a); [destruct (Z.eqb_spec (i + 1) a); cbn; split_and!; done || lia|].
  destruct (Z.ltb_spec i b); [done|].
  destruct (Z.eqb_spec i b).
  - destruct rs as [|[a' b'] rs]; cbn in *; [lia|]. destruct H3 as (? & ? & ?).
    destruct (Z.eqb_spec (b + 1) a'); cbn; split_and!; done || lia.
  - cbn. split_and!; [done|done|]. apply IH; [done|lia].
Qed.

Lemma runs_add_in lo rs i j : runs_ok lo rs → in_runs (runs_add rs i) j ↔ j = i ∨ in_runs rs j.
Proof.
  revert lo. induction rs as [|[a b] rs IH]; intros lo; cbn.
  { intros _. rewrite in_runs_cons, !in_runs_nil. split; (intros [?|[]]; left; lia). }
  intros (H1 & H2 & H3).
  destruct (Z.ltb_spec i a); [destruct (Z.eqb_spec (i + 1) a); rewrite !in_runs_cons; intuition lia|].
  destruct (Z.ltb_spec i b); [rewrite !in_runs_cons; intuition lia|].
  destruct (Z.eqb_spec i b).
  - destruct rs as [|[a' b'] rs]; cbn in *; [rewrite !in_runs_cons; intuition lia|]. destruct H3 as (? & ? & ?).
    destruct (Z.eqb_spec (b + 1) a'); rewrite !in_runs_cons; intuition lia.
  - rewrite !in_runs_cons, (IH b) by done. intuition.
Qed.

Lemma runs_split rs i :
  ∃ rs1 rs2, rs = rs1 ++ rs2 ∧ Forall (λ r : run, r.2 < i) rs1 ∧
    match rs2 with [] => True | (a, b) :: _ => i <= b end.
Proof.
  induction rs as [|[a b] rs (rs1 & rs2 & -> & H1 & H2)]; [by exists [], []|].
  destruct (Z.ltb_spec b i).
  - exists ((a, b) :: rs1), rs2. split_and!; [done| |done]. by apply Forall_cons.
  - by exists [], ((a, b) :: rs1 ++ rs2).
Qed.

Lemma runs_ok_app lo rs1 rs2 :
  runs_ok lo (rs1 ++ rs2) → runs_ok lo rs1 ∧ runs_ok lo rs2 ∧
  Forall (λ r : run, lo < r.1 ∧ r.1 < r.2) rs1 ∧
  match rs2 with [] => True | (a, _) :: _ => Forall (λ r : run, r.2 < a) rs1 end.
Proof.
  revert lo. induction rs1 as [|[a b] rs1 IH]; intros lo; cbn.
  { intros H. split_and!; try done. by destruct rs2 as [|[? ?] ?]. }
  intros (H1 & H2 & H3). destruct (IH b H3) as (I1 & I2 & I3 & I4).
  split_and!; try done; [by apply (runs_ok_weaken b); [lia|]| |].
  - apply Forall_cons. split; [done|]. eapply Forall_impl; [exact I3|]. cbn. intros ?. lia.
  - destruct rs2 as [|[a' b'] rs2]; [done|]. apply Forall_cons. split; [|done]. cbn in *. lia.
Qed.

Lemma runs_add_left lo rs1 rs2 i :
  runs_ok lo (rs1 ++ rs2) → Forall (λ r : run, r.2 < i) rs1 → runs_add (rs1 ++ rs2) i = rs1 ++ runs_add rs2 i.
Proof.
  revert lo. induction rs1 as [|[a b] rs1 IH]; intros lo; [done|].
  cbn. intros (? & ? & H) [Hb Hr]%Forall_cons. cbn in Hb.
  rewrite (proj2 (Z.ltb_ge _ _)), (proj2 (Z.ltb_ge _ _)), (proj2 (Z.eqb_neq _ _)) by lia.
  f_equal. by apply (IH b).
Qed.

(** ** Blocks of runs *)

Section Runs.
Variable base : Z.
Variable content : Z → Z * list Z.   (** packet type and payload of each offset *)

Definition sq (i : Z) : Z := u32 (base + i).
Definition pkt (i : Z) : udx_buf := mk_udx_buf (content i).1 (content i).2.
Definition blk (r : run) : sack_block := mk_sack_block (sq r.1) (sq r.2) (map pkt (seqZ r.1 (r.2 - r.1))).

Lemma sq_diff i j : - 2 ^ 31 <= i - j < 2 ^ 31 → seq_diff (sq i) (sq j) = i - j.
Proof. intros. unfold seq_diff, sq. word_lia. Qed.
Lemma sq_eqb i j : - 2 ^ 31 < i - j < 2 ^ 31 → (sq i =? sq j) = (i =? j).
Proof.
  intros. destruct (Z.eqb_spec i j) as [->|]; [apply Z.eqb_refl|]. apply Z.eqb_neq. intros E.
  assert (Hd : seq_diff (sq i) (sq j) = i - j) by (apply sq_diff; lia).
  rewrite E, seq_diff_self in Hd. lia.
Qed.
Lemma sq_succ i : u32 (sq i + 1) = sq (i + 1).
Proof. unfold sq. rewrite u32_add_l. f_equal. lia. Qed.

Lemma holds_run i a b :
  - 2 ^ 31 <= i - a < 2 ^ 31 → - 2 ^ 31 <= i - b < 2 ^ 31 →
  sack_holds (sq i) (blk (a, b)) = (a <=? i) && (i <=? b).
Proof. intros. unfold sack_holds. cbn. rewrite !sq_diff by lia. lia. Qed.

Lemma find_app_l t1 t2 i :
  Forall (λ b, sack_holds (sq i) b = false) t1 →
  udx_sack_tree_find (t1 ++ t2) (sq i) = udx_sack_tree_find t2 (sq i).
Proof.
  unfold udx_sack_tree_find. induction t1 as [|b t1 IH]; [done|]. intros [Hb Ht]%Forall_cons.
  rewrite <- IH by done. cbn. rewrite decide_False by (rewrite Hb; by intros []).
  by destruct (list_find _ (t1 ++ t2)) as [[? ?]|].
Qed.

Lemma insert_app_l t1 t2 b :
  Forall (λ x, 0 <= seq_diff (sb_start b) (sb_start x)) t1 →
  udx_sack_tree_insert (t1 ++ t2) b = t1 ++ udx_sack_tree_insert t2 b.
Proof.
  induction t1 as [|x t1 IH]; [done|]. intros [Hb Ht]%Forall_cons. cbn.
  rewrite (proj2 (Z.ltb_ge _ _)) by done. f_equal. by apply IH.
Qed.

(** Starts are distinct while the runs stay within half of the sequence space. *)
Lemma runs_starts lo rs :
  runs_ok lo rs → Forall (λ r : run, r.2 < lo + 2 ^ 31) rs → NoDup (starts (map blk rs)).
Proof.
  intros Hok Hb. induction rs as [|[a b] rs IH]; [constructor|]. cbn in *. destruct Hok as (H1 & H2 & H3).
  apply Forall_cons in Hb as [Hb0 Hb]. apply NoDup_cons. split.
  - unfold starts. rewrite map_map, list_elem_of_fmap. cbn. intros ([a' b'] & E & Hin). cbn in *.
    apply Z.eqb_eq in E. rewrite Forall_forall in Hb. specialize (Hb _ Hin). cbn in Hb.
    assert (b < a' ∧ a' < b').
    { clear -H3 Hin. revert H3. generalize b. induction rs as [|[u v] rs IH]; [by apply elem_of_nil in Hin|].
      intros lo (? & ? & ?). apply elem_of_cons in Hin as [E|Hin]; [injection E as <- <-; lia|].
      specialize (IH Hin v H1). lia. }
    rewrite sq_eqb in E by lia. apply Z.eqb_eq in E. lia.
  - apply IH; [by apply (runs_ok_weaken b); [lia|]|done].
Qed.

Lemma pkts_app a b c : a <= b → b <= c →
  map pkt (seqZ a (c - a)) = map pkt (seqZ a (b - a)) ++ map pkt (seqZ b (c - b)).
Proof.
  intros. replace (c - a) with ((b - a) + (c - b)) by lia. rewrite seqZ_app, map_app by lia.
  replace (a + (b - a)) with b by lia. done.
Qed.
Lemma blk_push a b : a <= b → pushed (blk (a, b)) (content b).1 (content b).2 = blk (a, b + 1).
Proof.
  intros. unfold pushed, blk, upd_field. cbn -[seqZ u32]. rewrite sq_succ.
  rewrite (pkts_app a b (b + 1)) by lia. replace (b + 1 - b) with 1 by lia. done.
Qed.
Lemma blk_join a b c : a <= b → b <= c → joined (blk (a, b)) (blk (b, c)) = blk (a, c).
Proof. intros. unfold joined, blk, upd_field. cbn -[seqZ]. by rewrite (pkts_app a b c) by lia. Qed.
Lemma blk_new i : mk_sack_block (sq i) (sq i) [] = blk (i, i).
Proof. unfold blk. cbn. by rewrite Z.sub_diag. Qed.

(** The window in which the serial arithmetic of the tree is meaningful. *)
Definition within (lo : Z) (rs : list run) : Prop := Forall (λ r : run, r.2 < lo + 2 ^ 31) rs.

(** Pushing the packet [b] onto the run (a, b), in the list of runs. *)
Lemma push_run lo rs1 a b rs2 :
  a <= b → lo < a → b < lo + 2 ^ 31 → NoDup (starts (map blk (rs1 ++ (a, b) :: rs2))) →
  match rs2 with [] => True | (a', b') :: _ => b < a' ∧ a' < b' ∧ b' < lo + 2 ^ 31 end →
  sack_push (map blk (rs1 ++ (a, b) :: rs2)) (blk (a, b)) (content b).1 (content b).2 =
    map blk (rs1 ++ match rs2 with
                    | (a', b') :: r' => if b + 1 =? a' then (a, b') :: r' else (a, b + 1) :: rs2
                    | [] => [(a, b + 1)]
                    end).
Proof.
  intros Hab Hlo Hb Hn Hnext. rewrite !map_app in *. cbn [map] in *.
  rewrite push_mid by done. cbv zeta. rewrite blk_push by done.
  destruct rs2 as [|[a' b'] rs2]; cbn [map]; [done|]. destruct Hnext as (N1 & N2 & N3).
  change (sb_start (blk (a', b'))) with (sq a'). change (sb_end (blk (a, b + 1))) with (sq (b + 1)).
  rewrite sq_eqb, (Z.eqb_sym a') by lia.
  destruct (Z.eqb_spec (b + 1) a') as [<-|]; [|done]. cbn [map]. by rewrite blk_join by lia.
Qed.

Lemma runs_ok_mem lo rs r : runs_ok lo rs → r ∈ rs → lo < r.1 ∧ r.1 < r.2.
Proof.
  revert lo. induction rs as [|[a b] rs IH]; intros lo; [by intros _ ?%elem_of_nil|].
  cbn. intros (H1 & H2 & H3) [->|Hin]%elem_of_cons; [done|]. specialize (IH b H3 Hin). lia.
Qed.

Lemma starts_insert lo rs1 rs2 i j :
  NoDup (starts (map blk (rs1 ++ rs2))) → lo < i < lo + 2 ^ 31 →
  Forall (λ r : run, lo < r.1 < lo + 2 ^ 31 ∧ r.1 ≠ i) (rs1 ++ rs2) →
  NoDup (starts (map blk (rs1 ++ (i, j) :: rs2))).
Proof.
  intros Hn Hi Hf. unfold starts in *. rewrite map_map in *.
  eapply NoDup_Permutation_proper; [apply (fmap_Permutation (λ r, sb_start (blk r))); symmetry; apply Permutation_middle|].
  apply NoDup_cons. split; [|done]. intros (r & E & Hin)%list_elem_of_fmap.
  rewrite Forall_forall in Hf. specialize (Hf _ Hin). cbn in E.
  apply Z.eqb_eq in E. rewrite sq_eqb in E by lia. lia.
Qed.

(** A packet that belongs to no run starts one of its own. *)
Lemma add_fresh lo rs1 rs2 i :
  runs_ok lo (rs1 ++ rs2) → within lo (rs1 ++ rs2) → lo < i < lo + 2 ^ 31 - 1 →
  Forall (λ r : run, r.2 < i) rs1 → runs_ok i rs2 →
  sack_add (map blk (rs1 ++ rs2)) (content i).1 (sq i) (content i).2 =
    map blk (rs1 ++ match rs2 with
                    | (a', b') :: r' => if i + 1 =? a' then (i, b') :: r' else (i, i + 1) :: rs2
                    | [] => [(i, i + 1)]
                    end).
Proof.
  intros Hok Hw Hi Hl Hr. pose proof Hw as Hw'. apply Forall_app in Hw' as [Hw1 Hw2].
  assert (Hm1 : ∀ r, r ∈ rs1 → lo < r.1 < r.2 ∧ r.2 < i).
  { intros r Hr1. rewrite Forall_forall in Hl. specialize (Hl r Hr1).
    assert (lo < r.1 ∧ r.1 < r.2) by (apply (runs_ok_mem lo (rs1 ++ rs2)); [done|set_solver]). lia. }
  assert (Hm2 : ∀ r, r ∈ rs2 → i < r.1 < r.2 ∧ r.2 < lo + 2 ^ 31).
  { intros r Hr2. pose proof (runs_ok_mem _ _ _ Hr Hr2). rewrite Forall_forall in Hw2. specialize (Hw2 r Hr2). lia. }
  assert (Hnot : ∀ r, r ∈ rs1 ++ rs2 → sack_holds (sq i) (blk r) = false).
  { intros [a b] [Hr1|Hr2]%elem_of_app; [specialize (Hm1 _ Hr1)|specialize (Hm2 _ Hr2)]; cbn in *;
      rewrite holds_run by lia; lia. }
  unfold sack_add.
  assert (udx_sack_tree_find (map blk (rs1 ++ rs2)) (sq i) = None) as ->.
  { rewrite <- (app_nil_r (map blk _)). rewrite find_app_l; [done|].
    apply Forall_fmap, Forall_forall. intros r Hin. by apply Hnot. }
  assert (udx_sack_tree_insert (map blk (rs1 ++ rs2)) (blk (i, i)) = map blk (rs1 ++ (i, i) :: rs2)) as E.
  { rewrite !map_app, insert_app_l.
    - destruct rs2 as [|[a b] rs2]; [done|]. cbn -[blk]. specialize (Hm2 (a, b) ltac:(left)). cbn in Hm2.
      assert (seq_diff (sb_start (blk (i, i))) (sb_start (blk (a, b))) = i - a) as -> by (cbn; apply sq_diff; lia).
      rewrite (proj2 (Z.ltb_lt _ _)); [done|]. lia.
    - apply Forall_fmap, Forall_forall. intros [a b] Hin. specialize (Hm1 _ Hin). cbn in *. rewrite sq_diff; lia. }
  cbv zeta. rewrite blk_new, E. apply (push_run lo); try lia.
  - apply (starts_insert lo); [by apply (runs_starts lo)|lia|]. apply Forall_forall.
    intros r [Hr1|Hr2]%elem_of_app; [specialize (Hm1 _ Hr1)|specialize (Hm2 _ Hr2)]; lia.
  - destruct rs2 as [|[a b] rs2]; [done|]. specialize (Hm2 (a, b) ltac:(left)). cbn in Hm2. lia.
Qed.

Lemma sack_add_runs lo rs i :
  runs_ok lo rs → within lo rs → lo < i < lo + 2 ^ 31 - 1 →
  sack_add (map blk rs) (content i).1 (sq i) (content i).2 = map blk (runs_add rs i).
Proof.
  intros Hok Hw Hi. destruct (runs_split rs i) as (rs1 & rs2 & -> & Hl & Hr).
  rewrite (runs_add_left lo) by done.
  destruct (runs_ok_app _ _ _ Hok) as (_ & Hok2 & Hb1 & Hlt).
  destruct rs2 as [|[a b] rs2]; [by rewrite (add_fresh lo)|].
  cbn [runs_ok] in Hok2. destruct Hok2 as (H1 & H2 & H3). cbn [runs_add].
  destruct (Z.ltb_spec i a) as [Ha|Ha]; [rewrite (add_fresh lo); [done|done|done|done|done|cbn; split_and!; done || lia]|].
  pose proof Hw as Hw'. apply Forall_app in Hw' as [Hw1 Hw2]. apply Forall_cons in Hw2 as [Hb Hw2]. cbn in Hb.
  assert (Hfl : Forall (λ b, sack_holds (sq i) b = false) (map blk rs1)).
  { apply Forall_fmap, Forall_forall. intros [a' b'] Hin. rewrite Forall_forall in Hl, Hb1.
    specialize (Hl _ Hin). specialize (Hb1 _ Hin). cbn in *. rewrite holds_run by lia. lia. }
  unfold sack_add. rewrite map_app, find_app_l by done. cbn [map].
  unfold udx_sack_tree_find. cbn [list_find]. rewrite decide_True by (rewrite holds_run by lia; apply Is_true_true; lia).
  cbn -[blk sack_push]. change (sb_end (blk (a, b))) with (sq b). rewrite sq_eqb by lia.
  destruct (Z.ltb_spec i b) as [|Hib]; [by rewrite (proj2 (Z.eqb_neq b i)) by lia; rewrite map_app|].
  rewrite (proj2 (Z.eqb_eq b i)), (proj2 (Z.eqb_eq i b)) by lia. cbn [negb].
  replace i with b by lia. change (blk (a, b) :: map blk rs2) with (map blk ((a, b) :: rs2)).
  rewrite <- map_app. rewrite (push_run lo); try lia; [done| |].
  - by apply (runs_starts lo).
  - destruct rs2 as [|[a' b'] rs2]; [done|]. cbn in H3. apply Forall_cons in Hw2 as [? _]. cbn in *. lia.
Qed.

Lemma runs_add_within lo rs i : within lo rs → i + 1 < lo + 2 ^ 31 → within lo (runs_add rs i).
Proof.
  unfold within. intros Hw Hi. induction Hw as [|[a b] rs H Hr IH]; cbn [runs_add].
  { apply list.Forall_singleton. done. }
  cbn in H. destruct (Z.ltb_spec i a); [destruct (i + 1 =? a); repeat (apply Forall_cons; split); done|].
  destruct (Z.ltb_spec i b); [by apply Forall_cons|]. destruct (Z.eqb_spec i b) as [->|].
  - destruct rs as [|[a' b'] rs]; [apply list.Forall_singleton; cbn; lia|].
    apply Forall_cons in Hr as [H' Hr]. cbn in H'.
    destruct (b + 1 =? a'); repeat (apply Forall_cons; split); cbn; done || lia.
  - by apply Forall_cons.
Qed.

(** ** The receive path *)

Context `{Env}.
Variable ucb : callback → sys → option sys.

(** The part of process_packet that handles the payload. *)
Definition receive (c : ctx) (h : udx_header) (data : list Z) : option (flow ctx) :=
  c <~ process_payload ucb c h data;
  c <~ process_message ucb c h data;
  process_read_queue ucb c.
Fixpoint receives (c : ctx) (l : list (udx_header * list Z)) : option (flow ctx) :=
  match l with [] => Some (Go c) | (h, data) :: l => c <~ receive c h data; receives c l end.

(** What the reader was given, in order. *)
Definition read_of (e : event) : option (list Z) :=
  match e with EvCallback (CbRead _ data) => Some data | _ => None end.
Definition reads (c : ctx) : list (list Z) := reverse (omap read_of (io_log (c_io c))).

(** What the receive path reads and writes of a stream. *)
Definition rview (c : ctx) :=
  (s_status (c_s c), on_read (s_cb (c_s c)), s_ack (c_s c), s_sack_tree (c_s c), reads c).

Definition ready (c : ctx) : Prop := may_read (c_s c) = true ∧ on_read (s_cb (c_s c)) = true.

Definition payload (i : Z) : option (list Z) :=
  if has (content i).1 UDX_HEADER_DATA then Some (content i).2 else None.

Record state_is (c : ctx) (k : Z) (rs : list run) (out : list (list Z)) : Prop := {
  st_ready : ready c;
  st_ack : s_ack (c_s c) = sq k;
  st_tree : s_sack_tree (c_s c) = map blk rs;
  st_reads : reads c = out }.

Lemma may_read_alive c : ready c → is_dead c = false.
Proof.
  intros [Hm _]. unfold may_read, is_dead, has, UDX_STREAM_READ, truthy in *. apply Z.eqb_eq in Hm.
  rewrite negb_false_iff. apply Z.eqb_eq.
  change UDX_STREAM_DEAD with (Z.land UDX_STREAM_SHOULD_READ UDX_STREAM_DEAD).
  by rewrite Z.land_assoc, Hm.
Qed.

(** User code that leaves the receiving side of the stream alone. *)
Hypothesis reader : ∀ n data c, ∃ c', cb ucb (CbRead n data) c = Some c' ∧ rview c' = rview c.

Lemma rview_state c c' k rs out : rview c' = rview c → state_is c k rs out → state_is c' k rs out.
Proof.
  unfold rview. intros [= E1 E2 E3 E4 E5] [[R1 R2] A T D]. split; try congruence.
  unfold ready, may_read in *. by rewrite E1, E2.
Qed.

Lemma read_step c k rs out data :
  state_is c k rs out → ∃ c', call (cb ucb) (CbRead (Z.of_nat (length data)) data) c = Some c' ∧
    state_is c' k rs (out ++ [data]).
Proof.
  intros Hs. unfold call. edestruct reader as (c' & E & V). exists c'. split; [exact E|].
  apply (rview_state _ _ _ _ _ V). destruct Hs as [R A T D]. split; [exact R|exact A|exact T|].
  unfold reads in *. change (io_log _) with (EvCallback (CbRead (Z.of_nat (length data)) data) :: io_log (c_io c)).
  cbn [omap list_omap read_of]. by rewrite reverse_cons, D.
Qed.

Lemma alive_state c k rs out : state_is c k rs out → has (s_status (c_s c)) UDX_STREAM_DEAD = false.
Proof. intros Hs. apply (may_read_alive c), Hs. Qed.

Lemma ack_step c k rs out :
  state_is c k rs out →
  state_is (c <| c_s ::= λ s, s <| s_ack ::= λ a, u32 (a + 1) |> |>) (k + 1) rs out.
Proof. intros [R A T D]. split; [exact R| |exact T|exact D]. cbn. by rewrite A, sq_succ. Qed.

Lemma tree_step c k rs out f rs' :
  state_is c k rs out → f (map blk rs) = map blk rs' →
  state_is (c <| c_s ::= λ s, s <| s_sack_tree ::= f |> |>) k rs' out.
Proof. intros [R A T D] Hf. split; [exact R|exact A| |exact D]. cbn. by rewrite T. Qed.

(** The ENDING_REMOTE mark does not stop the reader. *)
Lemma ending_step c k rs out q :
  state_is c k rs out →
  state_is (c <| c_s ::= λ s, s <| s_status ::= λ f, set_flag f UDX_STREAM_ENDING_REMOTE |>
                                <| s_remote_ended := q |> |>) k rs out.
Proof.
  intros [[R1 R2] A T D]. split; [split; [|exact R2]|exact A|exact T|exact D].
  revert R1. unfold may_read, set_flag. cbn. rewrite Z.land_lor_distr_l. cbn. by rewrite Z.lor_0_r.
Qed.

Lemma drain_bufs_run n c a rs out :
  state_is c a rs out →
  ∃ c', drain_bufs (cb ucb) c (map pkt (seqZ a (Z.of_nat n))) = Some (c', false) ∧
    state_is c' (a + Z.of_nat n) rs (out ++ omap payload (seqZ a (Z.of_nat n))).
Proof.
  revert c a out. induction n as [|n IH]; intros c a out Hs.
  { exists c. cbn. by rewrite Z.add_0_r, app_nil_r. }
  rewrite seqZ_cons by lia. rewrite <- Z.add_1_r. replace (Z.pred (Z.of_nat (S n))) with (Z.of_nat n) by lia.
  replace (a + Z.of_nat (S n)) with (a + 1 + Z.of_nat n) by lia.
  cbn [map drain_bufs omap list_omap pkt ub_type ub_data].
  pose proof (ack_step _ _ _ _ Hs) as Ha. cbv zeta.
  set (c1 := c <| c_s ::= _ |>) in *. clearbody c1.
  unfold payload at 1. rewrite (proj2 (st_ready _ _ _ _ Ha)), andb_true_r.
  destruct (has (content a).1 UDX_HEADER_DATA); [|apply (IH _ _ _ Ha)].
  destruct (read_step _ _ _ _ (content a).2 Ha) as (c2 & E & H2).
  rewrite E. cbn [mbind option_bind]. rewrite (alive_state _ _ _ _ H2).
  destruct (IH _ _ _ H2) as (c' & E' & H'). exists c'. split; [exact E'|]. by rewrite <- app_assoc in H'.
Qed.

(** The read queue: the run at the head of the tree is delivered when it
    starts where the reader stands. *)
Definition after_drain (k : Z) (rs : list run) : Z * list run :=
  match rs with (a, b) :: r => if a =? k then (b, r) else (k, rs) | [] => (k, rs) end.

Lemma drain_run c k rs out :
  state_is c k rs out → runs_ok (k - 1) rs → within (k - 1) rs →
  let '(k', rs') := after_drain k rs in
  ∃ c', drain (cb ucb) c = Some (c', false) ∧
    state_is c' k' rs' (out ++ omap payload (seqZ k (k' - k))).
Proof.
  intros Hs Hok Hw. unfold drain, udx_sack_tree_min. rewrite (st_tree _ _ _ _ Hs).
  destruct rs as [|[a b] rs]; cbn [map head after_drain].
  { exists c. by rewrite Z.sub_diag, app_nil_r. }
  rewrite (proj1 (st_ready _ _ _ _ Hs)), (st_ack _ _ _ _ Hs). cbn [andb].
  change (sb_start (blk (a, b))) with (sq a). pose proof Hok as (H1 & H2 & H3).
  pose proof Hw as Hw0. apply Forall_cons in Hw0 as [Hb Hw0]. cbn in Hb. rewrite sq_eqb by lia.
  destruct (Z.eqb_spec a k) as [->|]; [|exists c; by rewrite Z.sub_diag, app_nil_r].
  change (sb_queue (blk (k, b))) with (map pkt (seqZ k (b - k))).
  assert (Hs1 : state_is (c <| c_s ::= λ s, s <| s_sack_tree ::= λ t, udx_sack_tree_remove t (blk (k, b)) |> |>) k rs out).
  { eapply tree_step; [exact Hs|]. apply (remove_mid [] (blk (k, b)) (map blk rs)).
    by apply (runs_starts (k - 1) ((k, b) :: rs)). }
  pose proof (drain_bufs_run (Z.to_nat (b - k)) _ _ _ _ Hs1) as P.
  rewrite Z2Nat.id in P by lia. by replace (k + (b - k)) with b in P by lia.
Qed.

(** ** One arrival *)

(** The receiver stands at [k] with the runs [rs] beyond it, having seen exactly
    the offsets of [seen]. *)
Definition covers (k : Z) (rs : list run) (seen : list Z) : Prop :=
  ∀ j, 0 <= j → j ∈ seen ↔ j < k ∨ in_runs rs j.

Record at_rest (c : ctx) (k : Z) (rs : list run) (seen : list Z) (out : list (list Z)) : Prop := {
  ar_state : state_is c k rs (out ++ omap payload (seqZ 0 k));
  ar_k : 0 <= k;
  ar_ok : runs_ok k rs;
  ar_within : within (k - 1) rs;
  ar_covers : covers k rs seen }.

(** A packet of the sender, by its offset. *)
Definition arrival (i : Z) (h : udx_header) (data : list Z) : Prop :=
  h_seq h = sq i ∧ h_type h = (content i).1 ∧ data = (content i).2.

Hypothesis types : ∀ i, (content i).1 ∈ [UDX_HEADER_DATA; UDX_HEADER_END; UDX_HEADER_DATA_OR_END].

Lemma types_flags i :
  has (content i).1 UDX_HEADER_DATA_OR_END = true ∧ has (content i).1 UDX_HEADER_DESTROY = false ∧
  has (content i).1 UDX_HEADER_MESSAGE = false.
Proof. pose proof (types i) as Ht. rewrite !elem_of_cons in Ht. by destruct Ht as [->|[->|[->|?%elem_of_nil]]]. Qed.

(** process_data_packet, for a packet not yet delivered. *)
Lemma data_packet_step c k rs out i :
  state_is c k rs out → runs_ok k rs → within (k - 1) rs → k <= i < k + 2 ^ 31 - 2 →
  ∃ c' k' rs', process_data_packet (cb ucb) c (content i).1 (sq i) (content i).2 = Some c' ∧
    state_is c' k' rs' (out ++ omap payload (seqZ k (k' - k))) ∧ k <= k' ∧
    runs_ok (k' - 1) rs' ∧ within (k' - 1) rs' ∧
    ∀ j, k <= j → j < k' ∨ in_runs rs' j ↔ j = i ∨ in_runs rs j.
Proof.
  intros Hs Hok Hw Hi. unfold process_data_packet. rewrite (st_ack _ _ _ _ Hs), sq_eqb by lia.
  destruct ((i =? k) && has (content i).1 UDX_HEADER_DATA) eqn:Hd.
  - apply andb_true_iff in Hd as [->%Z.eqb_eq Hd]. pose proof (ack_step _ _ _ _ Hs) as Ha.
    set (c1 := c <| c_s ::= _ |>) in *. clearbody c1. unfold read. rewrite (proj2 (st_ready _ _ _ _ Ha)).
    destruct (read_step _ _ _ _ (content k).2 Ha) as (c2 & E & H2).
    exists c2, (k + 1), rs. replace (k + 1 - k) with 1 by lia. replace (k + 1 - 1) with k by lia.
    change (omap payload (seqZ k 1)) with (match payload k with Some d => [d] | None => [] end).
    unfold payload. rewrite Hd. split_and!; [exact E|exact H2|lia|done| |].
    + eapply Forall_impl; [exact Hw|]. cbn. lia.
    + intros j Hj. intuition lia.
  - eexists _, k, (runs_add rs i). split; [reflexivity|]. rewrite Z.sub_diag, app_nil_r.
    assert (Hok' : runs_ok (k - 1) rs) by (by apply (runs_ok_weaken k); [lia|]). split_and!.
    + eapply tree_step; [exact Hs|]. apply (sack_add_runs (k - 1)); [done|done|lia].
    + lia.
    + apply runs_add_ok; [done|lia].
    + apply runs_add_within; [done|lia].
    + intros j Hj. rewrite (runs_add_in k) by done. intuition lia.
Qed.

(** The rest of the receive path, once the payload is taken in. *)
Lemma finish_step c k k0 rs seen out i h data :
  arrival i h data → 0 <= k0 <= k → runs_ok (k - 1) rs → within (k - 1) rs →
  state_is c k rs (out ++ omap payload (seqZ 0 k)) → covers k rs seen →
  ∃ c' k' rs', (c <~ process_message ucb c h data; process_read_queue ucb c) = Some (Go c') ∧
    at_rest c' k' rs' seen out.
Proof.
  intros (_ & Ht & _) Hk Hok Hw Hs Hc. unfold process_message, process_read_queue.
  rewrite Ht, (proj2 (proj2 (types_flags i))). cbn [andb flow_bind mbind option_bind].
  pose proof (drain_run _ _ _ _ Hs Hok Hw) as Hd. destruct (after_drain k rs) as [k' rs'] eqn:Ead.
  destruct Hd as (c' & E & Hs'). exists c', k', rs'. rewrite E. split; [done|].
  rewrite <- app_assoc, <- omap_app in Hs'.
  assert (Hk' : k <= k' ∧ runs_ok k' rs' ∧ within (k' - 1) rs' ∧ covers k' rs' seen).
  { unfold after_drain in Ead. destruct rs as [|[a b] rs]; [injection Ead as <- <-; split_and!; done || lia|].
    cbn in Hok. destruct Hok as (H1 & H2 & H3). destruct (Z.eqb_spec a k) as [->|]; injection Ead as <- <-.
    - apply Forall_cons in Hw as [_ Hw]. split_and!; [lia|done| |].
      + eapply Forall_impl; [exact Hw|]. cbn. lia.
      + intros j Hj. rewrite (Hc j Hj), in_runs_cons. intuition lia.
    - split_and!; [lia|cbn; split_and!; done || lia|done|done]. }
  destruct Hk' as (Hk1 & Hk2 & Hk3 & Hk4). split; [|lia|done|done|done].
  replace (seqZ 0 k') with (seqZ 0 k ++ seqZ k (k' - k)); [exact Hs'|].
  replace k' with (k + (k' - k)) at 2 by lia. by rewrite seqZ_app by lia.
Qed.

Lemma receive_step c k rs seen out i h data :
  at_rest c k rs seen out → arrival i h data → k - 2 ^ 31 < i < k + 2 ^ 31 - 2 →
  ∃ c' k' rs', receive c h data = Some (Go c') ∧ at_rest c' k' rs' (i :: seen) out.
Proof.
  intros [Hs Hk Hok Hw Hc] Harr Hi. pose proof Harr as (Eq & Et & Ed). unfold receive, process_payload.
  rewrite (st_ack _ _ _ _ Hs), Eq, Et. pose proof (sq_diff k i ltac:(lia)) as Hd.
  assert (Hok' : runs_ok (k - 1) rs) by (by apply (runs_ok_weaken k); [lia|]).
  destruct (Z.leb_spec (seq_compare (sq k) (sq i)) 0) as [Hle|Hgt].
  2: { cbn [flow_bind mbind option_bind]. apply seq_compare_gt_iff in Hgt.
       apply (finish_step c k k rs (i :: seen) out i); try done.
       intros j Hj. rewrite elem_of_cons, (Hc j Hj). intuition lia. }
  apply seq_compare_le_iff in Hle.
  destruct (types_flags i) as (F1 & F2 & _). rewrite F1, F2, (proj1 (st_ready _ _ _ _ Hs)). cbn [andb]. subst data.
  destruct (data_packet_step c k rs _ i Hs Hok Hw ltac:(lia)) as (c1 & k1 & rs1 & E & Hs1 & Hk1 & Hok1 & Hw1 & Hc1).
  rewrite E. unfold unless_dead. cbn [mbind option_bind]. rewrite (may_read_alive c1) by apply Hs1.
  cbn [flow_bind mbind option_bind].
  rewrite <- app_assoc, <- omap_app in Hs1. replace (seqZ 0 k ++ seqZ k (k1 - k)) with (seqZ 0 k1) in Hs1.
  2: { replace k1 with (k + (k1 - k)) at 1 by lia. by rewrite seqZ_app by lia. }
  assert (Hc2 : covers k1 rs1 (i :: seen)).
  { intros j Hj. rewrite elem_of_cons, (Hc j Hj). destruct (Z.lt_ge_cases j k); [intuition lia|].
    rewrite Hc1 by lia. intuition lia. }
  set (c2 := if has (content i).1 UDX_HEADER_END then _ else c1).
  apply (finish_step c2 k1 k rs1 (i :: seen) out i); try done.
  unfold c2. destruct (has (content i).1 UDX_HEADER_END); [by apply ending_step|done].
Qed.

(** ** Any sequence of arrivals *)

(** The first offset not seen. *)
Definition is_mex (seen : list Z) (k : Z) : Prop := 0 <= k ∧ (k ∉ seen) ∧ ∀ j, 0 <= j < k → j ∈ seen.

(** Each arrival is within half of the sequence space around the receiver's position. *)
Fixpoint windowed (seen l : list Z) : Prop :=
  match l with
  | [] => True
  | i :: l => (∀ k, is_mex seen k → k - 2 ^ 31 < i < k + 2 ^ 31 - 2) ∧ windowed (i :: seen) l
  end.

Lemma at_rest_mex c k rs seen out : at_rest c k rs seen out → is_mex seen k.
Proof.
  intros [_ Hk Hok _ Hc]. split; [done|]. split; [|intros j Hj; apply Hc; lia].
  rewrite (Hc k Hk). intros [|Hin]; [lia|]. pose proof (runs_ok_above _ _ _ Hok Hin). lia.
Qed.

Lemma receives_rest l offs c k rs seen out :
  at_rest c k rs seen out → windowed seen offs →
  Forall2 (λ i a, arrival i a.1 a.2) offs l →
  ∃ c' k' rs', receives c l = Some (Go c') ∧ at_rest c' k' rs' (reverse offs ++ seen) out.
Proof.
  intros Hr Hw Hl. revert c k rs seen Hr Hw. induction Hl as [|i [h data] offs l Ha Hl IH]; intros c k rs seen Hr Hw.
  { by exists c, k, rs. }
  destruct Hw as [Hwi Hw]. cbn in Ha.
  destruct (receive_step _ _ _ _ _ _ _ _ Hr Ha (Hwi k (at_rest_mex _ _ _ _ _ Hr))) as (c1 & k1 & rs1 & E & Hr1).
  destruct (IH _ _ _ _ Hr1 Hw) as (c' & k' & rs' & E' & Hr'). exists c', k', rs'. cbn [receives]. rewrite E. split; [exact E'|].
  by rewrite reverse_cons, <- app_assoc.
Qed.

(** C3: in-order delivery. A stream that reads and stands at sequence number [base]
    with nothing buffered takes in any sequence of data and end packets of its
    peer: reordered, duplicated, old, in any interleaving that stays within half
    of the sequence space.  Nothing fails; the reader is given exactly the payloads
    of the longest prefix of packets received, each once and in order; the
    acknowledgement number is the end of that prefix; and the blocks
    the stream advertises as SACKs are the maximal runs received beyond it, each
    holding its packets in order. *)
Theorem recv_in_order c offs l :
  ready c → s_ack (c_s c) = sq 0 → s_sack_tree (c_s c) = [] →
  windowed [] offs → Forall2 (λ i a, arrival i a.1 a.2) offs l →
  ∃ c' k rs, receives c l = Some (Go c') ∧ is_mex offs k ∧
    reads c' = reads c ++ omap payload (seqZ 0 k) ∧
    s_ack (c_s c') = sq k ∧
    s_sack_tree (c_s c') = map blk rs ∧ runs_ok k rs ∧
    ∀ j, in_runs rs j ↔ k < j ∧ j ∈ offs.
Proof.
  intros Hr Ha Ht Hw Hl.
  assert (H0 : at_rest c 0 [] [] (reads c)).
  { split; [|done|done|constructor|].
    - split; [done|done|done|]. by rewrite app_nil_r.
    - intros j Hj. rewrite in_runs_nil, elem_of_nil. intuition lia. }
  destruct (receives_rest _ _ _ _ _ _ _ H0 Hw Hl) as (c' & k & rs & E & Hr').
  exists c', k, rs. pose proof (at_rest_mex _ _ _ _ _ Hr') as Hmex.
  rewrite app_nil_r in *. destruct Hr' as [[_ A T D] Hk Hok _ Hc]. split; [exact E|].
  assert (Hrev : ∀ j, j ∈ reverse offs ↔ j ∈ offs) by (intros; apply elem_of_reverse).
  split_and!; try done.
  - destruct Hmex as (M1 & M2 & M3). split_and!; [done|by rewrite <- Hrev|intros j Hj; by apply Hrev, M3].
  - intros j. split.
    + intros Hj. pose proof (runs_ok_above _ _ _ Hok Hj). split; [done|]. apply Hrev, Hc; [lia|by right].
    + intros [H1 H2%Hrev]. apply Hc in H2 as [|]; [lia|done|lia].
Qed.
End Runs.

(** ** A run across the wrap of the sequence numbers *)

Lemma mex_bound seen k : is_mex seen k → k <= Z.of_nat (length seen).
Proof.
  intros (Hk & _ & Hin). assert (length (seqZ 0 k) <= length seen)%nat as Hl.
  { apply submseteq_length, NoDup_submseteq; [apply NoDup_seqZ|]. intros j Hj%elem_of_seqZ. apply Hin. lia. }
  rewrite length_seqZ in Hl. lia.
Qed.

Lemma windowed_small seen l :
  Forall (λ i, 0 <= i < 2 ^ 31 - 2) l → Z.of_nat (length seen) + Z.of_nat (length l) < 2 ^ 31 → windowed seen l.
Proof.
  revert seen. induction l as [|i l IH]; intros seen; [done|]. intros [Hi Hl]%Forall_cons Hlen. cbn [length] in *. split.
  - intros k Hk. pose proof (mex_bound _ _ Hk). destruct Hk as [Hk _]. lia.
  - apply IH; [done|]. cbn [length]. lia.
Qed.

(** A reader whose callbacks do nothing. *)
Lemma idle_reader `{Env} n data c :
  ∃ c', cb (λ _ y, Some y) (CbRead n data) c = Some c' ∧ rview c' = rview c.
Proof.
  unfold cb, outside, enter, leave. cbn [y_world mbind option_bind upd_field w_others].
  rewrite lookup_insert_eq. cbn [mbind option_bind o_s]. by eexists.
Qed.

Section Example.
Definition quiet_env : Env := Build_Env UDX_LE (λ _ _ _, 0) (λ _ _ _, 0) (λ _, 0) (λ _, false).
Definition example_ctx : ctx :=
  mk_ctx (stream_zero <| s_cb ::= λ k, k <| on_read := true |> |> <| s_ack := 4294967295 |>) ∅ ∅ ∅ 1
    (mk_io 0 [] (mk_counters 0 0 0 0) 0 0) 1 (mk_world 1 false false [] [] ∅ ∅ ∅ ∅ ∅ ∅ ∅).
Definition example_content (i : Z) : Z * list Z := if i =? 3 then (UDX_HEADER_END, []) else (UDX_HEADER_DATA, [i]).
Definition example_packet (i : Z) : udx_header * list Z :=
  (mk_header (example_content i).1 0 7 0 (sq 4294967295 i) 0, (example_content i).2).
End Example.

Lemma example_types i :
  (example_content i).1 ∈ [UDX_HEADER_DATA; UDX_HEADER_END; UDX_HEADER_DATA_OR_END].
Proof. unfold example_content. destruct (i =? 3); cbn [fst]; set_solver. Qed.
Lemma example_arrivals :
  Forall2 (λ i a, arrival 4294967295 example_content i a.1 a.2) [1; 0; 1; 3] (map example_packet [1; 0; 1; 3]).
Proof. repeat (apply Forall2_cons_2; [split_and!; vm_compute; reflexivity|]). constructor. Qed.
Lemma example_windowed : windowed [] [1; 0; 1; 3].
Proof. apply windowed_small; [repeat (apply Forall_cons; split; [lia|]); constructor|vm_compute; reflexivity]. Qed.
Lemma example_mex k : is_mex [1; 0; 1; 3] k → k = 2.
Proof.
  intros Hk. pose proof (mex_bound _ _ Hk). destruct Hk as (H0 & H1 & H2). cbn [length] in *.
  destruct (Z.lt_ge_cases 2 k) as [H3|H3]; [specialize (H2 2 ltac:(lia)); set_solver|].
  destruct (decide (k = 0)) as [->|]; [set_solver|]. destruct (decide (k = 1)) as [->|]; [set_solver|]. lia.
Qed.
Lemma example_reads : reads example_ctx ++ omap (payload example_content) (seqZ 0 2) = [[0]; [1]].
Proof. vm_compute. reflexivity. Qed.

(** Packets 1, 0, 1 and 3 arrive in this order. *)
Example recv_in_order_witness :
  ∃ c', receives (H := quiet_env) (λ _ y, Some y) example_ctx (map example_packet [1; 0; 1; 3]) = Some (Go c') ∧
    reads c' = [[0]; [1]] ∧ s_ack (c_s c') = 1.
Proof.
  destruct (@recv_in_order 4294967295 example_content quiet_env (λ _ y, Some y)
              (λ n data c, @idle_reader quiet_env n data c) example_types
              example_ctx [1; 0; 1; 3] (map example_packet [1; 0; 1; 3]))
    as (c' & k & rs & E & Hk & Hr & Ha & _).
  - split; vm_compute; reflexivity.
  - vm_compute. reflexivity.
  - vm_compute. reflexivity.
  - exact example_windowed.
  - exact example_arrivals.
  - exists c'. split; [exact E|]. rewrite Hr, Ha, (example_mex k Hk). split; [exact example_reads|].
    vm_compute. reflexivity.
Defined.
