(* ===== verification/Delivery.v ===== *)
(** * From the writer to the reader (src/udx.c: both ends of a stream)

    The network may lose, repeat and reorder the datagrams of a sender, as long as it changes none.  Session.v and Convey.v say
    what these datagrams are, Reassembly.v what a receiver makes of them: here the two ends meet.  What the
    reader is given is a prefix of what was written, in every state that the sender reaches. *)

From S2P Require Import Prelude SeqNum Endian Wire Cirbuf WinFilter Stream Rtt Mtu Rate Float64 Bbr Ctx Send Packetize Sender Loss Write Ack Convey Ledger Acked Recv Timers Socket Lifecycle Open StreamTimer Writes Process AckPath Session Reassembly.

(** ** The packets a receiver sees *)

Section Packets.
Context `{Numbering}.
Variable sent : list content.

(** Type and payload by the offset of the packet; what has no data and no end never arrives as a packet. *)
Definition packet_of (i : Z) : Z * list Z :=
  match sent !! Z.to_nat i with
  | Some x => if has x.1 UDX_HEADER_DATA_OR_END then x else (UDX_HEADER_END, [])
  | None => (UDX_HEADER_END, [])
  end.

Hypothesis sent_ok : Forall content_ok sent.

Lemma data_or_end_types t :
  Z.ldiff t UDX_HEADER_DATA_OR_END = 0 → has t UDX_HEADER_DATA_OR_END = true → t ∈ [UDX_HEADER_DATA; UDX_HEADER_END; UDX_HEADER_DATA_OR_END].
Proof.
  intros E Ht. assert (t = t mod 4) as Em.
  { rewrite <- (Z.lor_ldiff_and t UDX_HEADER_DATA_OR_END) at 1. rewrite E, Z.lor_0_l. by apply (Z.land_ones t 2). }
  pose proof (Z.mod_pos_bound t 4 eq_refl). rewrite <- Em in *. unfold UDX_HEADER_DATA_OR_END, UDX_HEADER_DATA, UDX_HEADER_END in *.
  assert (t = 0 ∨ t = 1 ∨ t = 2 ∨ t = 3) as [-> |[-> |[-> | ->]]] by lia; set_solver.
Qed.

Lemma packet_of_types i : (packet_of i).1 ∈ [UDX_HEADER_DATA; UDX_HEADER_END; UDX_HEADER_DATA_OR_END].
Proof.
  unfold packet_of. destruct (sent !! Z.to_nat i) as [x|] eqn:E; [|set_solver]. destruct (has x.1 _) eqn:Ht; [|set_solver].
  apply data_or_end_types; [|done]. by destruct (Forall_lookup_1 _ _ _ _ sent_ok E).
Qed.

(** The payloads of the first packets are the first bytes sent. *)
Lemma payloads_prefix k :
  (k <= length sent)%nat → (∀ i x, (i < k)%nat → sent !! i = Some x → has x.1 UDX_HEADER_DATA_OR_END = true) →
  mjoin (omap (payload packet_of) (seqZ 0 (Z.of_nat k))) = mjoin (take k sent).*2.
Proof.
  induction k as [|k IH]; intros Hk Ht; [done|]. destruct (lookup_lt_is_Some_2 sent k ltac:(lia)) as [x Hx].
  rewrite seqZ_S, omap_app, join_app, IH by (lia || (intros; eapply Ht; [|done]; lia)).
  rewrite (take_S_r sent k x) by done. rewrite fmap_app, join_app. f_equal. cbn [omap list_omap].
  assert (packet_of (0 + Z.of_nat k) = x) as E.
  { unfold packet_of, content in *. rewrite Z.add_0_l, Nat2Z.id, Hx. by rewrite (Ht k x) by (done || lia). }
  unfold payload. rewrite E. destruct (has x.1 UDX_HEADER_DATA) eqn:Hd; [done|].
  destruct (Forall_lookup_1 _ _ _ _ sent_ok Hx) as [_ Hn]. cbn. by rewrite Hn.
Qed.
End Packets.

(** ** The two ends *)

Section Delivery.
Context `{Numbering}.
(** The machines and the users of the sender and of the receiver. *)
Variables (here there : Env) (writer reader : callback → sys → option sys).
Hypothesis Hwriter : @polite here _ False (Lifecycle.cb writer).
Hypothesis Hreader : ∀ n data c, ∃ c', Lifecycle.cb reader (CbRead n data) c = Some c' ∧ rview c' = rview c.

(** A data or end packet for the receiving stream, as process_packet parses it. *)
Definition arrives (b : list Z) (a : udx_header * list Z) : Prop :=
  parse_header (@env_host there) b = Some a.1 ∧ h_local_id a.1 = peer_id ∧ has (h_type a.1) UDX_HEADER_DATA_OR_END = true ∧
  skip_data_offset (h_data_offset a.1) b = Some a.2.

(** A new receiver: it reads, expects the first packet and has buffered nothing. *)
Definition listening (d : ctx) : Prop := ready d ∧ s_ack (c_s d) = u32 first_seq ∧ s_sack_tree (c_s d) = [].

Lemma arrives_conveyed sent b a :
  conveyed sent b → arrives b a →
  ∃ i x, sent !! i = Some x ∧ has x.1 UDX_HEADER_DATA_OR_END = true ∧ arrival first_seq (packet_of sent) (Z.of_nat i) a.1 a.2.
Proof.
  intros Hc (E1 & E2 & E3 & E4). destruct (Hc _ _ E1 E2 E3) as (i & x & Hi & Hq & Ht & Hd). exists i, x.
  rewrite Ht in E3. split; [done|]. split; [done|]. unfold arrival, packet_of. rewrite Nat2Z.id, Hi, E3. split; [done|].
  split; [done|]. congruence.
Qed.

(** The offsets of the packets in what the network delivers. *)
Lemma arrivals_offsets sent net l :
  Forall (conveyed sent) net → Forall2 arrives net l →
  ∃ offs, Forall2 (λ i a, arrival first_seq (packet_of sent) i a.1 a.2) offs l ∧
    ∀ i, i ∈ offs → ∃ x, 0 <= i ∧ sent !! Z.to_nat i = Some x ∧ has x.1 UDX_HEADER_DATA_OR_END = true.
Proof.
  intros Hc Hl. induction Hl as [|b a net l Ha Hl IH]; [exists []; split; [constructor|]; by intros i ?%elem_of_nil|].
  apply Forall_cons in Hc as [Hb Hc]. destruct (IH Hc) as (offs & Ho & Hin).
  destruct (arrives_conveyed sent b a Hb Ha) as (i & x & Hi & Ht & Harr). exists (Z.of_nat i :: offs). split; [by constructor|].
  intros j [->|Hj]%elem_of_cons; [|by apply Hin]. exists x. rewrite Nat2Z.id. split; [lia|done].
Qed.

Lemma mex_below offs k n : is_mex offs k → (∀ i, i ∈ offs → i < n) → 0 <= n → k <= n.
Proof.
  intros (Hk & _ & Hin) Hlt Hn. destruct (Z.le_gt_cases k n) as [|Hgt]; [done|]. specialize (Hlt n (Hin n ltac:(lia))). lia.
Qed.

Lemma sq_small base i j : 0 <= i < 2 ^ 31 → 0 <= j < 2 ^ 31 → u32 (base + i) = u32 (base + j) → i = j.
Proof.
  intros Hi Hj. unfold u32. intros E. assert ((i - j) mod 2 ^ 32 = 0) as Em.
  { replace (i - j) with (base + i - (base + j)) by lia. rewrite (Zminus_mod (base + i)). change (2 ^ 32) with 4294967296. by rewrite E, Z.sub_diag. }
  apply Z.mod_divide in Em as [z Ez]; [|lia]. lia.
Qed.

(** A state whose datagrams are faithful, and a new receiver. *)
Lemma faithful_delivered sent c net l d :
  @faithful here _ sent c → Forall (λ b, b ∈ datagrams c) net → Forall2 arrives net l → listening d →
  Z.pos (c_next c) < 2 ^ 31 - 2 → Z.of_nat (length net) < 2 ^ 31 →
  ∃ d' given, @receives there reader d l = Some (Go d') ∧ reads d' = reads d ++ given ∧ mjoin given `prefix_of` written c ∧
    (s_ack (c_s d') = s_seq (c_s c) → has (s_pkt_header_flag (c_s c)) UDX_HEADER_DATA = false → unsent c = [] → mjoin given = written c).
Proof.
  intros Hf Hnet Hl (Hr & Ha & Ht) Hn Hlen.
  assert (Forall (conveyed sent) net) as Hc by (eapply Forall_impl; [exact Hnet|]; intros b; apply (fa_wire _ _ Hf)).
  destruct (arrivals_offsets sent net l Hc Hl) as (offs & Ho & Hin).
  pose proof (fa_types _ _ Hf) as Hok. pose proof (fa_count _ _ Hf) as Hcount.
  assert (Z.of_nat (length sent) < 2 ^ 31 - 2) as Hs by (pose proof (positive_nat_Z (c_next c)); lia).
  assert (∀ i, i ∈ offs → i < Z.of_nat (length sent)) as Hlt.
  { intros i Hi. destruct (Hin i Hi) as (x & H0 & Hx & _). assert (Z.to_nat i < length sent)%nat by (by eapply lookup_lt_Some). lia. }
  assert (windowed [] offs) as Hw.
  { apply windowed_small.
    - apply Forall_forall. intros i Hi. destruct (Hin i Hi) as (x & H0 & _). specialize (Hlt i Hi). lia.
    - rewrite (Forall2_length _ _ _ Ho), <- (Forall2_length _ _ _ Hl). cbn [length]. lia. }
  assert (at_rest first_seq (packet_of sent) d 0 [] [] (reads d)) as H0.
  { split; [|done|done|constructor|].
    - split; [done| |done|by rewrite app_nil_r]. unfold sq. by rewrite Z.add_0_r.
    - intros j Hj. rewrite in_runs_nil, elem_of_nil. intuition lia. }
  destruct (receives_rest _ _ _ Hreader (packet_of_types sent Hok) _ _ _ _ _ _ _ H0 Hw Ho) as (d' & k & rs & E & Hr').
  pose proof (at_rest_mex _ _ _ _ _ _ _ Hr') as Hmex. rewrite app_nil_r in Hmex.
  assert (is_mex offs k) as (Hk & Hnot & Hall).
  { destruct Hmex as (M1 & M2 & M3). split; [done|]. split; [by rewrite <- elem_of_reverse|]. intros j Hj. by apply elem_of_reverse, M3. }
  assert (k <= Z.of_nat (length sent)) as Hkn by (apply (mex_below offs); [done|done|lia]).
  exists d', (omap (payload (packet_of sent)) (seqZ 0 k)). destruct Hr' as [[_ Hack _ Hreads] _ _ _ _].
  split; [exact E|]. split; [exact Hreads|].
  rewrite <- (Z2Nat.id k Hk), payloads_prefix; [|done|lia|].
  - destruct (fa_bytes _ _ Hf) as (pid & p & tl & _ & _ & _ & _ & Htl & <-). split.
    + rewrite <- (take_drop (Z.to_nat k) sent) at 2. rewrite fmap_app, join_app, <- app_assoc. by eexists.
    + rewrite (fa_seq _ _ Hf), Hack. intros Eq Ef ->. rewrite (Htl Ef), !app_nil_r.
      assert (k = Z.of_nat (length sent)) as -> by (apply (sq_small first_seq); [lia|lia|exact Eq]).
      by rewrite Nat2Z.id, firstn_all.
  - intros i x Hi Hx. destruct (Hin (Z.of_nat i)) as (y & _ & Hy & Hy'); [apply Hall; lia|]. rewrite Nat2Z.id in Hy. congruence.
Qed.


(** C1: end to end delivery. Whatever writes, timers, flushes, datagrams, completed sends and clock ticks a sender went through,
    and whichever of the datagrams that it handed to libuv the network delivers to a new receiver - some lost, some
    repeatedly, in any order - nothing fails in the receiver, and the reader gets a prefix of the bytes that were written,
    in order and each once.  Once the receiver's acknowledgement number has reached the sender's next sequence
    number and the sender has nothing queued or under construction, this is all that was written.  The sender made
    fewer than 2^31 - 2 packets and buffers, and fewer than 2^31 datagrams arrive. *)
Theorem stream_delivered c0 c net l d :
  @settled here _ c0 → @reaches here _ writer c0 c →
  Forall (λ b, b ∈ datagrams c) net → Forall2 arrives net l → listening d →
  Z.pos (c_next c) < 2 ^ 31 - 2 → Z.of_nat (length net) < 2 ^ 31 →
  ∃ d' given, @receives there reader d l = Some (Go d') ∧ reads d' = reads d ++ given ∧ mjoin given `prefix_of` written c ∧
    (s_ack (c_s d') = s_seq (c_s c) → has (s_pkt_header_flag (c_s c)) UDX_HEADER_DATA = false → unsent c = [] → mjoin given = written c).
Proof.
  intros Hs0 Hr. pose proof (reaches_settled writer Hwriter c0 c Hs0 Hr) as Hs. destruct (ak_faithful _ _ _ _ Hs) as [sent Hf].
  by apply (faithful_delivered sent).
Qed.
End Delivery.


(** ** From an opened stream to its reader

    The stream of Open.v writes twice and sends two packets; the second arrives twice, the first in between. *)
Section Example.
#[local] Existing Instance example_env.
#[local] Instance opened_numbering : Numbering := {| first_seq := 0; peer_id := 8 |}.

(** Every stream that is opened and connected, where none before it sent to the peer's id, is settled. *)
Lemma well_formed_settled c : well_formed c → (∀ b, b ∈ datagrams c → conveyed [] b) → settled c.
Proof.
  intros [(Hc & out & Hq & pid & p & Hp) Ha Hb Hg _ Hm _ Hf] Hd. destruct (Hf opened_numbering eq_refl Hd) as [F _].
  split; [|done|by exists []|done..]. exists out. split; [done|]. split; [by exists pid, p|done].
Qed.

Definition opened_ctx : ctx :=
  match udx_stream_init open_sys 5 7 true true with
  | Some (inl c) => match udx_stream_connect silent_user c 3 8 open_addr 1500 with Some (c, _) => c | None => ledger_ctx end
  | _ => ledger_ctx
  end.
Lemma opened_settled : settled opened_ctx.
Proof.
  destruct (stream_open_run silent_user open_sys 5 7 true true 3 (socket_zero <| sk_timewait_queue := [4%positive] |>) 8 open_addr 1500)
    as (c0 & c & E0 & E & Hw & _); [reflexivity|exact open_sys_timewait|reflexivity|discriminate|discriminate|].
  assert (opened_ctx = c) as Ec by (unfold opened_ctx; by rewrite E0, E). apply well_formed_settled; [by rewrite Ec|].
  assert (datagrams opened_ctx = []) as -> by (vm_compute; reflexivity). intros b []%elem_of_nil.
Qed.

Definition step (e : event) (c : ctx) : ctx := default ledger_ctx (handle silent_user e c).
Lemma reaches_step c0 c e :
  reaches silent_user c0 c → allowed silent_user c e → (if handle silent_user e c then true else false) = true →
  ¬ closes silent_user e c → reaches silent_user c0 (step e c).
Proof.
  intros Hr Ha Hb Hn. apply (reaches_event silent_user c0 c e); [done|done| |done]. unfold step. by destruct (handle silent_user e c).
Qed.

Definition spoken1 : ctx := step (OnWrite 11 1 [[1; 2; 3]] true) opened_ctx.
Definition spoken2 : ctx := step OnPrepare spoken1.
Definition spoken3 : ctx := step (OnWrite 12 1 [[4]; [5]] true) spoken2.
Definition spoken : ctx := step OnPrepare spoken3.

Ltac recovers := split; [apply steady_simple; vm_compute; discriminate|vm_compute; intuition congruence..].
Ltac writes_here := split; [recovers|split; [|intros E; vm_compute in E; vm_compute; congruence]];
  split; [vm_compute; reflexivity..|discriminate|vm_compute; reflexivity|intros _; vm_compute; reflexivity|];
  eexists _, _; split; [vm_compute; reflexivity|split; [vm_compute; reflexivity|vm_compute; intuition congruence]].

Lemma spoken_reached : reaches silent_user opened_ctx spoken.
Proof.
  apply reaches_step; [|split; [vm_compute; reflexivity|split; [recovers|vm_compute; reflexivity]]|vm_compute; reflexivity|by intros []].
  apply reaches_step; [|writes_here|vm_compute; reflexivity|by intros []].
  apply reaches_step; [|split; [vm_compute; reflexivity|split; [recovers|vm_compute; reflexivity]]|vm_compute; reflexivity|by intros []].
  apply reaches_step; [apply reaches_start|writes_here|vm_compute; reflexivity|by intros []].
Qed.

(** What the network makes of its datagrams, and how the receiver parses it. *)
Definition heard : list (list Z) :=
  [header_bytes UDX_LE 1 8 4194304 1 0 ++ [4; 5]; header_bytes UDX_LE 1 8 4194304 0 0 ++ [1; 2; 3]; header_bytes UDX_LE 1 8 4194304 1 0 ++ [4; 5]].
Definition heard_packets : list (udx_header * list Z) :=
  [(mk_header 1 0 8 4194304 1 0, [4; 5]); (mk_header 1 0 8 4194304 0 0, [1; 2; 3]); (mk_header 1 0 8 4194304 1 0, [4; 5])].
Definition hearer : ctx := example_ctx <| c_s ::= λ s, s <| s_ack := 0 |> |>.

Lemma stream_delivered_witness :
  ∃ d' given, @receives quiet_env (λ _ y, Some y) hearer heard_packets = Some (Go d') ∧ reads d' = reads hearer ++ given ∧
    mjoin given `prefix_of` written spoken ∧
    (s_ack (c_s d') = s_seq (c_s spoken) → has (s_pkt_header_flag (c_s spoken)) UDX_HEADER_DATA = false → unsent spoken = [] →
     mjoin given = written spoken).
Proof.
  apply (stream_delivered example_env quiet_env silent_user (λ _ y, Some y) (silent_user_polite False) (λ n data c, @idle_reader quiet_env n data c)
    opened_ctx spoken heard heard_packets hearer opened_settled spoken_reached).
  - apply (bool_decide_unpack (Forall (λ b, b ∈ datagrams spoken) heard)). vm_compute. exact I.
  - repeat (apply Forall2_cons_2; [split; [vm_compute; reflexivity|split; [reflexivity|split; vm_compute; reflexivity]]|]). constructor.
  - split; [split; vm_compute; reflexivity|split; vm_compute; reflexivity].
  - vm_compute. reflexivity.
  - vm_compute. reflexivity.
Defined.
End Example.
