(* ===== verification/Closing.v ===== *)
(** * Closing streams and sockets (src/udx.c: close_stream_internal, udx_stream_destroy, udx_socket_close)

    What these do to the system, where user code calls nothing of the library: which lists and tables lose which entries, and that
    everything else stays.  [tidy] is the order that the lists and queues of a udx_t keep; a stream that starts to be destroyed
    ([begun]) or is closed ([departed], [ended]) and a socket that is closed ([socket_closed]) keep it. *)

From stdpp Require Import gmap.
From S2P Require Import Prelude SeqNum Endian Wire Cirbuf WinFilter Stream Rtt Mtu Rate Float64 Bbr Ctx Send Packetize Sender Loss Write Ack Convey Ledger Acked Cancel Recv Socket Timers Interface Lifecycle Process Reassembly.

(** ** Clearing a closed stream leaves the rest of the system alone *)

Section Quiet.
Context `{Env}.

(** What no cancelling touches of a stream. *)
Definition stays (s : stream) := (s_status s, s_socket s, s_local_id s, s_relay_to s, s_relaying_streams s, s_cb s).

Record hushed (c c' : ctx) : Prop := {
  hu_rest : (c_world c', c_self c', c_next c') = (c_world c, c_self c, c_next c);
  hu_stays : stays (c_s c') = stays (c_s c);
  hu_writes : ∀ wr, c_writes c !! wr = None → c_writes c' !! wr = None ∧ acks_of wr (io_log (c_io c')) = acks_of wr (io_log (c_io c)) }.
#[global] Instance hushed_refl : Reflexive hushed.
Proof. by split. Qed.
#[global] Instance hushed_trans : Transitive hushed.
Proof.
  intros c1 c2 c3 [A1 A2 A3] [B1 B2 B3]. split; [congruence..|]. intros wr Hn. destruct (A3 wr Hn) as [H1 H2]. destruct (B3 wr H1) as [H3 H4].
  split; [done|congruence].
Qed.

Variable cb : callback → ctx → option ctx.
(** The running stream is not among the others. *)
Definition alone (c : ctx) : Prop := w_others (c_world c) !! c_self c = None.
Hypothesis Hcb : ∀ k c, alone c → cb k c = Some c.

Lemma hushed_alone c c' : hushed c c' → alone c → alone c'.
Proof. intros [[= E1 E2 _] _ _]. unfold alone. by rewrite E1, E2. Qed.

Lemma bytes_hushed c wid n c' : on_bytes_acked cb c wid n true = Some c' → hushed c c'.
Proof.
  unfold on_bytes_acked. intros E. apply bind_Some in E as (b & Hb & E). apply bind_Some in E as (w & Hw & E).
  cbn [mbind option_bind] in E. cbv zeta in E. do 3 (match type of E with (if ?b then _ else None) = _ => destruct b; [|done] end).
  injection E as <-. split; [done|done|]. intros wr Hn. split; [|done]. cbn [c_writes upd_field]. rewrite lookup_insert_ne; [done|]. congruence.
Qed.
Lemma ack_write_hushed c wid st un c' : ack_write cb c wid st un = Some c' → alone c → hushed c c'.
Proof.
  unfold ack_write, call. intros E Hal. apply bind_Some in E as (b & Hb & E). apply bind_Some in E as (w & Hw & E).
  destruct (_ && _); [|injection E as <-; done]. rewrite Hcb in E by done. injection E as <-. split; [done|done|]. intros wr Hn. split; [done|].
  cbn [c_io upd_field io_log acks_of]. rewrite decide_False by congruence. lia.
Qed.
Lemma cancel_chunks_hushed ks c c' : cancel_chunks cb c ks = Some c' → alone c → hushed c c'.
Proof.
  revert c. induction ks as [|k ks IH]; intros c E Hal; cbn [cancel_chunks] in E; [injection E as <-; done|].
  apply bind_Some in E as (c1 & E1%bytes_hushed & E). pose proof (hushed_alone _ _ E1 Hal) as Hal1.
  apply bind_Some in E as (c2 & E2%ack_write_hushed & E); [|done]. apply IH in E; [|by apply (hushed_alone c1)].
  transitivity c1; [done|by transitivity c2].
Qed.
Lemma cancel_packet_hushed c pid c' : cancel_packet cb c pid = Some c' → alone c → hushed c c'.
Proof. unfold cancel_packet. intros E. apply bind_Some in E as (p & _ & E). by apply (cancel_chunks_hushed (p_chunks p)). Qed.
Lemma deref_hushed c pid c' : deref_packet c pid = Some c' → hushed c c'.
Proof. unfold deref_packet. intros E. apply bind_Some in E as (p & _ & E). cbv zeta in E. injection E as <-. by destruct (_ =? 0). Qed.

Lemma clear_seqs_hushed seqs c c' : clear_outgoing_seqs cb c seqs = Some c' → alone c → hushed c c'.
Proof.
  revert c. induction seqs as [|q seqs IH]; intros c E Hal; cbn [clear_outgoing_seqs] in E; [injection E as <-; done|].
  apply bind_Some in E as (out & _ & E). destruct (out !! q) as [pid|]; [|by apply IH].
  set (c1 := c <| c_s ::= _ |>) in E. assert (hushed c c1) as H1 by done.
  apply bind_Some in E as (c2 & E2%cancel_packet_hushed & E); [|done]. apply bind_Some in E as (c3 & E3%deref_hushed & E).
  assert (hushed c c3) as H3 by (transitivity c1; [done|by transitivity c2]).
  apply IH in E; [by transitivity c3|by apply (hushed_alone c)].
Qed.
Lemma clear_queue_hushed n c c' : clear_write_queue cb n c = Some c' → alone c → hushed c c'.
Proof.
  revert c. induction n as [|n IH]; intros c E Hal; cbn [clear_write_queue] in E; destruct (s_write_queue (c_s c)) as [|wid q]; try (injection E as <-; done); [done|].
  set (c1 := c <| c_s ::= _ |>) in E. assert (hushed c c1) as H1 by done. apply bind_Some in E as (b & _ & E).
  apply bind_Some in E as (c2 & E2%bytes_hushed & E). assert (hushed c c2) as H2 by by transitivity c1.
  apply bind_Some in E as (c3 & E3%ack_write_hushed & E); [|by apply (hushed_alone c)]. assert (hushed c c3) as H3 by by transitivity c2.
  apply IH in E; [by transitivity c3|by apply (hushed_alone c)].
Qed.
Lemma clear_outgoing_hushed c c' : clear_outgoing_packets cb c = Some c' → alone c → hushed c c'.
Proof.
  unfold clear_outgoing_packets. intros E Hal. apply bind_Some in E as (c1 & E1 & E). assert (hushed c c1) as H1.
  { destruct (s_pkt (c_s c)) as [pid|]; [|injection E1 as <-; done]. apply bind_Some in E1 as (p & _ & E1).
    match type of E1 with (if ?b then _ else None) = _ => destruct b; [|done] end.
    apply bind_Some in E1 as (c0 & E0%cancel_packet_hushed & E1%deref_hushed); [|done]. by transitivity c0. }
  apply bind_Some in E as (c2 & E2%clear_seqs_hushed & E); [|by apply (hushed_alone c)]. assert (hushed c c2) as H2 by by transitivity c1.
  apply clear_queue_hushed in E; [by transitivity c2|by apply (hushed_alone c)].
Qed.
End Quiet.

(** ** Sockets *)

Section Sockets.
Context `{Env}.
Variable ucb : callback → sys → option sys.
(** User code that calls nothing of the library. *)
Hypothesis Hucb : ∀ k y, ucb k y = Some y.

Lemma alter_at {A} (f : A → A) (m : gmap positive A) i x : m !! i = Some x → alter f i m = <[i := f x]> m.
Proof.
  intros Hx. apply map_eq. intros j. destruct (decide (j = i)) as [->|]; [by rewrite lookup_alter_eq, lookup_insert_eq, Hx|].
  by rewrite lookup_alter_ne, lookup_insert_ne.
Qed.

(** What is in a socket's queues is there. *)
Record socket_ready (y : sys) (k : socket_id) (o : socket) : Prop := {
  sr_nodup : NoDup (sk_timewait_queue o);
  sr_timewaits : ∀ t, t ∈ sk_timewait_queue o → ∃ tw, w_timewaits (y_world y) !! t = Some tw ∧ tw_socket tw = k ∧
    w_stream_table (y_world y) !! tw_local_id tw = Some (EntryTimewait t);
  sr_sends : ∀ r, r ∈ sk_ttl_queue o → is_Some (w_sends (y_world y) !! r) }.

(** What closing a socket keeps. *)
Definition streams_view (y : sys) :=
  (w_teardown (y_world y), w_streams (y_world y), w_others (y_world y), w_stream_next (y_world y), w_sends (y_world y), y_next y).

(** [y'] is [y] where [k] lost records and requests. *)
Record emptied (y : sys) (k : socket_id) (o : socket) (y' : sys) : Prop := {
  em_view : streams_view y' = streams_view y;
  em_lists : (w_sockets (y_world y'), w_socket_next (y_world y')) = (w_sockets (y_world y), w_socket_next (y_world y));
  em_objs : ∃ o', w_socket_objs (y_world y') = <[k := o']> (w_socket_objs (y_world y)) ∧
    (sk_streams o', sk_status o') = (sk_streams o, sk_status o) ∧ sk_timewait_queue o' ⊆ sk_timewait_queue o ∧ sk_ttl_queue o' ⊆ sk_ttl_queue o;
  em_acks : ∀ wr, acks_of wr (io_log (y_io y')) = acks_of wr (io_log (y_io y));
  em_timewaits : ∀ t tw, w_timewaits (y_world y) !! t = Some tw → t ∉ sk_timewait_queue o → w_timewaits (y_world y') !! t = Some tw;
  em_table : ∀ id e, w_stream_table (y_world y) !! id = Some e → (∀ t, e = EntryTimewait t → t ∉ sk_timewait_queue o) →
    w_stream_table (y_world y') !! id = Some e;
  em_less : w_stream_table (y_world y') ⊆ w_stream_table (y_world y) }.

Lemma emptied_refl y k o : get_socket y k = Some o → emptied y k o y.
Proof. intros Ho. split; try done. exists o. by rewrite insert_id. Qed.
Lemma emptied_trans y1 k o1 y2 o2 y3 :
  emptied y1 k o1 y2 → get_socket y2 k = Some o2 → emptied y2 k o2 y3 → emptied y1 k o1 y3.
Proof.
  intros [A1 A2 (p & A3 & A4 & A5 & A6) A7 A8 A9 A10] Ho [B1 B2 (p' & B3 & B4 & B5 & B6) B7 B8 B9 B10].
  assert (o2 = p) as -> by (unfold get_socket in Ho; rewrite A3, lookup_insert_eq in Ho; congruence).
  split; [congruence..| | | | |by etransitivity].
  - exists p'. rewrite B3, A3, insert_insert_eq. split; [done|]. split; [congruence|]. split; [by transitivity (sk_timewait_queue p)|by transitivity (sk_ttl_queue p)].
  - intros wr. by rewrite B7.
  - intros t tw Ht Hn. apply B8; [by apply A8|]. by intros ?%A5.
  - intros id e He Hn. apply B9; [by apply A9|]. intros t Et ?%A5. by apply (Hn t).
Qed.

(** The first timewait record of the queue. *)
Lemma timewait_run y k o t q :
  get_socket y k = Some o → socket_ready y k o → sk_timewait_queue o = t :: q →
  ∃ y' o', timewait_timeout y t = Some y' ∧ emptied y k o y' ∧ get_socket y' k = Some o' ∧ socket_ready y' k o' ∧
    sk_timewait_queue o' = q ∧ sk_ttl_queue o' = sk_ttl_queue o.
Proof.
  intros Ho [R1 R2 R3] Eq. destruct (R2 t) as (tw & Htw & Ek & He); [rewrite Eq; by left|]. unfold timewait_timeout, entry_remove. rewrite Htw.
  cbn [mbind option_bind]. rewrite He, bool_decide_true by done. unfold get_socket in *. cbn [y_world upd_field w_socket_objs]. rewrite Ek, Ho.
  cbn [mbind option_bind]. unfold queue_unlink. rewrite Eq, decide_True by by left. cbn [mbind option_bind].
  rewrite Eq in R1. apply NoDup_cons in R1 as [Hn R1].
  assert (filter (.≠ t) (t :: q) = q) as ->.
  { rewrite filter_cons_False by (by intros []). apply filter_id. by intros x Hx ->. }
  eexists _, (o <| sk_timewait_queue := q |>). split; [reflexivity|]. split; [|split; [|split; [split|split; done]]].
  - split; try done.
    + exists (o <| sk_timewait_queue := q |>). cbn [y_world upd_field w_socket_objs]. rewrite (alter_at _ _ _ o) by done. split; [done|].
      split; [done|]. cbn [sk_timewait_queue sk_ttl_queue upd_field]. rewrite Eq. split; [by apply list_subseteq_cons|done].
    + intros x xw Hx Hnx. cbn [y_world upd_field w_timewaits]. rewrite lookup_delete_ne; [done|]. intros <-. apply Hnx. rewrite Eq. by left.
    + intros id e Hid Hne. cbn [y_world upd_field w_stream_table]. rewrite lookup_delete_ne; [done|]. intros <-.
      apply (Hne t); [congruence|]. rewrite Eq. by left.
    + apply delete_subseteq.
  - cbn [y_world upd_field w_socket_objs]. by rewrite lookup_alter_eq, Ho.
  - done.
  - intros x Hx. cbn [sk_timewait_queue upd_field] in Hx. destruct (R2 x) as (xw & Hxw & Exk & Hxe); [rewrite Eq; by right|].
    assert (x ≠ t) by by intros ->. exists xw. cbn [y_world upd_field w_timewaits w_stream_table]. rewrite lookup_delete_ne by done.
    split; [done|]. split; [done|]. rewrite lookup_delete_ne; [done|]. intros E. rewrite E in He. congruence.
  - intros r Hr. by apply R3.
Qed.

Lemma close_timewaits_run q y k o :
  get_socket y k = Some o → socket_ready y k o → sk_timewait_queue o = q →
  ∃ y' o', close_timewaits (length q) y k = Some y' ∧ emptied y k o y' ∧ get_socket y' k = Some o' ∧ socket_ready y' k o' ∧
    sk_timewait_queue o' = [] ∧ sk_ttl_queue o' = sk_ttl_queue o.
Proof.
  revert y o. induction q as [|t q IH]; intros y o Ho Hr Eq; cbn [length close_timewaits].
  - rewrite Ho. cbn [mbind option_bind]. rewrite Eq. exists y, o. split; [done|]. split; [by apply emptied_refl|]. by split.
  - rewrite Ho. cbn [mbind option_bind]. rewrite Eq. destruct (timewait_run y k o t q Ho Hr Eq) as (y1 & o1 & -> & H1 & Ho1 & Hr1 & Eq1 & Es1).
    cbn [mbind option_bind]. destruct (IH y1 o1 Ho1 Hr1 Eq1) as (y2 & o2 & -> & H2 & Ho2 & Hr2 & Eq2 & Es2).
    exists y2, o2. split; [done|]. split; [by apply (emptied_trans y k o y1 o1)|]. split; [done|]. split; [done|]. split; [done|congruence].
Qed.

Lemma cancel_sends_run q y k o :
  get_socket y k = Some o → socket_ready y k o → sk_ttl_queue o = q → sk_timewait_queue o = [] →
  ∃ y' o', cancel_sends ucb (length q) y k = Some y' ∧ emptied y k o y' ∧ get_socket y' k = Some o' ∧
    sk_timewait_queue o' = [] ∧ sk_ttl_queue o' = [].
Proof.
  revert y o. induction q as [|r q IH]; intros y o Ho Hr Eq Et; cbn [length cancel_sends].
  - rewrite Ho. cbn [mbind option_bind]. rewrite Eq. exists y, o. split; [done|]. split; [by apply emptied_refl|]. by split.
  - rewrite Ho. cbn [mbind option_bind]. rewrite Eq. set (y1 := y <| socket k ::= _ |>). set (o1 := o <| sk_ttl_queue := q |>).
    pose proof Hr as [R1 R2 R3]. destruct (R3 r) as [req Hreq]; [rewrite Eq; by left|].
    change (w_sends (y_world y1)) with (w_sends (y_world y)). rewrite Hreq. cbn [mbind option_bind].
    set (m := if ss_on_send req then _ else _).
    assert (∃ y2, m = Some y2 ∧ y_world y2 = y_world y1 ∧ y_next y2 = y_next y1 ∧
      ∀ wr, acks_of wr (io_log (y_io y2)) = acks_of wr (io_log (y_io y1))) as (y2 & -> & W2 & N2 & A2).
    { unfold m, ycall. destruct (ss_on_send req); [rewrite Hucb|]; by eexists. }
    cbn [mbind option_bind]. unfold get_socket in *.
    assert (w_socket_objs (y_world y1) = <[k := o1]> (w_socket_objs (y_world y))) as E1.
    { unfold y1. cbn [y_world upd_field w_socket_objs]. by rewrite (alter_at _ _ _ o). }
    assert (emptied y k o y2) as H2.
    { split; rewrite ?W2; try done; [by unfold streams_view; rewrite W2, N2|]. exists o1. split; [done|]. split; [done|].
      split; [done|]. cbn [o1 sk_ttl_queue upd_field]. rewrite Eq. by apply list_subseteq_cons. }
    assert (w_socket_objs (y_world y2) !! k = Some o1) as Ho2 by (rewrite W2, E1; apply lookup_insert_eq).
    destruct (IH y2 o1 Ho2) as (y3 & o3 & -> & H3 & Ho3 & Eq3 & Es3); [|done|done|].
    { split; rewrite ?W2; [done|exact R2|]. intros x Hx. apply R3. rewrite Eq. by right. }
    exists y3, o3. split; [done|]. split; [by apply (emptied_trans y k o y2 o1)|]. done.
Qed.

(** A socket without streams. *)
Record socket_closed (y : sys) (k : socket_id) (o : socket) (y' : sys) : Prop := {
  sc_view : streams_view y' = streams_view y;
  sc_lists : w_sockets (y_world y') = udx__link_remove (w_sockets (y_world y)) k ∧
    w_socket_next (y_world y') = <[k := link_next (w_sockets (y_world y)) k]> (w_socket_next (y_world y));
  sc_objs : ∃ o', w_socket_objs (y_world y') = <[k := o']> (w_socket_objs (y_world y)) ∧ sk_streams o' = [] ∧
    has (sk_status o') UDX_SOCKET_CLOSED = true ∧ sk_timewait_queue o' = [] ∧ sk_ttl_queue o' = [];
  sc_acks : ∀ wr, acks_of wr (io_log (y_io y')) = acks_of wr (io_log (y_io y));
  sc_timewaits : ∀ t tw, w_timewaits (y_world y) !! t = Some tw → t ∉ sk_timewait_queue o → w_timewaits (y_world y') !! t = Some tw;
  sc_table : ∀ id e, w_stream_table (y_world y) !! id = Some e → (∀ t, e = EntryTimewait t → t ∉ sk_timewait_queue o) →
    w_stream_table (y_world y') !! id = Some e;
  sc_less : w_stream_table (y_world y') ⊆ w_stream_table (y_world y) }.

Lemma socket_close_run y k o :
  get_socket y k = Some o → socket_ready y k o → sk_streams o = [] →
  ∃ y', udx_socket_close ucb y k = Some (y', 0) ∧ socket_closed y k o y'.
Proof.
  intros Ho Hr Es. unfold udx_socket_close. rewrite Ho. cbn [mbind option_bind]. rewrite Es.
  set (y1 := y <| socket k ::= _ |>).
  set (o1 := o <| sk_status ::= λ f, set_flag f UDX_SOCKET_CLOSED |> <| sk_ttl_check := false |> <| sk_ttl_check_timer := false |>).
  assert (w_socket_objs (y_world y1) = <[k := o1]> (w_socket_objs (y_world y))) as E1.
  { unfold y1. cbn [y_world upd_field w_socket_objs]. by rewrite (alter_at _ _ _ o). }
  assert (get_socket y1 k = Some o1) as Ho1 by (unfold get_socket; rewrite E1; apply lookup_insert_eq).
  destruct (close_timewaits_run (sk_timewait_queue o) y1 k o1 Ho1) as (y2 & o2 & -> & H2 & Ho2 & Hr2 & Et2 & Es2); [by destruct Hr|done|].
  cbn [mbind option_bind]. rewrite Ho2. cbn [mbind option_bind].
  change (sk_ttl_queue o1) with (sk_ttl_queue o) in Es2.
  destruct (cancel_sends_run (sk_ttl_queue o) y2 k o2 Ho2 Hr2 Es2 Et2) as (y3 & o3 & E3 & H3 & Ho3 & Et3 & Es3). rewrite Es2, E3.
  cbn [mbind option_bind]. eexists. split; [reflexivity|]. pose proof (emptied_trans _ _ _ _ _ _ H2 Ho2 H3) as [M1 M2 (o' & M3 & M4 & _) M5 M6 M7 M8].
  injection M2 as M2 M2'. unfold get_socket in Ho3. rewrite M3, lookup_insert_eq in Ho3. injection Ho3 as <-. injection M4 as M4 M4'. split.
  - transitivity (streams_view y3); [done|]. by transitivity (streams_view y1).
  - cbn [y_world upd_field w_sockets w_socket_next]. by rewrite M2, M2'.
  - exists o'. cbn [y_world upd_field w_socket_objs]. rewrite M3, E1, insert_insert_eq. split; [done|]. split; [congruence|].
    split; [|done]. rewrite M4'. by apply has_set_same.
  - intros wr. cbn [y_io upd_field]. by rewrite M5.
  - exact M6.
  - exact M7.
  - exact M8.
Qed.
End Sockets.

(** ** Closing one stream *)

Section Streams.
Context `{Env}.
Variable ucb : callback → sys → option sys.
Hypothesis Hucb : ∀ k y, ucb k y = Some y.

Lemma enter_leave c : alone c → enter (c_self c) (leave c) = Some c.
Proof.
  unfold alone. destruct c as [s p b w n i self [r t oi so st tb ob tw se ot sn kn]]. cbn. intros Hal. unfold enter, leave, upd_field. cbn.
  rewrite lookup_insert_eq. cbn. by rewrite delete_insert_id.
Qed.
Lemma leave_enter y sid c : enter sid y = Some c → leave c = y ∧ alone c ∧ c_self c = sid.
Proof.
  unfold enter, alone, upd_field. destruct y as [[r t oi so st tb ob tw se ot sn kn] i n]. cbn. intros E. apply bind_Some in E as ([s p b w] & Ho & E).
  injection E as <-. cbn. split; [|split; [apply lookup_delete_eq|done]]. unfold leave, upd_field. cbn. by rewrite insert_delete_eq, insert_id.
Qed.
Lemma silent_cb k c : alone c → Lifecycle.cb ucb k c = Some c.
Proof. intros Hal. unfold Lifecycle.cb, outside. rewrite Hucb. by apply enter_leave. Qed.
Lemma silent_quiet : quiet (Lifecycle.cb ucb).
Proof.
  intros k c. unfold Lifecycle.cb, outside. rewrite Hucb. cbn [mbind option_bind]. unfold enter, leave. cbn [y_world upd_field w_others].
  rewrite lookup_insert_eq. cbn [mbind option_bind]. eexists. split; [reflexivity|]. by split.
Qed.

Lemma has_lxor f g x : Z.land g x = 0 → has (Z.lxor f g) x = has f x.
Proof.
  intros E. unfold has. assert (Z.land (Z.lxor f g) x = Z.lxor (Z.land f x) (Z.land g x)) as ->; [|by rewrite E, Z.lxor_0_r].
  apply Z.bits_inj'. intros n _. rewrite Z.land_spec, !Z.lxor_spec, !Z.land_spec. by destruct (Z.testbit f n), (Z.testbit g n), (Z.testbit x n).
Qed.

Lemma has_clear_other f g x : Z.land g x = 0 → has (clear_flag f g) x = has f x.
Proof.
  intros E. unfold has, clear_flag. assert (Z.land (Z.ldiff f g) x = Z.land f x) as ->; [|done].
  apply Z.bits_inj'. intros n _. rewrite !Z.land_spec, Z.ldiff_spec. apply (f_equal (λ z, Z.testbit z n)) in E. rewrite Z.land_spec, Z.bits_0 in E.
  by destruct (Z.testbit f n), (Z.testbit g n), (Z.testbit x n).
Qed.

Definition send_view (s : stream) :=
  (s_outgoing s, s_remote_acked s, s_seq s, s_pkt s, s_write_queue s, writes_queued_bytes (s_acct s)).
Lemma closable_same c c' out :
  (c_packets c', c_wbufs c', c_writes c', c_next c') = (c_packets c, c_wbufs c, c_writes c, c_next c) →
  send_view (c_s c') = send_view (c_s c) → (∀ wr w, c_writes c !! wr = Some w → acks_of wr (io_log (c_io c')) = acks_of wr (io_log (c_io c))) →
  closable c out → closable c' out.
Proof.
  intros [= E1 E2 E3 E4] [= V1 V2 V3 V4 V5 V6] Ha [K1 K2 K3 K4 K5 K6 K7].
  assert (window (c_s c') = window (c_s c)) as Ew by (unfold window; congruence).
  split; rewrite ?E1, ?V1, ?V2, ?V4, ?Ew; try done.
  assert (flying c' = flying c) as Ef by (unfold flying, owned; by rewrite E1, V1, V4).
  destruct K7 as [L1 L2 L3 L4 L5 L6 L7 L8 L9]. split; rewrite ?E2, ?E3, ?E4, ?V5, ?V6, ?Ef; try done.
  intros wr w Hw. rewrite (Ha wr w Hw). by apply L9.
Qed.

Lemma has_clear_same f g : has (clear_flag f g) g = false.
Proof.
  unfold has, clear_flag. assert (Z.land (Z.ldiff f g) g = 0) as ->; [|done].
  apply Z.bits_inj'. intros n _. rewrite Z.land_spec, Z.ldiff_spec, Z.bits_0. by destruct (Z.testbit f n), (Z.testbit g n).
Qed.
Lemma dying_dead f : has f UDX_STREAM_DESTROYING = true → has f UDX_STREAM_DEAD = true.
Proof.
  unfold has, truthy. rewrite !negb_true_iff, !Z.eqb_neq. intros Hn E. apply Hn.
  change UDX_STREAM_DESTROYING with (Z.land UDX_STREAM_DEAD UDX_STREAM_DESTROYING). by rewrite Z.land_assoc, E.
Qed.

Lemma dead_dying f : has f UDX_STREAM_DEAD = true → has f UDX_STREAM_CLOSED = false → has f UDX_STREAM_DESTROYING = true.
Proof.
  unfold has, truthy. rewrite !negb_true_iff, negb_false_iff, !Z.eqb_neq, Z.eqb_eq. intros Hn E Hd. apply Hn.
  unfold UDX_STREAM_DEAD. by rewrite Z.land_lor_distr_r, E, Hd.
Qed.

(** The world once the stream has left it. *)
Definition world_without (c : ctx) : world := c_world (unlink_stream c) <| w_stream_table ::= delete (s_local_id (c_s c)) |>.

(** Every write is answered: it is complete, and its user was told once. *)
Definition answered (ws : gmap write_id write) (bufs : gmap wbuf_id wbuf) (ws' : gmap write_id write) (log : list event) : Prop :=
  ∀ wr w, ws !! wr = Some w →
    ∃ w', ws' !! wr = Some w' ∧ wr_size w' = wr_size w ∧ wr_bytes_acked w' = wr_size w ∧
      (wr_on_ack w = true → plain wr bufs → acks_of wr log = 1).

(** The stream after its close, before its socket is. *)
Record gone (c c' : ctx) : Prop := {
  go_world : c_world c' = world_without c;
  go_self : (c_self c', c_next c', s_socket (c_s c')) = (c_self c, c_next c, s_socket (c_s c));
  go_closed : has (s_status (c_s c')) UDX_STREAM_CLOSED = true;
  go_answered : answered (c_writes c) (c_wbufs c) (c_writes c') (io_log (c_io c'));
  go_writes : ∀ wr, c_writes c !! wr = None → c_writes c' !! wr = None ∧ acks_of wr (io_log (c_io c')) = acks_of wr (io_log (c_io c)) }.

Lemma close_internal_run fuel c out :
  alone c → closable c out → has (s_status (c_s c)) UDX_STREAM_CLOSED = false →
  has (s_status (c_s c)) UDX_STREAM_TIMEWAIT_WANTED = false →
  s_relay_to (c_s c) = None → Forall (.= None) (cb_values (s_relaying_streams (c_s c))) →
  ∃ c', gone c c' ∧
    close_stream_internal ucb (S fuel) c 0 =
      match s_socket (c_s c) with
      | Some k =>
          if w_teardown (c_world c') && (match sk_streams <$> (w_socket_objs (c_world c') !! k) with Some [] => true | _ => false end)
          then outside (λ y, '(y, _) ← udx_socket_close ucb y k; Some y) c'
          else Some c'
      | None => Some c'
      end.
Proof.
  intros Hal Hc Hst Htw Hrel Hrs. cbn [close_stream_internal].
  assert (Z.land (s_status (c_s c)) UDX_STREAM_CLOSED =? 0 = true) as ->.
  { revert Hst. unfold has, truthy. by destruct (_ =? 0). }
  cbv zeta. set (c1 := c <| c_s ::= _ |>).
  assert (has (s_status (c_s (unlink_stream c1))) UDX_STREAM_TIMEWAIT_WANTED = false) as ->.
  { change (s_status (c_s (unlink_stream c1))) with (clear_flag (set_flag (s_status (c_s c)) UDX_STREAM_CLOSED) UDX_STREAM_CONNECTED).
    by rewrite has_clear_other, has_set_other. }
  cbn [mbind option_bind]. set (c2 := unlink_stream c1 <| c_world ::= _ |>).
  assert (alone c2) as Hal2 by (unfold c2, unlink_stream, alone; cbn; by destruct (s_socket (c_s c))).
  set (c3' := if on_close _ then _ else _). assert (∃ c3, c3' = Some c3 ∧ (c_s c3, c_packets c3, c_wbufs c3, c_writes c3, c_next c3, c_self c3, c_world c3) =
    (c_s c2, c_packets c2, c_wbufs c2, c_writes c2, c_next c2, c_self c2, c_world c2) ∧
    ∀ wr, acks_of wr (io_log (c_io c3)) = acks_of wr (io_log (c_io c2))) as (c3 & -> & E3 & A3).
  { unfold c3', call. destruct (on_close _); [rewrite silent_cb by exact Hal2|]; eexists; (split; [reflexivity|]); by split. }
  cbn [mbind option_bind]. injection E3 as F1 F2 F3 F4 F5 F6 F7.
  assert (alone c3) as Hal3 by (unfold alone; by rewrite F6, F7).
  assert (closable c3 out) as Hc3.
  { apply (closable_same c); [by rewrite F2, F3, F4, F5|by rewrite F1|intros wr w _; by rewrite A3|done]. }
  destruct (clear_outgoing_run _ silent_quiet c3 out Hc3) as (c4 & E4 & _ & _ & _ & Hans). rewrite E4. cbn [mbind option_bind].
  apply (clear_outgoing_hushed _ silent_cb) in E4; [|done]. destruct E4 as [[= G1 G2 G3] [= G4 G5 G6 G7 G8 G9] G10].
  set (c5 := if has _ UDX_STREAM_READING then _ else _).
  assert (stays (c_s c5) = (s_status (c_s c5), s_socket (c_s c), s_local_id (c_s c), None, s_relaying_streams (c_s c), s_cb (c_s c5)) ∧
    has (s_status (c_s c5)) UDX_STREAM_CLOSED = true ∧
    (c_world c5, c_self c5, c_next c5, c_io c5, c_writes c5) = (c_world c4, c_self c4, c_next c4, c_io c4, c_writes c4)) as (S5 & K5 & W5).
  { assert (has (s_status (c_s c4)) UDX_STREAM_CLOSED = true) as K4.
    { rewrite G4, F1. change (has (clear_flag (set_flag (s_status (c_s c)) UDX_STREAM_CLOSED) UDX_STREAM_CONNECTED) UDX_STREAM_CLOSED = true).
      rewrite has_clear_other by done. by apply has_set_same. }
    assert (s_relay_to (c_s c4) = None) as G7' by (rewrite G7, F1; exact Hrel). clear G7. rename G7' into G7.
    assert ((s_socket (c_s c4), s_local_id (c_s c4), s_relaying_streams (c_s c4)) = (s_socket (c_s c), s_local_id (c_s c), s_relaying_streams (c_s c)))
      as [= M5 M6 M8] by (rewrite G5, G6, G8, F1; reflexivity). clear G5 G6 G8 F1.
    unfold c5, udx_stream_read_stop, stays. destruct (has _ UDX_STREAM_READING); [cbn [c_s upd_field clear_incoming_packets]; destruct (Z.land _ UDX_STREAM_READING =? 0)|]; cbn;
      (split; [by rewrite ?M5, ?M6, ?G7, ?M8|split; [rewrite ?has_lxor by done; exact K4|done]]). }
  clearbody c5. injection S5 as S1 S2 S3 S4. injection W5 as W1 W2 W3 W4 W5. rewrite S3. cbn [mbind option_bind].
  rewrite S4. match goal with |- context [(?f (cb_values (s_relaying_streams (c_s c))) c5)] =>
    assert (∀ l x, Forall (.= None) l → f l x = Some x) as Hd end.
  { intros l x Hl. induction Hl as [|v l -> Hl IH]; [done|]. exact IH. }
  rewrite Hd by done. cbn [mbind option_bind]. set (c6 := c5 <| c_s ::= close_teardown |>). exists c6. split; [split|done].
  - change (c_world c6) with (c_world c5). rewrite W1, G1, F7. reflexivity.
  - change (c_self c6, c_next c6, s_socket (c_s c6)) with (c_self c5, c_next c5, s_socket (c_s c5)). rewrite W2, W3, S1, G2, G3, F5, F6. reflexivity.
  - exact K5.
  - change (c_writes c6) with (c_writes c5). change (c_io c6) with (c_io c5). rewrite W4, W5. rewrite F3, F4 in Hans. exact Hans.
  - intros wr Hn. change (c_writes c6) with (c_writes c5). change (c_io c6) with (c_io c5). rewrite W4, W5.
    assert (c_writes c3 !! wr = None) as Hn3 by by rewrite F4. destruct (G10 wr Hn3) as [H1 H2]. split; [done|]. by rewrite H2, A3.
Qed.
(** ** What the library's lists and queues keep to *)

Definition obj_ctx (y : sys) (x : stream_id) (o : objs) : ctx :=
  mk_ctx (o_s o) (o_packets o) (o_wbufs o) (o_writes o) (y_next y) (y_io y) x (y_world y <| w_others ::= delete x |>).
Definition dead_obj (o : objs) : Prop := has (s_status (o_s o)) UDX_STREAM_DEAD = true.
Definition dead_at (y : sys) (x : stream_id) : Prop := ∃ o, w_others (y_world y) !! x = Some o ∧ dead_obj o.

(** A stream that can be closed: its writes are accounted for, and it relays nothing. *)
Record ready (y : sys) (x : stream_id) (o : objs) : Prop := {
  rd_closable : ∃ out, closable (obj_ctx y x o) out;
  rd_window : has (s_status (o_s o)) UDX_STREAM_DESTROYING = false → window (o_s o) < 2 ^ 32 - 1;
  rd_open : has (s_status (o_s o)) UDX_STREAM_CLOSED = false;
  rd_socket : has (s_status (o_s o)) UDX_STREAM_CONNECTED = true → is_Some (s_socket (o_s o));
  rd_dying : has (s_status (o_s o)) UDX_STREAM_DESTROYING = true →
    has (s_status (o_s o)) UDX_STREAM_TIMEWAIT_WANTED = false ∧ is_Some (s_socket (o_s o));
  rd_relay : s_relay_to (o_s o) = None ∧ Forall (.= None) (cb_values (s_relaying_streams (o_s o)));
  rd_entry : w_stream_table (y_world y) !! s_local_id (o_s o) = Some (EntryStream x) }.

Definition listed (y : sys) (x : stream_id) (o : objs) : Prop :=
  w_others (y_world y) !! x = Some o ∧ x ∈ stream_list (y_world y) (o_s o).

Record tidy (y : sys) : Prop := {
  td_nodup : NoDup (w_streams (y_world y));
  td_home : ∀ x, x ∈ w_streams (y_world y) → ∃ o, w_others (y_world y) !! x = Some o ∧ s_socket (o_s o) = None;
  td_socket : ∀ k sk, get_socket y k = Some sk → socket_ready y k sk ∧ NoDup (sk_streams sk) ∧ (sk_streams sk ≠ [] → k ∈ w_sockets (y_world y)) ∧
    ∀ x, x ∈ sk_streams sk → ∃ o, w_others (y_world y) !! x = Some o ∧ s_socket (o_s o) = Some k;
  td_sockets : NoDup (w_sockets (y_world y)) ∧ ∀ k, k ∈ w_sockets (y_world y) → is_Some (get_socket y k);
  td_ready : ∀ x o, listed y x o → ready y x o;
  td_writes : ∀ x1 x2 o1 o2, x1 ≠ x2 → listed y x1 o1 → listed y x2 o2 → o_writes o1 ##ₘ o_writes o2 }.

Lemma ready_same y y' x o :
  y_next y' = y_next y → (∀ wr w, o_writes o !! wr = Some w → acks_of wr (io_log (y_io y')) = acks_of wr (io_log (y_io y))) →
  (∀ id, w_stream_table (y_world y) !! id = Some (EntryStream x) → w_stream_table (y_world y') !! id = Some (EntryStream x)) →
  ready y x o → ready y' x o.
Proof.
  intros En Ha Ht [[out R1] R2 R3 R4 R5 R6 R7]. split; try done; [|by apply Ht]. exists out. apply (closable_same (obj_ctx y x o)); try done.
  unfold obj_ctx. cbn [c_packets c_wbufs c_writes c_next]. by rewrite En.
Qed.

(** ** A socket is closed *)

Lemma closed_lists y k sk y' :
  get_socket y k = Some sk → sk_streams sk = [] → socket_closed y k sk y' →
  (∀ s, stream_list (y_world y') s = stream_list (y_world y) s) ∧ (∀ x o, listed y' x o ↔ listed y x o).
Proof.
  intros Hk Es [[= V1 V2 V3 V4 V5] _ (sk' & O1 & O2 & _) _ _ _ _].
  assert (∀ s, stream_list (y_world y') s = stream_list (y_world y) s) as Hl.
  { intros s. unfold stream_list. destruct (s_socket s) as [j|]; [|done]. rewrite O1. destruct (decide (j = k)) as [->|].
    - rewrite lookup_insert_eq. unfold get_socket in Hk. by rewrite Hk, O2, Es.
    - by rewrite lookup_insert_ne. }
  split; [done|]. intros x o. unfold listed. by rewrite V3, Hl.
Qed.

Lemma tidy_closed y k sk y' :
  tidy y → get_socket y k = Some sk → sk_streams sk = [] → socket_closed y k sk y' → tidy y'.
Proof.
  intros [T1 T2 T3 [T4 T4'] T5 T6] Hk Es Hc. destruct (closed_lists y k sk y' Hk Es Hc) as [_ Hl].
  destruct Hc as [[= V1 V2 V3 V4 V5 V6] [L1 L2] (sk' & O1 & O2 & O3 & O4 & O5) A B C _]. split.
  - by rewrite V2.
  - intros x. rewrite V2, V3. apply T2.
  - intros j o. unfold get_socket. rewrite O1. intros [[<- <-]|[Hne Hj]]%lookup_insert_Some.
    + split; [split; [rewrite O4; constructor|rewrite O4; by intros t []%elem_of_nil|rewrite O5; by intros r []%elem_of_nil]|].
      rewrite O2. split; [constructor|]. split; [done|]. by intros x []%elem_of_nil.
    + destruct (T3 j o Hj) as ([R1 R2 R3] & N & I & S). split; [split; [done| |by rewrite V5]|].
      * intros t Ht. destruct (R2 t Ht) as (tw & Htw & Ej & He). exists tw.
        assert (t ∉ sk_timewait_queue sk) as Hnt.
        { intros Hin. destruct (T3 k sk Hk) as ([_ R2' _] & _). destruct (R2' t Hin) as (tw' & Htw' & Ek & _). congruence. }
        split; [by apply B|]. split; [done|]. apply C; [done|]. by intros t' [= <-].
      * split; [done|]. rewrite V3. split; [|done]. intros Hn. rewrite L1. apply list_elem_of_filter. split; [done|by apply I].
  - rewrite L1. split; [by apply NoDup_filter|]. intros j [_ Hj]%list_elem_of_filter. unfold get_socket. rewrite O1.
    destruct (decide (j = k)) as [->|]; [rewrite lookup_insert_eq; by eexists|rewrite lookup_insert_ne by done; by apply T4'].
  - intros x o Hx%Hl. apply (ready_same y); [done|by intros| |by apply T5]. intros id He. by apply C.
  - intros x1 x2 o1 o2 Hne H1%Hl H2%Hl. by apply (T6 x1 x2).
Qed.
(** ** A stream leaves its list, or only starts to end *)

(** What the streams and the queues of a socket are. *)
Definition bare (sk : socket) := (sk_streams sk, sk_status sk, sk_timewait_queue sk, sk_ttl_queue sk).
Definition bare_socket (y : sys) (k : socket_id) := bare <$> get_socket y k.

(** Nothing but the stream [x] and sockets' counters changes. *)
Record begun (y : sys) (x : stream_id) (o : objs) (y' : sys) : Prop := {
  bg_view : (w_teardown (y_world y'), w_sockets (y_world y'), w_streams (y_world y'), w_stream_table (y_world y'), w_timewaits (y_world y'),
     w_sends (y_world y'), w_stream_next (y_world y'), w_socket_next (y_world y'), y_next y') =
    (w_teardown (y_world y), w_sockets (y_world y), w_streams (y_world y), w_stream_table (y_world y), w_timewaits (y_world y),
     w_sends (y_world y), w_stream_next (y_world y), w_socket_next (y_world y), y_next y);
  bg_sockets : ∀ k, bare_socket y' k = bare_socket y k;
  bg_acks : ∀ wr, acks_of wr (io_log (y_io y')) = acks_of wr (io_log (y_io y));
  bg_others : ∃ o', w_others (y_world y') = <[x := o']> (w_others (y_world y)) ∧ dead_obj o' ∧
    (s_socket (o_s o'), s_local_id (o_s o'), o_writes o', o_wbufs o') = (s_socket (o_s o), s_local_id (o_s o), o_writes o, o_wbufs o) ∧ (ready y x o → ready y' x o') }.

(** [x] is closed and out of its list. *)
Record departed (y : sys) (x : stream_id) (o : objs) (y' : sys) : Prop := {
  lf_view : (w_teardown (y_world y'), w_sockets (y_world y'), w_timewaits (y_world y'), w_sends (y_world y'), w_socket_next (y_world y'), y_next y') =
    (w_teardown (y_world y), w_sockets (y_world y), w_timewaits (y_world y), w_sends (y_world y), w_socket_next (y_world y), y_next y);
  lf_table : w_stream_table (y_world y') = delete (s_local_id (o_s o)) (w_stream_table (y_world y));
  lf_next : w_stream_next (y_world y') = <[x := link_next (stream_list (y_world y) (o_s o)) x]> (w_stream_next (y_world y));
  lf_streams : w_streams (y_world y') =
    match s_socket (o_s o) with Some _ => w_streams (y_world y) | None => udx__link_remove (w_streams (y_world y)) x end;
  lf_sockets : ∀ k, bare_socket y' k =
    (λ b, (if decide (s_socket (o_s o) = Some k) then udx__link_remove b.1.1.1 x else b.1.1.1, b.1.1.2, b.1.2, b.2)) <$> bare_socket y k;
  lf_acks : ∀ wr, o_writes o !! wr = None → acks_of wr (io_log (y_io y')) = acks_of wr (io_log (y_io y));
  lf_others : ∃ o', w_others (y_world y') = <[x := o']> (w_others (y_world y)) ∧ has (s_status (o_s o')) UDX_STREAM_CLOSED = true ∧
    s_socket (o_s o') = s_socket (o_s o) ∧ answered (o_writes o) (o_wbufs o) (o_writes o') (io_log (y_io y')) }.

Lemma stream_list_bare y s :
  stream_list (y_world y) s = match s_socket s with
    | Some k => match bare_socket y k with Some b => b.1.1.1 | None => [] end | None => w_streams (y_world y) end.
Proof. unfold stream_list, bare_socket, get_socket. destruct (s_socket s) as [k|]; [|done]. by destruct (w_socket_objs (y_world y) !! k). Qed.

Lemma begun_lists y x o y' : begun y x o y' → ∀ s, stream_list (y_world y') s = stream_list (y_world y) s.
Proof. intros [[= _ _ V3 _ _ _ _ _] Hb _ _] s. rewrite !stream_list_bare, V3. destruct (s_socket s); [by rewrite Hb|done]. Qed.
Lemma left_lists y x o y' : departed y x o y' → ∀ s, stream_list (y_world y') s =
  if decide (s_socket s = s_socket (o_s o)) then udx__link_remove (stream_list (y_world y) s) x else stream_list (y_world y) s.
Proof.
  intros Hl s. rewrite !stream_list_bare, (lf_streams _ _ _ _ Hl). destruct (s_socket s) as [k|].
  - rewrite (lf_sockets _ _ _ _ Hl). destruct (bare_socket y k) as [b|]; cbn [fmap option_fmap option_map fst].
    + destruct (decide (s_socket (o_s o) = Some k)) as [->|Hn]; [by rewrite decide_True|by rewrite decide_False].
    + by destruct (decide _).
  - destruct (s_socket (o_s o)); by rewrite ?decide_True, ?decide_False by congruence.
Qed.

(** Whether a stream is in its list, in terms of the system before. *)
Lemma begun_listed y x o y' z oz :
  begun y x o y' → listed y x o → listed y' z oz → (z ≠ x ∧ listed y z oz) ∨ (z = x ∧ ∃ o', w_others (y_world y') !! x = Some oz ∧ o' = oz).
Proof.
  intros Hb [Ho Hx] [Hz Hin]. destruct (decide (z = x)) as [->|Hne]; [right; split; [done|by exists oz]|left]. split; [done|].
  rewrite (begun_lists _ _ _ _ Hb) in Hin. destruct (bg_others _ _ _ _ Hb) as (o' & E & _). rewrite E, lookup_insert_ne in Hz by done. by split.
Qed.
Lemma left_listed y x o y' z oz : departed y x o y' → listed y x o → listed y' z oz → z ≠ x ∧ listed y z oz.
Proof.
  intros Hl [Ho Hx] [Hz Hin]. rewrite (left_lists _ _ _ _ Hl) in Hin. destruct (lf_others _ _ _ _ Hl) as (o' & E & _ & Es & _).
  destruct (decide (z = x)) as [->|Hne].
  - rewrite E, lookup_insert_eq in Hz. injection Hz as <-. rewrite decide_True in Hin by done. by apply list_elem_of_filter in Hin as [? _].
  - split; [done|]. rewrite E, lookup_insert_ne in Hz by done. split; [done|]. destruct (decide _); [by apply list_elem_of_filter in Hin as [_ ?]|done].
Qed.

Lemma socket_ready_bare y y' k sk sk' :
  (w_timewaits (y_world y'), w_sends (y_world y')) = (w_timewaits (y_world y), w_sends (y_world y)) →
  (∀ id t, w_stream_table (y_world y) !! id = Some (EntryTimewait t) → w_stream_table (y_world y') !! id = Some (EntryTimewait t)) →
  (sk_timewait_queue sk', sk_ttl_queue sk') = (sk_timewait_queue sk, sk_ttl_queue sk) → socket_ready y k sk → socket_ready y' k sk'.
Proof.
  intros [= E1 E2] Ht [= E3 E4] [R1 R2 R3]. split; rewrite ?E1, ?E2, ?E3, ?E4; try done. intros t Hin. destruct (R2 t Hin) as (tw & ? & ? & He).
  exists tw. split; [done|]. split; [done|by apply Ht].
Qed.

Lemma tidy_begun y x o y' : tidy y → listed y x o → begun y x o y' → tidy y'.
Proof.
  intros [T1 T2 T3 [T4 T4'] T5 T6] Hx Hb. pose proof (λ z oz, begun_listed y x o y' z oz Hb Hx) as Hl.
  destruct Hb as [[= V1 V2 V3 V4 V5 V6 V7 V8 V9] Hs Ha (o' & E & Hd & [= E1 _ E2 _] & Hr)].
  assert (∀ z oz, w_others (y_world y) !! z = Some oz → ∃ oz', w_others (y_world y') !! z = Some oz' ∧ s_socket (o_s oz') = s_socket (o_s oz)) as Hk.
  { intros z oz Hz. rewrite E. destruct (decide (z = x)) as [->|]; [|rewrite lookup_insert_ne by done; by exists oz].
    rewrite lookup_insert_eq. exists o'. destruct Hx as [Hx _]. assert (oz = o) as -> by congruence. done. }
  split.
  - by rewrite V3.
  - intros z. rewrite V3. intros (oz & Hz & Es)%T2. destruct (Hk z oz Hz) as (oz' & Hz' & Es'). exists oz'. split; [done|congruence].
  - intros k sk' Hsk. pose proof (Hs k) as Hbk. unfold bare_socket in Hbk. rewrite Hsk in Hbk. symmetry in Hbk. apply fmap_Some in Hbk as (sk & Hsk0 & Eb).
    injection Eb as B1 B2 B3 B4. destruct (T3 k sk Hsk0) as (R & N & I & S). split; [|split; [by rewrite B1|split; [by rewrite B1, V2|]]].
    + apply (socket_ready_bare y y' k sk); [congruence|by rewrite V4|congruence|done].
    + intros z. rewrite B1. intros (oz & Hz & Es)%S. destruct (Hk z oz Hz) as (oz' & Hz' & Es'). exists oz'. split; [done|congruence].
  - rewrite V2. split; [done|]. intros k Hin. destruct (T4' k Hin) as [sk Hsk]. specialize (Hs k). unfold bare_socket in Hs. rewrite Hsk in Hs.
    apply fmap_Some in Hs as (sk' & -> & _). by eexists.
  - intros z oz Hz. destruct (Hl z oz Hz) as [[Hne Hz']|[-> _]].
    + apply (ready_same y); [done|by intros|by rewrite V4|by apply T5].
    + destruct Hz as [Hz _]. rewrite E, lookup_insert_eq in Hz. injection Hz as <-. apply Hr. by apply T5.
  - assert (∀ z oz, listed y' z oz → ∃ oz', listed y z oz' ∧ o_writes oz = o_writes oz') as Hw.
    { intros z oz Hz. destruct (Hl z oz Hz) as [[Hne Hz']|[-> _]]; [by exists oz|]. destruct Hz as [Hz _]. rewrite E, lookup_insert_eq in Hz.
      injection Hz as <-. by exists o. }
    intros x1 x2 o1 o2 Hne (o1' & H1 & ->)%Hw (o2' & H2 & ->)%Hw. by apply (T6 x1 x2).
Qed.

Lemma tidy_left y x o y' : tidy y → listed y x o → departed y x o y' → tidy y'.
Proof.
  intros [T1 T2 T3 [T4 T4'] T5 T6] Hx Hlf. pose proof (λ z oz, left_listed y x o y' z oz Hlf Hx) as Hl.
  pose proof (rd_entry _ _ _ (T5 x o Hx)) as Hent.
  destruct Hlf as [[= V1 V2 V3 V4 V5 V6] Ht _ Hst Hs Ha (o' & E & Hd & E1 & _)].
  assert (∀ z oz, w_others (y_world y) !! z = Some oz → ∃ oz', w_others (y_world y') !! z = Some oz' ∧ s_socket (o_s oz') = s_socket (o_s oz)) as Hk.
  { intros z oz Hz. rewrite E. destruct (decide (z = x)) as [->|]; [|rewrite lookup_insert_ne by done; by exists oz].
    rewrite lookup_insert_eq. exists o'. destruct Hx as [Hx _]. assert (oz = o) as -> by congruence. done. }
  assert (∀ id e, w_stream_table (y_world y) !! id = Some e → e ≠ EntryStream x → w_stream_table (y_world y') !! id = Some e) as Htab.
  { intros id e He Hne. rewrite Ht. rewrite lookup_delete_ne; [done|]. congruence. }
  assert (∀ z, z ∈ w_streams (y_world y') → z ∈ w_streams (y_world y)) as Hin.
  { intros z. rewrite Hst. destruct (s_socket (o_s o)); [done|]. by intros [_ ?]%list_elem_of_filter. }
  split.
  - rewrite Hst. destruct (s_socket (o_s o)); [done|by apply NoDup_filter].
  - intros z (oz & Hz & Es)%Hin%T2. destruct (Hk z oz Hz) as (oz' & Hz' & Es'). exists oz'. split; [done|congruence].
  - intros k sk' Hsk. pose proof (Hs k) as Hbk. unfold bare_socket in Hbk. rewrite Hsk in Hbk.
    destruct (get_socket y k) as [sk|] eqn:Hsk0; [|done]. cbn [fmap option_fmap option_map bare fst snd] in Hbk. injection Hbk as B1 B2 B3 B4.
    destruct (T3 k sk Hsk0) as (R & N & I & S).
    assert (∀ z, z ∈ sk_streams sk' → z ∈ sk_streams sk) as Hsub.
    { intros z. rewrite B1. destruct (decide _); [by intros [_ ?]%list_elem_of_filter|done]. }
    split; [|split; [|split]].
    + apply (socket_ready_bare y y' k sk); [congruence|intros id t He; by apply Htab|congruence|done].
    + rewrite B1. destruct (decide _); [by apply NoDup_filter|done].
    + rewrite V2. intros Hn. apply I. intros En. destruct (sk_streams sk') as [|z l]; [done|]. specialize (Hsub z ltac:(left)). rewrite En in Hsub.
      by apply elem_of_nil in Hsub.
    + intros z (oz & Hz & Es)%Hsub%S. destruct (Hk z oz Hz) as (oz' & Hz' & Es'). exists oz'. split; [done|congruence].
  - rewrite V2. split; [done|]. intros k Hk'. destruct (T4' k Hk') as [sk Hsk]. specialize (Hs k). unfold bare_socket in Hs. rewrite Hsk in Hs.
    destruct (get_socket y' k); [by eexists|done].
  - intros z oz Hz. destruct (Hl z oz Hz) as [Hne Hz']. apply (ready_same y); [done| | |by apply T5].
    + intros wr w Hw. apply Ha. apply (map_disjoint_Some_l (o_writes oz) (o_writes o) wr w); [by apply (T6 z x)|done].
    + intros id He. apply Htab; [done|]. congruence.
  - intros x1 x2 o1 o2 Hne [_ H1]%Hl [_ H2]%Hl. by apply (T6 x1 x2).
Qed.
(** ** One stream is destroyed *)

(** [x] is running; only its own fields and counters were changed. *)
Record running (y : sys) (x : stream_id) (o : objs) (c : ctx) : Prop := {
  rn_self : (c_self c, c_next c, c_writes c, c_wbufs c, s_socket (c_s c), s_local_id (c_s c)) =
    (x, y_next y, o_writes o, o_wbufs o, s_socket (o_s o), s_local_id (o_s o));
  rn_view : (w_teardown (c_world c), w_sockets (c_world c), w_streams (c_world c), w_stream_table (c_world c), w_timewaits (c_world c),
     w_sends (c_world c), w_stream_next (c_world c), w_socket_next (c_world c)) =
    (w_teardown (y_world y), w_sockets (y_world y), w_streams (y_world y), w_stream_table (y_world y), w_timewaits (y_world y),
     w_sends (y_world y), w_stream_next (y_world y), w_socket_next (y_world y));
  rn_others : w_others (c_world c) = delete x (w_others (y_world y));
  rn_sockets : ∀ k, bare <$> w_socket_objs (c_world c) !! k = bare_socket y k;
  rn_acks : ∀ wr, acks_of wr (io_log (c_io c)) = acks_of wr (io_log (y_io y)) }.

Lemma running_alone y x o c : running y x o c → alone c.
Proof. intros [[= E _ _ _ _ _] _ Ho _ _]. unfold alone. rewrite Ho, E. apply lookup_delete_eq. Qed.

Lemma running_list y x o c : running y x o c → stream_list (c_world c) (c_s c) = stream_list (y_world y) (o_s o).
Proof.
  intros [[= _ _ _ _ Es _] [= _ _ V _ _ _ _ _] _ Hb _]. rewrite stream_list_bare. unfold stream_list. rewrite Es. destruct (s_socket (o_s o)) as [k|]; [|done].
  rewrite <- Hb. by destruct (w_socket_objs (c_world c) !! k).
Qed.

Lemma gone_left y x o c c' : running y x o c → gone c c' → departed y x o (leave c').
Proof.
  intros Hr [Gw [= G1 G2 G3] G4 G6 G5]. pose proof (running_list _ _ _ _ Hr) as Hlist.
  destruct Hr as [[= R1 R2 R3 R6 R4 R5] [= V1 V2 V3 V4 V5 V6 V7 V8] Ro Rs Ra].
  assert (∀ A (f : world → A), (∀ w m, f (w <| w_others := m |>) = f w) → f (y_world (leave c')) = f (world_without c)) as Hf.
  { intros A f Hf. unfold leave. cbn [y_world]. rewrite <- Gw. apply (Hf (c_world c')). }
  assert (∀ k, bare_socket (leave c') k = bare <$> w_socket_objs (world_without c) !! k) as Hb.
  { intros k. unfold bare_socket, get_socket. by rewrite (Hf _ w_socket_objs). }
  split.
  - rewrite (Hf _ w_teardown), (Hf _ w_sockets), (Hf _ w_timewaits), (Hf _ w_sends), (Hf _ w_socket_next) by done.
    unfold world_without, unlink_stream. cbn [c_world upd_field]. unfold leave. cbn [y_next]. rewrite G2.
    destruct (s_socket (c_s c)); cbn [w_teardown w_sockets w_timewaits w_sends w_socket_next upd_field]; congruence.
  - rewrite (Hf _ w_stream_table) by done. unfold world_without, unlink_stream. cbn [c_world upd_field].
    destruct (s_socket (c_s c)); cbn [w_stream_table upd_field]; congruence.
  - rewrite (Hf _ w_stream_next) by done. unfold world_without, unlink_stream. cbn [c_world upd_field]. rewrite Hlist, R1.
    destruct (s_socket (c_s c)); cbn [w_stream_next upd_field]; congruence.
  - rewrite (Hf _ w_streams) by done. unfold world_without, unlink_stream. cbn [c_world upd_field]. rewrite R4, R1.
    destruct (s_socket (o_s o)); cbn [w_streams upd_field]; congruence.
  - intros k. rewrite Hb, <- Rs. unfold world_without, unlink_stream. cbn [c_world upd_field]. rewrite R4, R1.
    destruct (s_socket (o_s o)) as [j|]; cbn [w_socket_objs upd_field].
    + destruct (decide (j = k)) as [->|Hne].
      * rewrite lookup_alter_eq. destruct (w_socket_objs (c_world c) !! k); [|done]. cbn [fmap option_fmap option_map]. by rewrite decide_True.
      * rewrite lookup_alter_ne by congruence. destruct (w_socket_objs (c_world c) !! k); [|done]. cbn [fmap option_fmap option_map].
        by rewrite decide_False by congruence.
    + by destruct (w_socket_objs (c_world c) !! k).
  - intros wr Hn. unfold leave. cbn [y_io]. rewrite <- Ra. apply G5. by rewrite R3.
  - exists (mk_objs (c_s c') (c_packets c') (c_wbufs c') (c_writes c')). split; [|split; [done|split; [cbn [o_s]; congruence|by rewrite <- R3, <- R6]]].
    unfold leave. cbn [y_world upd_field w_others]. rewrite Gw, G1, R1.
    assert (w_others (world_without c) = delete x (w_others (y_world y))) as ->; [|apply insert_delete_eq].
    rewrite <- Ro. unfold world_without, unlink_stream. cbn [c_world upd_field]. by destruct (s_socket (c_s c)).
Qed.

(** The socket of the last stream is closed with it. *)
Definition ended (y : sys) (x : stream_id) (o : objs) (y' : sys) : Prop :=
  ∃ y1, departed y x o y1 ∧
    ((y' = y1 ∧ (w_teardown (y_world y) = true → ∀ k sk, s_socket (o_s o) = Some k → get_socket y1 k = Some sk → sk_streams sk ≠ [])) ∨
     ∃ k sk, s_socket (o_s o) = Some k ∧ get_socket y1 k = Some sk ∧ sk_streams sk = [] ∧ socket_closed y1 k sk y').

Lemma tidy_ended y x o y' : tidy y → listed y x o → ended y x o y' → tidy y'.
Proof.
  intros Ht Hx (y1 & Hl & [[-> _]|(k & sk & _ & Hk & Es & Hc)]); [by apply (tidy_left y x o)|].
  apply (tidy_closed y1 k sk); [by apply (tidy_left y x o)|done..].
Qed.

Lemma close_run n y x o c out :
  tidy y → listed y x o → running y x o c → closable c out →
  has (s_status (c_s c)) UDX_STREAM_CLOSED = false → has (s_status (c_s c)) UDX_STREAM_TIMEWAIT_WANTED = false →
  s_relay_to (c_s c) = None ∧ Forall (.= None) (cb_values (s_relaying_streams (c_s c))) →
  ∃ c', close_stream_internal ucb (S n) c 0 = Some c' ∧ ended y x o (leave c').
Proof.
  intros Ht Hx Hr Hc H1 H2 [H3 H4]. pose proof (running_alone _ _ _ _ Hr) as Hal.
  destruct (close_internal_run n c out Hal Hc H1 H2 H3 H4) as (c1 & Hg & ->). pose proof (gone_left _ _ _ _ _ Hr Hg) as Hl.
  pose proof Hr as [[= R1 _ _ _ R4 _] _ _ _ _]. rewrite R4.
  assert (w_teardown (c_world c1) = w_teardown (y_world y)) as -> by exact (f_equal (λ v, v.1.1.1.1.1) (lf_view _ _ _ _ Hl)).
  assert (∀ k, w_socket_objs (c_world c1) !! k = get_socket (leave c1) k) as Hs by done.
  destruct (s_socket (o_s o)) as [k|] eqn:Ek; [|exists c1; split; [done|]; exists (leave c1); split; [done|]; left; split; [done|]; intros _ k sk; by rewrite Ek].
  destruct (w_teardown (y_world y)) eqn:Htd; [|exists c1; split; [done|]; exists (leave c1); split; [done|]; left; split; [done|]; intros E; by rewrite Htd in E].
  rewrite Hs. cbn [andb]. destruct (get_socket (leave c1) k) as [sk|] eqn:Hsk; cbn [fmap option_fmap option_map].
  - destruct (sk_streams sk) as [|z l] eqn:Es.
    + assert (tidy (leave c1)) as Ht1 by by apply (tidy_left y x o).
      destruct (socket_close_run ucb Hucb (leave c1) k sk Hsk (proj1 (td_socket _ Ht1 k sk Hsk)) Es) as (y2 & E2 & Hc2).
      unfold outside. rewrite E2. cbn [mbind option_bind]. destruct (lf_others _ _ _ _ Hl) as (o' & Eo & _).
      assert (w_others (y_world y2) = w_others (y_world (leave c1))) as Eo2 by exact (f_equal (λ v, v.1.1.1.2) (sc_view _ _ _ _ Hc2)).
      destruct Hg as [_ [= G1 _ _] _ _ _].
      assert (enter (c_self c1) y2 = Some (obj_ctx y2 x o')) as ->.
      { unfold enter. rewrite Eo2, Eo, G1, R1, lookup_insert_eq. done. }
      exists (obj_ctx y2 x o'). split; [done|].
      assert (leave (obj_ctx y2 x o') = y2) as ->.
      { apply (leave_enter y2 x). unfold enter. rewrite Eo2, Eo, lookup_insert_eq. done. }
      exists (leave c1). split; [done|]. right. by exists k, sk.
    + exists c1. split; [done|]. exists (leave c1). split; [done|]. left. split; [done|]. intros _ k' sk'. rewrite Ek. intros [= <-]. congruence.
  - exists c1. split; [done|]. exists (leave c1). split; [done|]. left. split; [done|]. intros _ k' sk'. rewrite Ek. intros [= <-]. congruence.
Qed.
Lemma running_start y x o : listed y x o → running y x o (obj_ctx y x o).
Proof. intros _. by split. Qed.
Lemma running_step y x o c c' :
  running y x o c →
  (c_self c', c_next c', c_writes c', c_wbufs c', s_socket (c_s c'), s_local_id (c_s c')) =
  (c_self c, c_next c, c_writes c, c_wbufs c, s_socket (c_s c), s_local_id (c_s c)) →
  c_world c' = c_world c → (∀ wr, acks_of wr (io_log (c_io c')) = acks_of wr (io_log (c_io c))) → running y x o c'.
Proof. intros [R1 R2 R3 R4 R5] E1 E2 E3. split; rewrite ?E2; try done; [congruence|]. intros wr. by rewrite E3. Qed.
Lemma running_count y x o c n : running y x o c → running y x o (count_sent c n).
Proof.
  intros [R1 R2 R3 R4 R5]. split; [exact R1| | | |exact R5]; unfold count_sent; cbn [c_world upd_field]; destruct (s_socket (c_s c)) as [k|]; try done.
  intros j. rewrite <- R4. cbn [w_socket_objs upd_field]. destruct (decide (j = k)) as [->|].
  - rewrite lookup_alter_eq. by destruct (w_socket_objs (c_world c) !! k).
  - by rewrite lookup_alter_ne.
Qed.

(** The stream waits for libuv to send its destroy packet. *)
Lemma running_begun y x o c :
  listed y x o → running y x o c → has (s_status (c_s c)) UDX_STREAM_DEAD = true → (ready y x o → ready (leave c) x (mk_objs (c_s c) (c_packets c) (c_wbufs c) (c_writes c))) →
  begun y x o (leave c).
Proof.
  intros [Ho _] Hr Hd Hrd. pose proof (running_alone _ _ _ _ Hr) as Hal. destruct Hr as [[= R1 R2 R3 R6 R4 R5] [= V1 V2 V3 V4 V5 V6 V7 V8] Ro Rs Ra]. split.
  - unfold leave. cbn [y_world y_next upd_field w_teardown w_sockets w_streams w_stream_table w_timewaits w_sends w_stream_next w_socket_next]. congruence.
  - intros k. unfold bare_socket, get_socket, leave. cbn [y_world upd_field w_socket_objs]. apply Rs.
  - intros wr. apply Ra.
  - exists (mk_objs (c_s c) (c_packets c) (c_wbufs c) (c_writes c)). split; [|split; [exact Hd|split; [cbn [o_s o_writes o_wbufs]; congruence|exact Hrd]]].
    unfold leave. cbn [y_world upd_field w_others]. by rewrite Ro, R1, insert_delete_eq.
Qed.

Lemma ready_after y x o c out :
  running y x o c → ready y x o → closable c out → has (s_status (c_s c)) UDX_STREAM_DESTROYING = true →
  has (s_status (c_s c)) UDX_STREAM_TIMEWAIT_WANTED = false → has (s_status (c_s c)) UDX_STREAM_CLOSED = false → is_Some (s_socket (o_s o)) →
  (s_relay_to (c_s c), s_relaying_streams (c_s c)) = (s_relay_to (o_s o), s_relaying_streams (o_s o)) →
  ready (leave c) x (mk_objs (c_s c) (c_packets c) (c_wbufs c) (c_writes c)).
Proof.
  intros [[= R1 R2 R3 R6 R4 R5] [= V1 V2 V3 V4 V5 V6 V7 V8] _ _ _] [_ _ _ _ _ Q5 Q6] Hc Hd Htw Hcl Hso [= E1 E2].
  split; cbn [o_s]; [|congruence|done|by rewrite R4|by rewrite R4|by rewrite E1, E2|].
  - exists out. by apply (closable_same c).
  - unfold leave. cbn [y_world upd_field w_stream_table]. by rewrite V4, R5.
Qed.

Lemma stream_destroy_step fuel c :
  stream_destroy ucb (S fuel) c =
    if has (s_status (c_s c)) UDX_STREAM_CLOSED then Some (c, 0)
    else if has (s_status (c_s c)) UDX_STREAM_DESTROYING then Some (c, 0)
    else
      let c := c <| c_s ::= λ s, s <| s_status ::= λ f, clear_flag f UDX_STREAM_TIMEWAIT_WANTED |> |> in
      if Z.land (s_status (c_s c)) UDX_STREAM_CONNECTED =? 0
      then c ← close_stream_internal ucb fuel c 0; Some (c, 0)
      else
        let c := c <| c_s ::= λ s, s <| s_status ::= λ f, set_flag f UDX_STREAM_DESTROYING |> |> in
        if s_relayed (c_s c) then c ← close_stream_internal ucb fuel c 0; Some (c, 0)
        else
          let bytes := udx_write_header c UDX_HEADER_DESTROY (s_remote_id (c_s c)) in
          let c := c <| c_s ::= λ s, s <| s_seq ::= λ q, u32 (q + 1) |> |> in
          _ ← s_socket (c_s c);
          let '(i, err) := uv_udp_try_send (c_io c) (s_remote_addr (c_s c)) bytes in
          let c := c <| c_io := i |> in
          if err =? UV_EAGAIN then
            let '(i, err) := uv_udp_send (c_io c) (s_remote_addr (c_s c)) bytes in
            let c := c <| c_io := i |> in
            if err <? 0 then c ← close_stream_internal ucb fuel (count_sent c UDX_HEADER_SIZE) 0; Some (c, 1)
            else Some (c, 1)
          else c ← close_stream_internal ucb fuel (count_sent c UDX_HEADER_SIZE) 0; Some (c, 1).
Proof. reflexivity. Qed.

Lemma destroy_run y x o :
  tidy y → listed y x o →
  ∃ c' r, udx_stream_destroy ucb (obj_ctx y x o) = Some (c', r) ∧ (begun y x o (leave c') ∨ ended y x o (leave c')).
Proof.
  intros Ht Hx. pose proof (td_ready _ Ht x o Hx) as Hrd. pose proof Hrd as [[out Hc] Hw Hcl Hso Hdy Hrel Hent].
  unfold udx_stream_destroy. set (c := obj_ctx y x o). set (n := (2 * size (w_others (c_world c)))%nat).
  replace (relay_fuel c) with (S (S (S (S n)))) by (unfold relay_fuel; lia). pose proof (running_start y x o Hx) as Hr. fold c in Hr, Hc.
  rewrite stream_destroy_step. change (c_s c) with (o_s o). rewrite Hcl.
  destruct (has (s_status (o_s o)) UDX_STREAM_DESTROYING) eqn:Hd.
  { exists c, 0. split; [done|]. left. apply running_begun; [done|done|by apply dying_dead|]. intros _. destruct (Hdy eq_refl). by apply (ready_after y x o c out). }
  cbv zeta. set (c1 := c <| c_s ::= _ |>).
  assert (running y x o c1) as Hr1 by by apply (running_step y x o c). assert (closable c1 out) as Hc1 by by apply (closable_same c).
  assert (∀ f, Z.land UDX_STREAM_TIMEWAIT_WANTED f = 0 → has (s_status (c_s c1)) f = has (s_status (o_s o)) f) as Hf1 by (intros f; apply has_clear_other).
  assert (has (s_status (c_s c1)) UDX_STREAM_TIMEWAIT_WANTED = false) as Htw1 by apply has_clear_same.
  destruct (Z.land (s_status (c_s c1)) UDX_STREAM_CONNECTED =? 0) eqn:Hcon.
  { destruct (close_run (S (S n)) y x o c1 out Ht Hx Hr1 Hc1) as (c' & -> & He); [by rewrite Hf1|done|done|]. exists c', 0. split; [done|by right]. }
  assert (has (s_status (c_s c1)) UDX_STREAM_CONNECTED = true) as Hcon1 by (unfold has, truthy; by rewrite Hcon).
  rewrite Hf1 in Hcon1 by done. destruct (Hso Hcon1) as [k Ek].
  cbv zeta. set (c2 := c1 <| c_s ::= _ |>).
  assert (running y x o c2) as Hr2 by by apply (running_step y x o c1). assert (closable c2 out) as Hc2 by by apply (closable_same c1).
  assert (has (s_status (c_s c2)) UDX_STREAM_CLOSED = false ∧ has (s_status (c_s c2)) UDX_STREAM_TIMEWAIT_WANTED = false ∧
    has (s_status (c_s c2)) UDX_STREAM_DESTROYING = true) as (Hcl2 & Htw2 & Hd2).
  { unfold c2. cbn [c_s upd_field s_status]. rewrite !has_set_other, Hf1 by done. split; [done|]. split; [done|]. by apply has_set_same. }
  destruct (s_relayed (c_s c2)).
  { destruct (close_run (S (S n)) y x o c2 out Ht Hx Hr2 Hc2) as (c' & -> & He); [done..|]. exists c', 0. split; [done|by right]. }
  set (c3 := c2 <| c_s ::= _ |>). change (s_socket (c_s c3)) with (s_socket (o_s o)). rewrite Ek. cbn [mbind option_bind].
  assert (closable c3 out) as Hc3 by (apply closable_next; [done|by apply Hw]).
  unfold uv_udp_try_send, uv_udp_send. cbn [c_io upd_field].
  match goal with |- context [EvTrySend ?a ?b ?r] => set (ev1 := EvTrySend a b r) end.
  set (c4 := c3 <| c_io := _ |>). destruct (_ =? UV_EAGAIN).
  - match goal with |- context [EvSend ?a ?b ?r] => set (ev2 := EvSend a b r); set (err2 := r) end.
    set (c5 := c4 <| c_io := _ |>). assert (running y x o c5) as Hr5 by by apply (running_step y x o c2). assert (closable c5 out) as Hc5 by by apply (closable_same c3).
    destruct (err2 <? 0).
    + destruct (close_run (S (S n)) y x o (count_sent c5 UDX_HEADER_SIZE) out Ht Hx) as (c' & -> & He); [by apply running_count|by apply (closable_same c5)|done..|].
      exists c', 1. split; [done|by right].
    + exists c5, 1. split; [done|]. left. apply running_begun; [done|done|by apply dying_dead|]. intros _. apply (ready_after y x o c5 out); [done..|rewrite Ek; by eexists|done].
  - assert (running y x o c4) as Hr4 by by apply (running_step y x o c2).
    destruct (close_run (S (S n)) y x o (count_sent c4 UDX_HEADER_SIZE) out Ht Hx) as (c' & -> & He); [by apply running_count|by apply (closable_same c3)|done..|].
    exists c', 1. split; [done|by right].
Qed.
(** ** Destroying a stream *)

(** [x] is closed, in no list and not in the table, and its writes are answered. *)
Record destroyed (y : sys) (x : stream_id) (o : objs) (y' : sys) : Prop := {
  ds_unlisted : ∀ o', ¬ listed y' x o';
  ds_table : w_stream_table (y_world y') !! s_local_id (o_s o) ≠ Some (EntryStream x);
  ds_closed : ∃ o', w_others (y_world y') !! x = Some o' ∧ has (s_status (o_s o')) UDX_STREAM_CLOSED = true ∧
    answered (o_writes o) (o_wbufs o) (o_writes o') (io_log (y_io y')) }.

Lemma ended_destroyed y x o y' : tidy y → listed y x o → ended y x o y' → destroyed y x o y'.
Proof.
  intros Ht Hx (y1 & Hl & Hend). pose proof (λ z oz, left_listed y x o y1 z oz Hl Hx) as Hun.
  destruct (lf_others _ _ _ _ Hl) as (o' & E & Hc & _ & Ha).
  assert (destroyed y x o y1) as Hd.
  { split; [|by rewrite (lf_table _ _ _ _ Hl), lookup_delete_eq|exists o'; by rewrite E, lookup_insert_eq]. intros oz Hz. by destruct (Hun x oz Hz). }
  destruct Hend as [[-> _]|(k & sk & _ & Hk & Es & Hc2)]; [done|]. destruct (closed_lists y1 k sk y' Hk Es Hc2) as [_ Hli].
  destruct Hd as [D1 D2 (oz & D3 & D4 & D5)]. destruct Hc2 as [[= V1 V2 V3 V4 V5 V6] _ _ Ac _ _ Tb]. split.
  - intros o2 Ho2%Hli. by apply (D1 o2).
  - intros Hid. by apply D2, (lookup_weaken _ _ _ _ Hid).
  - exists oz. rewrite V3. split; [done|]. split; [done|]. intros wr w Hw. destruct (D5 wr w Hw) as (w' & ? & ? & ? & Hp). exists w'.
    do 3 (split; [done|]). intros Ho Hb. rewrite Ac. by apply Hp.
Qed.
(** libuv has sent the destroy packet. *)
Lemma destroy_sent_run y x o :
  tidy y → listed y x o → has (s_status (o_s o)) UDX_STREAM_DESTROYING = true →
  ∃ c', stream_on_destroy_send ucb (obj_ctx y x o) = Some c' ∧ ended y x o (leave c').
Proof.
  intros Ht Hx Hd. pose proof (td_ready _ Ht x o Hx) as [[out Hc] _ Hcl _ Hdy Hrel _]. destruct (Hdy Hd) as [Htw [k Ek]].
  unfold stream_on_destroy_send. change (s_socket (c_s (obj_ctx y x o))) with (s_socket (o_s o)). rewrite Ek. cbn [mbind option_bind].
  set (c := obj_ctx y x o) in *. set (n := (2 * size (w_others (c_world c)))%nat).
  replace (relay_fuel c) with (S (S (S (S n)))) by (unfold relay_fuel; lia).
  apply (close_run (S (S (S n))) y x o (count_sent c UDX_HEADER_SIZE) out Ht Hx); [apply running_count, (running_start y x o Hx)|by apply (closable_same c)|done..].
Qed.

End Streams.

(** ** Two sockets, a stream with unacknowledged data, one that was never connected, and a timewait record *)

Section Example.
#[local] Existing Instance example_env.

Definition ending_stream : objs := mk_objs ledger_stream ledger_packets ledger_wbufs {[ 9%positive := mk_write 5 0 false 1 true ]}.
Definition idle_stream : objs := mk_objs (stream_zero <| s_outgoing := Some ∅ |> <| s_local_id := 77 |>) ∅ ∅ ∅.
Definition ending_sys : sys :=
  mk_sys (mk_world 5 false false [1%positive; 6%positive] [2%positive]
            {[ 0 := EntryStream 1; 77 := EntryStream 2; 8 := EntryTimewait 4 ]}
            {[ 1%positive := socket_zero <| sk_streams := [1%positive] |> <| sk_timewait_queue := [4%positive] |>; 6%positive := socket_zero ]}
            {[ 4%positive := mk_timewait 8 1 addr_zero [] None ]} ∅ {[ 1%positive := ending_stream; 2%positive := idle_stream ]} ∅ ∅)
    (mk_io 1000 [] (mk_counters 0 0 0 0) 0 0) 10.

Lemma ending_listed x o : listed ending_sys x o → (x = 1%positive ∧ o = ending_stream) ∨ (x = 2%positive ∧ o = idle_stream).
Proof.
  intros [Ho _]. change (w_others (y_world ending_sys)) with ({[ 1%positive := ending_stream; 2%positive := idle_stream ]} : gmap stream_id objs) in Ho.
  apply lookup_insert_Some in Ho as [[<- <-]|[_ Ho]]; [by left|]. apply lookup_singleton_Some in Ho as [<- <-]. by right.
Qed.

Lemma idle_closable : closable (obj_ctx ending_sys 2 idle_stream) ∅.
Proof.
  split; try done.
  assert (flying (obj_ctx ending_sys 2 idle_stream) = []) as Ef by (vm_compute; reflexivity).
  split; rewrite ?Ef; try done.
  - by intros k []%elem_of_nil.
  - by intros wid []%elem_of_nil.
  - constructor.
  - by intros x [b Hb].
Qed.

Lemma ending_tidy : tidy ending_sys.
Proof.
  split.
  - apply NoDup_singleton.
  - intros x ->%list_elem_of_singleton. by exists idle_stream.
  - intros k sk Hk. change (({[ 1%positive := socket_zero <| sk_streams := [1%positive] |> <| sk_timewait_queue := [4%positive] |>; 6%positive := socket_zero ]} : gmap socket_id socket) !! k = Some sk) in Hk.
    apply lookup_insert_Some in Hk as [[<- <-]|[_ Hk]].
    + split; [split|split; [|split]].
      * apply NoDup_singleton.
      * intros t ->%list_elem_of_singleton. by exists (mk_timewait 8 1 addr_zero [] None).
      * by intros r []%elem_of_nil.
      * apply NoDup_singleton.
      * intros _. by left.
      * intros x ->%list_elem_of_singleton. by exists ending_stream.
    + apply lookup_singleton_Some in Hk as [<- <-]. split; [split; [constructor|by intros t []%elem_of_nil|by intros r []%elem_of_nil]|].
      split; [constructor|]. split; [done|by intros x []%elem_of_nil].
  - split; [by apply (bool_decide_unpack (NoDup [1%positive; 6%positive]))|].
    intros k [->|[->|[]%elem_of_nil]%elem_of_cons]%elem_of_cons; by eexists.
  - intros x o [[-> ->]|[-> ->]]%ending_listed.
    + split; try done. exists example_out. apply (closable_same ledger_ctx); try done. apply ledger_closable.
    + split; try done. exists ∅. apply idle_closable.
  - intros x1 x2 o1 o2 Hne [[-> ->]|[-> ->]]%ending_listed [[-> ->]|[-> ->]]%ending_listed; try done;
      [exact (map_disjoint_empty_r (o_writes ending_stream))|exact (map_disjoint_empty_l (o_writes ending_stream))].
Qed.
End Example.
