(* ===== verification/Teardown.v ===== *)
(** * Tearing down the udx_t (src/udx.c: udx_teardown; src/link.h: udx__link_foreach)

    The walks go on with the [next] field that the element has after it was handled.  An element that was taken out of its list
    keeps the [next] it had then ([w_stream_next], [w_socket_next]). *)

From stdpp Require Import gmap.
From S2P Require Import Prelude SeqNum Endian Wire Cirbuf WinFilter Stream Rtt Mtu Rate Float64 Bbr Ctx Send Packetize Sender Loss Write Ack Convey Ledger Acked Cancel Recv Socket Timers Interface Lifecycle Process Reassembly Closing.

Section Teardown.
Context `{Env}.
Variable ucb : callback → sys → option sys.

(** [stream->next] and [socket->next]. *)
Definition stream_next (y : sys) (sid : stream_id) : option (option stream_id) :=
  o ← w_others (y_world y) !! sid;
  let l := stream_list (y_world y) (o_s o) in
  if decide (sid ∈ l) then Some (link_next l sid) else w_stream_next (y_world y) !! sid.
Definition socket_next (y : sys) (k : socket_id) : option (option socket_id) :=
  if decide (k ∈ w_sockets (y_world y)) then Some (link_next (w_sockets (y_world y)) k) else w_socket_next (y_world y) !! k.

(** The loops over streams; the fuel is the number of elements that the loop may still visit. *)
Fixpoint destroy_streams (fuel : nat) (y : sys) (stream : option stream_id) : option sys :=
  match stream, fuel with
  | None, _ => Some y
  | _, O => None
  | Some sid, S fuel =>
      c ← enter sid y;
      '(c, _) ← udx_stream_destroy ucb c;
      n ← stream_next (leave c) sid;
      destroy_streams fuel (leave c) n
  end.
Definition stream_fuel (y : sys) : nat := size (w_others (y_world y)).

Fixpoint close_sockets (fuel : nat) (y : sys) (socket : option socket_id) : option sys :=
  match socket, fuel with
  | None, _ => Some y
  | _, O => None
  | Some k, S fuel =>
      o ← get_socket y k;
      y ← (match sk_streams o with
           | [] => '(y, _) ← udx_socket_close ucb y k; Some y
           | l => destroy_streams (stream_fuel y) y (head l)
           end);
      n ← socket_next y k;
      close_sockets fuel y n
  end.

(** udx_interface_event_close unlinks nothing. *)
Fixpoint close_listeners (y : udx_listeners) (l : list positive) : option udx_listeners :=
  match l with
  | [] => Some y
  | h :: l => '(y, _) ← udx_interface_event_close y h; close_listeners y l
  end.

Definition udx_teardown (u : udx_listeners) : option udx_listeners :=
  let y := ui_sys u <| y_world ::= λ w, w <| w_teardown := true |> |> in
  y ← close_sockets (size (w_socket_objs (y_world y))) y (head (w_sockets (y_world y)));
  y ← destroy_streams (stream_fuel y) y (head (w_streams (y_world y)));
  close_listeners (u <| ui_sys := y |>) (ui_listeners u).

End Teardown.

(** ** Every element is visited, and ends *)

Section Walks.
Context `{Env}.
Variable ucb : callback → sys → option sys.
Hypothesis Hucb : ∀ k y, ucb k y = Some y.

(** ** The walks *)

Lemma next_here pre x rest : NoDup (pre ++ x :: rest) → link_next (pre ++ x :: rest) x = head rest.
Proof.
  induction pre as [|z pre IH]; cbn [app link_next]; [by rewrite decide_True|]. intros [Hz Hn]%NoDup_cons. rewrite decide_False; [by apply IH|].
  intros ->. apply Hz. rewrite elem_of_app. right. by left.
Qed.
Lemma remove_here pre x rest : NoDup (pre ++ x :: rest) → udx__link_remove (pre ++ x :: rest) x = pre ++ rest ∧ x ∉ pre ++ rest.
Proof.
  intros Hn. apply NoDup_app in Hn as (_ & Hd & [Hx _]%NoDup_cons).
  assert (x ∉ pre ++ rest) as Hni by (rewrite elem_of_app; intros [Hp|]; [by destruct (Hd x Hp); left|done]).
  split; [|done]. unfold udx__link_remove. rewrite list.filter_app, filter_cons_False by (by intros []). rewrite elem_of_app in Hni.
  f_equal; apply filter_id; intros z Hz ->; apply Hni; [by left|by right].
Qed.

(** The list of streams of a socket, or of those that have none. *)
Definition list_at (y : sys) (j : option socket_id) : list stream_id :=
  match j with
  | Some k => match get_socket y k with Some sk => sk_streams sk | None => [] end
  | None => w_streams (y_world y)
  end.
Lemma stream_list_at y s : stream_list (y_world y) s = list_at y (s_socket s).
Proof. reflexivity. Qed.
Lemma list_listed y j x : tidy y → x ∈ list_at y j → ∃ o, listed y x o ∧ s_socket (o_s o) = j.
Proof.
  intros Ht Hx. destruct j as [k|].
  - unfold list_at in Hx. destruct (get_socket y k) as [sk|] eqn:Hk; [|by apply elem_of_nil in Hx].
    destruct (td_socket _ Ht k sk Hk) as (_ & _ & _ & S). destruct (S x Hx) as (o & Ho & Es). exists o. split; [|done]. split; [done|].
    rewrite stream_list_at, Es. unfold list_at. by rewrite Hk.
  - destruct (td_home _ Ht x Hx) as (o & Ho & Es). exists o. split; [|done]. split; [done|]. by rewrite stream_list_at, Es.
Qed.
Lemma list_nodup y j : tidy y → NoDup (list_at y j).
Proof.
  intros Ht. destruct j as [k|]; [|apply Ht]. unfold list_at. destruct (get_socket y k) as [sk|] eqn:Hk; [|constructor].
  by destruct (td_socket _ Ht k sk Hk) as (_ & ? & _).
Qed.

Definition closed_at (y : sys) (k : socket_id) : Prop := ∃ sk, get_socket y k = Some sk ∧ has (sk_status sk) UDX_SOCKET_CLOSED = true.

(** What ends stays ended. *)
Record wound (y y' : sys) : Prop := {
  wd_teardown : w_teardown (y_world y') = w_teardown (y_world y);
  wd_dead : ∀ x, dead_at y x → dead_at y' x;
  wd_closed : ∀ k, closed_at y k → closed_at y' k }.
#[global] Instance wound_refl : Reflexive wound.
Proof. by split. Qed.
#[global] Instance wound_trans : Transitive wound.
Proof. intros y1 y2 y3 [A1 A2 A3] [B1 B2 B3]. split; [congruence|auto..]. Qed.

(** Where sockets are: as before, or the socket [j] lost its last stream and was closed. *)
Definition socks (j : option socket_id) (y y' : sys) : Prop :=
  ((w_sockets (y_world y'), w_socket_next (y_world y')) = (w_sockets (y_world y), w_socket_next (y_world y)) ∧
    (is_Some j → list_at y' j = [] → list_at y j = [])) ∨
  ∃ k, j = Some k ∧ w_sockets (y_world y') = udx__link_remove (w_sockets (y_world y)) k ∧
    w_socket_next (y_world y') !! k = Some (link_next (w_sockets (y_world y)) k) ∧ closed_at y' k ∧ list_at y' j = [].

Lemma closed_status f : has f UDX_STREAM_CLOSED = true → has f UDX_STREAM_DEAD = true.
Proof.
  unfold has, truthy. rewrite !negb_true_iff, !Z.eqb_neq. intros Hn E. apply Hn.
  change UDX_STREAM_CLOSED with (Z.land UDX_STREAM_DEAD UDX_STREAM_CLOSED). by rewrite Z.land_assoc, E.
Qed.

Lemma dead_insert y y' x o' :
  w_others (y_world y') = <[x := o']> (w_others (y_world y)) → dead_obj o' → ∀ z, dead_at y z ∨ z = x → dead_at y' z.
Proof.
  intros E Hd z Hz. unfold dead_at. rewrite E. destruct (decide (z = x)) as [->|Hne]; [rewrite lookup_insert_eq; by exists o'|].
  rewrite lookup_insert_ne by done. by destruct Hz.
Qed.
Lemma closed_bare y y' k : snd ∘ fst ∘ fst <$> bare_socket y' k = snd ∘ fst ∘ fst <$> bare_socket y k → closed_at y k → closed_at y' k.
Proof.
  unfold bare_socket. intros E (sk & Hk & Hc). rewrite Hk in E. destruct (get_socket y' k) as [sk'|] eqn:Hk'; [|done].
  cbn in E. injection E as E. exists sk'. split; [done|congruence].
Qed.

(** One step of the walk. *)
Record walked (y : sys) (j : option socket_id) (x : stream_id) (rest : list stream_id) (y' : sys) : Prop := {
  wk_wound : wound y y';
  wk_next : stream_next y' x = Some (head rest);
  wk_rest : ∃ pre, list_at y' j = pre ++ rest;
  wk_others : ∀ i, i ≠ j → list_at y' i = list_at y i;
  wk_dead : dead_at y' x;
  wk_socks : socks j y y' }.

Lemma begun_walked y j x o pre rest y' :
  tidy y → list_at y j = pre ++ x :: rest → listed y x o → s_socket (o_s o) = j → begun y x o y' → walked y j x rest y'.
Proof.
  intros Ht El Hx Ej Hb. pose proof (begun_lists _ _ _ _ Hb) as Hl. pose proof (list_nodup y j Ht) as Hn. rewrite El in Hn.
  destruct Hb as [[= V1 V2 V3 V4 V5 V6 V7 V8 V9] Hs Ha (o' & E & Hd & [= E1 _ _ _] & _)].
  assert (∀ i, list_at y' i = list_at y i) as Hli by (intros i; exact (Hl (o_s o <| s_socket := i |>))).
  pose proof (dead_insert _ _ _ _ E Hd) as Hdead. split.
  - split; [done|auto|]. intros k. apply closed_bare. by rewrite Hs.
  - unfold stream_next. rewrite E, lookup_insert_eq. cbn [mbind option_bind]. rewrite stream_list_at, E1, Ej, Hli, El.
    rewrite decide_True by (rewrite elem_of_app; right; by left). by rewrite next_here.
  - exists (pre ++ [x]). rewrite Hli, El, <- app_assoc. done.
  - by intros i _.
  - apply Hdead. by right.
  - left. split; [congruence|]. intros _. by rewrite Hli.
Qed.

Lemma left_walked y j x o pre rest y' :
  tidy y → list_at y j = pre ++ x :: rest → listed y x o → s_socket (o_s o) = j → departed y x o y' →
  wound y y' ∧ stream_next y' x = Some (head rest) ∧ list_at y' j = pre ++ rest ∧ (∀ i, i ≠ j → list_at y' i = list_at y i) ∧ dead_at y' x ∧
  (w_sockets (y_world y'), w_socket_next (y_world y')) = (w_sockets (y_world y), w_socket_next (y_world y)).
Proof.
  intros Ht El Hx Ej Hlf. pose proof (left_lists _ _ _ _ Hlf) as Hl. pose proof (list_nodup y j Ht) as Hn. rewrite El in Hn.
  destruct (remove_here _ _ _ Hn) as [Hrm Hni].
  destruct Hlf as [[= V1 V2 V3 V4 V5 V6] _ Hnx _ Hs _ (o' & E & Hd & E1 & _)].
  assert (∀ i, list_at y' i = if decide (i = j) then udx__link_remove (list_at y i) x else list_at y i) as Hli.
  { intros i. rewrite <- Ej. exact (Hl (o_s o <| s_socket := i |>)). }
  pose proof (dead_insert _ _ _ _ E (closed_status _ Hd)) as Hdead.
  assert (list_at y' j = pre ++ rest) as Elj by (rewrite Hli, decide_True by done; by rewrite El).
  split; [split; [done|auto|]|].
  - intros k. apply closed_bare. rewrite Hs. by destruct (bare_socket y k) as [[[[]]]|].
  - split; [|split; [done|split; [intros i Hi; by rewrite Hli, decide_False|split; [apply Hdead; by right|congruence]]]].
    unfold stream_next. rewrite E, lookup_insert_eq. cbn [mbind option_bind]. rewrite stream_list_at, E1, Ej, Elj, decide_False by done.
    rewrite Hnx, lookup_insert_eq, stream_list_at, Ej, El. by rewrite next_here.
Qed.
Lemma closed_effect y k sk y' :
  get_socket y k = Some sk → sk_streams sk = [] → socket_closed y k sk y' →
  wound y y' ∧ (∀ i, list_at y' i = list_at y i) ∧ (∀ x, stream_next y' x = stream_next y x) ∧
  w_sockets (y_world y') = udx__link_remove (w_sockets (y_world y)) k ∧
  w_socket_next (y_world y') !! k = Some (link_next (w_sockets (y_world y)) k) ∧ closed_at y' k.
Proof.
  intros Hk Es Hc. destruct (closed_lists y k sk y' Hk Es Hc) as [Hl _].
  destruct Hc as [[= V1 V2 V3 V4 V5 V6] [L1 L2] (sk' & O1 & O2 & O3 & _) _ _ _ _].
  assert (∀ i, list_at y' i = list_at y i) as Hli by (intros i; exact (Hl (stream_zero <| s_socket := i |>))).
  assert (closed_at y' k) as Hck by (exists sk'; unfold get_socket; by rewrite O1, lookup_insert_eq).
  split; [split; [done| |]|split; [done|split; [|split; [done|split; [by rewrite L2, lookup_insert_eq|done]]]]].
  - intros x. unfold dead_at. by rewrite V3.
  - intros i (si & Hi & Hci). destruct (decide (i = k)) as [->|Hne]; [done|]. exists si. unfold get_socket. by rewrite O1, lookup_insert_ne.
  - intros x. unfold stream_next. rewrite V3. destruct (w_others (y_world y) !! x) as [o|]; [|done]. cbn [mbind option_bind]. by rewrite Hl, V4.
Qed.

Lemma ended_walked y j x o pre rest y' :
  tidy y → w_teardown (y_world y) = true → list_at y j = pre ++ x :: rest → listed y x o → s_socket (o_s o) = j → ended y x o y' →
  walked y j x rest y'.
Proof.
  intros Ht Htd El Hx Ej (y1 & Hlf & Hend). destruct (left_walked y j x o pre rest y1 Ht El Hx Ej Hlf) as (W1 & N1 & E1 & O1 & D1 & [= S1 S2]).
  destruct Hend as [[-> Hn]|(k & sk & Ek & Hk & Es & Hc)].
  - split; try done; [by exists pre|]. left. split; [congruence|]. intros [k ->] El1. unfold list_at in El1.
    destruct (get_socket y1 k) as [sk|] eqn:Hk; [by destruct (Hn Htd k sk)|].
    unfold list_at in El. destruct (get_socket y k) as [sk|] eqn:Hk0; [|by destruct pre].
    pose proof (lf_sockets _ _ _ _ Hlf k) as Hb. unfold bare_socket in Hb. by rewrite Hk, Hk0 in Hb.
  - assert (j = Some k) as -> by congruence. destruct (closed_effect y1 k sk y' Hk Es Hc) as (W2 & L2 & N2 & S3 & S4 & C2).
    assert (list_at y1 (Some k) = []) as El1 by (unfold list_at; by rewrite Hk).
    split.
    + by transitivity y1.
    + by rewrite N2.
    + exists pre. by rewrite L2.
    + intros i Hi. rewrite L2. by apply O1.
    + by apply W2.
    + right. exists k. split; [done|]. rewrite S3, S4, S1, L2. done.
Qed.

Lemma destroy_step y j x pre rest :
  tidy y → w_teardown (y_world y) = true → list_at y j = pre ++ x :: rest →
  ∃ c c' r, enter x y = Some c ∧ udx_stream_destroy ucb c = Some (c', r) ∧ tidy (leave c') ∧ walked y j x rest (leave c').
Proof.
  intros Ht Htd El. destruct (list_listed y j x Ht) as (o & Hx & Ej); [rewrite El, elem_of_app; right; by left|].
  destruct (destroy_run ucb Hucb y x o Ht Hx) as (c' & r & E & Hcase). exists (obj_ctx y x o), c', r.
  split; [unfold enter; by rewrite (proj1 Hx)|]. split; [done|]. destruct Hcase as [Hb|He].
  - split; [by apply (tidy_begun y x o)|by apply (begun_walked y j x o pre rest)].
  - split; [by apply (tidy_ended y x o)|by apply (ended_walked y j x o pre rest)].
Qed.

Lemma socks_trans j y1 y2 y3 rest pre :
  socks j y1 y2 → list_at y2 j = pre ++ rest → rest ≠ [] → socks j y2 y3 → socks j y1 y3.
Proof.
  intros [[[= A1 A2] A3]|(k & _ & _ & _ & _ & A)] El Hr.
  - intros [[[= B1 B2] B3]|(k & -> & B1 & B2 & B3 & B4)]; [left; split; [congruence|auto]|]. right. exists k. by rewrite <- A1.
  - rewrite El in A. by destruct pre.
Qed.

Lemma destroy_streams_run fuel y j pre rest :
  tidy y → w_teardown (y_world y) = true → list_at y j = pre ++ rest → (length rest <= fuel)%nat →
  ∃ y', destroy_streams ucb fuel y (head rest) = Some y' ∧ tidy y' ∧ wound y y' ∧ (∀ i, i ≠ j → list_at y' i = list_at y i) ∧
    (∀ x, x ∈ rest → dead_at y' x) ∧ socks j y y'.
Proof.
  revert y pre rest. induction fuel as [|fuel IH]; intros y pre rest Ht Htd El Hf; destruct rest as [|x rest]; cbn [length] in Hf; try lia.
  1, 2: exists y; split; [done|]; split; [done|]; split; [done|]; split; [done|]; split; [by intros x []%elem_of_nil|by left].
  cbn [head destroy_streams]. destruct (destroy_step y j x pre rest Ht Htd El) as (c & c' & r & -> & E & Ht1 & [W1 W2 [pre' W3] W4 W5 W6]).
  cbn [mbind option_bind]. rewrite E. cbn [mbind option_bind]. rewrite W2. cbn [mbind option_bind].
  destruct rest as [|z rest].
  { exists (leave c'). split; [by destruct fuel|]. do 3 (split; [done|]). split; [|done]. by intros ? ->%list_elem_of_singleton. }
  destruct (IH (leave c') pre' (z :: rest) Ht1) as (y' & -> & Ht' & K1 & K2 & K3 & K4); [by rewrite (wd_teardown _ _ W1)|done|lia|].
  exists y'. split; [done|]. split; [done|]. split; [by transitivity (leave c')|]. split; [intros i Hi; rewrite K2 by done; by apply W4|]. split.
  - intros v [->|Hv]%elem_of_cons; [by apply K1|by apply K3].
  - by apply (socks_trans j y (leave c') y' (z :: rest) pre').
Qed.
(** The fuel covers every stream. *)
Lemma list_short y j : tidy y → (length (list_at y j) <= stream_fuel y)%nat.
Proof.
  intros Ht. unfold stream_fuel. rewrite <- length_map_to_list, <- (length_fmap fst). apply submseteq_length, NoDup_submseteq; [by apply list_nodup|].
  intros x (o & [Ho _] & _)%(list_listed y j x Ht). apply list_elem_of_fmap. exists (x, o). split; [done|by apply elem_of_map_to_list].
Qed.

(** A socket without streams is closed. *)
Definition served (y : sys) (k : socket_id) : Prop := list_at y (Some k) = [] → closed_at y k.

Lemma socket_step y k pre rest :
  tidy y → w_teardown (y_world y) = true → w_sockets (y_world y) = pre ++ k :: rest →
  ∃ sk y', get_socket y k = Some sk ∧
    (match sk_streams sk with
     | [] => '(y, _) ← udx_socket_close ucb y k; Some y
     | l => destroy_streams ucb (stream_fuel y) y (head l)
     end) = Some y' ∧ tidy y' ∧ wound y y' ∧ (∀ i, i ≠ Some k → list_at y' i = list_at y i) ∧ served y' k ∧
    (∀ x, x ∈ list_at y (Some k) → dead_at y' x) ∧ socket_next y' k = Some (head rest) ∧ ∃ pre', w_sockets (y_world y') = pre' ++ rest.
Proof.
  intros Ht Htd Ek. destruct (td_sockets _ Ht) as [Hn Hall]. rewrite Ek in Hn.
  destruct (Hall k) as [sk Hk]; [rewrite Ek, elem_of_app; right; by left|].
  destruct (remove_here _ _ _ Hn) as [Hrm Hni]. pose proof (next_here _ _ _ Hn) as Hnx.
  assert (list_at y (Some k) = sk_streams sk) as El by (unfold list_at; by rewrite Hk).
  assert (∀ y', w_sockets (y_world y') = udx__link_remove (w_sockets (y_world y)) k →
    w_socket_next (y_world y') !! k = Some (link_next (w_sockets (y_world y)) k) →
    socket_next y' k = Some (head rest) ∧ ∃ pre', w_sockets (y_world y') = pre' ++ rest) as Hout.
  { intros y'. rewrite Ek, Hrm, Hnx. intros E1 E2. unfold socket_next. rewrite E1, decide_False by done. split; [done|by exists pre]. }
  exists sk. destruct (sk_streams sk) as [|z l] eqn:Es.
  - destruct (socket_close_run ucb Hucb y k sk Hk (proj1 (td_socket _ Ht k sk Hk)) Es) as (y' & E & Hc).
    destruct (closed_effect y k sk y' Hk Es Hc) as (W & L & _ & S1 & S2 & C). exists y'. rewrite E. split; [done|]. split; [done|].
    split; [by apply (tidy_closed y k sk)|]. split; [done|]. split; [done|]. split; [by intros _|]. split; [rewrite El; by intros x []%elem_of_nil|].
    by apply Hout.
  - destruct (destroy_streams_run (stream_fuel y) y (Some k) [] (z :: l) Ht Htd El) as (y' & E & Ht' & W & L & D & S).
    { rewrite <- El. by apply list_short. }
    exists y'. split; [done|]. split; [exact E|]. split; [done|]. split; [done|]. split; [done|].
    destruct S as [[[= S1 S2] S3]|(k' & [= <-] & S1 & S2 & S3 & S4)].
    + split; [|split; [by rewrite El|]].
      * intros E0. specialize (S3 ltac:(by eexists) E0). rewrite El in S3. done.
      * unfold socket_next. rewrite S1, Ek. rewrite decide_True by (rewrite elem_of_app; right; by left). rewrite Hnx.
        split; [done|]. exists (pre ++ [k]). by rewrite <- app_assoc.
    + split; [by intros _|]. split; [by rewrite El|]. by apply Hout.
Qed.

Lemma close_sockets_run fuel y pre rest :
  tidy y → w_teardown (y_world y) = true → w_sockets (y_world y) = pre ++ rest → (length rest <= fuel)%nat → NoDup rest →
  ∃ y', close_sockets ucb fuel y (head rest) = Some y' ∧ tidy y' ∧ wound y y' ∧
    (∀ i, (∀ k, i = Some k → k ∉ rest) → list_at y' i = list_at y i) ∧
    ∀ k, k ∈ rest → served y' k ∧ ∀ x, x ∈ list_at y (Some k) → dead_at y' x.
Proof.
  revert y pre rest. induction fuel as [|fuel IH]; intros y pre rest Ht Htd Ek Hf Hn; destruct rest as [|k rest]; cbn [length] in Hf; try lia.
  1, 2: exists y; split; [done|]; split; [done|]; split; [done|]; split; [done|by intros k []%elem_of_nil].
  apply NoDup_cons in Hn as [Hk Hn]. cbn [head close_sockets].
  destruct (socket_step y k pre rest Ht Htd Ek) as (sk & y1 & Hsk & E & Ht1 & W1 & L1 & S1 & D1 & N1 & pre' & P1).
  cbn [head] in E. rewrite Hsk. cbn [mbind option_bind]. rewrite E. cbn [mbind option_bind]. rewrite N1. cbn [mbind option_bind].
  destruct (IH y1 pre' rest Ht1) as (y' & -> & Ht' & W2 & L2 & H2); [by rewrite (wd_teardown _ _ W1)|done|lia|done|].
  exists y'. split; [done|]. split; [done|]. split; [by transitivity y1|]. split.
  - intros i Hi. rewrite L2, L1; [done| |].
    + intros ->. apply (Hi k); [done|by left].
    + intros k' -> ?. apply (Hi k'); [done|by right].
  - intros k' [->|Hk']%elem_of_cons.
    + split.
      * intros E0. apply W2, S1. rewrite <- E0. symmetry. apply L2. by intros ? [= <-].
      * intros x Hx. by apply W2, D1.
    + destruct (H2 k' Hk') as [S2 D2]. split; [done|]. intros x Hx. apply D2. rewrite L1; [done|]. intros [= ->]. done.
Qed.

Lemma close_listeners_run l u :
  (∀ h, h ∈ l → is_Some (ui_handles u !! h)) →
  ∃ u', close_listeners u l = Some u' ∧ ui_sys u' = ui_sys u ∧
    (∀ h e, ui_handles u !! h = Some e → ∃ e', ui_handles u' !! h = Some e' ∧ (ie_closing e = true → ie_closing e' = true)) ∧
    ∀ h, h ∈ l → ∃ e, ui_handles u' !! h = Some e ∧ ie_closing e = true.
Proof.
  revert u. induction l as [|h l IH]; intros u Hl; cbn [close_listeners].
  { exists u. split; [done|]. split; [done|]. split; [intros h e He; by exists e|by intros h []%elem_of_nil]. }
  destruct (Hl h) as [e He]; [by left|]. unfold udx_interface_event_close. rewrite He. cbn [mbind option_bind].
  set (m := if ie_closing e then _ else _).
  assert (∃ u1 r, m = Some (u1, r) ∧ ui_sys u1 = ui_sys u ∧ (∃ e1, ui_handles u1 = <[h := e1]> (ui_handles u) ∧ ie_closing e1 = true))
    as (u1 & r & -> & E1 & e1 & E2 & E3).
  { unfold m. destruct (ie_closing e) eqn:Ec; do 2 eexists; (split; [reflexivity|]); (split; [done|]).
    - exists e. by rewrite insert_id.
    - eexists. by split. }
  cbn [mbind option_bind]. destruct (IH u1) as (u' & -> & F1 & F2 & F3).
  { intros h' Hh. rewrite E2. destruct (decide (h' = h)) as [->|]; [rewrite lookup_insert_eq; by eexists|]. rewrite lookup_insert_ne by done.
    apply Hl. by right. }
  exists u'. split; [done|]. split; [congruence|]. split.
  - intros h' e' He'. destruct (decide (h' = h)) as [->|].
    + destruct (F2 h e1) as (e2 & ? & H2); [by rewrite E2, lookup_insert_eq|]. exists e2. auto.
    + apply F2. by rewrite E2, lookup_insert_ne.
  - intros h' [->|Hh]%elem_of_cons; [|by apply F3]. destruct (F2 h e1) as (e2 & ? & H2); [by rewrite E2, lookup_insert_eq|]. exists e2. auto.
Qed.

End Walks.

(** ** The system of Closing.v with a listener *)

Section Example.
#[local] Existing Instance example_env.

Definition ending_udx : udx_listeners := mk_udx_listeners ending_sys [3%positive] {[ 3%positive := example_listener ]}.

End Example.
