(* ===== verification/Scenarios.v ===== *)
(** * Runs of the whole model

    Two streams of one process, ids 5 and 6, on one socket, over a kernel that takes every
    datagram.  The runs go through the definitions of all other files: opening, connecting,
    writing, packetization, transmission, reception, acknowledgement. *)

From S2P Require Import Prelude SeqNum Endian Wire Cirbuf WinFilter Stream Rtt Mtu Rate Float64 Bbr Ctx Send Loss Write Ack Recv Socket Lifecycle Process.

#[local] Instance env0 : Env := {
  env_host := UDX_LE; env_try_send := λ _ _ _, 0; env_send := λ _ _ _, 0;
  env_read_buffer_size := λ _, 0; env_firewall := λ _, false }.
(** User code that does nothing. *)
Definition ucb0 : callback → sys → option sys := λ _ y, Some y.

Definition sys0 : sys := (udx_socket_init
  (mk_sys (udx_init false) (mk_io 1000 [] (mk_counters 0 0 0 0) 0 0) 100%positive) 1%positive true).1.
Definition loopback : sockaddr := mk_sockaddr AF_INET 9 [127; 0; 0; 1].

(** A stream with id [lid], reading, connected to the stream [rid]. *)
Definition open_stream (lid rid : Z) : option ctx :=
  r ← udx_stream_init sys0 2%positive lid true true;
  match r with
  | inl c =>
      '(c, _) ← udx_stream_connect ucb0 (c <| c_s ::= λ s, (udx_stream_read_start s).1 |>) 1%positive rid loopback (-1);
      Some c
  | inr _ => None
  end.

Definition after_ms (n : Z) (c : ctx) : sys := leave c <| y_io ::= λ i, i <| io_now ::= λ t, t + n |> |>.
Definition last_datagram (c : ctx) : list Z :=
  match io_log (c_io c) with EvTrySend _ b _ :: _ => b | _ => [] end.
Definition receive (y : sys) (datagram : list Z) : option ctx :=
  '(y, _) ← process_packet ucb0 y 1%positive datagram loopback; enter 2%positive y.

(** Stream 5 writes two bytes; the loop's prepare phase sends them. *)
Definition write_run : option ctx :=
  c ← open_stream 5 6;
  '(c, _) ← udx_stream_write c 50%positive 2%positive [[104; 105]] true;
  on_pending_packet_prepare c.
Definition read_run : option ctx := c ← write_run; d ← open_stream 6 5; receive (leave d) (last_datagram c).
Definition acked_run : option ctx := c ← write_run; d ← read_run; receive (after_ms 30 c) (last_datagram d).

(** What stream 6 is given to read, and what becomes of the write when its ACK arrives. *)
Definition reads (c : ctx) : list (list Z) :=
  reverse (omap (λ e, match e with EvCallback (CbRead _ d) => Some d | _ => None end) (io_log (c_io c))).
Definition acks (c : ctx) : list (positive * Z) :=
  reverse (omap (λ e, match e with EvCallback (CbAck w status _) => Some (w, status) | _ => None end) (io_log (c_io c))).

(** The bytes written arrive, in one read, and the write is acknowledged with status 0. *)
Lemma write_read_ack :
  (reads <$> read_run) = Some [[104; 105]] ∧
  ((λ c, (acks c, s_remote_acked (c_s c), s_inflight_queue (c_s c))) <$> acked_run) = Some ([(50%positive, 0)], 1, []).
Proof. vm_compute. done. Qed.

(** Stream 5 ends its side: an END packet without data is in flight. *)
Definition end_run : option ctx :=
  c ← open_stream 5 6; '(c, _) ← udx_stream_write_end c 50%positive 2%positive [] true; Some c.
(** A datagram that selectively acknowledges packet 0 and acknowledges nothing. *)
Definition sack_of_end : list Z := header_bytes UDX_LE UDX_HEADER_SACK 5 4194304 0 0 ++ put_words UDX_LE [0; 1].

(** The peer can make an assertion of bbr_main fail: ack_packet answers 2 when a SACK takes the last packet,
    [delivered] does not grow, and the rate sample has no bandwidth. *)
Lemma sack_of_end_fails :
  (λ c, (s_seq (c_s c), length (s_inflight_queue (c_s c)))) <$> end_run = Some (1, 1%nat) ∧
  (c ← end_run; process_packet ucb0 (after_ms 30 c) 1%positive sack_of_end loopback) = None.
Proof. vm_compute. done. Qed.

(** ** The callbacks of writes at the edges *)

(** One write of two buffers, the second empty: the ACK completes it after the first buffer and again after
    the second, and the user, who may free the request in the callback, is called twice. *)
Definition two_bufs_run : option ctx :=
  c ← open_stream 5 6;
  '(c, _) ← udx_stream_write c 50%positive 2%positive [[104; 105]; []] true;
  c ← on_pending_packet_prepare c;
  d ← open_stream 6 5; d ← receive (leave d) (last_datagram c);
  receive (after_ms 30 c) (last_datagram d).
Lemma empty_buffer_acked_twice :
  acks <$> two_bufs_run = Some [(50%positive, 0); (50%positive, 0)].
Proof. vm_compute. done. Qed.

(** User code that destroys the stream when its first write is acknowledged. *)
Definition ucb_destroy (k : callback) (y : sys) : option sys :=
  match k with
  | CbAck _ 0 _ => c ← enter 2%positive y; '(c, _) ← udx_stream_destroy ucb0 c; Some (leave c)
  | _ => Some y
  end.
(** Two writes in one packet: the second is neither acknowledged nor cancelled. *)
Definition two_writes_run : option ctx :=
  c ← open_stream 5 6;
  '(c, _) ← udx_stream_write c 50%positive 2%positive [[104; 105]] true;
  '(c, _) ← udx_stream_write c 51%positive 2%positive [[106]] true;
  c ← on_pending_packet_prepare c;
  d ← open_stream 6 5; d ← receive (leave d) (last_datagram c);
  '(y, _) ← process_packet ucb_destroy (after_ms 30 c) 1%positive (last_datagram d) loopback; enter 2%positive y.
Lemma destroy_in_ack_forgets_writes :
  (λ c, (acks c, has (s_status (c_s c)) UDX_STREAM_CLOSED)) <$> two_writes_run = Some ([(50%positive, 0)], true).
Proof. vm_compute. done. Qed.

(** An empty buffer written while the peer's window is zero starts the zero-window timer with nothing queued,
    and the timer's assertion fails. *)
Definition zero_window_run : option ctx :=
  c ← open_stream 5 6;
  '(c, _) ← udx_stream_write (c <| c_s ::= λ s, s <| s_wnd ::= λ w, w <| send_rwnd := 0 |> |> |>) 50%positive 2%positive [[]] true;
  Some c.
Lemma empty_write_fails_zwp :
  (λ c, s_pending_timer (c_s c)) <$> zero_window_run = Some UDX_TIMER_ZWP ∧
  (c ← zero_window_run; on_stream_timer ucb0 c) = None.
Proof. vm_compute. done. Qed.

(** ** Timers while the destroy packet waits *)

(** A kernel that takes every datagram but the destroy packet, which it queues. *)
#[local] Instance env_busy : Env := {
  env_host := UDX_LE;
  env_try_send := λ _ _ b, if has (nth 2 b 0) UDX_HEADER_DESTROY then UV_EAGAIN else 0;
  env_send := λ _ _ _, 0; env_read_buffer_size := λ _, 0; env_firewall := λ _, false }.
(** The user destroys a stream with a packet in flight; the stream stays open, its timers run. *)
Definition destroy_run : option ctx :=
  c ← open_stream 5 6;
  '(c, _) ← udx_stream_write c 50%positive 2%positive [[104; 105]] true;
  c ← on_pending_packet_prepare c;
  '(c, _) ← udx_stream_destroy ucb0 c;
  on_stream_timer ucb0 c.
(** The next timeout fails the assertion of send_packets. *)
Lemma destroying_timeout_fails :
  (λ c, (has (s_status (c_s c)) UDX_STREAM_DESTROYING, s_pending_timer (c_s c))) <$> destroy_run = Some (true, UDX_TIMER_RTO) ∧
  (c ← destroy_run; on_stream_timer ucb0 c) = None.
Proof. vm_compute. done. Qed.
